(* ===== verification/_CoqProject ===== *)
-Q . S2P
Prelude.v
PyBytes.v
PyStr.v
Sha256.v
PyJson.v
Regex.v
RegexLines.v
LineTemplate.v
Contract.v
ContractTheory.v
Cold.v
Handoff.v
Ownership.v
Firmware.v
Artifact.v
Telemetry.v
Payload.v
Utf8.v
PyFloat.v
Argparse.v
Io.v
Session.v
Commands.v
Verdicts.v
Gate.v
Series.v
UsbArm.v
Boots.v
GateM2.v
GateM3.v
GateM4.v
GateM5.v
GateM6.v
GateM6Net.v
GateM6Combined.v
GateM8.v
GateM7Baseline.v
GateM7.v
GateM1.v
Gdma.v
SourceText.v
ContractTests.v
ParserTests.v
GateBoard.v
BindPatches.v
BindSources.v
JsonText.v
RunLog.v
Scripts.v
CommandLines.v
