(* ===== verification/Prelude.v ===== *)
(** * MicroNUX host tools: verification development

    MicroNUX boots Linux without an MMU on an ESP32-P4.  The Python programs of the
    repository are its host side: encoders and validators of the binary contracts
    between the loader and the kernel, the generator of the panel's command file,
    audits of the build's output, and the gates, which reset a board, talk to it
    over a serial port and decide from the console text whether a milestone holds.
    This development models those programs and proves what their verdicts mean.

    ** The parts and where they are modelled

    Foundations, used by everything else:
    - [Prelude]: Python's exceptions as the error monad [result], loops over it, the
      lemmas and tactics on them.
    - [PyBytes]: [struct], [zlib.crc32]; [PyStr]: strings, [int()], formatting;
      [Utf8]: decoding with replacement, encoding, line splitting; [Sha256]:
      [hashlib]; [PyJson]: JSON values and [repr]; [PyFloat]: [float()] and [.3f];
      [Argparse]: [argparse], as far as the scripts use it.
    - [Regex]: the backtracking semantics of the part of [re] the scripts use;
      [RegexLines] and [LineTemplate]: a search over lines, and lines printed from a
      template are read back by the template's expression.
    - [Io]: a [host] is the record of the operations of pyserial, the clock,
      [subprocess] and the file system that the scripts call; the gates are programs
      in a state and exception monad over an arbitrary host.

    Contracts (scripts/m9-2-display-contract-test.py):
    - [Contract], [ContractTheory]: fields, formats, address map.
    - [Cold]: [validate_cold_relinquish]; [Handoff]: [validate_handoff];
      [Ownership]: [OwnershipModel], the triple buffer; [Gdma]: the register masks of
      [gdma_enable_semantics_valid]; [ContractTests]: the script's own self-tests.
    - [SourceText]: searching the repository's text, and running checks of it;
      [BindPatches], [BindSources]: the checks of [bind_to_sources], in its order, over
      the kernel patches and over everything else, then [main] and the script.

    Build tools:
    - [Firmware], [Artifact]: micronux-jd9365-firmware/generate_firmware.py and its
      JSON source; [Payload]: scripts/m3-pack.py, scripts/check-bflt-wx.py and the
      gate's [verify_boot_payload]; [Series]: scripts/check-linux-patch-series.py.

    Gates:
    - [Telemetry] (parsers and log checks), [Session] (serial session), [Commands]
      (the shell text that is sent), [Verdicts] (judgements of replies) and [Gate]
      (modes and [main]) are scripts/m9-hardware-test.py; [UsbArm] is
      scripts/usb-reset-arm.py.
    - [Boots] holds what the other gates share; [GateM2], [GateM3], [GateM4],
      [GateM5], [GateM6], [GateM6Net], [GateM6Combined], [GateM8], [GateM7Baseline]
      and [GateM7] are scripts/m2-test.py, m3-test.py, m4-test.py, m5-test.py,
      m6-test.py, m6-network-test.py, m6-combined-test.py, m8-device-test.py,
      m7-baseline-test.py and m7-test.py.
    - [GateM1] is scripts/m1-test.py, which runs the image in QEMU, over a host of its own,
      [qemu_host].
    - [ParserTests] is scripts/m9-hardware-telemetry-test.py and [test_hardware_parser]
      of the contract test: tests of the parsers of [Telemetry] and [Session].
    - [RunLog] is scripts/m9-run-logged.py, the wrapper that keeps a transcript of a run
      of the M9 gate, over a host of its own, [run_host]; [JsonText] is the [json.dumps]
      it uses.
    - [Scripts] has the parser of every script's command line and the arguments as its
      [main] reads them; [CommandLines] is the M9 gate as it is started from its command
      line, alone and below the wrapper; [GateBoard] is a board on which that gate passes.

    A Python function has a definition of its name.  A long function is cut into
    definitions that follow its text, so [validate_cold_relinquish] is [cold_header],
    [cold_flags] and so on in this order; the body of a loop that waits for the board
    is a function [on_text] or [on_chunk] of the loop's variables.

    ** What is shown

    - Contracts: the validators accept exactly the blobs of an abstract contract
      ([cold_accept_iff], [handoff_accept_iff]); the cold one raises nothing but
      [ContractError], although its lookups may raise [KeyError] and its division
      [ZeroDivisionError] ([validate_cold_only_contract_error]), rejects every change of a
      byte, and what it accepts grants no memory twice ([cold_accept_memory_safe]); the two
      ABIs do not accept each other's blobs.
    - Ownership: its assertions hold in all reachable states, and only the start of a
      running display is refused; the roles of the buffers of a running display stay
      distinct, a fault freezes them, and the display refines a mailbox of one frame
      ([display_refines_mailbox]).
    - Build tools: round trip and exact acceptance of the firmware format, the
      checked-in artifact is the one the contract publishes, the packed manifest, the
      audits' verdicts, the patch series.
    - M9 gate: telemetry lines are read back exactly; the log checks and verdicts
      hold exactly on replies that satisfy their specification.  The evidence of a run is
      a [timeline], a relation between the world before and after it that composes what
      was done in order: an exit code 0 means that the port was opened, the boot verified
      (except by a snapshot, which checks neither boot nor identity), the commands of the
      mode answered as specified, and the port closed, in this order ([main_pass_sound]).
      Every run ends ([main_terminates]) and with its report ([main_reports]); so does every
      command ([run_command_outcomes]).
    - Milestone gates: for each, one theorem says that the gate ends on every host
      whose clock advances, with fuel for its timeout, whatever this is, and that its exit
      code is 0 exactly when the arguments are in range, the artifacts are accepted, all
      boots were captured and their logs satisfy the gate's specification; otherwise it is 1
      or the run ends in an exception.
    - The M1 gate: likewise, and after a pass QEMU is not running ([m1_gate]).
    - With one port for the loader and Linux the M7 gate never gets past its first
      workload ([m7_single_port_stalls]).
    - The contract test as a whole: a pass certifies the memory map, the pinned digests, the
      order of the display's start in the init script and the panel firmware
      ([contract_pass_certifies]).  Its self-tests pass on the modelled validators
      ([contract_tests], [hardware_tests]).
    - The logged run: a run that returns a code leaves a transcript with what the gate
      printed, all of it unless the run was interrupted or failed with a recorded error, and
      the digest of exactly that transcript ([run_logged]).
    - Command lines: what a script's parser accepts, its [main] can read
      ([accepted_lines_readable]), and the M9 gate runs with the settings its line gives and
      the documented defaults of the others ([m9_settings_round_trip]).  A line the M9 gate
      refuses touches no device ([m9_command_line]).
    - The wrapper and the gate together: the transcript names the mode and the port the
      gate runs with ([recorded_as_run]), and a wrapper that returns 0 has sealed the
      transcript of one child; if that was the gate, on the board as it was when the child
      was started, the evidence of this run backs it, or it was asked for help
      ([sealed_pass_sound]).  That such runs exist is [snapshot_passes].
    - Arming the USB reset reports exactly whether the token was received, although
      only a window of the input is kept.

    ** Bounds and assumptions

    - Waiting loops take fuel, and a run that uses it up has no outcome.  Fuel [lasts] for a
      timeout when it covers that time in reads of one [tick]; the theorems on the milestone
      gates and on a command ask for fuel that lasts for the timeout they are given, so that
      any [--timeout] is covered by some fuel.  The M9 gate bounds its own waits, the longest
      is 960 seconds; [enough] fuel covers 1000, and the theorems on it say that with
      [enough] fuel there is an outcome.  What they need of a host is the class [TimedHost]:
      clocks do not run backwards, sleeping and a successful read take time.  [silent_host]
      and [replay_host] are instances, on which the witnesses run.  The wrapper needs
      [LoggedHost]: nobody else writes to its files, the child prints a bounded amount and
      waiting for it comes to an outcome (the wrapper itself has no timeout, so that it runs
      as long as its child does); the M1 gate needs [PacedHost], with [rounds] of fuel for
      its 45 seconds.
    - [d[k]] raises [KeyError] where the keys of a dict depend on the input ([getitem]); the
      telemetry's samples have all the keys that are looked up ([scanout_lookups],
      [diagnostics_lookups]).
    - Time is the integer number of nanoseconds of the monotonic clock; timeouts given
      in seconds are scaled.
    - Text of a console is kept as its UTF-8 encoding, with the code points beyond
      ASCII that [splitlines], [strip] and [\s] treat as white space accounted for;
      [\d] is taken as the ASCII digits, which is all that a board prints.
    - Python's limit of 4300 digits in [int()] of text that an expression has captured and
      the reconfiguration of [sys.stdout] for characters its encoding lacks are left out.
    - [Argparse] follows the order of CPython 3.11; the text of usage and help is left
      out, and [int()] and [float()] of an option take ASCII digits.  The [main] of a gate
      takes its arguments parsed, a timeout as a number of nanoseconds; it is put together
      with its command line for the M9 gate and the wrapper.
    - The content of files is an argument ([artifact_dir], [sources] and the like); on the
      texts of the repository itself all steps of [bind_steps] evaluate to passes.
    - In the checks of source text, identifiers consist of ASCII characters.

    ** Not modelled

    - Taking functions out of another script with [ast] and [exec], as the parser tests
      do: they run the definitions of [Telemetry] here.
    - The loader, the kernel patches, the device trees, the packages in C and the
      shell scripts: they are not Python and run on the board or in the build. *)

From stdpp Require Export base list strings gmap pretty sorting.
From Stdlib Require Export ZArith Lia.
From coqutil Require Export Byte.
From coqutil Require Export Word.LittleEndianList.

#[global] Open Scope Z_scope.
#[global] Set Default Goal Selector "!".

(** ** Python exceptions and the error monad

    A Python function that may raise is a function into [result exn A].
    [exn] keeps the exception class and the text that [str(error)] gives. *)

Inductive exn_class :=
  | AssertionError | AttributeError | BrokenPipeError | CalledProcessError | ContractError
  | FileExistsError | FileNotFoundError | FirmwareFormatError | IndexError | KeyboardInterrupt
  | KeyError | OSError | OverflowError | RuntimeError | SerialException | SerialTimeoutException
  | StopIteration | StructError | SystemExit | TimeoutError | TimeoutExpired | TypeError
  | UnboundLocalError | UnicodeDecodeError | UnicodeEncodeError | ValueError | ZeroDivisionError.

#[global] Instance exn_class_eq_dec : EqDecision exn_class.
Proof. solve_decision. Defined.

Record exn := Exn { exn_cls : exn_class; exn_msg : string }.

#[global] Instance exn_eq_dec : EqDecision exn.
Proof. solve_decision. Defined.

Inductive result (A : Type) :=
  | Ok (a : A)
  | Err (e : exn).
Arguments Ok {A} a.
Arguments Err {A} e.

#[global] Instance result_eq_dec `{EqDecision A} : EqDecision (result A).
Proof. solve_decision. Defined.

#[global] Instance result_ret : MRet result := λ A a, Ok a.
#[global] Instance result_bind : MBind result := λ A B f m,
  match m with Ok a => f a | Err e => Err e end.

(** [if P: raise cls(msg)], falling through when [P] does not hold. *)
Definition raise_when (P : Prop) `{Decision P} (c : exn_class) (msg : string) : result unit :=
  if decide P then Err (Exn c msg) else Ok tt.

(** The left-to-right loop [for x in l: f(x)] that stops at the first exception. *)
Fixpoint for_each {A} (f : A → result unit) (l : list A) : result unit :=
  match l with
  | [] => Ok tt
  | x :: l => f x ;; for_each f l
  end.

(** The comprehension [[f(x) for x in l]] with an [f] that may raise. *)
Fixpoint map_result {A B} (f : A → result B) (l : list A) : result (list B) :=
  match l with
  | [] => Ok []
  | x :: l => y ← f x; ys ← map_result f l; Ok (y :: ys)
  end.

(** ** Lemmas on the error monad *)

Lemma bind_ok_inv {A B} (m : result A) (f : A → result B) b :
  m ≫= f = Ok b ↔ ∃ a, m = Ok a ∧ f a = Ok b.
Proof. destruct m; split; [by eauto | by intros (? & [= ->] & ?) | done | by intros (? & ? & ?)]. Qed.

Lemma raise_when_ok {A} (P : Prop) `{Decision P} c msg (k : result A) (r : A) :
  (raise_when P c msg ;; k) = Ok r ↔ ¬ P ∧ k = Ok r.
Proof. unfold raise_when. case_decide; split; try done; by intros []. Qed.

Lemma raise_when_true {A} (P : Prop) `{Decision P} c msg (k : result A) :
  P → (raise_when P c msg ;; k) = Err (Exn c msg).
Proof. unfold raise_when. by case_decide. Qed.

Lemma raise_when_false {A} (P : Prop) `{Decision P} c msg (k : result A) :
  ¬ P → (raise_when P c msg ;; k) = k.
Proof. unfold raise_when. by case_decide. Qed.

Lemma raise_when_unit (P : Prop) `{Decision P} c msg u :
  raise_when P c msg = Ok u ↔ ¬ P.
Proof. unfold raise_when. destruct u. by case_decide; split. Qed.

Lemma for_each_ok {A} (f : A → result unit) l u :
  for_each f l = Ok u ↔ Forall (λ x, f x = Ok tt) l.
Proof.
  destruct u. induction l as [|x l IH]; simpl; [by split|].
  rewrite Forall_cons, <- IH, bind_ok_inv.
  split; [intros ([] & -> & ->) | intros [-> ->]]; eauto.
Qed.

Lemma map_result_ok {A B} (f : A → result B) l ys :
  map_result f l = Ok ys ↔ Forall2 (λ x y, f x = Ok y) l ys.
Proof.
  revert ys. induction l as [|x l IH]; intros ys; simpl.
  - split; [intros [= <-]; constructor | by inversion 1].
  - rewrite bind_ok_inv. setoid_rewrite bind_ok_inv. setoid_rewrite IH.
    split.
    + intros (y & Hy & ys' & Hys & [= <-]). by constructor.
    + inversion 1; subst. eauto 10.
Qed.

Lemma map_result_length {A B} (f : A → result B) l ys :
  map_result f l = Ok ys → length ys = length l.
Proof. rewrite map_result_ok. intros H. symmetry. by eapply Forall2_length. Qed.

(** ** Which exceptions a computation can raise *)

Definition only_raises {A} (c : exn_class) (m : result A) : Prop :=
  match m with Ok _ => True | Err e => exn_cls e = c end.

Lemma only_raises_ok {A} c (a : A) : only_raises c (Ok a).
Proof. done. Qed.

Lemma only_raises_bind {A B} c (m : result A) (f : A → result B) :
  only_raises c m → (∀ a, m = Ok a → only_raises c (f a)) → only_raises c (m ≫= f).
Proof. destruct m; simpl; auto. Qed.

Lemma only_raises_when (P : Prop) `{Decision P} c msg : only_raises c (raise_when P c msg).
Proof. unfold raise_when. by case_decide. Qed.

Lemma only_raises_for_each {A} c (f : A → result unit) l :
  (∀ x, only_raises c (f x)) → only_raises c (for_each f l).
Proof. intros Hf. induction l; simpl; [done|]. by apply only_raises_bind. Qed.

Lemma only_raises_map {A B} c (f : A → result B) l :
  (∀ x, only_raises c (f x)) → only_raises c (map_result f l).
Proof.
  intros Hf. induction l; simpl; [done|].
  apply only_raises_bind; [done|]. intros. by apply only_raises_bind.
Qed.

Lemma only_raises_cases {A} c (m : result A) :
  only_raises c m → (∃ a, m = Ok a) ∨ (∃ msg, m = Err (Exn c msg)).
Proof. destruct m as [a|[c' msg]]; simpl; [eauto|]. intros ->. eauto. Qed.

(** Walks through a chain of binds, guards and loops. *)
Ltac solve_raises :=
  repeat lazymatch goal with
  | |- only_raises _ (raise_when _ _ _) => apply only_raises_when
  | |- only_raises _ (Ok _) => apply only_raises_ok
  | |- only_raises _ (_ ≫= _) => apply only_raises_bind; [|intros ? ?]
  | |- only_raises _ (for_each _ _) => apply only_raises_for_each; intros ?
  | |- only_raises _ (map_result _ _) => apply only_raises_map; intros ?
  end.

(** ** Tactics of the development *)

(** Splits a hypothesis [m = Ok r] over a chain of binds and guards. *)
Ltac inv_ok :=
  repeat match goal with
  | H : (raise_when _ _ _ ;; _) = Ok _ |- _ =>
      rewrite raise_when_ok in H; destruct H as [? H]
  | H : raise_when _ _ _ = Ok _ |- _ => rewrite raise_when_unit in H
  | H : _ ≫= _ = Ok _ |- _ =>
      let a := fresh "a" in let Ha := fresh "Hok" in
      rewrite bind_ok_inv in H; destruct H as (a & Ha & H)
  | u : unit |- _ => destruct u
  | H : Ok _ = Ok _ |- _ => injection H as H; subst
  | H : Err _ = Ok _ |- _ => discriminate H
  end.

(** Evaluates a closed equation in the kernel, once. *)
Ltac by_compute := lazymatch goal with |- _ = ?y => vm_cast_no_check (@eq_refl _ y) end.

(** Proves a closed decidable proposition by running its decision procedure. *)
Ltac by_decide := lazymatch goal with |- ?P => refine (bool_decide_unpack P _); vm_compute; exact I end.

(** ** Integers *)

(** A value that fits an unsigned field of [n] bytes. *)
Definition fits (n : nat) (z : Z) : Prop := 0 ≤ z < 2 ^ (8 * Z.of_nat n).

#[global] Instance fits_dec n z : Decision (fits n z).
Proof. unfold fits. apply _. Defined.

Lemma land_sub a m : 0 ≤ m → 0 ≤ Z.land a m ≤ m.
Proof.
  intros Hm. split; [apply Z.land_nonneg; lia|].
  apply Z.ldiff_le; [lia|]. apply Z.bits_inj_0. intros i.
  rewrite Z.ldiff_spec, Z.land_spec. by destruct (Z.testbit a i), (Z.testbit m i).
Qed.

Lemma testbit_high a n i : 0 ≤ a < 2 ^ n → n ≤ i → Z.testbit a i = false.
Proof.
  intros Ha Hi.
  assert (0 ≤ n) by (destruct (Z.neg_nonneg_cases n) as [?|?]; [|done];
    rewrite Z.pow_neg_r in Ha by done; lia).
  rewrite <- (Z.mod_small a (2 ^ n)) by done. by apply Z.mod_pow2_bits_high.
Qed.

Lemma lxor_bound a b n : 0 ≤ n → 0 ≤ a < 2 ^ n → 0 ≤ b < 2 ^ n → 0 ≤ Z.lxor a b < 2 ^ n.
Proof.
  intros Hn Ha Hb.
  assert (Z.lxor a b mod 2 ^ n = Z.lxor a b) as <-; [|apply Z.mod_pos_bound; lia].
  rewrite <- Z.land_ones by done. apply Z.bits_inj'. intros i Hi.
  rewrite Z.land_spec, Z.lxor_spec, Z.testbit_ones_nonneg by lia.
  destruct (Z.ltb_spec i n); [apply andb_true_r|].
  by rewrite !(testbit_high _ n) by lia.
Qed.

(** ** Lists *)

Lemma filter_nil_iff {A} (P : A → Prop) `{∀ x, Decision (P x)} (l : list A) :
  filter P l = [] ↔ ∀ x, x ∈ l → ¬ P x.
Proof.
  rewrite <- Forall_forall. induction l as [|x l IH]; [done|].
  rewrite filter_cons, Forall_cons, <- IH. case_decide; split; try done; [by intros [? _]|by intros [_ ?]].
Qed.

Lemma take_drop_app {A} n (l k : list A) : length l = n → take n (l ++ k) = l ∧ drop n (l ++ k) = k.
Proof. intros <-. by rewrite take_app_length, drop_app_length. Qed.

Create HintDb micronux.
Create Rewrite HintDb micronux.
#[export] Hint Rewrite @length_app @length_cons @length_nil @length_take @length_drop
  length_le_split @length_replicate @length_reverse : micronux.
