(* ===== verification/PyBytes.v ===== *)
(** * Python [bytes], [struct] and [zlib.crc32]

    The part of the standard library that the MicroNUX encoders use: byte
    strings as [list byte], the fixed-width unsigned codes of [struct] in both
    byte orders, and the CRC-32 of [zlib].  The lemmas give the round trip of
    pack and unpack and the two facts about CRC-32 the format checks rest on:
    it is a 32-bit value and it changes when a single byte changes. *)

From S2P Require Import Prelude.

Abbreviation bytes := (list byte).

#[global] Instance byte_eq_decision : EqDecision byte := Byte.byte_eq_dec.

Definition byte_of (z : Z) : byte := byte.of_Z z.
Definition bz (b : byte) : Z := byte.unsigned b.

(** [len(b)] *)
Definition blen (b : bytes) : Z := Z.of_nat (length b).

(** [b[:-n]] *)
Definition drop_last (n : nat) (b : bytes) : bytes := take (length b - n) b.

(** [bytes(n)]: [n] zero bytes. *)
Definition zeros (n : nat) : bytes := replicate n Byte.x00.

(** [b[i:j]] *)
Definition slice (i j : nat) (b : bytes) : bytes := take (j - i) (drop i b).

Module Struct.

(** The byte order prefix of a [struct] format. *)
Inductive order := Little | Big.

(** One unsigned field of [n] bytes; [struct.error] when it does not fit. *)
Definition enc_uint (o : order) (n : nat) (z : Z) : bytes :=
  match o with Little => le_split n z | Big => rev (le_split n z) end.

Definition dec_uint (o : order) (b : bytes) : Z :=
  match o with Little => le_combine b | Big => le_combine (rev b) end.

(** [struct.calcsize] of a format given by its field widths: the standard
    sizes are used without padding because the formats start with [<] or [>]. *)
Definition calcsize (ws : list nat) : nat := sum_list ws.

(** [struct.pack(fmt, *values)] *)
Fixpoint pack (o : order) (ws : list nat) (vs : list Z) : result bytes :=
  match ws, vs with
  | [], [] => Ok []
  | w :: ws, v :: vs =>
      raise_when (¬ fits w v) StructError "argument out of range" ;;
      rest ← pack o ws vs; Ok (enc_uint o w v ++ rest)
  | _, _ => Err (Exn StructError "pack expected a different number of items")
  end.

(** The fields of a buffer, read from its start. *)
Fixpoint fields (o : order) (ws : list nat) (b : bytes) : list Z :=
  match ws with
  | [] => []
  | w :: ws => dec_uint o (take w b) :: fields o ws (drop w b)
  end.

(** [struct.unpack(fmt, buffer)] *)
Definition unpack (o : order) (ws : list nat) (b : bytes) : result (list Z) :=
  raise_when (length b ≠ calcsize ws) StructError "unpack requires a buffer of the format size" ;;
  Ok (fields o ws b).

(** [struct.unpack_from(fmt, buffer, offset)] *)
Definition unpack_from (o : order) (ws : list nat) (b : bytes) (off : nat) : result (list Z) :=
  raise_when (length b < off + calcsize ws)%nat StructError "unpack_from requires a larger buffer" ;;
  Ok (fields o ws (drop off b)).

Lemma length_enc_uint o n z : length (enc_uint o n z) = n.
Proof. destruct o; simpl; rewrite ?length_rev; apply length_le_split. Qed.

Lemma dec_enc_uint o n z : fits n z → dec_uint o (enc_uint o n z) = z.
Proof.
  intros Hz. destruct o; simpl; rewrite ?rev_involutive, le_combine_split;
    apply Z.mod_small; unfold fits in Hz; by rewrite Z.mul_comm.
Qed.

Lemma enc_dec_uint o b n : length b = n → enc_uint o n (dec_uint o b) = b.
Proof.
  intros Hn. destruct o; simpl.
  - by apply split_le_combine'.
  - rewrite split_le_combine' by (by rewrite length_rev). apply rev_involutive.
Qed.

Lemma dec_uint_fits o b n : length b = n → fits n (dec_uint o b).
Proof.
  intros <-. unfold fits. destruct o; simpl; [apply le_combine_bound|].
  rewrite <- (length_rev b). apply le_combine_bound.
Qed.

Lemma pack_length o ws vs b : pack o ws vs = Ok b → length b = calcsize ws.
Proof.
  revert vs b. induction ws as [|w ws IH]; intros [|v vs] b; simpl; intros H; inv_ok; try done.
  rewrite length_app, length_enc_uint. f_equal. eauto.
Qed.

Lemma pack_ok o ws vs : Forall2 fits ws vs → ∃ b, pack o ws vs = Ok b.
Proof.
  induction 1 as [|w v ws vs Hv _ [b IH]]; simpl; [by eexists|].
  rewrite raise_when_false by (by intros []). rewrite IH. by eexists.
Qed.

Lemma pack_fits o ws vs b : pack o ws vs = Ok b → Forall2 fits ws vs.
Proof.
  revert vs b. induction ws as [|w ws IH]; intros [|v vs] b; simpl; intros H; inv_ok; try done.
  constructor; [by apply dec_stable | eauto].
Qed.

(** Unpacking what was packed gives the values back, whatever follows. *)
Lemma fields_pack o ws vs b rest : pack o ws vs = Ok b → fields o ws (b ++ rest) = vs.
Proof.
  revert vs b. induction ws as [|w ws IH]; intros [|v vs] b; simpl; intros H; inv_ok; try done.
  rewrite <- app_assoc.
  destruct (take_drop_app w (enc_uint o w v) (a ++ rest)) as [-> ->];
    [apply length_enc_uint|].
  f_equal; [apply dec_enc_uint, dec_stable; done | eauto].
Qed.

Lemma unpack_pack o ws vs b : pack o ws vs = Ok b → unpack o ws b = Ok vs.
Proof.
  intros H. unfold unpack. rewrite raise_when_false.
  - by rewrite <- (app_nil_r b), (fields_pack o ws vs b []).
  - intros Hn. apply Hn. by eapply pack_length.
Qed.

(** Packing what was unpacked gives the buffer back. *)
Lemma pack_fields o ws b : length b = calcsize ws → pack o ws (fields o ws b) = Ok b.
Proof.
  revert b. induction ws as [|w ws IH]; intros b; simpl; intros Hb.
  - by destruct b.
  - assert (length (take w b) = w) by (rewrite length_take; lia).
    rewrite raise_when_false by (intros Hf; apply Hf; by apply dec_uint_fits).
    rewrite IH by (rewrite length_drop; lia). cbn [mbind result_bind].
    by rewrite enc_dec_uint, take_drop.
Qed.

Lemma fields_length o ws b : length (fields o ws b) = length ws.
Proof. revert b. induction ws; intros b; simpl; auto. Qed.

Lemma fields_app o ws1 ws2 b :
  fields o (ws1 ++ ws2) b = fields o ws1 b ++ fields o ws2 (drop (calcsize ws1) b).
Proof.
  revert b. induction ws1 as [|w ws1 IH]; intros b; simpl; [done|].
  by rewrite IH, drop_drop.
Qed.

Lemma unpack_ok o ws b vs :
  unpack o ws b = Ok vs → length b = calcsize ws ∧ pack o ws vs = Ok b.
Proof.
  unfold unpack. intros H; inv_ok.
  assert (length b = calcsize ws) as Hb by lia. auto using pack_fields.
Qed.
End Struct.

(** ** [zlib.crc32] *)

Module Crc32.

Definition POLY : Z := 0xEDB88320.

(** One bit of the reflected CRC-32 register. *)
Definition step (c : Z) : Z :=
  if Z.odd c then Z.lxor (Z.div2 c) POLY else Z.div2 c.

Definition steps8 (c : Z) : Z := step (step (step (step (step (step (step (step c))))))).

Definition update (c : Z) (b : byte) : Z := steps8 (Z.lxor c (bz b)).

Definition crc32 (data : bytes) : Z :=
  Z.lxor (foldl update 0xFFFFFFFF data) 0xFFFFFFFF.

Definition word (c : Z) : Prop := 0 ≤ c < 2 ^ 32.

Lemma div2_word c : word c → 0 ≤ Z.div2 c < 2 ^ 31.
Proof.
  unfold word. rewrite Z.div2_div. intros.
  split; [apply Z.div_pos; lia | apply Z.div_lt_upper_bound; lia].
Qed.

Lemma step_word c : word c → word (step c).
Proof.
  intros H. pose proof (div2_word c H). unfold step, word in *.
  destruct (Z.odd c); [|lia]. apply lxor_bound; [lia..|]. unfold POLY; lia.
Qed.

(** Bit 31 of the next register is the bit that was shifted out. *)
Lemma step_bit31 c : word c → Z.testbit (step c) 31 = Z.odd c.
Proof.
  intros H. pose proof (div2_word c H). unfold step.
  destruct (Z.odd c); rewrite ?Z.lxor_spec, (testbit_high _ 31) by lia; reflexivity.
Qed.

Lemma step_inj c d : word c → word d → step c = step d → c = d.
Proof.
  intros Hc Hd E.
  assert (Z.odd c = Z.odd d) as Ho by (rewrite <- !step_bit31 by done; by f_equal).
  rewrite (Z.div2_odd c), (Z.div2_odd d), Ho. do 2 f_equal.
  unfold step in E. rewrite Ho in E. destruct (Z.odd d); [|done].
  apply (f_equal (λ x, Z.lxor x POLY)) in E.
  by rewrite !Z.lxor_assoc, Z.lxor_nilpotent, !Z.lxor_0_r in E.
Qed.

Lemma steps8_word c : word c → word (steps8 c).
Proof. intros. unfold steps8. by do 8 apply step_word. Qed.

Lemma steps8_inj c d : word c → word d → steps8 c = steps8 d → c = d.
Proof.
  unfold steps8. intros Hc Hd E.
  repeat (apply step_inj in E; [|by repeat apply step_word..]). done.
Qed.

Lemma bz_word b : word (bz b).
Proof. pose proof (byte.unsigned_range b). unfold word, bz. lia. Qed.

Lemma lxor_word c d : word c → word d → word (Z.lxor c d).
Proof. intros. by apply lxor_bound. Qed.

Lemma update_word c b : word c → word (update c b).
Proof. intros. apply steps8_word, lxor_word, bz_word; done. Qed.

Lemma lxor_cancel_r a b c : Z.lxor a c = Z.lxor b c → a = b.
Proof.
  intros E. apply (f_equal (λ x, Z.lxor x c)) in E.
  by rewrite !Z.lxor_assoc, Z.lxor_nilpotent, !Z.lxor_0_r in E.
Qed.

Lemma update_inj_state c d b : word c → word d → update c b = update d b → c = d.
Proof.
  intros Hc Hd E. apply steps8_inj in E; [|by apply lxor_word, bz_word..].
  by eapply lxor_cancel_r.
Qed.

Lemma update_inj_byte c b b' : word c → update c b = update c b' → b = b'.
Proof.
  intros Hc E. apply steps8_inj in E; [|by apply lxor_word, bz_word..].
  rewrite !(Z.lxor_comm c) in E. apply byte.unsigned_inj. by eapply lxor_cancel_r.
Qed.

Lemma foldl_update_word data c : word c → word (foldl update c data).
Proof. revert c. induction data; intros c Hc; simpl; [done|]. by apply IHdata, update_word. Qed.

Lemma foldl_update_inj data c d :
  word c → word d → foldl update c data = foldl update d data → c = d.
Proof.
  revert c d. induction data as [|b data IH]; intros c d Hc Hd; simpl; [done|].
  intros E. apply IH in E; [|by apply update_word..]. by eapply update_inj_state.
Qed.

Lemma init_word : word 0xFFFFFFFF.
Proof. done. Qed.

(** The CRC is a 32-bit value, so [& 0xFFFFFFFF] is the identity on it. *)
Lemma crc32_fits data : fits 4 (crc32 data).
Proof. apply lxor_word; [apply foldl_update_word|]; apply init_word. Qed.

Lemma crc32_mask data : Z.land (crc32 data) 0xFFFFFFFF = crc32 data.
Proof.
  change 0xFFFFFFFF with (Z.ones 32). rewrite Z.land_ones by lia.
  apply Z.mod_small. apply (crc32_fits data).
Qed.

(** Changing one byte changes the CRC. *)
Lemma crc32_single_byte pre b b' post :
  b ≠ b' → crc32 (pre ++ b :: post) ≠ crc32 (pre ++ b' :: post).
Proof.
  intros Hne E. apply Hne. unfold crc32 in E. apply lxor_cancel_r in E.
  rewrite !foldl_app in E. cbn [foldl] in E.
  assert (word (foldl update 0xFFFFFFFF pre)) by (apply foldl_update_word, init_word).
  apply foldl_update_inj in E; [|by apply update_word..].
  by eapply update_inj_byte.
Qed.
End Crc32.

(** [zlib.crc32(data) & 0xFFFFFFFF] *)
Definition crc32_u32 (data : bytes) : Z := Z.land (Crc32.crc32 data) 0xFFFFFFFF.

Lemma crc32_u32_fits data : fits 4 (crc32_u32 data).
Proof. unfold crc32_u32. rewrite Crc32.crc32_mask. apply Crc32.crc32_fits. Qed.

Lemma crc32_u32_single_byte pre b b' post :
  b ≠ b' → crc32_u32 (pre ++ b :: post) ≠ crc32_u32 (pre ++ b' :: post).
Proof. unfold crc32_u32. rewrite !Crc32.crc32_mask. apply Crc32.crc32_single_byte. Qed.

(** The check value of CRC-32: the digits 1 to 9. *)
Example crc32_check :
  crc32_u32 (le_split 9 0x393837363534333231) = 0xCBF43926.
Proof. by_compute. Qed.
