(* ===== verification/PyStr.v ===== *)
(** * Python [str]

    The string operations the MicroNUX tools use, on [string].  A [str] is the
    sequence of its code points; the development represents the code points
    below 256, which is where console logs, file names and configuration texts
    live, and the definitions are exact there (white space, line boundaries and
    case follow CPython's tables for those code points). *)

From Stdlib Require Export Ascii.
From S2P Require Import Prelude.

(** Importing [strings] leaves [String.append] as [+:+]. *)

(** ** Searching *)

(** [s.startswith(p)] *)
Fixpoint startswith (p s : string) : bool :=
  match p, s with
  | EmptyString, _ => true
  | String a p, String b s => if decide (a = b) then startswith p s else false
  | String _ _, EmptyString => false
  end.

(** [p in s] *)
Fixpoint contains (p s : string) : bool :=
  startswith p s ||
  match s with
  | EmptyString => false
  | String _ s => contains p s
  end.

Fixpoint str_drop (n : nat) (s : string) : string :=
  match n, s with
  | S n, String _ s => str_drop n s
  | _, _ => s
  end.

Fixpoint str_take (n : nat) (s : string) : string :=
  match n, s with
  | S n, String c s => String c (str_take n s)
  | _, _ => EmptyString
  end.

(** The first index of [p] in [s], counted from [i]. *)
Fixpoint find_at (p s : string) (i : nat) : option nat :=
  if startswith p s then Some i
  else match s with
       | EmptyString => None
       | String _ s => find_at p s (S i)
       end.

(** [s.find(p, start)] for [0 <= start]; [None] for [-1]. *)
Definition str_find (p s : string) (start : nat) : option nat :=
  if decide (start ≤ String.length s)%nat then find_at p (str_drop start s) start else None.

(** [s.count(p)] for a non-empty [p]: non-overlapping occurrences. *)
Fixpoint count_fuel (fuel : nat) (p s : string) : nat :=
  match fuel with
  | O => O
  | S fuel =>
      if startswith p s then S (count_fuel fuel p (str_drop (String.length p) s))
      else match s with
           | EmptyString => O
           | String _ s => count_fuel fuel p s
           end
  end.
Definition str_count (p s : string) : nat := count_fuel (S (String.length s)) p s.

(** [s.replace(old, new)] for a non-empty [old]. *)
Fixpoint replace_fuel (fuel : nat) (old new s : string) : string :=
  match fuel with
  | O => s
  | S fuel =>
      if startswith old s then new +:+ replace_fuel fuel old new (str_drop (String.length old) s)
      else match s with
           | EmptyString => EmptyString
           | String c s => String c (replace_fuel fuel old new s)
           end
  end.
Definition str_replace (old new s : string) : string :=
  replace_fuel (S (String.length s)) old new s.

(** [s.endswith(p)] *)
Definition endswith (p s : string) : bool :=
  if decide (String.length p ≤ String.length s)%nat
  then bool_decide (str_drop (String.length s - String.length p) s = p) else false.

(** [s.removeprefix(p)] and [s.removesuffix(p)] *)
Definition removeprefix (p s : string) : string :=
  if startswith p s then str_drop (String.length p) s else s.
Definition removesuffix (p s : string) : string :=
  if bool_decide (p ≠ EmptyString) && endswith p s
  then str_take (String.length s - String.length p) s else s.

(** ** Splitting and joining *)

Definition code (c : ascii) : Z := Z.of_N (Ascii.N_of_ascii c).

(** [c.isspace()] below 256. *)
Definition is_space (c : ascii) : bool :=
  let z := code c in
  bool_decide (9 ≤ z ≤ 13 ∨ 28 ≤ z ≤ 32 ∨ z = 133 ∨ z = 160).

(** Characters above 127, by the bytes of their UTF-8 encoding. *)
Fixpoint chars_of (l : list Z) : string :=
  match l with [] => EmptyString | z :: l => String (Ascii.ascii_of_N (Z.to_N z)) (chars_of l) end.

(** The white space of Unicode above 127 and, of it, the line boundaries. *)
Definition WIDE_BREAKS : list string :=
  [chars_of [0xC2; 0x85]; chars_of [0xE2; 0x80; 0xA8]; chars_of [0xE2; 0x80; 0xA9]].
Definition WIDE_SPACES : list string :=
  WIDE_BREAKS ++ [chars_of [0xC2; 0xA0]; chars_of [0xE1; 0x9A; 0x80]] ++
  map (λ i, chars_of [0xE2; 0x80; 0x80 + Z.of_nat i]) (seq 0 11) ++
  [chars_of [0xE2; 0x80; 0xAF]; chars_of [0xE2; 0x81; 0x9F]; chars_of [0xE3; 0x80; 0x80]].

(** [s.split()]: maximal runs without white space. *)
Fixpoint split_ws (s cur : string) : list string :=
  match s with
  | EmptyString => if decide (cur = EmptyString) then [] else [cur]
  | String c s =>
      if is_space c
      then (if decide (cur = EmptyString) then split_ws s EmptyString
            else cur :: split_ws s EmptyString)
      else split_ws s (cur +:+ String c EmptyString)
  end.
Definition str_split (s : string) : list string := split_ws s EmptyString.

(** [s.split(sep)] for a separator of one character *)
Fixpoint split_on (sep : ascii) (s : string) : list string :=
  match s with
  | EmptyString => [""]
  | String c s =>
      let parts := split_on sep s in
      if decide (c = sep) then "" :: parts
      else match parts with
           | part :: parts => String c part :: parts
           | [] => [String c ""]
           end
  end.

(** Cuts a text at the first of some characters. *)
Fixpoint cut_at (at_char : ascii → bool) (s : string) : option (string * string) :=
  match s with
  | EmptyString => None
  | String c s => if at_char c then Some ("", s) else (λ '(a, b), (String c a, b)) <$> cut_at at_char s
  end.

(** [text.split("=", 1)] of a text that has the sign *)
Definition cut_equals : string → option (string * string) := cut_at (Ascii.eqb "=").

(** [sep.join(l)] *)
Fixpoint str_join (sep : string) (l : list string) : string :=
  match l with
  | [] => EmptyString
  | [x] => x
  | x :: l => x +:+ sep +:+ str_join sep l
  end.

Fixpoint str_rev (s acc : string) : string :=
  match s with
  | EmptyString => acc
  | String c s => str_rev s (String c acc)
  end.

(** ** Case *)

Definition char_of (z : Z) : ascii := Ascii.ascii_of_N (Z.to_N z).

Definition char_lower (c : ascii) : ascii :=
  let z := code c in
  if decide (65 ≤ z ≤ 90 ∨ (192 ≤ z ≤ 222 ∧ z ≠ 215)) then char_of (z + 32) else c.

(** [s.lower()] *)
Fixpoint lower (s : string) : string :=
  match s with
  | EmptyString => EmptyString
  | String c s => String (char_lower c) (lower s)
  end.

(** ** Numbers in text *)

Definition digit_val (c : ascii) : option Z :=
  let z := code c in
  if decide (48 ≤ z ≤ 57) then Some (z - 48)
  else if decide (97 ≤ z ≤ 122) then Some (z - 87)
  else if decide (65 ≤ z ≤ 90) then Some (z - 55)
  else None.

Fixpoint digits_to_Z (base acc : Z) (s : string) : Z :=
  match s with
  | EmptyString => acc
  | String c s => digits_to_Z base (acc * base + default 0 (digit_val c)) s
  end.

(** [int(s, base)] on the digit strings the regular expressions below capture:
    an optional minus sign and one or more digits of the base. *)
Definition int_of (base : Z) (s : string) : Z :=
  match s with
  | String c s' => if decide (code c = 45) then - digits_to_Z base 0 s' else digits_to_Z base 0 s
  | EmptyString => 0
  end.

Definition hex_digit (z : Z) : ascii :=
  if decide (z < 10) then char_of (48 + z) else char_of (87 + z).

Fixpoint hex_fuel (fuel : nat) (z : Z) (acc : string) : string :=
  match fuel with
  | O => acc
  | S fuel =>
      let acc := String (hex_digit (z mod 16)) acc in
      if decide (z / 16 = 0) then acc else hex_fuel fuel (z / 16) acc
  end.

(** [f"{z:x}"] for [0 <= z] *)
Definition fmt_x (z : Z) : string := hex_fuel (S (Z.to_nat (Z.log2 z))) z EmptyString.

Fixpoint zfill_fuel (n : nat) (s : string) : string :=
  match n with
  | O => s
  | S n => String "0"%char (zfill_fuel n s)
  end.

(** Left padding with zeros to [width]: the [0width] of a format. *)
Definition zfill (width : nat) (s : string) : string := zfill_fuel (width - String.length s) s.

(** [f"{z:08x}"], [f"{z:#x}"], [f"{z:#010x}"] and [f"{z:04d}"] for [0 <= z] *)
Definition fmt_08x (z : Z) : string := zfill 8 (fmt_x z).
Definition fmt_hash_x (z : Z) : string := "0x" +:+ fmt_x z.
Definition fmt_hash_010x (z : Z) : string := "0x" +:+ zfill 8 (fmt_x z).
Definition fmt_d (z : Z) : string := pretty z.
Definition fmt_04d (z : Z) : string := zfill 4 (pretty z).

(** The UTF-8 encoding of an ASCII text is its bytes. *)
Definition nl : string := String (Ascii.ascii_of_nat 10) EmptyString.
Definition cr : string := String (Ascii.ascii_of_nat 13) EmptyString.

(** ** Lemmas *)

Lemma str_app_cons c (a b : string) : String c a +:+ b = String c (a +:+ b).
Proof. reflexivity. Qed.

Lemma str_app_assoc (a b c : string) : a +:+ (b +:+ c) = (a +:+ b) +:+ c.
Proof. induction a as [|x a IH]; [done|]. cbn. unfold String.append in *. by rewrite IH. Qed.

Lemma str_app_nil (a : string) : a +:+ "" = a.
Proof. induction a as [|x a IH]; [done|]. cbn. unfold String.append in *. by rewrite IH. Qed.

Lemma join_cons x l : str_join "" (x :: l) = x +:+ str_join "" l.
Proof. destruct l; [by rewrite str_app_nil|done]. Qed.

Lemma startswith_app p s t : startswith p s = true → startswith p (s +:+ t) = true.
Proof.
  revert s. induction p as [|a p IH]; intros [|b s]; cbn; try done.
  rewrite str_app_cons. case_decide; [|done]. apply IH.
Qed.

Lemma startswith_self p s : startswith p (p +:+ s) = true.
Proof.
  induction p as [|a p IH]; [done|]. rewrite str_app_cons. cbn [startswith].
  by rewrite decide_True.
Qed.

Lemma startswith_spec p s : startswith p s = true ↔ ∃ b, s = p +:+ b.
Proof.
  split; [|intros [b ->]; apply startswith_self].
  revert s. induction p as [|x p IH]; intros s; [by exists s|].
  destruct s as [|y s]; cbn [startswith]; [done|].
  case_decide as E; [|done]. subst. intros (b & ->)%IH. by exists b.
Qed.

(** [p in s] holds exactly when [s] is [a + p + b] for some [a] and [b]. *)
Lemma cut_at_app f n c v : cut_at f n = None → f c = true → cut_at f (n +:+ String c v) = Some (n, v).
Proof.
  intros Hn Hc. induction n as [|d n IH]; [simpl; by rewrite Hc|]. rewrite str_app_cons. cbn in Hn |- *. destruct (f d); [done|].
  apply fmap_None in Hn. by rewrite IH.
Qed.

Lemma cut_joined n v : cut_equals n = None → cut_equals (n +:+ "=" +:+ v) = Some (n, v).
Proof. intros. by apply cut_at_app. Qed.

Lemma contains_spec p s : contains p s = true ↔ ∃ a b, s = a +:+ p +:+ b.
Proof.
  split.
  - induction s as [|c s IH]; cbn [contains]; rewrite orb_true_iff, startswith_spec.
    + intros [[b ->]|?]; [|done]. by exists "", b.
    + intros [[b ->]|(a & b & ->)%IH]; [by exists "", b | by exists (String c a), b].
  - intros (a & b & ->). induction a as [|c a IH].
    + change (contains p (p +:+ b) = true).
      destruct (p +:+ b) eqn:E; cbn [contains]; rewrite <- E, startswith_self; done.
    + rewrite str_app_cons. cbn [contains]. by rewrite IH, orb_true_r.
Qed.

Lemma contains_app_l p s t : contains p s = true → contains p (s +:+ t) = true.
Proof.
  rewrite !contains_spec. intros (a & b & ->). exists a, (b +:+ t). by rewrite !str_app_assoc.
Qed.

Lemma contains_app_r p s t : contains p t = true → contains p (s +:+ t) = true.
Proof.
  rewrite !contains_spec. intros (a & b & ->). exists (s +:+ a), b. by rewrite !str_app_assoc.
Qed.

#[export] Hint Resolve contains_app_l contains_app_r : micronux.

Example split_on_examples :
  (split_on "," "UP,LOWER_UP", split_on "," "", split_on "," ",a,") = (["UP"; "LOWER_UP"], [""], [""; "a"; ""]).
Proof. reflexivity. Qed.
