(* ===== verification/Sha256.v ===== *)
(** * [hashlib.sha256]

    SHA-256 (FIPS 180-4) on byte strings, as [hashlib] computes it: the tools
    pin images, manifests and framebuffer contents by this digest.  Words are
    32-bit values in [Z] with their wrap-around written out. *)

From S2P Require Import Prelude PyBytes PyStr.

Module Sha256.

Definition MASK : Z := 0xFFFFFFFF.
Definition w32 (x : Z) : Z := Z.land x MASK.
Definition rotr (n x : Z) : Z := Z.lor (Z.shiftr x n) (w32 (Z.shiftl x (32 - n))).
Definition ch (x y z : Z) : Z := Z.lxor (Z.land x y) (Z.land (Z.lxor x MASK) z).
Definition maj (x y z : Z) : Z := Z.lxor (Z.lxor (Z.land x y) (Z.land x z)) (Z.land y z).
Definition big0 (x : Z) : Z := Z.lxor (Z.lxor (rotr 2 x) (rotr 13 x)) (rotr 22 x).
Definition big1 (x : Z) : Z := Z.lxor (Z.lxor (rotr 6 x) (rotr 11 x)) (rotr 25 x).
Definition small0 (x : Z) : Z := Z.lxor (Z.lxor (rotr 7 x) (rotr 18 x)) (Z.shiftr x 3).
Definition small1 (x : Z) : Z := Z.lxor (Z.lxor (rotr 17 x) (rotr 19 x)) (Z.shiftr x 10).

(** The first 64 primes. *)
Definition is_prime (p : Z) : bool := forallb (λ d, negb (Z.eqb (p mod d) 0)) (seqZ 2 (p - 2)).
Definition PRIMES : list Z := filter (λ p, is_prime p = true) (seqZ 2 310).

(** The largest [r] below [2 ^ n] whose cube is at most [x]. *)
Fixpoint cbrt (n : nat) (x r : Z) : Z :=
  match n with
  | O => r
  | S n => let r' := r + 2 ^ Z.of_nat n in cbrt n x (if Z.leb (r' * r' * r') x then r' else r)
  end.

(** The round constants: 32 bits of the fractional parts of the cube roots of
    the primes; the initial hash: those of the square roots of the first eight. *)
Definition K : list Z :=
  Eval vm_compute in map (λ p, w32 (cbrt 36 (p * 2 ^ 96) 0)) PRIMES.

Definition H0 : list Z :=
  Eval vm_compute in map (λ p, w32 (Z.sqrt (p * 2 ^ 64))) (take 8 PRIMES).

(** The message followed by one bit, zeros, and its length in bits. *)
Definition pad (m : bytes) : bytes :=
  m ++ [Byte.x80] ++ zeros (Nat.modulo (119 - Nat.modulo (length m) 64) 64)
    ++ Struct.enc_uint Struct.Big 8 ((8 * blen m) mod 2 ^ 64).

(** The 64 words of the schedule; the window holds the last sixteen. *)
Fixpoint schedule (n : nat) (window : list Z) : list Z :=
  match n with
  | O => []
  | S n =>
      match window with
      | [] => []
      | w :: rest =>
          let next := w32 (small1 (nth 14 window 0) + nth 9 window 0 + small0 (nth 1 window 0) + w) in
          w :: schedule n (rest ++ [next])
      end
  end.

(** One round on the eight working variables. *)
Definition round (s : list Z) (kw : Z * Z) : list Z :=
  match s with
  | [a; b; c; d; e; f; g; h] =>
      let t1 := w32 (h + big1 e + ch e f g + kw.1 + kw.2) in
      let t2 := w32 (big0 a + maj a b c) in
      [w32 (t1 + t2); a; b; c; w32 (d + t1); e; f; g]
  | _ => s
  end.

Definition compress (h : list Z) (block : bytes) : list Z :=
  let words := Struct.fields Struct.Big (replicate 16 4%nat) block in
  zip_with (λ x y, w32 (x + y)) h (foldl round h (zip K (schedule 64 words))).

Fixpoint blocks (n : nat) (m : bytes) : list bytes :=
  match n with
  | O => []
  | S n => take 64 m :: blocks n (drop 64 m)
  end.

(** [hashlib.sha256(m).digest()] *)
Definition digest (m : bytes) : bytes :=
  let p := pad m in
  let h := foldl compress H0 (blocks (Nat.div (length p) 64) p) in
  concat (map (Struct.enc_uint Struct.Big 4) h).

Lemma pad_length m : Nat.modulo (length (pad m)) 64 = 0%nat.
Proof.
  unfold pad, zeros. rewrite !length_app, length_replicate, Struct.length_enc_uint. simpl length.
  generalize (length m). intros n.
  apply Nat2Z.inj. rewrite Nat2Z.inj_mod, !Nat2Z.inj_add, Nat2Z.inj_mod.
  pose proof (Nat.mod_upper_bound n 64). rewrite Nat2Z.inj_sub, Nat2Z.inj_mod by lia.
  change (Z.of_nat 64) with 64. Z.to_euclidean_division_equations. lia.
Qed.

Lemma round_length s kw : length (round s kw) = length s.
Proof. destruct s as [|a [|b [|c [|d [|e [|f [|g [|h [|]]]]]]]]]; reflexivity. Qed.

Lemma compress_length h b : length h = 8%nat → length (compress h b) = 8%nat.
Proof.
  intros Hh. unfold compress. rewrite length_zip_with.
  assert (∀ l s, length (foldl round s l) = length s) as Hl.
  { induction l as [|kw l IH]; intros s; simpl; [done|]. by rewrite IH, round_length. }
  rewrite Hl, Hh. lia.
Qed.

(** A digest has 32 bytes. *)
Lemma digest_length m : length (digest m) = 32%nat.
Proof.
  unfold digest. set (bs := blocks _ _). clearbody bs.
  assert (length (foldl compress H0 bs) = 8%nat) as Hl.
  { assert (length H0 = 8%nat) as H by done. revert H. generalize H0.
    induction bs as [|b bs IH]; intros h Hh; simpl; [done|]. by apply IH, compress_length. }
  rewrite length_concat, map_map.
  rewrite (map_ext _ (λ _, 4%nat)) by (intros; apply Struct.length_enc_uint).
  destruct (foldl compress H0 bs) as [|? [|? [|? [|? [|? [|? [|? [|? [|]]]]]]]]]; simpl in *; lia.
Qed.
End Sha256.

(** [b.hex()] *)
Fixpoint hex (b : bytes) : string :=
  match b with
  | [] => ""
  | x :: b => zfill 2 (fmt_x (bz x)) +:+ hex b
  end.

(** [hashlib.sha256(m).hexdigest()] *)
Definition sha256_hex (m : bytes) : string := hex (Sha256.digest m).

Example sha256_empty :
  sha256_hex [] = "e3b0c44298fc1c149afbf4c8996fb92427ae41e4649b934ca495991b7852b855".
Proof. by_compute. Qed.

Example sha256_abc :
  sha256_hex (le_split 3 0x636261)
  = "ba7816bf8f01cfea414140de5dae2223b00361a396177a9cb410ff61f20015ad".
Proof. by_compute. Qed.
