(* ===== verification/PyJson.v ===== *)
(** * JSON values and Python conversions

    The values [json.load] produces and the conversions the firmware generator
    applies to them: [int(text, 0)], [bytes.fromhex] and [repr] of a string.
    A dict has each key once; a float is the binary64 value [SpecFloat] names. *)

From Stdlib Require Import Floats.SpecFloat.
From S2P Require Import Prelude PyBytes PyStr.

Inductive json :=
  | JNull
  | JBool (b : bool)
  | JInt (z : Z)
  | JFloat (f : spec_float)
  | JStr (s : string)
  | JList (l : list json)
  | JObj (o : list (string * json)).

(** [o.get(key)] on the items of a dict; [None] when the key is absent. *)
Fixpoint jget (key : string) (o : list (string * json)) : option json :=
  match o with
  | [] => None
  | (k, v) :: o => if decide (k = key) then Some v else jget key o
  end.

(** The name [type(v).__name__]. *)
Definition type_name (v : json) : string :=
  match v with
  | JNull => "NoneType" | JBool _ => "bool" | JInt _ => "int" | JFloat _ => "float"
  | JStr _ => "str" | JList _ => "list" | JObj _ => "dict"
  end.

(** [v.get(key)] of a value that may not be a dict, [None] as [JNull]. *)
Definition attr_get (v : json) (key : string) : result json :=
  match v with
  | JObj o => Ok (default JNull (jget key o))
  | _ => Err (Exn AttributeError ("'" +:+ type_name v +:+ "' object has no attribute 'get'"))
  end.

(** [v == s] for a string [s] *)
Definition eq_str (v : json) (s : string) : bool :=
  match v with JStr t => bool_decide (t = s) | _ => false end.

(** [n == v] for an integer [n]: booleans and floats compare by value. *)
Definition eq_int (v : json) (n : Z) : bool :=
  match v with
  | JInt z => bool_decide (z = n)
  | JBool b => bool_decide ((if b then 1 else 0) = n)
  | JFloat (S754_zero _) => bool_decide (n = 0)
  | JFloat (S754_finite s m e) =>
      let m := if s then Z.neg m else Z.pos m in
      if decide (0 ≤ e) then bool_decide (m * 2 ^ e = n) else bool_decide (m = n * 2 ^ (- e))
  | _ => false
  end.

(** ** [int(text, 0)] *)

(** The white space [int] and [bytes.fromhex] skip. *)
Definition is_cspace (c : ascii) : bool := bool_decide (9 ≤ code c ≤ 13 ∨ code c = 32).

(** [int] first turns the non-ASCII white space into blanks. *)
Definition int_space (c : ascii) : bool :=
  is_cspace c || bool_decide (code c = 133 ∨ code c = 160).

Fixpoint drop_while (P : ascii → bool) (s : string) : string :=
  match s with
  | String c s' => if P c then drop_while P s' else s
  | EmptyString => EmptyString
  end.

Definition strip_by (P : ascii → bool) (s : string) : string :=
  str_rev (drop_while P (str_rev (drop_while P s) EmptyString)) EmptyString.

(** Digits of a base separated by single underscores: the value and the number
    of digits.  [prev] holds when the previous character is a digit. *)
Fixpoint digits (base : Z) (s : string) (prev : bool) (acc : Z) (n : nat) : option (Z * nat) :=
  match s with
  | EmptyString => if prev then Some (acc, n) else None
  | String c s =>
      if decide (code c = 95) then (if prev then digits base s false acc n else None)
      else match digit_val c with
           | Some d => if decide (d < base) then digits base s true (acc * base + d) (S n) else None
           | None => None
           end
  end.

(** A decimal literal has at most [sys.get_int_max_str_digits()] digits. *)
Definition MAX_STR_DIGITS : nat := 4300.

Definition decimal (s : string) : option Z :=
  match digits 10 s false 0 0 with
  | Some (z, n) => if decide (n ≤ MAX_STR_DIGITS)%nat then Some z else None
  | None => None
  end.

(** The digits after a base prefix; one underscore may follow the prefix. *)
Definition prefixed (base : Z) (s : string) : option Z :=
  let s := match s with String "_" s' => s' | _ => s end in
  fst <$> digits base s false 0 0.

Definition unsigned_literal (s : string) : option Z :=
  match s with
  | String "0" (String c rest) =>
      match digit_val c with
      | Some 33 => prefixed 16 rest      (* x, X *)
      | Some 24 => prefixed 8 rest       (* o, O *)
      | Some 11 => prefixed 2 rest       (* b, B *)
      | _ => z ← decimal s; if decide (z = 0) then Some 0 else None
      end
  | _ => decimal s
  end.

(** [int(s, 0)], [None] for [ValueError] *)
Definition int_literal (s : string) : option Z :=
  match strip_by int_space s with
  | String "+" s => unsigned_literal s
  | String "-" s => Z.opp <$> unsigned_literal s
  | s => unsigned_literal s
  end.

(** ** [bytes.fromhex(text)], [None] for [ValueError] *)

Definition hex_val (c : ascii) : option Z :=
  d ← digit_val c; if decide (d < 16) then Some d else None.

Fixpoint fromhex (s : string) : option bytes :=
  match s with
  | EmptyString => Some []
  | String c s =>
      if is_cspace c then fromhex s
      else match s with
           | EmptyString => None
           | String d s => h ← hex_val c; l ← hex_val d; b ← fromhex s; Some (byte_of (16 * h + l) :: b)
           end
  end.

(** ** [repr(s)] *)

Definition printable (c : ascii) : bool :=
  bool_decide ((32 ≤ code c < 127) ∨ (161 ≤ code c ∧ code c ≠ 173)).

Definition QUOTE : ascii := char_of 39.
Definition DQUOTE : ascii := char_of 34.

Definition repr_char (quote c : ascii) : string :=
  if decide (c = quote ∨ code c = 92) then String (char_of 92) (String c "")
  else if decide (code c = 9) then "\t"
  else if decide (code c = 10) then "\n"
  else if decide (code c = 13) then "\r"
  else if printable c then String c ""
  else "\x" +:+ zfill 2 (fmt_x (code c)).

Fixpoint repr_body (quote : ascii) (s : string) : string :=
  match s with
  | EmptyString => ""
  | String c s => repr_char quote c +:+ repr_body quote s
  end.

Definition repr_str (s : string) : string :=
  let quote :=
    if contains (String QUOTE "") s && negb (contains (String DQUOTE "") s) then DQUOTE else QUOTE in
  String quote (repr_body quote s +:+ String quote "").

(** ** Checks against CPython *)

Example int_literals :
  map int_literal ["0xE0"; " +0X_1f "; "-0o17"; "0b101"; "00"; "0_0"; "1_000"]
  = [Some 224; Some 31; Some (-15); Some 5; Some 0; Some 0; Some 1000].
Proof. by_compute. Qed.

Example int_errors :
  map int_literal [""; "01"; "_1"; "1_"; "1__0"; "0x"; "0b12"; "- 5"; "12a"] = replicate 9 None.
Proof. by_compute. Qed.

Example fromhex_examples :
  map fromhex ["00 1F"; "0 011"; "0g"; "abc"]
  = [Some [Byte.x00; Byte.x1f]; None; None; None].
Proof. by_compute. Qed.

(** [fromhex] inverts the two-digit rendering of [bytes.hex]. *)
Fixpoint to_hex (b : bytes) : string :=
  match b with
  | [] => ""
  | x :: b => String (hex_digit (bz x / 16)) (String (hex_digit (bz x mod 16)) (to_hex b))
  end.

Lemma hex_digit_props d :
  0 ≤ d < 16 → hex_val (hex_digit d) = Some d ∧ is_cspace (hex_digit d) = false.
Proof.
  intros Hd.
  assert (Forall (λ d, hex_val (hex_digit d) = Some d ∧ is_cspace (hex_digit d) = false)
    (seqZ 0 16)) as HF by by_decide.
  rewrite Forall_forall in HF. apply HF, elem_of_seqZ. lia.
Qed.

Lemma fromhex_to_hex b : fromhex (to_hex b) = Some b.
Proof.
  induction b as [|x b IH]; [done|]. cbn [to_hex fromhex].
  pose proof (byte.unsigned_range x) as Hx. unfold bz in *.
  destruct (hex_digit_props (byte.unsigned x / 16)) as [Hh Hs];
    [split; [apply Z.div_pos; lia | apply Z.div_lt_upper_bound; lia]|].
  destruct (hex_digit_props (byte.unsigned x mod 16)) as [Hl _]; [apply Z.mod_pos_bound; lia|].
  rewrite Hs, Hh, Hl. cbn. rewrite IH. cbn. do 2 f_equal.
  rewrite <- Z.div_mod by lia. apply byte.of_Z_unsigned.
Qed.
