(* ===== verification/Regex.v ===== *)
(** * Python regular expressions

    The part of [re] the tools use: literals, character classes, groups (plain,
    named, non-capturing), alternation, greedy repetition, anchors with and
    without [MULTILINE], and lookahead.  [compile] reads a pattern in Python's
    syntax, so the definitions of the development quote the patterns of the
    source; [matches] lists the ways a pattern matches at a position, in the
    order in which Python's backtracking matcher tries them. *)

From S2P Require Import Prelude PyStr.

(** ** Syntax *)

(** A character class: ranges of code points, possibly complemented. *)
Record cls := mkCls { negated : bool; ranges : list (Z * Z) }.

Inductive re :=
  | Eps
  | Chr (c : cls)
  | Lit (s : string)
  | Seq (a b : re)
  | Alt (a b : re)
  | Star (r : re)
  | Grp (name : string) (r : re)
  | Bol | Eol
  | Bos | Eos
  | Look (r : re).

Definition in_cls (k : cls) (c : ascii) : bool :=
  xorb (negated k) (existsb (λ r, Z.leb r.1 (code c) && Z.leb (code c) r.2) (ranges k)).

(** A repetition that takes at least one. *)
Definition Plus (r : re) : re := Seq r (Star r).
Definition Opt (r : re) : re := Alt r Eps.
Fixpoint Times (n : nat) (r : re) : re :=
  match n with O => Eps | S n => Seq r (Times n r) end.

(** The names of the capturing groups in order; an unnamed group has its number. *)
Fixpoint groups (r : re) : list string :=
  match r with
  | Seq a b | Alt a b => groups a ++ groups b
  | Star r | Look r => groups r
  | Grp n r => n :: groups r
  | _ => []
  end.

(** ** Matching *)

(** A position: the character before it, and the text from it on. *)
Record pos := mkPos { prev : option ascii; rest : string }.

(** What the groups captured, the latest capture first. *)
Abbreviation caps := (list (string * string)).

Definition at_newline (s : string) : bool :=
  match s with String c _ => bool_decide (code c = 10) | EmptyString => true end.

Definition after_newline (p : option ascii) : bool :=
  match p with Some c => bool_decide (code c = 10) | None => true end.

(** Reads the literal [l] at a position. *)
Fixpoint lit (l : string) (p : pos) : option pos :=
  match l, rest p with
  | EmptyString, _ => Some p
  | String a l, String b s => if decide (a = b) then lit l (mkPos (Some b) s) else None
  | String _ _, EmptyString => None
  end.

(** The text between two positions of the same subject. *)
Definition between (p q : pos) : string :=
  str_take (String.length (rest p) - String.length (rest q)) (rest p).

Definition when {A} (b : bool) (x : A) : list A := if b then [x] else [].

(** [r*]: one more round first, then none; a round that consumes nothing ends
    the loop.  [n] bounds the rounds by the characters left. *)
Fixpoint star (f : pos → caps → list (pos * caps)) (n : nat) (p : pos) (c : caps)
    : list (pos * caps) :=
  match n with
  | O => [(p, c)]
  | S n =>
      flat_map (λ q, if Nat.ltb (String.length (rest q.1)) (String.length (rest p))
                     then star f n q.1 q.2 else []) (f p c) ++ [(p, c)]
  end.

Fixpoint matches (r : re) (p : pos) (c : caps) : list (pos * caps) :=
  match r with
  | Eps => [(p, c)]
  | Chr k => match rest p with
             | String a s => when (in_cls k a) (mkPos (Some a) s, c)
             | EmptyString => []
             end
  | Lit l => match lit l p with Some q => [(q, c)] | None => [] end
  | Seq a b => flat_map (λ q, matches b q.1 q.2) (matches a p c)
  | Alt a b => matches a p c ++ matches b p c
  | Star a => star (matches a) (String.length (rest p)) p c
  | Grp n a => map (λ q, (q.1, (n, between p q.1) :: q.2)) (matches a p c)
  | Bol => when (after_newline (prev p)) (p, c)
  | Eol => when (at_newline (rest p)) (p, c)
  | Bos => when (bool_decide (prev p = None)) (p, c)
  | Eos => when (bool_decide (rest p = "" ∨ rest p = nl)) (p, c)
  | Look a => match matches a p c with [] => [] | q :: _ => [(p, q.2)] end
  end.

(** ** [re.search], [re.findall] *)

Record mtch := mkMatch { m_text : string; m_caps : caps; m_end : pos }.

(** [m.group(name)] of a group that took part in the match. *)
Fixpoint assoc (n : string) (c : caps) : option string :=
  match c with
  | [] => None
  | (k, v) :: c => if decide (k = n) then Some v else assoc n c
  end.
Definition group (m : mtch) (n : string) : string := default "" (assoc n (m_caps m)).

(** The match at a position, if any. *)
Definition match_at (r : re) (p : pos) : option mtch :=
  match matches r p [] with
  | [] => None
  | q :: _ => Some (mkMatch (between p q.1) q.2 q.1)
  end.

(** The leftmost match from a position on. *)
Fixpoint search_from (r : re) (before : option ascii) (s : string) : option mtch :=
  match match_at r (mkPos before s) with
  | Some m => Some m
  | None => match s with
            | EmptyString => None
            | String c s => search_from r (Some c) s
            end
  end.

(** [re.search(pattern, s)] *)
Definition search (r : re) (s : string) : option mtch := search_from r None s.

(** [list(re.finditer(pattern, s))]; after an empty match the scan moves on by
    one character. *)
Fixpoint finditer_fuel (n : nat) (r : re) (p : pos) : list mtch :=
  match n with
  | O => []
  | S n =>
      match search_from r (prev p) (rest p) with
      | None => []
      | Some m =>
          m :: match m_text m, rest (m_end m) with
               | EmptyString, EmptyString => []
               | EmptyString, String c s => finditer_fuel n r (mkPos (Some c) s)
               | _, _ => finditer_fuel n r (m_end m)
               end
      end
  end.

Definition finditer (r : re) (s : string) : list mtch :=
  finditer_fuel (S (String.length s)) r (mkPos None s).

(** [re.findall(pattern, s)] of a pattern with several groups: tuples of texts. *)
Definition findall (r : re) (s : string) : list (list string) :=
  map (λ m, map (group m) (groups r)) (finditer r s).

(** [re.findall(pattern, s)] of a pattern with one group, or with none. *)
Definition findall1 (r : re) (s : string) : list string :=
  map (λ m, match groups r with [n] => group m n | _ => m_text m end) (finditer r s).

(** ** [re.compile] *)

Definition char_cls (c : ascii) : cls := mkCls false [(code c, code c)].
Definition digit_cls : cls := mkCls false [(48, 57)].
Fixpoint any_of (l : list string) : re :=
  match l with [] => Chr (mkCls false []) | s :: l => Alt (Lit s) (any_of l) end.

(** White space: the ASCII characters, and the others by their encoding. *)
Definition space_re : re := Alt (Chr (mkCls false [(9, 13); (28, 32)])) (any_of WIDE_SPACES).
Definition any_cls : cls := mkCls true [(10, 10)].

(** The character an escape stands for, apart from [\d] and [\s]. *)
Definition escaped (c : ascii) : ascii :=
  match code c with 110 => char_of 10 | 114 => char_of 13 | 116 => char_of 9 | _ => c end.

(** The ranges of a bracketed class up to its closing bracket. *)
Fixpoint parse_ranges (fuel : nat) (s : string) (acc : list (Z * Z)) : option (list (Z * Z) * string) :=
  match fuel with
  | O => None
  | S fuel =>
      match s with
      | String "]" s => Some (rev acc, s)
      | String "\" (String c s) => parse_ranges fuel s ((code (escaped c), code (escaped c)) :: acc)
      | String a (String "-" (String "]" s)) => Some (rev ((45, 45) :: (code a, code a) :: acc), s)
      | String a (String "-" (String b s)) => parse_ranges fuel s ((code a, code b) :: acc)
      | String a s => parse_ranges fuel s ((code a, code a) :: acc)
      | EmptyString => None
      end
  end.

(** Sequencing that merges literal text. *)
Definition seq_re (a b : re) : re :=
  match a, b with
  | Eps, _ => b
  | _, Eps => a
  | Lit s, Lit t => Lit (s +:+ t)
  | Lit s, Seq (Lit t) r => Seq (Lit (s +:+ t)) r
  | _, _ => Seq a b
  end.

(** Reads [name>] of [(?P<name>...)]. *)
Fixpoint parse_name (s acc : string) : option (string * string) :=
  match s with
  | EmptyString => None
  | String ">" s => Some (acc, s)
  | String c s => parse_name s (acc +:+ String c "")
  end.

(** Reads [n}] of [{n}]. *)
Fixpoint parse_count (s : string) (acc : nat) : option (nat * string) :=
  match s with
  | String "}" s => Some (acc, s)
  | String c s => d ← digit_val c; parse_count s (acc * 10 + Z.to_nat d)
  | EmptyString => None
  end.

(** Applies the quantifier at the front of the text, if there is one. *)
Definition quantify (r : re) (s : string) : option (re * string) :=
  match s with
  | String "?" s => Some (Opt r, s)
  | String "+" s => Some (Plus r, s)
  | String "*" s => Some (Star r, s)
  | String "{" s => '(n, s) ← parse_count s 0; Some (Times n r, s)
  | _ => Some (r, s)
  end.

(** The parser threads the number of groups opened so far.  [parse_alt] stops
    at a closing parenthesis or at the end. *)
Fixpoint parse_alt (fuel : nat) (multi : bool) (n : nat) (s : string) : option (re * nat * string) :=
  match fuel with
  | O => None
  | S fuel =>
      '(a, n, s) ← parse_seq fuel multi n s;
      match s with
      | String "|" s => '(b, n, s) ← parse_alt fuel multi n s; Some (Alt a b, n, s)
      | _ => Some (a, n, s)
      end
  end
with parse_seq (fuel : nat) (multi : bool) (n : nat) (s : string) : option (re * nat * string) :=
  match fuel with
  | O => None
  | S fuel =>
      match s with
      | EmptyString | String "|" _ | String ")" _ => Some (Eps, n, s)
      | _ =>
          '(a, n, s) ← parse_atom fuel multi n s;
          '(a, s) ← quantify a s;
          '(b, n, s) ← parse_seq fuel multi n s;
          Some (seq_re a b, n, s)
      end
  end
with parse_atom (fuel : nat) (multi : bool) (n : nat) (s : string) : option (re * nat * string) :=
  match fuel with
  | O => None
  | S fuel =>
      let close (r : option (re * nat * string)) :=
        '(a, n, s) ← r; match s with String ")" s => Some (a, n, s) | _ => None end in
      match s with
      | String "^" s => Some ((if multi then Bol else Bos), n, s)
      | String "$" s => Some ((if multi then Eol else Eos), n, s)
      | String "." s => Some (Chr any_cls, n, s)
      | String "\" (String "d" s) => Some (Chr digit_cls, n, s)
      | String "\" (String "s" s) => Some (space_re, n, s)
      | String "\" (String c s) => Some (Lit (String (escaped c) ""), n, s)
      | String "[" (String "^" s) =>
          '(k, s) ← parse_ranges fuel s []; Some (Chr (mkCls true k), n, s)
      | String "[" s => '(k, s) ← parse_ranges fuel s []; Some (Chr (mkCls false k), n, s)
      | String "(" (String "?" (String ":" s)) => close (parse_alt fuel multi n s)
      | String "(" (String "?" (String "=" s)) =>
          '(a, n, s) ← close (parse_alt fuel multi n s); Some (Look a, n, s)
      | String "(" (String "?" (String "P" (String "<" s))) =>
          '(name, s) ← parse_name s "";
          '(a, n, s) ← close (parse_alt fuel multi (S n) s); Some (Grp name a, n, s)
      | String "(" s =>
          '(a, n', s) ← close (parse_alt fuel multi (S n) s);
          Some (Grp (pretty (S n)) a, n', s)
      | String c s => Some (Lit (String c ""), n, s)
      | EmptyString => None
      end
  end.

(** [re.compile(pattern, re.MULTILINE if multi else 0)]; a leading [(?m)] sets
    the flag too.  The fuel covers three calls per character. *)
Definition compile_opt (multi : bool) (pattern : string) : option re :=
  let multi := multi || startswith "(?m)" pattern in
  let pattern := removeprefix "(?m)" pattern in
  match parse_alt (3 * String.length pattern + 4) multi 0 pattern with
  | Some (r, _, EmptyString) => Some r
  | _ => None
  end.

Definition compile (multi : bool) (pattern : string) : re :=
  default Eps (compile_opt multi pattern).

(** [re.escape(text)] *)
Definition escape_char (c : ascii) : string :=
  if existsb (Z.eqb (code c))
       [9; 10; 11; 12; 13; 32; 35; 36; 38; 40; 41; 42; 43; 45; 46; 63; 91; 92; 93; 94; 123; 124; 125; 126]
  then String (char_of 92) (String c "") else String c "".
Fixpoint re_escape (s : string) : string :=
  match s with
  | EmptyString => ""
  | String c s => escape_char c +:+ re_escape s
  end.

(** ** Checks against CPython *)

Example search_greedy :
  (λ m, (m_text m, group m "1", group m "2")) <$>
    search (compile false "a=(\d+)/(-?\d+)( x|)") "zz a=12/-3 x a=4/5"
  = Some ("a=12/-3 x", "12", "-3").
Proof. by_compute. Qed.

Example findall_lines :
  findall (compile true "^n=(?P<n>[0-9a-f]{2}) (.*)\r?$") ("n=0a x" +:+ cr +:+ nl +:+ "n=zz y" +:+ nl +:+ "n=ff ")
  = [["0a"; "x" +:+ cr]; ["ff"; ""]].
Proof. by_compute. Qed.
