(* ===== verification/RegexLines.v ===== *)
(** * Line patterns

    A pattern [^text...$] of [MULTILINE] mode whose parts consume no line feed
    matches within one line.  The theorem [finditer_lines] makes this precise:
    scanning a log is the same as matching each of its lines on its own. *)

From S2P Require Import Prelude PyStr Regex.

Definition NL : ascii := char_of 10.

(** A text without line feeds. *)
Fixpoint no_nl (s : string) : bool :=
  match s with
  | EmptyString => true
  | String c s => negb (bool_decide (code c = 10)) && no_nl s
  end.

(** A pattern that consumes no line feed and looks at nothing but the text it
    consumes and the end of the line. *)
Fixpoint local (r : re) : bool :=
  match r with
  | Eps | Eol => true
  | Chr k => negb (in_cls k NL)
  | Lit s => no_nl s
  | Seq a b | Alt a b => local a && local b
  | Star a | Grp _ a => local a
  | Bol | Bos | Eos | Look _ => false
  end.

(** A pattern that ends with [$]. *)
Fixpoint to_eol (r : re) : bool :=
  match r with
  | Eol => true
  | Seq _ b => to_eol b
  | _ => false
  end.

(** ** Strings *)

Lemma str_length_app a b : String.length (a +:+ b) = (String.length a + String.length b)%nat.
Proof. induction a as [|c a IH]; [done|]. rewrite str_app_cons. simpl. by rewrite IH. Qed.

Lemma str_take_app n a b :
  (n ≤ String.length a)%nat → str_take n (a +:+ b) = str_take n a.
Proof.
  revert a. induction n as [|n IH]; intros a Hn; [by destruct a|].
  destruct a as [|c a]; simpl in Hn; [lia|]. rewrite str_app_cons. simpl. f_equal. apply IH. lia.
Qed.

Lemma str_take_length a b : str_take (String.length a) (a +:+ b) = a.
Proof.
  induction a as [|c a IH]; [by destruct b|]. rewrite str_app_cons. simpl. by rewrite IH.
Qed.

Lemma no_nl_app a b : no_nl (a +:+ b) = no_nl a && no_nl b.
Proof.
  induction a as [|c a IH]; [done|]. rewrite str_app_cons. simpl. by rewrite IH, andb_assoc.
Qed.

(** ** Matching consumes a prefix *)

Definition suffix_of (q p : pos) : Prop := ∃ u, rest p = u +:+ rest q.

Lemma suffix_refl p : suffix_of p p.
Proof. by exists "". Qed.

Lemma suffix_trans p q r : suffix_of r q → suffix_of q p → suffix_of r p.
Proof.
  unfold suffix_of. intros [u Hu] [v Hv]. exists (v +:+ u). by rewrite Hv, Hu, str_app_assoc.
Qed.

Lemma suffix_length q p : suffix_of q p → (String.length (rest q) ≤ String.length (rest p))%nat.
Proof. intros [u ->]. rewrite str_length_app. lia. Qed.

Lemma suffix_no_nl q p : suffix_of q p → no_nl (rest p) = true → no_nl (rest q) = true.
Proof. intros [u ->]. rewrite no_nl_app. by intros [_ ?]%andb_true_iff. Qed.

(** A position inside a line: the character before it is not a line feed. *)
Definition inside (p : pos) : Prop := ∃ c, prev p = Some c ∧ code c ≠ 10.

(** [q] comes after [p] in the same text; within a line it stays inside. *)
Definition follows (q p : pos) : Prop :=
  suffix_of q p ∧ (no_nl (rest p) = true → inside p → inside q).

Lemma follows_refl p : follows p p.
Proof. split; [apply suffix_refl | auto]. Qed.

Lemma follows_trans p q r : follows r q → follows q p → follows r p.
Proof.
  intros [H1 H2] [H3 H4]. split; [by eapply suffix_trans|]. eauto using suffix_no_nl.
Qed.

Lemma follows_char b c s : follows (mkPos (Some c) s) (mkPos b (String c s)).
Proof.
  split; [by exists (String c "")|]. simpl. intros [Hc _]%andb_true_iff _. exists c. split; [done|].
  by apply negb_true_iff, bool_decide_eq_false in Hc.
Qed.

Lemma lit_spec l p q : lit l p = Some q → rest p = l +:+ rest q ∧ follows q p.
Proof.
  revert p. induction l as [|a l IH]; intros [pr s]; simpl.
  - intros [= <-]. split; [done | apply follows_refl].
  - destruct s as [|b s]; [done|]. case_decide as E; [|done]. subst. intros [H1 H2]%IH. simpl in H1.
    split; [by rewrite str_app_cons, H1|]. eapply follows_trans; [exact H2 | apply follows_char].
Qed.

Lemma star_follows f n p c q :
  (∀ p c q, q ∈ f p c → follows q.1 p) → q ∈ star f n p c → follows q.1 p.
Proof.
  intros Hf. revert p c. induction n as [|n IH]; intros p c; simpl.
  - intros ->%list_elem_of_singleton. apply follows_refl.
  - rewrite elem_of_app, list_elem_of_singleton. intros [H| ->]; [|apply follows_refl].
    apply list_elem_of_In, in_flat_map in H as (x & Hx & H).
    destruct (Nat.ltb _ _); [|done]. apply list_elem_of_In in Hx, H.
    eapply follows_trans; [by apply (IH x.1 x.2) | by eapply Hf].
Qed.

Lemma matches_follows r p c q : q ∈ matches r p c → follows q.1 p.
Proof.
  revert p c q. induction r as [|k|l|a IHa d IHd|a IHa d IHd|a IHa|n a IHa| | | | |a IHa];
    intros p c q; simpl; unfold when;
    repeat case_match; rewrite ?list_elem_of_singleton, ?elem_of_nil; try done;
    try (intros ->; apply follows_refl).
  - intros ->. destruct p as [b s']. simpl in *. subst. apply follows_char.
  - intros ->. by eapply lit_spec.
  - intros H. apply list_elem_of_In, in_flat_map in H as (x & Hx & H).
    apply list_elem_of_In in Hx, H. eapply follows_trans; eauto.
  - rewrite elem_of_app. intros [?|?]; eauto.
  - intros H. eapply star_follows; [|exact H]. eauto.
  - intros (x & -> & Hx)%list_elem_of_fmap. simpl. eauto.
Qed.

Lemma matches_suffix r p c q : q ∈ matches r p c → suffix_of q.1 p.
Proof. intros H. by apply matches_follows in H as []. Qed.

(** Any fuel that covers the text gives the same matches. *)
Lemma star_fuel f n m p c :
  (String.length (rest p) ≤ n)%nat → (String.length (rest p) ≤ m)%nat → star f n p c = star f m p c.
Proof.
  assert (∀ n p c, (String.length (rest p) ≤ n)%nat →
    star f n p c = star f (String.length (rest p)) p c) as H; [|by intros; rewrite H, (H m)].
  clear. intros n. induction n as [n IH] using lt_wf_ind. intros p c Hn.
  destruct n as [|n]; [by replace (String.length (rest p)) with 0%nat by lia|].
  destruct (String.length (rest p)) as [|k] eqn:E; simpl.
  - rewrite E. by induction (f p c).
  - f_equal. apply flat_map_ext. intros x. rewrite E.
    destruct (Nat.ltb_spec (String.length (rest x.1)) (S k)); [|done].
    rewrite (IH n), (IH k) by lia. done.
Qed.

(** ** Locality *)

(** A text that follows a line: nothing, or a line feed and more. *)
Definition line_end (t : string) : bool :=
  match t with EmptyString => true | String c _ => bool_decide (c = NL) end.

Definition ext (t : string) (q : pos * caps) : pos * caps :=
  (mkPos (prev q.1) (rest q.1 +:+ t), q.2).

Lemma flat_map_map {A B C} (f : B → list C) (g : A → B) l :
  flat_map f (map g l) = flat_map (λ x, f (g x)) l.
Proof. induction l as [|x l IH]; simpl; [done|]. by rewrite IH. Qed.

Lemma map_flat_map {A B C} (g : B → C) (f : A → list B) l :
  map g (flat_map f l) = flat_map (λ x, map g (f x)) l.
Proof. induction l as [|x l IH]; simpl; [done|]. by rewrite map_app, IH. Qed.

Lemma flat_map_ext_in {A B} (f g : A → list B) l :
  (∀ x, x ∈ l → f x = g x) → flat_map f l = flat_map g l.
Proof.
  induction l as [|x l IH]; simpl; [done|]. intros H.
  rewrite IH by (intros; apply H; by right). by rewrite H by left.
Qed.

Lemma lit_local l b s t :
  no_nl l = true → no_nl s = true → line_end t = true →
  lit l (mkPos b (s +:+ t)) = (λ q, mkPos (prev q) (rest q +:+ t)) <$> lit l (mkPos b s).
Proof.
  revert b s. induction l as [|a l IH]; intros b s Hl Hs Ht; simpl; [done|].
  simpl in Hl. apply andb_true_iff in Hl as [Ha Hl].
  destruct s as [|x s]; simpl.
  - destruct t as [|x t]; simpl in *; [done|]. apply bool_decide_eq_true in Ht as ->.
    destruct (decide (a = NL)) as [->|?]; [vm_compute in Ha; discriminate Ha | reflexivity].
  - simpl in Hs. apply andb_true_iff in Hs as [Hx Hs]. destruct (decide (a = x)); [by apply IH | reflexivity].
Qed.

Lemma at_newline_ext s t :
  no_nl s = true → line_end t = true → at_newline (s +:+ t) = at_newline s.
Proof.
  destruct s as [|c s]; simpl.
  - destruct t as [|c t]; [done|]. simpl. intros _ ->%bool_decide_eq_true. done.
  - done.
Qed.

Lemma matches_local r b s t c :
  local r = true → no_nl s = true → line_end t = true →
  matches r (mkPos b (s +:+ t)) c = map (ext t) (matches r (mkPos b s) c).
Proof.
  intros Hr Hs Ht. revert b s c Hr Hs.
  induction r as [|k|l|a IHa d IHd|a IHa d IHd|a IHa|n a IHa| | | | |]; intros b s c Hr Hs;
    simpl in *; try done.
  - destruct s as [|x s]; simpl.
    + destruct t as [|x t]; simpl in *; [done|]. apply bool_decide_eq_true in Ht as ->.
      by destruct (in_cls k NL).
    + by destruct (in_cls k x).
  - rewrite lit_local by done. by destruct (lit l (mkPos b s)).
  - apply andb_true_iff in Hr as [Ha Hd]. rewrite IHa, flat_map_map, map_flat_map by done.
    apply flat_map_ext_in. intros [[b' s'] c'] Hin. apply matches_suffix in Hin.
    apply IHd; [done|]. by eapply (suffix_no_nl (mkPos b' s')).
  - apply andb_true_iff in Hr as [Ha Hd]. by rewrite IHa, IHd, map_app.
  - rewrite (star_fuel _ _ (String.length (s +:+ t)) (mkPos b s))
      by (simpl; rewrite ?str_length_app; lia).
    generalize (String.length (s +:+ t)). intros n. revert b s c Hs.
    induction n as [|n IHn]; intros b s c Hs; simpl; [done|].
    rewrite IHa, flat_map_map, map_app, map_flat_map by done. f_equal.
    apply flat_map_ext_in. intros [[b' s'] c'] Hin. simpl. rewrite !str_length_app.
    apply matches_suffix in Hin. apply suffix_no_nl in Hin; [|done].
    destruct (Nat.ltb_spec (String.length s') (String.length s)),
      (Nat.ltb_spec (String.length s' + String.length t) (String.length s + String.length t));
      try lia; [|done]. by apply IHn.
  - rewrite IHa, !map_map by done. apply map_ext_in. intros [[b' s'] c'] Hin.
    apply list_elem_of_In, matches_suffix, suffix_length in Hin. unfold ext, between.
    simpl in *. do 3 f_equal. rewrite !str_length_app.
    replace (String.length s + String.length t - (String.length s' + String.length t))%nat
      with (String.length s - String.length s')%nat by lia.
    apply str_take_app. lia.
  - unfold when. rewrite at_newline_ext by done. by destruct (at_newline s).
Qed.

(** A match of a pattern that ends with [$] takes its line to the end. *)
Lemma to_eol_rest r p c q :
  to_eol r = true → no_nl (rest p) = true → q ∈ matches r p c → rest q.1 = "".
Proof.
  revert p c q. induction r as [|k|l|a IHa d IHd|a IHa d IHd|a IHa|n a IHa| | | | |a IHa];
    intros p c q Hr Hp; simpl in Hr; try done; simpl.
  - intros H. apply list_elem_of_In, in_flat_map in H as (x & Hx & H).
    apply list_elem_of_In in Hx, H. apply matches_suffix in Hx.
    eapply IHd; [done| |exact H]. by eapply suffix_no_nl.
  - unfold when. destruct (at_newline (rest p)) eqn:E; [|by intros ?%elem_of_nil].
    intros ->%list_elem_of_singleton. simpl.
    destruct (rest p) as [|x s]; [done|]. simpl in *. rewrite E in Hp. done.
Qed.

(** ** Scanning a log line by line *)

(** [s.split("\n")] *)
Fixpoint split_nl_acc (s cur : string) : list string :=
  match s with
  | EmptyString => [cur]
  | String c s =>
      if decide (c = NL) then cur :: split_nl_acc s ""
      else split_nl_acc s (cur +:+ String c "")
  end.
Definition split_nl (s : string) : list string := split_nl_acc s "".

Lemma nl_NL : nl = String NL "".
Proof. reflexivity. Qed.

Lemma NL_code c : c ≠ NL → code c ≠ 10.
Proof.
  intros Hc E. apply Hc. unfold NL, char_of. change (Z.to_N 10) with 10%N.
  rewrite <- (Ascii.ascii_N_embedding c). f_equal. unfold code in E. lia.
Qed.

Lemma str_join_cons l ls : ls ≠ [] → str_join nl (l :: ls) = l +:+ nl +:+ str_join nl ls.
Proof. by destruct ls. Qed.

Lemma split_nl_acc_ne s cur : split_nl_acc s cur ≠ [].
Proof. revert cur. induction s; intros cur; simpl; [done|]. by case_decide. Qed.

Lemma split_nl_acc_join s cur : str_join nl (split_nl_acc s cur) = cur +:+ s.
Proof.
  revert cur. induction s as [|c s IH]; intros cur; cbn [split_nl_acc].
  - simpl. by rewrite str_app_nil.
  - case_decide as E.
    + subst. rewrite str_join_cons by apply split_nl_acc_ne. by rewrite IH.
    + rewrite IH, <- str_app_assoc. reflexivity.
Qed.

Lemma split_nl_join s : str_join nl (split_nl s) = s.
Proof. apply split_nl_acc_join. Qed.

Lemma split_nl_no_nl s cur :
  no_nl cur = true → Forall (λ l, no_nl l = true) (split_nl_acc s cur).
Proof.
  revert cur. induction s as [|c s IH]; intros cur Hc; cbn [split_nl_acc].
  - by repeat constructor.
  - case_decide as E.
    + constructor; [done|]. by apply IH.
    + apply IH. rewrite no_nl_app, Hc. simpl. by rewrite bool_decide_false by by apply NL_code.
Qed.

(** Splitting a log at its line feeds undoes joining lines with them. *)
Lemma split_nl_acc_app l s cur :
  no_nl l = true → split_nl_acc (l +:+ nl +:+ s) cur = (cur +:+ l) :: split_nl_acc s "".
Proof.
  revert cur. induction l as [|c l IH]; intros cur Hl.
  - rewrite str_app_nil. reflexivity.
  - rewrite str_app_cons. cbn [split_nl_acc]. simpl in Hl. apply andb_true_iff in Hl as [Hc Hl].
    rewrite decide_False; [|intros ->; vm_compute in Hc; discriminate Hc].
    rewrite IH by done. by rewrite <- str_app_assoc.
Qed.

Section line_pattern.
Context (a : ascii) (s0 : string) (r : re).
Let R : re := Seq Bol (Seq (Lit (String a s0)) r).

Context (Hlit : no_nl (String a s0) = true) (Hlocal : local r = true) (Heol : to_eol r = true).

(** What a line contributes: the captures of its match, if it matches. *)
Definition match_line (l : string) : option caps := m_caps <$> match_at R (mkPos None l).

Lemma matches_R b s : after_newline b = true →
  matches R (mkPos b s) [] = matches (Seq (Lit (String a s0)) r) (mkPos None s) [].
Proof.
  intros Hb. unfold R. cbn [matches]. unfold when. cbn [prev]. rewrite Hb. cbn [flat_map fst snd].
  rewrite app_nil_r. by destruct s.
Qed.

Lemma match_at_inside b s : after_newline b = false → match_at R (mkPos b s) = None.
Proof. intros Hb. unfold match_at, R. cbn [matches]. unfold when. cbn [prev]. by rewrite Hb. Qed.

Lemma match_at_line b l t :
  after_newline b = true → no_nl l = true → line_end t = true →
  match_at R (mkPos b (l +:+ t))
  = (λ m, mkMatch l (m_caps m) (mkPos (prev (m_end m)) t)) <$> match_at R (mkPos None l).
Proof.
  intros Hb Hl Ht. unfold match_at. rewrite !matches_R by done.
  rewrite matches_local; [|by simpl in *; rewrite Hlit, Hlocal|done|done].
  destruct (matches _ (mkPos None l) []) as [|[[pq sq] cq] qs] eqn:E; [done|].
  cbn [map ext fst snd fmap option_fmap option_map m_caps m_end]. do 2 f_equal.
  - assert (sq = "") as ->.
    { apply (to_eol_rest (Seq (Lit (String a s0)) r) (mkPos None l) [] (mkPos pq sq, cq));
        [exact Heol | exact Hl | rewrite E; left]. }
    unfold between. cbn [rest prev]. rewrite !str_length_app. simpl String.length.
    replace (String.length l + String.length t - (0 + String.length t))%nat
      with (String.length l) by lia. apply str_take_length.
  - f_equal. assert (sq = "") as ->; [|done].
    apply (to_eol_rest (Seq (Lit (String a s0)) r) (mkPos None l) [] (mkPos pq sq, cq));
      [exact Heol | exact Hl | rewrite E; left].
Qed.

(** What is left to scan after the end of a line. *)
Definition search_tail (t : string) : option mtch :=
  match t with EmptyString => None | String c s => search_from R (Some c) s end.

Lemma search_skip c l t :
  code c ≠ 10 → no_nl l = true → search_from R (Some c) (l +:+ t) = search_tail t.
Proof.
  intros Hc Hl. revert c Hc. induction l as [|d l IH]; intros c Hc.
  - change ("" +:+ t) with t.
    assert (match_at R (mkPos (Some c) t) = None) as H
      by (apply match_at_inside; simpl; by rewrite bool_decide_false).
    destruct t; cbn [search_from]; by rewrite H.
  - rewrite str_app_cons. cbn [search_from].
    rewrite match_at_inside by (simpl; by rewrite bool_decide_false).
    simpl in Hl. apply andb_true_iff in Hl as [Hd Hl]. apply IH; [done|].
    by apply negb_true_iff, bool_decide_eq_false in Hd.
Qed.

Lemma search_line b l t :
  after_newline b = true → no_nl l = true → line_end t = true →
  search_from R b (l +:+ t)
  = match match_at R (mkPos None l) with
    | Some m => Some (mkMatch l (m_caps m) (mkPos (prev (m_end m)) t))
    | None => search_tail t
    end.
Proof.
  intros Hb Hl Ht. pose proof (match_at_line b l t Hb Hl Ht) as H.
  destruct (match_at R (mkPos None l)) as [m|] eqn:E; cbn [fmap option_fmap option_map] in H.
  - destruct (l +:+ t); cbn [search_from]; by rewrite H.
  - destruct l as [|d l].
    + change ("" +:+ t) with t in *. destruct t; cbn [search_from]; by rewrite H.
    + rewrite str_app_cons in *. cbn [search_from]. rewrite H.
      simpl in Hl. apply andb_true_iff in Hl as [Hd Hl]. apply search_skip; [|done].
      by apply negb_true_iff, bool_decide_eq_false in Hd.
Qed.

(** A match is not empty and ends after a character of its line. *)
Lemma match_line_end l m :
  no_nl l = true → match_at R (mkPos None l) = Some m →
  l ≠ "" ∧ inside (m_end m).
Proof.
  intros Hl. unfold match_at. rewrite matches_R by done. cbn [matches].
  destruct l as [|x l]; [done|]. cbn [lit rest]. case_decide as E; [|done]. subst x.
  destruct (lit s0 (mkPos (Some a) l)) as [p|] eqn:Hp; [|done]. cbn [flat_map fst snd].
  rewrite app_nil_r. destruct (matches r p []) as [|q qs] eqn:Hq; [done|].
  intros [= <-]. split; [done|]. cbn [m_end].
  assert (q ∈ matches r p []) as [_ Hin]%matches_follows by (rewrite Hq; left).
  simpl in Hl. apply andb_true_iff in Hl as [Ha Hl].
  apply lit_spec in Hp as [_ [Hs Hi]]. apply Hin; [by apply suffix_no_nl in Hs|].
  apply Hi; [done|]. exists a. split; [done|].
  by apply negb_true_iff, bool_decide_eq_false in Ha.
Qed.

Lemma finditer_join n b ls :
  ls ≠ [] → Forall (λ l, no_nl l = true) ls → after_newline b = true → (length ls ≤ n)%nat →
  map m_caps (finditer_fuel n R (mkPos b (str_join nl ls))) = omap match_line ls.
Proof.
  intros Hne Hls. revert n b Hne. induction Hls as [|l ls Hl Hls IH]; intros n b Hne Hb Hn; [done|].
  assert (∃ t, line_end t = true ∧ str_join nl (l :: ls) = l +:+ t
    ∧ (t = "" ∧ ls = [] ∨ t = nl +:+ str_join nl ls ∧ ls ≠ [])) as (t & Ht & -> & Hcase).
  { destruct ls as [|l' ls].
    - exists "". rewrite str_app_nil. auto.
    - exists (nl +:+ str_join nl (l' :: ls)). split; [done|]. split; [by apply str_join_cons|]. auto. }
  assert (∀ n pr, (length ls ≤ n)%nat → (∀ c, pr = Some c → code c ≠ 10) → pr ≠ None →
    map m_caps (finditer_fuel n R (mkPos pr t)) = omap match_line ls) as Hcont.
  { intros k pr Hk Hpr Hsome. destruct pr as [c|]; [|done]. specialize (Hpr c eq_refl).
    destruct Hcase as [[-> ->]|[-> Hls']].
    - destruct k; [done|]. cbn [finditer_fuel prev rest].
      change "" with ("" +:+ ""). by rewrite search_skip.
    - rewrite <- (IH k (Some NL)) by done. destruct k; [done|]. cbn [finditer_fuel prev rest].
      change (nl +:+ str_join nl ls) with ("" +:+ (nl +:+ str_join nl ls)).
      by rewrite search_skip. }
  cbn [omap list_omap]. simpl in Hn. destruct n as [|n]; [lia|].
  cbn [finditer_fuel prev rest]. rewrite search_line by done. unfold match_line at 1.
  destruct (match_at R (mkPos None l)) as [m|] eqn:E; cbn [fmap option_fmap option_map].
  - destruct (match_line_end l m Hl E) as (Hl' & c & Hc & Hcode).
    cbn [m_text m_end rest map m_caps]. destruct l as [|x l]; [done|]. cbn [map]. f_equal.
    apply Hcont; [lia | | by rewrite Hc]. rewrite Hc. by intros ? [= <-].
  - destruct Hcase as [[-> ->]|[-> Hls']]; [done|].
    rewrite <- (IH (S n) (Some NL)) by (done || lia). reflexivity.
Qed.

Lemma split_nl_acc_length s cur : (length (split_nl_acc s cur) ≤ S (String.length s))%nat.
Proof.
  revert cur. induction s as [|c s IH]; intros cur; simpl; [lia|].
  case_decide; simpl; [specialize (IH "") | specialize (IH (cur +:+ String c ""))]; lia.
Qed.

(** Scanning a text for a line pattern is matching each of its lines. *)
Theorem finditer_lines s : map m_caps (finditer R s) = omap match_line (split_nl s).
Proof.
  unfold finditer. rewrite <- (split_nl_join s) at 2.
  apply finditer_join; [apply split_nl_acc_ne | by apply split_nl_no_nl | done |].
  apply split_nl_acc_length.
Qed.
End line_pattern.
