(* ===== verification/LineTemplate.v ===== *)
(** * Telemetry line templates

    A telemetry line is fixed text with numbers in it.  A template gives both
    the pattern that reads such a line and the text a kernel driver prints;
    [template_round_trip] shows that the pattern captures exactly the printed
    numbers, and [int_of_render] that they read back as their values. *)

From S2P Require Import Prelude PyStr Regex RegexLines.

(** The number formats of the telemetry lines. *)
Inductive kind := KDec | KSigned | KHex | KHex8 | KBit.

Definition hex_cls : cls := mkCls false [(48, 57); (97, 102); (65, 70)].
Definition bit_cls : cls := mkCls false [(48, 48); (49, 49)].

Definition kind_re (k : kind) : re :=
  match k with
  | KDec => Plus (Chr digit_cls)
  | KSigned => Seq (Opt (Lit "-")) (Plus (Chr digit_cls))
  | KHex => Plus (Chr hex_cls)
  | KHex8 => Times 8 (Chr hex_cls)
  | KBit => Chr bit_cls
  end.

(** The printed form: [%d], [%x] and [%08x] of the drivers. *)
Definition render (k : kind) (z : Z) : string :=
  match k with
  | KDec | KSigned | KBit => fmt_d z
  | KHex => fmt_x z
  | KHex8 => fmt_08x z
  end.

(** The values a format prints. *)
Definition printable_as (k : kind) (z : Z) : Prop :=
  match k with
  | KDec | KHex => 0 ≤ z
  | KSigned => True
  | KHex8 => 0 ≤ z < 2 ^ 32
  | KBit => z = 0 ∨ z = 1
  end.

Definition base_of (k : kind) : Z := match k with KHex | KHex8 => 16 | _ => 10 end.

(** Text, then the key and format of a number; a template ends with text. *)
Abbreviation template := (list (string * string * kind)).

Fixpoint template_re (t : template) (fin : string) : re :=
  match t with
  | [] => Seq (Lit fin) (Seq (Opt (Lit cr)) Eol)
  | (text, key, k) :: t => Seq (Lit text) (Seq (Grp key (kind_re k)) (template_re t fin))
  end.

Fixpoint template_print (t : template) (fin : string) (v : string → Z) : string :=
  match t with
  | [] => fin
  | (text, key, k) :: t => text +:+ render k (v key) +:+ template_print t fin v
  end.

(** The captures of a printed line, the last number first. *)
Fixpoint template_caps (t : template) (v : string → Z) (c : caps) : caps :=
  match t with
  | [] => c
  | (_, key, k) :: t => template_caps t v ((key, render k (v key)) :: c)
  end.

(** A text that starts with a character no number contains. *)
Definition separates (s : string) : bool :=
  match s with String c _ => negb (in_cls hex_cls c) | EmptyString => false end.

(** Every text after a number separates it from the next. *)
Fixpoint separated (t : template) (fin : string) : bool :=
  match t with
  | [] => true
  | _ :: t => match t with
              | [] => separates fin
              | (text, _, _) :: _ => separates text
              end && separated t fin
  end.

(** ** Digits *)

Fixpoint all_in (k : cls) (s : string) : bool :=
  match s with EmptyString => true | String c s => in_cls k c && all_in k s end.

Lemma all_in_app k a b : all_in k (a +:+ b) = all_in k a && all_in k b.
Proof.
  induction a as [|c a IH]; [done|]. rewrite str_app_cons. simpl. by rewrite IH, andb_assoc.
Qed.

Lemma digits_app base acc a b :
  digits_to_Z base acc (a +:+ b) = digits_to_Z base (digits_to_Z base acc a) b.
Proof. revert acc. induction a as [|c a IH]; intros acc; [done|]. apply IH. Qed.

Lemma digits_acc base acc s :
  digits_to_Z base acc s = acc * base ^ Z.of_nat (String.length s) + digits_to_Z base 0 s.
Proof.
  revert acc. induction s as [|c s IH]; intros acc; cbn [digits_to_Z String.length].
  - rewrite Z.mul_1_r. lia.
  - rewrite IH, (IH (0 * base + _)), Nat2Z.inj_succ, Z.pow_succ_r by lia. ring.
Qed.

Lemma pretty_N_char_props d : (d < 10)%N →
  in_cls digit_cls (pretty_N_char d) = true ∧ digit_val (pretty_N_char d) = Some (Z.of_N d).
Proof.
  intros Hd.
  assert (Forall (λ d, in_cls digit_cls (pretty_N_char d) = true
                       ∧ digit_val (pretty_N_char d) = Some (Z.of_N d))
    [0; 1; 2; 3; 4; 5; 6; 7; 8; 9]%N) as HF by by_decide.
  rewrite Forall_forall in HF. apply HF.
  assert (d = 0 ∨ d = 1 ∨ d = 2 ∨ d = 3 ∨ d = 4 ∨ d = 5 ∨ d = 6 ∨ d = 7 ∨ d = 8 ∨ d = 9)%N by lia.
  rewrite !elem_of_cons. tauto.
Qed.

Lemma pretty_N_go_spec x s :
  ∃ ds, pretty_N_go x s = ds +:+ s ∧ all_in digit_cls ds = true
    ∧ digits_to_Z 10 0 ds = Z.of_N x ∧ (x ≠ 0%N → ds ≠ "").
Proof.
  revert s. induction (N.lt_wf_0 x) as [x _ IH]. intros s.
  destruct (decide (x = 0)%N) as [->|Hx].
  - exists "". rewrite pretty_N_go_0. done.
  - assert (x `div` 10 < x)%N as Hlt by (apply N.div_lt; lia).
    assert (x `mod` 10 < 10)%N as Hm by (by apply N.mod_lt).
    rewrite pretty_N_go_step by lia.
    destruct (IH _ Hlt (String (pretty_N_char (x `mod` 10)) s)) as (ds & -> & Hd & Hv & _).
    destruct (pretty_N_char_props _ Hm) as [Hc Hv'].
    exists (ds +:+ String (pretty_N_char (x `mod` 10)) "").
    split; [by rewrite <- str_app_assoc|]. split; [by rewrite all_in_app, Hd; simpl; rewrite Hc|].
    split; [|by destruct ds].
    rewrite digits_app. cbn [digits_to_Z]. rewrite Hv, Hv'. simpl.
    rewrite (N.div_mod x 10) at 3 by lia. lia.
Qed.

Lemma pretty_nonneg z : 0 ≤ z →
  all_in digit_cls (pretty z) = true ∧ digits_to_Z 10 0 (pretty z) = z ∧ pretty z ≠ "".
Proof.
  intros Hz. destruct z as [|p|p]; [done| |lia].
  change (pretty (Z.pos p)) with (pretty (N.pos p)). unfold pretty, pretty_N.
  rewrite decide_False by done.
  destruct (pretty_N_go_spec (N.pos p) "") as (ds & -> & H1 & H2 & H3).
  rewrite str_app_nil. auto.
Qed.

Lemma hex_digit_in d : 0 ≤ d < 16 →
  in_cls hex_cls (hex_digit d) = true ∧ digit_val (hex_digit d) = Some d.
Proof.
  intros Hd.
  assert (Forall (λ d, in_cls hex_cls (hex_digit d) = true ∧ digit_val (hex_digit d) = Some d)
    (seqZ 0 16)) as HF by by_decide.
  rewrite Forall_forall in HF. apply HF, elem_of_seqZ. lia.
Qed.

Lemma hex_fuel_spec n z acc : 0 ≤ z < 16 ^ Z.of_nat n → (0 < n)%nat →
  ∃ ds, hex_fuel n z acc = ds +:+ acc ∧ all_in hex_cls ds = true
    ∧ digits_to_Z 16 0 ds = z ∧ ds ≠ ""
    ∧ ∀ k, (0 < k)%nat → z < 16 ^ Z.of_nat k → (String.length ds ≤ k)%nat.
Proof.
  revert z acc. induction n as [|n IH]; intros z acc Hz Hn; [lia|].
  assert (0 ≤ z mod 16 < 16) as Hm by (apply Z.mod_pos_bound; lia).
  destruct (hex_digit_in _ Hm) as [Hc Hv]. pose proof (Z.div_mod z 16 ltac:(lia)) as Hdm.
  assert (0 ≤ z / 16) as H0 by (apply Z.div_pos; lia).
  cbn [hex_fuel]. case_decide as E.
  - exists (String (hex_digit (z mod 16)) ""). simpl. rewrite Hc, Hv. simpl.
    split; [done|]. split; [done|]. split; [lia|]. split; [done | intros; lia].
  - rewrite Nat2Z.inj_succ, Z.pow_succ_r in Hz by lia.
    assert (0 ≤ z / 16 < 16 ^ Z.of_nat n) as Hz' by (split; [lia | apply Z.div_lt_upper_bound; lia]).
    destruct n as [|n]; [simpl in Hz'; lia|].
    destruct (IH (z / 16) (String (hex_digit (z mod 16)) acc) Hz') as (ds & -> & Hd & Hs & _ & Hl);
      [lia|].
    exists (ds +:+ String (hex_digit (z mod 16)) "").
    split; [by rewrite <- str_app_assoc|]. split; [by rewrite all_in_app, Hd; simpl; rewrite Hc|].
    split; [|split; [by destruct ds|]].
    + rewrite digits_app. cbn [digits_to_Z]. rewrite Hs, Hv. simpl. lia.
    + intros k Hk Hzk. rewrite str_length_app. simpl. destruct k as [|[|k]]; [lia| |].
      * simpl in Hzk. lia.
      * specialize (Hl (S k)). rewrite (Nat2Z.inj_succ (S k)), Z.pow_succ_r in Hzk by lia.
        assert (z / 16 < 16 ^ Z.of_nat (S k)) by (apply Z.div_lt_upper_bound; lia). lia.
Qed.

Lemma fmt_x_spec z : 0 ≤ z →
  all_in hex_cls (fmt_x z) = true ∧ digits_to_Z 16 0 (fmt_x z) = z ∧ fmt_x z ≠ ""
  ∧ ∀ k, (0 < k)%nat → z < 16 ^ Z.of_nat k → (String.length (fmt_x z) ≤ k)%nat.
Proof.
  intros Hz. unfold fmt_x.
  destruct (hex_fuel_spec (S (Z.to_nat (Z.log2 z))) z "") as (ds & -> & H); [|lia|].
  - split; [done|]. destruct (decide (z = 0)) as [->|]; [done|].
    apply Z.lt_le_trans with (2 ^ Z.succ (Z.log2 z)); [apply Z.log2_spec; lia|].
    pose proof (Z.log2_nonneg z).
    rewrite Nat2Z.inj_succ, Z2Nat.id by done. apply Z.pow_le_mono_l. lia.
  - rewrite str_app_nil. tauto.
Qed.

Lemma zfill_spec base n s : (0 < base) →
  digits_to_Z base 0 (zfill_fuel n s) = digits_to_Z base 0 s
  ∧ all_in hex_cls (zfill_fuel n s) = all_in hex_cls s
  ∧ String.length (zfill_fuel n s) = (n + String.length s)%nat.
Proof.
  intros Hb. induction n as [|n (IH1 & IH2 & IH3)]; [done|].
  cbn [zfill_fuel digits_to_Z all_in String.length]. rewrite IH2, IH3.
  split; [exact IH1 | done].
Qed.

Lemma fmt_08x_spec z : 0 ≤ z < 2 ^ 32 →
  all_in hex_cls (fmt_08x z) = true ∧ digits_to_Z 16 0 (fmt_08x z) = z
  ∧ String.length (fmt_08x z) = 8%nat.
Proof.
  intros Hz. destruct (fmt_x_spec z) as (H1 & H2 & _ & H4); [lia|].
  unfold fmt_08x, zfill.
  destruct (zfill_spec 16 (8 - String.length (fmt_x z)) (fmt_x z)) as (E1 & E2 & E3); [lia|].
  rewrite E1, E2, E3. specialize (H4 8%nat ltac:(lia)). change (16 ^ Z.of_nat 8) with (2 ^ 32) in H4.
  split_and!; [done..|]. lia.
Qed.

(** ** Matching numbers *)

(** The first way to match a sequence goes through the first way to match its
    first part, when the rest succeeds from there. *)
Lemma seq_head a d p c q cq qs z zs :
  matches a p c = (q, cq) :: qs → matches d q cq = z :: zs →
  ∃ ys, matches (Seq a d) p c = z :: ys.
Proof. intros Ha Hd. simpl. rewrite Ha. simpl. rewrite Hd. by eexists. Qed.

Lemma lit_app l b s : ∃ b', lit l (mkPos b (l +:+ s)) = Some (mkPos b' s).
Proof.
  revert b. induction l as [|a l IH]; intros b; [by eexists|].
  rewrite str_app_cons. cbn [lit rest]. rewrite decide_True by done. apply IH.
Qed.

Definition stops (k : cls) (u : string) : bool :=
  match u with EmptyString => true | String c _ => negb (in_cls k c) end.

Lemma star_cls k n b w u c :
  all_in k w = true → stops k u = true → (String.length w ≤ n)%nat →
  ∃ b' qs, star (matches (Chr k)) n (mkPos b (w +:+ u)) c = (mkPos b' u, c) :: qs.
Proof.
  intros Hw Hu. revert n b Hw. induction w as [|x w IH]; intros n b Hw Hn.
  - change ("" +:+ u) with u. destruct n as [|n]; simpl; [by eexists _, []|].
    destruct u as [|y u]; simpl in *; [by eexists _, []|].
    destruct (in_cls k y); [done|]. by eexists _, [].
  - simpl in Hn, Hw. apply andb_true_iff in Hw as [Hx Hw]. destruct n as [|n]; [lia|].
    rewrite str_app_cons. cbn [star].
    change (matches (Chr k) (mkPos b (String x (w +:+ u))) c)
      with (when (in_cls k x) (mkPos (Some x) (w +:+ u), c)).
    unfold when. rewrite Hx. cbn [flat_map fst snd rest].
    destruct (Nat.ltb_spec (String.length (w +:+ u)) (String.length (String x (w +:+ u))));
      [|simpl in *; lia].
    destruct (IH n (Some x) Hw) as (b' & qs & ->); [lia|]. by eexists _, _.
Qed.

Lemma plus_cls k b w u c :
  all_in k w = true → w ≠ "" → stops k u = true →
  ∃ b' qs, matches (Plus (Chr k)) (mkPos b (w +:+ u)) c = (mkPos b' u, c) :: qs.
Proof.
  intros Hw Hne Hu. destruct w as [|x w]; [done|]. simpl in Hw. apply andb_true_iff in Hw as [Hx Hw].
  destruct (star_cls k (String.length (w +:+ u)) (Some x) w u c Hw Hu) as (b' & qs & Hs);
    [rewrite str_length_app; lia|].
  exists b'. apply (seq_head (Chr k) (Star (Chr k)) _ _ (mkPos (Some x) (w +:+ u)) c [] _ qs);
    [|exact Hs].
  rewrite str_app_cons. cbn [matches rest]. unfold when. by rewrite Hx.
Qed.

Lemma times_cls k n b w u c :
  all_in k w = true → String.length w = n →
  ∃ b', matches (Times n (Chr k)) (mkPos b (w +:+ u)) c = [(mkPos b' u, c)].
Proof.
  revert b w. induction n as [|n IH]; intros b w Hw Hl.
  - destruct w; [by eexists | done].
  - destruct w as [|x w]; [done|]. simpl in Hw. apply andb_true_iff in Hw as [Hx Hw].
    rewrite str_app_cons. cbn [Times matches rest]. unfold when. rewrite Hx. cbn [flat_map fst snd].
    rewrite app_nil_r. apply IH; [done|]. by injection Hl.
Qed.

Lemma separates_stops u : separates u = true → stops hex_cls u = true ∧ stops digit_cls u = true.
Proof.
  destruct u as [|c u]; [done|]. simpl. intros H. split; [done|].
  unfold in_cls in *. simpl in *. by destruct (Z.leb 48 (code c) && Z.leb (code c) 57).
Qed.

Lemma opt_minus b s c :
  startswith "-" s = false → matches (Opt (Lit "-")) (mkPos b s) c = [(mkPos b s, c)].
Proof. destruct s as [|x s]; [done|]. simpl. by case_decide. Qed.

Lemma all_in_no_minus w u : all_in digit_cls w = true → w ≠ "" → startswith "-" (w +:+ u) = false.
Proof.
  destruct w as [|x w]; [done|]. intros H _. simpl in *. case_decide as E; [|done]. by subst.
Qed.

(** A printed number is matched whole. *)
Lemma kind_match k z b u c :
  printable_as k z → separates u = true →
  ∃ b' qs, matches (kind_re k) (mkPos b (render k z +:+ u)) c = (mkPos b' u, c) :: qs.
Proof.
  intros Hz [Hh Hd]%separates_stops. destruct k; cbn [kind_re render printable_as] in *; unfold fmt_d.
  - destruct (pretty_nonneg z Hz) as (? & _ & ?). by apply plus_cls.
  - destruct (decide (0 ≤ z)) as [Hp|Hn].
    + destruct (pretty_nonneg z Hp) as (? & _ & ?).
      destruct (plus_cls digit_cls b (pretty z) u c) as (b' & qs & E); [done..|].
      exists b'. eapply seq_head; [|exact E]. by rewrite opt_minus by by apply all_in_no_minus.
    + destruct z as [|p|p]; [lia..|]. change (pretty (Z.neg p)) with ("-" +:+ pretty (Z.pos p)).
      destruct (pretty_nonneg (Z.pos p)) as (? & _ & ?); [lia|].
      destruct (plus_cls digit_cls (Some "-"%char) (pretty (Z.pos p)) u c) as (b' & qs & E); [done..|].
      exists b'. eapply seq_head; [|exact E]. reflexivity.
  - destruct (fmt_x_spec z Hz) as (? & _ & ? & _). by apply plus_cls.
  - destruct (fmt_08x_spec z Hz) as (? & _ & ?).
    destruct (times_cls hex_cls 8 b (fmt_08x z) u c) as [b' E]; [done..|]. by exists b', [].
  - destruct Hz as [-> | ->]; by eexists _, [].
Qed.

Lemma between_app b b' a u : between (mkPos b (a +:+ u)) (mkPos b' u) = a.
Proof.
  unfold between. cbn [rest]. rewrite str_length_app.
  replace (String.length a + String.length u - String.length u)%nat with (String.length a) by lia.
  apply str_take_length.
Qed.

Lemma separated_next text key k t fin v tail :
  separated ((text, key, k) :: t) fin = true → separates (template_print t fin v +:+ tail) = true.
Proof.
  intros H. cbn [separated] in H. apply andb_true_iff in H as [H _].
  destruct t as [|[[text' key'] k'] t]; simpl.
  - destruct fin; [done|]. exact H.
  - destruct text'; [done|]. exact H.
Qed.

(** The pattern of a template reads a printed line to its end, with or without
    a carriage return, and captures the printed numbers. *)
Lemma template_match t fin v b c (crlf : bool) :
  separated t fin = true →
  Forall (λ e, printable_as e.2 (v e.1.2)) t →
  ∃ b' qs, matches (template_re t fin)
    (mkPos b (template_print t fin v +:+ if crlf then cr else "")) c
    = (mkPos b' "", template_caps t v c) :: qs.
Proof.
  intros Hs Hv. revert b c Hs. induction Hv as [|[[text key] k] t Hk Hv IH]; intros b c Hs.
  - cbn [template_re template_print template_caps].
    destruct (lit_app fin b (if crlf then cr else "")) as [b' El].
    exists (if crlf then Some (char_of 13) else b').
    eapply seq_head; [cbn [matches]; by rewrite El|].
    destruct crlf; reflexivity.
  - cbn [template_re template_print template_caps]. rewrite <- !str_app_assoc.
    destruct (lit_app text b (render k (v key) +:+ template_print t fin v +:+ if crlf then cr else ""))
      as [b1 El].
    destruct (kind_match k (v key) b1 (template_print t fin v +:+ if crlf then cr else "") c Hk)
      as (b2 & qs2 & Ek); [by eapply separated_next|].
    assert (separated t fin = true) as Ht by (simpl in Hs; by apply andb_true_iff in Hs as []).
    destruct (IH b2 ((key, render k (v key)) :: c) Ht) as (b' & qs & E). exists b'.
    assert (∃ ys, matches (Grp key (kind_re k)) (mkPos b1 (render k (v key) +:+
        template_print t fin v +:+ if crlf then cr else "")) c
      = (mkPos b2 (template_print t fin v +:+ if crlf then cr else ""),
         (key, render k (v key)) :: c) :: ys) as [ys Eg].
    { cbn [matches]. rewrite Ek. cbn [map fst snd]. rewrite between_app. by eexists. }
    destruct (seq_head _ _ _ _ _ _ _ _ _ Eg E) as [zs Ez].
    eapply seq_head; [|exact Ez]. cbn [matches]. by rewrite El.
Qed.

(** ** Captures *)

Definition keys (t : template) : list string := map (λ e, e.1.2) t.

Lemma template_caps_other t v c key :
  key ∉ keys t → assoc key (template_caps t v c) = assoc key c.
Proof.
  revert c. induction t as [|[[text k'] k] t IH]; intros c H; [done|].
  cbn [keys map fst snd] in H. apply not_elem_of_cons in H as [Hne H].
  cbn [template_caps]. rewrite IH by done. cbn [assoc]. by rewrite decide_False by done.
Qed.

Lemma template_caps_key t v c text key k :
  NoDup (keys t) → (text, key, k) ∈ t → assoc key (template_caps t v c) = Some (render k (v key)).
Proof.
  revert c. induction t as [|[[text' key'] k'] t IH]; intros c Hnd Hin; [by apply elem_of_nil in Hin|].
  cbn [keys map fst snd] in Hnd. apply NoDup_cons in Hnd as [Hnot Hnd].
  cbn [template_caps]. apply elem_of_cons in Hin as [[= <- <- <-]|Hin]; [|by apply IH].
  rewrite template_caps_other by done. cbn [assoc]. by rewrite decide_True.
Qed.

Lemma int_of_digits k base w :
  all_in k w = true → in_cls k "-" = false → int_of base w = digits_to_Z base 0 w.
Proof.
  destruct w as [|c w]; [done|]. simpl. intros [Hc _]%andb_true_iff Hk. case_decide as E; [|done].
  exfalso. assert (c = "-"%char) as ->; [|by rewrite Hc in Hk].
  rewrite <- (Ascii.ascii_N_embedding c). unfold code in E.
  by replace (Ascii.N_of_ascii c) with 45%N by lia.
Qed.

(** A printed number reads back as its value. *)
Lemma int_of_render k z : printable_as k z → int_of (base_of k) (render k z) = z.
Proof.
  destruct k; cbn [printable_as render base_of]; unfold fmt_d; intros Hz.
  - destruct (pretty_nonneg z Hz) as (H1 & H2 & _). by rewrite (int_of_digits digit_cls).
  - destruct (decide (0 ≤ z)) as [Hp|Hn].
    + destruct (pretty_nonneg z Hp) as (H1 & H2 & _). by rewrite (int_of_digits digit_cls).
    + destruct z as [|p|p]; [lia..|]. change (pretty (Z.neg p)) with ("-" +:+ pretty (Z.pos p)).
      destruct (pretty_nonneg (Z.pos p)) as (_ & H & _); [lia|].
      change (int_of 10 ("-" +:+ pretty (Z.pos p))) with (- digits_to_Z 10 0 (pretty (Z.pos p))).
      by rewrite H.
  - destruct (fmt_x_spec z Hz) as (H1 & H2 & _). by rewrite (int_of_digits hex_cls).
  - destruct (fmt_08x_spec z Hz) as (H1 & H2 & _). by rewrite (int_of_digits hex_cls).
  - destruct Hz as [-> | ->]; reflexivity.
Qed.

(** ** Printed lines have no line feed *)

Lemma all_in_no_nl k w : in_cls k NL = false → all_in k w = true → no_nl w = true.
Proof.
  intros Hk. induction w as [|c w IH]; [done|]. simpl. intros [Hc Hw]%andb_true_iff.
  rewrite IH by done. rewrite bool_decide_false; [done|]. intros E.
  destruct (decide (c = NL)) as [->|Hne]; [by rewrite Hc in Hk|]. by apply NL_code in Hne.
Qed.

Lemma render_no_nl k z : printable_as k z → no_nl (render k z) = true.
Proof.
  destruct k; cbn [printable_as render]; unfold fmt_d; intros Hz.
  - apply (all_in_no_nl digit_cls); [done|]. by apply pretty_nonneg.
  - destruct (decide (0 ≤ z)) as [Hp|Hn].
    + apply (all_in_no_nl digit_cls); [done|]. by apply pretty_nonneg.
    + destruct z as [|p|p]; [lia..|]. change (pretty (Z.neg p)) with ("-" +:+ pretty (Z.pos p)).
      rewrite no_nl_app. apply andb_true_iff. split; [done|].
      apply (all_in_no_nl digit_cls); [done|]. by apply pretty_nonneg.
  - apply (all_in_no_nl hex_cls); [done|]. by apply fmt_x_spec.
  - apply (all_in_no_nl hex_cls); [done|]. by apply fmt_08x_spec.
  - destruct Hz as [-> | ->]; reflexivity.
Qed.

Definition texts_no_nl (t : template) (fin : string) : bool :=
  forallb (λ e, no_nl e.1.1) t && no_nl fin.

Lemma template_no_nl t fin v (crlf : bool) :
  texts_no_nl t fin = true → Forall (λ e, printable_as e.2 (v e.1.2)) t →
  no_nl (template_print t fin v +:+ if crlf then cr else "") = true.
Proof.
  unfold texts_no_nl. intros [Ht Hf]%andb_true_iff Hv. rewrite no_nl_app.
  apply andb_true_iff; split; [|by destruct crlf].
  induction Hv as [|[[text key] k] t Hk Hv IH]; [done|].
  cbn [forallb fst snd] in Ht. apply andb_true_iff in Ht as [Htext Ht]. cbn [template_print].
  rewrite !no_nl_app, Htext, render_no_nl, IH by done. done.
Qed.

(** The line pattern of a template. *)
Lemma template_local t fin :
  texts_no_nl t fin = true → local (template_re t fin) = true ∧ to_eol (template_re t fin) = true.
Proof.
  unfold texts_no_nl. intros [Ht Hf]%andb_true_iff.
  induction t as [|[[text key] k] t IH]; cbn [template_re local to_eol].
  - by rewrite Hf.
  - cbn [forallb fst snd] in Ht. apply andb_true_iff in Ht as [Htext Ht].
    destruct (IH Ht) as [-> ->]. rewrite Htext. by destruct k.
Qed.

(** ** Logs *)

Lemma split_nl_of_lines ls :
  ls ≠ [] → Forall (λ l, no_nl l = true) ls → split_nl (str_join nl ls) = ls.
Proof.
  intros Hne Hls. induction Hls as [|l ls Hl Hls IH]; [done|]. destruct ls as [|l' ls].
  - cbn [str_join]. unfold split_nl.
    assert (∀ s cur, no_nl s = true → split_nl_acc s cur = [cur +:+ s]) as H; [|by rewrite H].
    clear. induction s as [|c s IH]; intros cur Hs; cbn [split_nl_acc].
    + by rewrite str_app_nil.
    + simpl in Hs. apply andb_true_iff in Hs as [Hc Hs].
      rewrite decide_False; [|intros ->; vm_compute in Hc; discriminate Hc].
      rewrite IH by done. by rewrite <- str_app_assoc.
  - rewrite str_join_cons by done. unfold split_nl. rewrite split_nl_acc_app by done.
    f_equal. by apply IH.
Qed.

(** A log is made of printed samples and of other lines. *)
Inductive log_line :=
  | Sample (v : string → Z) (crlf : bool)
  | Other (text : string).

Section scan.
Context (a : ascii) (s0 key : string) (k : kind) (t : template) (fin : string).
Let T : template := (String a s0, key, k) :: t.
Let R : re := Seq Bol (template_re T fin).

Context (Htexts : texts_no_nl T fin = true) (Hsep : separated T fin = true).

Definition line_caps (l : string) : option caps := m_caps <$> match_at R (mkPos None l).

Lemma scan_lines s : map m_caps (finditer R s) = omap line_caps (split_nl s).
Proof.
  pose proof (template_local T fin Htexts) as [Hl He].
  cbn [template_re local to_eol T] in Hl, He. apply andb_true_iff in Hl as [H1 Hl].
  apply (finditer_lines a s0 (Seq (Grp key (kind_re k)) (template_re t fin))); done.
Qed.

Lemma line_caps_empty : line_caps "" = None.
Proof. reflexivity. Qed.

Lemma line_caps_print v (crlf : bool) :
  Forall (λ e, printable_as e.2 (v e.1.2)) T →
  line_caps (template_print T fin v +:+ if crlf then cr else "") = Some (template_caps T v []).
Proof.
  intros Hv. unfold line_caps, match_at, R.
  destruct (template_match T fin v None [] crlf Hsep Hv) as (b' & qs & E).
  destruct (seq_head Bol (template_re T fin) (mkPos None (template_print T fin v +:+
    if crlf then cr else "")) [] _ _ [] _ _ eq_refl E) as [ys ->]. reflexivity.
Qed.

Definition line_text (i : log_line) : string :=
  match i with
  | Sample v crlf => template_print T fin v +:+ if crlf then cr else ""
  | Other text => text
  end.

(** Samples print their values; other lines are lines the pattern rejects. *)
Definition line_ok (i : log_line) : Prop :=
  match i with
  | Sample v _ => Forall (λ e, printable_as e.2 (v e.1.2)) T
  | Other text => no_nl text = true ∧ finditer R text = []
  end.

Definition log_text (items : list log_line) : string := str_join nl (map line_text items).

(** Scanning a log finds its samples, in order, and nothing else. *)
Lemma scan_log items :
  Forall line_ok items →
  map m_caps (finditer R (log_text items))
  = omap (λ i, match i with Sample v _ => Some (template_caps T v []) | Other _ => None end) items.
Proof.
  intros Hok. rewrite scan_lines. unfold log_text. destruct items as [|i items]; [done|].
  rewrite split_nl_of_lines; [|done|].
  - induction Hok as [|x l Hx _ IH]; [done|]. cbn [map omap list_omap].
    destruct x as [v crlf|text]; cbn [line_text line_ok] in *.
    + rewrite line_caps_print by done. by rewrite IH.
    + destruct Hx as [Hn He]. pose proof (scan_lines text) as Hs.
      assert (split_nl text = [text]) as Hsp.
      { apply (split_nl_of_lines [text]); [done | by constructor]. }
      rewrite He, Hsp in Hs. cbn [omap list_omap map] in Hs.
      destruct (line_caps text); [done|]. exact IH.
  - apply Forall_map. eapply Forall_impl; [exact Hok|]. intros [v crlf|text]; cbn [line_ok line_text].
    + by apply template_no_nl.
    + by intros [].
Qed.
End scan.
