(* ===== verification/Contract.v ===== *)
(** * The display contract: data and checks of both ABIs

    The part of scripts/m9-2-display-contract-test.py both ABIs use: the
    constants, [reject], [validate_kernel_memory_span], the frame checks and
    the checksummed encoding.  A Python
    dict from field names to integers is an association list whose keys are
    the field table, in the table's order. *)

From S2P Require Import Prelude PyBytes.

(** ** Dictionaries [dict[str, int]] *)

Abbreviation dict := (list (string * Z)).

Fixpoint dict_lookup (k : string) (d : dict) : option Z :=
  match d with
  | [] => None
  | (k', v) :: d => if decide (k = k') then Some v else dict_lookup k d
  end.

(** [d[k]] *)
Definition getitem (d : dict) (k : string) : result Z :=
  match dict_lookup k d with
  | Some v => Ok v
  | None => Err (Exn KeyError ("'" +:+ k +:+ "'"))
  end.

(** The value of a key the dict is known to have, for the specifications and for dicts with
    fixed keys: the samples of the telemetry have theirs by [scanout_lookups] and
    [diagnostics_lookups].  The validators look up with [getitem]. *)
Definition dget (d : dict) (k : string) : Z := default 0 (dict_lookup k d).

(** [d[k] = v] *)
Fixpoint dict_set (k : string) (v : Z) (d : dict) : dict :=
  match d with
  | [] => [(k, v)]
  | (k', v') :: d => if decide (k = k') then (k, v) :: d else (k', v') :: dict_set k v d
  end.

(** [d.update(overrides)] *)
Definition dict_update (d overrides : dict) : dict :=
  foldl (λ d kv, dict_set kv.1 kv.2 d) d overrides.

(** [dict(zip(fields, values))], and the same with [strict=True] *)
Definition dict_zip (fields : list string) (vs : list Z) : dict := zip fields vs.
Definition dict_zip_strict (fields : list string) (vs : list Z) : result dict :=
  raise_when (length vs ≠ length fields) ValueError "zip() arguments of different lengths" ;;
  Ok (dict_zip fields vs).

(** ** Constants *)

Definition MAGIC : Z := 0x4D4E5844.
Definition ABI_VERSION : Z := 2.
Definition REQUIRED_FLAGS : Z := 0xFF.
Definition FRAME_SIZE : Z := 2048000.
Definition FRAME_ADDRESSES : list Z := [0x48040A80; 0x49300000; 0x49500000].
Definition COLD_PAGE_SIZE : Z := 0x1000.
Definition LOADER_PSRAM : Z * Z := (0x48000000, 0x48400000).
Definition DISPLAY_POOL : Z * Z := (0x49300000, 0x49700000).
Definition DESCRIPTOR_SRAM : Z * Z := (0x4FF00000, 0x4FFC0000).
Definition SD_DMA_SRAM : Z * Z := (0x4FF80000, 0x4FF82000).
Definition DSI_FIFO : Z := 0x50105000.
Definition DSI_FIFO_WINDOW : Z * Z := (DSI_FIFO, DSI_FIFO + COLD_PAGE_SIZE).
Definition DESCRIPTOR_SIZE : Z := 64.
Definition DESCRIPTOR_COUNT : Z := 3.
Definition DESCRIPTOR_BLOCK_SIZE : Z := 0x0003E7FF.
Definition DESCRIPTOR_CTRL_LO : Z := 0x001E1B41.
Definition DESCRIPTOR_CTRL_HI : Z := 0x400F87C0.
Definition DW_GDMA_BLOCK_TRANSFER_LIST : Z := 3.
Definition CHANNEL_CFG : Z * Z :=
  (Z.lor DW_GDMA_BLOCK_TRANSFER_LIST (Z.shiftl DW_GDMA_BLOCK_TRANSFER_LIST 2), 0x0A020001).
Definition DISPLAY_OWNER_LINUX_PENDING : Z := 1.
Definition DISPLAY_TIMING : list Z := [20; 20; 40; 4; 10; 30].
Definition DISPLAY_SLOT_SIZE : Z := 0x00200000.
Definition FRAMEBUFFER_ALIGNMENT : Z := 8.
Definition PSRAM : Z * Z := (0x48000000, 0x4A000000).
Definition LINUX_RAM : Z * Z := (0x48400000, 0x4A000000).
Definition KERNEL_GENERAL_RAM : Z * Z := (0x48400000, 0x49300000).
Definition KERNEL_LOAD_ADDRESS : Z := KERNEL_GENERAL_RAM.1.
Definition USER_POOL : Z * Z := (0x49700000, 0x49F00000).
Definition COMMS_POOL : Z * Z := (0x49F00000, 0x4A000000).

(** ** Rejections *)

(** [reject(reason)] *)
Definition reject {A} (reason : string) : result A := Err (Exn ContractError reason).

(** [if P: reject(reason)] *)
Definition reject_if (P : Prop) `{Decision P} (reason : string) : result unit :=
  raise_when P ContractError reason.

(** [P or c], where [c] is evaluated only when [P] does not hold, and a last [P] *)
Definition or_else (P : Prop) `{Decision P} (c : result bool) : result bool := if decide P then Ok true else c.
Definition test (P : Prop) `{Decision P} : result bool := Ok (bool_decide P).
Infix "or?" := or_else (at level 85, right associativity).

(** [if c: reject(reason)] *)
Definition reject_when (c : result bool) (reason : string) : result unit :=
  b ← c; reject_if (b = true) reason.

(** [a // b] *)
Definition floordiv (a b : Z) : result Z :=
  if decide (b = 0) then Err (Exn ZeroDivisionError "integer division or modulo by zero") else Ok (a / b).

Definition validate_kernel_memory_span (memory_size : Z) : result unit :=
  let kernel_end := KERNEL_LOAD_ADDRESS + memory_size in
  reject_if (memory_size ≤ 0 ∨ kernel_end > KERNEL_GENERAL_RAM.2) "kernel-memory-span".

(** ** The checks on the three frame buffers, shared by both ABIs *)

(** The body of [for index, address in enumerate(addresses)]; appends to [ranges]. *)
Definition check_frame (alignment : Z) (index : nat) (address : Z) : result (Z * Z) :=
  let end_ := address + FRAME_SIZE in
  reject_if (end_ > 0xFFFFFFFF) "frame-address-overflow" ;;
  reject_if (address mod alignment ≠ 0) "framebuffer-alignment" ;;
  reject_if (index ≠ 0%nat ∧ (address < DISPLAY_POOL.1 ∨ end_ > DISPLAY_POOL.2))
    "display-pool-bounds" ;;
  reject_if (index ≠ 0%nat ∧ end_ > address + DISPLAY_SLOT_SIZE) "display-slot-bounds" ;;
  Ok (address, end_).

Fixpoint check_frames (alignment : Z) (index : nat) (addresses : list Z) : result (list (Z * Z)) :=
  match addresses with
  | [] => Ok []
  | a :: addresses =>
      r ← check_frame alignment index a;
      rs ← check_frames alignment (S index) addresses;
      Ok (r :: rs)
  end.

(** [for index, first in enumerate(ranges): for second in ranges[index + 1:]] *)
Fixpoint check_overlap (ranges : list (Z * Z)) : result unit :=
  match ranges with
  | [] => Ok tt
  | first :: rest =>
      for_each (λ second,
        reject_if (first.1 < second.2 ∧ second.1 < first.2) "frame-overlap") rest ;;
      check_overlap rest
  end.

(** [tuple(values[f"framebuffer{index}"] for index in range(3))] *)
Definition FRAME_FIELDS : list string := ["framebuffer0"; "framebuffer1"; "framebuffer2"].
Definition frame_addresses (values : dict) : result (list Z) := map_result (getitem values) FRAME_FIELDS.

(** ** The checksummed encoding, shared by both ABIs *)

(** The two-pass encoding of [make_handoff] and [make_cold_relinquish]: pack
    with a zero checksum, then pack again with the CRC of all but the last
    four bytes. *)
Definition encode_with_crc (fmt : list nat) (names : list string) (values : dict) : result bytes :=
  let values := dict_set "crc32" 0 values in
  unpacked ← map_result (getitem values) names;
  provisional ← Struct.pack Struct.Little fmt unpacked;
  let values := dict_set "crc32" (crc32_u32 (drop_last 4 provisional)) values in
  unpacked ← map_result (getitem values) names;
  Struct.pack Struct.Little fmt unpacked.

(** The frame-size checks that follow the profile in both validators. *)
Definition check_frame_size (values : dict) : result unit :=
  height ← getitem values "height";
  stride ← getitem values "stride";
  rows ← floordiv 0xFFFFFFFF stride;
  reject_if (height > rows) "frame-size-overflow" ;;
  reject_if (height * stride ≠ FRAME_SIZE) "frame-size" ;;
  framebuffer_size ← getitem values "framebuffer_size";
  reject_if (framebuffer_size ≠ FRAME_SIZE) "published-frame-size".
