(* ===== verification/ContractTheory.v ===== *)
(** * Theory shared by the two display contracts

    Lookups in zipped dictionaries, the form of the two-pass encoder, and the
    meaning of the frame-buffer checks.  The component files use these lemmas;
    nothing here is specific to one ABI. *)

From S2P Require Import Prelude PyBytes Contract.

(** Splits an accepted chain of [reject_if] guards. *)
Ltac inv_reject := unfold reject_if, reject in *; inv_ok.

(** ** Dictionaries *)

Fixpoint name_index (k : string) (names : list string) : nat :=
  match names with
  | [] => O
  | k' :: names => if decide (k = k') then O else S (name_index k names)
  end.

Lemma dget_zip names vs k :
  length vs = length names → dget (dict_zip names vs) k = nth (name_index k names) vs 0.
Proof.
  unfold dget, dict_zip. revert vs.
  induction names as [|n names IH]; intros [|v vs] Hl; simpl in *; try done.
  case_decide; [done|]. apply IH. lia.
Qed.

Lemma getitem_known d k : is_Some (dict_lookup k d) → getitem d k = Ok (dget d k).
Proof. unfold getitem, dget. by intros [v ->]. Qed.

Lemma dict_lookup_keys k d : is_Some (dict_lookup k d) ↔ k ∈ map fst d.
Proof.
  induction d as [|[k' v] d IH]; cbn; [rewrite elem_of_nil; split; [by intros []|done]|].
  rewrite elem_of_cons. case_decide as E; [split; [by left|by intros; eexists]|]. rewrite IH. tauto.
Qed.

Lemma dict_zip_keys names vs : length vs = length names → map fst (dict_zip names vs) = names.
Proof. intros. apply fst_zip. lia. Qed.

Lemma getitem_zip names vs k : length vs = length names → k ∈ names →
  getitem (dict_zip names vs) k = Ok (nth (name_index k names) vs 0).
Proof.
  intros Hl Hk. rewrite getitem_known, dget_zip; [done..|]. apply dict_lookup_keys. by rewrite dict_zip_keys.
Qed.

Lemma dict_zip_strict_ok names vs d :
  dict_zip_strict names vs = Ok d ↔ length vs = length names ∧ d = dict_zip names vs.
Proof.
  unfold dict_zip_strict. rewrite raise_when_ok. split.
  - intros [Hl H]. split; [by apply dec_stable|]. congruence.
  - intros [Hl ->]. split; [by intros n|done].
Qed.

Lemma map_getitem d names : Forall (λ k, is_Some (dict_lookup k d)) names →
  map_result (getitem d) names = Ok (map (dget d) names).
Proof. induction 1 as [|k names Hk _ IH]; [done|]. cbn [map_result map]. by rewrite getitem_known, IH. Qed.

Lemma dict_set_keys k' k v d : is_Some (dict_lookup k' d) → is_Some (dict_lookup k' (dict_set k v d)).
Proof.
  rewrite !dict_lookup_keys. induction d as [|[k0 v0] d IH]; cbn; [by intros ?%elem_of_nil|].
  rewrite elem_of_cons. case_decide; subst; cbn; rewrite elem_of_cons; tauto.
Qed.

Lemma dict_update_keys k d o : is_Some (dict_lookup k d) → is_Some (dict_lookup k (dict_update d o)).
Proof.
  unfold dict_update. revert d. induction o as [|[k' v] o IH]; intros d Hd; [done|]. cbn. apply IH. by apply dict_set_keys.
Qed.

Lemma dget_set_eq k v d : dget (dict_set k v d) k = v.
Proof.
  unfold dget. induction d as [|[k' v'] d IH]; simpl.
  - by rewrite decide_True.
  - case_decide as E; simpl; [by rewrite decide_True|]. by rewrite decide_False.
Qed.

Lemma dget_set_ne k k' v d : k ≠ k' → dget (dict_set k v d) k' = dget d k'.
Proof.
  intros Hne. unfold dget. induction d as [|[k0 v0] d IH]; simpl.
  - rewrite decide_False by congruence. done.
  - case_decide as E; simpl; case_decide; subst; try done. by rewrite decide_False by congruence.
Qed.

Lemma dict_set_set k v v' d : dict_set k v' (dict_set k v d) = dict_set k v' d.
Proof.
  induction d as [|[k0 v0] d IH]; simpl; [by rewrite decide_True|].
  case_decide; simpl; [by rewrite decide_True|]. rewrite decide_False by done. by rewrite IH.
Qed.

Lemma map_dget_set k v d names :
  k ∉ names → map (dget (dict_set k v d)) names = map (dget d) names.
Proof.
  intros Hk. apply map_ext_in. intros n Hn. apply dget_set_ne.
  intros ->. apply Hk. by apply list_elem_of_In.
Qed.

(** ** Conditions *)

Lemma or_else_test P `{Decision P} Q `{Decision Q} : (P or? test Q) = test (P ∨ Q).
Proof.
  unfold or_else, test. destruct (decide P).
  - by rewrite bool_decide_eq_true_2 by (by left).
  - f_equal. apply bool_decide_ext. tauto.
Qed.

Lemma reject_when_test P `{Decision P} reason : reject_when (test P) reason = reject_if P reason.
Proof.
  unfold reject_when, test, reject_if, raise_when. cbn [mbind result_bind]. destruct (decide P).
  - by rewrite bool_decide_eq_true_2, decide_True.
  - by rewrite bool_decide_eq_false_2, decide_False.
Qed.

(** ** The encoder: a packed body followed by its CRC *)

Definition with_crc (p : bytes) : bytes := p ++ le_split 4 (crc32_u32 p).

Lemma pack_app o ws1 ws2 vs1 vs2 :
  length ws1 = length vs1 →
  Struct.pack o (ws1 ++ ws2) (vs1 ++ vs2) =
    (b1 ← Struct.pack o ws1 vs1; b2 ← Struct.pack o ws2 vs2; Ok (b1 ++ b2)).
Proof.
  revert vs1. induction ws1 as [|w ws1 IH]; intros [|v vs1] Hl; simpl in *; try done.
  - by destruct (Struct.pack o ws2 vs2).
  - unfold raise_when. case_decide; simpl; [done|]. rewrite IH by lia.
    destruct (Struct.pack o ws1 vs1); simpl; [|done].
    destruct (Struct.pack o ws2 vs2); simpl; [|done]. by rewrite app_assoc.
Qed.

Lemma pack_u32 z : fits 4 z → Struct.pack Struct.Little [4%nat] [z] = Ok (le_split 4 z).
Proof.
  intros Hz. cbn [Struct.pack]. rewrite raise_when_false by (by intros []).
  cbn [mbind result_bind Struct.enc_uint]. by rewrite app_nil_r.
Qed.

Lemma drop_last_app n p q : length q = n → drop_last n (p ++ q) = p.
Proof.
  intros <-. unfold drop_last. rewrite length_app.
  replace (length p + length q - length q)%nat with (length p) by lia. apply take_app_length.
Qed.

Lemma encode_with_crc_eq ws names d :
  length ws = length names → "crc32" ∉ names → Forall (λ k, is_Some (dict_lookup k d)) names →
  encode_with_crc (ws ++ [4%nat]) (names ++ ["crc32"]) d =
    (p ← Struct.pack Struct.Little ws (map (dget d) names); Ok (with_crc p)).
Proof.
  intros Hl Hn Hd. unfold encode_with_crc.
  assert (∀ c, Forall (λ k, is_Some (dict_lookup k (dict_set "crc32" c d))) (names ++ ["crc32"])) as Hkeys.
  { intros c. apply Forall_app. split; [eapply Forall_impl; [exact Hd|]; intros; by apply dict_set_keys|].
    constructor; [|done]. apply dict_lookup_keys. clear. induction d as [|[k v] d IH]; cbn; [by left|].
    case_decide; cbn; [by left|by right]. }
  rewrite !map_getitem by done. cbn [mbind result_bind].
  assert (∀ c, fits 4 c →
    Struct.pack Struct.Little (ws ++ [4%nat]) (map (dget (dict_set "crc32" c d)) (names ++ ["crc32"])) =
    (p ← Struct.pack Struct.Little ws (map (dget d) names); Ok (p ++ le_split 4 c))) as Hpack.
  { intros c Hc. rewrite map_app, map_dget_set by done. cbn [map]. rewrite dget_set_eq.
    rewrite pack_app by (by rewrite length_map). by rewrite pack_u32. }
  rewrite Hpack by done.
  destruct (Struct.pack Struct.Little ws (map (dget d) names)) as [p|e] eqn:Hp; [|done].
  cbn [mbind result_bind] in *. rewrite drop_last_app by done.
  rewrite dict_set_set, map_getitem by done. cbn [mbind result_bind]. rewrite Hpack by apply crc32_u32_fits. done.
Qed.

(** A buffer of the format's size whose last field is the CRC of the rest. *)
Lemma crc_field_eq ws b vs :
  Struct.unpack Struct.Little (ws ++ [4%nat]) b = Ok vs →
  crc32_u32 (drop_last 4 b) = nth (length ws) vs 0 →
  ∃ p us, vs = us ++ [crc32_u32 p] ∧ length us = length ws
    ∧ Struct.pack Struct.Little ws us = Ok p ∧ b = with_crc p.
Proof.
  intros Hu Hc. apply Struct.unpack_ok in Hu as [Hlen Hpack].
  assert (length vs = S (length ws)) as Hvs.
  { apply Struct.pack_fits, Forall2_length in Hpack. rewrite length_app in Hpack. simpl in Hpack. lia. }
  destruct vs as [|c us _] using rev_ind; [done|].
  rewrite length_app in Hvs. simpl in Hvs.
  rewrite pack_app in Hpack by lia. inv_ok.
  assert (fits 4 c) as Hfc by (apply Struct.pack_fits in Hok0; by inversion Hok0).
  rewrite pack_u32 in Hok0 by done. inv_ok.
  rewrite drop_last_app in Hc by apply length_le_split.
  rewrite app_nth2 in Hc by lia.
  replace (length ws - length us)%nat with O in Hc by lia. simpl in Hc. subst c.
  exists a, us. repeat split; [lia | done].
Qed.

(** [with_crc] detects the change of any single byte. *)
Lemma with_crc_single_byte p q pre b b' post :
  with_crc p = pre ++ b :: post → with_crc q = pre ++ b' :: post → b = b'.
Proof.
  unfold with_crc. intros Hp Hq.
  assert (length p = length q) as Hl.
  { apply (f_equal length) in Hp, Hq. rewrite !length_app, !length_le_split in Hp, Hq.
    simpl in *. lia. }
  destruct (decide (length p ≤ length pre)%nat) as [Hle|Hgt].
  - (* the change is in the checksum itself: the bodies agree *)
    assert (p = q) as <-; [|rewrite Hp in Hq; apply app_inv_head in Hq; congruence].
    apply (f_equal (take (length p))) in Hp, Hq.
    rewrite take_app_length in Hp. rewrite Hl, take_app_length in Hq.
    rewrite take_app_le in Hp by lia. rewrite take_app_le in Hq by lia. congruence.
  - assert (∃ s, p = pre ++ b :: s ∧ q = pre ++ b' :: s) as (s & -> & ->).
    { exists (take (length p - S (length pre)) post).
      assert (∀ x, take (length p) (pre ++ x :: post)
                   = pre ++ x :: take (length p - S (length pre)) post) as Htake.
      { intros x. rewrite take_app_ge by lia. f_equal.
        by replace (length p - length pre)%nat with (S (length p - S (length pre))) by lia. }
      split; rewrite <- Htake.
      - by rewrite <- Hp, take_app_length.
      - by rewrite <- Hq, Hl, take_app_length. }
    destruct (decide (b = b')) as [|Hne]; [done|]. exfalso.
    rewrite <- app_assoc in Hp, Hq. apply app_inv_head in Hp, Hq.
    simpl in Hp, Hq. injection Hp as Hp. injection Hq as Hq.
    rewrite <- Hq in Hp. apply app_inv_head in Hp.
    apply (f_equal le_combine) in Hp.
    rewrite !le_combine_split, !Z.mod_small in Hp
      by (rewrite Z.mul_comm; apply crc32_u32_fits).
    by apply (crc32_u32_single_byte pre b b' s).
Qed.

(** ** Meaning of the frame checks *)

(** Two half-open address ranges share no address. *)
Definition disjoint_ranges (r s : Z * Z) : Prop :=
  ∀ a, ¬ (r.1 ≤ a < r.2 ∧ s.1 ≤ a < s.2).

Lemma disjoint_ranges_spec r s : r.2 ≤ s.1 ∨ s.2 ≤ r.1 → disjoint_ranges r s.
Proof. unfold disjoint_ranges. lia. Qed.

(** No two ranges of the list overlap. *)
Fixpoint apart (l : list (Z * Z)) : Prop :=
  match l with
  | [] => True
  | r :: l => Forall (λ s, r.2 ≤ s.1 ∨ s.2 ≤ r.1) l ∧ apart l
  end.

Lemma apart_lookup l i j r s :
  apart l → i ≠ j → l !! i = Some r → l !! j = Some s → disjoint_ranges r s.
Proof.
  revert i j. induction l as [|x l IH]; intros i j; simpl; [done|].
  intros [Hx Hl] Hij Hi Hj. rewrite Forall_lookup in Hx.
  destruct i as [|i], j as [|j]; simpl in *; simplify_eq; try done.
  - apply disjoint_ranges_spec. eauto.
  - apply disjoint_ranges_spec. destruct (Hx i r Hi); auto.
  - apply (IH i j); auto.
Qed.

Lemma check_frames_ok alignment index addresses ranges :
  check_frames alignment index addresses = Ok ranges →
  ranges = map (λ a, (a, a + FRAME_SIZE)) addresses
  ∧ Forall (λ a, a mod alignment = 0) addresses
  ∧ (index ≠ O → Forall (λ a, DISPLAY_POOL.1 ≤ a ∧ a + FRAME_SIZE ≤ DISPLAY_POOL.2) addresses).
Proof.
  revert index ranges. induction addresses as [|a l IH]; intros index ranges; simpl.
  { intros [= <-]. auto. }
  intros H. inv_ok. apply IH in Hok0 as (-> & Hal & Hb).
  unfold check_frame in Hok. inv_reject.
  split_and!; [done | constructor; [by apply dec_stable|done] | intros Hi].
  constructor; [simpl in *; lia | apply Hb; lia].
Qed.

Lemma check_frames_total alignment index addresses :
  Forall (λ a, a + FRAME_SIZE ≤ 0xFFFFFFFF ∧ a mod alignment = 0
               ∧ (index ≠ O → DISPLAY_POOL.1 ≤ a ∧ a + FRAME_SIZE ≤ DISPLAY_POOL.2)) (take 1 addresses) →
  Forall (λ a, a mod alignment = 0 ∧ DISPLAY_POOL.1 ≤ a ∧ a + FRAME_SIZE ≤ DISPLAY_POOL.2)
    (drop 1 addresses) →
  check_frames alignment index addresses = Ok (map (λ a, (a, a + FRAME_SIZE)) addresses).
Proof.
  revert index. induction addresses as [|a l IH]; intros index Ha Hl; simpl; [done|].
  simpl in Ha, Hl. apply Forall_singleton in Ha as (Hov & Hal & Hpool). rewrite drop_0 in Hl.
  unfold check_frame, reject_if.
  rewrite !raise_when_false
    by first [lia | (intros n; by apply n) | intros [Hi Hr]; specialize (Hpool Hi);
              unfold FRAME_SIZE, DISPLAY_SLOT_SIZE in *; simpl in *; lia].
  simpl. rewrite IH; [done| |].
  - destruct l; simpl; [constructor|]. inversion Hl; subst. apply Forall_singleton.
    simpl in *. lia.
  - destruct l; simpl; [constructor|]. by inversion Hl.
Qed.

Lemma check_overlap_ok ranges :
  check_overlap ranges = Ok tt →
  Forall (λ r, r.1 < r.2) ranges → apart ranges.
Proof.
  induction ranges as [|f rs IH]; simpl; [done|]. intros H Hne. inv_ok.
  apply Forall_cons in Hne as [Hf Hne]. rewrite for_each_ok in Hok. split; [|auto].
  rewrite Forall_lookup in *. intros i s Hs. specialize (Hok i s Hs). specialize (Hne i s Hs).
  inv_reject. simpl in *. lia.
Qed.

#[export] Hint Resolve disjoint_ranges_spec : micronux.

(** ** The validators raise nothing but [ContractError] *)

Lemma check_frames_raises alignment index addresses :
  only_raises ContractError (check_frames alignment index addresses).
Proof.
  revert index. induction addresses as [|a l IH]; intros index; simpl; [done|].
  unfold check_frame, reject_if. solve_raises. apply IH.
Qed.

Lemma check_overlap_raises ranges : only_raises ContractError (check_overlap ranges).
Proof.
  induction ranges; simpl; [done|]. unfold reject_if. solve_raises. assumption.
Qed.

Lemma getitem_raises c d k : k ∈ map fst d → only_raises c (getitem d k).
Proof. intros Hk%dict_lookup_keys. by rewrite getitem_known. Qed.

Lemma getitems_raises c d names : names ⊆ map fst d → only_raises c (map_result (getitem d) names).
Proof.
  intros Hn. rewrite map_getitem; [done|]. apply Forall_forall. intros k Hk. by apply dict_lookup_keys, Hn.
Qed.

Lemma or_else_raises c P `{Decision P} b : only_raises c b → only_raises c (P or? b).
Proof. unfold or_else. by case_decide. Qed.

Lemma reject_when_raises b reason : only_raises ContractError b → only_raises ContractError (reject_when b reason).
Proof. intros Hb. apply only_raises_bind; [done|]. intros. apply only_raises_when. Qed.

Lemma zip_strict_raises c o ws b vs names : Struct.unpack o ws b = Ok vs → length ws = length names →
  only_raises c (dict_zip_strict names vs).
Proof.
  intros [_ Hp%Struct.pack_fits%Forall2_length]%Struct.unpack_ok Hl.
  by rewrite (proj2 (dict_zip_strict_ok names vs (dict_zip names vs))) by (by rewrite <- Hp).
Qed.

(** A field that was read into a list with the others. *)
Lemma profile_field d names values k v i : map_result (getitem d) names = Ok values →
  names !! i = Some k → values !! i = Some v → getitem d k = Ok v.
Proof. intros Hm Hk Hv. apply map_result_ok in Hm. destruct (Forall2_lookup_lr _ _ _ _ _ _ Hm Hk Hv). done. Qed.

(** No division by zero: the profile that was compared has the stride. *)
Lemma check_frame_size_raises values stride :
  "height" ∈ map fst values → "framebuffer_size" ∈ map fst values →
  getitem values "stride" = Ok stride → stride ≠ 0 → only_raises ContractError (check_frame_size values).
Proof.
  intros Hh Hf Hs Hne. unfold check_frame_size, reject_if, floordiv. rewrite Hs.
  apply only_raises_bind; [by apply getitem_raises|]. intros height _. cbn [mbind result_bind].
  rewrite decide_False by done. cbn [mbind result_bind]. solve_raises. by apply getitem_raises.
Qed.

(** Walks through the checks of a validator whose dictionary has the keys of [Hkeys]. *)
Ltac solve_checks Hkeys :=
  repeat lazymatch goal with
  | |- only_raises _ (Ok _) => exact I
  | |- only_raises _ (test _) => exact I
  | |- only_raises _ (reject_if _ _) => apply only_raises_when
  | |- only_raises _ (reject_when _ _) => apply reject_when_raises
  | |- only_raises _ (or_else _ _) => apply or_else_raises
  | |- only_raises _ (getitem _ _) => apply getitem_raises; rewrite Hkeys; by_decide
  | |- only_raises _ (frame_addresses _) => apply getitems_raises; rewrite Hkeys; by_decide
  | |- only_raises _ (map_result (getitem _) _) => apply getitems_raises; rewrite Hkeys; by_decide
  | |- only_raises _ (check_frames _ _ _) => apply check_frames_raises
  | |- only_raises _ (check_overlap _) => apply check_overlap_raises
  | |- only_raises _ (for_each _ _) => apply only_raises_for_each; intros ?
  | |- only_raises _ (_ ≫= _) => apply only_raises_bind; [|intros ? ?]
  end.

Lemma unpack_raises o ws b : length b = Struct.calcsize ws →
  only_raises ContractError (Struct.unpack o ws b).
Proof. intros H. unfold Struct.unpack. by rewrite raise_when_false by (intros n; by apply n). Qed.

Lemma unpack_from_raises o ws b off : (off + Struct.calcsize ws ≤ length b)%nat →
  only_raises ContractError (Struct.unpack_from o ws b off).
Proof. intros H. unfold Struct.unpack_from. by rewrite raise_when_false by lia. Qed.

#[export] Hint Resolve check_frames_raises check_overlap_raises unpack_raises
  unpack_from_raises : micronux.
