(* ===== verification/Cold.v ===== *)
(** * The ABI-v3 cold-relinquish contract

    Models the ABI-v3 half of scripts/m9-2-display-contract-test.py: the field
    table and constants, [ColdHardwareState], [cold_default_values],
    [make_cold_relinquish] and [validate_cold_relinquish].  The validator is one
    Python function; it is cut here into the stages its blank lines separate,
    composed in the order of the code.

    The second half states what Linux may take over ([cold_spec]) and proves
    that the validator accepts exactly it, with the memory-safety consequences
    and the detection of corrupted contracts. *)

From S2P Require Import Prelude PyBytes Contract ContractTheory.

Definition COLD_RELINQUISH_FIELDS : list string :=
  ["magic"; "abi_version"; "struct_size"; "flags"; "boot_mode"; "ownership_state";
   "silicon_revision"; "panel_profile_id"; "width"; "height"; "stride"; "pixel_format";
   "pixel_clock_hz"; "lane_bit_rate_mbps"; "data_lanes"; "buffer_count";
   "hsync_pulse_width"; "hsync_back_porch"; "hsync_front_porch"; "vsync_pulse_width";
   "vsync_back_porch"; "vsync_front_porch"; "framebuffer0"; "framebuffer1"; "framebuffer2";
   "framebuffer_size"; "descriptor_address"; "descriptor_size"; "descriptor_count";
   "dma_channel"; "dsi_fifo_address"; "gdma_irq_source"; "gdma_clic_irq"; "i2c_port";
   "i2c_sda_gpio"; "i2c_scl_gpio"; "i2c_rate_hz"; "i2c_address";
   "display_control_register"; "backlight_register";
   "display_control_reset_assert_command"; "display_control_reset_prepare_command";
   "display_control_reveal_command"; "backlight_brightness"; "reset_hold_ms";
   "pwm_zero_settle_ms"; "panel_payload_crc32"; "quiesce_sequence_id"; "crc32"].

(** [struct.Struct("<IHH46I")] as field widths. *)
Definition COLD_RELINQUISH_FORMAT : list nat := [4; 2; 2]%nat ++ replicate 46 4%nat.

Definition COLD_FRAME_ADDRESSES : list Z := [0x48041000; 0x49300000; 0x49500000].
Definition COLD_FRAMEBUFFER_ALIGNMENT : Z := COLD_PAGE_SIZE.
Definition COLD_ABI_VERSION : Z := 3.
Definition COLD_BOOT_MODE : Z := 1.
Definition COLD_OWNER_LINUX_PENDING : Z := DISPLAY_OWNER_LINUX_PENDING.
Definition COLD_SILICON_REVISION : Z := 103.
Definition COLD_PANEL_PROFILE_JD9365_WAVESHARE_10_1 : Z := 1.
Definition COLD_PIXEL_FORMAT_RGB565_LE : Z := 1.
Definition COLD_FLAG_DMA_PMS_READY : Z := Z.shiftl 1 10.
Definition COLD_FLAG_GDMA_IRQ_ROUTE_READY : Z := Z.shiftl 1 11.
Definition COLD_REQUIRED_FLAGS : Z := 0x00003FFF.
Definition COLD_ALLOWED_FLAGS : Z := COLD_REQUIRED_FLAGS.

(** The fourteen single-bit flags, in the order of the tuple. *)
Definition COLD_FLAG_VALUES : list Z :=
  [Z.shiftl 1 0; Z.shiftl 1 1; Z.shiftl 1 2; Z.shiftl 1 3; Z.shiftl 1 4; Z.shiftl 1 5;
   Z.shiftl 1 6; Z.shiftl 1 7; Z.shiftl 1 8; Z.shiftl 1 9; COLD_FLAG_DMA_PMS_READY;
   COLD_FLAG_GDMA_IRQ_ROUTE_READY; Z.shiftl 1 12; Z.shiftl 1 13].

Definition COLD_DISPLAY_CONTROL_RESET_ASSERT_COMMAND : Z := 0x11.
Definition COLD_DISPLAY_CONTROL_RESET_PREPARE_COMMAND : Z := 0x13.
Definition COLD_DISPLAY_CONTROL_REVEAL_COMMAND : Z := 0x17.
Definition COLD_DESCRIPTOR_ADDRESS : Z := 0x4FF3C000.
Definition COLD_DESCRIPTOR_PUBLISHED_SIZE : Z := DESCRIPTOR_SIZE * DESCRIPTOR_COUNT.
Definition COLD_DESCRIPTOR_BACKING_SIZE : Z := COLD_PAGE_SIZE.
Definition COLD_GDMA_IRQ_SOURCE : Z := 24.
Definition COLD_GDMA_CLIC_IRQ : Z := 18.
Definition COLD_I2C_PORT : Z := 0.
Definition COLD_I2C_SDA_GPIO : Z := 7.
Definition COLD_I2C_SCL_GPIO : Z := 8.
Definition COLD_I2C_RATE_HZ : Z := 100000.
Definition COLD_RESET_HOLD_MS : Z := 10.
Definition COLD_PWM_ZERO_SETTLE_MS : Z := 100.
Definition COLD_PANEL_PAYLOAD_CRC32 : Z := 0xCEA07F9B.
Definition COLD_QUIESCE_SEQUENCE_ID : Z := 1.
Definition COLD_DMA_PMS_READ_MASK : Z :=
  Z.lor (Z.lor (Z.shiftl 1 1) (Z.shiftl 1 2)) (Z.shiftl 1 3).
Definition COLD_DMA_PMS_WRITE_MASK : Z := Z.lor (Z.shiftl 1 3) (Z.shiftl 1 4).

(** [dict(zip(COLD_RELINQUISH_FIELDS, (0x00, 0x04, 0x06, *range(0x08, 0xC0, 4))))] *)
Definition COLD_RELINQUISH_OFFSETS : dict :=
  dict_zip COLD_RELINQUISH_FIELDS
    ([0x00; 0x04; 0x06] ++ map (λ i, 0x08 + 4 * Z.of_nat i) (seq 0 46)).

(** ** Raw hardware state *)

Record ColdHardwareState := mkColdHardwareState {
  silicon_revision : Z;
  gdma_linux_irq_data_available : bool;
  gdma_linux_virq : Z;
  gdma_linux_hwirq : Z;
  gdma_reset_asserted : bool;
  dsi_module_reset_asserted : bool;
  gdma_cpu_clock_enabled : bool;
  gdma_sys_clock_enabled : bool;
  dsi_sys_clock_enabled : bool;
  dphy_config_clock_enabled : bool;
  dphy_pll_ref_clock_enabled : bool;
  dpi_clock_enabled : bool;
  i2c_apb_clock_enabled : bool;
  dphy_ldo_enabled : bool;
  gdma_irq_route : Z;
  dma_pms_regions : list (Z * Z);
  dma_pms_read_mask : Z;
  dma_pms_write_mask : Z;
  descriptor_backing : bytes }.

(** [ColdHardwareState()] *)
Definition ColdHardwareState0 : ColdHardwareState :=
  {| silicon_revision := COLD_SILICON_REVISION;
     gdma_linux_irq_data_available := true;
     gdma_linux_virq := 3;
     gdma_linux_hwirq := COLD_GDMA_CLIC_IRQ;
     gdma_reset_asserted := true;
     dsi_module_reset_asserted := true;
     gdma_cpu_clock_enabled := false;
     gdma_sys_clock_enabled := false;
     dsi_sys_clock_enabled := false;
     dphy_config_clock_enabled := false;
     dphy_pll_ref_clock_enabled := false;
     dpi_clock_enabled := false;
     i2c_apb_clock_enabled := false;
     dphy_ldo_enabled := false;
     gdma_irq_route := COLD_GDMA_CLIC_IRQ;
     dma_pms_regions :=
       [(0x48041000, 0x48041000 + FRAME_SIZE);
        DISPLAY_POOL;
        (COLD_DESCRIPTOR_ADDRESS, COLD_DESCRIPTOR_ADDRESS + COLD_DESCRIPTOR_BACKING_SIZE);
        DSI_FIFO_WINDOW];
     dma_pms_read_mask := COLD_DMA_PMS_READ_MASK;
     dma_pms_write_mask := COLD_DMA_PMS_WRITE_MASK;
     descriptor_backing := zeros 4096 |}.

(** ** Encoder *)

Definition cold_default_values : dict :=
  [("magic", MAGIC); ("abi_version", COLD_ABI_VERSION);
   ("struct_size", Z.of_nat (Struct.calcsize COLD_RELINQUISH_FORMAT));
   ("flags", COLD_REQUIRED_FLAGS); ("boot_mode", COLD_BOOT_MODE);
   ("ownership_state", COLD_OWNER_LINUX_PENDING); ("silicon_revision", COLD_SILICON_REVISION);
   ("panel_profile_id", COLD_PANEL_PROFILE_JD9365_WAVESHARE_10_1);
   ("width", 800); ("height", 1280); ("stride", 1600);
   ("pixel_format", COLD_PIXEL_FORMAT_RGB565_LE); ("pixel_clock_hz", 60000000);
   ("lane_bit_rate_mbps", 1000); ("data_lanes", 2); ("buffer_count", 3);
   ("hsync_pulse_width", 20); ("hsync_back_porch", 20); ("hsync_front_porch", 40);
   ("vsync_pulse_width", 4); ("vsync_back_porch", 10); ("vsync_front_porch", 30);
   ("framebuffer0", 0x48041000); ("framebuffer1", 0x49300000); ("framebuffer2", 0x49500000);
   ("framebuffer_size", FRAME_SIZE); ("descriptor_address", COLD_DESCRIPTOR_ADDRESS);
   ("descriptor_size", COLD_DESCRIPTOR_PUBLISHED_SIZE);
   ("descriptor_count", DESCRIPTOR_COUNT); ("dma_channel", 0); ("dsi_fifo_address", DSI_FIFO);
   ("gdma_irq_source", COLD_GDMA_IRQ_SOURCE); ("gdma_clic_irq", COLD_GDMA_CLIC_IRQ);
   ("i2c_port", COLD_I2C_PORT); ("i2c_sda_gpio", COLD_I2C_SDA_GPIO);
   ("i2c_scl_gpio", COLD_I2C_SCL_GPIO); ("i2c_rate_hz", COLD_I2C_RATE_HZ);
   ("i2c_address", 0x45); ("display_control_register", 0x95); ("backlight_register", 0x96);
   ("display_control_reset_assert_command", COLD_DISPLAY_CONTROL_RESET_ASSERT_COMMAND);
   ("display_control_reset_prepare_command", COLD_DISPLAY_CONTROL_RESET_PREPARE_COMMAND);
   ("display_control_reveal_command", COLD_DISPLAY_CONTROL_REVEAL_COMMAND);
   ("backlight_brightness", 63); ("reset_hold_ms", COLD_RESET_HOLD_MS);
   ("pwm_zero_settle_ms", COLD_PWM_ZERO_SETTLE_MS);
   ("panel_payload_crc32", COLD_PANEL_PAYLOAD_CRC32);
   ("quiesce_sequence_id", COLD_QUIESCE_SEQUENCE_ID); ("crc32", 0)].

Definition make_cold_relinquish (overrides : dict) : result bytes :=
  encode_with_crc COLD_RELINQUISH_FORMAT COLD_RELINQUISH_FIELDS
    (dict_update cold_default_values overrides).

(** ** Validator *)

Definition cold_header (blob : bytes) : result dict :=
  reject_if (length blob < 8)%nat "structure-size" ;;
  head ← Struct.unpack_from Struct.Little [4; 2; 2]%nat blob 0;
  let magic := nth 0 head 0 in
  let abi_version := nth 1 head 0 in
  let struct_size := nth 2 head 0 in
  reject_if (magic ≠ MAGIC) "magic" ;;
  reject_if (abi_version ≠ COLD_ABI_VERSION) "abi-version" ;;
  reject_if (struct_size ≠ Z.of_nat (Struct.calcsize COLD_RELINQUISH_FORMAT)) "declared-size" ;;
  reject_if (length blob ≠ Struct.calcsize COLD_RELINQUISH_FORMAT) "structure-size" ;;
  fields ← Struct.unpack Struct.Little COLD_RELINQUISH_FORMAT blob;
  values ← dict_zip_strict COLD_RELINQUISH_FIELDS fields;
  crc ← getitem values "crc32";
  reject_if (crc32_u32 (drop_last 4 blob) ≠ crc) "crc32" ;;
  Ok values.

Definition cold_flags (values : dict) : result unit :=
  flags ← getitem values "flags";
  reject_if (Z.land flags (Z.lnot COLD_ALLOWED_FLAGS) ≠ 0) "unknown-flags" ;;
  reject_if (Z.land flags COLD_REQUIRED_FLAGS ≠ COLD_REQUIRED_FLAGS) "required-flags" ;;
  boot_mode ← getitem values "boot_mode";
  reject_if (boot_mode ≠ COLD_BOOT_MODE) "boot-mode" ;;
  ownership_state ← getitem values "ownership_state";
  reject_if (ownership_state ≠ COLD_OWNER_LINUX_PENDING) "ownership-state".

Definition COLD_PROFILE_FIELDS : list string :=
  ["silicon_revision"; "panel_profile_id"; "width"; "height"; "stride"; "pixel_format";
   "pixel_clock_hz"; "lane_bit_rate_mbps"; "data_lanes"; "buffer_count";
   "hsync_pulse_width"; "hsync_back_porch"; "hsync_front_porch"; "vsync_pulse_width";
   "vsync_back_porch"; "vsync_front_porch"].

Definition COLD_PROFILE : list Z :=
  [COLD_SILICON_REVISION; COLD_PANEL_PROFILE_JD9365_WAVESHARE_10_1; 800; 1280; 1600;
   COLD_PIXEL_FORMAT_RGB565_LE; 60000000; 1000; 2; 3] ++ DISPLAY_TIMING.

Definition cold_profile (values : dict) : result unit :=
  profile ← map_result (getitem values) COLD_PROFILE_FIELDS;
  reject_if (profile ≠ COLD_PROFILE) "panel-profile" ;;
  check_frame_size values.

Definition cold_frames (values : dict) : result unit :=
  addresses ← frame_addresses values;
  let front := nth 0 addresses 0 in
  let front_end := front + FRAME_SIZE in
  reject_if (front_end > 0xFFFFFFFF ∨ front < LOADER_PSRAM.1 ∨ front_end > LOADER_PSRAM.2)
    "loader-front-bounds" ;;
  reject_if (drop 1 addresses ≠ drop 1 COLD_FRAME_ADDRESSES) "display-pool-layout" ;;
  ranges ← check_frames COLD_FRAMEBUFFER_ALIGNMENT 0 addresses;
  check_overlap ranges.

Definition cold_descriptor (values : dict) : result unit :=
  descriptor_address ← getitem values "descriptor_address";
  let descriptor_page_end := descriptor_address + COLD_DESCRIPTOR_BACKING_SIZE in
  reject_if (descriptor_page_end > 0xFFFFFFFF) "descriptor-overflow" ;;
  reject_when
    (descriptor_address < DESCRIPTOR_SRAM.1
     or? descriptor_page_end > DESCRIPTOR_SRAM.2
     or? descriptor_address mod COLD_PAGE_SIZE ≠ 0
     or? (descriptor_size ← getitem values "descriptor_size";
          descriptor_size ≠ COLD_DESCRIPTOR_PUBLISHED_SIZE
          or? (descriptor_count ← getitem values "descriptor_count";
               test (descriptor_count ≠ DESCRIPTOR_COUNT)))) "descriptor-bounds" ;;
  reject_if (descriptor_address < SD_DMA_SRAM.2 ∧ descriptor_page_end > SD_DMA_SRAM.1)
    "descriptor-sd-dma-overlap" ;;
  dma_channel ← getitem values "dma_channel";
  reject_if (dma_channel ≠ 0) "dma-channel".

(** The fields of the peripheral contract with the value each must have. *)
Definition COLD_PERIPHERALS : dict :=
  [("dsi_fifo_address", DSI_FIFO); ("gdma_irq_source", COLD_GDMA_IRQ_SOURCE);
   ("gdma_clic_irq", COLD_GDMA_CLIC_IRQ); ("i2c_port", COLD_I2C_PORT);
   ("i2c_sda_gpio", COLD_I2C_SDA_GPIO); ("i2c_scl_gpio", COLD_I2C_SCL_GPIO);
   ("i2c_rate_hz", COLD_I2C_RATE_HZ); ("i2c_address", 0x45);
   ("display_control_register", 0x95); ("backlight_register", 0x96);
   ("display_control_reset_assert_command", COLD_DISPLAY_CONTROL_RESET_ASSERT_COMMAND);
   ("display_control_reset_prepare_command", COLD_DISPLAY_CONTROL_RESET_PREPARE_COMMAND);
   ("display_control_reveal_command", COLD_DISPLAY_CONTROL_REVEAL_COMMAND);
   ("backlight_brightness", 63); ("reset_hold_ms", COLD_RESET_HOLD_MS);
   ("pwm_zero_settle_ms", COLD_PWM_ZERO_SETTLE_MS);
   ("panel_payload_crc32", COLD_PANEL_PAYLOAD_CRC32);
   ("quiesce_sequence_id", COLD_QUIESCE_SEQUENCE_ID)].

(** [values[k1] != v1 or values[k2] != v2 or ...] *)
Fixpoint differs (values : dict) (expected : dict) : result bool :=
  match expected with
  | [] => Ok false
  | (k, v) :: expected => x ← getitem values k; x ≠ v or? differs values expected
  end.

Definition cold_peripherals (values : dict) (hardware : ColdHardwareState) : result unit :=
  reject_if (gdma_linux_irq_data_available hardware = false) "gdma-linux-irq-data" ;;
  gdma_clic_irq ← getitem values "gdma_clic_irq";
  reject_if (gdma_linux_hwirq hardware ≠ gdma_clic_irq) "gdma-linux-hwirq" ;;
  reject_when (differs values COLD_PERIPHERALS) "peripheral-contract".

Definition cold_hardware (values : dict) (hardware : ColdHardwareState) : result unit :=
  addresses ← frame_addresses values;
  descriptor_address ← getitem values "descriptor_address";
  let front := nth 0 addresses 0 in
  let front_end := front + FRAME_SIZE in
  let descriptor_page_end := descriptor_address + COLD_DESCRIPTOR_BACKING_SIZE in
  revision ← getitem values "silicon_revision";
  reject_if (silicon_revision hardware ≠ revision) "silicon-readback" ;;
  reject_if (gdma_reset_asserted hardware = false ∨ dsi_module_reset_asserted hardware = false)
    "display-reset-clock-state" ;;
  reject_if (gdma_cpu_clock_enabled hardware = true
             ∨ gdma_sys_clock_enabled hardware = true
             ∨ dsi_sys_clock_enabled hardware = true
             ∨ dphy_config_clock_enabled hardware = true
             ∨ dphy_pll_ref_clock_enabled hardware = true
             ∨ dpi_clock_enabled hardware = true) "display-reset-clock-state" ;;
  reject_if (dphy_ldo_enabled hardware = true) "dphy-ldo-enabled" ;;
  reject_if (i2c_apb_clock_enabled hardware = true) "i2c-not-released" ;;
  gdma_clic_irq ← getitem values "gdma_clic_irq";
  reject_if (gdma_irq_route hardware ≠ gdma_clic_irq) "gdma-irq-route" ;;
  reject_if (dma_pms_regions hardware
               ≠ [(front, front_end);
                  DISPLAY_POOL;
                  (descriptor_address, descriptor_page_end);
                  DSI_FIFO_WINDOW]
             ∨ dma_pms_read_mask hardware ≠ COLD_DMA_PMS_READ_MASK
             ∨ dma_pms_write_mask hardware ≠ COLD_DMA_PMS_WRITE_MASK) "dma-pms-policy" ;;
  reject_if (blen (descriptor_backing hardware) ≠ COLD_DESCRIPTOR_BACKING_SIZE
             ∨ Exists (λ b, bz b ≠ 0) (descriptor_backing hardware))
    "descriptor-storage-not-zero".

Definition validate_cold_relinquish (blob : bytes) (hardware : ColdHardwareState) : result unit :=
  values ← cold_header blob;
  cold_flags values ;;
  cold_profile values ;;
  cold_frames values ;;
  cold_descriptor values ;;
  cold_peripherals values hardware ;;
  cold_hardware values hardware.

(** ** Abstract specification *)

(** The loader frame: one page-aligned frame inside the loader's PSRAM. *)
Definition front_ok (front : Z) : Prop :=
  LOADER_PSRAM.1 ≤ front ∧ front + FRAME_SIZE ≤ LOADER_PSRAM.2 ∧ front mod COLD_PAGE_SIZE = 0.

(** The descriptor page: one page of DMA SRAM clear of the SD controller's. *)
Definition descriptor_ok (desc : Z) : Prop :=
  DESCRIPTOR_SRAM.1 ≤ desc ∧ desc + COLD_PAGE_SIZE ≤ DESCRIPTOR_SRAM.2
  ∧ desc mod COLD_PAGE_SIZE = 0
  ∧ (SD_DMA_SRAM.2 ≤ desc ∨ desc + COLD_PAGE_SIZE ≤ SD_DMA_SRAM.1).

(** What the hardware must read back for the frame and the descriptor page. *)
Record hardware_relinquished (hw : ColdHardwareState) (front desc : Z) : Prop := {
  hr_silicon : silicon_revision hw = COLD_SILICON_REVISION;
  hr_irq : gdma_linux_irq_data_available hw = true
           ∧ gdma_linux_hwirq hw = COLD_GDMA_CLIC_IRQ ∧ gdma_irq_route hw = COLD_GDMA_CLIC_IRQ;
  hr_reset : gdma_reset_asserted hw = true ∧ dsi_module_reset_asserted hw = true;
  hr_clocks : gdma_cpu_clock_enabled hw = false ∧ gdma_sys_clock_enabled hw = false
              ∧ dsi_sys_clock_enabled hw = false ∧ dphy_config_clock_enabled hw = false
              ∧ dphy_pll_ref_clock_enabled hw = false ∧ dpi_clock_enabled hw = false;
  hr_power : dphy_ldo_enabled hw = false ∧ i2c_apb_clock_enabled hw = false;
  hr_pms : dma_pms_regions hw = [(front, front + FRAME_SIZE); DISPLAY_POOL;
                                 (desc, desc + COLD_PAGE_SIZE); DSI_FIFO_WINDOW]
           ∧ dma_pms_read_mask hw = COLD_DMA_PMS_READ_MASK
           ∧ dma_pms_write_mask hw = COLD_DMA_PMS_WRITE_MASK;
  hr_descriptors : descriptor_backing hw = zeros 4096 }.

(** The contract as published: everything but two addresses is fixed. *)
Definition cold_spec (blob : bytes) (hw : ColdHardwareState) (front desc : Z) : Prop :=
  make_cold_relinquish [("framebuffer0", front); ("descriptor_address", desc)] = Ok blob
  ∧ front_ok front ∧ descriptor_ok desc ∧ hardware_relinquished hw front desc.

(** ** Encoder and header *)

Definition COLD_BODY : list nat := [4; 2; 2]%nat ++ replicate 45 4%nat.
Definition COLD_BODY_FIELDS : list string := take 48 COLD_RELINQUISH_FIELDS.

Lemma make_cold_eq o :
  make_cold_relinquish o =
    (p ← Struct.pack Struct.Little COLD_BODY
           (map (dget (dict_update cold_default_values o)) COLD_BODY_FIELDS);
     Ok (with_crc p)).
Proof.
  unfold make_cold_relinquish.
  change COLD_RELINQUISH_FORMAT with (COLD_BODY ++ [4%nat]).
  change COLD_RELINQUISH_FIELDS with (COLD_BODY_FIELDS ++ ["crc32"]).
  apply encode_with_crc_eq; [done|by_decide|]. apply Forall_forall. intros k Hk. apply dict_update_keys, dict_lookup_keys.
  assert (COLD_BODY_FIELDS ⊆ map fst cold_default_values) as Hsub by by_decide. by apply Hsub.
Qed.

(** The values of a contract with the given two addresses. *)
Definition cold_body (front desc : Z) : list Z :=
  map (dget (dict_update cold_default_values
               [("framebuffer0", front); ("descriptor_address", desc)])) COLD_BODY_FIELDS.

Lemma make_cold_addresses front desc :
  make_cold_relinquish [("framebuffer0", front); ("descriptor_address", desc)] =
    (p ← Struct.pack Struct.Little COLD_BODY (cold_body front desc); Ok (with_crc p)).
Proof. apply make_cold_eq. Qed.

Lemma cold_header_ok blob values :
  cold_header blob = Ok values ↔
  ∃ p us, blob = with_crc p ∧ length us = 48%nat ∧ Struct.pack Struct.Little COLD_BODY us = Ok p
    ∧ take 3 us = [MAGIC; COLD_ABI_VERSION; 0xC0]
    ∧ values = dict_zip COLD_RELINQUISH_FIELDS (us ++ [crc32_u32 p]).
Proof.
  unfold cold_header. change COLD_RELINQUISH_FORMAT with (COLD_BODY ++ [4%nat]). split.
  - intros H. inv_reject.
    unfold Struct.unpack_from in Hok. inv_ok.
    pose proof Hok0 as Hf. apply dict_zip_strict_ok in Hok1 as [Hlen ->].
    rewrite getitem_zip in Hok2; [|done|by_decide]. 
    assert (a2 = nth (length COLD_BODY) a0 0) as ->
      by (symmetry; exact (f_equal (λ r, match r with Ok c => c | Err _ => 0 end) Hok2)).
    apply crc_field_eq in Hf as (p & us & -> & Hl & Hp & ->); [|by apply dec_stable].
    exists p, us. split_and!; try done.
    unfold Struct.unpack in Hok0. inv_ok.
    assert (take 3 us = Struct.fields Struct.Little [4; 2; 2]%nat (with_crc p)) as ->.
    { transitivity (take 3 (us ++ [crc32_u32 p])); [by rewrite take_app_le by (simpl in *; lia)|].
      by rewrite <- Hok0. }
    simpl Struct.fields in *. f_equal; [|f_equal; [|f_equal]];
      by match goal with H : ¬ (?a ≠ _) |- ?a = _ => apply dec_stable end.
  - intros (p & us & -> & Hl & Hp & Ht & ->).
    assert (length (with_crc p) = 192%nat) as Hlen.
    { unfold with_crc. by rewrite length_app, length_le_split, (Struct.pack_length _ _ _ _ Hp). }
    assert (Struct.unpack Struct.Little (COLD_BODY ++ [4%nat]) (with_crc p)
            = Ok (us ++ [crc32_u32 p])) as Hun.
    { apply Struct.unpack_pack. rewrite pack_app by (by rewrite Hl).
      rewrite Hp, pack_u32 by apply crc32_u32_fits. done. }
    assert (Struct.unpack_from Struct.Little [4; 2; 2]%nat (with_crc p) 0
            = Ok (Struct.fields Struct.Little [4; 2; 2]%nat (with_crc p))) as ->.
    { unfold Struct.unpack_from. by rewrite raise_when_false by (simpl; lia). }
    unfold reject_if. rewrite raise_when_false by lia. cbn [mbind result_bind].
    assert (Struct.fields Struct.Little [4; 2; 2]%nat (with_crc p) = take 3 us) as ->.
    { unfold Struct.unpack in Hun. inv_ok. transitivity (take 3 (us ++ [crc32_u32 p])).
      - by rewrite <- Hun.
      - by rewrite take_app_le by lia. }
    rewrite Ht. rewrite !raise_when_false by (intros n; apply n; first [reflexivity | exact Hlen]).
    rewrite Hun. cbn [mbind result_bind].
    rewrite (proj2 (dict_zip_strict_ok _ _ (dict_zip COLD_RELINQUISH_FIELDS (us ++ [crc32_u32 p]))))
      by (rewrite length_app, Hl; done).
    cbn [mbind result_bind].
    rewrite getitem_zip; [|by rewrite length_app, Hl|by_decide]. cbn [mbind result_bind]. rewrite raise_when_false; [done|].
    change (name_index "crc32" COLD_RELINQUISH_FIELDS) with 48%nat.
    unfold with_crc. rewrite drop_last_app by apply length_le_split.
    rewrite app_nth2 by lia. rewrite Hl. by intros [].
Qed.

(** ** Stage by stage *)

(** Replaces every lookup in a fully known dictionary by the value found, and every
    chain of conditions by their disjunction. *)
Ltac eval_items d :=
  unfold frame_addresses, FRAME_FIELDS in *; cbn [map_result] in *;
  repeat match goal with
  | |- context [getitem d ?k] => let v := eval vm_compute in (getitem d k) in change (getitem d k) with v
  | H : context [getitem d ?k] |- _ =>
      let v := eval vm_compute in (getitem d k) in change (getitem d k) with v in H
  | |- context [dget d ?k] => let v := eval vm_compute in (dget d k) in change (dget d k) with v
  | H : context [dget d ?k] |- _ =>
      let v := eval vm_compute in (dget d k) in change (dget d k) with v in H
  end;
  cbn [mbind result_bind nth drop] in *;
  repeat first
    [ rewrite or_else_test | rewrite reject_when_test
    | match goal with
      | H : context [_ or? test _] |- _ => rewrite or_else_test in H
      | H : context [reject_when (test _) _] |- _ => rewrite reject_when_test in H
      end ].

Lemma differs_known values expected : Forall (λ kv, is_Some (dict_lookup kv.1 values)) expected →
  differs values expected = test (Exists (λ kv, dget values kv.1 ≠ kv.2) expected).
Proof.
  induction 1 as [|[k v] expected Hk _ IH]; cbn [differs fst snd] in *.
  - unfold test. by rewrite bool_decide_eq_false_2 by (by intros ?%Exists_nil).
  - rewrite getitem_known by done. cbn [mbind result_bind]. rewrite IH, or_else_test. unfold test. f_equal.
    apply bool_decide_ext. by rewrite Exists_cons.
Qed.

Lemma mask_split a m : Z.lor (Z.land a m) (Z.land a (Z.lnot m)) = a.
Proof.
  apply Z.bits_inj'. intros i Hi. rewrite Z.lor_spec, !Z.land_spec, Z.lnot_spec by done.
  by destruct (Z.testbit a i), (Z.testbit m i).
Qed.

Definition cold_values (us : list Z) (c : Z) : dict :=
  dict_zip COLD_RELINQUISH_FIELDS (us ++ [c]).

Lemma zeros_spec b :
  blen b = COLD_DESCRIPTOR_BACKING_SIZE ∧ ¬ Exists (λ b, bz b ≠ 0) b ↔ b = zeros 4096.
Proof.
  split.
  - intros [Hl Hz]. unfold blen, COLD_DESCRIPTOR_BACKING_SIZE, COLD_PAGE_SIZE in Hl.
    unfold zeros. replace 4096%nat with (length b) by lia. clear Hl.
    induction b as [|x b IH]; simpl; [done|]. rewrite Exists_cons in Hz. f_equal; [|tauto].
    apply byte.unsigned_inj. change (byte.unsigned Byte.x00) with 0.
    destruct (decide (byte.unsigned x = 0)); [done|]. tauto.
  - intros ->. split; [by_compute|]. rewrite Exists_exists. intros (x & Hx & Hz).
    apply Hz. apply elem_of_replicate in Hx as [-> _]. done.
Qed.

(** The checks after the header pin every field but the two addresses. *)
Lemma cold_fields_ok us c :
  length us = 48%nat → take 3 us = [MAGIC; COLD_ABI_VERSION; 0xC0] →
  cold_flags (cold_values us c) = Ok tt →
  cold_profile (cold_values us c) = Ok tt →
  cold_frames (cold_values us c) = Ok tt →
  cold_descriptor (cold_values us c) = Ok tt →
  ¬ Exists (λ kv, dget (cold_values us c) kv.1 ≠ kv.2) COLD_PERIPHERALS →
  ∃ front desc, us = cold_body front desc ∧ front_ok front ∧ descriptor_ok desc.
Proof.
  intros Hl Ht Hfl Hpr Hfr Hde Hpe.
  do 48 (destruct us as [|? us]; [discriminate Hl|]). destruct us; [clear Hl | discriminate Hl].
  injection Ht as -> -> ->.
  match type of Hfl with cold_flags ?d = _ => set (d' := d) in * end.
  unfold cold_flags, cold_profile, check_frame_size, cold_frames, cold_descriptor, COLD_PROFILE_FIELDS in *.
  rewrite <- Forall_Exists_neg in Hpe. unfold COLD_PERIPHERALS in Hpe.
  repeat match goal with H : Forall _ (_ :: _) |- _ => apply Forall_cons in H as [? H]; cbn [fst snd] in * end.
  clear Hpe. eval_items d'. clear d'. inv_reject.
  apply check_frames_ok in Hok0 as (_ & Hal & _). apply Forall_cons in Hal as [Hal _].
  repeat match goal with H : ¬ (?a ≠ ?b) |- _ => apply dec_stable in H end.
  repeat match goal with
  | H : _ :: _ = COLD_PROFILE |- _ => injection H as
  | H : [_; _] = drop 1 _ |- _ => injection H as
  end.
  assert (z2 = COLD_REQUIRED_FLAGS) as Hflags.
  { rewrite <- (mask_split z2 COLD_REQUIRED_FLAGS), H18. unfold COLD_ALLOWED_FLAGS in *.
    by rewrite H17, Z.lor_0_r. }
  exists z21, z25. unfold front_ok, descriptor_ok.
  assert (z26 = COLD_DESCRIPTOR_PUBLISHED_SIZE ∧ z27 = DESCRIPTOR_COUNT) as [? ?] by lia.
  clear Hok Hfr H26 H27. subst.
  split_and!; [reflexivity | ..]; unfold COLD_DESCRIPTOR_BACKING_SIZE in *; try lia.
  done.
Qed.

(** Conversely, the published contract passes every check on its fields. *)
Lemma cold_body_ok front desc c (d := cold_values (cold_body front desc) c) :
  front_ok front → descriptor_ok desc →
  cold_flags d = Ok tt ∧ cold_profile d = Ok tt ∧ cold_frames d = Ok tt
  ∧ cold_descriptor d = Ok tt ∧ ¬ Exists (λ kv, dget d kv.1 ≠ kv.2) COLD_PERIPHERALS.
Proof.
  intros (Hf1 & Hf2 & Hf3) (Hd1 & Hd2 & Hd3 & Hd4).
  unfold cold_flags, cold_profile, check_frame_size, cold_frames, cold_descriptor, COLD_PROFILE_FIELDS.
  split_and!.
  - eval_items d. reflexivity.
  - eval_items d. reflexivity.
  - eval_items d. unfold reject_if.
    rewrite raise_when_false by (unfold FRAME_SIZE in *; simpl in *; lia).
    rewrite raise_when_false by (intros n; by apply n).
    rewrite check_frames_total; cbn [take drop].
    + cbn [mbind result_bind map check_overlap for_each]. unfold reject_if.
      rewrite !raise_when_false by (unfold FRAME_SIZE in *; simpl in *; lia). reflexivity.
    + apply Forall_singleton. split_and!; [unfold FRAME_SIZE in *; simpl in *; lia | done | lia].
    + repeat constructor; simpl; done.
  - eval_items d. unfold reject_if. rewrite !raise_when_false; [reflexivity|..];
      try (unfold COLD_DESCRIPTOR_BACKING_SIZE; intros n; simpl in *; lia).
    unfold COLD_DESCRIPTOR_BACKING_SIZE. intros n. simpl in *.
    destruct n as [?|[?|[n|[n|n]]]]; try lia; by apply n.
  - rewrite <- Forall_Exists_neg. unfold COLD_PERIPHERALS.
    repeat constructor; cbn [fst snd]; eval_items d; intros n; by apply n.
Qed.

Lemma cold_hardware_ok front desc c hw (d := cold_values (cold_body front desc) c) :
  front_ok front → descriptor_ok desc →
  cold_peripherals d hw = Ok tt ∧ cold_hardware d hw = Ok tt ↔ hardware_relinquished hw front desc.
Proof.
  intros Hf Hd. destruct (cold_body_ok front desc c Hf Hd) as (_ & _ & _ & _ & Hp).
  fold d in Hp. unfold cold_peripherals, cold_hardware.
  rewrite differs_known by (by repeat constructor). rewrite reject_when_test. eval_items d.
  unfold reject_if. rewrite !raise_when_ok, !raise_when_unit.
  pose proof (zeros_spec (descriptor_backing hw)) as Hz. split.
  - intros ((Hia & Hir & _) & Hsi & Hre & Hck & Hldo & Hi2c & Hrt & Hpms & Hbk).
    repeat match goal with
    | H : ¬ (_ ∨ _) |- _ => apply Decidable.not_or in H as [? H]
    | H : ¬ (?a ≠ ?b) |- _ => apply dec_stable in H
    | H : ¬ (_ = true) |- _ => apply not_true_is_false in H
    | H : ¬ (_ = false) |- _ => apply not_false_is_true in H
    end.
    constructor; split_and?; try done. by apply Hz.
  - intros [Hs (Hi1 & Hi2 & Hi3) (Hr1 & Hr2) (Hc1 & Hc2 & Hc3 & Hc4 & Hc5 & Hc6) (Hw1 & Hw2)
            (Hm1 & Hm2 & Hm3) Hb].
    apply Hz in Hb as [Hb1 Hb2].
    rewrite Hi1, Hi2, Hi3, Hs, Hr1, Hr2, Hc1, Hc2, Hc3, Hc4, Hc5, Hc6, Hw1, Hw2, Hm1, Hm2, Hm3.
    unfold COLD_DESCRIPTOR_BACKING_SIZE. split_and!; try done; try (intros n; by apply n);
      intuition (try discriminate; congruence).
Qed.

(** The refinement of the abstract contract, both directions. *)
Lemma validate_cold_iff blob hw :
  validate_cold_relinquish blob hw = Ok tt ↔ ∃ front desc, cold_spec blob hw front desc.
Proof.
  unfold validate_cold_relinquish, cold_spec. split.
  - intros H. inv_ok. apply cold_header_ok in Hok as (p & us & -> & Hl & Hp & Ht & ->).
    fold (cold_values us (crc32_u32 p)) in *.
    destruct (cold_fields_ok us (crc32_u32 p)) as (front & desc & -> & Hf & Hd);
      try assumption.
    { unfold cold_peripherals in Hok4. rewrite differs_known, reject_when_test in Hok4.
      - inv_reject. assumption.
      - apply Forall_forall. intros kv Hkv. apply dict_lookup_keys. unfold cold_values. rewrite dict_zip_keys.
        + assert (map fst COLD_PERIPHERALS ⊆ COLD_RELINQUISH_FIELDS) as Hsub by by_decide.
          apply Hsub. by apply (list_elem_of_fmap_2 fst).
        + by rewrite length_app, Hl. }
    exists front, desc. rewrite make_cold_addresses, Hp.
    split; [reflexivity | split; [exact Hf | split; [exact Hd|]]].
    apply (cold_hardware_ok front desc (crc32_u32 p)); [exact Hf | exact Hd | split; assumption].
  - intros (front & desc & Hm & Hf & Hd & Hhw). rewrite make_cold_addresses in Hm. inv_ok.
    assert (cold_header (with_crc a) = Ok (cold_values (cold_body front desc) (crc32_u32 a))) as ->.
    { apply cold_header_ok. exists a, (cold_body front desc).
      split_and!; [reflexivity | reflexivity | exact Hok | reflexivity | reflexivity]. }
    apply (cold_hardware_ok front desc (crc32_u32 a) hw Hf Hd) in Hhw as [Hh1 Hh2].
    destruct (cold_body_ok front desc (crc32_u32 a) Hf Hd) as (H1 & H2 & H3 & H4 & _).
    cbn [mbind result_bind]. rewrite H1, H2, H3, H4, Hh1. exact Hh2.
Qed.

(** C1: [validate_cold_relinquish] refines the abstract contract: it returns
    without raising exactly when the blob is the published encoding for some
    page-aligned loader frame and descriptor page in their windows and the
    hardware reads back fully relinquished for those two addresses. *)
Theorem cold_accept_iff blob hw :
  validate_cold_relinquish blob hw = Ok tt ↔ ∃ front desc, cold_spec blob hw front desc.
Proof. apply validate_cold_iff. Qed.

(** The regions a contract names that belong to someone else. *)
Definition FOREIGN_REGIONS : list (Z * Z) :=
  [KERNEL_GENERAL_RAM; USER_POOL; COMMS_POOL; SD_DMA_SRAM].

Definition within (r s : Z * Z) : Prop := s.1 ≤ r.1 ∧ r.2 ≤ s.2.

(** The half-open range of each of the three published frames. *)
Definition published_frames (values : dict) : list (Z * Z) :=
  map (λ a, (a, a + FRAME_SIZE)) (map (dget values) FRAME_FIELDS).

Lemma cold_header_values blob front desc values :
  make_cold_relinquish [("framebuffer0", front); ("descriptor_address", desc)] = Ok blob →
  cold_header blob = Ok values →
  map (dget values) FRAME_FIELDS = [front; 0x49300000; 0x49500000]
  ∧ dget values "descriptor_address" = desc.
Proof.
  rewrite make_cold_addresses. intros H Hh. inv_ok.
  apply cold_header_ok in Hh as (p & us & Hb & Hl & Hp & _ & ->).
  assert (a = p) as <-.
  { unfold with_crc in Hb. apply app_inj_2 in Hb as [Hb _]; [done|].
    by rewrite !length_le_split. }
  assert (us = cold_body front desc) as ->; [|split; reflexivity].
  rewrite <- (Struct.fields_pack _ _ _ _ [] Hok). symmetry. by apply Struct.fields_pack.
Qed.

(** C2: what Linux takes over is memory safe.  When the cold contract is
    accepted, every region the DMA permission unit grants is disjoint from
    kernel RAM, the user pool, the communication pool and the SD controller's
    buffers; granted regions are pairwise disjoint; and the three published
    frames are pairwise disjoint, page aligned and inside granted regions. *)
Theorem cold_accept_memory_safe blob hw values :
  validate_cold_relinquish blob hw = Ok tt →
  cold_header blob = Ok values →
  (∀ r s, r ∈ dma_pms_regions hw → s ∈ FOREIGN_REGIONS → disjoint_ranges r s)
  ∧ (∀ i j r s, i ≠ j → dma_pms_regions hw !! i = Some r → dma_pms_regions hw !! j = Some s →
       disjoint_ranges r s)
  ∧ (∀ i j r s, i ≠ j → published_frames values !! i = Some r →
       published_frames values !! j = Some s → disjoint_ranges r s)
  ∧ (∀ r, r ∈ published_frames values →
       r.1 mod COLD_PAGE_SIZE = 0 ∧ ∃ s, s ∈ dma_pms_regions hw ∧ within r s).
Proof.
  rewrite validate_cold_iff. intros (front & desc & Hm & Hf & Hd & Hhw) Hh.
  destruct (cold_header_values _ _ _ _ Hm Hh) as [Hfr _].
  destruct Hhw as [_ _ _ _ _ (Hpms & _ & _) _]. rewrite Hpms.
  unfold published_frames. rewrite Hfr. cbn [map].
  destruct Hf as (Hf1 & Hf2 & Hf3), Hd as (Hd1 & Hd2 & _ & Hd4).
  unfold FRAME_SIZE, COLD_PAGE_SIZE in *. simpl in Hf1, Hf2, Hd1, Hd2, Hd4.
  unfold DSI_FIFO_WINDOW, DSI_FIFO, COLD_PAGE_SIZE in *.
  split; [|split; [|split]].
  - intros r s Hr Hs. unfold FOREIGN_REGIONS in Hs.
    rewrite !elem_of_cons, elem_of_nil in Hr, Hs.
    apply disjoint_ranges_spec.
    destruct Hr as [->|[->|[->|[->|[]]]]], Hs as [->|[->|[->|[->|[]]]]]; simpl; lia.
  - intros i j r s. apply apart_lookup. cbn [apart]. rewrite !Forall_cons, !Forall_nil. simpl. lia.
  - intros i j r s. apply apart_lookup. cbn [apart]. rewrite !Forall_cons, !Forall_nil. simpl. lia.
  - intros r Hr. rewrite !elem_of_cons, elem_of_nil in Hr.
    destruct Hr as [->|[->|[->|[]]]]; (split; [done|]).
    + eexists. split; [left|]. unfold within; simpl; lia.
    + exists DISPLAY_POOL. split; [right; left|]. unfold within; simpl; lia.
    + exists DISPLAY_POOL. split; [right; left|]. unfold within; simpl; lia.
Qed.

Lemma differs_raises values expected : map fst expected ⊆ map fst values →
  only_raises ContractError (differs values expected).
Proof.
  intros Hk. induction expected as [|[k v] expected IH]; cbn [differs]; [done|]. apply only_raises_bind.
  - apply getitem_raises, Hk. by left.
  - intros x _. unfold or_else. case_decide; [done|]. apply IH. intros y Hy. apply Hk. by right.
Qed.

(** The header gives every field of the table. *)
Lemma cold_header_keys blob values : cold_header blob = Ok values → map fst values = COLD_RELINQUISH_FIELDS.
Proof.
  intros (p & us & _ & Hl & _ & _ & ->)%cold_header_ok. apply dict_zip_keys. by rewrite length_app, Hl.
Qed.

Lemma cold_header_raises blob : only_raises ContractError (cold_header blob).
Proof.
  unfold cold_header, reject_if. solve_raises.
  - apply unpack_from_raises. inv_ok. simpl. lia.
  - apply unpack_raises. inv_ok. by apply dec_stable.
  - eapply zip_strict_raises; [eassumption|]. reflexivity.
  - eapply getitem_raises. match goal with H : dict_zip_strict _ _ = Ok _ |- _ => apply dict_zip_strict_ok in H as [? ->] end.
    rewrite dict_zip_keys by done. by_decide.
Qed.

Lemma validate_cold_raises blob hw :
  only_raises ContractError (validate_cold_relinquish blob hw).
Proof.
  unfold validate_cold_relinquish. apply only_raises_bind; [apply cold_header_raises|].
  intros values Hkeys%cold_header_keys.
  unfold cold_flags, cold_profile, cold_frames, cold_descriptor, cold_peripherals, cold_hardware.
  solve_checks Hkeys.
  - apply (check_frame_size_raises _ 1600); [rewrite Hkeys; by_decide..| |done].
    inv_reject. match goal with H : ¬ (_ ≠ COLD_PROFILE) |- _ => apply dec_stable in H as -> end.
    by eapply (profile_field _ _ _ _ _ 4).
  - apply differs_raises. rewrite Hkeys. by_decide.
Qed.

(** C3: on every byte string and every hardware state the validator either
    accepts or raises [ContractError]; no other exception escapes it. *)
Theorem validate_cold_only_contract_error blob hw :
  only_raises ContractError (validate_cold_relinquish blob hw).
Proof. apply validate_cold_raises. Qed.

(** C4: a contract that was accepted is rejected after any single byte of it
    changed, whatever the hardware reads then. *)
Theorem cold_single_byte_rejected pre b b' post hw hw' :
  b ≠ b' →
  validate_cold_relinquish (pre ++ b :: post) hw = Ok tt →
  ∃ reason, validate_cold_relinquish (pre ++ b' :: post) hw' = Err (Exn ContractError reason).
Proof.
  intros Hne Ha.
  destruct (only_raises_cases _ _ (validate_cold_raises (pre ++ b' :: post) hw'))
    as [[[] Ha']|]; [|done].
  exfalso. apply Hne. unfold validate_cold_relinquish in Ha, Ha'.
  apply bind_ok_inv in Ha as (v & Hh & _). apply bind_ok_inv in Ha' as (v' & Hh' & _).
  apply cold_header_ok in Hh as (p & _ & Hp & _). apply cold_header_ok in Hh' as (q & _ & Hq & _).
  by apply (with_crc_single_byte p q pre b b' post).
Qed.

(** ** A concrete contract *)

Definition sample_cold : bytes :=
  match make_cold_relinquish [] with Ok b => b | Err _ => [] end.

Lemma sample_cold_accepted : validate_cold_relinquish sample_cold ColdHardwareState0 = Ok tt.
Proof. by_compute. Qed.

Lemma cold_accept_memory_safe_witness :
  ∃ values, cold_header sample_cold = Ok values
    ∧ ∀ r s, r ∈ dma_pms_regions ColdHardwareState0 → s ∈ FOREIGN_REGIONS → disjoint_ranges r s.
Proof.
  destruct (cold_header sample_cold) as [values|e] eqn:E.
  - exists values. split; [reflexivity|].
    exact (proj1 (cold_accept_memory_safe sample_cold ColdHardwareState0 values
      sample_cold_accepted E)).
  - exfalso. revert E. vm_compute. discriminate.
Defined.

Lemma cold_single_byte_rejected_witness :
  ∃ reason, validate_cold_relinquish (byte_of 1 :: drop 1 sample_cold) ColdHardwareState0
            = Err (Exn ContractError reason).
Proof.
  apply (cold_single_byte_rejected [] (byte_of 0x44) (byte_of 1) (drop 1 sample_cold)
    ColdHardwareState0 ColdHardwareState0).
  - discriminate.
  - exact sample_cold_accepted.
Defined.
