(* ===== verification/Handoff.v ===== *)
(** * The ABI-v2 live handoff

    Models [default_values], [make_handoff] and [validate_handoff] of
    scripts/m9-2-display-contract-test.py (the validator is cut into stages
    composed in the order of the code), then proves the refinement theorem for
    the abstract live-handoff contract, corruption detection, and the
    separation of the two ABIs. *)

From S2P Require Import Prelude PyBytes Contract ContractTheory Cold.

Definition HANDOFF_FIELDS : list string :=
  ["magic"; "abi_version"; "struct_size"; "flags"; "width"; "height"; "stride";
   "pixel_clock_hz"; "lane_bit_rate_mbps"; "data_lanes"; "buffer_count";
   "ownership_state"; "hsync_pulse_width"; "hsync_back_porch"; "hsync_front_porch";
   "vsync_pulse_width"; "vsync_back_porch"; "vsync_front_porch"; "framebuffer0";
   "framebuffer1"; "framebuffer2"; "framebuffer_size"; "descriptor_address";
   "descriptor_size"; "descriptor_count"; "dma_channel"; "dsi_fifo_address";
   "i2c_address"; "display_control_register"; "backlight_register";
   "backlight_brightness"; "crc32"].

(** [struct.Struct("<IHH29I")] as field widths. *)
Definition HANDOFF_FORMAT : list nat := [4; 2; 2]%nat ++ replicate 29 4%nat.

(** ** ABI v2: descriptors, defaults, encoder and validator *)

Record Descriptor := mkDescriptor {
  sar : Z; sar_hi : Z; dar : Z; dar_hi : Z; llp : Z; llp_hi : Z;
  block_size : Z; control_low : Z; control : Z }.

Definition Descriptor0 : Descriptor :=
  {| sar := 0x48040A80; sar_hi := 0; dar := DSI_FIFO; dar_hi := 0; llp := 1; llp_hi := 0;
     block_size := DESCRIPTOR_BLOCK_SIZE; control_low := DESCRIPTOR_CTRL_LO;
     control := DESCRIPTOR_CTRL_HI |}.

Definition default_values : dict :=
  [("magic", MAGIC); ("abi_version", ABI_VERSION);
   ("struct_size", Z.of_nat (Struct.calcsize HANDOFF_FORMAT)); ("flags", REQUIRED_FLAGS);
   ("width", 800); ("height", 1280); ("stride", 1600); ("pixel_clock_hz", 80000000);
   ("lane_bit_rate_mbps", 1500); ("data_lanes", 2); ("buffer_count", 3);
   ("ownership_state", DISPLAY_OWNER_LINUX_PENDING);
   ("hsync_pulse_width", 20); ("hsync_back_porch", 20); ("hsync_front_porch", 40);
   ("vsync_pulse_width", 4); ("vsync_back_porch", 10); ("vsync_front_porch", 30);
   ("framebuffer0", 0x48040A80); ("framebuffer1", 0x49300000); ("framebuffer2", 0x49500000);
   ("framebuffer_size", FRAME_SIZE); ("descriptor_address", 0x4FF3BA80);
   ("descriptor_size", DESCRIPTOR_SIZE * DESCRIPTOR_COUNT);
   ("descriptor_count", DESCRIPTOR_COUNT); ("dma_channel", 0); ("dsi_fifo_address", DSI_FIFO);
   ("i2c_address", 0x45); ("display_control_register", 0x95); ("backlight_register", 0x96);
   ("backlight_brightness", 63); ("crc32", 0)].

Definition make_handoff (overrides : dict) : result bytes :=
  encode_with_crc HANDOFF_FORMAT HANDOFF_FIELDS (dict_update default_values overrides).

(** The header checks of [validate_handoff], up to the checksum and the flags. *)
Definition handoff_header (blob : bytes) : result dict :=
  reject_if (length blob ≠ Struct.calcsize HANDOFF_FORMAT) "structure-size" ;;
  fields ← Struct.unpack Struct.Little HANDOFF_FORMAT blob;
  values ← dict_zip_strict HANDOFF_FIELDS fields;
  magic ← getitem values "magic";
  reject_if (magic ≠ MAGIC) "magic" ;;
  abi_version ← getitem values "abi_version";
  reject_if (abi_version ≠ ABI_VERSION) "abi-version" ;;
  struct_size ← getitem values "struct_size";
  reject_if (struct_size ≠ Z.of_nat (Struct.calcsize HANDOFF_FORMAT)) "declared-size" ;;
  crc ← getitem values "crc32";
  reject_if (crc32_u32 (drop_last 4 blob) ≠ crc) "crc32" ;;
  flags ← getitem values "flags";
  reject_if (Z.land flags REQUIRED_FLAGS ≠ REQUIRED_FLAGS) "required-flags" ;;
  Ok values.

Definition HANDOFF_PROFILE_FIELDS : list string :=
  ["width"; "height"; "stride"; "pixel_clock_hz"; "lane_bit_rate_mbps"; "data_lanes";
   "buffer_count"; "ownership_state"; "hsync_pulse_width"; "hsync_back_porch";
   "hsync_front_porch"; "vsync_pulse_width"; "vsync_back_porch"; "vsync_front_porch"].

Definition HANDOFF_PROFILE : list Z :=
  [800; 1280; 1600; 80000000; 1500; 2; 3; DISPLAY_OWNER_LINUX_PENDING] ++ DISPLAY_TIMING.

Definition handoff_profile (values : dict) : result unit :=
  profile ← map_result (getitem values) HANDOFF_PROFILE_FIELDS;
  reject_if (profile ≠ HANDOFF_PROFILE) "panel-profile" ;;
  check_frame_size values.

Definition handoff_frames (values : dict) : result unit :=
  addresses ← frame_addresses values;
  let front := nth 0 addresses 0 in
  let front_end := front + FRAME_SIZE in
  reject_if (front < LOADER_PSRAM.1 ∨ front_end > LOADER_PSRAM.2) "loader-front-bounds" ;;
  reject_if (drop 1 addresses ≠ drop 1 FRAME_ADDRESSES) "display-pool-layout" ;;
  ranges ← check_frames FRAMEBUFFER_ALIGNMENT 0 addresses;
  check_overlap ranges.

Definition handoff_descriptor_bounds (values : dict) : result unit :=
  descriptor_address ← getitem values "descriptor_address";
  descriptor_size ← getitem values "descriptor_size";
  let descriptor_end := descriptor_address + descriptor_size in
  reject_if (descriptor_end > 0xFFFFFFFF) "descriptor-overflow" ;;
  reject_when
    (descriptor_address < DESCRIPTOR_SRAM.1
     or? descriptor_end > DESCRIPTOR_SRAM.2
     or? descriptor_address mod DESCRIPTOR_SIZE ≠ 0
     or? descriptor_size ≠ DESCRIPTOR_SIZE * DESCRIPTOR_COUNT
     or? (descriptor_count ← getitem values "descriptor_count";
          test (descriptor_count ≠ DESCRIPTOR_COUNT))) "descriptor-bounds".

(** The body of [for descriptor in descriptors]. *)
Definition check_descriptor (front : Z) (d : Descriptor) : result unit :=
  reject_if (sar d ≠ front ∨ sar_hi d ≠ 0) "descriptor-source" ;;
  reject_if (dar d ≠ DSI_FIFO ∨ dar_hi d ≠ 0) "descriptor-destination" ;;
  reject_if (Z.land (llp d) (Z.lnot 0x3F) ≠ 0 ∨ llp_hi d ≠ 0) "descriptor-link" ;;
  reject_if (block_size d ≠ DESCRIPTOR_BLOCK_SIZE) "descriptor-block-size" ;;
  reject_if (control_low d ≠ DESCRIPTOR_CTRL_LO) "descriptor-control-low" ;;
  reject_if (control d ≠ DESCRIPTOR_CTRL_HI) "descriptor-control-high".

Definition handoff_peripherals (values : dict) (channel_cfg : Z * Z) : result unit :=
  reject_if (channel_cfg ≠ CHANNEL_CFG) "dma-channel-config" ;;
  dma_channel ← getitem values "dma_channel";
  reject_if (4 ≤ dma_channel) "dma-channel" ;;
  reject_when
    (dsi_fifo_address ← getitem values "dsi_fifo_address";
     dsi_fifo_address ≠ DSI_FIFO
     or? (i2c_address ← getitem values "i2c_address";
     i2c_address ≠ 0x45
     or? (display_control_register ← getitem values "display_control_register";
     display_control_register ≠ 0x95
     or? (backlight_register ← getitem values "backlight_register";
     backlight_register ≠ 0x96
     or? (backlight_brightness ← getitem values "backlight_brightness";
     test (backlight_brightness > 255)))))) "peripheral-contract".

Definition validate_handoff (blob : bytes) (descriptors : list Descriptor)
    (channel_cfg : Z * Z) : result unit :=
  values ← handoff_header blob;
  handoff_profile values ;;
  handoff_frames values ;;
  handoff_descriptor_bounds values ;;
  reject_if (Z.of_nat (length descriptors) ≠ DESCRIPTOR_COUNT) "descriptor-count" ;;
  addresses ← frame_addresses values;
  for_each (check_descriptor (nth 0 addresses 0)) descriptors ;;
  handoff_peripherals values channel_cfg.

(** ** Abstract specification *)

(** The five fields a live handoff leaves open, and the conditions on them. *)
Record live := mkLive { l_flags : Z; l_front : Z; l_desc : Z; l_dma : Z; l_bright : Z }.

Definition live_overrides (l : live) : dict :=
  [("flags", l_flags l); ("framebuffer0", l_front l); ("descriptor_address", l_desc l);
   ("dma_channel", l_dma l); ("backlight_brightness", l_bright l)].

Record live_ok (l : live) : Prop := {
  lo_flags : Z.land (l_flags l) REQUIRED_FLAGS = REQUIRED_FLAGS;
  lo_front : LOADER_PSRAM.1 ≤ l_front l ∧ l_front l + FRAME_SIZE ≤ LOADER_PSRAM.2
             ∧ l_front l mod FRAMEBUFFER_ALIGNMENT = 0;
  lo_desc : DESCRIPTOR_SRAM.1 ≤ l_desc l
            ∧ l_desc l + DESCRIPTOR_SIZE * DESCRIPTOR_COUNT ≤ DESCRIPTOR_SRAM.2
            ∧ l_desc l mod DESCRIPTOR_SIZE = 0;
  lo_dma : l_dma l < 4;
  lo_bright : l_bright l ≤ 255 }.

(** A DMA descriptor that sends the front buffer to the DSI FIFO. *)
Record scans (front : Z) (d : Descriptor) : Prop := {
  sc_source : sar d = front ∧ sar_hi d = 0;
  sc_dest : dar d = DSI_FIFO ∧ dar_hi d = 0;
  sc_link : Z.land (llp d) (Z.lnot 0x3F) = 0 ∧ llp_hi d = 0;
  sc_block : block_size d = DESCRIPTOR_BLOCK_SIZE;
  sc_control : control_low d = DESCRIPTOR_CTRL_LO ∧ control d = DESCRIPTOR_CTRL_HI }.

Definition handoff_spec (blob : bytes) (descriptors : list Descriptor) (cfg : Z * Z) (l : live) :
    Prop :=
  make_handoff (live_overrides l) = Ok blob ∧ live_ok l
  ∧ length descriptors = 3%nat ∧ Forall (scans (l_front l)) descriptors ∧ cfg = CHANNEL_CFG.

(** ** Encoder and header *)

Definition HANDOFF_BODY : list nat := [4; 2; 2]%nat ++ replicate 28 4%nat.
Definition HANDOFF_BODY_FIELDS : list string := take 31 HANDOFF_FIELDS.

Definition live_body (l : live) : list Z :=
  map (dget (dict_update default_values (live_overrides l))) HANDOFF_BODY_FIELDS.

Lemma make_handoff_live l :
  make_handoff (live_overrides l) =
    (p ← Struct.pack Struct.Little HANDOFF_BODY (live_body l); Ok (with_crc p)).
Proof.
  unfold make_handoff.
  change HANDOFF_FORMAT with (HANDOFF_BODY ++ [4%nat]).
  change HANDOFF_FIELDS with (HANDOFF_BODY_FIELDS ++ ["crc32"]).
  apply encode_with_crc_eq; [done|by_decide|]. apply Forall_forall. intros k Hk. apply dict_update_keys, dict_lookup_keys.
  assert (HANDOFF_BODY_FIELDS ⊆ map fst default_values) as Hsub by by_decide. by apply Hsub.
Qed.

Definition handoff_values (us : list Z) (c : Z) : dict := dict_zip HANDOFF_FIELDS (us ++ [c]).

Lemma handoff_header_ok blob values :
  handoff_header blob = Ok values ↔
  ∃ p us, blob = with_crc p ∧ length us = 31%nat ∧ Struct.pack Struct.Little HANDOFF_BODY us = Ok p
    ∧ take 3 us = [MAGIC; ABI_VERSION; 0x7C]
    ∧ Z.land (nth 3 us 0) REQUIRED_FLAGS = REQUIRED_FLAGS
    ∧ values = handoff_values us (crc32_u32 p).
Proof.
  unfold handoff_header. change HANDOFF_FORMAT with (HANDOFF_BODY ++ [4%nat]). split.
  - intros H. inv_reject.
    apply dict_zip_strict_ok in Hok0 as [Hla ->].
    repeat match goal with H : getitem (dict_zip _ _) _ = Ok ?z |- _ =>
      rewrite getitem_zip in H; [apply (f_equal (λ r, match r with Ok c => c | Err _ => 0 end)) in H; cbv beta iota in H; subst z|done|by_decide]
    end.
    apply crc_field_eq in Hok as (p & us & -> & Hl & Hp & ->); [|by apply dec_stable].
    change (length HANDOFF_BODY) with 31%nat in Hl.
    exists p, us. split_and!; try done.
    + do 31 (destruct us as [|? us]; [discriminate Hl|]). simpl in *.
      f_equal; [by apply dec_stable|]. f_equal; [by apply dec_stable|]. f_equal. by apply dec_stable.
    + do 31 (destruct us as [|? us]; [discriminate Hl|]). simpl in *. by apply dec_stable.
  - intros (p & us & -> & Hl & Hp & Ht & Hfl & ->).
    assert (length (with_crc p) = 124%nat) as Hlen.
    { unfold with_crc. by rewrite length_app, length_le_split, (Struct.pack_length _ _ _ _ Hp). }
    assert (Struct.unpack Struct.Little (HANDOFF_BODY ++ [4%nat]) (with_crc p)
            = Ok (us ++ [crc32_u32 p])) as ->.
    { apply Struct.unpack_pack. rewrite pack_app by (by rewrite Hl).
      rewrite Hp, pack_u32 by apply crc32_u32_fits. done. }
    unfold reject_if. rewrite raise_when_false by (intros n; by apply n).
    cbn [mbind result_bind].
    assert (drop_last 4 (with_crc p) = p) as -> by (by apply drop_last_app, length_le_split).
    rewrite (proj2 (dict_zip_strict_ok _ _ (dict_zip HANDOFF_FIELDS (us ++ [crc32_u32 p]))))
      by (rewrite length_app, Hl; done).
    cbn [mbind result_bind]. rewrite !getitem_zip by first [by rewrite length_app, Hl|by_decide]. cbn [mbind result_bind].
    do 31 (destruct us as [|? us]; [discriminate Hl|]). destruct us; [|discriminate Hl].
    injection Ht as -> -> ->. simpl in Hfl.
    rewrite !raise_when_false by (intros n; apply n; first [reflexivity | exact Hfl]).
    reflexivity.
Qed.

(** ** Stage by stage *)

Lemma check_descriptor_ok front d : check_descriptor front d = Ok tt ↔ scans front d.
Proof.
  unfold check_descriptor, reject_if. rewrite !raise_when_ok, raise_when_unit. split.
  - intros (H1 & H2 & H3 & H4 & H5 & H6).
    repeat match goal with
    | H : ¬ (_ ∨ _) |- _ => apply Decidable.not_or in H as [? H]
    | H : ¬ (?a ≠ ?b) |- _ => apply dec_stable in H
    end. by constructor.
  - intros [[] [] [] ? []]. intuition congruence.
Qed.

Lemma handoff_fields_ok us c cfg :
  length us = 31%nat → take 3 us = [MAGIC; ABI_VERSION; 0x7C] →
  Z.land (nth 3 us 0) REQUIRED_FLAGS = REQUIRED_FLAGS →
  handoff_profile (handoff_values us c) = Ok tt →
  handoff_frames (handoff_values us c) = Ok tt →
  handoff_descriptor_bounds (handoff_values us c) = Ok tt →
  handoff_peripherals (handoff_values us c) cfg = Ok tt →
  ∃ l, us = live_body l ∧ live_ok l ∧ cfg = CHANNEL_CFG
       ∧ ∃ others, frame_addresses (handoff_values us c) = Ok (l_front l :: others).
Proof.
  intros Hl Ht Hflags Hpr Hfr Hde Hpe.
  do 31 (destruct us as [|? us]; [discriminate Hl|]). destruct us; [clear Hl | discriminate Hl].
  injection Ht as -> -> ->. cbn [nth] in Hflags.
  match type of Hpr with handoff_profile ?d = _ => set (d' := d) in * end.
  unfold handoff_profile, check_frame_size, handoff_frames, handoff_descriptor_bounds,
    handoff_peripherals, HANDOFF_PROFILE_FIELDS in *.
  eval_items d'. clear d'. inv_reject.
  apply check_frames_ok in Hok0 as (_ & Hal & _). apply Forall_cons in Hal as [Hal _].
  repeat match goal with
  | H : ¬ (_ ∨ _) |- _ => apply Decidable.not_or in H as [? H]
  | H : ¬ (?a ≠ ?b) |- _ => apply dec_stable in H
  end.
  repeat match goal with
  | H : floordiv _ _ = _ |- _ => clear H
  | H : _ * _ = _ |- _ => clear H
  | H : check_overlap _ = _ |- _ => clear H
  end.
  repeat match goal with
  | H : _ :: _ = HANDOFF_PROFILE |- _ => injection H as
  | H : [_; _] = drop 1 _ |- _ => injection H as
  end. subst.
  exists (mkLive z2 z17 z21 z24 z29). split; [reflexivity|]. split; [|split; [reflexivity|by eexists]].
  constructor; simpl in *; (lia || done || auto).
Qed.

Lemma live_body_ok l c (d := handoff_values (live_body l) c) :
  live_ok l →
  handoff_profile d = Ok tt ∧ handoff_frames d = Ok tt
  ∧ handoff_descriptor_bounds d = Ok tt ∧ handoff_peripherals d CHANNEL_CFG = Ok tt.
Proof.
  destruct l as [flags front desc dma bright].
  intros [_ (Hf1 & Hf2 & Hf3) (Hd1 & Hd2 & Hd3) Hdma Hbr]. cbn [l_flags l_front l_desc l_dma l_bright] in *.
  unfold handoff_profile, check_frame_size, handoff_frames, handoff_descriptor_bounds,
    handoff_peripherals, HANDOFF_PROFILE_FIELDS.
  split_and!.
  - eval_items d. reflexivity.
  - eval_items d. unfold reject_if.
    rewrite raise_when_false by (simpl in *; lia).
    rewrite raise_when_false by (intros n; by apply n).
    rewrite check_frames_total; cbn [take drop].
    + cbn [mbind result_bind map check_overlap for_each]. unfold reject_if.
      rewrite !raise_when_false by (unfold FRAME_SIZE in *; simpl in *; lia). reflexivity.
    + apply Forall_singleton. split_and!; [unfold FRAME_SIZE in *; simpl in *; lia | done | lia].
    + repeat constructor; simpl; done.
  - eval_items d. unfold reject_if. rewrite raise_when_false
      by (unfold DESCRIPTOR_SIZE, DESCRIPTOR_COUNT in *; simpl in *; lia).
    apply raise_when_unit. change 192 with (DESCRIPTOR_SIZE * DESCRIPTOR_COUNT).
    intros [?|[?|[n|[n|n]]]]; try lia; by apply n.
  - eval_items d. unfold reject_if. rewrite !raise_when_false by first [lia | intros n; by apply n].
    apply raise_when_unit. intros [n|[n|[n|[n|n]]]]; try lia; by apply n.
Qed.

(** The refinement of the abstract live-handoff contract, both directions. *)
Lemma validate_handoff_iff blob descriptors cfg :
  validate_handoff blob descriptors cfg = Ok tt ↔ ∃ l, handoff_spec blob descriptors cfg l.
Proof.
  unfold validate_handoff, handoff_spec. split.
  - intros H. inv_reject.
    apply handoff_header_ok in Hok as (p & us & -> & Hl & Hp & Ht & Hfl & ->).
    destruct (handoff_fields_ok us (crc32_u32 p) cfg) as (l & -> & Hlo & -> & others & Hfr);
      try assumption.
    rewrite Hfr in Hok3. apply (f_equal (λ r, match r with Ok c => nth 0 c 0 | Err _ => 0 end)) in Hok3.
    cbn in Hok3. rewrite <- Hok3 in Hok4. exists l. rewrite make_handoff_live, Hp.
    split; [reflexivity|]. split; [exact Hlo|]. split; [unfold DESCRIPTOR_COUNT in *; lia|].
    split; [|reflexivity]. apply for_each_ok in Hok4.
    eapply Forall_impl; [exact Hok4|]. intros x Hx. by apply check_descriptor_ok.
  - intros (l & Hm & Hlo & Hlen & Hds & ->). rewrite make_handoff_live in Hm. inv_ok.
    assert (handoff_header (with_crc a) = Ok (handoff_values (live_body l) (crc32_u32 a))) as ->.
    { apply handoff_header_ok. exists a, (live_body l). destruct l, Hlo.
      split_and!; (reflexivity || assumption). }
    destruct (live_body_ok l (crc32_u32 a) Hlo) as (H1 & H2 & H3 & H4).
    cbn [mbind result_bind]. rewrite H1, H2, H3. cbn [mbind result_bind]. unfold reject_if.
    rewrite raise_when_false by (unfold DESCRIPTOR_COUNT; lia).
    assert (∃ others, frame_addresses (handoff_values (live_body l) (crc32_u32 a)) = Ok (l_front l :: others)) as [others ->].
    { destruct l. by eexists. }
    cbn [mbind result_bind nth]. replace (for_each _ descriptors) with (@Ok unit tt); [exact H4|].
    symmetry. apply for_each_ok. eapply Forall_impl; [exact Hds|].
    intros x Hx. apply check_descriptor_ok. destruct l. exact Hx.
Qed.

Lemma handoff_header_raises blob : only_raises ContractError (handoff_header blob).
Proof.
  unfold handoff_header. apply only_raises_bind; [apply only_raises_when|]. intros [] Hl.
  apply only_raises_bind; [apply unpack_raises; inv_reject; by apply dec_stable|]. intros fields Hu.
  apply only_raises_bind; [by eapply zip_strict_raises|]. intros values [Hlen ->]%dict_zip_strict_ok.
  pose proof (dict_zip_keys _ _ Hlen) as Hkeys. solve_checks Hkeys.
Qed.

Lemma handoff_header_keys blob values : handoff_header blob = Ok values → map fst values = HANDOFF_FIELDS.
Proof.
  intros (p & us & _ & Hl & _ & _ & _ & ->)%handoff_header_ok. apply dict_zip_keys. by rewrite length_app, Hl.
Qed.

Lemma validate_handoff_raises blob descriptors cfg :
  only_raises ContractError (validate_handoff blob descriptors cfg).
Proof.
  unfold validate_handoff. apply only_raises_bind; [apply handoff_header_raises|].
  intros values Hkeys%handoff_header_keys.
  unfold handoff_profile, handoff_frames, handoff_descriptor_bounds, handoff_peripherals, check_descriptor.
  solve_checks Hkeys. apply (check_frame_size_raises _ 1600); [rewrite Hkeys; by_decide..| |done].
  inv_reject. match goal with H : ¬ (_ ≠ HANDOFF_PROFILE) |- _ => apply dec_stable in H as -> end.
  by eapply (profile_field _ _ _ _ _ 2).
Qed.

(** C5: [validate_handoff] refines the abstract live-handoff contract: it
    returns without raising exactly when the blob is the encoding of the fixed
    ABI-v2 profile for some admissible flags, front buffer, descriptor pool,
    DMA channel and brightness, and the three DMA descriptors all send that
    front buffer to the DSI FIFO under the list-mode channel configuration. *)
Theorem handoff_accept_iff blob descriptors cfg :
  validate_handoff blob descriptors cfg = Ok tt ↔ ∃ l, handoff_spec blob descriptors cfg l.
Proof. apply validate_handoff_iff. Qed.

(** C6: the ABIs never mix.  A blob the ABI-v2 validator accepts is rejected by
    the cold validator with [abi-version] on every hardware state, and a blob
    the cold validator accepts is rejected by the ABI-v2 validator with
    [structure-size]. *)
Theorem abi_separation blob :
  (∀ descriptors cfg hw, validate_handoff blob descriptors cfg = Ok tt →
     validate_cold_relinquish blob hw = Err (Exn ContractError "abi-version"))
  ∧ (∀ descriptors cfg hw, validate_cold_relinquish blob hw = Ok tt →
     validate_handoff blob descriptors cfg = Err (Exn ContractError "structure-size")).
Proof.
  split; intros descriptors cfg hw H.
  - apply bind_ok_inv in H as (values & Hh & _).
    apply handoff_header_ok in Hh as (p & us & -> & Hl & Hp & Ht & _).
    assert (length (with_crc p) = 124%nat) as Hlen.
    { unfold with_crc. by rewrite length_app, length_le_split, (Struct.pack_length _ _ _ _ Hp). }
    assert (Struct.fields Struct.Little [4; 2; 2]%nat (with_crc p) = [MAGIC; ABI_VERSION; 0x7C]) as Hf.
    { pose proof (Struct.fields_pack _ _ _ _ (le_split 4 (crc32_u32 p)) Hp) as Hf.
      fold (with_crc p) in Hf. rewrite <- Ht, <- Hf. reflexivity. }
    assert (Struct.unpack_from Struct.Little [4; 2; 2]%nat (with_crc p) 0
            = Ok [MAGIC; ABI_VERSION; 0x7C]) as Hu.
    { unfold Struct.unpack_from. rewrite raise_when_false by (rewrite Hlen; vm_compute; lia).
      by rewrite drop_0, Hf. }
    unfold validate_cold_relinquish, cold_header, reject_if.
    rewrite raise_when_false by lia. by rewrite Hu.
  - apply bind_ok_inv in H as (values & Hh & _).
    apply cold_header_ok in Hh as (p & us & -> & Hl & Hp & _).
    unfold validate_handoff, handoff_header, reject_if.
    rewrite raise_when_true; [reflexivity|].
    unfold with_crc. rewrite length_app, length_le_split, (Struct.pack_length _ _ _ _ Hp).
    discriminate.
Qed.

(** a live handoff that was accepted is rejected after any single byte of
    it changed, whatever descriptors and channel configuration come with it. *)
Theorem handoff_single_byte_rejected pre b b' post ds cfg ds' cfg' :
  b ≠ b' →
  validate_handoff (pre ++ b :: post) ds cfg = Ok tt →
  ∃ reason, validate_handoff (pre ++ b' :: post) ds' cfg' = Err (Exn ContractError reason).
Proof.
  intros Hne Ha.
  destruct (only_raises_cases _ _ (validate_handoff_raises (pre ++ b' :: post) ds' cfg'))
    as [[[] Ha']|]; [|done].
  exfalso. apply Hne. unfold validate_handoff in Ha, Ha'.
  apply bind_ok_inv in Ha as (v & Hh & _). apply bind_ok_inv in Ha' as (v' & Hh' & _).
  apply handoff_header_ok in Hh as (p & _ & Hp & _).
  apply handoff_header_ok in Hh' as (q & _ & Hq & _).
  by apply (with_crc_single_byte p q pre b b' post).
Qed.

(** ** A concrete handoff *)

Definition sample_handoff : bytes :=
  match make_handoff [] with Ok b => b | Err _ => [] end.

Lemma sample_handoff_accepted :
  validate_handoff sample_handoff (replicate 3 Descriptor0) CHANNEL_CFG = Ok tt.
Proof. by_compute. Qed.

Lemma abi_separation_witness :
  validate_cold_relinquish sample_handoff ColdHardwareState0
    = Err (Exn ContractError "abi-version")
  ∧ validate_handoff sample_cold (replicate 3 Descriptor0) CHANNEL_CFG
    = Err (Exn ContractError "structure-size").
Proof.
  split.
  - exact (proj1 (abi_separation sample_handoff) _ _ ColdHardwareState0 sample_handoff_accepted).
  - exact (proj2 (abi_separation sample_cold) (replicate 3 Descriptor0) CHANNEL_CFG
             ColdHardwareState0 sample_cold_accepted).
Defined.

Lemma handoff_single_byte_rejected_witness :
  ∃ reason, validate_handoff (byte_of 1 :: drop 1 sample_handoff) [] (0, 0)
            = Err (Exn ContractError reason).
Proof.
  apply (handoff_single_byte_rejected [] (byte_of 0x44) (byte_of 1) (drop 1 sample_handoff)
    (replicate 3 Descriptor0) CHANNEL_CFG [] (0, 0)).
  - discriminate.
  - exact sample_handoff_accepted.
Defined.
