(* ===== verification/Ownership.v ===== *)
(** * Triple-buffer ownership

    Models [OwnershipModel] of scripts/m9-2-display-contract-test.py: which of
    the three frame buffers is scanned out ([front]), drawn into ([render]) and
    waiting for the next frame interrupt ([queued]).  Python raises inside a
    method after it assigned some attributes; the model returns the exception
    and drops the object, which the invariant shows never happens. *)

From S2P Require Import Prelude.

Record OwnershipModel := mkOwnership {
  front : Z;
  render : Z;
  queued : option Z;
  active : bool;
  requests : Z;
  completions : Z;
  rearm_attempts : Z;
  rearm_failures : Z;
  generation : Z;
  faulted : bool }.

(** [OwnershipModel(active=a)] *)
Definition OwnershipModel0 (a : bool) : OwnershipModel :=
  {| front := 0; render := 1; queued := None; active := a; requests := 0; completions := 0;
     rearm_attempts := 0; rearm_failures := 0; generation := 0; faulted := false |}.

(** [role in range(3)] *)
Definition in_range3 (z : Z) : Prop := 0 ≤ z < 3.

#[global] Instance in_range3_dec z : Decision (in_range3 z).
Proof. unfold in_range3. apply _. Defined.

Definition assert_valid (m : OwnershipModel) : result unit :=
  raise_when (¬ in_range3 (front m) ∨ ¬ in_range3 (render m)) AssertionError "role-out-of-range" ;;
  raise_when (active m = true ∧ front m = render m) AssertionError "front-render-alias" ;;
  match queued m with
  | None => Ok tt
  | Some q =>
      raise_when (¬ in_range3 q ∨ q = front m) AssertionError "queued-front-alias" ;;
      raise_when (active m = true ∧ q = render m) AssertionError "queued-render-alias"
  end.

(** [next(index for index in range(3) if P index)] *)
Definition next_index (P : Z → bool) : result Z :=
  match List.find P [0; 1; 2] with
  | Some i => Ok i
  | None => Err (Exn StopIteration "")
  end.

Definition queue_render (m : OwnershipModel) : result OwnershipModel :=
  if faulted m then Ok m
  else
    let rendered := render m in
    if negb (active m) then
      Ok {| front := front m; render := render m; queued := Some rendered; active := active m;
            requests := if decide (queued m ≠ Some rendered) then requests m + 1 else requests m;
            completions := completions m; rearm_attempts := rearm_attempts m;
            rearm_failures := rearm_failures m; generation := generation m;
            faulted := faulted m |}
    else
      r ← next_index (λ i, bool_decide (i ≠ front m ∧ i ≠ rendered));
      let m' := {| front := front m; render := r; queued := Some rendered; active := active m;
                   requests := requests m + 1; completions := completions m;
                   rearm_attempts := rearm_attempts m; rearm_failures := rearm_failures m;
                   generation := generation m; faulted := faulted m |} in
      assert_valid m' ;; Ok m'.

Definition start (m : OwnershipModel) : result OwnershipModel :=
  raise_when (active m = true) AssertionError "already-active" ;;
  let f := match queued m with Some q => q | None => front m end in
  r ← (if decide (render m = f) then next_index (λ i, bool_decide (i ≠ f)) else Ok (render m));
  let m' := {| front := f; render := r; queued := None; active := true;
               requests := requests m; completions := completions m;
               rearm_attempts := rearm_attempts m; rearm_failures := rearm_failures m;
               generation := generation m + 1; faulted := faulted m |} in
  assert_valid m' ;; Ok m'.

Definition complete (m : OwnershipModel) (rearm_success : bool) : result OwnershipModel :=
  let before := (front m, render m, queued m) in
  if negb rearm_success then
    let m' := {| front := front m; render := render m; queued := queued m; active := active m;
                 requests := requests m; completions := completions m;
                 rearm_attempts := rearm_attempts m + 1; rearm_failures := rearm_failures m + 1;
                 generation := generation m; faulted := faulted m |} in
    raise_when ((front m', render m', queued m') ≠ before) AssertionError
      "failed-rearm-mutated-roles" ;;
    assert_valid m' ;; Ok m'
  else if faulted m then
    let m' := {| front := front m; render := render m; queued := queued m; active := active m;
                 requests := requests m; completions := completions m;
                 rearm_attempts := rearm_attempts m + 1; rearm_failures := rearm_failures m;
                 generation := generation m + 1; faulted := faulted m |} in
    raise_when ((front m', render m', queued m') ≠ before) AssertionError
      "faulted-rearm-mutated-roles" ;;
    assert_valid m' ;; Ok m'
  else
    let m' := {| front := match queued m with Some q => q | None => front m end;
                 render := render m; queued := None; active := active m;
                 requests := requests m;
                 completions := match queued m with
                                | Some _ => completions m + 1 | None => completions m end;
                 rearm_attempts := rearm_attempts m + 1; rearm_failures := rearm_failures m;
                 generation := generation m + 1; faulted := faulted m |} in
    assert_valid m' ;; Ok m'.

(** [model.faulted = True], as the driver does on a display fault. *)
Definition set_faulted (m : OwnershipModel) : OwnershipModel :=
  {| front := front m; render := render m; queued := queued m; active := active m;
     requests := requests m; completions := completions m; rearm_attempts := rearm_attempts m;
     rearm_failures := rearm_failures m; generation := generation m; faulted := true |}.

(** ** The driver as a step relation

    Frame interrupts only arrive while scanout runs, so completions need
    [active]; everything else may happen at any time. *)

Inductive event := EQueue | EStart | EComplete (ok : bool) | EFault.

#[global] Instance event_eq_dec : EqDecision event.
Proof. solve_decision. Defined.

Definition enabled (m : OwnershipModel) (e : event) : Prop :=
  match e with
  | EQueue | EFault => True
  | EStart => active m = false
  | EComplete _ => active m = true
  end.

Definition run_event (m : OwnershipModel) (e : event) : result OwnershipModel :=
  match e with
  | EQueue => queue_render m
  | EStart => start m
  | EComplete ok => complete m ok
  | EFault => Ok (set_faulted m)
  end.

Inductive step (m : OwnershipModel) : OwnershipModel → Prop :=
  | step_event e m' : enabled m e → run_event m e = Ok m' → step m m'.

(** What the driver reaches from [OwnershipModel(active=a)]. *)
Inductive reachable (a : bool) : OwnershipModel → Prop :=
  | reach_init : reachable a (OwnershipModel0 a)
  | reach_step m m' : reachable a m → step m m' → reachable a m'.

Fixpoint run_events (m : OwnershipModel) (es : list event) : result OwnershipModel :=
  match es with
  | [] => Ok m
  | e :: es => m' ← run_event m e; run_events m' es
  end.

(** ** Invariant *)

Record inv (m : OwnershipModel) : Prop := {
  inv_front : in_range3 (front m);
  inv_render : in_range3 (render m);
  inv_roles : front m ≠ render m;
  inv_queued : ∀ q, queued m = Some q → in_range3 q ∧ q ≠ front m;
  inv_queued_render : ∀ q, queued m = Some q → (q = render m ↔ active m = false);
  inv_counts : 0 ≤ completions m
    ∧ completions m + (if queued m is Some _ then 1 else 0) ≤ requests m;
  inv_rearm : 0 ≤ rearm_failures m ≤ rearm_attempts m }.

Lemma inv_init a : inv (OwnershipModel0 a).
Proof. constructor; simpl; try done; unfold in_range3; lia. Qed.

Lemma inv_assert_valid m : inv m → assert_valid m = Ok tt.
Proof.
  intros [Hf Hr Hne Hq Hqr _ _]. unfold assert_valid.
  rewrite raise_when_false by tauto. rewrite raise_when_false by tauto.
  destruct (queued m) as [q|]; [|done].
  destruct (Hq q eq_refl) as [Hq1 Hq2]. specialize (Hqr q eq_refl).
  rewrite raise_when_false by tauto. apply raise_when_unit.
  intros [Ha ->]. destruct Hqr as [Hqr _]. rewrite Hqr in Ha; done.
Qed.

(** Of three indices at least one differs from any two. *)
Lemma next_index_two a b :
  ∃ r, next_index (λ i, bool_decide (i ≠ a ∧ i ≠ b)) = Ok r ∧ in_range3 r ∧ r ≠ a ∧ r ≠ b.
Proof.
  unfold next_index, in_range3. simpl.
  repeat case_bool_decide; simpl; try (eexists; split; [reflexivity|]); lia.
Qed.

Lemma next_index_one a :
  ∃ r, next_index (λ i, bool_decide (i ≠ a)) = Ok r ∧ in_range3 r ∧ r ≠ a.
Proof.
  unfold next_index, in_range3. simpl.
  repeat case_bool_decide; simpl; try (eexists; split; [reflexivity|]); lia.
Qed.

(** A new state that satisfies the invariant passes the final assertion. *)
Lemma assert_valid_bind m : inv m → (assert_valid m ;; Ok m) = Ok m.
Proof. intros H. by rewrite inv_assert_valid. Qed.

Lemma queue_render_inv m :
  inv m → ∃ m', queue_render m = Ok m' ∧ inv m' ∧ active m' = active m ∧ faulted m' = faulted m
    ∧ (faulted m = true → m' = m)
    ∧ (faulted m = false → front m' = front m ∧ queued m' = Some (render m)
       ∧ (active m = true → requests m' = requests m + 1)).
Proof.
  intros Hinv. pose proof Hinv as [Hf Hr Hne Hq Hqr [Hc1 Hc2] Hre].
  unfold queue_render. destruct (faulted m) eqn:Ef; [by exists m; split_and!|].
  destruct (active m) eqn:Ea; simpl.
  - destruct (next_index_two (front m) (render m)) as (r & -> & Hr3 & Hr1 & Hr2).
    cbn [mbind result_bind].
    match goal with |- context [assert_valid ?x] => set (m' := x) end.
    assert (inv m') as Hm'.
    { constructor; simpl; try done; try lia.
      - intros q [= <-]; auto.
      - intros q [= <-]; split; [congruence|done].
      - destruct (queued m); lia. }
    exists m'. rewrite inv_assert_valid by done.
    by split_and!.
  - eexists. split; [done|]. split; [|simpl; by split_and!].
    constructor; simpl; try done; try lia.
    + intros q [= <-]. auto.
    + by intros q [= <-].
    + case_decide as Hd; [destruct (queued m); lia|].
      rewrite Hd in Hc2. lia.
Qed.

Lemma start_inv m :
  inv m → active m = false → ∃ m', start m = Ok m' ∧ inv m' ∧ active m' = true
    ∧ faulted m' = faulted m ∧ queued m' = None
    ∧ front m' = match queued m with Some q => q | None => front m end.
Proof.
  intros [Hf Hr Hne Hq Hqr [Hc1 Hc2] Hre] Ha. unfold start.
  rewrite raise_when_false by congruence.
  set (f := match queued m with Some q => q | None => front m end).
  assert (in_range3 f) as Hf3 by (subst f; destruct (queued m) as [q|]; [by apply Hq|done]).
  assert (∃ r, (if decide (render m = f) then next_index (λ i, bool_decide (i ≠ f))
                else Ok (render m)) = Ok r ∧ in_range3 r ∧ r ≠ f) as (r & -> & Hr3 & Hrf).
  { case_decide; [apply next_index_one | eauto]. }
  cbn [mbind result_bind].
  match goal with |- context [assert_valid ?x] => set (m' := x) end.
  assert (inv m') as Hm'.
  { constructor; simpl; try done; try (by apply not_eq_sym). destruct (queued m); lia. }
  exists m'. rewrite inv_assert_valid by done. by split_and!.
Qed.

Lemma complete_inv m ok :
  inv m → active m = true → ∃ m', complete m ok = Ok m' ∧ inv m' ∧ active m' = true
    ∧ faulted m' = faulted m ∧ render m' = render m
    ∧ (front m', queued m') =
        (if ok && negb (faulted m) then (default (front m) (queued m), None)
         else (front m, queued m))
    ∧ rearm_attempts m' = rearm_attempts m + 1
    ∧ rearm_failures m' = rearm_failures m + (if ok then 0 else 1)
    ∧ generation m' = generation m + (if ok then 1 else 0).
Proof.
  intros Hinv Ha. pose proof Hinv as [Hf Hr Hne Hq Hqr [Hc1 Hc2] Hre].
  unfold complete. destruct ok; simpl.
  - destruct (faulted m) eqn:Ef; simpl.
    + rewrite raise_when_false by (by intros []).
      match goal with |- context [assert_valid ?x] => set (m' := x) end.
      assert (inv m') as Hm' by (constructor; simpl; try done; lia).
      exists m'. rewrite inv_assert_valid by done. split_and!; simpl; (done || lia).
    + match goal with |- context [assert_valid ?x] => set (m' := x) end.
      assert (inv m') as Hm'.
      { constructor; simpl; try done; try lia; destruct (queued m) as [q|]; try done; try lia.
        - by apply Hq.
        - intros ->. destruct (Hqr (render m) eq_refl) as [Hx _]. rewrite Hx in Ha; done. }
      exists m'. rewrite inv_assert_valid by done.
      split_and!; simpl; (done || lia || by destruct (queued m)).
  - rewrite raise_when_false by (by intros []).
    match goal with |- context [assert_valid ?x] => set (m' := x) end.
    assert (inv m') as Hm' by (constructor; simpl; try done; lia).
    exists m'. rewrite inv_assert_valid by done. split_and!; simpl; (done || lia).
Qed.

Lemma set_faulted_inv m : inv m → inv (set_faulted m).
Proof. intros []. by constructor. Qed.

Lemma run_event_inv m e : inv m → enabled m e → ∃ m', run_event m e = Ok m' ∧ inv m'.
Proof.
  intros Hm He. destruct e as [| |ok|]; simpl in *.
  - destruct (queue_render_inv m Hm) as (m' & ? & ? & _). eauto.
  - destruct (start_inv m Hm He) as (m' & ? & ? & _). eauto.
  - destruct (complete_inv m ok Hm He) as (m' & ? & ? & _). eauto.
  - eauto using set_faulted_inv.
Qed.

Lemma reachable_inv a m : reachable a m → inv m.
Proof.
  induction 1 as [|m m' _ IH [e m'' He Hrun]]; [apply inv_init|].
  destruct (run_event_inv m e IH He) as (x & Hx & Hix). congruence.
Qed.

(** Every rearm attempt failed or started a new generation; starting scanout
    adds one generation of its own. *)
Lemma reachable_generation a m :
  reachable a m →
  generation m + rearm_failures m
  = rearm_attempts m + (if a then 0 else if active m then 1 else 0) ∧ (a = true → active m = true).
Proof.
  induction 1 as [|m m' Hre [IH IHa] [e m'' He Hrun]]; [by destruct a|].
  pose proof (reachable_inv _ _ Hre) as Hm. destruct e as [| |ok|]; simpl in *.
  - unfold queue_render in Hrun. destruct (faulted m); [inv_ok; by split|].
    destruct (active m) eqn:Ea; simpl in Hrun; inv_ok; simpl; rewrite ?Ea; by split.
  - destruct a; [rewrite IHa in He; done|]. unfold start in Hrun. rewrite He in IH. inv_ok.
    simpl. split; [lia|done].
  - destruct (complete_inv m ok Hm He) as (x & Hx & _ & Hxa & _ & _ & _ & H1 & H2 & H3).
    replace m'' with x by congruence. rewrite H1, H2, H3, Hxa. rewrite He in IH.
    split; [destruct ok; lia|done].
  - injection Hrun as <-. simpl. by split.
Qed.

Lemma start_active m : active m = true → start m = Err (Exn AssertionError "already-active").
Proof. intros Ha. unfold start. by rewrite raise_when_true. Qed.

(** C7: the ownership assertions never fire.  From either initial state, every
    reachable model satisfies [assert_valid]; queueing a frame, a fault, the start of
    a stopped display and the frame interrupts of a running one run without an
    exception into a reachable model; and the start of a running display is refused
    with [already-active]. *)
Theorem ownership_never_asserts a m :
  reachable a m →
  assert_valid m = Ok tt
  ∧ (∀ e, enabled m e → ∃ m', run_event m e = Ok m' ∧ reachable a m')
  ∧ (active m = true → run_event m EStart = Err (Exn AssertionError "already-active")).
Proof.
  intros H. pose proof (reachable_inv _ _ H) as Hm. split; [by apply inv_assert_valid|]. split; [|apply start_active].
  intros e He. destruct (run_event_inv m e Hm He) as (m' & Hr & _).
  exists m'. split; [done|]. by eapply reach_step, step_event.
Qed.

(** C8: the roles of the buffers.  The scanned-out and the drawn buffer are always two
    different ones of the buffers 0, 1 and 2.  While scanout runs, a queued buffer is the
    third one; before it runs, a queued buffer is the drawn one. *)
Theorem ownership_roles_distinct a m :
  reachable a m →
  in_range3 (front m) ∧ in_range3 (render m) ∧ front m ≠ render m
  ∧ ∀ q, queued m = Some q →
      if active m then Permutation [front m; q; render m] [0; 1; 2] else q = render m.
Proof.
  intros H. destruct (reachable_inv _ _ H) as [Hf Hr Hne Hq1 Hq2 _ _]. split_and!; [done..|]. intros q Hq.
  destruct (Hq1 q Hq) as [Hq3 Hqf]. specialize (Hq2 q Hq). destruct (active m); [|by apply Hq2].
  assert (q ≠ render m) as Hqr by (intros ->; by destruct Hq2 as [Hx _]; specialize (Hx eq_refl)).
  symmetry. apply NoDup_Permutation_bis; [|simpl; lia|].
  - repeat constructor; simpl; lia.
  - intros x Hx. unfold in_range3 in *. simpl in *.
    assert (0 ≤ x < 3) by lia. lia.
Qed.

(** C9: a faulted display keeps its picture.  Once [faulted] is set on a
    running display, no sequence of queue requests, frame interrupts and
    further faults changes the three roles or counts a request or a completed flip,
    and none of them raises; starting it again is refused. *)
Theorem faulted_freezes_roles a m es :
  reachable a m → faulted m = true → active m = true → EStart ∉ es →
  ∃ m', run_events m es = Ok m'
    ∧ (front m', render m', queued m') = (front m, render m, queued m)
    ∧ completions m' = completions m ∧ requests m' = requests m ∧ faulted m' = true
    ∧ run_event m' EStart = Err (Exn AssertionError "already-active").
Proof.
  intros Hre. apply reachable_inv in Hre. revert m Hre.
  induction es as [|e es IH]; intros m Hm Hf Ha Hes; simpl; [exists m; split_and!; try done; by apply start_active|].
  apply not_elem_of_cons in Hes as [He Hes].
  assert (∃ x, run_event m e = Ok x ∧ inv x ∧ faulted x = true ∧ active x = true
    ∧ (front x, render x, queued x) = (front m, render m, queued m)
    ∧ completions x = completions m ∧ requests x = requests m)
    as (x & -> & Hix & Hfx & Hax & Hroles & Hcx & Hrx).
  { destruct e as [| |ok|]; simpl;
      [..|by exists (set_faulted m); split_and!; try apply set_faulted_inv].
    - unfold queue_render. rewrite Hf. by exists m.
    - done.
    - destruct (complete_inv m ok Hm Ha) as (x & Hx & Hix & Hax & Hfx & Hrx & Hfq & _).
      exists x. rewrite Hf, andb_false_r in Hfq. injection Hfq as Hfr Hqu.
      rewrite Hfx, Hfr, Hqu, Hrx. split_and!; try done;
        unfold complete in Hx; rewrite Hf in Hx; destruct ok; simpl in Hx; inv_ok; done. }
  destruct (IH x Hix Hfx Hax Hes) as (m' & Hrun & H1 & H2 & H3 & H4 & H5).
  exists m'. split_and!; [done|congruence..|done].
Qed.

(** the counters add up.  A display never reports more completed flips
    than were requested, and every rearm attempt is accounted for: it failed,
    or it started a new generation (the start of scanout being one more). *)
Theorem ownership_counters a m :
  reachable a m →
  0 ≤ completions m ≤ requests m ∧ 0 ≤ rearm_failures m ≤ rearm_attempts m
  ∧ generation m = rearm_attempts m - rearm_failures m
                   + (if a then 0 else if active m then 1 else 0).
Proof.
  intros H. destruct (reachable_generation _ _ H) as [Hg _].
  destruct (reachable_inv _ _ H) as [_ _ _ _ _ [Hc1 Hc2] Hre].
  split_and!; try lia. destruct (queued m); lia.
Qed.

(** ** Refinement: a mailbox of frames

    What the display promises its client: [Present n] makes frame [n] the next
    one, replacing a frame still waiting; a frame interrupt shows the waiting
    frame.  The buffers' contents are a memory from buffer indices to frames. *)

Record mailbox := mkMailbox { shown : nat; pending : option nat }.

Inductive op := Present (n : nat) | Frame (rearm_success : bool).

Definition mailbox_op (mb : mailbox) (o : op) : mailbox :=
  match o with
  | Present n => mkMailbox (shown mb) (Some n)
  | Frame true => mkMailbox (default (shown mb) (pending mb)) None
  | Frame false => mb
  end.

Record screen := mkScreen { own : OwnershipModel; mem : Z → nat }.

(** The client draws into the render buffer and queues it. *)
Definition screen_op (s : screen) (o : op) : result screen :=
  match o with
  | Present n =>
      m ← queue_render (own s); Ok (mkScreen m (λ b, if decide (b = render (own s)) then n else mem s b))
  | Frame ok => m ← complete (own s) ok; Ok (mkScreen m (mem s))
  end.

Fixpoint screen_run (s : screen) (os : list op) : result screen :=
  match os with
  | [] => Ok s
  | o :: os => s' ← screen_op s o; screen_run s' os
  end.

(** What is on the glass and what waits. *)
Definition view (s : screen) : mailbox := mkMailbox (mem s (front (own s))) (mem s <$> queued (own s)).

Definition live_screen (s : screen) : Prop :=
  inv (own s) ∧ active (own s) = true ∧ faulted (own s) = false.

Lemma screen_op_refines s o :
  live_screen s →
  ∃ s', screen_op s o = Ok s' ∧ live_screen s' ∧ view s' = mailbox_op (view s) o.
Proof.
  intros (Hi & Ha & Hf). unfold live_screen. destruct o as [n|ok]; simpl.
  - destruct (queue_render_inv _ Hi) as (m & -> & Him & Ham & Hfm & _ & Hq).
    destruct (Hq Hf) as (Hfr & Hqu & _). eexists. split; [done|]. simpl.
    split; [rewrite Ham, Hfm; auto|]. unfold view. simpl. rewrite Hfr, Hqu.
    rewrite decide_False by apply Hi. simpl. by rewrite decide_True.
  - destruct (complete_inv _ ok Hi Ha) as (m & -> & Him & Ham & Hfm & _ & Hfq & _).
    eexists. split; [done|]. simpl. split; [rewrite Hfm; auto|].
    rewrite Hf, andb_true_r in Hfq. unfold view. simpl.
    destruct ok; injection Hfq as -> ->; [|done]. by destruct (queued (own s)).
Qed.

(** C10: triple buffering refines a mailbox of frames.  From any reachable,
    running and fault-free display, every sequence of presented frames and
    frame interrupts runs without raising, and at the end the frame on the
    glass and the frame waiting are the ones the mailbox holds: a drawn frame
    never damages a shown or waiting one, the newest presented frame wins, and
    a failed rearm changes nothing. *)
Theorem display_refines_mailbox a m memory os :
  reachable a m → active m = true → faulted m = false →
  ∃ s', screen_run (mkScreen m memory) os = Ok s'
    ∧ view s' = foldl mailbox_op (view (mkScreen m memory)) os.
Proof.
  intros Hr Ha Hf. assert (live_screen (mkScreen m memory)) as Hl.
  { split; [by eapply reachable_inv | by split]. }
  clear Hr Ha Hf. revert Hl. generalize (mkScreen m memory) as s.
  induction os as [|o os IH]; intros s Hl; simpl; [by exists s|].
  destruct (screen_op_refines s o Hl) as (s1 & -> & Hl1 & <-). by apply IH.
Qed.

(** ** Witnesses *)

Definition queued_once : OwnershipModel :=
  match queue_render (OwnershipModel0 true) with Ok m => m | Err _ => OwnershipModel0 true end.

Lemma queued_once_reachable : reachable true queued_once.
Proof.
  eapply reach_step; [apply reach_init|]. by apply (step_event _ EQueue).
Qed.

Lemma ownership_never_asserts_witness :
  assert_valid queued_once = Ok tt
  ∧ ∃ m', run_event queued_once (EComplete true) = Ok m' ∧ reachable true m'.
Proof.
  destruct (ownership_never_asserts true queued_once queued_once_reachable) as (H1 & H2 & _).
  split; [exact H1 | apply (H2 (EComplete true)); reflexivity].
Defined.

Lemma ownership_roles_distinct_witness :
  queued queued_once = Some 1 ∧ active queued_once = true
  ∧ Permutation [front queued_once; 1; render queued_once] [0; 1; 2].
Proof.
  split; [reflexivity|]. split; [reflexivity|].
  exact (proj2 (proj2 (proj2 (ownership_roles_distinct true queued_once queued_once_reachable))) 1 eq_refl).
Defined.

Lemma faulted_freezes_roles_witness :
  ∃ m', run_events (set_faulted queued_once) [EQueue; EComplete true; EComplete false] = Ok m'
    ∧ (front m', render m', queued m') = (0, 2, Some 1)
    ∧ completions m' = 0 ∧ requests m' = 1 ∧ faulted m' = true
    ∧ run_event m' EStart = Err (Exn AssertionError "already-active").
Proof.
  apply (faulted_freezes_roles true (set_faulted queued_once)); try reflexivity.
  - eapply reach_step; [apply queued_once_reachable|]. by apply (step_event _ EFault).
  - by_decide.
Defined.

Lemma ownership_counters_witness :
  0 ≤ completions queued_once ≤ requests queued_once
  ∧ 0 ≤ rearm_failures queued_once ≤ rearm_attempts queued_once
  ∧ generation queued_once = rearm_attempts queued_once - rearm_failures queued_once + 0.
Proof. exact (ownership_counters true queued_once queued_once_reachable). Defined.

Lemma display_refines_mailbox_witness :
  ∃ s', screen_run (mkScreen (OwnershipModel0 true) (λ _, O)) [Present 7; Present 8; Frame true] = Ok s'
    ∧ view s' = mkMailbox 8 None.
Proof.
  exact (display_refines_mailbox true (OwnershipModel0 true) (λ _, O)
           [Present 7; Present 8; Frame true] (reach_init true) eq_refl eq_refl).
Defined.

(** Completions need a running display: on a model that was never started, a
    frame interrupt makes the front and render roles coincide, and a later
    failed rearm trips [queued-front-alias]. *)
Example complete_needs_active :
  run_events (OwnershipModel0 false) [EQueue; EComplete true; EQueue; EComplete false]
  = Err (Exn AssertionError "queued-front-alias").
Proof. reflexivity. Qed.
