(* ===== verification/Firmware.v ===== *)
(** * The JD9365 command artifact

    Models generate_firmware.py of the micronux-jd9365-firmware package: the
    normalisation of the JSON source, the encoder [build_blob], the decoder
    [parse_blob] and the [main] that generates or checks the artifact.  The
    file system and [json.load] are inputs: [main] takes the loaded document
    and what the output path holds. *)

From S2P Require Import Prelude PyBytes PyStr PyJson Sha256.

Module Firmware.

Definition MAGIC : bytes := [Byte.x4d; Byte.x4e; Byte.x4a; Byte.x44; Byte.x39; Byte.x33; Byte.x36; Byte.x35].
Definition FORMAT_VERSION : Z := 1.
Definition FLAGS : Z := 0x7.

(** [struct.Struct("<8sHHHHIIIHH")] after its eight-byte string. *)
Definition HEADER : list nat := [2; 2; 2; 2; 4; 4; 4; 2; 2]%nat.
Definition HEADER_size : nat := 8 + Struct.calcsize HEADER.

(** [struct.Struct("<BBH")] *)
Definition RECORD_HEADER : list nat := [1; 1; 2]%nat.

Definition MAX_RECORDS : Z := 512.
Definition MAX_PAYLOAD_BYTES : Z := 65536.
Definition MAX_PARAM_BYTES : Z := 64.
Definition MAX_DELAY_MS : Z := 5000.

Definition fail {A} (msg : string) : result A := Err (Exn FirmwareFormatError msg).
Definition fail_if (P : Prop) `{Decision P} (msg : string) : result unit :=
  raise_when P FirmwareFormatError msg.

(** ** Normalisation of the source *)

Definition _integer (value : json) (field : string) : result Z :=
  match value with
  | JInt z => Ok z
  | JBool b => Ok (if b then 1 else 0)
  | JStr s =>
      match int_literal s with
      | Some z => Ok z
      | None => fail ("invalid " +:+ field +:+ ": " +:+ repr_str s)
      end
  | _ => fail ("invalid " +:+ field +:+ " type")
  end.

(** A normalised record. *)
Record record := mkRecord { command : Z; data : bytes; delay_ms : Z }.

Definition rec_msg (index : nat) (tail : string) : string := "record " +:+ pretty index +:+ tail.

Definition _record (item : json) (index : nat) : result record :=
  v ← attr_get item "command";
  command ← _integer v (rec_msg index " command");
  v ← attr_get item "delay_ms";
  delay_ms ← _integer v (rec_msg index " delay");
  data_text ← attr_get item "data";
  match data_text with
  | JStr text =>
      match fromhex text with
      | None => fail (rec_msg index " data is not hexadecimal")
      | Some data =>
          fail_if (¬ 0 ≤ command ≤ 0xFF) (rec_msg index " command is out of range") ;;
          fail_if (blen data > MAX_PARAM_BYTES) (rec_msg index " has too many parameter bytes") ;;
          fail_if (¬ 0 ≤ delay_ms ≤ MAX_DELAY_MS) (rec_msg index " delay is out of range") ;;
          Ok (mkRecord command data delay_ms)
      end
  | _ => fail (rec_msg index " data must be a hex string")
  end.

(** [[_record(item, index) for index, item in enumerate(items)]] *)
Fixpoint records_from (index : nat) (items : list json) : result (list record) :=
  match items with
  | [] => Ok []
  | item :: items =>
      r ← _record item index; rs ← records_from (S index) items; Ok (r :: rs)
  end.

Definition normalize_source (document : json) : result (list record * Z) :=
  schema ← attr_get document "schema";
  fail_if (eq_str schema "micronux-jd9365-command-source-v1" = false) "unknown source schema" ;;
  license ← attr_get document "license";
  fail_if (eq_str license "Apache-2.0" = false) "source must retain its Apache-2.0 license" ;;
  prelude_items ← attr_get document "prelude";
  vendor_items ← attr_get document "vendor_records";
  match prelude_items, vendor_items with
  | JList prelude_items, JList vendor_items =>
      let expected :=
        match document with JObj o => default (JObj []) (jget "profile" o) | _ => JNull end in
      v ← attr_get expected "prelude_records";
      fail_if (eq_int v (Z.of_nat (length prelude_items)) = false) "prelude record count mismatch" ;;
      v ← attr_get expected "vendor_records";
      fail_if (eq_int v (Z.of_nat (length vendor_items)) = false) "vendor record count mismatch" ;;
      records ← records_from 0 (prelude_items ++ vendor_items);
      fail_if (¬ 0 < Z.of_nat (length records) ≤ MAX_RECORDS) "total record count is out of range" ;;
      Ok (records, Z.of_nat (length prelude_items))
  | _, _ => fail "prelude and vendor_records must be arrays"
  end.

(** ** Encoder *)

(** [max(...)] of a sequence *)
Definition py_max (l : list Z) : result Z :=
  match l with
  | [] => Err (Exn ValueError "max() arg is an empty sequence")
  | x :: l => Ok (foldl Z.max x l)
  end.

(** [RECORD_HEADER.pack(command, len(data), delay_ms) + data] *)
Definition record_bytes (r : record) : result bytes :=
  h ← Struct.pack Struct.Little RECORD_HEADER [command r; blen (data r); delay_ms r];
  Ok (h ++ data r).

(** [build_blob] after [normalize_source]. *)
Definition encode_records (records : list record) (prelude_count : Z) : result bytes :=
  payload_parts ← map_result record_bytes records;
  let payload := concat payload_parts in
  fail_if (blen payload > MAX_PAYLOAD_BYTES) "record payload is too large" ;;
  let payload_crc32 := crc32_u32 payload in
  max_params ← py_max (map (λ r, blen (data r)) records);
  max_delay ← py_max (map delay_ms records);
  header ← Struct.pack Struct.Little HEADER
    [FORMAT_VERSION; Z.of_nat HEADER_size; Z.of_nat (length records); prelude_count;
     blen payload; payload_crc32; FLAGS; max_params; max_delay];
  Ok (MAGIC ++ header ++ payload).

Definition build_blob (document : json) : result bytes :=
  rp ← normalize_source document;
  encode_records rp.1 rp.2.

(** ** Decoder *)

(** The dict [parse_blob] returns. *)
Record decoded := mkDecoded {
  record_count : Z; prelude_count : Z; payload_bytes : Z; payload_crc32 : Z;
  flags : Z; max_params : Z; max_delay_ms : Z; records : list record }.

(** The loop [for index in range(record_count)] from [index] on; [rest] is the
    payload from [offset], and the result is the records and what is left. *)
Fixpoint parse_records (count index : nat) (rest : bytes) : result (list record * bytes) :=
  match count with
  | O => Ok ([], rest)
  | S count =>
      fail_if (length rest < Struct.calcsize RECORD_HEADER)%nat
        (rec_msg index " header is truncated") ;;
      h ← Struct.unpack_from Struct.Little RECORD_HEADER rest 0;
      let command := nth 0 h 0 in
      let param_bytes := nth 1 h 0 in
      let delay_ms := nth 2 h 0 in
      let rest := drop (Struct.calcsize RECORD_HEADER) rest in
      fail_if (param_bytes > MAX_PARAM_BYTES ∨ delay_ms > MAX_DELAY_MS)
        (rec_msg index " exceeds format bounds") ;;
      fail_if (blen rest < param_bytes) (rec_msg index " data is truncated") ;;
      let data := take (Z.to_nat param_bytes) rest in
      rs ← parse_records count (S index) (drop (Z.to_nat param_bytes) rest);
      Ok (mkRecord command data delay_ms :: rs.1, rs.2)
  end.

Definition parse_blob (blob : bytes) : result decoded :=
  fail_if (length blob < HEADER_size)%nat "truncated header" ;;
  let magic := take 8 blob in
  h ← Struct.unpack_from Struct.Little HEADER blob 8;
  let version := nth 0 h 0 in
  let header_bytes := nth 1 h 0 in
  let record_count := nth 2 h 0 in
  let prelude_count := nth 3 h 0 in
  let payload_bytes := nth 4 h 0 in
  let payload_crc32 := nth 5 h 0 in
  let flags := nth 6 h 0 in
  let encoded_max_params := nth 7 h 0 in
  let encoded_max_delay := nth 8 h 0 in
  fail_if (magic ≠ MAGIC ∨ version ≠ FORMAT_VERSION ∨ header_bytes ≠ Z.of_nat HEADER_size)
    "unsupported header" ;;
  fail_if (flags ≠ FLAGS) "unsupported flags" ;;
  fail_if (¬ 0 < record_count ≤ MAX_RECORDS ∨ prelude_count > record_count)
    "record count is out of range" ;;
  fail_if (payload_bytes > MAX_PAYLOAD_BYTES ∨ blen blob ≠ header_bytes + payload_bytes)
    "payload length mismatch" ;;
  let payload := drop (Z.to_nat header_bytes) blob in
  fail_if (crc32_u32 payload ≠ payload_crc32) "payload CRC32 mismatch" ;;
  rs ← parse_records (Z.to_nat record_count) 0 payload;
  fail_if (rs.2 ≠ []) "trailing payload bytes" ;;
  actual_max_params ← py_max (map (λ r, blen (data r)) rs.1);
  actual_max_delay ← py_max (map delay_ms rs.1);
  fail_if (encoded_max_params ≠ actual_max_params ∨ encoded_max_delay ≠ actual_max_delay)
    "encoded maxima do not match records" ;;
  Ok (mkDecoded record_count prelude_count payload_bytes payload_crc32 flags
        actual_max_params actual_max_delay rs.1).

(** ** [main]

    [document] is the loaded source; [existing] is what [args.output] reads as
    under [--check], or the text of the [OSError].  The result is the bytes
    written, if any, and the printed line. *)

(** [parser.error(msg)] exits with status 2 after printing the message. *)
Definition parser_error {A} (msg : string) : result A := Err (Exn SystemExit msg).

Definition main (output : string) (check : bool) (document : json) (existing : bytes + string)
    : result (option bytes * string) :=
  blob ← build_blob document;
  decoded ← parse_blob blob;
  written ←
    (if check then
       match existing with
       | inr exc => parser_error ("cannot read " +:+ output +:+ ": " +:+ exc)
       | inl old =>
           if decide (old ≠ blob)
           then parser_error (output +:+ " is not the deterministic generator output")
           else Ok None
       end
     else Ok (Some blob));
  Ok (written,
      "records=" +:+ fmt_d (record_count decoded) +:+ " prelude=" +:+ fmt_d (prelude_count decoded)
      +:+ " bytes=" +:+ fmt_d (blen blob) +:+ " payload_crc32=" +:+ fmt_08x (payload_crc32 decoded)
      +:+ " sha256=" +:+ sha256_hex blob).

(** ** Specification

    A program is a list of records within the format's bounds with the number
    of them that form the prelude; its image and its description are what the
    file format assigns to it. *)

Record valid_record (r : record) : Prop := {
  vr_command : 0 ≤ command r ≤ 255;
  vr_data : blen (data r) ≤ MAX_PARAM_BYTES;
  vr_delay : 0 ≤ delay_ms r ≤ MAX_DELAY_MS }.

Record valid_program (rs : list record) (n : Z) : Prop := {
  vp_records : Forall valid_record rs;
  vp_count : 0 < Z.of_nat (length rs) ≤ MAX_RECORDS;
  vp_prelude : 0 ≤ n ≤ Z.of_nat (length rs) }.

Definition record_image (r : record) : bytes :=
  [byte_of (command r); byte_of (blen (data r))] ++ le_split 2 (delay_ms r) ++ data r.

Definition payload (rs : list record) : bytes := concat (map record_image rs).

Definition maximum (l : list Z) : Z := foldl Z.max 0 l.

Definition describe (rs : list record) (n : Z) : decoded :=
  {| record_count := Z.of_nat (length rs); prelude_count := n;
     payload_bytes := blen (payload rs); payload_crc32 := crc32_u32 (payload rs);
     flags := FLAGS; max_params := maximum (map (λ r, blen (data r)) rs);
     max_delay_ms := maximum (map delay_ms rs); records := rs |}.

Definition header_fields (d : decoded) : list Z :=
  [FORMAT_VERSION; Z.of_nat HEADER_size; record_count d; prelude_count d; payload_bytes d;
   payload_crc32 d; FLAGS; max_params d; max_delay_ms d].

(** ** Records *)

Lemma py_max_ok l : Forall (λ x, 0 ≤ x) l → l ≠ [] → py_max l = Ok (maximum l).
Proof.
  destruct l as [|x l]; [done|]. intros [Hx _]%Forall_cons _. unfold maximum. simpl.
  by rewrite Z.max_r.
Qed.

Lemma foldl_max_bound l x m : x ≤ m → Forall (λ y, y ≤ m) l → x ≤ foldl Z.max x l ≤ m.
Proof.
  revert x. induction l as [|y l IH]; intros x Hx Hl; simpl; [lia|].
  apply Forall_cons in Hl as [Hy Hl].
  destruct (IH (Z.max x y)); [lia | done | lia].
Qed.

Lemma maximum_bound l m : 0 ≤ m → Forall (λ y, y ≤ m) l → 0 ≤ maximum l ≤ m.
Proof. apply foldl_max_bound. Qed.

Lemma record_bytes_valid r : valid_record r → record_bytes r = Ok (record_image r).
Proof.
  intros [Hc Hd Hm]. unfold record_bytes, record_image, MAX_PARAM_BYTES, MAX_DELAY_MS in *.
  assert (0 ≤ blen (data r)) by (unfold blen; lia).
  assert (Struct.pack Struct.Little RECORD_HEADER [command r; blen (data r); delay_ms r]
          = Ok ([byte_of (command r); byte_of (blen (data r))] ++ le_split 2 (delay_ms r))) as ->.
  { unfold RECORD_HEADER. cbn [Struct.pack].
    rewrite !raise_when_false by (intros Hn; apply Hn; unfold fits; simpl; lia). reflexivity. }
  cbn [mbind result_bind]. by rewrite <- app_assoc.
Qed.

Lemma records_bytes_valid rs :
  Forall valid_record rs → map_result record_bytes rs = Ok (map record_image rs).
Proof.
  rewrite map_result_ok. induction 1; simpl; constructor; [by apply record_bytes_valid | done].
Qed.

Lemma record_image_length r : blen (record_image r) = 4 + blen (data r).
Proof. unfold record_image, blen. rewrite !length_app, length_le_split. simpl length. lia. Qed.

Lemma payload_cons r rs : payload (r :: rs) = record_image r ++ payload rs.
Proof. reflexivity. Qed.

Lemma blen_app (a b : bytes) : blen (a ++ b) = blen a + blen b.
Proof. unfold blen. rewrite length_app. lia. Qed.

(** Each record takes at most 68 bytes. *)
Lemma payload_bound rs : Forall valid_record rs → blen (payload rs) ≤ 68 * Z.of_nat (length rs).
Proof.
  induction 1 as [|r rs [_ Hd _] _ IH]; [done|].
  rewrite payload_cons, blen_app, record_image_length. simpl length.
  unfold MAX_PARAM_BYTES in Hd. lia.
Qed.

(** Reading one record from the front of a buffer that starts with its image. *)
Lemma record_image_fields r rest : valid_record r →
  Struct.fields Struct.Little RECORD_HEADER (record_image r ++ rest)
  = [command r; blen (data r); delay_ms r].
Proof.
  intros Hr. pose proof (record_bytes_valid r Hr) as H. unfold record_bytes in H.
  apply bind_ok_inv in H as (h & Hp & [= E]). rewrite <- E, <- app_assoc.
  by apply Struct.fields_pack.
Qed.

Lemma parse_records_payload rs index rest :
  Forall valid_record rs →
  parse_records (length rs) index (payload rs ++ rest) = Ok (rs, rest).
Proof.
  intros H. revert index. induction H as [|r rs Hr Hrs IH]; intros index; [done|].
  cbn [length parse_records]. rewrite payload_cons, <- app_assoc.
  pose proof (record_image_length r) as Hl. unfold blen in Hl.
  assert (4 ≤ length (record_image r ++ payload rs ++ rest))%nat by (rewrite length_app; lia).
  unfold fail_if. rewrite raise_when_false by (simpl; lia).
  unfold Struct.unpack_from. rewrite raise_when_false by (simpl; lia).
  cbn [mbind result_bind]. rewrite drop_0, record_image_fields by done. cbn [nth].
  rewrite raise_when_false by (destruct Hr; lia).
  assert (drop (Struct.calcsize RECORD_HEADER) (record_image r ++ payload rs ++ rest)
          = data r ++ payload rs ++ rest) as -> by reflexivity.
  rewrite raise_when_false by (rewrite blen_app; unfold blen; lia).
  unfold blen. rewrite Nat2Z.id, take_app_length, drop_app_length, IH. by destruct r.
Qed.

Lemma byte_field b : le_combine [b] = bz b.
Proof. unfold bz. simpl. apply Z.lor_0_r. Qed.

(** One accepted record header and its data are the image of a valid record. *)
Lemma record_split b (h := Struct.fields Struct.Little RECORD_HEADER b)
    (r := mkRecord (nth 0 h 0) (take (Z.to_nat (nth 1 h 0)) (drop 4 b)) (nth 2 h 0)) :
  (4 ≤ length b)%nat → nth 1 h 0 ≤ MAX_PARAM_BYTES → nth 2 h 0 ≤ MAX_DELAY_MS →
  nth 1 h 0 ≤ blen (drop 4 b) →
  valid_record r ∧ b = record_image r ++ drop (Z.to_nat (nth 1 h 0)) (drop 4 b).
Proof.
  intros Hlen. destruct b as [|b0 [|b1 [|b2 [|b3 b]]]]; simpl in Hlen; [lia..|].
  change (drop 4 (b0 :: b1 :: b2 :: b3 :: b)) with b in *. subst r.
  assert (h = [bz b0; bz b1; le_combine [b2; b3]]) as -> by (rewrite <- !byte_field; reflexivity).
  cbn [nth]. intros Hp Hd Hb.
  pose proof (byte.unsigned_range b0). pose proof (byte.unsigned_range b1).
  pose proof (le_combine_bound [b2; b3]).
  assert (blen (take (Z.to_nat (bz b1)) b) = bz b1) as Hl.
  { unfold blen, bz in *. rewrite length_take. lia. }
  split; [constructor; cbn [command data delay_ms]; unfold bz in *; lia|].
  unfold record_image. cbn [command data delay_ms]. rewrite Hl.
  change 2%nat with (length [b2; b3]). rewrite split_le_combine.
  unfold byte_of, bz. rewrite !byte.of_Z_unsigned. cbn [app]. by rewrite take_drop.
Qed.

Lemma parse_records_inv n index b rs rest :
  parse_records n index b = Ok (rs, rest) →
  length rs = n ∧ Forall valid_record rs ∧ b = payload rs ++ rest.
Proof.
  revert index b rs rest. induction n as [|n IH]; intros index b rs rest; cbn [parse_records].
  - intros [= <- <-]. done.
  - unfold fail_if, Struct.unpack_from. rewrite !raise_when_ok. intros [Hl H].
    apply bind_ok_inv in H as (h & Hh & H). rewrite raise_when_ok in Hh.
    rewrite drop_0 in Hh. destruct Hh as [_ Hh].
    assert (h = Struct.fields Struct.Little RECORD_HEADER b) as -> by congruence.
    rewrite !raise_when_ok in H.
    change (Struct.calcsize RECORD_HEADER) with 4%nat in *.
    destruct H as (Hb & Ht & H). apply bind_ok_inv in H as ([rs' rest'] & H & [= <- <-]).
    apply IH in H as (Hn & Hv & Hd). cbn [fst snd length].
    destruct (record_split b) as [Hr Hsplit]; [lia..|].
    split; [by f_equal | split; [by constructor|]].
    rewrite payload_cons, <- app_assoc, <- Hd. exact Hsplit.
Qed.

(** ** The file format *)

(** The file of a program: the magic, the packed header and the payload. *)
Definition is_image (rs : list record) (n : Z) (blob : bytes) : Prop :=
  ∃ h, Struct.pack Struct.Little HEADER (header_fields (describe rs n)) = Ok h
       ∧ blob = MAGIC ++ h ++ payload rs.

Lemma program_payload_bound rs n : valid_program rs n → 0 ≤ blen (payload rs) ≤ 34816.
Proof.
  intros [Hr Hc _]. pose proof (payload_bound rs Hr). unfold MAX_RECORDS, blen in *. lia.
Qed.

Lemma program_maxima rs n : valid_program rs n →
  py_max (map (λ r, blen (data r)) rs) = Ok (maximum (map (λ r, blen (data r)) rs))
  ∧ py_max (map delay_ms rs) = Ok (maximum (map delay_ms rs))
  ∧ 0 ≤ maximum (map (λ r, blen (data r)) rs) ≤ 64
  ∧ 0 ≤ maximum (map delay_ms rs) ≤ 5000.
Proof.
  intros [Hr Hc _].
  assert (rs ≠ []) by (intros ->; simpl in Hc; lia).
  assert (∀ f : record → Z, map f rs ≠ []) by (intros f; by destruct rs).
  split; [apply py_max_ok; [|done] | split; [apply py_max_ok; [|done] | split;
    (apply maximum_bound; [lia|])]];
    (apply Forall_map, (Forall_impl valid_record); [done|]);
    intros r [? ? ?]; unfold MAX_PARAM_BYTES, MAX_DELAY_MS, blen in *; simpl; lia.
Qed.

Lemma header_fits rs n : valid_program rs n →
  Forall2 fits HEADER (header_fields (describe rs n)).
Proof.
  intros H. pose proof (program_payload_bound rs n H). pose proof (crc32_u32_fits (payload rs)).
  destruct (program_maxima rs n H) as (_ & _ & ? & ?). destruct H as [_ Hc Hp].
  unfold MAX_RECORDS in Hc. unfold header_fields, describe, HEADER. cbn.
  repeat constructor; try (unfold fits; simpl; lia); try done;
    unfold fits in *; change (2 ^ (8 * Z.of_nat 2)) with 65536;
    change (2 ^ (8 * Z.of_nat 4)) with 4294967296 in *; try lia.
Qed.

Lemma encode_records_image rs n blob :
  valid_program rs n → encode_records rs n = Ok blob ↔ is_image rs n blob.
Proof.
  intros H. unfold encode_records, fail_if. rewrite records_bytes_valid by apply H.
  cbn [mbind result_bind]. fold (payload rs).
  pose proof (program_payload_bound rs n H).
  rewrite raise_when_false by (unfold MAX_PAYLOAD_BYTES; lia).
  destruct (program_maxima rs n H) as (-> & -> & _). cbn [mbind result_bind].
  destruct (Struct.pack_ok Struct.Little _ _ (header_fits rs n H)) as [h Hh].
  pose proof Hh as Hh'. unfold header_fields, describe in Hh'. cbn in Hh'. unfold is_image.
  split.
  - intros E. apply bind_ok_inv in E as (h' & Hp & [= <-]). by exists h'.
  - intros (h' & Hp & ->). unfold header_fields, describe in Hp.
    cbn [record_count prelude_count payload_bytes payload_crc32 max_params max_delay_ms] in Hp.
    by rewrite Hp.
Qed.

Lemma encode_records_total rs n : valid_program rs n → ∃ blob, encode_records rs n = Ok blob.
Proof.
  intros H. destruct (Struct.pack_ok Struct.Little _ _ (header_fits rs n H)) as [h Hh].
  eexists. apply encode_records_image; [done|]. by exists h.
Qed.

(** With the header of a program, decoding comes down to the payload: its
    checksum, its records, and the maxima. *)
Lemma parse_framed rs n h p :
  valid_program rs n →
  Struct.pack Struct.Little HEADER (header_fields (describe rs n)) = Ok h →
  blen p = blen (payload rs) →
  parse_blob (MAGIC ++ h ++ p) =
    (fail_if (crc32_u32 p ≠ crc32_u32 (payload rs)) "payload CRC32 mismatch" ;;
     rest ← parse_records (length rs) 0 p;
     fail_if (rest.2 ≠ []) "trailing payload bytes" ;;
     mp ← py_max (map (λ r, blen (data r)) rest.1);
     md ← py_max (map delay_ms rest.1);
     fail_if (max_params (describe rs n) ≠ mp ∨ max_delay_ms (describe rs n) ≠ md)
       "encoded maxima do not match records" ;;
     Ok (mkDecoded (Z.of_nat (length rs)) n (blen (payload rs)) (crc32_u32 (payload rs)) FLAGS
           mp md rest.1)).
Proof.
  intros H Hh Hp.
  pose proof (Struct.pack_length _ _ _ _ Hh) as Hl. change (Struct.calcsize HEADER) with 24%nat in Hl.
  pose proof (program_payload_bound rs n H) as Hpb. destruct H as [_ Hc Hn].
  assert (length (MAGIC ++ h ++ p) = (32 + length p)%nat) as Hlen
    by (rewrite !length_app, Hl; done).
  unfold parse_blob, fail_if, Struct.unpack_from.
  change (Struct.calcsize HEADER) with 24%nat. change HEADER_size with 32%nat.
  rewrite !raise_when_false by lia. cbn [mbind result_bind].
  change (drop 8 (MAGIC ++ h ++ p)) with (h ++ p).
  change (take 8 (MAGIC ++ h ++ p)) with MAGIC.
  rewrite (Struct.fields_pack _ _ _ _ _ Hh). unfold header_fields. cbn [nth].
  change HEADER_size with 32%nat.
  rewrite raise_when_false by (intros [?|[?|?]]; done).
  rewrite raise_when_false by (intros []; done).
  cbn [record_count prelude_count payload_bytes payload_crc32 describe].
  rewrite raise_when_false by lia.
  rewrite raise_when_false by (unfold blen, MAX_PAYLOAD_BYTES in *; rewrite Hlen; lia).
  change (Z.to_nat (Z.of_nat 32)) with 32%nat.
  assert (drop 32 (MAGIC ++ h ++ p) = p) as ->.
  { rewrite app_assoc. by apply take_drop_app; rewrite length_app, Hl. }
  by rewrite Nat2Z.id.
Qed.

(** Decoding the file of a program gives its description. *)
Lemma parse_image rs n blob :
  valid_program rs n → is_image rs n blob → parse_blob blob = Ok (describe rs n).
Proof.
  intros H (h & Hh & ->). rewrite (parse_framed rs n) by done.
  destruct (program_maxima rs n H) as (Hm1 & Hm2 & _).
  pose proof (parse_records_payload rs 0 [] (vp_records _ _ H)) as Hpr. rewrite app_nil_r in Hpr.
  unfold fail_if. rewrite raise_when_false by (intros []; done).
  rewrite Hpr. cbn [mbind result_bind fst snd].
  rewrite raise_when_false by (intros []; done). rewrite Hm1, Hm2. cbn [mbind result_bind].
  by rewrite raise_when_false by (intros [[]|[]]; done).
Qed.

Lemma length_9 {A} (l : list A) : length l = 9%nat →
  ∃ a b c d e f g h i, l = [a; b; c; d; e; f; g; h; i].
Proof. destruct l as [|? [|? [|? [|? [|? [|? [|? [|? [|? [|]]]]]]]]]]; try done. eauto 10. Qed.

(** The bytes after the magic start with a header and its unpacked fields. *)
Lemma split_header blob : (32 ≤ length blob)%nat →
  ∃ h, blob = take 8 blob ++ h ++ drop 32 blob
    ∧ Struct.pack Struct.Little HEADER (Struct.fields Struct.Little HEADER (drop 8 blob)) = Ok h.
Proof.
  intros Hl. exists (take 24 (drop 8 blob)).
  assert (length (take 24 (drop 8 blob)) = Struct.calcsize HEADER) as H24
    by (rewrite length_take, length_drop; change (Struct.calcsize HEADER) with 24%nat; lia).
  assert (drop 32 blob = drop 24 (drop 8 blob)) as -> by (by rewrite drop_drop).
  split; [by rewrite !take_drop|].
  rewrite <- (Struct.pack_fields Struct.Little _ _ H24).
  rewrite <- (take_drop 24 (drop 8 blob)) at 1.
  by rewrite (Struct.fields_pack _ _ _ _ _ (Struct.pack_fields Struct.Little _ _ H24)).
Qed.

(** Whatever decodes is the file of a program, described correctly. *)
Lemma parse_inv blob d : parse_blob blob = Ok d →
  ∃ rs n, valid_program rs n ∧ is_image rs n blob ∧ d = describe rs n.
Proof.
  unfold parse_blob, fail_if, Struct.unpack_from. rewrite !raise_when_ok. intros [Hl H].
  change HEADER_size with 32%nat in *. change (Struct.calcsize HEADER) with 24%nat in *.
  rewrite raise_when_false in H by lia. cbn [mbind result_bind] in H.
  destruct (split_header blob) as (hb & Hblob & Hpack); [lia|].
  destruct (length_9 _ (Struct.fields_length Struct.Little HEADER (drop 8 blob)))
    as (v & hs & rc & pc & pb & crc & fl & mp & md & E).
  rewrite E in H, Hpack. cbn [nth] in H.
  rewrite !raise_when_ok in H. destruct H as (H1 & H2 & H3 & H4 & Hcrc & H).
  assert (take 8 blob = MAGIC ∧ v = FORMAT_VERSION ∧ hs = 32) as (Hm & -> & ->)
    by (split_and!; apply dec_stable; tauto).
  change (Z.to_nat 32) with 32%nat in H, Hcrc.
  apply dec_stable in H2 as ->. apply dec_stable in Hcrc as <-.
  apply bind_ok_inv in H as ([rs rest] & Hrs & H). cbn [fst snd] in H.
  apply parse_records_inv in Hrs as (Hn & Hv & Hpay).
  rewrite raise_when_ok in H. destruct H as [Hrest H]. apply dec_stable in Hrest as ->.
  rewrite app_nil_r in Hpay.
  assert (rc = Z.of_nat (length rs)) as -> by lia.
  pose proof (Struct.pack_fits _ _ _ _ Hpack) as Hf. unfold HEADER in Hf.
  assert (0 ≤ pc) as Hpc by (apply (Forall2_lookup_lr fits _ _ 3 2%nat pc Hf); reflexivity).
  assert (valid_program rs pc) as Hvp by (constructor; [done | lia..]).
  destruct (program_maxima rs pc Hvp) as (Hm1 & Hm2 & _). rewrite Hm1, Hm2 in H.
  cbn [mbind result_bind] in H. rewrite raise_when_ok in H. destruct H as [Hmax [= <-]].
  assert (mp = maximum (map (λ r, blen (data r)) rs) ∧ md = maximum (map delay_ms rs)) as [-> ->]
    by (split; apply dec_stable; tauto).
  assert (pb = blen (payload rs)) as ->.
  { rewrite <- Hpay. unfold blen in *. rewrite length_drop. lia. }
  exists rs, pc. rewrite Hpay in *. split; [done | split; [|done]].
  exists hb. split; [exact Hpack|]. by rewrite <- Hm.
Qed.

(** ** What the normaliser guarantees *)

Lemma _record_valid item index r : _record item index = Ok r → valid_record r.
Proof.
  unfold _record. intros H.
  apply bind_ok_inv in H as (v1 & _ & H). apply bind_ok_inv in H as (c & _ & H).
  apply bind_ok_inv in H as (v2 & _ & H). apply bind_ok_inv in H as (d & _ & H).
  apply bind_ok_inv in H as (t & _ & H). destruct t; try discriminate H.
  destruct (fromhex _); [|discriminate H]. unfold fail_if in H. rewrite !raise_when_ok in H.
  destruct H as (H1 & H2 & H3 & [= <-]). constructor; simpl; lia.
Qed.

Lemma records_from_valid items index rs :
  records_from index items = Ok rs → Forall valid_record rs ∧ length rs = length items.
Proof.
  revert index rs. induction items as [|item items IH]; intros index rs H; simpl in H.
  - injection H as <-. done.
  - apply bind_ok_inv in H as (r & Hr & H). apply bind_ok_inv in H as (rs' & Hrs & [= <-]).
    destruct (IH _ _ Hrs). split; [|by simpl; f_equal].
    constructor; [by eapply _record_valid | done].
Qed.

Lemma normalize_valid document rs n :
  normalize_source document = Ok (rs, n) → valid_program rs n.
Proof.
  unfold normalize_source, fail_if. intros H.
  apply bind_ok_inv in H as (v1 & _ & H). rewrite raise_when_ok in H. destruct H as [_ H].
  apply bind_ok_inv in H as (v2 & _ & H). rewrite raise_when_ok in H. destruct H as [_ H].
  apply bind_ok_inv in H as (p & _ & H). apply bind_ok_inv in H as (v & _ & H).
  destruct p as [| | | | |pl|]; try discriminate H. destruct v as [| | | | |vl|]; try discriminate H.
  apply bind_ok_inv in H as (v3 & _ & H). rewrite raise_when_ok in H. destruct H as [_ H].
  apply bind_ok_inv in H as (v4 & _ & H). rewrite raise_when_ok in H. destruct H as [_ H].
  apply bind_ok_inv in H as (rs' & Hrs & H). rewrite raise_when_ok in H.
  destruct H as [Hc [= <- <-]]. apply records_from_valid in Hrs as [Hv Hl].
  rewrite length_app in Hl. constructor; [done | lia..].
Qed.

Lemma build_normalized document rs n blob :
  normalize_source document = Ok (rs, n) → build_blob document = Ok blob ↔ is_image rs n blob.
Proof.
  intros H. unfold build_blob. rewrite H. cbn [mbind result_bind fst snd].
  by apply encode_records_image, (normalize_valid document).
Qed.

Lemma image_length rs n blob : is_image rs n blob → blen blob = 32 + blen (payload rs).
Proof.
  intros (h & Hh & ->). apply Struct.pack_length in Hh.
  change (Struct.calcsize HEADER) with 24%nat in Hh. rewrite !blen_app. unfold blen. rewrite Hh.
  change (length MAGIC) with 8%nat. lia.
Qed.

(** C11: round trip.  Whenever the source normalises, the generator produces a
    file (the payload limit is never hit, the file has at most 34848 bytes) and
    the decoder reads from it exactly the normalised records with the counts,
    checksum and maxima the format assigns to them. *)
Theorem firmware_round_trip document rs n :
  normalize_source document = Ok (rs, n) →
  ∃ blob, build_blob document = Ok blob ∧ parse_blob blob = Ok (describe rs n)
    ∧ 32 ≤ blen blob ≤ 34848.
Proof.
  intros H. pose proof (normalize_valid _ _ _ H) as Hv.
  destruct (encode_records_total rs n Hv) as [blob Hb].
  apply encode_records_image in Hb; [|done]. exists blob.
  rewrite (build_normalized _ _ _ _ H), (image_length _ _ _ Hb).
  pose proof (program_payload_bound rs n Hv).
  split_and!; [done | by apply parse_image | lia..].
Qed.

(** C12: the decoder accepts exactly the files of bounded programs, and
    describes them correctly; an accepted file is the one and only encoding of
    the records it decodes to. *)
Theorem parse_accepts_iff blob d :
  parse_blob blob = Ok d ↔
  ∃ rs n, valid_program rs n ∧ encode_records rs n = Ok blob ∧ d = describe rs n.
Proof.
  split.
  - intros (rs & n & Hv & Hi & ->)%parse_inv. exists rs, n. by rewrite encode_records_image.
  - intros (rs & n & Hv & He & ->). apply parse_image; [done|].
    by apply encode_records_image in He.
Qed.

Lemma parse_records_raises n index b : only_raises FirmwareFormatError (parse_records n index b).
Proof.
  revert index b. induction n as [|n IH]; intros index b; cbn [parse_records]; [done|].
  unfold fail_if, Struct.unpack_from. solve_raises; [|apply IH].
  apply raise_when_unit in H. unfold raise_when. rewrite decide_False by lia. done.
Qed.

(** The maxima are taken over at least one record. *)
Lemma parse_records_max n index b rs (f : record → Z) :
  parse_records n index b = Ok rs → (0 < n)%nat →
  only_raises FirmwareFormatError (py_max (map f rs.1)).
Proof.
  destruct rs as [rs rest]. intros (Hn & _)%parse_records_inv Hpos.
  destruct rs; simpl in *; [lia | done].
Qed.

(** on every byte string the decoder returns or raises
    [FirmwareFormatError]; no [struct.error], index error or empty [max]
    escapes it. *)
Theorem parse_only_format_error blob : only_raises FirmwareFormatError (parse_blob blob).
Proof.
  unfold parse_blob, fail_if, Struct.unpack_from. solve_raises; try apply parse_records_raises.
  - apply raise_when_unit in H. unfold raise_when. by rewrite decide_False by exact H.
  - apply (parse_records_max _ _ _ _ _ H6). apply raise_when_unit in H3. lia.
  - apply (parse_records_max _ _ _ _ _ H6). apply raise_when_unit in H3. lia.
Qed.

(** C40: One byte that is changed anywhere in the payload of an accepted file is
    reported as a checksum mismatch. *)
Theorem payload_corruption_detected pre b b' post d :
  b ≠ b' → (32 ≤ length pre)%nat → parse_blob (pre ++ b :: post) = Ok d →
  parse_blob (pre ++ b' :: post) = Err (Exn FirmwareFormatError "payload CRC32 mismatch").
Proof.
  intros Hne Hl H.
  apply parse_inv in H as (rs & n & Hv & (h & Hh & E) & _).
  pose proof (Struct.pack_length _ _ _ _ Hh) as Hlh. change (Struct.calcsize HEADER) with 24%nat in Hlh.
  destruct (take_drop_app 32 (MAGIC ++ h) (payload rs)) as [Ht Hd]; [by rewrite length_app, Hlh|].
  rewrite <- app_assoc, <- E in Ht, Hd. rewrite take_app_le in Ht by lia.
  rewrite drop_app_le in Hd by lia. rewrite <- (take_drop 32 pre), Ht, <- !app_assoc.
  rewrite (parse_framed rs n); [|done..|by rewrite <- Hd, !blen_app].
  apply raise_when_true. rewrite <- Hd. intros Hc. symmetry in Hc.
  by apply crc32_u32_single_byte in Hc.
Qed.

(** ** [main] *)

(** generating and then checking agree.  When [main] writes a file, a later
    [main --check] accepts exactly those bytes, printing the same line, and
    exits with an error on any other content; [--check] itself writes nothing. *)
Theorem generate_then_check output document existing blob line :
  main output false document existing = Ok (Some blob, line) →
  main output true document (inl blob) = Ok (None, line)
  ∧ ∀ old, old ≠ blob →
      main output true document (inl old)
      = Err (Exn SystemExit (output +:+ " is not the deterministic generator output")).
Proof.
  unfold main. intros H.
  apply bind_ok_inv in H as (b & Hb & H). apply bind_ok_inv in H as (d & Hd & H).
  injection H as <- <-. rewrite Hb. cbn [mbind result_bind]. rewrite Hd. cbn [mbind result_bind].
  split; [by rewrite decide_False by (intros []; done)|].
  intros old Hne. by rewrite decide_True.
Qed.

(** ** Which exceptions a source can cause *)

Definition is_obj (v : json) : bool := match v with JObj _ => true | _ => false end.

(** A document whose containers have the expected JSON types. *)
Definition shaped (document : json) : Prop :=
  ∃ o, document = JObj o
    ∧ (∀ v, jget "profile" o = Some v → is_obj v = true)
    ∧ (∀ k l, jget k o = Some (JList l) → Forall (λ v, is_obj v = true) l).

Lemma attr_get_obj v k c : is_obj v = true → only_raises c (attr_get v k).
Proof. by destruct v. Qed.

Lemma get_list o k l : attr_get (JObj o) k = Ok (JList l) → jget k o = Some (JList l).
Proof. simpl. by destruct (jget k o); intros [= ->]. Qed.

Lemma _integer_raises v f : only_raises FirmwareFormatError (_integer v f).
Proof. unfold _integer. destruct v; try done. by destruct (int_literal s). Qed.

Lemma _record_raises item index :
  is_obj item = true → only_raises FirmwareFormatError (_record item index).
Proof.
  intros Ho. unfold _record, fail_if. solve_raises; auto using attr_get_obj, _integer_raises.
  destruct a3; try done. destruct (fromhex s); [|done]. solve_raises.
Qed.

Lemma records_from_raises items index :
  Forall (λ v, is_obj v = true) items →
  only_raises FirmwareFormatError (records_from index items).
Proof.
  intros H. revert index. induction H; intros index; cbn [records_from]; [done|].
  solve_raises; auto using _record_raises.
Qed.

(** a source whose containers have the expected JSON types, however wrong
    its scalars are, either yields a file or raises [FirmwareFormatError]. *)
Theorem build_only_format_error document :
  shaped document → only_raises FirmwareFormatError (build_blob document).
Proof.
  intros (o & -> & Hp & Hl). unfold build_blob. apply only_raises_bind.
  - unfold normalize_source, fail_if. solve_raises; try by apply attr_get_obj.
    destruct a3 as [| | | | |pl|]; try done. destruct a4 as [| | | | |vl|]; try done.
    assert (is_obj (default (JObj []) (jget "profile" o)) = true)
      by (destruct (jget "profile" o) eqn:E; [by apply Hp | done]).
    assert (Forall (λ v, is_obj v = true) (pl ++ vl)).
    { apply Forall_app; split; [apply (Hl "prelude"), get_list | apply (Hl "vendor_records"), get_list];
        assumption. }
    solve_raises; auto using attr_get_obj, records_from_raises.
  - intros [rs n] Hn. apply normalize_valid in Hn.
    destruct (encode_records_total rs n Hn) as [blob Hb]. simpl. by rewrite Hb.
Qed.

(** ** A small document *)

Definition sample_document : json :=
  JObj [("schema", JStr "micronux-jd9365-command-source-v1"); ("license", JStr "Apache-2.0");
        ("profile", JObj [("prelude_records", JInt 1); ("vendor_records", JBool true)]);
        ("prelude", JList [JObj [("command", JStr "0xE0"); ("data", JStr "00 7F"); ("delay_ms", JInt 0)]]);
        ("vendor_records",
          JList [JObj [("command", JInt 17); ("data", JStr ""); ("delay_ms", JStr "120")]])].

Definition sample_records : list record :=
  [mkRecord 0xE0 [Byte.x00; Byte.x7f] 0; mkRecord 17 [] 120].

Definition sample_blob : bytes :=
  match build_blob sample_document with Ok b => b | Err _ => [] end.

Lemma firmware_round_trip_witness :
  ∃ blob, build_blob sample_document = Ok blob
    ∧ parse_blob blob = Ok (describe sample_records 1) ∧ 32 ≤ blen blob ≤ 34848.
Proof. apply (firmware_round_trip sample_document). vm_compute. reflexivity. Defined.

Lemma payload_corruption_detected_witness :
  parse_blob (take 40 sample_blob ++ [byte_of 1; byte_of 0])
  = Err (Exn FirmwareFormatError "payload CRC32 mismatch").
Proof.
  apply (payload_corruption_detected (take 40 sample_blob) (byte_of 120) (byte_of 1) [byte_of 0]
    (describe sample_records 1)).
  - discriminate.
  - apply Nat.leb_le. vm_compute. reflexivity.
  - vm_compute. reflexivity.
Defined.

Lemma generate_then_check_witness :
  main "out.bin" true sample_document (inl [])
  = Err (Exn SystemExit "out.bin is not the deterministic generator output").
Proof.
  destruct (main "out.bin" false sample_document (inl [])) as [[[blob|] line]|e] eqn:E;
    [|exfalso; revert E; vm_compute; discriminate..].
  apply (proj2 (generate_then_check "out.bin" sample_document (inl []) blob line E)).
  intros <-. revert E. vm_compute. discriminate.
Defined.

Lemma build_only_format_error_witness :
  only_raises FirmwareFormatError (build_blob (JObj [("schema", JInt 3)])).
Proof.
  apply build_only_format_error. exists [("schema", JInt 3)]. split; [reflexivity|]. split.
  - cbn. intros v H. discriminate H.
  - cbn. intros k l. destruct (decide ("schema" = k)); intros H; discriminate H.
Defined.

End Firmware.
