(* ===== verification/Artifact.v ===== *)
(** * The JD9365 artifact of the repository

    The JSON source jd9365-waveshare-10.1-v2.json of the package, and what
    generate_firmware.py makes of it: the payload checksum that the cold
    contract publishes to Linux is the checksum of this artifact. *)

From S2P Require Import Prelude PyBytes PyStr PyJson Contract Cold Firmware.

Import Firmware.

(** One entry of the file's arrays, keys in the file's order. *)
Definition rec (command data : string) (delay_ms : Z) : json :=
  JObj [("command", JStr command); ("data", JStr data); ("delay_ms", JInt delay_ms)].

Definition jd9365_prelude : list json :=
  [rec "0xE0" "00" 0; rec "0x36" "00" 0; rec "0x3A" "55" 0; rec "0x80" "01" 0].

Definition jd9365_vendor_records : list json :=
  [rec "0xE0" "00" 0; rec "0xE1" "93" 0; rec "0xE2" "65" 0; rec "0xE3" "F8" 0; rec "0x80" "01" 0;
   rec "0xE0" "01" 0; rec "0x00" "00" 0; rec "0x01" "38" 0; rec "0x03" "10" 0; rec "0x04" "38" 0;
   rec "0x0C" "74" 0; rec "0x17" "00" 0; rec "0x18" "AF" 0; rec "0x19" "00" 0; rec "0x1A" "00" 0;
   rec "0x1B" "AF" 0; rec "0x1C" "00" 0; rec "0x35" "26" 0; rec "0x37" "09" 0; rec "0x38" "04" 0;
   rec "0x39" "00" 0; rec "0x3A" "01" 0; rec "0x3C" "78" 0; rec "0x3D" "FF" 0; rec "0x3E" "FF" 0;
   rec "0x3F" "7F" 0; rec "0x40" "06" 0; rec "0x41" "A0" 0; rec "0x42" "81" 0; rec "0x43" "1E" 0;
   rec "0x44" "0D" 0; rec "0x45" "28" 0; rec "0x55" "02" 0; rec "0x57" "69" 0; rec "0x59" "0A" 0;
   rec "0x5A" "2A" 0; rec "0x5B" "17" 0; rec "0x5D" "7F" 0; rec "0x5E" "6A" 0; rec "0x5F" "5B" 0;
   rec "0x60" "4F" 0; rec "0x61" "4A" 0; rec "0x62" "3D" 0; rec "0x63" "41" 0; rec "0x64" "2A" 0;
   rec "0x65" "44" 0; rec "0x66" "43" 0; rec "0x67" "44" 0; rec "0x68" "62" 0; rec "0x69" "52" 0;
   rec "0x6A" "59" 0; rec "0x6B" "4C" 0; rec "0x6C" "48" 0; rec "0x6D" "3A" 0; rec "0x6E" "26" 0;
   rec "0x6F" "00" 0; rec "0x70" "7F" 0; rec "0x71" "6A" 0; rec "0x72" "5B" 0; rec "0x73" "4F" 0;
   rec "0x74" "4A" 0; rec "0x75" "3D" 0; rec "0x76" "41" 0; rec "0x77" "2A" 0; rec "0x78" "44" 0;
   rec "0x79" "43" 0; rec "0x7A" "44" 0; rec "0x7B" "62" 0; rec "0x7C" "52" 0; rec "0x7D" "59" 0;
   rec "0x7E" "4C" 0; rec "0x7F" "48" 0; rec "0x80" "3A" 0; rec "0x81" "26" 0; rec "0x82" "00" 0;
   rec "0xE0" "02" 0; rec "0x00" "42" 0; rec "0x01" "42" 0; rec "0x02" "40" 0; rec "0x03" "40" 0;
   rec "0x04" "5E" 0; rec "0x05" "5E" 0; rec "0x06" "5F" 0; rec "0x07" "5F" 0; rec "0x08" "5F" 0;
   rec "0x09" "57" 0; rec "0x0A" "57" 0; rec "0x0B" "77" 0; rec "0x0C" "77" 0; rec "0x0D" "47" 0;
   rec "0x0E" "47" 0; rec "0x0F" "45" 0; rec "0x10" "45" 0; rec "0x11" "4B" 0; rec "0x12" "4B" 0;
   rec "0x13" "49" 0; rec "0x14" "49" 0; rec "0x15" "5F" 0; rec "0x16" "41" 0; rec "0x17" "41" 0;
   rec "0x18" "40" 0; rec "0x19" "40" 0; rec "0x1A" "5E" 0; rec "0x1B" "5E" 0; rec "0x1C" "5F" 0;
   rec "0x1D" "5F" 0; rec "0x1E" "5F" 0; rec "0x1F" "57" 0; rec "0x20" "57" 0; rec "0x21" "77" 0;
   rec "0x22" "77" 0; rec "0x23" "46" 0; rec "0x24" "46" 0; rec "0x25" "44" 0; rec "0x26" "44" 0;
   rec "0x27" "4A" 0; rec "0x28" "4A" 0; rec "0x29" "48" 0; rec "0x2A" "48" 0; rec "0x2B" "5F" 0;
   rec "0x2C" "01" 0; rec "0x2D" "01" 0; rec "0x2E" "00" 0; rec "0x2F" "00" 0; rec "0x30" "1F" 0;
   rec "0x31" "1F" 0; rec "0x32" "1E" 0; rec "0x33" "1E" 0; rec "0x34" "1F" 0; rec "0x35" "17" 0;
   rec "0x36" "17" 0; rec "0x37" "37" 0; rec "0x38" "37" 0; rec "0x39" "08" 0; rec "0x3A" "08" 0;
   rec "0x3B" "0A" 0; rec "0x3C" "0A" 0; rec "0x3D" "04" 0; rec "0x3E" "04" 0; rec "0x3F" "06" 0;
   rec "0x40" "06" 0; rec "0x41" "1F" 0; rec "0x42" "02" 0; rec "0x43" "02" 0; rec "0x44" "00" 0;
   rec "0x45" "00" 0; rec "0x46" "1F" 0; rec "0x47" "1F" 0; rec "0x48" "1E" 0; rec "0x49" "1E" 0;
   rec "0x4A" "1F" 0; rec "0x4B" "17" 0; rec "0x4C" "17" 0; rec "0x4D" "37" 0; rec "0x4E" "37" 0;
   rec "0x4F" "09" 0; rec "0x50" "09" 0; rec "0x51" "0B" 0; rec "0x52" "0B" 0; rec "0x53" "05" 0;
   rec "0x54" "05" 0; rec "0x55" "07" 0; rec "0x56" "07" 0; rec "0x57" "1F" 0; rec "0x58" "40" 0;
   rec "0x5B" "30" 0; rec "0x5C" "00" 0; rec "0x5D" "34" 0; rec "0x5E" "05" 0; rec "0x5F" "02" 0;
   rec "0x63" "00" 0; rec "0x64" "6A" 0; rec "0x67" "73" 0; rec "0x68" "07" 0; rec "0x69" "08" 0;
   rec "0x6A" "6A" 0; rec "0x6B" "08" 0; rec "0x6C" "00" 0; rec "0x6D" "00" 0; rec "0x6E" "00" 0;
   rec "0x6F" "88" 0; rec "0x75" "FF" 0; rec "0x77" "DD" 0; rec "0x78" "2C" 0; rec "0x79" "15" 0;
   rec "0x7A" "17" 0; rec "0x7D" "14" 0; rec "0x7E" "82" 0; rec "0xE0" "04" 0; rec "0x00" "0E" 0;
   rec "0x02" "B3" 0; rec "0x09" "61" 0; rec "0x0E" "48" 0; rec "0x37" "58" 0; rec "0x2B" "0F" 0;
   rec "0xE0" "00" 0; rec "0xE6" "02" 0; rec "0xE7" "0C" 0; rec "0x11" "00" 120;
   rec "0x29" "00" 20].

Definition jd9365_document : json :=
  JObj [("schema", JStr "micronux-jd9365-command-source-v1");
        ("license", JStr "Apache-2.0");
        ("source", JObj [("component", JStr "waveshare/esp_lcd_jd9365_10_1");
           ("component_version", JStr "2.0.0");
           ("repository", JStr "git://github.com/waveshareteam/Waveshare-ESP32-components.git");
           ("commit", JStr "9daffb7168b3c093a330da700988a22092294eef");
           ("path", JStr "display/lcd/esp_lcd_jd9365_10_1/esp_lcd_jd9365_10_1.c");
           ("source_file_sha256", JStr "c80f8ae4771adf46adabbcf3fedca73262504f068387b713c358476cb1629585")]);
        ("profile", JObj [("name", JStr "Waveshare JD9365 10.1-inch v2 RGB565 two-lane");
           ("output", JStr "jd9365-waveshare-10.1-v2.bin");
           ("prelude_records", JInt 4);
           ("vendor_records", JInt 200)]);
        ("prelude", JList jd9365_prelude);
        ("vendor_records", JList jd9365_vendor_records)].

(** The facts about the normalised source, evaluated once. *)
Definition artifact_facts (rs : list record) (n : Z) : Prop :=
  n = 4 ∧ length rs = 204%nat ∧ blen (payload rs) = 1020
  ∧ crc32_u32 (payload rs) = COLD_PANEL_PAYLOAD_CRC32
  ∧ maximum (map (λ r, blen (data r)) rs) = 1 ∧ maximum (map delay_ms rs) = 120
  ∧ foldr Z.add 0 (map delay_ms rs) = 140.

#[local] Instance artifact_facts_dec rs n : Decision (artifact_facts rs n).
Proof. unfold artifact_facts. apply _. Defined.

Lemma artifact_evaluated :
  match normalize_source jd9365_document with
  | Ok (rs, n) => bool_decide (artifact_facts rs n)
  | Err _ => false
  end = true.
Proof. by_compute. Qed.

(** the artifact the repository ships is the one the display contract
    names.  Building the checked-in source gives 1052 bytes that decode to 204
    records, four of them prelude, with a 1020-byte payload whose CRC-32 is
    [COLD_PANEL_PAYLOAD_CRC32], 140 ms of delays in total. *)
Theorem artifact_matches_contract :
  ∃ blob d, build_blob jd9365_document = Ok blob ∧ parse_blob blob = Ok d
    ∧ blen blob = 1052 ∧ record_count d = 204 ∧ prelude_count d = 4 ∧ payload_bytes d = 1020
    ∧ payload_crc32 d = COLD_PANEL_PAYLOAD_CRC32 ∧ max_params d = 1 ∧ max_delay_ms d = 120
    ∧ foldr Z.add 0 (map delay_ms (records d)) = 140.
Proof.
  pose proof artifact_evaluated as H.
  destruct (normalize_source jd9365_document) as [[rs n]|] eqn:Hn; [|discriminate H].
  apply bool_decide_eq_true in H as (-> & Hl & Hp & Hc & Hm & Hd & Hs).
  pose proof (normalize_valid _ _ _ Hn) as Hv.
  destruct (encode_records_total rs 4 Hv) as [blob Hb].
  apply encode_records_image in Hb; [|done].
  exists blob, (describe rs 4). unfold describe. cbn [record_count prelude_count payload_bytes
    payload_crc32 max_params max_delay_ms records].
  rewrite (build_normalized _ _ _ _ Hn), (image_length _ _ _ Hb), Hl, Hp, Hc, Hm, Hd, Hs.
  split; [exact Hb|]. split; [|split_and!; reflexivity].
  rewrite (parse_image _ _ _ Hv Hb). unfold describe. rewrite Hl, Hp, Hc, Hm, Hd. reflexivity.
Qed.
