(* ===== verification/Telemetry.v ===== *)
(** * Display telemetry of the hardware gate

    Models the log checks of scripts/m9-hardware-test.py: the telemetry line
    patterns, the parsers [scanout_samples] and [diagnostics_samples], the
    phase-ordered diagnostics, the display health verdict, the framebuffer
    signatures and the boot contract.  A check returns [None] for no problem
    and [Some text] for the text the code returns. *)

From S2P Require Import Prelude PyStr Regex RegexLines LineTemplate Contract.

(** ** Constants *)

Definition KERNEL_LOAD : Z := 0x48400000.
Definition DISPLAY_POOL_ADDRESS : Z := 0x49300000.
Definition EMPTY_SHA256 : string :=
  "e3b0c44298fc1c149afbf4c8996fb924" +:+ "27ae41e4649b934ca495991b7852b855".

Definition FAILURE_MARKERS : list string :=
  ["Kernel panic"; "Oops:"; "BUG:"; "MICRONUX:M9:DISPLAY-FAULT"; "state=REJECTED_NO_WRITES";
   "state=FAILED_QUIESCENT"; "state=FAILED_UNVERIFIED"; "REMOVE_UNVERIFIED"].

Definition SCANOUT_LINE_RE : re := Eval vm_compute in compile true (
  "^running abi=3 state=RUNTIME_REVEALED " +:+
  "frames=(?P<before>\d+)->(?P<after>\d+) " +:+
  "error=(?P<error>[0-9a-fA-F]{8}) underruns=(?P<underruns>\d+) " +:+
  "chen=(?P<chen>[01]) faults=(?P<faults>[0-9a-fA-F]+) " +:+
  "host-errors=(?P<host0>[0-9a-fA-F]{8}):" +:+
  "(?P<host1>[0-9a-fA-F]{8}) frame-ack=on " +:+
  "clock=auto lp=enabled backlight-gate=on buffers=(?P<buffers>\d+) " +:+
  "front=(?P<front>-?\d+) queued=(?P<queued>-?\d+) " +:+
  "back=(?P<back>-?\d+) rearm=(?P<rearms>\d+)/" +:+
  "(?P<rearm_failures>\d+) flips=(?P<flip_requests>\d+)/" +:+
  "(?P<flip_completions>\d+) generation=(?P<generation>\d+) " +:+
  "commit=(?P<commit>\d+) guards=ok " +:+
  "guard-errors=(?P<guard_errors>\d+) " +:+
  "arm-to-irq-ns=(?P<arm_to_irq_last>\d+)/" +:+
  "(?P<arm_to_irq_max>\d+) " +:+
  "arm-to-irq-over20ms=(?P<arm_to_irq_over20ms>\d+) " +:+
  "rearm-ns=(?P<rearm_last>\d+)/(?P<rearm_max>\d+) " +:+
  "fifo-irq=(?P<fifo_irq_last>\d+)/(?P<fifo_irq_min>\d+)/" +:+
  "(?P<fifo_irq_zero>\d+) " +:+
  "fifo-poll=(?P<fifo_poll_last>\d+)/(?P<fifo_poll_min>\d+)/" +:+
  "(?P<fifo_poll_zero>\d+) " +:+
  "bridge-filler=(?P<bridge_filler>[0-9a-fA-F]{8}) " +:+
  "bridge-misc=(?P<bridge_misc>[0-9a-fA-F]{8}) " +:+
  "i2c=active-serialized\r?$").

Definition DIAGNOSTICS_LINE_RE : re := Eval vm_compute in compile true (
  "^abi=3 state=RUNTIME_REVEALED " +:+
  "frames=(?P<frames>\d+) " +:+
  "faults=(?P<faults>[0-9a-fA-F]+) " +:+
  "error=(?P<error>[0-9a-fA-F]{8}) " +:+
  "host-errors=(?P<host0>[0-9a-fA-F]{8}):" +:+
  "(?P<host1>[0-9a-fA-F]{8}) underruns=(?P<underruns>\d+) " +:+
  "buffers=(?P<buffers>\d+) front=(?P<front>-?\d+) " +:+
  "queued=(?P<queued>-?\d+) back=(?P<back>-?\d+) " +:+
  "rearm=(?P<rearms>\d+)/(?P<rearm_failures>\d+) " +:+
  "flips=(?P<flip_requests>\d+)/(?P<flip_completions>\d+) " +:+
  "generation=(?P<generation>\d+) commit=(?P<commit>\d+) " +:+
  "guards=ok guard-errors=(?P<guard_errors>\d+) policy=ok " +:+
  "arm-to-irq-ns=(?P<arm_to_irq_last>\d+)/" +:+
  "(?P<arm_to_irq_max>\d+) " +:+
  "arm-to-irq-over20ms=(?P<arm_to_irq_over20ms>\d+) " +:+
  "rearm-ns=(?P<rearm_last>\d+)/(?P<rearm_max>\d+) " +:+
  "fifo-irq=(?P<fifo_irq_last>\d+)/(?P<fifo_irq_min>\d+)/" +:+
  "(?P<fifo_irq_zero>\d+) " +:+
  "fifo-poll=(?P<fifo_poll_last>\d+)/(?P<fifo_poll_min>\d+)/" +:+
  "(?P<fifo_poll_zero>\d+) " +:+
  "bridge-filler=(?P<bridge_filler>[0-9a-fA-F]{8}) " +:+
  "bridge-misc=(?P<bridge_misc>[0-9a-fA-F]{8}) " +:+
  "i2c=active-serialized physical-panel-state=unobserved\r?$").

Definition OWNERSHIP_LINE_RE : re := Eval vm_compute in compile true (
  "^linux abi=3 mode=native-cold-init fb0 buffers=3 dma-channel=0 " +:+
  "frame-irq=(?P<irq>\d+) rearm=explicit mmap=denied " +:+
  "i2c=active-serialized\r?$").

Definition TOUCH_LINE_RE : re := Eval vm_compute in compile true (
  "^(?:unavailable|ready product=9271 address=0x(?:5d|14) mode=poll " +:+
  "interval_ms=10 reads=\d+ errors=0 down=[01])\r?$").

Definition RUNTIME_STATUS_RE : re := Eval vm_compute in compile false (
  "pattern=framebuffer boot_ready=1 native_state=RUNTIME_REVEALED " +:+
  "brightness=63 bl_power=0 actual_brightness=63").

Definition DIAGNOSTICS_PHASE_RE : re := Eval vm_compute in compile true
  "^MICRONUX:M9:DIAGNOSTICS phase=(?P<phase>[A-Z0-9-]+)\r?$".

Definition MAX_REARM_NS : Z := 1000000.

(** ** Problems *)

(** [if P: return text] *)
Definition problem_if (P : Prop) `{Decision P} (text : string) : option string :=
  if decide P then Some text else None.

(** The first of two checks that reports a problem. *)
Definition or_else (a b : option string) : option string :=
  match a with Some e => Some e | None => b end.
Notation "a ;? b" := (or_else a b) (at level 100, right associativity).

(** The first problem of a loop. *)
Fixpoint first_of {A} (f : A → option string) (l : list A) : option string :=
  match l with
  | [] => None
  | x :: l => f x ;? first_of f l
  end.

(** [next((marker for marker in FAILURE_MARKERS if marker in output), None)] *)
Definition failure_marker (output : string) : option string :=
  list_find (λ marker, contains marker output = true) FAILURE_MARKERS ≫= λ im, Some im.2.

(** ** Samples *)

Definition HEXADECIMAL : list string :=
  ["error"; "faults"; "host0"; "host1"; "bridge_filler"; "bridge_misc"].

(** The dict of one match: each group of the pattern read as an integer. *)
Definition sample_of (r : re) (m : mtch) : dict :=
  map (λ key, (key, int_of (if decide (key ∈ HEXADECIMAL) then 16 else 10) (group m key)))
    (groups r).

Definition scanout_samples (output : string) : list dict :=
  map (sample_of SCANOUT_LINE_RE) (finditer SCANOUT_LINE_RE output).

Definition diagnostics_samples (output : string) : list dict :=
  map (sample_of DIAGNOSTICS_LINE_RE) (finditer DIAGNOSTICS_LINE_RE output).

(** ** Scanout contract *)

(** [len({front, queued, back}) != 3] for a front that is not the back. *)
Definition role_problem (prefix : string) (front queued back : Z) : option string :=
  problem_if (¬ (0 ≤ front < 3) ∨ ¬ (0 ≤ back < 3) ∨ front = back) (prefix +:+ "-front-back-role") ;?
  problem_if (queued ≠ -1 ∧ (¬ (0 ≤ queued < 3) ∨ front = queued ∨ queued = back ∨ front = back))
    (prefix +:+ "-queued-role").

Definition SCANOUT_COUNTERS : list string :=
  ["before"; "after"; "rearms"; "flip_requests"; "flip_completions"; "generation"; "commit";
   "arm_to_irq_over20ms"; "fifo_irq_zero"; "fifo_poll_zero"].

(** [for counter in counters: if values[counter] < previous[counter]: return ...] *)
Definition regressed (prefix : string) (counters : list string) (previous values : dict)
    : option string :=
  first_of (λ counter, problem_if (dget values counter < dget previous counter)
                         (prefix +:+ "-" +:+ counter +:+ "-regressed")) counters.

(** The checks on one scanout sample alone. *)
Definition scanout_sample_problem (values : dict) : option string :=
  problem_if (dget values "after" ≤ dget values "before") "scanout-frame-stalled" ;?
  problem_if (dget values "error" ≠ 0 ∨ dget values "underruns" ≠ 0 ∨ dget values "chen" ≠ 1
              ∨ dget values "faults" ≠ 0 ∨ dget values "host0" ≠ 0 ∨ dget values "host1" ≠ 0
              ∨ dget values "guard_errors" ≠ 0) "scanout-health-nonzero" ;?
  problem_if (dget values "buffers" ≠ 3) "scanout-buffer-count" ;?
  role_problem "scanout" (dget values "front") (dget values "queued") (dget values "back") ;?
  problem_if (dget values "rearms" < 1 ∨ dget values "rearm_failures" ≠ 0)
    "scanout-rearm-counter" ;?
  problem_if (dget values "arm_to_irq_over20ms" ≠ 0) "scanout-arm-to-irq-over20ms" ;?
  problem_if (MAX_REARM_NS ≤ dget values "rearm_max") "scanout-rearm-latency" ;?
  problem_if (dget values "fifo_poll_zero" ≠ 0) "scanout-fifo-poll-zero" ;?
  problem_if (dget values "bridge_filler" ≠ 0) "scanout-bridge-filler" ;?
  problem_if (dget values "bridge_misc" ≠ 0x00003201) "scanout-bridge-misc" ;?
  problem_if (dget values "flip_requests" < dget values "flip_completions")
    "scanout-flip-counter" ;?
  problem_if (dget values "generation" < 1) "scanout-generation" ;?
  problem_if (dget values "commit" < 1) "scanout-commit".

(** The loop over the samples, with the previous one. *)
Fixpoint samples_problem (alone : dict → option string) (step : dict → dict → option string)
    (previous : option dict) (samples : list dict) : option string :=
  match samples with
  | [] => None
  | values :: samples =>
      alone values ;?
      match previous with Some p => step p values | None => None end ;?
      samples_problem alone step (Some values) samples
  end.

(** [samples[-1]] and [samples[0]] for a list with two samples or more. *)
Definition first_sample (samples : list dict) : dict := default [] (head samples).
Definition last_sample (samples : list dict) : dict := default [] (last samples).

(** [len(samples) < 2 or samples[-1][key] <= samples[0][key] or ...] *)
Definition not_advanced (samples : list dict) (keys : list string) : Prop :=
  (length samples < 2)%nat
  ∨ Exists (λ key, dget (last_sample samples) key ≤ dget (first_sample samples) key) keys.

#[global] Instance not_advanced_dec samples keys : Decision (not_advanced samples keys).
Proof. unfold not_advanced. apply _. Defined.

(** The tail both contract checks share: the minimum count, the loop, and the
    required flips and progress. *)
Definition contract_problem (prefix : string) (alone : dict → option string)
    (counters : list string) (progress : string) (samples : list dict)
    (minimum : nat) (require_flip require_progress : bool) : option string :=
  problem_if (length samples < minimum)%nat
    (prefix +:+ "-contract-count-" +:+ pretty (length samples) +:+ "-expected-" +:+ pretty minimum) ;?
  samples_problem alone (regressed prefix counters) None samples ;?
  problem_if (require_flip = true ∧ not_advanced samples ["flip_completions"; "commit"])
    (prefix +:+ "-flip-not-observed") ;?
  problem_if (require_progress = true ∧ not_advanced samples [progress])
    (prefix +:+ "-progress-not-observed").

Definition scanout_contract_problem (output : string) (minimum : nat)
    (require_flip require_progress : bool) : option string :=
  contract_problem "scanout" scanout_sample_problem SCANOUT_COUNTERS "after"
    (scanout_samples output) minimum require_flip require_progress.

(** ** Diagnostics contract *)

Definition DIAGNOSTICS_COUNTERS : list string :=
  ["frames"; "rearms"; "flip_requests"; "flip_completions"; "generation"; "commit";
   "arm_to_irq_over20ms"; "fifo_irq_zero"; "fifo_poll_zero"].

Definition diagnostics_sample_problem (values : dict) : option string :=
  problem_if (dget values "faults" ≠ 0 ∨ dget values "error" ≠ 0 ∨ dget values "host0" ≠ 0
              ∨ dget values "host1" ≠ 0 ∨ dget values "underruns" ≠ 0
              ∨ dget values "rearm_failures" ≠ 0 ∨ dget values "guard_errors" ≠ 0)
    "diagnostics-health-nonzero" ;?
  problem_if (dget values "buffers" ≠ 3) "diagnostics-buffer-count" ;?
  role_problem "diagnostics" (dget values "front") (dget values "queued") (dget values "back") ;?
  problem_if (dget values "frames" < 1 ∨ dget values "generation" < 1)
    "diagnostics-progress-counter" ;?
  problem_if (dget values "rearms" < 1 ∨ dget values "commit" < 1) "diagnostics-runtime-counter" ;?
  problem_if (dget values "arm_to_irq_over20ms" ≠ 0) "diagnostics-arm-to-irq-over20ms" ;?
  problem_if (MAX_REARM_NS ≤ dget values "rearm_max") "diagnostics-rearm-latency" ;?
  problem_if (dget values "fifo_poll_zero" ≠ 0) "diagnostics-fifo-poll-zero" ;?
  problem_if (dget values "bridge_filler" ≠ 0) "diagnostics-bridge-filler" ;?
  problem_if (dget values "bridge_misc" ≠ 0x00003201) "diagnostics-bridge-misc" ;?
  problem_if (dget values "flip_requests" < dget values "flip_completions")
    "diagnostics-flip-counter".

Definition diagnostics_contract_problem (output : string) (minimum : nat)
    (require_flip require_progress : bool) : option string :=
  contract_problem "diagnostics" diagnostics_sample_problem DIAGNOSTICS_COUNTERS "frames"
    (diagnostics_samples output) minimum require_flip require_progress.

(** ** Phases *)

(** The text from the start of a match on. *)
Definition m_from (m : mtch) : string := m_text m +:+ rest (m_end m).

(** [output[marker.end():end]] where [end] is the start of the next marker, or
    the end of the output. *)
Definition slice_to (m : mtch) (next : option mtch) : string :=
  match next with
  | None => rest (m_end m)
  | Some m' => str_take (String.length (rest (m_end m)) - String.length (m_from m')) (rest (m_end m))
  end.

Fixpoint phase_groups (markers : list mtch) : list (string * list dict) :=
  match markers with
  | [] => []
  | m :: markers =>
      (group m "phase", diagnostics_samples (slice_to m (head markers))) :: phase_groups markers
  end.

Definition diagnostics_phase_groups (output : string) : list (string * list dict) :=
  phase_groups (finditer DIAGNOSTICS_PHASE_RE output).

(** The first loop of [diagnostics_phase_problem]: one sample per phase. *)
Fixpoint phase_samples (groups : list (string * list dict)) : list (string * dict) + string :=
  match groups with
  | [] => inl []
  | (phase, [sample]) :: groups =>
      if decide (dget sample "fifo_poll_zero" ≠ 0)
      then inr ("diagnostics-phase-" +:+ lower phase +:+ "-fifo-poll-zero")
      else match phase_samples groups with
           | inl samples => inl ((phase, sample) :: samples)
           | inr e => inr e
           end
  | (phase, samples) :: _ =>
      inr ("diagnostics-phase-" +:+ lower phase +:+ "-count-" +:+ pretty (length samples))
  end.

Definition PHASE_COUNTERS : list string :=
  ["arm_to_irq_over20ms"; "fifo_irq_zero"; "fifo_poll_zero"].

Definition phase_step_problem (previous current : string * dict) : option string :=
  let stem := "diagnostics-phase-" +:+ lower previous.1 +:+ "-to-" +:+ lower current.1 +:+ "-" in
  first_of (λ counter, problem_if (dget current.2 counter < dget previous.2 counter)
    (stem +:+ str_replace "_" "-" counter +:+ "-regressed")) PHASE_COUNTERS ;?
  problem_if (dget current.2 "arm_to_irq_over20ms" ≠ dget previous.2 "arm_to_irq_over20ms")
    (stem +:+ "arm-to-irq-over20ms-increased").

(** [for index in range(1, len(samples))] *)
Fixpoint phase_steps (samples : list (string * dict)) : option string :=
  match samples with
  | previous :: ((current :: _) as samples) =>
      phase_step_problem previous current ;? phase_steps samples
  | _ => None
  end.

Definition diagnostics_phase_problem (output : string) (expected_phases : list string)
    : option string :=
  let groups := diagnostics_phase_groups output in
  problem_if (map fst groups ≠ expected_phases) "diagnostics-phase-order" ;?
  match phase_samples groups with
  | inr e => Some e
  | inl samples =>
      match samples with
      | (phase, sample) :: _ =>
          problem_if (dget sample "arm_to_irq_over20ms" ≠ 0)
            ("diagnostics-phase-" +:+ lower phase +:+ "-arm-to-irq-over20ms-nonzero")
      | [] => None
      end ;?
      phase_steps samples
  end.

(** ** Display health, runtime status *)

Definition terminal_failure (output : string) : option string :=
  marker ← failure_marker output; Some ("terminal-failure-" +:+ str_replace " " "-" marker).

Definition display_health_problem (output : string) (minimum : nat)
    (require_flip require_progress : bool) : option string :=
  terminal_failure output ;?
  diagnostics_contract_problem output minimum require_flip require_progress ;?
  scanout_contract_problem output minimum require_flip require_progress.

Definition runtime_status_problem (output : string) (minimum : nat) : option string :=
  let count := length (finditer RUNTIME_STATUS_RE output) in
  problem_if (count < minimum)%nat
    ("runtime-status-count-" +:+ pretty count +:+ "-expected-" +:+ pretty minimum).

(** ** Framebuffer signatures *)

(** [sha256=([0-9a-f]{64})] lines of one phase. *)
Definition fb_hashes (output phase : string) : list string :=
  findall1 (compile true ("^MICRONUX:M9:FB-SHA256 phase=" +:+ re_escape phase +:+
                          " sha256=([0-9a-f]{64})\r?$")) output.

(** The first loop: exactly one non-empty signature per phase. *)
Fixpoint fb_collect (output : string) (phases : list string) : list (string * string) + string :=
  match phases with
  | [] => inl []
  | phase :: phases =>
      match fb_hashes output phase with
      | [h] =>
          if decide (h = EMPTY_SHA256) then inr ("phase-" +:+ phase +:+ "-empty")
          else match fb_collect output phases with
               | inl hashes => inl ((phase, h) :: hashes)
               | inr e => inr e
               end
      | matches => inr ("phase-" +:+ phase +:+ "-count-" +:+ pretty (length matches))
      end
  end.

(** Raises [IndexError] on [hashes[0]] when there is no phase. *)
Definition framebuffer_hash_problem (output : string) (phases : list string)
    : result (option string) :=
  match fb_collect output phases with
  | inr e => Ok (Some e)
  | inl [] => Err (Exn IndexError "list index out of range")
  | inl ((reference_phase, reference) :: hashes) =>
      Ok (first_of (λ h, problem_if (h.2 ≠ reference)
                           ("signature-changed-" +:+ reference_phase +:+ "-to-" +:+ h.1)) hashes)
  end.

(** ** Boot contract *)

Definition ORDERED_MARKERS : list string :=
  ["MICRONUX:M9.2:COLD-EXTERNAL state=ready";
   "MICRONUX:M9.2:COLD-MEMORY state=ready";
   "MICRONUX:M9.2:COLD-PREPARE state=ready abi=3 panel=jd9365";
   "MICRONUX:M9.2:COLD-HANDOFF state=ready";
   "MICRONUX:M9.2:COLD-STAGE state=ready abi=3 size=0x00c0";
   "MICRONUX:M9.2:COLD-PROBE state=PROBED_QUIESCENT abi=3";
   "MICRONUX:M9.2:COLD-INIT state=START trigger=sysfs";
   "MICRONUX:M9.2:COLD-INIT state=LDO_READY";
   "MICRONUX:M9.2:COLD-INIT stage=native-dsi state=READY";
   "MICRONUX:M9.2:COLD-INIT stage=panel-release state=READY";
   "MICRONUX:M9.2:COLD-INIT stage=panel-commands state=COMPLETE";
   "MICRONUX:M9.2:COLD-INIT state=PANEL_PROGRAMMED_QUIESCENT";
   "MICRONUX:M9.2:COLD-INIT state=SCANOUT_INITIALIZING";
   "MICRONUX:M9.2:COLD-INIT stage=memory state=READY";
   "MICRONUX:M9.2:COLD-INIT stage=dpi-bridge state=CONFIGURED";
   "MICRONUX:M9.2:COLD-INIT stage=gdma-irq state=CONFIGURED";
   "MICRONUX:M9.2:COLD-INIT stage=scanout-qualification state=PASSED";
   "MICRONUX:M9.2:COLD-INIT state=SCANOUT_QUALIFIED_QUIESCENT";
   "MICRONUX:M9.2:REVEAL state=REVEALING trigger=boot_ready";
   "MICRONUX:M9.2:REVEAL state=QUALIFIED source=userspace-status";
   "MICRONUX:M9.2:REVEAL stage=control state=ACKED command=0x17 pwm=0";
   "MICRONUX:M9.2:REVEAL state=RUNTIME_REVEALED boot-ready=1";
   "MICRONUX:M7:FB-CONSOLE state=ready tty=tty1 role=status usb=ttyGS0 reveal=userspace-ready native-state=RUNTIME_REVEALED"].

Definition REQUIRED_FRAGMENTS : list string :=
  ["pwm-zero-write=acked reset-prepare-write=acked pwm-zero-settle=elapsed reset-assert-write=acked reset-hold=elapsed i2c=released";
   "flags=0x00003fff route=ready dma-pms=ready panel-payload-crc=cea07f9b contract=invalid";
   "firmware=validated records=204 dcs-packets=205";
   "ctrl-hi=c0108840 host=video frame-bta=enabled lp=all lpclk=00000003";
   "frames=4 same-front=yes control-command=0x17-acked pwm-command=63-acked brightness=63 backlight=registered i2c=active-serialized";
   "physical-panel-state=unobserved"].

(** [expected.split()[i]] *)
Definition word (i : nat) (s : string) : string := nth i (str_split s) "".

(** The loop over the ordered markers; [start] is [position + 1]. *)
Fixpoint ordered_problem (log : string) (start : nat) (markers : list string) : option string :=
  match markers with
  | [] => None
  | expected :: markers =>
      match str_find expected log start with
      | None => Some ("missing-or-out-of-order-" +:+ word 0 expected +:+ "-" +:+ word 1 expected)
      | Some found => ordered_problem log (S found) markers
      end
  end.

Definition boot_contract_problem (boot_log : string) : option string :=
  terminal_failure boot_log ;?
  problem_if (contains "Linux version 6.12.27" boot_log = false) "kernel-version-missing" ;?
  ordered_problem boot_log 0 ORDERED_MARKERS ;?
  first_of (λ fragment, problem_if (contains fragment boot_log = false)
    ("boot-contract-fragment-" +:+ word 0 fragment)) REQUIRED_FRAGMENTS.

(** * Theory *)

(** ** The telemetry lines as templates *)

Definition DIAGNOSTICS_TEMPLATE : template :=
  [("abi=3 state=RUNTIME_REVEALED frames=", "frames", KDec); (" faults=", "faults", KHex);
   (" error=", "error", KHex8); (" host-errors=", "host0", KHex8); (":", "host1", KHex8);
   (" underruns=", "underruns", KDec); (" buffers=", "buffers", KDec);
   (" front=", "front", KSigned); (" queued=", "queued", KSigned); (" back=", "back", KSigned);
   (" rearm=", "rearms", KDec); ("/", "rearm_failures", KDec); (" flips=", "flip_requests", KDec);
   ("/", "flip_completions", KDec); (" generation=", "generation", KDec);
   (" commit=", "commit", KDec); (" guards=ok guard-errors=", "guard_errors", KDec);
   (" policy=ok arm-to-irq-ns=", "arm_to_irq_last", KDec); ("/", "arm_to_irq_max", KDec);
   (" arm-to-irq-over20ms=", "arm_to_irq_over20ms", KDec); (" rearm-ns=", "rearm_last", KDec);
   ("/", "rearm_max", KDec); (" fifo-irq=", "fifo_irq_last", KDec); ("/", "fifo_irq_min", KDec);
   ("/", "fifo_irq_zero", KDec); (" fifo-poll=", "fifo_poll_last", KDec);
   ("/", "fifo_poll_min", KDec); ("/", "fifo_poll_zero", KDec);
   (" bridge-filler=", "bridge_filler", KHex8); (" bridge-misc=", "bridge_misc", KHex8)].
Definition DIAGNOSTICS_END : string := " i2c=active-serialized physical-panel-state=unobserved".

Definition SCANOUT_TEMPLATE : template :=
  [("running abi=3 state=RUNTIME_REVEALED frames=", "before", KDec); ("->", "after", KDec);
   (" error=", "error", KHex8); (" underruns=", "underruns", KDec); (" chen=", "chen", KBit);
   (" faults=", "faults", KHex); (" host-errors=", "host0", KHex8); (":", "host1", KHex8);
   (" frame-ack=on clock=auto lp=enabled backlight-gate=on buffers=", "buffers", KDec);
   (" front=", "front", KSigned); (" queued=", "queued", KSigned); (" back=", "back", KSigned);
   (" rearm=", "rearms", KDec); ("/", "rearm_failures", KDec); (" flips=", "flip_requests", KDec);
   ("/", "flip_completions", KDec); (" generation=", "generation", KDec);
   (" commit=", "commit", KDec); (" guards=ok guard-errors=", "guard_errors", KDec);
   (" arm-to-irq-ns=", "arm_to_irq_last", KDec); ("/", "arm_to_irq_max", KDec);
   (" arm-to-irq-over20ms=", "arm_to_irq_over20ms", KDec); (" rearm-ns=", "rearm_last", KDec);
   ("/", "rearm_max", KDec); (" fifo-irq=", "fifo_irq_last", KDec); ("/", "fifo_irq_min", KDec);
   ("/", "fifo_irq_zero", KDec); (" fifo-poll=", "fifo_poll_last", KDec);
   ("/", "fifo_poll_min", KDec); ("/", "fifo_poll_zero", KDec);
   (" bridge-filler=", "bridge_filler", KHex8); (" bridge-misc=", "bridge_misc", KHex8)].
Definition SCANOUT_END : string := " i2c=active-serialized".

(** The dict a printed sample stands for. *)
Definition sample_dict (t : template) (v : string → Z) : dict := map (λ key, (key, v key)) (keys t).

(** The formats of a template agree with the set of hexadecimal keys. *)
Definition bases_ok (t : template) : bool :=
  forallb (λ e, Z.eqb (base_of e.2) (if decide (e.1.2 ∈ HEXADECIMAL) then 16 else 10)) t.

Lemma sample_of_caps t v m r :
  groups r = keys t → bases_ok t = true → NoDup (keys t) →
  m_caps m = template_caps t v [] → Forall (λ e, printable_as e.2 (v e.1.2)) t →
  sample_of r m = sample_dict t v.
Proof.
  intros Hg Hb Hnd Hm Hv. unfold sample_of, sample_dict. rewrite Hg. apply map_ext_in.
  intros key Hin. apply list_elem_of_In, list_elem_of_fmap in Hin as ([[text key'] k] & -> & Hin).
  cbn [fst snd]. f_equal. unfold group. rewrite Hm, (template_caps_key _ _ _ _ _ _ Hnd Hin).
  cbn [default from_option]. unfold bases_ok in Hb. rewrite forallb_forall in Hb.
  specialize (Hb _ (proj1 (list_elem_of_In _ _) Hin)). cbn [fst snd] in Hb. apply Z.eqb_eq in Hb.
  rewrite <- Hb. apply int_of_render. rewrite Forall_forall in Hv. by apply (Hv (text, key', k)).
Qed.

(** ** Reading back a log *)

(** A console log: diagnostics lines, scanout lines, each with or without a
    carriage return, and lines of other output. *)
Inductive entry :=
  | Diagnostics (v : string → Z) (crlf : bool)
  | Scanout (v : string → Z) (crlf : bool)
  | Text (s : string).

Definition entry_text (e : entry) : string :=
  match e with
  | Diagnostics v crlf =>
      template_print DIAGNOSTICS_TEMPLATE DIAGNOSTICS_END v +:+ if crlf then cr else ""
  | Scanout v crlf => template_print SCANOUT_TEMPLATE SCANOUT_END v +:+ if crlf then cr else ""
  | Text s => s
  end.

Definition log_of (log : list entry) : string := str_join nl (map entry_text log).

Definition prints (t : template) (v : string → Z) : Prop :=
  Forall (λ e, printable_as e.2 (v e.1.2)) t.

(** Samples print their values; other lines are no telemetry. *)
Definition entry_ok (e : entry) : Prop :=
  match e with
  | Diagnostics v _ => prints DIAGNOSTICS_TEMPLATE v
  | Scanout v _ => prints SCANOUT_TEMPLATE v
  | Text s => no_nl s = true ∧ diagnostics_samples s = [] ∧ scanout_samples s = []
  end.

Definition diagnostics_entries (log : list entry) : list dict :=
  omap (λ e, match e with Diagnostics v _ => Some (sample_dict DIAGNOSTICS_TEMPLATE v) | _ => None end) log.
Definition scanout_entries (log : list entry) : list dict :=
  omap (λ e, match e with Scanout v _ => Some (sample_dict SCANOUT_TEMPLATE v) | _ => None end) log.

Lemma map_nil_inv {A B} (f : A → B) l : map f l = [] → l = [].
Proof. by destruct l. Qed.

(** The samples of a scanned log are the dicts of its printed samples. *)
Lemma samples_of_scan t r (ms : list mtch) (items : list log_line) :
  groups r = keys t → bases_ok t = true → NoDup (keys t) →
  Forall (λ i, match i with Sample v _ => prints t v | Other _ => True end) items →
  map m_caps ms = omap (λ i, match i with Sample v _ => Some (template_caps t v []) | Other _ => None end)
    items →
  map (sample_of r) ms
  = omap (λ i, match i with Sample v _ => Some (sample_dict t v) | Other _ => None end) items.
Proof.
  intros Hg Hb Hnd Hv. revert ms. induction Hv as [|i items Hi Hv IH]; intros ms Hms.
  - by apply map_nil_inv in Hms as ->.
  - destruct i as [v crlf|text]; cbn [omap list_omap] in *; [|by apply IH].
    destruct ms as [|m ms]; [done|]. cbn [map] in *. injection Hms as Hm Hms.
    rewrite (sample_of_caps t v m r Hg Hb Hnd Hm Hi). f_equal. by apply IH.
Qed.

Definition diag_item (e : entry) : log_line :=
  match e with Diagnostics v crlf => Sample v crlf | e => Other (entry_text e) end.
Definition scan_item (e : entry) : log_line :=
  match e with Scanout v crlf => Sample v crlf | e => Other (entry_text e) end.

Lemma omap_map {A B C} (f : B → option C) (g : A → B) l : omap f (map g l) = omap (λ x, f (g x)) l.
Proof. induction l as [|x l IH]; [done|]. cbn. by rewrite IH. Qed.

Lemma omap_ext {A B} (f g : A → option B) (l : list A) : (∀ x, f x = g x) → omap f l = omap g l.
Proof. intros H. induction l as [|x l IH]; [done|]. cbn. by rewrite H, IH. Qed.

(** A line that starts with another character is not matched. *)
Lemma other_line a s0 key k t fin c s :
  c ≠ a → no_nl (String c s) = true →
  texts_no_nl ((String a s0, key, k) :: t) fin = true →
  finditer (Seq Bol (template_re ((String a s0, key, k) :: t) fin)) (String c s) = [].
Proof.
  intros Hc Hn Ht. apply (map_nil_inv m_caps). rewrite scan_lines by done.
  assert (split_nl (String c s) = [String c s]) as ->
    by (apply (split_nl_of_lines [String c s]); [done | by constructor]).
  cbn [omap list_omap]. unfold line_caps, match_at. cbn [template_re matches when after_newline prev flat_map
    fst snd lit rest]. by rewrite decide_False.
Qed.

(** One parser on a log whose lines are samples of its template, or others. *)
Lemma read_back a s0 key k t fin r (T := (String a s0, key, k) :: t) (item : entry → log_line) log :
  r = Seq Bol (template_re T fin) → groups r = keys T → bases_ok T = true → NoDup (keys T) →
  texts_no_nl T fin = true → separated T fin = true →
  (∀ e, line_text a s0 key k t fin (item e) = entry_text e) →
  Forall (λ e, line_ok a s0 key k t fin (item e)) log →
  map (sample_of r) (finditer r (log_of log))
  = omap (λ e, match item e with Sample v _ => Some (sample_dict T v) | Other _ => None end) log.
Proof.
  intros -> Hg Hb Hnd Ht Hs Htext Hok.
  rewrite (samples_of_scan T _ _ (map item log)); [by rewrite omap_map | done..| |].
  - apply Forall_map. eapply Forall_impl; [exact Hok|]. intros e. cbn beta.
    destruct (item e); [intros H; exact H | done].
  - rewrite <- (scan_log a s0 key k t fin Ht Hs); [|apply Forall_map; exact Hok]. unfold log_text, log_of.
    rewrite map_map. by rewrite (map_ext _ _ Htext).
Qed.

Lemma entry_no_nl e : entry_ok e → no_nl (entry_text e) = true.
Proof.
  destruct e as [v crlf|v crlf|s]; cbn [entry_ok entry_text]; [| |by intros []];
    intros Hv; by apply template_no_nl.
Qed.

(** C13: telemetry reads back.  In a console log of diagnostics lines, scanout
    lines and other output, in any order and with either line ending, the two
    parsers find exactly the printed samples, in order, with the printed
    values. *)
Theorem telemetry_round_trip log :
  Forall entry_ok log →
  diagnostics_samples (log_of log) = diagnostics_entries log
  ∧ scanout_samples (log_of log) = scanout_entries log.
Proof.
  intros Hok. split.
  - unfold diagnostics_samples.
    rewrite (read_back "a" "bi=3 state=RUNTIME_REVEALED frames=" "frames" KDec
      (drop 1 DIAGNOSTICS_TEMPLATE) DIAGNOSTICS_END _ diag_item);
      [|reflexivity | reflexivity | reflexivity | by_decide | reflexivity | reflexivity | by intros [] |].
    + apply omap_ext. by intros [].
    + eapply Forall_impl; [exact Hok|]. intros [v crlf|v crlf|s] He; cbn [diag_item line_ok].
      * exact He.
      * pose proof (entry_no_nl _ He) as Hn. split; [exact Hn|].
        apply (other_line "a" _ _ _ _ _ "r"); [done | exact Hn | reflexivity].
      * destruct He as (Hn & Hd & _). split; [done|]. by apply map_nil_inv in Hd.
  - unfold scanout_samples.
    rewrite (read_back "r" "unning abi=3 state=RUNTIME_REVEALED frames=" "before" KDec
      (drop 1 SCANOUT_TEMPLATE) SCANOUT_END _ scan_item);
      [|reflexivity | reflexivity | reflexivity | by_decide | reflexivity | reflexivity | by intros [] |].
    + apply omap_ext. by intros [].
    + eapply Forall_impl; [exact Hok|]. intros [v crlf|v crlf|s] He; cbn [scan_item line_ok].
      * pose proof (entry_no_nl _ He) as Hn. split; [exact Hn|].
        apply (other_line "r" _ _ _ _ _ "a"); [done | exact Hn | reflexivity].
      * exact He.
      * destruct He as (Hn & _ & Hd). split; [done|]. by apply map_nil_inv in Hd.
Qed.

(** ** Lookups in a sample

    A sample has an entry for every group of its expression, so a lookup of one of them
    raises no [KeyError], and [dget] is the entry. *)

Lemma sample_getitem r m k : k ∈ groups r → getitem (sample_of r m) k = Ok (dget (sample_of r m) k).
Proof.
  intros Hk. unfold getitem, dget. assert (∃ v, dict_lookup k (sample_of r m) = Some v) as [v ->]; [|done].
  unfold sample_of. induction (groups r) as [|g gs IH]; [by apply elem_of_nil in Hk|]. cbn.
  case_decide as E; [by eexists|]. apply elem_of_cons in Hk as [?|Hk]; [done|by apply IH].
Qed.

(** The keys that the checks look up, with those that the gate prints. *)
Definition SCANOUT_KEYS : list string :=
  ["before"; "after"; "error"; "underruns"; "chen"; "faults"; "host0"; "host1"; "guard_errors"; "buffers"; "front";
   "queued"; "back"; "rearms"; "rearm_failures"; "arm_to_irq_over20ms"; "rearm_max"; "fifo_poll_zero"; "bridge_filler";
   "bridge_misc"; "flip_requests"; "flip_completions"; "generation"; "commit"] ++ SCANOUT_COUNTERS.
Definition DIAGNOSTICS_KEYS : list string :=
  ["faults"; "error"; "host0"; "host1"; "underruns"; "rearm_failures"; "guard_errors"; "buffers"; "front"; "queued";
   "back"; "frames"; "generation"; "rearms"; "commit"; "arm_to_irq_over20ms"; "rearm_max"; "fifo_poll_zero";
   "bridge_filler"; "bridge_misc"; "flip_requests"; "flip_completions"] ++ DIAGNOSTICS_COUNTERS ++ PHASE_COUNTERS.

Lemma scanout_lookups text d k : d ∈ scanout_samples text → k ∈ SCANOUT_KEYS → getitem d k = Ok (dget d k).
Proof.
  intros (m & -> & _)%list_elem_of_fmap Hk. apply sample_getitem. revert k Hk. rewrite <- Forall_forall.
  apply (bool_decide_eq_true _). by_compute.
Qed.

Lemma diagnostics_lookups text d k : d ∈ diagnostics_samples text → k ∈ DIAGNOSTICS_KEYS → getitem d k = Ok (dget d k).
Proof.
  intros (m & -> & _)%list_elem_of_fmap Hk. apply sample_getitem. revert k Hk. rewrite <- Forall_forall.
  apply (bool_decide_eq_true _). by_compute.
Qed.

(** ** What a passing log guarantees *)

Lemma or_else_none a b : (a ;? b) = None ↔ a = None ∧ b = None.
Proof. destruct a; simpl; split; [done | by intros [] | done | by intros []]. Qed.

Lemma problem_if_none (P : Prop) `{Decision P} text : problem_if P text = None ↔ ¬ P.
Proof. unfold problem_if. by case_decide. Qed.

Lemma first_of_none {A} (f : A → option string) l :
  first_of f l = None ↔ Forall (λ x, f x = None) l.
Proof.
  induction l as [|x l IH]; simpl; [by split|]. by rewrite or_else_none, Forall_cons, IH.
Qed.

(** Splits an absent problem into the conditions that hold. *)
Ltac inv_none :=
  repeat match goal with
  | H : (_ ;? _) = None |- _ => apply or_else_none in H as [? H]
  | H : problem_if _ _ = None |- _ => rewrite problem_if_none in H
  end.

(** Front, queued and back buffers: distinct members of the three. *)
Definition roles_ok (front queued back : Z) : Prop :=
  0 ≤ front < 3 ∧ 0 ≤ back < 3 ∧ front ≠ back
  ∧ (queued = -1 ∨ (0 ≤ queued < 3 ∧ queued ≠ front ∧ queued ≠ back)).

Lemma role_problem_none prefix front queued back :
  role_problem prefix front queued back = None ↔ roles_ok front queued back.
Proof. unfold role_problem, roles_ok. rewrite or_else_none, !problem_if_none. lia. Qed.

(** What both telemetry lines say of a healthy display. *)
Record healthy (d : dict) : Prop := {
  he_errors : Forall (λ k, dget d k = 0)
    ["error"; "underruns"; "faults"; "host0"; "host1"; "guard_errors"; "rearm_failures";
     "arm_to_irq_over20ms"; "fifo_poll_zero"; "bridge_filler"];
  he_buffers : dget d "buffers" = 3;
  he_roles : roles_ok (dget d "front") (dget d "queued") (dget d "back");
  he_alive : Forall (λ k, 1 ≤ dget d k) ["rearms"; "generation"; "commit"];
  he_latency : dget d "rearm_max" < MAX_REARM_NS;
  he_bridge : dget d "bridge_misc" = 0x00003201;
  he_flips : dget d "flip_completions" ≤ dget d "flip_requests" }.

Lemma not_or (P Q : Prop) : ¬ (P ∨ Q) ↔ ¬ P ∧ ¬ Q.
Proof. tauto. Qed.

Lemma not_ne (x y : Z) : ¬ (x ≠ y) ↔ x = y.
Proof. lia. Qed.

Lemma not_lt' (x y : Z) : ¬ (x < y) ↔ y ≤ x.
Proof. lia. Qed.

Lemma not_le' (x y : Z) : ¬ (x ≤ y) ↔ y < x.
Proof. lia. Qed.

Lemma or_else_iff a b (A B : Prop) :
  (a = None ↔ A) → (b = None ↔ B) → (a ;? b) = None ↔ A ∧ B.
Proof. intros HA HB. rewrite or_else_none. tauto. Qed.

Lemma not_or_iff (P Q A B : Prop) : (¬ P ↔ A) → (¬ Q ↔ B) → ¬ (P ∨ Q) ↔ A ∧ B.
Proof. tauto. Qed.

Lemma problem_if_iff (P A : Prop) `{Decision P} text : (¬ P ↔ A) → problem_if P text = None ↔ A.
Proof. intros HA. by rewrite problem_if_none. Qed.

(** Reads the absent problems of a sample as equations and inequations. *)
Ltac sample_conditions :=
  etransitivity;
  [repeat first [apply role_problem_none | apply or_else_iff | apply problem_if_iff
                | apply not_or_iff | apply not_ne | apply not_lt' | apply not_le']|].

Lemma healthy_unfold d :
  healthy d ↔
  (dget d "error" = 0 ∧ dget d "underruns" = 0 ∧ dget d "faults" = 0 ∧ dget d "host0" = 0
   ∧ dget d "host1" = 0 ∧ dget d "guard_errors" = 0 ∧ dget d "rearm_failures" = 0
   ∧ dget d "arm_to_irq_over20ms" = 0 ∧ dget d "fifo_poll_zero" = 0
   ∧ dget d "bridge_filler" = 0)
  ∧ dget d "buffers" = 3 ∧ roles_ok (dget d "front") (dget d "queued") (dget d "back")
  ∧ (1 ≤ dget d "rearms" ∧ 1 ≤ dget d "generation" ∧ 1 ≤ dget d "commit")
  ∧ dget d "rearm_max" < MAX_REARM_NS ∧ dget d "bridge_misc" = 0x00003201
  ∧ dget d "flip_completions" ≤ dget d "flip_requests".
Proof.
  split.
  - intros [He Hb Hr Ha Hl Hm Hf]. rewrite !(Forall_cons (λ k, dget d k = 0)) in He.
    rewrite !(Forall_cons (λ k, 1 ≤ dget d k)) in Ha. tauto.
  - intros ((? & ? & ? & ? & ? & ? & ? & ? & ? & ?) & ? & ? & (? & ? & ?) & ? & ? & ?).
    constructor; try assumption; repeat (constructor; [assumption|]); constructor.
Qed.

Lemma diagnostics_sample_none d :
  diagnostics_sample_problem d = None ↔ healthy d ∧ 1 ≤ dget d "frames".
Proof. unfold diagnostics_sample_problem. rewrite healthy_unfold. sample_conditions. tauto. Qed.

Lemma scanout_sample_none d :
  scanout_sample_problem d = None ↔
  healthy d ∧ dget d "before" < dget d "after" ∧ dget d "chen" = 1.
Proof. unfold scanout_sample_problem. rewrite healthy_unfold. sample_conditions. tauto. Qed.

(** Counters that never go back along a log. *)
Definition nondecreasing (counters : list string) (samples : list dict) : Prop :=
  ∀ i j d e k, (i ≤ j)%nat → samples !! i = Some d → samples !! j = Some e → k ∈ counters →
    dget d k ≤ dget e k.

Lemma regressed_none prefix counters p v :
  regressed prefix counters p v = None ↔ ∀ k, k ∈ counters → dget p k ≤ dget v k.
Proof.
  unfold regressed. rewrite first_of_none, Forall_forall.
  setoid_rewrite problem_if_none. setoid_rewrite not_lt'. done.
Qed.

Lemma samples_problem_none alone prefix counters previous samples :
  samples_problem alone (regressed prefix counters) previous samples = None ↔
  Forall (λ d, alone d = None) samples
  ∧ nondecreasing counters (option_list previous ++ samples).
Proof.
  revert previous. induction samples as [|v samples IH]; intros previous; simpl.
  - split; [intros _; split; [done|] | done].
    intros i j d e k Hij Hd He. destruct previous as [p|]; simpl in *; [|done].
    destruct i, j; simpl in *; simplify_eq; done || lia.
  - rewrite !or_else_none, IH, Forall_cons. simpl. destruct previous as [p|]; simpl.
    + rewrite regressed_none. split.
      * intros (H1 & H2 & H3 & H4). split; [done|]. intros i j d e k Hij Hd He Hk.
        destruct i as [|i]; simpl in Hd; [|destruct j as [|j]; simpl in He; [lia|]].
        -- injection Hd as <-. destruct j as [|j]; simpl in He; [by injection He as <-|].
           transitivity (dget v k); [by apply H2|].
           apply (H4 0%nat j); [lia | done | done | done].
        -- apply (H4 i j); [lia | done..].
      * intros [[H1 H2] H3]. split_and!; try done.
        -- intros k Hk. apply (H3 0%nat 1%nat); [lia | done..].
        -- intros i j d e k Hij Hd He. apply (H3 (S i) (S j)); [lia | done..].
    + tauto.
Qed.

(** The samples advanced: each counter is larger at the end than at the start. *)
Definition advanced (samples : list dict) (ks : list string) : Prop :=
  (2 ≤ length samples)%nat
  ∧ Forall (λ k, dget (first_sample samples) k < dget (last_sample samples) k) ks.

Lemma not_advanced_spec samples ks : ¬ not_advanced samples ks ↔ advanced samples ks.
Proof.
  unfold not_advanced, advanced. rewrite not_or, <- Forall_Exists_neg.
  split; intros [H1 H2]; (split; [lia|]); eapply Forall_impl; try exact H2; simpl; lia.
Qed.

(** A run of samples that fulfils the contract. *)
Record contract (good : dict → Prop) (counters : list string) (progress : string)
    (samples : list dict) (minimum : nat) (flip prog : bool) : Prop := {
  ct_count : (minimum ≤ length samples)%nat;
  ct_good : Forall good samples;
  ct_counters : nondecreasing counters samples;
  ct_flip : flip = true → advanced samples ["flip_completions"; "commit"];
  ct_progress : prog = true → advanced samples [progress] }.

Lemma contract_problem_none prefix alone good counters progress samples minimum flip prog :
  (∀ d, alone d = None ↔ good d) →
  contract_problem prefix alone counters progress samples minimum flip prog = None ↔
  contract good counters progress samples minimum flip prog.
Proof.
  intros Hg. unfold contract_problem.
  rewrite !or_else_none, !problem_if_none, samples_problem_none. simpl.
  assert (Forall (λ d, alone d = None) samples ↔ Forall good samples) as ->.
  { apply Forall_iff. exact Hg. }
  split.
  - intros (H1 & [H2 H3] & H4 & H5). constructor; [lia | done | done | |];
      intros E; apply not_advanced_spec; intros Hn; [by apply H4 | by apply H5].
  - intros [H1 H2 H3 H4 H5]. split_and!; [lia | done | done | |];
      intros [E Hn]; revert Hn; apply not_advanced_spec; [by apply H4 | by apply H5].
Qed.

Lemma failure_marker_none output :
  failure_marker output = None ↔ Forall (λ m, contains m output = false) FAILURE_MARKERS.
Proof.
  unfold failure_marker. destruct (list_find _ _) as [[i m]|] eqn:E; simpl.
  - split; [done|]. intros H. apply list_find_Some in E as (Hl & Hm & _).
    rewrite Forall_forall in H. apply list_elem_of_lookup_2 in Hl. apply H in Hl. congruence.
  - split; [|done]. intros _. apply list_find_None in E.
    eapply Forall_impl; [exact E|]. intros m. simpl. by destruct (contains m output).
Qed.

Lemma terminal_failure_none output :
  terminal_failure output = None ↔ Forall (λ m, contains m output = false) FAILURE_MARKERS.
Proof.
  rewrite <- failure_marker_none. unfold terminal_failure. by destruct (failure_marker output).
Qed.

(** The health verdict in terms of the samples of the two parsers. *)
Definition display_ok (diagnostics scanouts : list dict) (minimum : nat) (flip prog : bool) : Prop :=
  contract (λ d, healthy d ∧ 1 ≤ dget d "frames") DIAGNOSTICS_COUNTERS "frames"
    diagnostics minimum flip prog
  ∧ contract (λ d, healthy d ∧ dget d "before" < dget d "after" ∧ dget d "chen" = 1)
      SCANOUT_COUNTERS "after" scanouts minimum flip prog.

Lemma display_health_none output minimum flip prog :
  display_health_problem output minimum flip prog = None ↔
  Forall (λ m, contains m output = false) FAILURE_MARKERS
  ∧ display_ok (diagnostics_samples output) (scanout_samples output) minimum flip prog.
Proof.
  unfold display_health_problem, display_ok, diagnostics_contract_problem, scanout_contract_problem.
  rewrite !or_else_none, terminal_failure_none.
  rewrite (contract_problem_none _ _ _ _ _ _ _ _ _ diagnostics_sample_none).
  by rewrite (contract_problem_none _ _ _ _ _ _ _ _ _ scanout_sample_none).
Qed.

(** C14: the health verdict is right.  [display_health_problem] reports nothing
    exactly when the log has no failure marker, each parser found at least the
    minimum of samples, every sample is healthy (zero error counters, three
    buffers in distinct roles, bounded rearm latency, expected bridge state),
    no counter ever goes back between any two samples, and the required flips
    and frame progress show between the first and the last one. *)
Theorem health_verdict_iff output minimum flip prog :
  display_health_problem output minimum flip prog = None ↔
  Forall (λ m, contains m output = false) FAILURE_MARKERS
  ∧ display_ok (diagnostics_samples output) (scanout_samples output) minimum flip prog.
Proof. apply display_health_none. Qed.

(** ** The boot contract *)

(** [m] occurs in [log] at offset [p]. *)
Definition occurs_at (log m : string) (p : nat) : Prop :=
  (p ≤ String.length log)%nat ∧ startswith m (str_drop p log) = true.

(** The markers occur in order at strictly increasing offsets from [start] on. *)
Inductive placed (log : string) : nat → list string → Prop :=
  | placed_nil start : placed log start []
  | placed_cons start p m ms :
      (start ≤ p)%nat → occurs_at log m p → placed log (S p) ms → placed log start (m :: ms).

Lemma placed_mono log start start' ms :
  (start' ≤ start)%nat → placed log start ms → placed log start' ms.
Proof.
  intros H. inversion 1 as [|? p]; subst; [constructor|]. apply (placed_cons _ _ p); [lia | done..].
Qed.

Lemma find_at_spec m s i :
  match find_at m s i with
  | Some p => (i ≤ p ≤ i + String.length s)%nat ∧ startswith m (str_drop (p - i) s) = true
              ∧ ∀ q, (q < p - i)%nat → startswith m (str_drop q s) = false
  | None => ∀ q, (q ≤ String.length s)%nat → startswith m (str_drop q s) = false
  end.
Proof.
  revert i. induction s as [|c s IH]; intros i; cbn [find_at].
  - destruct (startswith m "") eqn:E.
    + rewrite Nat.sub_diag. split; [simpl; lia|]. split; [exact E | intros q Hq; lia].
    + intros q Hq. simpl in Hq. by replace q with 0%nat by lia.
  - destruct (startswith m (String c s)) eqn:E.
    + rewrite Nat.sub_diag. split; [simpl; lia|]. split; [exact E | intros q Hq; lia].
    + specialize (IH (S i)). destruct (find_at m s (S i)) as [p|].
      * destruct IH as (H1 & H2 & H3). replace (p - i)%nat with (S (p - S i)) by lia.
        split; [simpl; lia|]. split; [done|]. intros [|q] Hq; [done|]. apply H3. lia.
      * intros [|q] Hq; [done|]. apply IH. simpl in Hq. lia.
Qed.

Lemma str_drop_drop a b s : str_drop a (str_drop b s) = str_drop (b + a) s.
Proof.
  revert s. induction b as [|b IH]; intros s; [done|]. destruct s as [|c s]; [by destruct a|]. apply IH.
Qed.

Lemma str_drop_length n s : String.length (str_drop n s) = (String.length s - n)%nat.
Proof. revert s. induction n as [|n IH]; intros [|c s]; simpl; auto. Qed.

Lemma str_find_spec m log start :
  match str_find m log start with
  | Some p => (start ≤ p)%nat ∧ occurs_at log m p ∧ ∀ q, (start ≤ q)%nat → occurs_at log m q → (p ≤ q)%nat
  | None => ∀ q, (start ≤ q)%nat → ¬ occurs_at log m q
  end.
Proof.
  unfold str_find. case_decide as Hs; [|intros q Hq [Hl _]; lia].
  pose proof (find_at_spec m (str_drop start log) start) as H. unfold occurs_at.
  destruct (find_at m _ start) as [p|]; rewrite str_drop_length in H.
  - destruct H as (H1 & H2 & H3). rewrite str_drop_drop in H2.
    replace (start + (p - start))%nat with p in H2 by lia. split_and!; [lia | lia | done |].
    intros q Hq [Hl Ho]. destruct (decide (p ≤ q)%nat); [done|]. exfalso.
    specialize (H3 (q - start)%nat ltac:(lia)). rewrite str_drop_drop in H3.
    replace (start + (q - start))%nat with q in H3 by lia. congruence.
  - intros q Hq [Hl Ho]. specialize (H (q - start)%nat ltac:(lia)). rewrite str_drop_drop in H.
    replace (start + (q - start))%nat with q in H by lia. congruence.
Qed.

(** Taking the first occurrence each time is as good as any choice. *)
Lemma ordered_problem_none log start ms : ordered_problem log start ms = None ↔ placed log start ms.
Proof.
  revert start. induction ms as [|m ms IH]; intros start; cbn [ordered_problem].
  - split; [constructor | done].
  - pose proof (str_find_spec m log start) as Hf.
    destruct (str_find m log start) as [p|].
    + destruct Hf as (H1 & H2 & H3). rewrite IH. split; [intros; by econstructor|].
      inversion 1 as [|? q ? ? Hq Ho Hp]; subst. eapply placed_mono; [|exact Hp].
      specialize (H3 q Hq Ho). lia.
    + split; [done|]. inversion 1 as [|? q ? ? Hq Ho Hp]; subst. by destruct (Hf q Hq).
Qed.

Lemma boot_contract_none log :
  boot_contract_problem log = None ↔
  Forall (λ m, contains m log = false) FAILURE_MARKERS
  ∧ contains "Linux version 6.12.27" log = true
  ∧ placed log 0 ORDERED_MARKERS
  ∧ Forall (λ f, contains f log = true) REQUIRED_FRAGMENTS.
Proof.
  unfold boot_contract_problem.
  rewrite !or_else_none, terminal_failure_none, problem_if_none, ordered_problem_none, first_of_none,
    not_false_iff_true.
  assert (∀ l, Forall (λ f, problem_if (contains f log = false) ("boot-contract-fragment-" +:+ word 0 f)
    = None) l ↔ Forall (λ f, contains f log = true) l) as ->; [|done].
  intros l. apply Forall_iff. intros f. by rewrite problem_if_none, not_false_iff_true.
Qed.

(** C16: the boot contract.  [boot_contract_problem] reports nothing exactly when
    the log has no failure marker, names the kernel version, contains every
    required fragment, and the bring-up markers can be found in order, each
    after the previous one. *)
Theorem boot_contract_iff log :
  boot_contract_problem log = None ↔
  Forall (λ m, contains m log = false) FAILURE_MARKERS
  ∧ contains "Linux version 6.12.27" log = true
  ∧ placed log 0 ORDERED_MARKERS
  ∧ Forall (λ f, contains f log = true) REQUIRED_FRAGMENTS.
Proof. apply boot_contract_none. Qed.

(** ** Framebuffer signatures *)

Lemma fb_collect_ok output phases hashes :
  fb_collect output phases = inl hashes ↔
  map fst hashes = phases
  ∧ Forall (λ h, fb_hashes output h.1 = [h.2] ∧ h.2 ≠ EMPTY_SHA256) hashes.
Proof.
  revert hashes. induction phases as [|phase phases IH]; intros hashes; cbn [fb_collect].
  - split; [by intros [= <-]|]. intros [Hm _]. by apply map_nil_inv in Hm as ->.
  - split.
    + destruct (fb_hashes output phase) as [|h [|h' l]] eqn:E; [done| |done].
      case_decide; [done|]. destruct (fb_collect output phases) as [hs|] eqn:Ec; [|done].
      intros [= <-]. destruct (proj1 (IH hs) eq_refl) as [Hm Hf]. simpl.
      split; [by f_equal | by constructor].
    + destruct hashes as [|[ph h] hs]; [by intros []|]. simpl.
      intros [[= -> Hm] [[Hh He] Hf]%Forall_cons]. simpl in *. rewrite Hh.
      rewrite decide_False by done. by rewrite (proj2 (IH hs) (conj Hm Hf)).
Qed.

Lemma framebuffer_none output phases :
  phases ≠ [] →
  framebuffer_hash_problem output phases = Ok None ↔
  ∃ h, h ≠ EMPTY_SHA256 ∧ ∀ phase, phase ∈ phases → fb_hashes output phase = [h].
Proof.
  intros Hne. unfold framebuffer_hash_problem.
  destruct (fb_collect output phases) as [hashes|e] eqn:E.
  - apply fb_collect_ok in E as [<- Hf]. destruct hashes as [|[p0 h0] hs]; [done|].
    apply Forall_cons in Hf as [[H0 He] Hf]. simpl in H0, He. split.
    + intros [= H]. rewrite first_of_none in H. exists h0. split; [done|].
      intros phase. simpl. intros [->|Hin]%elem_of_cons; [done|].
      apply list_elem_of_fmap in Hin as ([p h] & -> & Hin). simpl.
      rewrite Forall_forall in H, Hf. specialize (H _ Hin). rewrite problem_if_none in H.
      apply dec_stable in H. simpl in H. subst. by apply (Hf _ Hin).
    + intros (h & Hh & Hall). f_equal. apply first_of_none, Forall_forall. intros [p h'] Hin.
      rewrite problem_if_none. simpl. intros Hn. apply Hn.
      rewrite Forall_forall in Hf. destruct (Hf _ Hin) as [Hp _]. simpl in Hp.
      rewrite (Hall p) in Hp by (simpl; right; by apply (list_elem_of_fmap_2 fst _ _ Hin)).
      rewrite (Hall p0) in H0 by (simpl; left). congruence.
  - split; [done|]. intros (h & Hh & Hall). exfalso.
    assert (fb_collect output phases = inl (map (λ p, (p, h)) phases)) as E'; [|congruence].
    apply fb_collect_ok. rewrite map_map. simpl. split; [apply map_id|].
    apply Forall_map, Forall_forall. intros p Hp. simpl. by rewrite Hall.
Qed.

(** unchanged framebuffer.  For a non-empty list of phases the check
    reports nothing exactly when there is one signature that is the only one
    logged for every phase and is not the digest of empty data. *)
Theorem framebuffer_unchanged_iff output phases :
  phases ≠ [] →
  framebuffer_hash_problem output phases = Ok None ↔
  ∃ h, h ≠ EMPTY_SHA256 ∧ ∀ phase, phase ∈ phases → fb_hashes output phase = [h].
Proof. apply framebuffer_none. Qed.

(** ** Phases *)

Lemma phase_samples_ok gs ps :
  phase_samples gs = inl ps ↔
  gs = map (λ x, (x.1, [x.2])) ps ∧ Forall (λ x, dget x.2 "fifo_poll_zero" = 0) ps.
Proof.
  revert ps. induction gs as [|[phase samples] gs IH]; intros ps; cbn [phase_samples].
  - split; [by intros [= <-]|]. intros [Hm _]. symmetry in Hm. by apply map_nil_inv in Hm as ->.
  - split.
    + destruct samples as [|sample [|? ?]]; [done| |done]. case_decide as Hz; [done|].
      destruct (phase_samples gs) as [ps'|] eqn:E; [|done]. intros [= <-].
      destruct (proj1 (IH ps') eq_refl) as [-> Hf]. split; [done|].
      by constructor.
    + destruct ps as [|[p s] ps]; [by intros []|]. simpl.
      intros [[= -> -> ->] [Hz Hf]%Forall_cons]. simpl in Hz.
      rewrite decide_False by (intros []; done). by rewrite (proj2 (IH ps) (conj eq_refl Hf)).
Qed.

Lemma phase_step_none x y :
  phase_step_problem x y = None ↔
  dget x.2 "arm_to_irq_over20ms" = dget y.2 "arm_to_irq_over20ms"
  ∧ dget x.2 "fifo_irq_zero" ≤ dget y.2 "fifo_irq_zero"
  ∧ dget x.2 "fifo_poll_zero" ≤ dget y.2 "fifo_poll_zero".
Proof.
  unfold phase_step_problem, PHASE_COUNTERS. cbn [first_of].
  rewrite !or_else_none, !problem_if_none. split.
  - intros ((H1 & H2 & H3 & _) & H4). lia.
  - intros (H1 & H2 & H3). split_and!; [lia..|done|lia].
Qed.

Lemma phase_steps_none ps :
  Forall (λ x, dget x.2 "fifo_poll_zero" = 0) ps →
  phase_steps ps = None ↔
  (∀ i j x y, (i ≤ j)%nat → ps !! i = Some x → ps !! j = Some y →
     dget x.2 "arm_to_irq_over20ms" = dget y.2 "arm_to_irq_over20ms"
     ∧ dget x.2 "fifo_irq_zero" ≤ dget y.2 "fifo_irq_zero").
Proof.
  induction 1 as [|x ps Hx Hps IH]; [by split|].
  destruct ps as [|y ps].
  - split; [|done]. intros _ i j a b Hij Ha Hb.
    destruct i, j; simpl in *; simplify_eq; lia.
  - change (phase_steps (x :: y :: ps)) with (phase_step_problem x y ;? phase_steps (y :: ps)).
    rewrite or_else_none, phase_step_none, IH. apply Forall_cons in Hps as [Hy _]. split.
    + intros [(H1 & H2 & _) H] i j a b Hij Ha Hb.
      destruct i as [|i]; simpl in Ha; [|destruct j as [|j]; [lia|]; apply (H i j); [lia | done..]].
      injection Ha as <-. destruct j as [|j]; simpl in Hb; [injection Hb as <-; lia|].
      destruct (H 0%nat j y b) as [H3 H4]; [lia | done | done|]. lia.
    + intros H. split; [|intros i j a b Hij; apply (H (S i) (S j)); lia].
      destruct (H 0%nat 1%nat x y) as [H1 H2]; [lia | done | done|]. lia.
Qed.

Lemma phase_problem_none output expected :
  diagnostics_phase_problem output expected = None ↔
  ∃ ps, diagnostics_phase_groups output = map (λ x, (x.1, [x.2])) ps
    ∧ map fst ps = expected
    ∧ Forall (λ x, dget x.2 "fifo_poll_zero" = 0 ∧ dget x.2 "arm_to_irq_over20ms" = 0) ps
    ∧ nondecreasing ["fifo_irq_zero"] (map snd ps).
Proof.
  unfold diagnostics_phase_problem. rewrite or_else_none, problem_if_none.
  set (gs := diagnostics_phase_groups output).
  assert (∀ ps : list (string * dict), map fst (map (λ x, (x.1, [x.2])) ps) = map fst ps) as Hfst
    by (intros; rewrite map_map; apply map_ext; by intros []).
  split.
  - intros [He%dec_stable H]. destruct (phase_samples gs) as [ps|] eqn:E; [|done].
    apply phase_samples_ok in E as [-> Hz]. exists ps. rewrite Hfst in He.
    apply or_else_none in H as [H0 H1]. rewrite (phase_steps_none _ Hz) in H1.
    split; [done|]. split; [done|].
    assert (∀ x, x ∈ ps → dget x.2 "arm_to_irq_over20ms" = 0) as Hall.
    { intros x [i Hi]%list_elem_of_lookup. destruct ps as [|[p s] ps]; [done|].
      rewrite problem_if_none in H0. apply dec_stable in H0.
      destruct (H1 0%nat i (p, s) x) as [H2 _]; [lia | done | done|]. simpl in H2. congruence. }
    split.
    + rewrite Forall_forall in Hz |- *. eauto.
    + intros i j d e k Hij Hd He' ->%list_elem_of_singleton.
      rewrite list_lookup_fmap in Hd, He'. apply fmap_Some in Hd as (x & Hx & ->).
      apply fmap_Some in He' as (y & Hy & ->). by apply (H1 i j).
  - intros (ps & Hgs & Hm & Hf & Hn).
    assert (phase_samples gs = inl ps) as E.
    { apply phase_samples_ok. split; [done|]. eapply Forall_impl; [exact Hf|]. by intros ? []. }
    rewrite E. subst gs. rewrite Hgs, Hfst. split; [by intros []|]. apply or_else_none. split.
    + destruct ps as [|[p s] ps]; [done|]. apply problem_if_none.
      apply Forall_cons in Hf as [[_ H] _]. simpl in H. by intros [].
    + apply phase_steps_none; [eapply Forall_impl; [exact Hf|]; by intros ? []|].
      intros i j x y Hij Hx Hy. rewrite Forall_forall in Hf.
      destruct (Hf x) as [_ ->]; [by eapply list_elem_of_lookup_2|].
      destruct (Hf y) as [_ ->]; [by eapply list_elem_of_lookup_2|]. split; [done|].
      apply (Hn i j); [done | by rewrite list_lookup_fmap, Hx | by rewrite list_lookup_fmap, Hy | left].
Qed.

(** C15: the phase verdict.  [diagnostics_phase_problem] reports nothing exactly
    when the phase markers are the expected ones in order, each is followed by
    one diagnostics sample, no sample ever saw a late interrupt or an empty
    FIFO poll, and the count of empty-FIFO interrupts never decreases. *)
Theorem phase_verdict_iff output expected :
  diagnostics_phase_problem output expected = None ↔
  ∃ ps, diagnostics_phase_groups output = map (λ x, (x.1, [x.2])) ps
    ∧ map fst ps = expected
    ∧ Forall (λ x, dget x.2 "fifo_poll_zero" = 0 ∧ dget x.2 "arm_to_irq_over20ms" = 0) ps
    ∧ nondecreasing ["fifo_irq_zero"] (map snd ps).
Proof. apply phase_problem_none. Qed.

(** ** A concrete log *)

Definition sample_values (frames : Z) (key : string) : Z :=
  if decide (key ∈ ["frames"; "after"; "rearms"; "generation"]) then frames
  else if decide (key ∈ ["before"; "commit"; "chen"; "back"]) then 1
  else if decide (key = "queued") then -1
  else if decide (key = "buffers") then 3
  else if decide (key = "bridge_misc") then 0x3201
  else 0.

Definition sample_log : list entry :=
  [Text "MICRONUX:M9:DIAGNOSTICS:BEFORE"; Diagnostics (sample_values 96) true;
   Scanout (sample_values 100) false].

#[local] Instance printable_as_dec k z : Decision (printable_as k z).
Proof. destruct k; simpl; apply _. Defined.

#[local] Instance entry_ok_dec e : Decision (entry_ok e).
Proof. destruct e; unfold entry_ok, prints; apply _. Defined.

Lemma telemetry_round_trip_witness :
  diagnostics_samples (log_of sample_log) = [sample_dict DIAGNOSTICS_TEMPLATE (sample_values 96)]
  ∧ scanout_samples (log_of sample_log) = [sample_dict SCANOUT_TEMPLATE (sample_values 100)].
Proof. apply (telemetry_round_trip sample_log). by_decide. Defined.

Definition sample_signature : string :=
  "MICRONUX:M9:FB-SHA256 phase=before sha256=00000000000000000000000000000000" +:+
  "0000000000000000000000000000000a" +:+ cr +:+ nl.

Lemma framebuffer_unchanged_witness :
  ∃ h, h ≠ EMPTY_SHA256 ∧ ∀ phase, phase ∈ ["before"] → fb_hashes sample_signature phase = [h].
Proof.
  apply (framebuffer_unchanged_iff sample_signature ["before"]); [discriminate|].
  vm_compute. reflexivity.
Defined.

Example healthy_log : display_health_problem (log_of sample_log) 1 false false = None.
Proof. by_compute. Qed.
