(* ===== verification/Payload.v ===== *)
(** * Boot payload: manifest packer, bFLT audit, boot-log verification

    Models scripts/m3-pack.py (the manifest the loader checks before it jumps),
    scripts/check-bflt-wx.py (user images split at a PMP boundary) and
    [verify_boot_payload] of scripts/m9-hardware-test.py (the log of a boot
    against the artifacts on disk).  File contents are inputs; a missing file
    is [None]. *)

From S2P Require Import Prelude PyBytes PyStr Sha256 Regex Telemetry.

Module M3Pack.

Definition MANIFEST_MAGIC : Z := 0x33584E4D.
Definition MANIFEST_ABI : Z := 1.
Definition MANIFEST_SIZE : Z := 128.
Definition MANIFEST_FLAG_DTB : Z := 1.
Definition KERNEL_LOAD_ADDRESS : Z := 0x48400000.
Definition COMMS_RESERVE_ADDRESS : Z := 0x49F00000.
Definition RISCV_IMAGE_MAGIC : bytes :=
  [Byte.x52; Byte.x49; Byte.x53; Byte.x43; Byte.x56; Byte.x00; Byte.x00; Byte.x00].
Definition FDT_MAGIC : bytes := [Byte.xd0; Byte.x0d; Byte.xfe; Byte.xed].

Definition value_error {A} (msg : string) : result A := Err (Exn ValueError msg).
Definition value_error_if (P : Prop) `{Decision P} (msg : string) : result unit :=
  raise_when P ValueError msg.

(** [read_image] on the bytes of the file. *)
Definition read_image (image : bytes) (max_memory_end : Z) : result (bytes * Z) :=
  value_error_if (length image < 64)%nat
    ("Linux Image is too short: " +:+ fmt_d (blen image) +:+ " bytes") ;;
  h ← Struct.unpack_from Struct.Little [8; 8]%nat image 8;
  let text_offset := nth 0 h 0 in
  let memory_size := nth 1 h 0 in
  value_error_if (slice 48 56 image ≠ RISCV_IMAGE_MAGIC)
    "Linux Image has no RISC-V Image header magic" ;;
  value_error_if (text_offset ≠ 0)
    ("NOMMU Image text offset must be zero, got " +:+ fmt_hash_x text_offset) ;;
  value_error_if (memory_size < blen image)
    ("Image memory span " +:+ fmt_hash_x memory_size +:+ " is smaller than file "
     +:+ fmt_hash_x (blen image)) ;;
  value_error_if (KERNEL_LOAD_ADDRESS + memory_size > max_memory_end)
    ("Image memory span ends at " +:+ fmt_hash_010x (KERNEL_LOAD_ADDRESS + memory_size) +:+
     ", past the configured boundary " +:+ fmt_hash_010x max_memory_end) ;;
  Ok (image, memory_size).

Definition read_dtb (dtb : bytes) : result bytes :=
  value_error_if (length dtb < 40 ∨ take 4 dtb ≠ FDT_MAGIC)%nat
    "input is not a flattened device tree" ;;
  h ← Struct.unpack_from Struct.Big [4]%nat dtb 4;
  let declared_size := nth 0 h 0 in
  value_error_if (declared_size ≠ blen dtb)
    ("DTB header size " +:+ fmt_d declared_size +:+ " does not match file size "
     +:+ fmt_d (blen dtb)) ;;
  Ok dtb.

Definition PREFIX : list nat := replicate 8 4%nat.

Definition make_manifest (image : bytes) (memory_size : Z) (dtb : bytes) : result bytes :=
  prefix ← Struct.pack Struct.Little PREFIX
    [MANIFEST_MAGIC; MANIFEST_ABI; MANIFEST_SIZE; MANIFEST_FLAG_DTB; KERNEL_LOAD_ADDRESS;
     blen image; memory_size; blen dtb];
  let payload := prefix ++ Sha256.digest image ++ Sha256.digest dtb ++ zeros (7 * 4) in
  raise_when (blen payload ≠ MANIFEST_SIZE - 4) AssertionError
    ("manifest payload is " +:+ fmt_d (blen payload) +:+ " bytes") ;;
  crc ← Struct.pack Struct.Little [4]%nat [crc32_u32 payload];
  Ok (payload ++ crc).

(** [main]: the manifest written to [output] and the printed line. *)
Definition main (image dtb : bytes) (output : string) (max_memory_end : Z) : result (bytes * string) :=
  im ← read_image image max_memory_end;
  let '(image, memory_size) := im in
  dtb ← read_dtb dtb;
  manifest ← make_manifest image memory_size dtb;
  Ok (manifest,
      "M3 payload: load=" +:+ fmt_hash_010x KERNEL_LOAD_ADDRESS +:+ " file=" +:+ fmt_d (blen image)
      +:+ " memory=" +:+ fmt_d memory_size +:+ " dtb=" +:+ fmt_d (blen dtb)
      +:+ " manifest=" +:+ output).

(** ** Theory *)

(** The 124 bytes the checksum covers, for sizes that fit. *)
Definition manifest_prefix (image : bytes) (memory_size : Z) (dtb : bytes) : list Z :=
  [MANIFEST_MAGIC; MANIFEST_ABI; MANIFEST_SIZE; MANIFEST_FLAG_DTB; KERNEL_LOAD_ADDRESS;
   blen image; memory_size; blen dtb].

Lemma make_manifest_ok image mem dtb p :
  Struct.pack Struct.Little PREFIX (manifest_prefix image mem dtb) = Ok p →
  let payload := p ++ Sha256.digest image ++ Sha256.digest dtb ++ zeros 28 in
  length payload = 124%nat
  ∧ make_manifest image mem dtb = Ok (payload ++ le_split 4 (crc32_u32 payload)).
Proof.
  intros Hp payload.
  assert (length payload = 124%nat) as Hl.
  { unfold payload. rewrite !length_app, !Sha256.digest_length, (Struct.pack_length _ _ _ _ Hp).
    reflexivity. }
  split; [done|]. unfold make_manifest. unfold manifest_prefix in Hp. rewrite Hp.
  cbn [mbind result_bind]. change (zeros (7 * 4)) with (zeros 28). fold payload.
  rewrite raise_when_false by (unfold blen; rewrite Hl; by intros []).
  assert (Struct.pack Struct.Little [4%nat] [crc32_u32 payload]
          = Ok (le_split 4 (crc32_u32 payload))) as ->; [|done].
  cbn [Struct.pack]. rewrite raise_when_false by (intros Hn; apply Hn, crc32_u32_fits).
  cbn [mbind result_bind Struct.enc_uint]. by rewrite app_nil_r.
Qed.

Lemma read_image_ok image e r :
  read_image image e = Ok r →
  ∃ mem, r = (image, mem) ∧ blen image ≤ mem ∧ KERNEL_LOAD_ADDRESS + mem ≤ e
    ∧ (64 ≤ length image)%nat.
Proof.
  unfold read_image, value_error_if, Struct.unpack_from. intros H. inv_ok.
  eexists. split; [reflexivity|]. lia.
Qed.

Lemma read_dtb_ok dtb d : read_dtb dtb = Ok d → d = dtb ∧ 0 ≤ blen dtb < 2 ^ 32.
Proof.
  unfold read_dtb, value_error_if, Struct.unpack_from. rewrite raise_when_ok. intros [Hl H].
  apply bind_ok_inv in H as (h & Hh & H). rewrite raise_when_ok in Hh. destruct Hh as [_ [= <-]].
  rewrite raise_when_ok in H. destruct H as [Hd [= <-]]. split; [done|].
  split; [unfold blen; lia|]. apply dec_stable in Hd. rewrite <- Hd.
  pose proof (Struct.dec_uint_fits Struct.Big (take 4 (drop 4 dtb)) 4) as Hf.
  apply Hf. rewrite length_take, length_drop. lia.
Qed.

(** C17: a packed payload carries everything the loader checks.  When the inputs
    are accepted under a memory ceiling of at most 4 GiB above the load
    address, a manifest of 128 bytes is written; its eight leading words
    are the magic, ABI, size, flag, load address and the three sizes, the two
    SHA-256 digests follow, and its last word is the CRC-32 of the rest. *)
Theorem manifest_complete image dtb output ceiling im d :
  ceiling ≤ KERNEL_LOAD_ADDRESS + 2 ^ 32 - 1 →
  read_image image ceiling = Ok im → read_dtb dtb = Ok d →
  ∃ m line, main image dtb output ceiling = Ok (m, line)
    ∧ length m = 128%nat
    ∧ Struct.fields Struct.Little PREFIX m
      = [MANIFEST_MAGIC; MANIFEST_ABI; MANIFEST_SIZE; MANIFEST_FLAG_DTB; KERNEL_LOAD_ADDRESS;
         blen image; im.2; blen dtb]
    ∧ slice 32 64 m = Sha256.digest image ∧ slice 64 96 m = Sha256.digest dtb
    ∧ le_combine (drop 124 m) = crc32_u32 (take 124 m)
    ∧ KERNEL_LOAD_ADDRESS + im.2 ≤ ceiling.
Proof.
  intros Hc Hi Hd. pose proof (read_image_ok _ _ _ Hi) as (mem & -> & H1 & H2 & H3).
  pose proof (read_dtb_ok _ _ Hd) as [-> H4]. cbn [snd].
  assert (0 ≤ blen image) by (unfold blen; lia).
  destruct (Struct.pack_ok Struct.Little PREFIX (manifest_prefix image mem dtb)) as [p Hp].
  { unfold PREFIX, manifest_prefix, KERNEL_LOAD_ADDRESS in *. change (2 ^ 32) with 4294967296 in *.
    repeat constructor; try done; unfold fits; change (2 ^ (8 * Z.of_nat 4)) with 4294967296; lia. }
  destruct (make_manifest_ok _ _ _ _ Hp) as [Hl Hm]. unfold main. rewrite Hi, Hd.
  cbn [mbind result_bind]. rewrite Hm. cbn [mbind result_bind].
  pose proof (Struct.pack_length _ _ _ _ Hp) as Hlp. change (Struct.calcsize PREFIX) with 32%nat in Hlp.
  eexists _, _. split; [reflexivity|].
  split; [rewrite length_app, Hl, length_le_split; done|].
  split; [rewrite <- !app_assoc; by apply Struct.fields_pack|].
  split; [|split; [|split; [|done]]].
  - unfold slice. rewrite <- !app_assoc. destruct (take_drop_app 32 p (Sha256.digest image ++
      Sha256.digest dtb ++ zeros 28 ++ le_split 4 (crc32_u32 (p ++ Sha256.digest image ++
      Sha256.digest dtb ++ zeros 28))) Hlp) as [_ ->].
    apply take_drop_app, Sha256.digest_length.
  - unfold slice. rewrite <- !app_assoc, (app_assoc p). rewrite drop_app_length'
      by (rewrite length_app, Hlp, Sha256.digest_length; done).
    apply take_drop_app, Sha256.digest_length.
  - destruct (take_drop_app 124 _ (le_split 4 (crc32_u32 (p ++ Sha256.digest image ++
      Sha256.digest dtb ++ zeros 28))) Hl) as [-> ->].
    rewrite le_combine_split. apply Z.mod_small, crc32_u32_fits.
Qed.

(** ** A minimal image and device tree *)

Definition sample_image : bytes :=
  zeros 16 ++ le_split 8 64 ++ zeros 24 ++ RISCV_IMAGE_MAGIC ++ zeros 8.
Definition sample_dtb : bytes := FDT_MAGIC ++ Struct.enc_uint Struct.Big 4 40 ++ zeros 32.

Lemma manifest_complete_witness :
  ∃ m line, main sample_image sample_dtb "metadata.bin" COMMS_RESERVE_ADDRESS = Ok (m, line)
    ∧ length m = 128%nat
    ∧ Struct.fields Struct.Little PREFIX m
      = [MANIFEST_MAGIC; MANIFEST_ABI; MANIFEST_SIZE; MANIFEST_FLAG_DTB; KERNEL_LOAD_ADDRESS;
         64; 64; 40]
    ∧ slice 32 64 m = Sha256.digest sample_image ∧ slice 64 96 m = Sha256.digest sample_dtb
    ∧ le_combine (drop 124 m) = crc32_u32 (take 124 m)
    ∧ KERNEL_LOAD_ADDRESS + 64 ≤ COMMS_RESERVE_ADDRESS.
Proof.
  apply (manifest_complete sample_image sample_dtb "metadata.bin" COMMS_RESERVE_ADDRESS
    (sample_image, 64) sample_dtb).
  - vm_compute. discriminate.
  - vm_compute. reflexivity.
  - vm_compute. reflexivity.
Defined.

End M3Pack.

(** ** The bFLT write-xor-execute audit *)

Module Bflt.

Definition HEADER_SIZE : Z := 44.
Definition PMP_GRANULE : Z := 128.
Definition FLAT_FLAG_RAM : Z := 0x1.
Definition BFLT_MAGIC : bytes := [Byte.x62; Byte.x46; Byte.x4c; Byte.x54].

(** A path of the target tree: its name, what [is_file] and [is_symlink] say,
    and the bytes it reads as. *)
Record path := mkPath { path_str : string; is_file : bool; is_symlink : bool; content : bytes }.

Definition validate (p : path) : result bool :=
  if decide (is_file p = false ∨ is_symlink p = true) then Ok false
  else
    let header := take (Z.to_nat HEADER_SIZE) (content p) in
    if decide ((length header < 4)%nat ∨ take 4 header ≠ BFLT_MAGIC) then Ok false
    else
      raise_when (blen header ≠ HEADER_SIZE) ValueError (path_str p +:+ ": truncated bFLT header") ;;
      fields ← Struct.unpack Struct.Big (replicate 10 4%nat) (drop 4 header);
      let revision := nth 0 fields 0 in
      let entry := nth 1 fields 0 in
      let data_start := nth 2 fields 0 in
      let flags := nth 8 fields 0 in
      raise_when (revision ≠ 4 ∨ Z.land flags FLAT_FLAG_RAM = 0) ValueError
        (path_str p +:+ ": expected bFLT v4 FLAT_FLAG_RAM") ;;
      raise_when (entry < HEADER_SIZE ∨ data_start ≤ entry) ValueError
        (path_str p +:+ ": invalid entry/data boundary") ;;
      raise_when (data_start mod PMP_GRANULE ≠ 0) ValueError
        (path_str p +:+ ": data_start 0x" +:+ fmt_x data_start +:+ " is not "
         +:+ fmt_d PMP_GRANULE +:+ "-byte aligned") ;;
      Ok true.

(** [sum(validate(path) for path in paths)] *)
Fixpoint count_valid (paths : list path) : result Z :=
  match paths with
  | [] => Ok 0
  | p :: paths => b ← validate p; n ← count_valid paths; Ok ((if b : bool then 1 else 0) + n)
  end.

(** [main] on the resolved tree: its name, whether it is a directory, and the
    paths [rglob] lists. *)
Definition main (root : string) (is_dir : bool) (paths : list path) : result string :=
  raise_when (is_dir = false) SystemExit ("target tree does not exist: " +:+ root) ;;
  checked ← count_valid paths;
  raise_when (checked = 0) ValueError (root +:+ ": no bFLT images found") ;;
  Ok ("MICRONUX:M7:BFLT-WX-AUDIT state=pass files=" +:+ fmt_d checked
      +:+ " granule=" +:+ fmt_d PMP_GRANULE).

(** ** Theory *)

(** A regular file that starts with the bFLT magic. *)
Definition is_bflt (p : path) : Prop :=
  is_file p = true ∧ is_symlink p = false ∧ take 4 (content p) = BFLT_MAGIC.

(** The header word at a byte offset. *)
Definition header_word (p : path) (off : nat) : Z :=
  Struct.dec_uint Struct.Big (slice off (off + 4) (content p)).

(** An image the PMP can split: version 4 in RAM, with the entry point in the
    text, and the data on a granule boundary after it. *)
Record splittable (p : path) : Prop := {
  sp_header : (44 ≤ length (content p))%nat;
  sp_version : header_word p 4 = 4;
  sp_ram : Z.land (header_word p 36) FLAT_FLAG_RAM ≠ 0;
  sp_entry : HEADER_SIZE ≤ header_word p 8 < header_word p 12;
  sp_granule : header_word p 12 mod PMP_GRANULE = 0 }.

Lemma header_field p i :
  (44 ≤ length (content p))%nat → (i < 10)%nat →
  nth i (Struct.fields Struct.Big (replicate 10 4%nat) (drop 4 (take 44 (content p)))) 0
  = header_word p (4 + 4 * i).
Proof.
  intros Hl Hi. unfold header_word, slice.
  assert (∀ n i (b : bytes), (i < n)%nat →
    nth i (Struct.fields Struct.Big (replicate n 4%nat) b) 0
    = Struct.dec_uint Struct.Big (take 4 (drop (4 * i) b))) as H.
  { clear. induction n as [|n IH]; intros i b Hi; [lia|]. destruct i as [|i]; [done|].
    replace (4 * S i)%nat with (4 + 4 * i)%nat by lia. cbn [replicate Struct.fields nth].
    by rewrite IH, drop_drop by lia. }
  rewrite H by done. f_equal. rewrite drop_drop.
  replace (4 + 4 * i + 4 - (4 + 4 * i))%nat with 4%nat by lia.
  rewrite skipn_firstn_comm, take_take. f_equal. lia.
Qed.

Lemma validate_cases p :
  (¬ is_bflt p → validate p = Ok false)
  ∧ (is_bflt p → splittable p → validate p = Ok true)
  ∧ (is_bflt p → ¬ splittable p → ∃ msg, validate p = Err (Exn ValueError msg)).
Proof.
  assert (Htake : take 4 (take 44 (content p)) = take 4 (content p)) by (by rewrite take_take).
  unfold validate, is_bflt. change (Z.to_nat HEADER_SIZE) with 44%nat.
  case_decide as Hf; [split; [done|]; split; intros (H1 & H2 & _); exfalso;
    destruct Hf; congruence|].
  assert (is_file p = true ∧ is_symlink p = false) as [Hf1 Hf2]
    by (destruct (is_file p), (is_symlink p); tauto).
  rewrite Htake. case_decide as Hm.
  - split; [done|]. assert (take 4 (content p) ≠ BFLT_MAGIC) as Hne.
    { destruct Hm as [Hm|Hm]; [|done]. intros E. apply (f_equal length) in E.
      change (length BFLT_MAGIC) with 4%nat in E. rewrite length_take in Hm, E. lia. }
    split; intros (_ & _ & H); done.
  - assert (take 4 (content p) = BFLT_MAGIC) as Hmagic by (apply dec_stable; tauto).
    split; [intros H; exfalso; tauto|].
    destruct (decide (44 ≤ length (content p))%nat) as [Hl|Hl].
    + assert (length (take 44 (content p)) = 44%nat) as Hl' by (rewrite length_take; lia).
      rewrite raise_when_false by (unfold blen, HEADER_SIZE; lia).
      unfold Struct.unpack. rewrite raise_when_false by (rewrite length_drop, Hl'; by intros []).
      cbn [mbind result_bind]. rewrite !header_field by lia. cbn [Nat.add Nat.mul].
      split; intros _.
      * intros [_ H1 H2 H3 H4].
        rewrite raise_when_false by (intros [?|?]; done).
        rewrite raise_when_false by lia. by rewrite raise_when_false by (intros []; done).
      * intros Hn.
        destruct (decide (header_word p 4 ≠ 4 ∨ Z.land (header_word p 36) FLAT_FLAG_RAM = 0));
          [eexists; by apply raise_when_true | rewrite raise_when_false by done].
        destruct (decide (header_word p 8 < HEADER_SIZE ∨ header_word p 12 ≤ header_word p 8));
          [eexists; by apply raise_when_true | rewrite raise_when_false by done].
        destruct (decide (header_word p 12 mod PMP_GRANULE ≠ 0));
          [eexists; by apply raise_when_true | exfalso; apply Hn; constructor; [done | lia..]].
    + split; intros _; [by intros []|]. intros _. eexists. apply raise_when_true.
      unfold blen, HEADER_SIZE. rewrite length_take. lia.
Qed.

#[global] Instance is_bflt_dec p : Decision (is_bflt p).
Proof. unfold is_bflt. apply _. Defined.

#[global] Instance splittable_dec p : Decision (splittable p).
Proof.
  refine (cast_if (decide ((44 ≤ length (content p))%nat ∧ header_word p 4 = 4
    ∧ Z.land (header_word p 36) FLAT_FLAG_RAM ≠ 0
    ∧ HEADER_SIZE ≤ header_word p 8 < header_word p 12
    ∧ header_word p 12 mod PMP_GRANULE = 0))).
  - destruct a as (? & ? & ? & ? & ?). by constructor.
  - intros []. by apply n.
Defined.

(** The audit counts the bFLT images when all of them can be split. *)
Lemma count_valid_ok paths n :
  count_valid paths = Ok n ↔
  Forall (λ p, is_bflt p → splittable p) paths ∧ n = Z.of_nat (length (filter is_bflt paths)).
Proof.
  revert n. induction paths as [|p paths IH]; intros n; cbn [count_valid].
  - split; [by intros [= <-] | by intros [_ ->]].
  - destruct (validate_cases p) as (H1 & H2 & H3). rewrite Forall_cons, filter_cons.
    destruct (decide (is_bflt p)) as [Hb|Hb].
    + destruct (decide (splittable p)) as [Hs|Hs].
      * rewrite (H2 Hb Hs). cbn [mbind result_bind]. rewrite bind_ok_inv. simpl length.
        setoid_rewrite IH. split.
        -- intros (m & [Hf ->] & [= <-]). split; [done | lia].
        -- intros [[_ Hf] ->]. eexists. split; [split; [done | reflexivity]|]. f_equal. lia.
      * destruct (H3 Hb Hs) as [msg ->]. split; [done|]. intros [[H _] _]. by destruct Hs; apply H.
    + rewrite (H1 Hb). cbn [mbind result_bind]. rewrite bind_ok_inv. setoid_rewrite IH. split.
      * intros (m & [Hf ->] & [= <-]). split; [by split | done].
      * intros [[_ Hf] ->]. eexists. split; [by split | done].
Qed.

Lemma count_valid_raises paths : only_raises ValueError (count_valid paths).
Proof.
  induction paths as [|p paths IH]; cbn [count_valid]; [done|].
  destruct (validate_cases p) as (H1 & H2 & H3).
  apply only_raises_bind; [|intros b _; by apply only_raises_bind].
  destruct (decide (is_bflt p)) as [Hb|Hb]; [|by rewrite H1].
  destruct (decide (splittable p)) as [Hs|Hs]; [by rewrite H2|]. by destruct (H3 Hb Hs) as [? ->].
Qed.

(** C19: write-xor-execute audit.  The audit of a target directory passes exactly
    when it holds at least one bFLT image and every bFLT image in it can be
    split between text and data at a PMP granule; otherwise it raises
    [ValueError]. *)
Theorem bflt_audit_iff root paths :
  (∃ line, main root true paths = Ok line) ↔
  Exists is_bflt paths ∧ Forall (λ p, is_bflt p → splittable p) paths.
Proof.
  assert (Exists is_bflt paths ↔ filter is_bflt paths ≠ []) as Hex.
  { rewrite Exists_exists. split.
    - intros (x & Hx & Hb) E. assert (x ∈ filter is_bflt paths) as Hin by (by apply list_elem_of_filter).
      rewrite E in Hin. by apply elem_of_nil in Hin.
    - destruct (filter is_bflt paths) as [|x l] eqn:E; [done|]. intros _. exists x.
      assert (x ∈ filter is_bflt paths) as Hin by (rewrite E; left).
      apply list_elem_of_filter in Hin. tauto. }
  unfold main. rewrite raise_when_false by done. split.
  - intros [line H]. apply bind_ok_inv in H as (n & Hn & H). rewrite raise_when_ok in H.
    apply count_valid_ok in Hn as [Hf ->]. split; [|done]. apply Hex. intros E. rewrite E in H.
    by destruct H as [[] _].
  - intros [He Hf]. apply Hex in He.
    rewrite (proj2 (count_valid_ok paths _) (conj Hf eq_refl)). cbn [mbind result_bind].
    rewrite raise_when_false; [by eexists|]. destruct (filter is_bflt paths); [done|]. simpl. lia.
Qed.

End Bflt.

(** ** The booted payload against the artifacts *)

Module BootPayload.

Definition KERNEL_RE : re := Eval vm_compute in compile false
  ("MICRONUX:M3:KERNEL .* file=(\d+) memory=(\d+) " +:+ "sha256=([0-9a-f]{64})").
Definition DTB_RE : re := Eval vm_compute in compile false
  "MICRONUX:M3:DTB .* size=(\d+) sha256=([0-9a-f]{64})".

(** [sha256_file(path)] reads the file in chunks; the digest is of its bytes. *)
Definition sha256_file (content : bytes) : string := sha256_hex content.

(** The checks once the three artifacts and the two log lines are there. *)
Definition payload_problem (image dtb metadata : bytes)
    (file_size memory_size kernel_digest dtb_size dtb_digest : string) : option string :=
  let logged_file_size := int_of 10 file_size in
  let logged_memory_size := int_of 10 memory_size in
  let logged_dtb_size := int_of 10 dtb_size in
  problem_if (logged_file_size ≠ blen image) "kernel-size-mismatch" ;?
  problem_if (logged_memory_size < logged_file_size) "kernel-memory-size-invalid" ;?
  problem_if (KERNEL_LOAD + logged_memory_size > DISPLAY_POOL_ADDRESS)
    "kernel-memory-overlaps-display-pool" ;?
  problem_if (logged_dtb_size ≠ blen dtb) "dtb-size-mismatch" ;?
  problem_if (blen metadata ≠ 128) "metadata-size-mismatch" ;?
  let fields := Struct.fields Struct.Little (replicate 8 4%nat) metadata in
  let metadata_load := nth 4 fields 0 in
  let metadata_memory_size := nth 6 fields 0 in
  problem_if (nth 0 fields 0 ≠ 0x33584E4D ∨ nth 1 fields 0 ≠ 1 ∨ nth 2 fields 0 ≠ 128
              ∨ nth 3 fields 0 ≠ 1 ∨ metadata_load ≠ KERNEL_LOAD
              ∨ nth 5 fields 0 ≠ logged_file_size
              ∨ metadata_memory_size ≠ logged_memory_size
              ∨ nth 7 fields 0 ≠ logged_dtb_size) "metadata-payload-contract-mismatch" ;?
  problem_if (metadata_load + metadata_memory_size > DISPLAY_POOL_ADDRESS)
    "metadata-memory-overlaps-display-pool" ;?
  problem_if (kernel_digest ≠ sha256_file image) "kernel-sha256-mismatch" ;?
  problem_if (dtb_digest ≠ sha256_file dtb) "dtb-sha256-mismatch".

Definition verify_boot_payload (boot_log : string) (image dtb metadata : option bytes)
    : option string :=
  match image, dtb, metadata with
  | None, _, _ => Some "artifact-missing-Image"
  | Some _, None, _ => Some "artifact-missing-esp32p4-micronux.dtb"
  | Some _, Some _, None => Some "artifact-missing-metadata.bin"
  | Some image, Some dtb, Some metadata =>
      match findall KERNEL_RE boot_log with
      | [kernel] =>
          match findall DTB_RE boot_log with
          | [device_tree] =>
              match kernel, device_tree with
              | [file_size; memory_size; kernel_digest], [dtb_size; dtb_digest] =>
                  payload_problem image dtb metadata file_size memory_size kernel_digest
                    dtb_size dtb_digest
              | _, _ => None
              end
          | dtb_matches => Some ("dtb-marker-count-" +:+ pretty (length dtb_matches))
          end
      | kernel_matches => Some ("kernel-marker-count-" +:+ pretty (length kernel_matches))
      end
  end.

(** ** Theory *)

(** Each match of the two patterns has all its groups. *)
Lemma findall_kernel log ms :
  ms ∈ findall KERNEL_RE log → ∃ a b c, ms = [a; b; c].
Proof. intros (m & -> & _)%list_elem_of_fmap. cbn. eauto. Qed.

Lemma findall_dtb log ms : ms ∈ findall DTB_RE log → ∃ a b, ms = [a; b].
Proof. intros (m & -> & _)%list_elem_of_fmap. cbn. eauto. Qed.

(** What a verified boot establishes for the logged values. *)
Record payload_ok (image dtb metadata : bytes) (fs ms kd ds dd : string) : Prop := {
  po_file : int_of 10 fs = blen image;
  po_dtb : int_of 10 ds = blen dtb;
  po_memory : blen image ≤ int_of 10 ms ∧ KERNEL_LOAD + int_of 10 ms ≤ DISPLAY_POOL_ADDRESS;
  po_length : length metadata = 128%nat;
  po_metadata : Struct.fields Struct.Little M3Pack.PREFIX metadata
                = M3Pack.manifest_prefix image (int_of 10 ms) dtb;
  po_kernel_digest : kd = sha256_hex image;
  po_dtb_digest : dd = sha256_hex dtb }.

Lemma length_8 {A} (l : list A) : length l = 8%nat →
  ∃ a b c d e f g h, l = [a; b; c; d; e; f; g; h].
Proof. destruct l as [|? [|? [|? [|? [|? [|? [|? [|? [|]]]]]]]]]; try done. eauto 10. Qed.

Lemma payload_problem_none image dtb metadata fs ms kd ds dd :
  payload_problem image dtb metadata fs ms kd ds dd = None ↔
  payload_ok image dtb metadata fs ms kd ds dd.
Proof.
  unfold payload_problem, sha256_file. rewrite !or_else_none, !problem_if_none.
  destruct (length_8 _ (Struct.fields_length Struct.Little (replicate 8 4%nat) metadata))
    as (f0 & f1 & f2 & f3 & f4 & f5 & f6 & f7 & E). rewrite E. cbn [nth].
  split.
  - intros (H1 & H2 & H3 & H4 & H5 & H6 & H7 & H8 & H9). apply dec_stable in H8, H9.
    constructor; try done; [lia | lia | lia | unfold blen in *; lia |].
    change M3Pack.PREFIX with (replicate 8 4%nat). rewrite E. unfold M3Pack.manifest_prefix.
    change M3Pack.MANIFEST_MAGIC with 0x33584E4D. change M3Pack.MANIFEST_ABI with 1.
    change M3Pack.MANIFEST_SIZE with 128. change M3Pack.MANIFEST_FLAG_DTB with 1.
    change M3Pack.KERNEL_LOAD_ADDRESS with KERNEL_LOAD. repeat f_equal; lia.
  - intros [H1 H2 H3 H4 H5 -> ->]. change M3Pack.PREFIX with (replicate 8 4%nat) in H5.
    rewrite E in H5. injection H5 as -> -> -> -> -> -> -> ->.
    change M3Pack.KERNEL_LOAD_ADDRESS with KERNEL_LOAD.
    split_and!; try (by intros []); try lia; [unfold blen; lia|].
    intros [?|[?|[?|[?|[?|[?|[?|?]]]]]]]; done || lia.
Qed.

Lemma verify_boot_payload_none log image dtb metadata :
  verify_boot_payload log image dtb metadata = None ↔
  ∃ i d m fs ms kd ds dd,
    image = Some i ∧ dtb = Some d ∧ metadata = Some m
    ∧ findall KERNEL_RE log = [[fs; ms; kd]] ∧ findall DTB_RE log = [[ds; dd]]
    ∧ payload_ok i d m fs ms kd ds dd.
Proof.
  unfold verify_boot_payload. split.
  - destruct image as [i|], dtb as [d|], metadata as [m|]; try done.
    destruct (findall KERNEL_RE log) as [|km [|? ?]] eqn:Ek; try done.
    destruct (findall DTB_RE log) as [|dm [|? ?]] eqn:Ed; try done.
    destruct (findall_kernel log km) as (fs & ms & kd & ->); [rewrite Ek; left|].
    destruct (findall_dtb log dm) as (ds & dd & ->); [rewrite Ed; left|].
    rewrite payload_problem_none. intros H. by exists i, d, m, fs, ms, kd, ds, dd.
  - intros (i & d & m & fs & ms & kd & ds & dd & -> & -> & -> & -> & -> & H).
    by apply payload_problem_none.
Qed.

(** C18: a verified boot ran the artifacts on disk.  [verify_boot_payload]
    reports nothing exactly when the three artifacts exist, the log has one
    kernel and one device-tree marker, their sizes and SHA-256 digests are those
    of the artifacts, the metadata words are those of the packed manifest for
    the logged memory size, and the kernel ends below the display pool. *)
Theorem verify_boot_payload_iff log image dtb metadata :
  verify_boot_payload log image dtb metadata = None ↔
  ∃ i d m fs ms kd ds dd,
    image = Some i ∧ dtb = Some d ∧ metadata = Some m
    ∧ findall KERNEL_RE log = [[fs; ms; kd]] ∧ findall DTB_RE log = [[ds; dd]]
    ∧ payload_ok i d m fs ms kd ds dd.
Proof. apply verify_boot_payload_none. Qed.

End BootPayload.
