(* ===== verification/Utf8.v ===== *)
(** * [bytes.decode("utf-8", errors="replace")]

    The console of the board is a byte stream that the gates decode with
    replacement.  A decoded text is represented by its UTF-8 encoding, so on the
    ASCII output of the board it is the text itself, concatenation and substring
    search are those of the text, and [len(text.encode("utf-8"))] is its length.
    Every maximal ill-formed part becomes U+FFFD, as in CPython. *)

From S2P Require Import Prelude PyBytes PyStr.

Definition byte_char (b : byte) : ascii := char_of (byte.unsigned b).

(** Bytes as characters, one to one. *)
Fixpoint chars (b : bytes) : string :=
  match b with
  | [] => EmptyString
  | x :: b => String (byte_char x) (chars b)
  end.

(** [text.encode("ascii")] of an ASCII text, and [text.encode("utf-8")] of a
    represented text. *)
Fixpoint encode (s : string) : bytes :=
  match s with
  | EmptyString => []
  | String c s => byte.of_Z (code c) :: encode s
  end.

(** U+FFFD *)
Definition REPLACEMENT : string := chars [Byte.xef; Byte.xbf; Byte.xbd].

(** What a lead byte asks for: the continuation bytes that follow and the range
    of the first of them. *)
Definition lead (b : byte) : option (nat * Z * Z) :=
  let z := byte.unsigned b in
  if decide (0xC2 ≤ z ≤ 0xDF) then Some (1%nat, 0x80, 0xBF)
  else if decide (z = 0xE0) then Some (2%nat, 0xA0, 0xBF)
  else if decide (z = 0xED) then Some (2%nat, 0x80, 0x9F)
  else if decide (0xE1 ≤ z ≤ 0xEF) then Some (2%nat, 0x80, 0xBF)
  else if decide (z = 0xF0) then Some (3%nat, 0x90, 0xBF)
  else if decide (0xF1 ≤ z ≤ 0xF3) then Some (3%nat, 0x80, 0xBF)
  else if decide (z = 0xF4) then Some (3%nat, 0x80, 0x8F)
  else None.

(** The decoder with a sequence in progress: the bytes read of it, the number
    still expected and the range of the next one. *)
Fixpoint decode_from (pending : bytes) (need : nat) (lo hi : Z) (b : bytes) : string :=
  match b with
  | [] => match pending with [] => EmptyString | _ => REPLACEMENT end
  | x :: b =>
      let start :=
        if decide (byte.unsigned x < 0x80) then String (byte_char x) (decode_from [] 0 0 0 b)
        else match lead x with
             | Some (n, lo, hi) => decode_from [x] n lo hi b
             | None => REPLACEMENT +:+ decode_from [] 0 0 0 b
             end in
      match need with
      | O => start
      | S more =>
          if decide (lo ≤ byte.unsigned x ≤ hi) then
            match more with
            | O => chars (pending ++ [x]) +:+ decode_from [] 0 0 0 b
            | _ => decode_from (pending ++ [x]) more 0x80 0xBF b
            end
          else REPLACEMENT +:+ start
      end
  end.

Definition decode (b : bytes) : string := decode_from [] 0 0 0 b.

(** ** ASCII text *)

Definition is_ascii (b : bytes) : Prop := Forall (λ x, byte.unsigned x < 0x80) b.

Lemma decode_ascii b : is_ascii b → decode b = chars b.
Proof.
  unfold decode. induction 1 as [|x b Hx _ IH]; [done|].
  cbn [decode_from chars]. rewrite decide_True by done. by rewrite IH.
Qed.

Lemma decode_ascii_app a b : is_ascii a → decode (a ++ b) = chars a +:+ decode b.
Proof.
  unfold decode. induction 1 as [|x a Hx _ IH]; [done|].
  cbn [app decode_from chars]. rewrite decide_True by done. by rewrite IH.
Qed.

Lemma chars_encode s : chars (encode s) = s.
Proof.
  induction s as [|c s IH]; [done|]. cbn [encode chars]. rewrite IH. f_equal.
  unfold byte_char, char_of, code.
  rewrite byte.unsigned_of_Z. unfold byte.wrap.
  assert (Ascii.N_of_ascii c < 256)%N by apply Ascii.N_ascii_bounded.
  rewrite Z.mod_small by lia. rewrite N2Z.id. apply Ascii.ascii_N_embedding.
Qed.

Lemma length_encode s : length (encode s) = String.length s.
Proof. induction s as [|c s IH]; [done|]. cbn. by rewrite IH. Qed.

(** ** Lines and white space *)

(** The characters of a represented text: a continuation byte belongs to the
    character before it. *)
Definition continues (s : string) : bool :=
  match s with String c _ => (0x80 <=? code c) && (code c <=? 0xBF) | EmptyString => false end.
Fixpoint text_chars (s : string) : list string :=
  match s with
  | EmptyString => []
  | String c s' =>
      match text_chars s' with
      | x :: l => if continues s' then String c x :: l else String c "" :: x :: l
      | [] => [String c ""]
      end
  end.

(** [c.isspace()] *)
Definition is_white (c : string) : bool :=
  match c with
  | String a "" => let z := code a in (9 <=? z) && (z <=? 13) || (28 <=? z) && (z <=? 32)
  | _ => bool_decide (c ∈ WIDE_SPACES)
  end.

(** [s.strip()] *)
Fixpoint drop_white (l : list string) : list string :=
  match l with
  | c :: l' => if is_white c then drop_white l' else l
  | [] => []
  end.
Definition strip (s : string) : string :=
  str_join "" (rev (drop_white (rev (drop_white (text_chars s))))).

(** A line boundary of [str.splitlines], [\r\n] apart. *)
Definition is_break (c : string) : bool :=
  match c with
  | String a "" => let z := code a in (10 <=? z) && (z <=? 13) || (28 <=? z) && (z <=? 30)
  | _ => bool_decide (c ∈ WIDE_BREAKS)
  end.

(** The lines of the characters, with the line in progress, last character first. *)
Fixpoint lines_from (current : option (list string)) (l : list string) : list string :=
  match l with
  | [] => match current with Some line => [str_join "" (rev line)] | None => [] end
  | c :: l =>
      if is_break c then
        str_join "" (rev (default [] current)) ::
        match l with
        | d :: l' => if decide (c = cr ∧ d = nl) then lines_from None l' else lines_from None l
        | [] => []
        end
      else lines_from (Some (c :: default [] current)) l
  end.

(** [s.splitlines()] *)
Definition splitlines (s : string) : list string := lines_from None (text_chars s).

(** ** Lines of joined texts *)

Lemma text_chars_nonempty c s : text_chars (String c s) ≠ [].
Proof. cbn. destruct (text_chars s); [done|]. by destruct (continues s). Qed.

Lemma text_chars_app a b : continues b = false → text_chars (a +:+ b) = text_chars a ++ text_chars b.
Proof.
  intros Hb. induction a as [|c a IH]; [done|].
  change (String c a +:+ b) with (String c (a +:+ b)). cbn [text_chars]. rewrite IH. destruct a as [|d a].
  - change (EmptyString +:+ b) with b. rewrite Hb. cbn [text_chars app]. by destruct (text_chars b).
  - pose proof (text_chars_nonempty d a) as Hne. destruct (text_chars (String d a)) as [|x l]; [done|].
    change (continues (String d a +:+ b)) with (continues (String d a)). cbn [app]. by destruct (continues (String d a)).
Qed.

Lemma code_byte_char x : code (byte_char x) = byte.unsigned x.
Proof.
  pose proof (byte.unsigned_range x). unfold byte_char, code, char_of.
  rewrite Ascii.N_ascii_embedding; lia.
Qed.

(** A decoded text does not begin inside of a character. *)
Lemma continues_decode_from b pending need lo hi :
  match pending with [] => need = O | y :: _ => 0xC0 ≤ byte.unsigned y end →
  continues (decode_from pending need lo hi b) = false.
Proof.
  revert pending need lo hi. induction b as [|x b IH]; intros pending need lo hi Hp; cbn [decode_from].
  { by destruct pending. }
  set (start := if decide (byte.unsigned x < 0x80) then _ else _).
  assert (continues start = false) as Hstart.
  { unfold start. case_decide as Hx.
    - cbn [continues]. rewrite code_byte_char. apply andb_false_intro1, Z.leb_gt. lia.
    - destruct (lead x) as [[[n l] h]|] eqn:El; [|done]. apply IH. unfold lead in El. repeat case_decide; lia || done. }
  destruct need as [|more]; [done|]. case_decide; [|done].
  destruct pending as [|y pending]; [done|]. destruct more as [|more]; [|by apply IH].
  change ((0x80 <=? code (byte_char y)) && (code (byte_char y) <=? 0xBF) = false). rewrite code_byte_char. apply andb_false_intro2, Z.leb_gt. lia.
Qed.

Lemma continues_decode b : continues (decode b) = false.
Proof. by apply continues_decode_from. Qed.

(** The lines of two texts joined by a line break, where the break may add an empty one. *)
Lemma lines_from_join current a b :
  ∃ extra, (extra = [] ∨ extra = [""]) ∧ lines_from current (a ++ nl :: b) = lines_from current a ++ extra ++ lines_from None b.
Proof.
  assert (∀ c l, match l with d :: l' => if decide (c = cr ∧ d = nl) then lines_from None l' else lines_from None l | [] => [] end
    = match l with d :: l' => if decide (c = cr ∧ d = nl) then lines_from None l' else lines_from None l | [] => lines_from None l end) as Hm.
  { by intros c [|]. }
  remember (length a) as n eqn:Hn. revert a current Hn. induction n as [n IH] using lt_wf_ind. intros a current ->.
  destruct a as [|c a]; cbn [app lines_from].
  - change (is_break nl) with true. cbv iota.
    exists (match current with Some _ => [] | None => [""] end). split; [destruct current; auto|].
    destruct b as [|d b]; cbn; [by destruct current|]. rewrite decide_False by (by intros [? _]). by destruct current.
  - destruct (is_break c).
    + destruct a as [|d a]; cbn [app].
      * case_decide as Hd.
        -- exists []. split; [by left|]. done.
        -- exists [""]. split; [by right|]. cbn [lines_from]. change (is_break nl) with true. cbv iota.
           destruct b as [|d b]; [done|]. by rewrite decide_False by (by intros [? _]).
      * case_decide as Hd.
        -- destruct (IH (length a) ltac:(cbn; lia) a None eq_refl) as (extra & He & ->). by exists extra.
        -- destruct (IH (length (d :: a)) ltac:(cbn; lia) (d :: a) None eq_refl) as (extra & He & E).
           exists extra. split; [done|]. cbn [app] in E. by rewrite E.
    + destruct (IH (length a) ltac:(cbn; lia) a (Some (c :: default [] current)) eq_refl) as (extra & He & ->).
      by exists extra.
Qed.

Lemma splitlines_join a b :
  ∃ extra, (extra = [] ∨ extra = [""])
    ∧ splitlines (decode a +:+ nl +:+ decode b) = splitlines (decode a) ++ extra ++ splitlines (decode b).
Proof.
  unfold splitlines. rewrite text_chars_app by done. rewrite (text_chars_app nl) by apply continues_decode.
  apply lines_from_join.
Qed.

(** ** Checks against CPython *)

Example decode_invalid :
  decode [Byte.x61; Byte.xff; Byte.xe2; Byte.x82; Byte.x62; Byte.xc3; Byte.xa9; Byte.xf0; Byte.x9f; Byte.x98]
  = "a" +:+ REPLACEMENT +:+ REPLACEMENT +:+ "b" +:+ chars [Byte.xc3; Byte.xa9] +:+ REPLACEMENT.
Proof. by_compute. Qed.

Example decode_surrogate :
  decode [Byte.xed; Byte.xa0; Byte.x80] = REPLACEMENT +:+ REPLACEMENT +:+ REPLACEMENT.
Proof. by_compute. Qed.

(** ** [path.read_text(encoding="utf-8")]

    Strict decoding, with [\r\n] and [\r] read as [\n]. *)

(** Whether the bytes are well-formed UTF-8, with a sequence in progress. *)
Fixpoint valid_from (need : nat) (lo hi : Z) (b : bytes) : bool :=
  match b with
  | [] => Nat.eqb need 0
  | x :: b =>
      match need with
      | O =>
          if decide (byte.unsigned x < 0x80) then valid_from 0 0 0 b
          else match lead x with Some (n, lo, hi) => valid_from n lo hi b | None => false end
      | S more =>
          if decide (lo ≤ byte.unsigned x ≤ hi) then valid_from more 0x80 0xBF b else false
      end
  end.

Definition valid_utf8 (b : bytes) : bool := valid_from 0 0 0 b.

(** Universal newlines. *)
Fixpoint universal (s : string) : string :=
  match s with
  | EmptyString => EmptyString
  | String c s' =>
      if decide (code c = 13) then
        match s' with
        | String d s'' => if decide (code d = 10) then String d (universal s'') else String (char_of 10) (universal s')
        | EmptyString => String (char_of 10) EmptyString
        end
      else String c (universal s')
  end.

Definition read_text (b : bytes) : result string :=
  raise_when (valid_utf8 b = false) UnicodeDecodeError "invalid utf-8" ;;
  Ok (universal (chars b)).

Example universal_newlines :
  universal ("a" +:+ cr +:+ nl +:+ "b" +:+ cr +:+ cr +:+ "c" +:+ nl) = "a" +:+ nl +:+ "b" +:+ nl +:+ nl +:+ "c" +:+ nl.
Proof. by_compute. Qed.

Example lines_and_white_space :
  (splitlines ("a" +:+ cr +:+ nl +:+ nl +:+ "b " +:+ chars_of [0xC2; 0x85] +:+ chars_of [0xC3; 0x85] +:+ cr +:+ "c"),
   strip (chars_of [0xC2; 0xA0] +:+ " x y" +:+ chars_of [0xC3; 0xA0] +:+ chars_of [0xE3; 0x80; 0x80] +:+ cr),
   splitlines nl, splitlines "")
  = (["a"; ""; "b "; chars_of [0xC3; 0x85]; "c"], "x y" +:+ chars_of [0xC3; 0xA0], [""], []).
Proof. by_compute. Qed.
