(* ===== verification/PyFloat.v ===== *)
(** * Python [float]

    The IEEE 754 binary64 arithmetic the gates use on uptimes and rates, on the
    specification floats of the Standard Library: reading a decimal literal,
    converting an integer, addition, subtraction, division, comparison and [:.3f].
    Conversions from text and from integers are correctly rounded, and the
    format rounds the exact binary value half to even, as CPython does. *)

From Stdlib Require Export SpecFloat.
From S2P Require Import Prelude PyStr.

Abbreviation float := spec_float.

Definition PREC : Z := 53.
Definition EMAX : Z := 1024.

#[global] Instance float_eq_dec : EqDecision float.
Proof. solve_decision. Defined.

(** The binary64 nearest to [m / d] for a positive [d], ties to even. *)
Definition float_of_ratio (m : Z) (d : positive) : float :=
  match m with
  | Z0 => S754_zero false
  | Zpos p =>
      let '(q, e, l) := SFdiv_core_binary PREC EMAX (Zpos p) 0 (Zpos d) 0 in
      binary_round_aux PREC EMAX false q e l
  | Zneg p =>
      let '(q, e, l) := SFdiv_core_binary PREC EMAX (Zpos p) 0 (Zpos d) 0 in
      binary_round_aux PREC EMAX true q e l
  end.

(** Splits [digits.digits] at its point. *)
Fixpoint split_point (s acc : string) : string * string :=
  match s with
  | EmptyString => (acc, "")
  | String c s => if decide (code c = 46) then (acc, s) else split_point s (acc +:+ String c "")
  end.

(** [float(s)] of a text of the form [[0-9]+(\.[0-9]+)?]. *)
Definition float_of_string (s : string) : float :=
  let (whole, fraction) := split_point s "" in
  float_of_ratio (digits_to_Z 10 0 (whole +:+ fraction))
                 (Z.to_pos (10 ^ Z.of_nat (String.length fraction))).

(** [float(n)] of an integer, as the mixed division converts its operand. *)
Definition float_of_int (n : Z) : result float :=
  match float_of_ratio n 1 with
  | S754_infinity _ => Err (Exn OverflowError "int too large to convert to float")
  | x => Ok x
  end.

Definition fsub (a b : float) : float := SFsub PREC EMAX a b.
Definition fadd (a b : float) : float := SFadd PREC EMAX a b.
Definition fdiv (a b : float) : float := SFdiv PREC EMAX a b.

(** [a <= b] and [a < b]: false when an operand is not a number. *)
Definition fle (a b : float) : bool := SFleb a b.
Definition flt (a b : float) : bool := SFltb a b.

(** [n / d] rounded half to even, for [0 <= n] and [0 < d]. *)
Definition div_half_even (n d : Z) : Z :=
  let q := n / d in
  match Z.compare (2 * (n mod d)) d with
  | Lt => q
  | Eq => if Z.even q then q else q + 1
  | Gt => q + 1
  end.

(** [f"{n / d:.<p>f}"] of an exact ratio, without its sign *)
Definition fixed (p : nat) (n d : Z) : string :=
  let base := 10 ^ Z.of_nat p in
  let k := div_half_even (n * base) d in
  fmt_d (k / base) +:+ "." +:+ zfill p (fmt_d (k mod base)).

(** [f"{x:.<p>f}"] for a positive [p] *)
Definition fmt_f (p : nat) (x : float) : string :=
  match x with
  | S754_nan => "nan"
  | S754_infinity s => if s then "-inf" else "inf"
  | S754_zero s => (if s then "-" else "") +:+ fixed p 0 1
  | S754_finite s m e =>
      (if s then "-" else "") +:+
      (if decide (0 ≤ e) then fixed p (Zpos m * 2 ^ e) 1 else fixed p (Zpos m) (2 ^ (- e)))
  end.

Definition fixed3 : Z → Z → string := fixed 3.
Definition fmt_3f : float → string := fmt_f 3.
Definition fmt_2f : float → string := fmt_f 2.

(** ** Checks against CPython *)

Example float_of_string_examples :
  (float_of_string "12.34", float_of_string "0.1", float_of_string "9007199254740993", float_of_string "0.00")
  = (S754_finite false 6946802425218990 (-49), S754_finite false 7205759403792794 (-56),
     S754_finite false 4503599627370496 1, S754_zero false).
Proof. by_compute. Qed.

Example fmt_3f_examples :
  (fmt_3f (float_of_string "0.0625"), fmt_3f (float_of_string "12.3455"), fmt_3f (float_of_string "24.9996"),
   fmt_3f (fdiv (float_of_ratio 200 1) (fsub (float_of_string "110.50") (float_of_string "100.20"))))
  = ("0.062", "12.345", "25.000", "19.417").
Proof. by_compute. Qed.

(** [1234 / 1000.0 + 2.5], and two decimals with ties to even on the exact value *)
Example fmt_2f_examples :
  (fmt_2f (fadd (fdiv (float_of_ratio 1234 1) (float_of_string "1000.0")) (float_of_string "2.5")),
   fmt_2f (float_of_string "0.125"), fmt_2f (float_of_string "0.135"), fmt_2f (float_of_string "0"))
  = ("3.73", "0.12", "0.14", "0.00").
Proof. by_compute. Qed.
