(* ===== verification/Argparse.v ===== *)
(** * Command lines

    [argparse.ArgumentParser] as the scripts use it: long options with a value or a flag,
    types, choices, defaults, required options, one group of mutually exclusive options, a
    positional argument that takes the rest of the line, and the built-in [--help].  The
    order of the work is that of CPython 3.11: all words are classified first, then the
    options are applied from left to right, then what is required is looked for.  The text
    of usage and help is left out; the ways in which a line is refused are [perror]. *)

From S2P Require Import Prelude PyStr PyJson Utf8 PyFloat Regex RegexLines.

(** ** Values and types *)

(** A value of the namespace that [parse_args] returns. *)
Inductive aval :=
  | ANone
  | AText (s : string)
  | AInt (z : Z)
  | AFloat (f : float)
  | APath (s : string)
  | AFlag (b : bool)
  | ARest (l : list string).

#[global] Instance aval_eq_dec : EqDecision aval.
Proof. solve_decision. Defined.

(** [int(text)] *)
Definition int_text (text : string) : option Z :=
  match strip text with
  | String "+" s => decimal s
  | String "-" s => Z.opp <$> decimal s
  | s => decimal s
  end.

(** The digits before or after the point, where there may be none. *)
Definition digits_or_none (s : string) : option (Z * nat) :=
  match s with EmptyString => Some (0, 0%nat) | _ => digits 10 s false 0 0 end.

(** The value and the number of decimals of the part before an exponent. *)
Definition mantissa (s : string) : option (Z * nat) :=
  match cut_at (Ascii.eqb ".") s with
  | None => '(whole, _) ← digits 10 s false 0 0; Some (whole, 0%nat)
  | Some (w, f) =>
      '(whole, n) ← digits_or_none w;
      '(fraction, k) ← digits_or_none f;
      if decide ((n + k)%nat = 0%nat) then None else Some (whole * 10 ^ Z.of_nat k + fraction, k)
  end.

Definition exponent (s : string) : option Z :=
  match s with
  | String "+" s => fst <$> digits 10 s false 0 0
  | String "-" s => (λ d, - d.1) <$> digits 10 s false 0 0
  | s => fst <$> digits 10 s false 0 0
  end.

(** The binary64 nearest to [m * 10 ^ e]. *)
Definition float_of_decimal (m e : Z) : float :=
  if decide (0 ≤ e) then float_of_ratio (m * 10 ^ e) 1 else float_of_ratio m (Z.to_pos (10 ^ (- e))).

Definition unsigned_float (s : string) : option float :=
  if decide (lower s = "inf" ∨ lower s = "infinity") then Some (S754_infinity false)
  else if decide (lower s = "nan") then Some S754_nan
  else
    match cut_at (λ c, Ascii.eqb "e" c || Ascii.eqb "E" c) s with
    | None => '(m, k) ← mantissa s; Some (float_of_decimal m (- Z.of_nat k))
    | Some (s, e) => '(m, k) ← mantissa s; e ← exponent e; Some (float_of_decimal m (e - Z.of_nat k))
    end.

(** [float(text)] *)
Definition float_text (text : string) : option float :=
  match strip text with
  | String "+" s => unsigned_float s
  | String "-" s => SFopp <$> unsigned_float s
  | s => unsigned_float s
  end.

(** [type=], with [int(text, 0)] as [Address]; [None] stands for [ValueError]. *)
Inductive atype := Text | Int | Float | Path | Address.

Definition convert (t : atype) (text : string) : option aval :=
  match t with
  | Text => Some (AText text)
  | Int => AInt <$> int_text text
  | Float => AFloat <$> float_text text
  | Path => Some (APath text)
  | Address => AInt <$> int_literal (strip text)
  end.

(** ** Parsers *)

Inductive action :=
  | Store (t : atype) (choices : option (list string)) (default : aval) (required : bool)
  | StoreTrue.

Record opt := { o_name : string; o_action : action }.

(** [exclusive] are the names of a group; [remainder] is the destination of a positional
    argument with [nargs=argparse.REMAINDER]. *)
Record parser := { options : list opt; exclusive : list string; remainder : option string }.

(** [--artifact-dir] is kept as [artifact_dir]. *)
Definition dest (name : string) : string := str_replace "-" "_" (str_drop 2 name).

Definition initial (a : action) : aval := match a with Store _ _ default _ => default | StoreTrue => AFlag false end.

Definition is_required (o : opt) : bool := match o_action o with Store _ _ _ required => required | StoreTrue => false end.

Abbreviation namespace := (gmap string aval).

Definition defaults (p : parser) : namespace :=
  foldr (λ o ns, <[dest (o_name o) := initial (o_action o)]> ns)
    (match remainder p with Some d => {[d := ARest []]} | None => ∅ end) (options p).

Inductive perror :=
  | AmbiguousOption (word : string)
  | ExpectedOneArgument (name : string)
  | IgnoredExplicitArgument (name text : string)
  | InvalidValue (name text : string)
  | InvalidChoice (name text : string)
  | NotAllowedWith (name other : string)
  | MissingRequired (names : list string)
  | UnrecognizedArguments (words : list string).

(** What [parse_args] does: it returns a namespace, or shows the help and exits with 0, or
    shows an error and exits with 2. *)
Inductive parsed := Parsed (ns : namespace) | HelpShown | Refused (e : perror).

(** ** Words *)

Inductive target := Help | Known (o : opt).

Definition table (p : parser) : list (string * target) :=
  [("-h", Help); ("--help", Help)] ++ map (λ o, (o_name o, Known o)) (options p).

Fixpoint find_option (name : string) (l : list (string * target)) : option target :=
  match l with
  | [] => None
  | (n, t) :: l => if decide (n = name) then Some t else find_option name l
  end.

(** The option a word stands for: its full name, the option and the text after [=]. *)
Record spelling := { full : string; meant : target; explicit : option string }.

Inductive word := Plain (text : string) | Dashes | Option (text : string) (s : option spelling).

(** [_get_option_tuples]: what a word may abbreviate *)
Definition abbreviated (p : parser) (text : string) : list spelling :=
  if startswith "--" text then
    let '(prefix, explicit) := match cut_equals text with Some (a, b) => (a, Some b) | None => (text, None) end in
    omap (λ '(n, t), if startswith prefix n then Some {| full := n; meant := t; explicit := explicit |} else None) (table p)
  else
    omap (λ '(n, t),
      if decide (n = str_take 2 text) then Some {| full := n; meant := t; explicit := Some (str_drop 2 text) |}
      else if startswith text n then Some {| full := n; meant := t; explicit := None |} else None) (table p).

Definition NEGATIVE_RE : re := Eval vm_compute in compile false "^(?:-[0-9]+|-[0-9]*\.[0-9]+)$".

(** [--name=text] *)
Definition spelled_out (p : parser) (text : string) : option spelling :=
  '(n, v) ← cut_equals text;
  t ← find_option n (table p);
  Some {| full := n; meant := t; explicit := Some v |}.

Definition is_negative_number (text : string) : bool :=
  match search NEGATIVE_RE text with Some _ => true | None => false end.

(** [_parse_optional] *)
Definition classify (p : parser) (text : string) : perror + word :=
  if negb (startswith "-" text) then inr (Plain text)
  else
    match find_option text (table p) with
    | Some t => inr (Option text (Some {| full := text; meant := t; explicit := None |}))
    | None =>
        if decide (text = "-") then inr (Plain text)
        else
          match spelled_out p text with
          | Some s => inr (Option text (Some s))
          | None =>
              match abbreviated p text with
              | [s] => inr (Option text (Some s))
              | _ :: _ => inl (AmbiguousOption text)
              | [] =>
                  if is_negative_number text || contains " " text then inr (Plain text)
                  else inr (Option text None)
              end
          end
    end.

Fixpoint classify_all (p : parser) (argv : list string) : perror + list word :=
  match argv with
  | [] => inr []
  | text :: argv =>
      if decide (text = "--") then inr (Dashes :: map Plain argv)
      else
        match classify p text with
        | inl e => inl e
        | inr w => match classify_all p argv with inl e => inl e | inr ws => inr (w :: ws) end
        end
  end.

Definition word_text (w : word) : string :=
  match w with Plain text => text | Dashes => "--" | Option text _ => text end.

(** ** Parsing *)

(** The namespace, the names of the options seen and the words that nothing takes. *)
Record progress := { space : namespace; seen : list string; extras : list string }.

Definition supply (o : opt) (v : aval) (g : progress) : progress :=
  {| space := <[dest (o_name o) := v]> (space g); seen := o_name o :: seen g; extras := extras g |}.

Definition leave (text : string) (g : progress) : progress :=
  {| space := space g; seen := seen g; extras := extras g ++ [text] |}.

(** An option of the group, other than this one, that was given before. *)
Definition conflict (p : parser) (name : string) (g : progress) : option string :=
  if decide (name ∈ exclusive p) then
    snd <$> list_find (λ other, other ≠ name ∧ other ∈ seen g) (exclusive p)
  else None.

(** [take_action] of an option with a value *)
Definition store (p : parser) (o : opt) (t : atype) (choices : option (list string)) (text : string) (g : progress)
    : perror + progress :=
  match convert t text with
  | None => inl (InvalidValue (o_name o) text)
  | Some v =>
      if match choices with Some cs => bool_decide (text ∉ cs) | None => false end
      then inl (InvalidChoice (o_name o) text)
      else
        match conflict p (o_name o) g with
        | Some other => inl (NotAllowedWith (o_name o) other)
        | None => inr (supply o v g)
        end
  end.

(** [-hh] and so on *)
Fixpoint all_h (s : string) : bool :=
  match s with EmptyString => true | String c s => Ascii.eqb c "h" && all_h s end.

Definition finish (p : parser) (g : progress) : parsed :=
  match map o_name (filter (λ o, is_required o = true ∧ o_name o ∉ seen g) (options p)) with
  | (_ :: _) as missing => Refused (MissingRequired missing)
  | [] => if decide (extras g = []) then Parsed (space g) else Refused (UnrecognizedArguments (extras g))
  end.

Definition take_rest (d : string) (ws : list word) (g : progress) : progress :=
  {| space := <[d := ARest (map word_text ws)]> (space g); seen := seen g; extras := extras g |}.

(** [consume_positionals] and [consume_optional] *)
Fixpoint consume (p : parser) (ws : list word) (g : progress) : parsed :=
  match ws with
  | [] => finish p g
  | Option text None :: ws => consume p ws (leave text g)
  | Option _ (Some {| full := name; meant := Help; explicit := explicit |}) :: _ =>
      match explicit with
      | None => HelpShown
      | Some e =>
          if negb (startswith "--" name) && bool_decide (e ≠ "") && all_h e then HelpShown
          else Refused (IgnoredExplicitArgument name e)
      end
  | Option _ (Some {| full := name; meant := Known o; explicit := explicit |}) :: ws =>
      match o_action o, explicit with
      | StoreTrue, None =>
          match conflict p (o_name o) g with
          | Some other => Refused (NotAllowedWith (o_name o) other)
          | None => consume p ws (supply o (AFlag true) g)
          end
      | StoreTrue, Some e => Refused (IgnoredExplicitArgument name e)
      | Store t choices _ _, Some e =>
          match store p o t choices e g with inl e => Refused e | inr g => consume p ws g end
      | Store t choices _ _, None =>
          match ws with
          | Plain text :: ws => match store p o t choices text g with inl e => Refused e | inr g => consume p ws g end
          | _ => Refused (ExpectedOneArgument name)
          end
      end
  | w :: ws' =>
      match remainder p with
      | Some d => finish p (take_rest d ws g)
      | None => consume p ws' (leave (word_text w) g)
      end
  end.

Definition parse_args (p : parser) (argv : list string) : parsed :=
  match classify_all p argv with
  | inl e => Refused e
  | inr ws => consume p ws {| space := defaults p; seen := []; extras := [] |}
  end.

(** ** Well-formed parsers and namespaces *)

Definition wf_name (name : string) : bool :=
  startswith "--" name && bool_decide (name ∉ ["--"; "--help"]) && bool_decide (cut_equals name = None).

Definition dests (p : parser) : list string := map (dest ∘ o_name) (options p) ++ option_list (remainder p).

(** The names are long options, and no two arguments share a destination. *)
Definition wf_parser (p : parser) : bool :=
  forallb (wf_name ∘ o_name) (options p) && bool_decide (NoDup (dests p)).

Definition typed (t : atype) (v : aval) : Prop :=
  match t, v with
  | Text, AText _ | (Int | Address), AInt _ | Float, AFloat _ | Path, APath _ => True
  | _, _ => False
  end.

(** A value that was given on the command line. *)
Definition given (a : action) (v : aval) : Prop :=
  match a with
  | StoreTrue => v = AFlag true
  | Store t choices _ _ => typed t v ∧ ∀ cs, choices = Some cs → ∃ c, c ∈ cs ∧ convert t c = Some v
  end.

(** What a script can rely on: every option has a value, of its type and among its choices
    or the default, which a required option does not fall back to; of the exclusive
    options at most one is given; the rest of the line is a list of words. *)
Record well_typed (p : parser) (ns : namespace) : Prop := {
  has_values : ∀ o, o ∈ options p → ∃ v, ns !! dest (o_name o) = Some v
    ∧ (given (o_action o) v ∨ v = initial (o_action o) ∧ is_required o = false);
  has_rest : ∀ d, remainder p = Some d → ∃ l, ns !! d = Some (ARest l);
  excludes : ∀ a b, a ∈ options p → b ∈ options p → o_name a ∈ exclusive p → o_name b ∈ exclusive p → a ≠ b →
    ns !! dest (o_name a) = Some (initial (o_action a)) ∨ ns !! dest (o_name b) = Some (initial (o_action b));
  has_only : ∀ d, d ∈ dom ns ↔ d ∈ dests p;
}.

(** ** Theory: typing *)

Lemma convert_typed t text v : convert t text = Some v → typed t v.
Proof.
  destruct t; cbn; [by intros [= <-]| | |by intros [= <-]|]; intros (x & _ & ->)%fmap_Some; done.
Qed.

Section Typing.
Context (p : parser) (Hp : wf_parser p = true).

Lemma wf_dests : NoDup (dests p).
Proof. unfold wf_parser in Hp. apply andb_prop in Hp as [_ H]. by apply bool_decide_eq_true in H. Qed.

Lemma wf_names o : o ∈ options p → wf_name (o_name o) = true.
Proof.
  unfold wf_parser in Hp. apply andb_prop in Hp as [H _]. rewrite forallb_forall in H. intros Hin.
  by apply H, list_elem_of_In.
Qed.

(** Options with the same destination are the same. *)
Lemma dest_inj a b : a ∈ options p → b ∈ options p → dest (o_name a) = dest (o_name b) → a = b.
Proof.
  intros Ha Hb E. pose proof wf_dests as Hd. unfold dests in Hd. apply NoDup_app in Hd as (Hd & _ & _).
  apply list_elem_of_lookup in Ha as [i Hi]. apply list_elem_of_lookup in Hb as [j Hj].
  assert (i = j) as ->; [|congruence].
  eapply NoDup_lookup; [exact Hd| |]; rewrite list_lookup_fmap; [by rewrite Hi|rewrite Hj; exact (f_equal Some (eq_sym E))].
Qed.

Lemma rest_dest o d : o ∈ options p → remainder p = Some d → dest (o_name o) ≠ d.
Proof.
  intros Ho Hr <-. pose proof wf_dests as Hd. unfold dests in Hd. apply NoDup_app in Hd as (_ & Hd & _).
  apply (Hd (dest (o_name o))); [|rewrite Hr; by apply list_elem_of_singleton].
  by apply (list_elem_of_fmap_2 (dest ∘ o_name)).
Qed.

(** What holds while the words are consumed. *)
Record kept (g : progress) : Prop := {
  k_values : ∀ o, o ∈ options p → ∃ v, space g !! dest (o_name o) = Some v
    ∧ (o_name o ∈ seen g → given (o_action o) v) ∧ (o_name o ∉ seen g → v = initial (o_action o));
  k_rest : ∀ d, remainder p = Some d → ∃ l, space g !! d = Some (ARest l);
  k_excludes : ∀ a b, a ∈ exclusive p → b ∈ exclusive p → a ∈ seen g → b ∈ seen g → a = b;
  k_only : ∀ d, d ∈ dom (space g) ↔ d ∈ dests p;
}.

Lemma defaults_lookup o : o ∈ options p → defaults p !! dest (o_name o) = Some (initial (o_action o)).
Proof.
  intros Ho. unfold defaults. assert (∀ a, a ∈ options p → dest (o_name a) = dest (o_name o) → a = o) as Hinj.
  { intros a Ha. by apply dest_inj. }
  clear Hp. induction (options p) as [|a l IH]; [by apply elem_of_nil in Ho|]. cbn [foldr].
  destruct (decide (dest (o_name a) = dest (o_name o))) as [E|E].
  - rewrite E, lookup_insert_eq. f_equal. f_equal. rewrite (Hinj a); [done|by left|done].
  - rewrite lookup_insert_ne by done. apply IH; [|intros; apply Hinj; [by right|done]].
    apply elem_of_cons in Ho as [->|]; done.
Qed.

Lemma defaults_dom d : d ∈ dom (defaults p) ↔ d ∈ dests p.
Proof.
  unfold defaults, dests. clear Hp. induction (options p) as [|a l IH]; cbn.
  - destruct (remainder p) as [r|]; cbn.
    + by rewrite dom_singleton_L, elem_of_singleton, list_elem_of_singleton.
    + rewrite dom_empty_L. split; [by intros ?%elem_of_empty|by intros ?%elem_of_nil].
  - rewrite dom_insert_L, elem_of_union, IH, elem_of_cons, elem_of_singleton. done.
Qed.

Lemma defaults_rest d : remainder p = Some d → defaults p !! d = Some (ARest []).
Proof.
  intros Hr. assert (∀ o, o ∈ options p → dest (o_name o) ≠ d) as Hd by (intros; by eapply rest_dest).
  unfold defaults. rewrite Hr. clear Hp. induction (options p) as [|a l IH]; cbn [foldr]; [by rewrite lookup_singleton_eq|].
  rewrite lookup_insert_ne by (apply Hd; by left). apply IH. intros; apply Hd; by right.
Qed.

Lemma kept_start : kept {| space := defaults p; seen := []; extras := [] |}.
Proof.
  constructor; cbn.
  - intros o Ho. exists (initial (o_action o)). split_and!; [by apply defaults_lookup|by intros ?%elem_of_nil|done].
  - intros d Hd. exists []. by apply defaults_rest.
  - by intros a b _ _ ?%elem_of_nil.
  - apply defaults_dom.
Qed.

Lemma kept_leave text g : kept g → kept (leave text g).
Proof. by intros []. Qed.

Lemma kept_rest d ws g : remainder p = Some d → kept g → kept (take_rest d ws g).
Proof.
  intros Hd [Hv Hr He Ho]. constructor; cbn [space seen take_rest]; [| |done|].
  - intros o Hin. rewrite lookup_insert_ne; [by apply Hv|]. intros E. by eapply rest_dest.
  - intros d' Hd'. rewrite Hd in Hd'. injection Hd' as <-. rewrite lookup_insert_eq. eauto.
  - intros d'. rewrite dom_insert_L, elem_of_union, elem_of_singleton, Ho. split; [|by right].
    intros [->|?]; [|done]. unfold dests. rewrite elem_of_app, Hd. right. by apply list_elem_of_singleton.
Qed.

Lemma kept_supply o v g : o ∈ options p → given (o_action o) v →
  (o_name o ∈ exclusive p → ∀ other, other ∈ exclusive p → other ≠ o_name o → other ∉ seen g) →
  kept g → kept (supply o v g).
Proof.
  intros Hin Hg Hc [Hv Hr He Ho]. constructor; cbn [space seen supply].
  - intros a Ha. destruct (decide (dest (o_name o) = dest (o_name a))) as [E|E].
    + rewrite E, lookup_insert_eq. apply dest_inj in E as ->; [|done..]. exists v. split_and!; [done..|].
      intros Hn. exfalso. apply Hn. by left.
    + rewrite lookup_insert_ne by done. destruct (Hv a Ha) as (w & Hw & H1 & H2). exists w.
      assert (o_name a ≠ o_name o) by congruence. rewrite elem_of_cons. split_and!; [done|by intros [|]; [|auto]|tauto].
  - intros d Hd. rewrite lookup_insert_ne; [by apply Hr|]. by eapply rest_dest.
  - intros a b Ha Hb Ia Ib. rewrite elem_of_cons in Ia, Ib. destruct Ia as [->|Ia], Ib as [->|Ib]; [done|..].
    + destruct (decide (b = o_name o)); [done|]. by exfalso; apply (Hc Ha b).
    + destruct (decide (a = o_name o)); [done|]. by exfalso; apply (Hc Hb a).
    + by apply He.
  - intros d. rewrite dom_insert_L, elem_of_union, elem_of_singleton, Ho. split; [|by right]. intros [->|?]; [|done].
    unfold dests. rewrite elem_of_app. left. by apply (list_elem_of_fmap_2 (dest ∘ o_name)).
Qed.

Lemma conflict_none name g : conflict p name g = None →
  name ∈ exclusive p → ∀ other, other ∈ exclusive p → other ≠ name → other ∉ seen g.
Proof.
  unfold conflict. intros Hn Hin other Ho Hne Hs. rewrite decide_True in Hn by done.
  destruct (list_find _ _) eqn:E; [done|]. apply list_find_None in E. rewrite Forall_forall in E. by apply (E other Ho).
Qed.

Lemma store_kept o t choices default required text g g' :
  o ∈ options p → o_action o = Store t choices default required → store p o t choices text g = inr g' → kept g → kept g'.
Proof.
  intros Hin Ha. unfold store. destruct (convert t text) as [v|] eqn:Ec; [|done].
  destruct (match choices with Some cs => bool_decide (text ∉ cs) | None => false end) eqn:Eb; [done|].
  destruct (conflict p (o_name o) g) eqn:Ef; [done|]. intros [= <-]. apply kept_supply; [done| |by apply conflict_none].
  rewrite Ha. split; [by eapply convert_typed|]. intros cs ->. exists text. split; [|done].
  apply bool_decide_eq_false in Eb. by apply dec_stable.
Qed.

(** Words that stand for options stand for those of the parser. *)
Definition word_ok (w : word) : Prop :=
  match w with Option _ (Some {| meant := Known o |}) => o ∈ options p | _ => True end.

Lemma table_known n o : (n, Known o) ∈ table p → o ∈ options p.
Proof.
  unfold table. rewrite elem_of_app. intros [H|H].
  - repeat (apply elem_of_cons in H as [[=]|H]). by apply elem_of_nil in H.
  - apply list_elem_of_fmap in H as (a & [= -> ->] & ?). done.
Qed.

Lemma find_option_in n t l : find_option n l = Some t → (n, t) ∈ l.
Proof.
  induction l as [|[n' t'] l IH]; cbn; [done|]. case_decide as E; [intros [= ->]; subst; by left|]. intros. right. auto.
Qed.

Lemma abbreviated_ok text s : s ∈ abbreviated p text → word_ok (Option text (Some s)).
Proof.
  unfold abbreviated. intros Hs. destruct s as [n [|o] e]; [done|]. cbn. revert Hs.
  destruct (startswith "--" text).
  - destruct (match cut_equals text with Some (a, b) => (a, Some b) | None => (text, None) end) as [prefix ex].
    intros ([n' t] & Hin & E)%list_elem_of_omap. destruct (startswith prefix n'); [|done]. injection E as _ -> _. by eapply table_known.
  - intros ([n' t] & Hin & E)%list_elem_of_omap. case_decide; [|destruct (startswith text n'); [|done]];
      injection E as _ -> _; by eapply table_known.
Qed.

Lemma classify_ok text w : classify p text = inr w → word_ok w.
Proof.
  unfold classify. destruct (negb (startswith "-" text)); [by intros [= <-]|].
  destruct (find_option text (table p)) as [t|] eqn:Ef.
  { intros [= <-]. cbn. destruct t; [done|]. by eapply table_known, find_option_in. }
  case_decide; [by intros [= <-]|]. destruct (spelled_out p text) as [s|] eqn:Es.
  { intros [= <-]. unfold spelled_out in Es. apply bind_Some in Es as ([n v] & _ & Es).
    apply bind_Some in Es as (t & Et & [= <-]). cbn. destruct t; [done|]. by eapply table_known, find_option_in. }
  pose proof (abbreviated_ok text) as Ha. destruct (abbreviated p text) as [|s [|]]; [|intros [= <-]; apply Ha; by left|done].
  destruct (is_negative_number text || contains " " text); by intros [= <-].
Qed.

Lemma classify_all_ok argv ws : classify_all p argv = inr ws → Forall word_ok ws.
Proof.
  revert ws. induction argv as [|text argv IH]; intros ws; cbn; [intros [= <-]; constructor|].
  case_decide.
  { intros [= <-]. constructor; [done|]. apply Forall_forall. intros w (x & -> & _)%list_elem_of_fmap. done. }
  destruct (classify p text) eqn:Ec; [done|]. destruct (classify_all p argv); [done|]. intros [= <-].
  constructor; [by eapply classify_ok|by apply IH].
Qed.

Lemma finish_typed g ns : finish p g = Parsed ns → kept g → well_typed p ns.
Proof.
  unfold finish. destruct (map o_name _) eqn:Em; [|done]. case_decide; [|done]. intros [= <-] [Hv Hr He Ho].
  assert (∀ o, o ∈ options p → is_required o = true → o_name o ∈ seen g) as Hreq.
  { intros o Hin Hq. destruct (decide (o_name o ∈ seen g)) as [|Hn]; [done|]. exfalso.
    apply (f_equal length) in Em. rewrite length_map in Em. apply nil_length_inv in Em.
    assert (o ∈ ([] : list opt)) as []%elem_of_nil. rewrite <- Em. by apply list_elem_of_filter. }
  constructor; [|done| |done].
  - intros o Hin. destruct (Hv o Hin) as (v & Hl & H1 & H2). exists v. split; [done|].
    destruct (decide (o_name o ∈ seen g)); [by left; auto|]. right. split; [by auto|].
    destruct (is_required o) eqn:Eq; [|done]. by exfalso; auto.
  - intros a b Ha Hb Ea Eb Hne. destruct (Hv a Ha) as (v & Hl & _ & H2), (Hv b Hb) as (w & Hl' & _ & H2').
    destruct (decide (o_name a ∈ seen g)); [|left; by rewrite Hl, H2].
    destruct (decide (o_name b ∈ seen g)); [|right; by rewrite Hl', H2'].
    exfalso. apply Hne. apply dest_inj; [done..|]. f_equal. by apply He.
Qed.

Lemma consume_typed n ws g ns : (length ws ≤ n)%nat → Forall word_ok ws → kept g → consume p ws g = Parsed ns → well_typed p ns.
Proof.
  revert ws g. induction n as [|n IH]; intros ws g Hn Hw Hk.
  { destruct ws; [|cbn in Hn; lia]. intros E. by eapply finish_typed. }
  destruct ws as [|w ws]; [intros E; by eapply finish_typed|]. cbn in Hn. apply Forall_cons in Hw as [Hw Hws]. cbn [consume].
  destruct w as [text| |text [[name [|o] ex]|]].
  1,2: destruct (remainder p) as [d|] eqn:Ed; [intros E; eapply finish_typed; [exact E|by apply kept_rest]|].
  1,2: apply IH; [lia|done|by apply kept_leave].
  - destruct ex; [|done]. by destruct (_ && all_h _).
  - cbn in Hw. destruct (o_action o) as [t choices default required|] eqn:Ea; destruct ex as [e|].
    + destruct (store p o t choices e g) as [|g'] eqn:Es; [done|]. apply IH; [lia|done|]. by eapply store_kept.
    + destruct ws as [|[v| |] ws]; [done| |done|done]. destruct (store p o t choices v g) as [|g'] eqn:Es; [done|].
      apply Forall_cons in Hws as [_ Hws]. apply IH; [cbn in Hn; lia|done|]. by eapply store_kept.
    + done.
    + destruct (conflict p (o_name o) g) eqn:Ec; [done|]. apply IH; [lia|done|].
      apply kept_supply; [done|by rewrite Ea|by apply conflict_none|done].
  - apply IH; [lia|done|by apply kept_leave].
Qed.

(** A parsed namespace is well typed. *)
Lemma parse_well_typed argv ns : parse_args p argv = Parsed ns → well_typed p ns.
Proof.
  unfold parse_args. destruct (classify_all p argv) as [e|ws] eqn:Ec; [done|].
  apply (consume_typed (length ws)); [lia|by eapply classify_all_ok|apply kept_start].
Qed.

End Typing.

(** ** Theory: spelling options out *)

(** An option that is given with its text, or a flag, and the value it stands for. *)
Record gift := { g_opt : opt; g_text : option string; g_value : aval }.

Definition meaningful (p : parser) (x : gift) : Prop :=
  g_opt x ∈ options p ∧
  match o_action (g_opt x), g_text x with
  | StoreTrue, None => g_value x = AFlag true
  | Store t choices _ _, Some text =>
      convert t text = Some (g_value x) ∧ match choices with Some cs => text ∈ cs | None => True end
  | _, _ => False
  end.

(** [--name text] or [--name=text]; a text that starts with a dash needs the second. *)
Inductive spells : list gift → list string → Prop :=
  | spells_nil : spells [] []
  | spells_flag x xs argv : g_text x = None → spells xs argv → spells (x :: xs) (o_name (g_opt x) :: argv)
  | spells_apart x xs text argv : g_text x = Some text → startswith "-" text = false →
      spells xs argv → spells (x :: xs) (o_name (g_opt x) :: text :: argv)
  | spells_joined x xs text argv : g_text x = Some text →
      spells xs argv → spells (x :: xs) ((o_name (g_opt x) +:+ "=" +:+ text) :: argv).

Definition gift_name (x : gift) : string := o_name (g_opt x).

(** Later gifts replace earlier ones. *)
Definition receive (ns : namespace) (xs : list gift) : namespace :=
  foldl (λ ns x, <[dest (gift_name x) := g_value x]> ns) ns xs.

Definition exclusive_ok (p : parser) (names : list string) : Prop :=
  ∀ a b, a ∈ names → b ∈ names → a ∈ exclusive p → b ∈ exclusive p → a = b.

Definition complete (p : parser) (xs : list gift) : Prop :=
  ∀ o, o ∈ options p → is_required o = true → o_name o ∈ map gift_name xs.

Section Spelling.
Context (p : parser) (Hp : wf_parser p = true).

Lemma wf_name_parts n : wf_name n = true →
  startswith "--" n = true ∧ n ≠ "--" ∧ n ≠ "--help" ∧ cut_equals n = None.
Proof.
  unfold wf_name. intros [[H1 H2]%andb_prop H3]%andb_prop. apply bool_decide_eq_true in H2, H3.
  rewrite !not_elem_of_cons in H2. tauto.
Qed.

Lemma long_dash n : startswith "--" n = true → startswith "-" n = true ∧ n ≠ "-" ∧ n ≠ "-h".
Proof. intros (r & ->)%startswith_spec. split; [done|]. split; by intros [=]. Qed.

Lemma find_option_known o : o ∈ options p → find_option (o_name o) (table p) = Some (Known o).
Proof.
  intros Ho. destruct (wf_name_parts _ (wf_names p Hp o Ho)) as (H1 & H2 & H3 & H4). destruct (long_dash _ H1) as (_ & _ & H5).
  unfold table. cbn [app find_option]. rewrite !decide_False by congruence.
  assert (∀ a, a ∈ options p → o_name a = o_name o → a = o) as Hinj.
  { intros a Ha E. apply (dest_inj p Hp); [done..|by rewrite E]. }
  clear Hp. induction (options p) as [|a l IH]; [by apply elem_of_nil in Ho|]. cbn. case_decide as E.
  - by rewrite (Hinj a) by (done || by left).
  - apply IH; [|intros; apply Hinj; [by right|done]]. apply elem_of_cons in Ho as [->|]; done.
Qed.

(** No option has a name with an equals sign. *)
Lemma find_option_joined o text : o ∈ options p → find_option (o_name o +:+ "=" +:+ text) (table p) = None.
Proof.
  intros Ho. destruct (find_option _ _) as [t|] eqn:E; [|done]. exfalso. apply find_option_in in E.
  assert (cut_equals (o_name o +:+ "=" +:+ text) = Some (o_name o, text)) as Hc.
  { apply cut_joined. by destruct (wf_name_parts _ (wf_names p Hp o Ho)) as (_ & _ & _ & ?). }
  unfold table in E. rewrite elem_of_app in E. destruct E as [E|E].
  - repeat (apply elem_of_cons in E as [[= E _]|E]; [rewrite E in Hc; done|]). by apply elem_of_nil in E.
  - apply list_elem_of_fmap in E as (a & [= E _] & Ha). rewrite E in Hc.
    destruct (wf_name_parts _ (wf_names p Hp a Ha)) as (_ & _ & _ & Hn). congruence.
Qed.

Definition option_word (o : opt) (text : string) (e : option string) : word :=
  Option text (Some {| full := o_name o; meant := Known o; explicit := e |}).

Lemma classify_name o : o ∈ options p → classify p (o_name o) = inr (option_word o (o_name o) None).
Proof.
  intros Ho. destruct (wf_name_parts _ (wf_names p Hp o Ho)) as (H1 & _). destruct (long_dash _ H1) as (H2 & _).
  unfold classify. by rewrite H2, find_option_known.
Qed.

Lemma classify_joined o text : o ∈ options p →
  classify p (o_name o +:+ "=" +:+ text) = inr (option_word o (o_name o +:+ "=" +:+ text) (Some text)).
Proof.
  intros Ho. destruct (wf_name_parts _ (wf_names p Hp o Ho)) as (H1 & _ & _ & H4).
  assert (startswith "--" (o_name o +:+ "=" +:+ text) = true) as (H5 & H6 & _)%long_dash.
  { apply startswith_spec in H1 as (r & ->). apply startswith_spec. eexists. by rewrite str_app_assoc. }
  unfold classify. rewrite H5, find_option_joined, decide_False by done. cbn [negb].
  assert (spelled_out p (o_name o +:+ "=" +:+ text) = Some {| full := o_name o; meant := Known o; explicit := Some text |}) as ->; [|done].
  unfold spelled_out. rewrite cut_joined by done. cbn [mbind option_bind]. by rewrite find_option_known.
Qed.

(** The words of a line that spells out gifts. *)
Inductive words_of : list gift → list word → Prop :=
  | words_nil : words_of [] []
  | words_flag x xs ws text : g_text x = None → words_of xs ws → words_of (x :: xs) (option_word (g_opt x) text None :: ws)
  | words_apart x xs ws text text' : g_text x = Some text → words_of xs ws →
      words_of (x :: xs) (option_word (g_opt x) text' None :: Plain text :: ws)
  | words_joined x xs ws text text' : g_text x = Some text → words_of xs ws →
      words_of (x :: xs) (option_word (g_opt x) text' (Some text) :: ws).

Lemma classify_spells xs argv : Forall (meaningful p) xs → spells xs argv → ∃ ws, classify_all p argv = inr ws ∧ words_of xs ws.
Proof.
  intros Hm Hs. induction Hs as [|x xs argv Ht Hs IH|x xs text argv Ht Hd Hs IH|x xs text argv Ht Hs IH].
  { exists []. split; [done|constructor]. }
  all: apply Forall_cons in Hm as [[Ho _] Hm]; destruct (IH Hm) as (ws & Ew & Hw).
  all: destruct (wf_name_parts _ (wf_names p Hp _ Ho)) as (_ & Hne & _ & Hc).
  - eexists. split; [|by apply (words_flag x)]. cbn [classify_all]. rewrite decide_False by done. by rewrite classify_name, Ew.
  - eexists. split; [|by apply (words_apart x)]. cbn [classify_all]. rewrite decide_False by done. rewrite classify_name by done.
    rewrite decide_False by (by intros ->). assert (classify p text = inr (Plain text)) as ->; [|by rewrite Ew].
    unfold classify. by rewrite Hd.
  - eexists. split; [|by apply (words_joined x)]. cbn [classify_all]. rewrite decide_False.
    + by rewrite classify_joined, Ew.
    + intros E. assert (cut_equals (o_name (g_opt x) +:+ "=" +:+ text) = Some (o_name (g_opt x), text)) as H by (by apply cut_joined).
      by rewrite E in H.
Qed.

Lemma no_conflict name g : (∀ other, other ∈ exclusive p → other ∈ seen g → name ∈ exclusive p → other = name) →
  conflict p name g = None.
Proof.
  intros H. unfold conflict. case_decide; [|done]. destruct (list_find _ _) as [[i other]|] eqn:E; [|done].
  apply list_find_Some in E as (Hi & [Hne Hs] & _). exfalso. apply Hne. apply H; [|done..]. by eapply list_elem_of_lookup_2.
Qed.

Lemma store_meaningful x t choices default required text g : meaningful p x →
  o_action (g_opt x) = Store t choices default required → g_text x = Some text → conflict p (gift_name x) g = None →
  store p (g_opt x) t choices text g = inr (supply (g_opt x) (g_value x) g).
Proof.
  intros [Ho Hm] Ha Ht Hc. rewrite Ha, Ht in Hm. destruct Hm as [Hv Hch]. unfold store. rewrite Hv.
  assert (match choices with Some cs => bool_decide (text ∉ cs) | None => false end = false) as ->.
  { destruct choices; [|done]. apply bool_decide_eq_false. tauto. }
  unfold gift_name in Hc. by rewrite Hc.
Qed.

Lemma consume_words xs ws g : Forall (meaningful p) xs → words_of xs ws →
  exclusive_ok p (map gift_name xs ++ seen g) →
  consume p ws g = finish p {| space := receive (space g) xs; seen := reverse (map gift_name xs) ++ seen g; extras := extras g |}.
Proof.
  intros Hm Hw. revert g. induction Hw as [|x xs ws text Ht Hw IH|x xs ws text text' Ht Hw IH|x xs ws text text' Ht Hw IH]; intros g He.
  { cbn. by destruct g. }
  all: apply Forall_cons in Hm as [Hx Hm].
  all: assert (conflict p (gift_name x) g = None) as Hc by
    (apply no_conflict; intros other Hi Hs Hn; apply He; [apply elem_of_app; by right|by left|done..]).
  all: assert (exclusive_ok p (map gift_name xs ++ seen (supply (g_opt x) (g_value x) g))) as He' by
    (intros a b Ha Hb; apply He; cbn; cbn in Ha, Hb; rewrite elem_of_app, elem_of_cons in Ha, Hb; rewrite elem_of_cons, elem_of_app; tauto).
  all: specialize (IH Hm _ He'); cbn [space seen extras supply] in IH.
  all: cbn [map]; rewrite reverse_cons, <- app_assoc; cbn [app]; cbn [consume option_word].
  all: pose proof Hx as [_ Hm']; rewrite Ht in Hm'; destruct (o_action (g_opt x)) as [t choices default required|] eqn:Ea; try done.
  - unfold gift_name in Hc. rewrite Hc, <- Hm'. exact IH.
  - rewrite (store_meaningful x t choices default required text g) by done. exact IH.
  - rewrite (store_meaningful x t choices default required text g) by done. exact IH.
Qed.

Lemma finish_all g : (∀ o, o ∈ options p → is_required o = true → o_name o ∈ seen g) → extras g = [] →
  finish p g = Parsed (space g).
Proof.
  intros Hs He. unfold finish. destruct (map o_name _) eqn:Em; [by rewrite decide_True by done|]. exfalso.
  assert (s ∈ map o_name (filter (λ o, is_required o = true ∧ o_name o ∉ seen g) (options p))) as Hin by (rewrite Em; by left).
  apply list_elem_of_fmap in Hin as (o & -> & [[Hr Hn] Ho]%list_elem_of_filter). by apply Hn, Hs.
Qed.

(** A line that spells out its options is parsed as what it says. *)
Lemma parse_spells xs argv : Forall (meaningful p) xs → spells xs argv → complete p xs → exclusive_ok p (map gift_name xs) →
  parse_args p argv = Parsed (receive (defaults p) xs).
Proof.
  intros Hm Hs Hc He. destruct (classify_spells xs argv Hm Hs) as (ws & Ew & Hw). unfold parse_args. rewrite Ew.
  rewrite (consume_words xs ws _ Hm Hw); [|by rewrite app_nil_r]. cbn [space seen extras]. apply finish_all; [|done].
  intros o Ho Hr. cbn [seen]. rewrite app_nil_r, elem_of_reverse. by apply Hc.
Qed.

End Spelling.
