(* ===== verification/Io.v ===== *)
(** * Effects of the serial gates

    The gates talk to pyserial, the monotonic clock, [subprocess] and the
    terminal.  These are not part of the repository: a [host] is a record of the
    operations the scripts use, over an arbitrary type of worlds, and the gates
    are programs in a state and exception monad over it.  Loops that wait for
    the board take fuel; a run that uses it up has no outcome ([None]), so a
    theorem about what a program returns says that it does return.

    Time is the integer number of nanoseconds of [time.monotonic_ns()], with the
    scripts' timeouts scaled to it. *)

From S2P Require Import Prelude PyBytes PyStr Utf8.

(** ** Exceptions *)

(** [issubclass] for the classes the handlers name: pyserial's exceptions,
    [TimeoutError] and the file errors are [OSError]s, the coding errors [ValueError]s. *)
Definition subclass (c d : exn_class) : bool :=
  bool_decide (c = d) ||
  match c, d with
  | SerialTimeoutException, (SerialException | OSError)
  | SerialException, OSError
  | TimeoutError, OSError
  | (FileNotFoundError | FileExistsError | BrokenPipeError), OSError => true
  | (UnicodeDecodeError | UnicodeEncodeError), ValueError => true
  | _, _ => false
  end.

Definition caught (classes : list exn_class) (e : exn) : bool :=
  existsb (subclass (exn_cls e)) classes.

(** ** The host *)

Abbreviation device := Z.

(** The attributes set on a [serial.Serial()] before it is opened. *)
Record serial_config := {
  cfg_port : string;
  cfg_baudrate : Z;
  cfg_timeout : Z;
  cfg_write_timeout : option Z;
  cfg_dsrdtr : bool;
  cfg_rtscts : bool;
  cfg_dtr : bool;
  cfg_rts : bool;
}.

Record host (W : Type) := {
  h_monotonic_ns : W → Z * W;
  h_sleep : Z → W → W;
  h_open : serial_config → W → result device * W;
  h_reset_input_buffer : device → W → result unit * W;
  h_reset_output_buffer : device → W → result unit * W;
  h_in_waiting : device → W → result Z * W;
  h_read : device → Z → W → result bytes * W;
  h_write : device → bytes → W → result Z * W;
  h_flush : device → W → result unit * W;
  h_set_dtr : device → bool → W → result unit * W;
  h_set_rts : device → bool → W → result unit * W;
  h_cancel_read : device → W → result unit * W;
  h_cancel_write : device → W → result unit * W;
  h_close : device → W → result unit * W;
  (** [subprocess.run(arguments).returncode] *)
  h_run : list string → W → result Z * W;
  (** [path.parent.mkdir(parents=True, exist_ok=True)] and [path.write_text(text)] *)
  h_make_parent : string → W → result unit * W;
  h_write_text : string → string → W → result unit * W;
}.
Arguments h_monotonic_ns {W}. Arguments h_sleep {W}. Arguments h_open {W}.
Arguments h_reset_input_buffer {W}. Arguments h_reset_output_buffer {W}.
Arguments h_in_waiting {W}. Arguments h_read {W}. Arguments h_write {W}. Arguments h_flush {W}. Arguments h_set_dtr {W}.
Arguments h_set_rts {W}. Arguments h_cancel_read {W}. Arguments h_cancel_write {W}.
Arguments h_close {W}. Arguments h_run {W}.
Arguments h_make_parent {W}. Arguments h_write_text {W}.

(** The state a program runs in: the world and what it wrote to [sys.stdout] and
    [sys.stderr]. *)
Record st (W : Type) := mkSt { world : W; stdout : string; stderr : string }.
Arguments mkSt {W}. Arguments world {W}. Arguments stdout {W}. Arguments stderr {W}.

(** ** The monad *)

Definition io (W A : Type) : Type := st W → option (result A * st W).

#[global] Instance io_ret {W} : MRet (io W) := λ A a s, Some (Ok a, s).
#[global] Instance io_bind {W} : MBind (io W) := λ A B f m s,
  match m s with
  | Some (Ok a, s) => f a s
  | Some (Err e, s) => Some (Err e, s)
  | None => None
  end.

Section Operations.
Context {W : Type} (H : host W).

Definition raise {A} (c : exn_class) (msg : string) : io W A := λ s, Some (Err (Exn c msg), s).

(** A pure computation that may raise. *)
Definition lift {A} (r : result A) : io W A := λ s, Some (r, s).

Definition out_of_fuel {A} : io W A := λ _, None.

(** [try: m; except classes as error: handler(error)] *)
Definition catch {A} (classes : list exn_class) (m : io W A) (handler : exn → io W A) : io W A := λ s,
  match m s with
  | Some (Err e, s) => if caught classes e then handler e s else Some (Err e, s)
  | r => r
  end.

(** [try: m; finally: cleanup] *)
Definition finally {A} (m : io W A) (cleanup : io W unit) : io W A := λ s,
  match m s with
  | Some (r, s) =>
      match cleanup s with
      | Some (Ok _, s) => Some (r, s)
      | Some (Err e, s) => Some (Err e, s)
      | None => None
      end
  | None => None
  end.

(** An operation of the world. *)
Definition effect {A} (f : W → result A * W) : io W A := λ s,
  let (r, w) := f (world s) in Some (r, mkSt w (stdout s) (stderr s)).

(** An operation that does not raise. *)
Definition query {A} (f : W → A * W) : io W A := effect (λ w, let (a, w) := f w in (Ok a, w)).

Definition monotonic_ns : io W Z := effect (λ w, let (t, w) := h_monotonic_ns H w in (Ok t, w)).
(** [time.monotonic()], in nanoseconds *)
Definition monotonic : io W Z := monotonic_ns.
Definition sleep (t : Z) : io W unit := effect (λ w, (Ok tt, h_sleep H t w)).
Definition serial_open (c : serial_config) : io W device := effect (h_open H c).
Definition reset_input_buffer (d : device) : io W unit := effect (h_reset_input_buffer H d).
Definition reset_output_buffer (d : device) : io W unit := effect (h_reset_output_buffer H d).
Definition in_waiting (d : device) : io W Z := effect (h_in_waiting H d).
Definition read (d : device) (n : Z) : io W bytes := effect (h_read H d n).
Definition write (d : device) (b : bytes) : io W Z := effect (h_write H d b).
Definition flush (d : device) : io W unit := effect (h_flush H d).
Definition set_dtr (d : device) (v : bool) : io W unit := effect (h_set_dtr H d v).
Definition set_rts (d : device) (v : bool) : io W unit := effect (h_set_rts H d v).
Definition cancel_read (d : device) : io W unit := effect (h_cancel_read H d).
Definition cancel_write (d : device) : io W unit := effect (h_cancel_write H d).
Definition close (d : device) : io W unit := effect (h_close H d).
Definition make_parent (path : string) : io W unit := effect (h_make_parent H path).
Definition write_text (path text : string) : io W unit := effect (h_write_text H path text).
Definition subprocess_run (arguments : list string) : io W Z := effect (h_run H arguments).

(** [sys.stdout.write(text)] and [print(text)] *)
Definition stdout_write (text : string) : io W unit := λ s,
  Some (Ok tt, mkSt (world s) (stdout s +:+ text) (stderr s)).
Definition print (text : string) : io W unit := stdout_write (text +:+ nl).

(** [print(text, file=sys.stderr)] *)
Definition print_err (text : string) : io W unit := λ s,
  Some (Ok tt, mkSt (world s) (stdout s) (stderr s +:+ (text +:+ nl))).

End Operations.

(** [0.05] seconds and the like, in nanoseconds. *)
Definition ms (n : Z) : Z := n * 1000000.
Definition seconds (n : Z) : Z := n * 1000000000.

(** ** Weakest preconditions *)

(** The program runs to an outcome that satisfies [Q]. *)
Definition wp {W A} (m : io W A) (Q : result A → st W → Prop) (s : st W) : Prop :=
  match m s with Some (r, s') => Q r s' | None => False end.

(** If the program runs to an outcome, it satisfies [Q]. *)
Definition wlp {W A} (m : io W A) (Q : result A → st W → Prop) (s : st W) : Prop :=
  match m s with Some (r, s') => Q r s' | None => True end.

Section Rules.
Context {W : Type}.
Implicit Types s : st W.

Lemma wp_mono {A} (m : io W A) (Q R : result A → st W → Prop) s :
  wp m Q s → (∀ r s', Q r s' → R r s') → wp m R s.
Proof. unfold wp. destruct (m s) as [[r s']|]; auto. Qed.

Lemma wlp_mono {A} (m : io W A) (Q R : result A → st W → Prop) s :
  wlp m Q s → (∀ r s', Q r s' → R r s') → wlp m R s.
Proof. unfold wlp. destruct (m s) as [[r s']|]; auto. Qed.

Lemma wp_bind {A B} (m : io W A) (f : A → io W B) Q s :
  wp (m ≫= f) Q s ↔
  wp m (λ r s', match r with Ok a => wp (f a) Q s' | Err e => Q (Err e) s' end) s.
Proof.
  unfold wp, mbind, io_bind. destruct (m s) as [[[a|e] s']|]; done.
Qed.

Lemma wlp_bind {A B} (m : io W A) (f : A → io W B) Q s :
  wlp (m ≫= f) Q s ↔
  wlp m (λ r s', match r with Ok a => wlp (f a) Q s' | Err e => Q (Err e) s' end) s.
Proof.
  unfold wlp, mbind, io_bind. destruct (m s) as [[[a|e] s']|]; done.
Qed.

Lemma wp_catch {A} classes (m : io W A) h Q s :
  wp (catch classes m h) Q s ↔
  wp m (λ r s', match r with
                | Err e => if caught classes e then wp (h e) Q s' else Q (Err e) s'
                | Ok a => Q (Ok a) s'
                end) s.
Proof.
  unfold wp, catch. destruct (m s) as [[[a|e] s']|]; [done| |done]. by destruct (caught classes e).
Qed.

Lemma wp_effect {A} (f : W → result A * W) Q s :
  wp (effect f) Q s ↔ Q (f (world s)).1 (mkSt (f (world s)).2 (stdout s) (stderr s)).
Proof. unfold wp, effect. by destruct (f (world s)). Qed.

Lemma wp_query {A} (f : W → A * W) Q s :
  wp (query f) Q s ↔ Q (Ok (f (world s)).1) (mkSt (f (world s)).2 (stdout s) (stderr s)).
Proof. unfold query. rewrite wp_effect. by destruct (f (world s)). Qed.

Lemma wlp_effect {A} (f : W → result A * W) Q s :
  wlp (effect f) Q s ↔ Q (f (world s)).1 (mkSt (f (world s)).2 (stdout s) (stderr s)).
Proof. unfold wlp, effect. by destruct (f (world s)). Qed.

Lemma wlp_query {A} (f : W → A * W) Q s :
  wlp (query f) Q s ↔ Q (Ok (f (world s)).1) (mkSt (f (world s)).2 (stdout s) (stderr s)).
Proof. unfold query. rewrite wlp_effect. by destruct (f (world s)). Qed.

Lemma wp_finally {A} (m : io W A) cleanup Q s :
  wp (finally m cleanup) Q s ↔
  wp m (λ r s', wp cleanup (λ c s'', match c with Ok _ => Q r s'' | Err e => Q (Err e) s'' end) s') s.
Proof. unfold wp, finally. destruct (m s) as [[r s']|]; [|done]. by destruct (cleanup s') as [[[]]|]. Qed.

Lemma wp_and {A} (m : io W A) (Q R : result A → st W → Prop) s :
  wp m Q s → wlp m R s → wp m (λ r s', Q r s' ∧ R r s') s.
Proof. unfold wp, wlp. destruct (m s) as [[r s']|]; auto. Qed.

Lemma bind_returned {A B} (m : io W A) (f : A → io W B) s b s' :
  (m ≫= f) s = Some (Ok b, s') ↔
  ∃ a s1, m s = Some (Ok a, s1) ∧ f a s1 = Some (Ok b, s').
Proof.
  unfold mbind, io_bind. destruct (m s) as [[[a|e] s1]|].
  - split; [by eauto|]. by intros (? & ? & [= <- <-] & ?).
  - split; [done|]. by intros (? & ? & ? & ?).
  - split; [done|]. by intros (? & ? & ? & ?).
Qed.

Lemma lift_returned {A} (r : result A) s a s' : lift r s = Some (Ok a, s') ↔ r = Ok a ∧ s' = s.
Proof. unfold lift. split; [by intros [= -> ->]|by intros [-> ->]]. Qed.

Lemma finally_returned {A} (m : io W A) cleanup s a s' :
  finally m cleanup s = Some (Ok a, s') ↔ ∃ s1, m s = Some (Ok a, s1) ∧ cleanup s1 = Some (Ok tt, s').
Proof.
  unfold finally. destruct (m s) as [[r s1]|]; [|split; [done|by intros (? & ? & _)]].
  destruct (cleanup s1) as [[[[]|e] s2]|] eqn:E; split; try done.
  - intros [= -> ->]. eauto.
  - intros (s3 & [= -> <-] & E2). rewrite E in E2. by injection E2 as ->.
  - intros (s3 & [= -> <-] & E2). congruence.
  - intros (s3 & [= -> <-] & E2). congruence.
Qed.

End Rules.

(** ** Hosts on which time passes

    What the waiting loops rely on: the clock does not run backwards, a sleep
    takes its time, and a successful read takes some time (pyserial returns
    early only with the bytes asked for, and the line delivers those no faster
    than a [tick]). *)

Class TimedHost {W : Type} (H : host W) := {
  clock : W → Z;
  tick : Z;
  tick_range : 0 < tick ≤ ms 100;
  now_clock : ∀ w, (h_monotonic_ns H w).1 = clock (h_monotonic_ns H w).2;
  now_later : ∀ w, clock w ≤ clock (h_monotonic_ns H w).2;
  sleep_later : ∀ t w, 0 ≤ t → clock w + t ≤ clock (h_sleep H t w);
  waiting_later : ∀ d w, clock w ≤ clock (h_in_waiting H d w).2;
  read_later : ∀ d n w, clock w ≤ clock (h_read H d n w).2;
  read_takes : ∀ d n w b, (h_read H d n w).1 = Ok b → clock w + tick ≤ clock (h_read H d n w).2;
  open_later : ∀ c w, clock w ≤ clock (h_open H c w).2;
  reset_in_later : ∀ d w, clock w ≤ clock (h_reset_input_buffer H d w).2;
  reset_out_later : ∀ d w, clock w ≤ clock (h_reset_output_buffer H d w).2;
  write_later : ∀ d b w, clock w ≤ clock (h_write H d b w).2;
  flush_later : ∀ d w, clock w ≤ clock (h_flush H d w).2;
  dtr_later : ∀ d v w, clock w ≤ clock (h_set_dtr H d v w).2;
  rts_later : ∀ d v w, clock w ≤ clock (h_set_rts H d v w).2;
  cancel_read_later : ∀ d w, clock w ≤ clock (h_cancel_read H d w).2;
  cancel_write_later : ∀ d w, clock w ≤ clock (h_cancel_write H d w).2;
  close_later : ∀ d w, clock w ≤ clock (h_close H d w).2;
  run_later : ∀ l w, clock w ≤ clock (h_run H l w).2;
  make_parent_later : ∀ p w, clock w ≤ clock (h_make_parent H p w).2;
  write_text_later : ∀ p x w, clock w ≤ clock (h_write_text H p x w).2;
}.

Section Steady.
Context {W : Type} (H : host W) `{!TimedHost H}.
Implicit Types s : st W.

Definition time (s : st W) : Z := clock (world s).

(** The program comes to an outcome and time does not run backwards. *)
Definition steady {A} (m : io W A) : Prop := ∀ s, wp m (λ _ s', time s ≤ time s') s.

Lemma steady_ret {A} (a : A) : steady (mret a).
Proof. intros s. cbn. unfold time. lia. Qed.

Lemma steady_raise {A} c msg : steady (raise (A := A) c msg).
Proof. intros s. cbn. unfold time. lia. Qed.

Lemma steady_lift {A} (r : result A) : steady (lift r).
Proof. intros s. cbn. unfold time. lia. Qed.

Lemma steady_stdout text : steady (stdout_write text).
Proof. intros s. cbn. unfold time. cbn. lia. Qed.

Lemma steady_stderr text : steady (print_err text).
Proof. intros s. cbn. unfold time. cbn. lia. Qed.

Lemma steady_effect {A} (f : W → result A * W) :
  (∀ w, clock w ≤ clock (f w).2) → steady (effect f).
Proof.
  intros Hf s. unfold wp, effect. specialize (Hf (world s)). destruct (f (world s)) as [r w].
  exact Hf.
Qed.

Lemma steady_bind {A B} (m : io W A) (f : A → io W B) :
  steady m → (∀ a, steady (f a)) → steady (m ≫= f).
Proof.
  intros Hm Hf s. apply wp_bind. eapply wp_mono; [apply Hm|].
  intros [a|e] s' ?; [|done]. eapply wp_mono; [apply Hf|]. cbn. lia.
Qed.

Lemma steady_catch {A} classes (m : io W A) h :
  steady m → (∀ e, steady (h e)) → steady (catch classes m h).
Proof.
  intros Hm Hh s. apply wp_catch. eapply wp_mono; [apply Hm|].
  intros [a|e] s' ?; [done|]. destruct (caught classes e); [|done].
  eapply wp_mono; [apply Hh|]. cbn. lia.
Qed.

Lemma wp_monotonic (Q : result Z → st W → Prop) s :
  (∀ s', time s ≤ time s' → stdout s' = stdout s → Q (Ok (time s')) s') → wp (monotonic H) Q s.
Proof.
  intros HQ. unfold wp, monotonic, monotonic_ns, effect.
  pose proof (now_clock (world s)) as E. pose proof (now_later (world s)) as L.
  destruct (h_monotonic_ns H (world s)) as [t w]. cbn in E, L. rewrite E. by apply (HQ (mkSt w (stdout s) (stderr s))).
Qed.

Lemma wp_sleep (Q : result unit → st W → Prop) t s : 0 ≤ t →
  (∀ s', time s + t ≤ time s' → Q (Ok tt) s') → wp (sleep H t) Q s.
Proof. intros Ht HQ. unfold wp, sleep, effect. apply (HQ (mkSt _ _ _)). by apply sleep_later. Qed.

Lemma wp_read (Q : result bytes → st W → Prop) d n s :
  (∀ b s', time s + tick ≤ time s' → Q (Ok b) s') →
  (∀ e s', time s ≤ time s' → Q (Err e) s') → wp (read H d n) Q s.
Proof.
  intros HO HE. unfold wp, read, effect.
  pose proof (read_takes d n (world s)) as T. pose proof (read_later d n (world s)) as L.
  destruct (h_read H d n (world s)) as [[b|e] w]; cbn in *; [apply (HO _ (mkSt _ _ _)) | by apply (HE _ (mkSt _ _ _))].
  by eapply T.
Qed.

Lemma steady_monotonic : steady (monotonic H).
Proof. intros s. apply wp_monotonic. done. Qed.

Lemma steady_sleep t : 0 ≤ t → steady (sleep H t).
Proof. intros ? s. apply wp_sleep; [done|]. intros. lia. Qed.

End Steady.

(** ** Fuel of the waiting loops *)

(** Fuel for a wait of [t]: a round for every tick, and one more. *)
Definition lasts {W} (H : host W) `{!TimedHost H} (fuel : nat) (t : Z) : Prop :=
  Z.max 0 t ≤ tick * (Z.of_nat fuel - 1).

(** Fuel for every wait of the M9 gate, of which the soak's 960 seconds are the longest. *)
Definition enough {W} (H : host W) `{!TimedHost H} (fuel : nat) : Prop :=
  seconds 1000 ≤ tick * (Z.of_nat fuel - 1).

Section Rounds.
Context {W : Type} (H : host W) `{!TimedHost H}.
Implicit Types s : st W.

(** The rounds a loop may still need before its deadline. *)
Definition rounds_left (n : nat) (deadline : Z) (s : st W) : Prop :=
  (1 ≤ n)%nat ∧ deadline - time H s ≤ tick * (Z.of_nat n - 1).

Lemma rounds_lasting fuel t deadline s : lasts H fuel t → deadline - time H s ≤ t → rounds_left fuel deadline s.
Proof.
  unfold rounds_left, lasts. intros. pose proof (tick_range (H := H)) as Htick. split; [destruct fuel; lia|lia].
Qed.

Lemma enough_lasts fuel t : enough H fuel → t ≤ seconds 1000 → lasts H fuel t.
Proof. unfold enough, lasts, seconds. lia. Qed.

Lemma rounds_enough fuel (Hfuel : enough H fuel) deadline s : deadline - time H s ≤ seconds 1000 → rounds_left fuel deadline s.
Proof. intros. by eapply rounds_lasting; [apply enough_lasts|]. Qed.

(** A round that took a tick, or reached the deadline, leaves enough rounds. *)
Lemma rounds_step n deadline s s1 s' :
  rounds_left (S n) deadline s → time H s ≤ time H s1 → time H s1 < deadline →
  Z.min deadline (time H s1 + tick) ≤ time H s' → rounds_left n deadline s'.
Proof.
  unfold rounds_left. intros [_ Hn] ? ? Hstep. pose proof (tick_range (H := H)) as Htick.
  assert (1 ≤ n)%nat by (destruct n; lia). split; [done|]. nia.
Qed.

End Rounds.

(** Straight-line programs over the host, by the head of the program. *)
Ltac steady_step :=
  lazymatch goal with
  | |- steady _ (mret _) => apply steady_ret
  | |- steady _ (raise _ _) => apply steady_raise
  | |- steady _ (lift _) => apply steady_lift
  | |- steady _ (stdout_write _) => apply steady_stdout
  | |- steady _ (print _) => apply steady_stdout
  | |- steady _ (print_err _) => apply steady_stderr
  | |- steady _ (in_waiting _ _) => apply steady_effect; intros ?; apply waiting_later
  | |- steady _ (cancel_read _ _) => apply steady_effect; intros ?; apply cancel_read_later
  | |- steady _ (cancel_write _ _) => apply steady_effect; intros ?; apply cancel_write_later
  | |- steady _ (monotonic _) => apply steady_monotonic
  | |- steady _ (sleep _ _) => apply steady_sleep; unfold ms, seconds; lia
  | |- steady _ (read _ _ _) => apply steady_effect; intros ?; apply read_later
  | |- steady _ (serial_open _ _) => apply steady_effect; intros ?; apply open_later
  | |- steady _ (reset_input_buffer _ _) => apply steady_effect; intros ?; apply reset_in_later
  | |- steady _ (reset_output_buffer _ _) => apply steady_effect; intros ?; apply reset_out_later
  | |- steady _ (write _ _ _) => apply steady_effect; intros ?; apply write_later
  | |- steady _ (flush _ _) => apply steady_effect; intros ?; apply flush_later
  | |- steady _ (set_dtr _ _ _) => apply steady_effect; intros ?; apply dtr_later
  | |- steady _ (set_rts _ _ _) => apply steady_effect; intros ?; apply rts_later
  | |- steady _ (close _ _) => apply steady_effect; intros ?; apply close_later
  | |- steady _ (subprocess_run _ _) => apply steady_effect; intros ?; apply run_later
  | |- steady _ (make_parent _ _) => apply steady_effect; intros ?; apply make_parent_later
  | |- steady _ (write_text _ _ _) => apply steady_effect; intros ?; apply write_text_later
  | |- steady _ (_ ≫= _) => apply steady_bind; [|intros ?]
  | |- steady _ (catch _ _ _) => apply steady_catch; [|intros ?]
  | |- steady _ (match ?x with _ => _ end) => destruct x
  end.

(** ** A silent host

    Ports open, writes are taken, and nothing is ever received; the world is the
    clock. *)
Definition silent_host : host Z := {|
  h_monotonic_ns w := (w, w);
  h_sleep t w := w + Z.max 0 t;
  h_open _ w := (Ok 0, w);
  h_reset_input_buffer _ w := (Ok tt, w);
  h_reset_output_buffer _ w := (Ok tt, w);
  h_in_waiting _ w := (Ok 0, w);
  h_read _ _ w := (Ok [], w + ms 50);
  h_write _ b w := (Ok (blen b), w);
  h_flush _ w := (Ok tt, w);
  h_set_dtr _ _ w := (Ok tt, w);
  h_set_rts _ _ w := (Ok tt, w);
  h_cancel_read _ w := (Ok tt, w);
  h_cancel_write _ w := (Ok tt, w);
  h_close _ w := (Ok tt, w);
  h_run _ w := (Ok 0, w);
  h_make_parent _ w := (Ok tt, w);
  h_write_text _ _ w := (Ok tt, w);
|}.

#[global] Instance silent_timed : TimedHost silent_host.
Proof.
  refine {| clock := λ w, w; tick := ms 50 |}; intros; unfold silent_host, ms; cbn; lia.
Defined.
