(* ===== verification/Session.v ===== *)
(** * The serial session of the M9 hardware gate

    scripts/m9-hardware-test.py: opening the port, waiting for the shell,
    recovering the prompt after a reconnect, running a command, and the checks
    that only need one command. *)

From S2P Require Import Prelude PyBytes PyStr PyJson Utf8 PyFloat Regex Contract Telemetry Io.

Definition DISPLAY_SYSFS : string := "/sys/bus/platform/devices/500a0000.display".
Definition DISCONNECT_BOUNDARY_PATH : string := "/tmp/m9-disconnect-boundary".

Definition SHELL_PROMPT_RE : re := Eval vm_compute in
  compile false "(?:^|\r?\n)(?:/ # |micronux# )$".

Definition DISCONNECT_UPTIME_RE : re := Eval vm_compute in compile true (
  "^MICRONUX:M9:USB-DISCONNECT:" +:+
  "(?P<phase>BEFORE-POSTHASH|BOUNDARY-PREHASH|" +:+
  "BOUNDARY-POSTHASH|AFTER-PREHASH):UPTIME " +:+
  "(?P<uptime>[0-9]+(?:\.[0-9]+)?) " +:+
  "[0-9]+(?:\.[0-9]+)?\r?\n" +:+
  "(?=abi=3 state=RUNTIME_REVEALED frames=)").

Definition MIN_DISCONNECT_PROGRESS_HZ : float := Eval vm_compute in float_of_string "10.0".
Definition MAX_DISCONNECT_PROGRESS_HZ : float := Eval vm_compute in float_of_string "25.0".

Record CommandResult := { output : string; return_code : Z }.

(** A shell text.  The commands of the script are full of double quotes, written
    here as back quotes, which none of them uses. *)
Fixpoint sh (s : string) : string :=
  match s with
  | EmptyString => EmptyString
  | String c s => String (if decide (code c = 96) then char_of 34 else c) (sh s)
  end.

(** ** Pure helpers *)

Definition reconnect_prompt_complete (output : string) (response_start : nat) : bool :=
  match search SHELL_PROMPT_RE (str_drop response_start output) with Some _ => true | None => false end.

Definition uptimes_of (output phase : string) : list float :=
  map (λ m, float_of_string (group m "uptime"))
      (filter (λ m, group m "phase" = phase) (finditer DISCONNECT_UPTIME_RE output)).

Definition groups_of (output phase : string) : list (list dict) :=
  map snd (filter (λ g, g.1 = phase) (diagnostics_phase_groups output)).

Definition group_sizes (gs : list (list dict)) : nat := sum_list (map length gs).

(** [len(groups) != 1 or len(groups[0]) != 1] *)
Definition single_sample (gs : list (list dict)) : option dict :=
  match gs with [[d]] => Some d | _ => None end.

Definition disconnect_progress_rate (start_output start_phase end_output end_phase : string)
    : result (option string * option float) :=
  let start_uptimes := uptimes_of start_output start_phase in
  let end_uptimes := uptimes_of end_output end_phase in
  let start_groups := groups_of start_output start_phase in
  let end_groups := groups_of end_output end_phase in
  let span := lower start_phase +:+ "-" +:+ lower end_phase in
  match start_uptimes with
  | [start_uptime] =>
    match end_uptimes with
    | [end_uptime] =>
      match single_sample start_groups with
      | Some start_sample =>
        match single_sample end_groups with
        | Some end_sample =>
          let elapsed := fsub end_uptime start_uptime in
          let progress_delta := dget end_sample "frames" - dget start_sample "frames" in
          if fle elapsed (S754_zero false) then Ok (Some (span +:+ "-uptime-order"), None)
          else if decide (progress_delta ≤ 0) then Ok (Some (span +:+ "-progress-order"), None)
          else
            delta ← float_of_int progress_delta;
            let progress_hz := fdiv delta elapsed in
            if negb (fle MIN_DISCONNECT_PROGRESS_HZ progress_hz && fle progress_hz MAX_DISCONNECT_PROGRESS_HZ)
            then Ok (Some (span +:+ "-progress-hz-" +:+ fmt_3f progress_hz), Some progress_hz)
            else Ok (None, Some progress_hz)
        | None => Ok (Some (lower end_phase +:+ "-diagnostics-count-" +:+ pretty (group_sizes end_groups)), None)
        end
      | None => Ok (Some (lower start_phase +:+ "-diagnostics-count-" +:+ pretty (group_sizes start_groups)), None)
      end
    | _ => Ok (Some (lower end_phase +:+ "-uptime-count-" +:+ pretty (length end_uptimes)), None)
    end
  | _ => Ok (Some (lower start_phase +:+ "-uptime-count-" +:+ pretty (length start_uptimes)), None)
  end.

Definition diagnostics_phase_shell (phase : string) (uptime_phase : option string) : string :=
  sh ("echo `MICRONUX:M9:DIAGNOSTICS phase=" +:+ phase +:+ "`; ") +:+
  match uptime_phase with
  | Some uptime_phase =>
      sh ("echo -n `MICRONUX:M9:USB-DISCONNECT:" +:+ uptime_phase +:+ ":UPTIME `; ") +:+ "cat /proc/uptime; "
  | None => ""
  end +:+ sh "cat `$D/diagnostics`; ".

Definition framebuffer_hash_shell (phase variable : string) : string :=
  sh ("unset " +:+ variable +:+ "; " +:+
      "if m9_fb_line=`$(/bin/busybox sha256sum /dev/fb0)`; then " +:+
      variable +:+ "=`${m9_fb_line%% *}`; " +:+
      "echo `MICRONUX:M9:FB-SHA256 phase=" +:+ phase +:+ " " +:+
      "sha256=$" +:+ variable +:+ "`; fi; ").

(** ** Effects *)

(** What the interpreter and the platform supply: [sys.executable], the path
    [USB_RESET_ARM], and how [subprocess] describes a fatal signal. *)
Record environment := {
  executable : string;
  USB_RESET_ARM : string;
  died_with : Z → string;
}.

Definition repr_list (l : list string) : string := "[" +:+ str_join ", " (map repr_str l) +:+ "]".

(** [str(CalledProcessError(returncode, cmd))] *)
Definition called_process_error (env : environment) (cmd : list string) (returncode : Z) : string :=
  "Command '" +:+ repr_list cmd +:+ "' " +:+
  (if decide (returncode < 0) then "died with " +:+ died_with env (- returncode) +:+ "."
   else "returned non-zero exit status " +:+ pretty returncode +:+ ".").

Definition READY : string := "MICRONUX:M6:COMBINED:SHELL ready".
Definition CONTINUATION_RE : re := Eval vm_compute in compile false "(?:^|\r?\n)> $".
Definition QUOTE_CLOSERS : list bytes := [encode (String (char_of 34) nl); encode ("'" +:+ nl)].

Definition found {A} (o : option A) : bool := match o with Some _ => true | None => false end.

(** [captured[-n:]] *)
Definition last_chars (n : nat) (s : string) : string :=
  let l := text_chars s in str_join "" (drop (length l - n) l).

Section Session.
Context {W : Type} (H : host W) (env : environment) (fuel : nat).

Definition rom_reset (port : string) : io W unit :=
  subprocess_run H [executable env; USB_RESET_ARM env; "--port"; port] ;;
  let cmd := [executable env; "-m"; "esptool"; "--chip"; "esp32p4"; "--port"; port;
              "--before"; "default-reset"; "--after"; "hard-reset"; "chip-id"] in
  code ← subprocess_run H cmd;
  if decide (code ≠ 0) then raise CalledProcessError (called_process_error env cmd code) else mret tt.

Definition serial_settings (port : string) (write_timeout : Z) : serial_config := {|
  cfg_port := port;
  cfg_baudrate := 115200;
  cfg_timeout := ms 50;
  cfg_write_timeout := Some write_timeout;
  cfg_dsrdtr := false;
  cfg_rtscts := false;
  cfg_dtr := false;
  cfg_rts := false;
|}.

(** One attempt: the body of the [try]. *)
Definition open_attempt (port : string) (clear_input : bool) (write_timeout : Z) : io W device :=
  device ← serial_open H (serial_settings port write_timeout);
  (if clear_input then reset_input_buffer H device else mret tt) ;;
  mret device.

Fixpoint open_loop (n : nat) (port : string) (deadline : Z) (clear_input : bool) (write_timeout : Z)
    : io W device :=
  match n with
  | O => out_of_fuel
  | S n =>
      catch [SerialException] (open_attempt port clear_input write_timeout)
        (λ error,
           now ← monotonic H;
           if decide (deadline ≤ now) then raise (exn_cls error) (exn_msg error)
           else sleep H (ms 100) ;; open_loop n port deadline clear_input write_timeout)
  end.

Definition open_serial (port : string) (timeout : Z) (clear_input : bool) (write_timeout : Z) : io W device :=
  now ← monotonic H;
  open_loop fuel port (now + timeout) clear_input write_timeout.

(** [try: m; except (serial.SerialException, OSError): pass] *)
Definition quietly (m : io W unit) : io W unit := catch [SerialException; OSError] m (λ _, mret tt).

Definition close_serial_quietly (d : device) : io W unit :=
  quietly (set_dtr H d false) ;;
  quietly (set_rts H d false) ;;
  quietly (close H d).

(** The read loop the session shares: until the deadline, read, echo, and hand
    the text captured so far to [on_text], which may end the loop; at the
    deadline [expired] gets the bytes captured. *)
Fixpoint poll {A} (n : nat) (d : device) (deadline : Z) (captured : bytes)
    (on_text : string → io W (option A)) (expired : bytes → io W A) : io W A :=
  match n with
  | O => out_of_fuel
  | S n =>
      now ← monotonic H;
      if decide (now < deadline) then
        chunk ← read H d 4096;
        match chunk with
        | [] => poll n d deadline captured on_text expired
        | _ =>
            let captured := captured ++ chunk in
            stdout_write (decode chunk) ;;
            verdict ← on_text (decode captured);
            match verdict with
            | Some a => mret a
            | None => poll n d deadline captured on_text expired
            end
        end
      else expired captured
  end.

Definition wait_for_shell (d : device) (timeout : Z) : io W string :=
  now ← monotonic H;
  poll fuel d (now + timeout) []
    (λ text,
       if contains READY text && found (search SHELL_PROMPT_RE text) then
         sleep H (ms 200) ;; reset_output_buffer H d ;; mret (Some text)
       else match failure_marker text with
            | Some marker =>
                raise RuntimeError ("kernel failure observed while waiting for shell: " +:+ marker)
            | None => mret None
            end)
    (λ _, raise TimeoutError "Linux USB shell did not become ready").

(** The outer loop of [wait_for_prompt]: a newline, then half a second of reading. *)
Fixpoint prompt_loop (n : nat) (d : device) (deadline : Z) (captured : bytes) : io W string :=
  match n with
  | O => out_of_fuel
  | S n =>
      now ← monotonic H;
      if decide (now < deadline) then
        write H d (encode nl) ;;
        start ← monotonic H;
        r ← poll fuel d (Z.min deadline (start + ms 500)) captured
              (λ text,
                 if found (search SHELL_PROMPT_RE text) then mret (Some (inl text))
                 else match failure_marker text with
                      | Some marker =>
                          raise RuntimeError ("kernel failure observed after USB reconnect: " +:+ marker)
                      | None => mret None
                      end)
              (λ captured, mret (inr captured));
        match r with
        | inl text => mret text
        | inr captured => prompt_loop n d deadline captured
        end
      else raise TimeoutError "Linux USB shell did not return after reconnect"
  end.

Definition wait_for_prompt (d : device) (timeout : Z) : io W string :=
  now ← monotonic H;
  prompt_loop fuel d (now + timeout) [].

Definition capture_passive_output (d : device) (duration : Z) : io W string :=
  now ← monotonic H;
  poll fuel d (now + duration) [] (λ _, mret None) (λ captured, mret (decode captured)).

Definition reopen_reconnect_serial (port : string) (d : device) (deadline : Z) : io W device :=
  close_serial_quietly d ;;
  now ← monotonic H;
  if decide (deadline - now ≤ 0) then raise TimeoutError "Linux USB endpoint did not reactivate" else
  sleep H (Z.min (ms 250) (deadline - now)) ;;
  now ← monotonic H;
  if decide (deadline - now ≤ 0) then raise TimeoutError "Linux USB endpoint did not reactivate" else
  open_serial port (deadline - now) false (seconds 1).

(** [capture_passive_output(device, min(limit, max(0.0, deadline - time.monotonic())))] *)
Definition capture_until (d : device) (limit deadline : Z) : io W string :=
  now ← monotonic H;
  capture_passive_output d (Z.min limit (Z.max 0 (deadline - now))).

(** [try: Some(m) except (serial.SerialException, OSError): None] *)
Definition attempt {A} (m : io W A) : io W (option A) :=
  catch [SerialException; OSError] (a ← m; mret (Some a)) (λ _, mret None).

(** The [try] of the write: the whole payload, then the response. *)
Definition send_closer (d : device) (payload : bytes) (deadline : Z) : io W string :=
  written ← write H d payload;
  (if decide (written ≠ blen payload)
   then raise SerialTimeoutException "short write while recovering USB shell" else mret tt) ;;
  capture_until d (ms 750) deadline.

Fixpoint recover_loop (n : nat) (port : string) (d : device) (deadline : Z) (captured : string)
    (closer_index : nat) : io W (device * string) :=
  match n with
  | O => out_of_fuel
  | S n =>
      now ← monotonic H;
      if decide (now < deadline) then
        first ← attempt (capture_until d (ms 750) deadline);
        match first with
        | None =>
            d ← reopen_reconnect_serial port d deadline;
            recover_loop n port d deadline captured closer_index
        | Some text =>
            let captured := captured +:+ text in
            let continuation := found (search CONTINUATION_RE (last_chars 2048 captured)) in
            let payload :=
              if continuation then nth (closer_index mod length QUOTE_CLOSERS) QUOTE_CLOSERS [] else encode nl in
            let closer_index := if continuation then S closer_index else closer_index in
            let response_start := String.length captured in
            response ← attempt (send_closer d payload deadline);
            match response with
            | Some text =>
                let captured := captured +:+ text in
                if reconnect_prompt_complete captured response_start then mret (d, captured)
                else recover_loop n port d deadline captured closer_index
            | None =>
                late ← attempt (capture_until d (ms 500) deadline);
                let captured := captured +:+ default "" late in
                if reconnect_prompt_complete captured response_start then mret (d, captured)
                else
                  d ← reopen_reconnect_serial port d deadline;
                  recover_loop n port d deadline captured closer_index
            end
        end
      else
        close_serial_quietly d ;;
        raise TimeoutError "Linux USB shell did not become writable after reconnect"
  end.

Definition recover_reconnect_prompt (port : string) (d : device) (timeout : Z) : io W (device * string) :=
  now ← monotonic H;
  recover_loop fuel port d (now + timeout) "" 0.

Definition command_token (label : string) (stamp : Z) : string :=
  "MICRONUX_M9_" +:+ label +:+ "_" +:+ pretty stamp.
Definition command_payload (token command : string) : string :=
  "echo " +:+ token +:+ ":BEGIN; " +:+ command +:+ "; " +:+
  "m9_rc=$?; echo " +:+ token +:+ ":END:$m9_rc" +:+ nl.
Definition end_pattern (token : string) : re := compile false (re_escape token +:+ ":END:(\d+)").

Definition run_command (d : device) (command label : string) (timeout : Z) : io W CommandResult :=
  stamp ← monotonic_ns H;
  let token := command_token label stamp in
  let payload := command_payload token command in
  written ← write H d (encode payload);
  (if decide (written ≠ Z.of_nat (String.length payload))
   then raise SerialTimeoutException ("short serial write: " +:+ label) else mret tt) ;;
  now ← monotonic H;
  poll fuel d (now + timeout) []
    (λ text,
       match failure_marker text with
       | Some marker => raise RuntimeError ("kernel failure observed during " +:+ label +:+ ": " +:+ marker)
       | None =>
           match search (end_pattern token) text with
           | Some m => mret (Some {| output := text; return_code := int_of 10 (group m "1") |})
           | None => mret None
           end
       end)
    (λ _, raise TimeoutError ("serial command timed out: " +:+ label)).

Definition fail (stage detail : string) : io W Z :=
  print ("MICRONUX:M9:HARDWARE-TEST:FAIL stage=" +:+ stage +:+ " detail=" +:+ detail) ;;
  mret 1.

(** ** The boot identity *)

Definition runtime_identity_command : string :=
  sh ("m9_boot_a=`$(cat /proc/sys/kernel/random/boot_id)`; " +:+
      "m9_uptime_a=`$(cat /proc/uptime)`; " +:+
      "echo `MICRONUX:M9.2:RUNTIME sample=a boot_id=$m9_boot_a`; " +:+
      "echo `MICRONUX:M9.2:RUNTIME sample=a uptime=$m9_uptime_a`; " +:+
      "sleep 1; " +:+
      "m9_boot_b=`$(cat /proc/sys/kernel/random/boot_id)`; " +:+
      "m9_uptime_b=`$(cat /proc/uptime)`; " +:+
      "echo `MICRONUX:M9.2:RUNTIME sample=b boot_id=$m9_boot_b`; " +:+
      "echo `MICRONUX:M9.2:RUNTIME sample=b uptime=$m9_uptime_b`").

Definition BOOT_SAMPLE_RE : re := Eval vm_compute in compile true (
  "^MICRONUX:M9\.2:RUNTIME sample=([ab]) boot_id=" +:+
  "([0-9a-f]{8}-[0-9a-f]{4}-[0-9a-f]{4}-" +:+
  "[0-9a-f]{4}-[0-9a-f]{12})\r?$").
Definition UPTIME_SAMPLE_RE : re := Eval vm_compute in compile true (
  "^MICRONUX:M9\.2:RUNTIME sample=([ab]) uptime=" +:+
  "([0-9]+(?:\.[0-9]+)?) [0-9]+(?:\.[0-9]+)?\r?$").

(** The two texts sampled as [a] and then [b], if the samples are just these. *)
Definition ab_samples (samples : list (list string)) : option (string * string) :=
  match samples with
  | [[la; a]; [lb; b]] => if decide (la = "a" ∧ lb = "b") then Some (a, b) else None
  | _ => None
  end.

(** What the identity samples say: a problem, or the boot id and the uptimes. *)
Definition identity_samples (text : string) : string + (string * string * string) :=
  match ab_samples (findall BOOT_SAMPLE_RE text) with
  | None => inl "boot-id-samples-invalid"
  | Some (id_a, id_b) =>
      if decide (id_a ≠ id_b) then inl "boot-id-changed"
      else match ab_samples (findall UPTIME_SAMPLE_RE text) with
           | None => inl "uptime-samples-invalid"
           | Some (up_a, up_b) =>
               if fle (float_of_string up_b) (float_of_string up_a) then inl "uptime-not-advancing"
               else inr (id_a, up_a, up_b)
           end
  end.

Definition verify_runtime_identity (d : device) : io W (option string) :=
  identity ← run_command d runtime_identity_command "RUNTIME_IDENTITY" (seconds 20);
  if decide (return_code identity ≠ 0) then mret (Some ("command-rc-" +:+ pretty (return_code identity)))
  else match identity_samples (output identity) with
       | inl problem => mret (Some problem)
       | inr (boot_id, up_a, up_b) =>
           print ("MICRONUX:M9.2:RUNTIME state=verified " +:+
                  "boot_id=" +:+ boot_id +:+ " uptime=" +:+ up_a +:+ "->" +:+ up_b) ;;
           mret None
       end.

Definition touch_terminal_command : string :=
  sh ("D=" +:+ DISPLAY_SYSFS +:+ "; m9_touch_wait=0; m9_touch_state=registering; " +:+
      "while [ `$m9_touch_wait` -lt 20 ]; do " +:+
      "m9_touch_state=`$(cat `$D/touch` 2>/dev/null)` || exit 2; " +:+
      "if [ `$m9_touch_state` != registering ]; then break; fi; " +:+
      "m9_touch_wait=$((m9_touch_wait + 1)); sleep 1; done; " +:+
      "printf `%s\n` `$m9_touch_state`; " +:+
      "test `$m9_touch_state` != registering").

Definition wait_for_touch_terminal (d : device) : io W (option string) :=
  result ← run_command d touch_terminal_command "TOUCH_TERMINAL" (seconds 30);
  if decide (return_code result ≠ 0)
  then mret (Some ("touch-terminal-command-rc-" +:+ pretty (return_code result)))
  else if found (search TOUCH_LINE_RE (output result)) then mret None
  else mret (Some "touch-terminal-state-invalid").

End Session.

(** ** Termination of the waiting loops *)

Section Termination.
Context {W : Type} (H : host W) `{!TimedHost H} (fuel : nat).
Implicit Types s : st W.

Lemma poll_wp {A} n d deadline captured (on_text : string → io W (option A)) expired
    (Q : result A → st W → Prop) s0 s :
  rounds_left H n deadline s → time H s0 ≤ time H s →
  (∀ text, steady H (on_text text)) →
  (∀ r s', time H s0 ≤ time H s' → match r with Ok _ => True | Err _ => Q r s' end) →
  (∀ a s' text s1, on_text text s1 = Some (Ok (Some a), s') → time H s0 ≤ time H s' → Q (Ok a) s') →
  (∀ captured s', time H s0 ≤ time H s' → deadline ≤ time H s' → wp (expired captured) Q s') →
  wp (poll H n d deadline captured on_text expired) Q s.
Proof.
  intros Hn Hs0 Htext Herr Hdone Hexp. pose proof (tick_range (H := H)) as Htick.
  revert captured s Hn Hs0.
  induction n as [|n IH]; intros captured s Hn Hs0; [destruct Hn; lia|].
  cbn [poll]. apply wp_bind, (wp_monotonic H). intros s1 H1 _.
  destruct (decide (time H s1 < deadline)) as [Hlt|]; [|apply Hexp; lia].
  apply wp_bind, (wp_read H); [|intros e s2 ?; apply (Herr (Err e)); lia].
  intros chunk s2 H2. assert (rounds_left H n deadline s2) as Hn2 by (eapply rounds_step; eauto; lia).
  destruct chunk as [|b chunk]; [apply IH; [done|lia]|].
  apply wp_bind. cbn [wp stdout_write]. unfold wp at 1, stdout_write.
  apply wp_bind. set (s3 := mkSt _ _ _). set (text := decode _).
  assert (time H s3 = time H s2) as E3 by done.
  unfold wp at 1. specialize (Htext text s3). unfold wp in Htext.
  destruct (on_text text s3) as [[[[a|]|e] s4]|] eqn:E; [| | |done].
  - eapply Hdone; [exact E|lia].
  - apply IH; [|lia]. destruct Hn2 as [? ?]. split; [done|]. nia.
  - apply (Herr (Err e)). lia.
Qed.

Lemma poll_lasting {A} d timeout (on_text : string → io W (option A)) expired :
  lasts H fuel timeout → (∀ text, steady H (on_text text)) → (∀ captured, steady H (expired captured)) →
  steady H (now ← monotonic H; poll H fuel d (now + timeout) [] on_text expired).
Proof.
  intros Hto Htext Hexp s. apply wp_bind, (wp_monotonic H). intros s1 H1 _.
  apply (poll_wp _ _ _ _ _ _ _ s1); [apply (rounds_lasting H fuel timeout); [done|lia] | lia | done | | |].
  - intros [] s' ?; [done|lia].
  - intros a s' text s2 _ ?. lia.
  - intros captured s' ? _. eapply wp_mono; [apply Hexp|]. cbn. lia.
Qed.

Lemma run_command_lasting d command label timeout :
  lasts H fuel timeout → steady H (run_command H fuel d command label timeout).
Proof.
  intros Hto. unfold run_command.
  apply steady_bind; [apply (steady_monotonic H)|]. intros stamp.
  apply steady_bind; [by steady_step|]. intros written.
  apply steady_bind; [case_decide; steady_step|]. intros _.
  apply poll_lasting; [done| |intros; steady_step].
  intros text. destruct (failure_marker text); [steady_step|].
  destruct (search _ text); steady_step.
Qed.

(** The same for the timeouts of the M9 gate. *)
Context (Hfuel : enough H fuel).

Lemma poll_steady {A} d timeout (on_text : string → io W (option A)) expired :
  timeout ≤ seconds 1000 → (∀ text, steady H (on_text text)) → (∀ captured, steady H (expired captured)) →
  steady H (now ← monotonic H; poll H fuel d (now + timeout) [] on_text expired).
Proof. intros. by apply poll_lasting; [apply enough_lasts|..]. Qed.

Lemma run_command_steady d command label timeout :
  timeout ≤ seconds 1000 → steady H (run_command H fuel d command label timeout).
Proof. intros. by apply run_command_lasting, enough_lasts. Qed.

Lemma wait_for_shell_steady d timeout :
  timeout ≤ seconds 1000 → steady H (wait_for_shell H fuel d timeout).
Proof.
  intros Hto. apply poll_steady; [done| |intros; steady_step].
  intros text. case_match; [repeat steady_step|]. destruct (failure_marker text); steady_step.
Qed.

(** A passive capture ends at its deadline, unless the device fails. *)
Lemma capture_passive_wp d duration s : duration ≤ seconds 1000 →
  wp (capture_passive_output H fuel d duration)
    (λ r s', time H s ≤ time H s' ∧ match r with Ok _ => time H s + duration ≤ time H s' | Err _ => True end) s.
Proof.
  intros Hto. apply wp_bind, (wp_monotonic H). intros s1 H1 _.
  apply (poll_wp _ _ _ _ _ _ _ s1); [apply rounds_enough; [done|lia] | lia | intros; steady_step | | |].
  - intros [] s' ?; [done|lia].
  - by intros a s' text s2 [=].
  - intros captured s' ? ?. cbn. lia.
Qed.

Lemma capture_passive_steady d duration :
  duration ≤ seconds 1000 → steady H (capture_passive_output H fuel d duration).
Proof. intros Hto s. eapply wp_mono; [by apply capture_passive_wp|]. by intros r s' []. Qed.

Lemma capture_until_wp d limit deadline s : 0 ≤ limit ≤ seconds 1000 →
  wp (capture_until H fuel d limit deadline)
    (λ r s', time H s ≤ time H s' ∧
             match r with Ok _ => Z.min deadline (time H s + limit) ≤ time H s' | Err _ => True end) s.
Proof.
  intros Hlim. apply wp_bind, (wp_monotonic H). intros s1 H1 _.
  eapply wp_mono; [apply capture_passive_wp; lia|]. intros r s' [? Hr].
  split; [lia|]. destruct r; [lia|done].
Qed.

Lemma close_quietly_steady d : steady H (close_serial_quietly H d).
Proof. unfold close_serial_quietly, quietly. repeat steady_step. Qed.

Lemma open_loop_wp n port deadline clear wt s : rounds_left H n deadline s →
  wp (open_loop H n port deadline clear wt) (λ _ s', time H s ≤ time H s') s.
Proof.
  pose proof (tick_range (H := H)) as Htick. revert s.
  induction n as [|n IH]; intros s Hn; [destruct Hn; lia|]. cbn [open_loop].
  apply wp_catch. eapply wp_mono.
  { apply (steady_bind H); [by steady_step|]. intros d.
    apply (steady_bind H); [destruct clear; steady_step|intros; steady_step]. }
  intros [d|e] s1 H1; [done|]. cbn beta. destruct (caught _ e); [|done].
  apply wp_bind, (wp_monotonic H). intros s2 H2 _.
  case_decide; [cbn; lia|].
  apply wp_bind, (wp_sleep H); [unfold ms; lia|]. intros s3 H3.
  eapply wp_mono; [apply IH; eapply (rounds_step H n deadline s s2); unfold ms in *; eauto; lia|].
  cbn. unfold ms in *. lia.
Qed.

Lemma open_serial_steady port timeout clear wt :
  timeout ≤ seconds 1000 → steady H (open_serial H fuel port timeout clear wt).
Proof.
  intros Hto s. apply wp_bind, (wp_monotonic H). intros s1 H1 _.
  eapply wp_mono; [apply open_loop_wp, rounds_enough; [done|lia]|]. cbn. lia.
Qed.

(** Reopening takes a quarter of a second, and gives up at the deadline. *)
Lemma reopen_wp port d deadline s : deadline ≤ time H s + seconds 1000 →
  wp (reopen_reconnect_serial H fuel port d deadline)
    (λ r s', time H s ≤ time H s' ∧
             match r with Ok _ => time H s < deadline ∧ time H s + ms 250 ≤ time H s' | Err _ => True end) s.
Proof.
  intros Hdl. unfold reopen_reconnect_serial.
  apply wp_bind. eapply wp_mono; [apply close_quietly_steady|]. intros [u|e] s0 T0; [|done].
  apply wp_bind, (wp_monotonic H). intros s1 T1 _. case_decide; [cbn; lia|].
  apply wp_bind, (wp_sleep H); [unfold ms; lia|]. intros s2 T2.
  apply wp_bind, (wp_monotonic H). intros s3 T3 _. case_decide; [cbn; unfold ms in *; lia|].
  eapply wp_mono; [apply open_serial_steady; unfold ms in *; lia|].
  intros r s' ?. unfold ms in *. split; [lia|]. destruct r; [lia|done].
Qed.

Lemma wp_attempt {A} (m : io W A) (Q : result (option A) → st W → Prop) s :
  wp m (λ r s', match r with
                | Ok a => Q (Ok (Some a)) s'
                | Err e => Q (Ok None) s' ∧ Q (Err e) s'
                end) s → wp (attempt m) Q s.
Proof.
  intros Hm. unfold attempt. apply wp_catch, wp_bind. eapply wp_mono; [exact Hm|].
  intros [a|e] s'; [done|]. intros [? ?]. by destruct (caught _ e).
Qed.

Lemma send_closer_steady d payload deadline : steady H (send_closer H fuel d payload deadline).
Proof.
  unfold send_closer. apply (steady_bind H); [by steady_step|]. intros written.
  apply (steady_bind H); [case_decide; steady_step|]. intros _ s.
  eapply wp_mono; [apply capture_until_wp; unfold ms, seconds; lia|]. by intros r s' [].
Qed.

Lemma capture_until_steady d limit deadline :
  0 ≤ limit ≤ seconds 1000 → steady H (capture_until H fuel d limit deadline).
Proof. intros Hl s. eapply wp_mono; [by apply capture_until_wp|]. by intros r s' []. Qed.

Lemma attempt_steady {A} (m : io W A) : steady H m → steady H (attempt m).
Proof. intros Hm. unfold attempt. by repeat steady_step. Qed.

Lemma recover_loop_wp n port d deadline captured i s :
  rounds_left H n deadline s → deadline ≤ time H s + seconds 1000 →
  wp (recover_loop H fuel n port d deadline captured i) (λ _ s', time H s ≤ time H s') s.
Proof.
  pose proof (tick_range (H := H)) as Htick. revert d captured i s.
  induction n as [|n IH]; intros d captured i s Hn Hdl; [destruct Hn; lia|]. cbn [recover_loop].
  apply wp_bind, (wp_monotonic H). intros s1 T1 _. destruct (decide (time H s1 < deadline)) as [Hlt|].
  2: { apply wp_bind. eapply wp_mono; [apply close_quietly_steady|].
       intros [u|e] s2 T2; [cbn|]; unfold time in *; lia. }
  assert (∀ d captured i s', time H s ≤ time H s' → rounds_left H n deadline s' →
            wp (recover_loop H fuel n port d deadline captured i) (λ _ s', time H s ≤ time H s') s') as Hnext.
  { intros ? ? ? s' ? ?. eapply wp_mono; [apply IH; [done|lia]|]. cbn. lia. }
  assert (∀ d captured i s', time H s1 ≤ time H s' →
            wp (d ← reopen_reconnect_serial H fuel port d deadline;
                recover_loop H fuel n port d deadline captured i) (λ _ s', time H s ≤ time H s') s') as Hreopen.
  { intros d' c' i' s' T'. apply wp_bind. eapply wp_mono; [apply reopen_wp; lia|].
    intros [d''|e] s2 [T2 R2]; [|lia]. apply Hnext; [lia|].
    eapply (rounds_step H n deadline s s1); [done..|]. unfold ms in *. lia. }
  apply wp_bind, wp_attempt. eapply wp_mono; [apply capture_until_wp; unfold ms, seconds; lia|].
  intros [text|e] s2 [T2 R2]; [|split; [by apply Hreopen|lia]].
  assert (rounds_left H n deadline s2) as Hn2.
  { eapply (rounds_step H n deadline s s1); [done..|]. unfold ms in *. lia. }
  assert (∀ s', time H s2 ≤ time H s' → rounds_left H n deadline s') as Hlater.
  { destruct Hn2. intros. split; [done|]. lia. }
  apply wp_bind. eapply wp_mono; [apply attempt_steady, send_closer_steady|].
  intros [[response|]|e] s3 T3; [| |lia]; cbn beta match.
  - case_match; [cbn; lia|]. apply Hnext; [lia|]. by apply Hlater.
  - apply wp_bind. eapply wp_mono; [apply attempt_steady, capture_until_steady; unfold ms, seconds; lia|].
    intros [late|e] s4 T4; [|lia]. cbn beta match. case_match; [cbn; lia|]. apply Hreopen. lia.
Qed.

Lemma recover_steady port d timeout :
  timeout ≤ seconds 1000 → steady H (recover_reconnect_prompt H fuel port d timeout).
Proof.
  intros Hto s. apply wp_bind, (wp_monotonic H). intros s1 T1 _.
  eapply wp_mono; [apply recover_loop_wp; [apply rounds_enough; [done|]|]; lia|]. cbn. lia.
Qed.

Lemma identity_steady d : steady H (verify_runtime_identity H fuel d).
Proof.
  apply (steady_bind H); [by apply run_command_steady|]. intros r.
  case_decide; [steady_step|]. destruct (identity_samples (output r)) as [p|[[b u] v]]; repeat steady_step.
Qed.

Lemma touch_terminal_steady d : steady H (wait_for_touch_terminal H fuel d).
Proof.
  apply (steady_bind H); [by apply run_command_steady|]. intros r.
  case_decide; [steady_step|]. case_match; steady_step.
Qed.

Lemma rom_reset_steady env port : steady H (rom_reset H env port).
Proof. unfold rom_reset. repeat steady_step. Qed.

End Termination.

(** ** What a command returns *)

Section Transcript.
Context {W : Type} (H : host W).
Implicit Types s : st W.

(** The reads of a poll: empty ones, and chunks, which are echoed. *)
Inductive received (d : device) (deadline : Z) : st W → list bytes → st W → Prop :=
  | received_none s : received d deadline s [] s
  | received_idle s now s1 s2 chunks s3 :
      monotonic H s = Some (Ok now, s1) → now < deadline → read H d 4096 s1 = Some (Ok [], s2) →
      received d deadline s2 chunks s3 → received d deadline s chunks s3
  | received_chunk s now s1 chunk s2 chunks s3 :
      monotonic H s = Some (Ok now, s1) → now < deadline → read H d 4096 s1 = Some (Ok chunk, s2) →
      chunk ≠ [] → received d deadline (mkSt (world s2) (stdout s2 +:+ decode chunk) (stderr s2)) chunks s3 →
      received d deadline s (chunk :: chunks) s3.

(** What [on_text] decides of a text: nothing yet, a value, or an exception. *)
Definition deciding {A} (decides : string → option (result A)) (text : string) : io W (option A) :=
  match decides text with
  | None => mret None
  | Some (Ok a) => mret (Some a)
  | Some (Err e) => raise (exn_cls e) (exn_msg e)
  end.

(** Nothing was decided on the text after any of the chunks. *)
Definition undecided {A} (decides : string → option (result A)) (captured : bytes) (chunks : list bytes) : Prop :=
  ∀ k, (0 < k ≤ length chunks)%nat → decides (decode (captured ++ concat (take k chunks))) = None.

Lemma undecided_cons {A} (decides : string → option (result A)) captured chunk chunks :
  decides (decode (captured ++ chunk)) = None → undecided decides (captured ++ chunk) chunks →
  undecided decides captured (chunk :: chunks).
Proof.
  intros H0 Hk [|[|k]] Hlen; cbn in *; [lia|by rewrite take_0, app_nil_r|].
  rewrite app_assoc. apply Hk. lia.
Qed.

(** How a poll ends: decided by the text after its last chunk, at the deadline,
    or by a read that raised. *)
Inductive poll_end {A} (d : device) (deadline : Z) (decides : string → option (result A))
    (expired : result A) (captured : bytes) (s : st W) : result A → st W → Prop :=
  | ends_decided chunks chunk r s' :
      received d deadline s (chunks ++ [chunk]) s' → undecided decides captured chunks →
      decides (decode (captured ++ concat (chunks ++ [chunk]))) = Some r →
      poll_end d deadline decides expired captured s r s'
  | ends_expired chunks s1 now s' :
      received d deadline s chunks s1 → undecided decides captured chunks →
      monotonic H s1 = Some (Ok now, s') → deadline ≤ now →
      poll_end d deadline decides expired captured s expired s'
  | ends_failed chunks s1 now s2 e s' :
      received d deadline s chunks s1 → undecided decides captured chunks →
      monotonic H s1 = Some (Ok now, s2) → now < deadline → read H d 4096 s2 = Some (Err e, s') →
      poll_end d deadline decides expired captured s (Err e) s'.

Lemma monotonic_ok s : ∃ now s', monotonic H s = Some (Ok now, s').
Proof. unfold monotonic, monotonic_ns, effect. destruct (h_monotonic_ns H (world s)); eauto. Qed.

Lemma read_some d n s : ∃ r s', read H d n s = Some (r, s').
Proof. unfold read, effect. destruct (h_read H d n (world s)); eauto. Qed.

Lemma poll_ends {A} n d deadline captured (decides : string → option (result A)) c msg s r s' :
  poll H n d deadline captured (deciding decides) (λ _, raise c msg) s = Some (r, s') →
  poll_end d deadline decides (Err (Exn c msg)) captured s r s'.
Proof.
  revert captured s. induction n as [|n IH]; intros captured s; [done|]. cbn [poll].
  unfold mbind at 1, io_bind at 1. destruct (monotonic_ok s) as (now & s1 & E1). rewrite E1.
  case_decide as Hnow.
  2: { intros [= <- <-]. eapply ends_expired; [apply received_none| |exact E1|lia].
       intros k Hk. cbn in Hk. lia. }
  unfold mbind at 1, io_bind at 1. destruct (read_some d 4096 s1) as ([chunk|e] & s2 & E2); rewrite E2.
  2: { intros [= <- <-]. eapply ends_failed; [apply received_none| |done..]. intros k Hk. cbn in Hk. lia. }
  destruct chunk as [|b chunk'].
  { intros [chunks chunk r' s'' Hr Hu Hd|chunks s3 now' s'' Hr Hu ? ?|chunks s3 now' s4 e s'' Hr Hu ? ? ?]%IH.
    - eapply ends_decided; [by eapply received_idle|done..].
    - eapply ends_expired; [by eapply received_idle|done..].
    - eapply ends_failed; [by eapply received_idle|done..]. }
  set (chunk := b :: chunk') in *. assert (chunk ≠ []) as Hne by done.
  unfold mbind at 1, io_bind at 1. cbn [stdout_write].
  change (stdout_write (decode chunk) s2) with (Some (Ok tt, mkSt (world s2) (stdout s2 +:+ decode chunk) (stderr s2))).
  cbv beta iota. unfold mbind at 1, io_bind at 1, deciding at 1.
  destruct (decides (decode (captured ++ chunk))) as [[a|[ec em]]|] eqn:Ed.
  1-2: intros [= <- <-]; eapply (ends_decided _ _ _ _ _ _ [] chunk);
    [by eapply received_chunk, received_none | intros k Hk; cbn in Hk; lia | cbn [app concat]; by rewrite app_nil_r].
  intros [chunks chunk2 r' s'' Hr Hu Hd|chunks s3 now' s'' Hr Hu ? ?|chunks s3 now' s4 e s'' Hr Hu ? ? ?]%IH.
  - eapply (ends_decided _ _ _ _ _ _ (chunk :: chunks)); [by eapply received_chunk|by apply undecided_cons|].
    cbn [concat app]. by rewrite app_assoc.
  - eapply (ends_expired _ _ _ _ _ _ (chunk :: chunks)); [by eapply received_chunk|by apply undecided_cons|done..].
  - eapply (ends_failed _ _ _ _ _ _ (chunk :: chunks)); [by eapply received_chunk|by apply undecided_cons|done..].
Qed.

Lemma poll_ext {A} n d deadline captured (f g : string → io W (option A)) expired s :
  (∀ text s, f text s = g text s) →
  poll H n d deadline captured f expired s = poll H n d deadline captured g expired s.
Proof.
  intros Hfg. revert captured s. induction n as [|n IH]; intros captured s; [done|]. cbn [poll].
  unfold mbind, io_bind. destruct (monotonic H s) as [[[now|e] s1]|]; [|done..].
  case_decide; [|done]. destruct (read H d 4096 s1) as [[[[|b chunk]|e] s2]|]; [apply IH| |done..].
  destruct (stdout_write _ s2) as [[[u|e] s3]|]; [|done..]. rewrite Hfg.
  destruct (g _ s3) as [[[[a|]|e] s4]|]; [done|apply IH|done..].
Qed.

Context (fuel : nat).

(** What a command's reply says: a kernel failure comes first, then the end mark. *)
Definition reply_decides (label token text : string) : option (result CommandResult) :=
  match failure_marker text with
  | Some marker =>
      Some (Err (Exn RuntimeError ("kernel failure observed during " +:+ label +:+ ": " +:+ marker)))
  | None =>
      (λ m, Ok {| output := text; return_code := int_of 10 (group m "1") |}) <$> search (end_pattern token) text
  end.

(** The outcomes of a command: the write raises, it is cut short, or the reply is
    polled until the deadline. *)
Inductive command_outcome (d : device) (command label : string) (timeout : Z) (s : st W)
    : result CommandResult → st W → Prop :=
  | write_failed stamp s1 e s' :
      monotonic_ns H s = Some (Ok stamp, s1) →
      write H d (encode (command_payload (command_token label stamp) command)) s1 = Some (Err e, s') →
      command_outcome d command label timeout s (Err e) s'
  | write_short stamp s1 written s' :
      monotonic_ns H s = Some (Ok stamp, s1) →
      write H d (encode (command_payload (command_token label stamp) command)) s1 = Some (Ok written, s') →
      written ≠ Z.of_nat (String.length (command_payload (command_token label stamp) command)) →
      command_outcome d command label timeout s
        (Err (Exn SerialTimeoutException ("short serial write: " +:+ label))) s'
  | replied stamp s1 written s2 now s3 r s' :
      monotonic_ns H s = Some (Ok stamp, s1) →
      write H d (encode (command_payload (command_token label stamp) command)) s1 = Some (Ok written, s2) →
      written = Z.of_nat (String.length (command_payload (command_token label stamp) command)) →
      monotonic H s2 = Some (Ok now, s3) →
      poll_end d (now + timeout) (reply_decides label (command_token label stamp))
        (Err (Exn TimeoutError ("serial command timed out: " +:+ label))) [] s3 r s' →
      command_outcome d command label timeout s r s'.

Lemma run_command_wlp d command label timeout s :
  wlp (run_command H fuel d command label timeout) (command_outcome d command label timeout s) s.
Proof.
  unfold wlp. destruct (run_command _ _ _ _ _ _ s) as [[r s']|] eqn:E; [|done]. revert E.
  unfold run_command. unfold mbind at 1, io_bind at 1.
  destruct (monotonic_ok s) as (stamp & s1 & E1). unfold monotonic in E1. rewrite E1.
  unfold mbind at 1, io_bind at 1.
  destruct (write H d _ s1) as [[[written|e] s2]|] eqn:E2; [|intros [= <- <-]; by eapply write_failed|done].
  unfold mbind at 1, io_bind at 1. case_decide as Hw; [intros [= <- <-]; by eapply write_short|].
  change ((mret () : io W unit) s2) with (Some (Ok tt, s2) : option (result unit * st W)). cbv beta iota.
  unfold mbind at 1, io_bind at 1. destruct (monotonic_ok s2) as (now & s3 & E3). rewrite E3.
  rewrite (poll_ext _ _ _ _ _ (deciding (reply_decides label (command_token label stamp)))).
  - intros Hp%poll_ends. apply (replied _ _ _ _ _ stamp s1 written s2 now s3); done.
  - intros text s0. unfold deciding, reply_decides. destruct (failure_marker text); [done|].
    by destruct (search _ text).
Qed.

(** The reply of a command that returns: all that was read, without a failure
    marker, with the end mark. *)
Lemma run_command_reply d command label timeout s r s' :
  run_command H fuel d command label timeout s = Some (Ok r, s') →
  failure_marker (output r) = None ∧
  ∃ stamp m, search (end_pattern (command_token label stamp)) (output r) = Some m
             ∧ return_code r = int_of 10 (group m "1").
Proof.
  intros E. pose proof (run_command_wlp d command label timeout s) as Ho. unfold wlp in Ho.
  rewrite E in Ho. inversion Ho as [| |stamp s1 w s2 now s3 r' s'' _ _ _ _ Hp]; subst.
  inversion Hp as [chunks chunk r' s'' _ _ Hd| |]; subst. revert Hd. unfold reply_decides.
  destruct (failure_marker _) eqn:Ef; [by intros [=]|].
  destruct (search _ _) as [m|] eqn:Em; [|by intros [=]].
  intros [= <-]. split; [exact Ef|]. exists stamp, m. split; [exact Em|reflexivity].
Qed.

End Transcript.

(** ** The contract of a command *)

Section Contract.
Context {W : Type} (H : host W) `{!TimedHost H} (fuel : nat).
Implicit Types s : st W.

Lemma monotonic_time s now s' : monotonic H s = Some (Ok now, s') → now = time H s' ∧ time H s ≤ time H s' ∧ stdout s' = stdout s.
Proof.
  intros E. pose proof (wp_monotonic H (λ r s', r = Ok (time H s') ∧ time H s ≤ time H s' ∧ stdout s' = stdout s) s) as Hw.
  unfold wp in Hw. rewrite E in Hw. destruct Hw as ([= ->] & ? & ?); [by intros|done].
Qed.

Lemma read_time d n s r s' : read H d n s = Some (r, s') → time H s ≤ time H s' ∧ stdout s' = stdout s.
Proof.
  unfold read, effect. pose proof (read_later d n (world s)) as L.
  destruct (h_read H d n (world s)). intros [= <- <-]. by split.
Qed.

(** What a poll received was echoed, and took time. *)
Lemma received_echo d deadline s chunks s' : received H d deadline s chunks s' →
  time H s ≤ time H s' ∧ stdout s' = stdout s +:+ str_join "" (map decode chunks).
Proof.
  induction 1 as [s|s now s1 s2 chunks s3 E1 _ E2 _ [IH IH']|s now s1 chunk s2 chunks s3 E1 _ E2 _ _ [IH IH']].
  - by rewrite str_app_nil.
  - apply monotonic_time in E1 as (_ & ? & ?). apply read_time in E2 as [? ?]. split; [lia|congruence].
  - apply monotonic_time in E1 as (_ & ? & ?). apply read_time in E2 as [? ?]. split; [unfold time in *; cbn in *; lia|].
    cbn [map]. rewrite join_cons, str_app_assoc. cbn [stdout] in IH'. congruence.
Qed.

(** What the gate has been told when a command ends: [chunks] were read and echoed, and
    none of them but the last completed the reply or showed a failure. *)
Definition command_contract (d : device) (command label : string) (timeout : Z) (s : st W)
    (r : result CommandResult) (s' : st W) : Prop :=
  ∃ stamp chunks,
    let token := command_token label stamp in
    let payload := command_payload token command in
    let text k := decode (concat (take k chunks)) in
    let silent k := failure_marker (text k) = None ∧ search (end_pattern token) (text k) = None in
    time H s ≤ stamp ≤ time H s'
    ∧ stdout s' = stdout s +:+ str_join "" (map decode chunks)
    ∧ (∀ k, (0 < k < length chunks)%nat → silent k)
    ∧ match r with
      | Ok reply =>
          output reply = decode (concat chunks) ∧ failure_marker (output reply) = None
          ∧ ∃ m, search (end_pattern token) (output reply) = Some m ∧ return_code reply = int_of 10 (group m "1")
      | Err e =>
          (∃ marker, failure_marker (decode (concat chunks)) = Some marker
             ∧ e = Exn RuntimeError ("kernel failure observed during " +:+ label +:+ ": " +:+ marker))
          ∨ (e = Exn TimeoutError ("serial command timed out: " +:+ label)
             ∧ time H s + timeout ≤ time H s' ∧ (∀ k, (0 < k ≤ length chunks)%nat → silent k))
          ∨ (e = Exn SerialTimeoutException ("short serial write: " +:+ label) ∧ chunks = []
             ∧ ∃ w n, (h_write H d (encode payload) w).1 = Ok n ∧ n ≠ blen (encode payload))
          ∨ (∃ w, (h_write H d (encode payload) w).1 = Err e ∨ (h_read H d 4096 w).1 = Err e)
      end.

Lemma undecided_silent label token chunks k :
  undecided (reply_decides label token) [] chunks → (0 < k ≤ length chunks)%nat →
  failure_marker (decode (concat (take k chunks))) = None ∧ search (end_pattern token) (decode (concat (take k chunks))) = None.
Proof.
  intros Hu Hk. specialize (Hu k Hk). cbn [app] in Hu. unfold reply_decides in Hu.
  destruct (failure_marker _); [done|]. by destruct (search _ _).
Qed.

Lemma poll_end_contract d command label timeout stamp s s3 now r s' :
  time H s ≤ stamp ≤ time H s3 → now = time H s3 → stdout s3 = stdout s →
  poll_end H d (now + timeout) (reply_decides label (command_token label stamp))
    (Err (Exn TimeoutError ("serial command timed out: " +:+ label))) [] s3 r s' →
  command_contract d command label timeout s r s'.
Proof.
  intros Hst Hnow Hout [chunks chunk r' s'' Hr Hu Hd|chunks s4 now' s'' Hr Hu E Hdl|chunks s4 now' s5 e s'' Hr Hu E1 Hlt E2].
  - apply received_echo in Hr as [Ht Ho]. exists stamp, (chunks ++ [chunk]). cbv zeta. split; [lia|]. split; [congruence|]. split.
    { intros k. rewrite length_app. cbn [length]. intros Hk. rewrite take_app_le by lia. eapply undecided_silent; [done|lia]. }
    cbn [app] in Hd. unfold reply_decides in Hd. destruct (failure_marker _) as [marker|] eqn:Em.
    + injection Hd as <-. left. by exists marker.
    + destruct (search _ _) as [m|] eqn:Es; [|done]. injection Hd as <-. split_and!; [done|exact Em|by exists m].
  - apply received_echo in Hr as [Ht Ho]. apply monotonic_time in E as (-> & ? & ?). exists stamp, chunks. cbv zeta.
    split; [lia|]. split; [congruence|]. split; [intros; eapply undecided_silent; [done|lia]|]. right. left.
    split; [done|]. split; [lia|]. intros. by eapply undecided_silent.
  - apply received_echo in Hr as [Ht Ho]. apply monotonic_time in E1 as (_ & ? & ?). pose proof (read_time _ _ _ _ _ E2) as [? ?].
    exists stamp, chunks. cbv zeta. split; [lia|]. split; [congruence|]. split; [intros; eapply undecided_silent; [done|lia]|].
    do 3 right. exists (world s5). right. unfold read, effect in E2. destruct (h_read H d 4096 (world s5)). by injection E2 as -> _.
Qed.

Lemma outcome_contract d command label timeout s r s' :
  command_outcome H d command label timeout s r s' → command_contract d command label timeout s r s'.
Proof.
  assert (∀ p s1 r s2, write H d p s1 = Some (r, s2) →
    time H s1 ≤ time H s2 ∧ stdout s2 = stdout s1 ∧ (h_write H d p (world s1)).1 = r) as Hwrite.
  { intros p s1 r' s2. unfold write, effect. pose proof (write_later d p (world s1)).
    destruct (h_write H d p (world s1)). by intros [= <- <-]. }
  intros [stamp s1 e s2 E1 E2|stamp s1 written s2 E1 E2 Hn|stamp s1 written s2 now s3 r' s4 E1 E2 _ E3 Hp].
  - apply monotonic_time in E1 as (-> & ? & ?). apply Hwrite in E2 as (? & ? & E2). exists (time H s1), []. cbv zeta.
    split; [lia|]. split; [rewrite str_app_nil; congruence|]. split; [cbn; lia|]. do 3 right. exists (world s1). by left.
  - apply monotonic_time in E1 as (-> & ? & ?). apply Hwrite in E2 as (? & ? & E2). exists (time H s1), []. cbv zeta.
    split; [lia|]. split; [rewrite str_app_nil; congruence|]. split; [cbn; lia|]. do 2 right. left. split; [done|].
    split; [done|]. exists (world s1), written. split; [done|]. unfold blen. by rewrite length_encode.
  - apply monotonic_time in E1 as (-> & ? & ?). apply Hwrite in E2 as (? & ? & _). apply monotonic_time in E3 as (-> & ? & ?).
    eapply poll_end_contract; [| |idtac|exact Hp]; [lia|done|congruence].
Qed.


End Contract.

