(* ===== verification/Commands.v ===== *)
(** * The shell commands of the M9 hardware gate

    The texts scripts/m9-hardware-test.py sends to the board's shell, from its
    [run_command] calls; [sh] turns the back quotes of the definitions into the
    double quotes of the script. *)

From S2P Require Import Prelude PyStr Regex Session.

(** [shlex.quote(s)] of an ASCII text *)
Definition SAFE_RE : re := Eval vm_compute in compile false "[^A-Za-z0-9_@%+=:,./\-]".
Definition shlex_quote (s : string) : string :=
  if decide (s = "") then "''"
  else if found (search SAFE_RE s)
  then "'" +:+ str_replace "'" (sh "'`'`'") s +:+ "'"
  else s.

(** ** [run_preflight] *)

Definition check_command : string :=
  sh ("micronux-display-test check").

Definition display_sysfs_command : string :=
  sh ("D=" +:+ DISPLAY_SYSFS +:+ "; B=/sys/class/backlight/micronux-backlight; test `$(cat `$D/native_state`)` " +:+
      "= RUNTIME_REVEALED && test `$(cat `$D/pattern`)` = framebuffer && test `$(cat " +:+
      "`$D/boot_ready`)` = 1 && test `$(cat `$B/brightness`)` = 63 && test `$(cat " +:+
      "`$B/bl_power`)` = 0 && test `$(cat `$B/actual_brightness`)` = 63 && { cat " +:+
      "`$D/native_state`; cat `$D/ownership`; cat `$D/diagnostics`; cat " +:+
      "`$D/scanout`; cat `$D/touch`; echo `MICRONUX:M9:NATIVE-RUNTIME pattern=$(cat " +:+
      "`$D/pattern`) boot_ready=$(cat `$D/boot_ready`) native_state=$(cat " +:+
      "`$D/native_state`) brightness=$(cat `$B/brightness`) bl_power=$(cat " +:+
      "`$B/bl_power`) actual_brightness=$(cat `$B/actual_brightness`)`; }").

Definition vpg_unavailable_command : string :=
  sh ("D=" +:+ DISPLAY_SYSFS +:+ "; B=/sys/class/backlight/micronux-backlight; ") +:+
  framebuffer_hash_shell "vpg-reject-before" "m9_fb_before" +:+
  sh ("cat `$D/diagnostics`; cat `$D/scanout`; if [ ! -e `$D/vpg_test_ms` ]; then " +:+
      "m9_vpg_unavailable=1; else m9_vpg_unavailable=0; fi; sleep 1; ") +:+
  framebuffer_hash_shell "vpg-reject-after" "m9_fb_after" +:+
  sh ("cat `$D/diagnostics`; cat `$D/scanout`; echo `MICRONUX:M9:VPG-UNAVAILABLE " +:+
      "absent=$m9_vpg_unavailable pattern=$(cat `$D/pattern`) boot_ready=$(cat " +:+
      "`$D/boot_ready`) native_state=$(cat `$D/native_state`) brightness=$(cat " +:+
      "`$B/brightness`) bl_power=$(cat `$B/bl_power`) actual_brightness=$(cat " +:+
      "`$B/actual_brightness`)`; test `$m9_vpg_unavailable` = 1 && test " +:+
      "`$m9_fb_before` = `$m9_fb_after`").

Definition presentation_command : string :=
  sh ("D=" +:+ DISPLAY_SYSFS +:+ "; B=/sys/class/backlight/micronux-backlight; ") +:+
  framebuffer_hash_shell "presentation-before" "m9_fb_before" +:+
  sh ("echo MICRONUX:M9:DIAGNOSTICS:BEFORE; cat $D/diagnostics; cat $D/scanout; " +:+
      "micronux-display-test draw 3 & m9_pid=$!; sleep 1; echo " +:+
      "MICRONUX:M9:DIAGNOSTICS:DURING; cat $D/diagnostics; cat $D/scanout; echo " +:+
      "MICRONUX:M9:SHELL state=responsive; wait $m9_pid; m9_draw_rc=$?; echo " +:+
      "MICRONUX:M9:DRAW rc=$m9_draw_rc; ") +:+
  framebuffer_hash_shell "presentation-after" "m9_fb_after" +:+
  sh ("echo MICRONUX:M9:DIAGNOSTICS:AFTER; cat $D/diagnostics; cat $D/scanout; echo " +:+
      "`MICRONUX:M9:PRESENTATION:RESTORE pattern=$(cat $D/pattern) boot_ready=$(cat " +:+
      "$D/boot_ready) native_state=$(cat $D/native_state) brightness=$(cat " +:+
      "$B/brightness) bl_power=$(cat $B/bl_power) actual_brightness=$(cat " +:+
      "$B/actual_brightness)`; test `$(cat $D/pattern)` = framebuffer && test `$(cat " +:+
      "$D/boot_ready)` = 1 && test `$(cat $D/native_state)` = RUNTIME_REVEALED && " +:+
      "test `$(cat $B/brightness)` = 63 && test `$(cat $B/bl_power)` = 0 && test " +:+
      "`$(cat $B/actual_brightness)` = 63 && test `$m9_fb_before` = `$m9_fb_after`").

Definition signal_command : string :=
  sh ("D=" +:+ DISPLAY_SYSFS +:+ "; B=/sys/class/backlight/micronux-backlight; ") +:+
  framebuffer_hash_shell "signal-before" "m9_fb_before" +:+
  sh ("echo MICRONUX:M9:SIGNAL-DIAGNOSTICS:BEFORE; cat $D/diagnostics; cat " +:+
      "$D/scanout; micronux-display-test draw 30 & m9_pid=$!; sleep 4; kill -TERM " +:+
      "$m9_pid; wait $m9_pid; m9_draw_rc=$?; echo MICRONUX:M9:SIGNAL rc=$m9_draw_rc; ") +:+
  framebuffer_hash_shell "signal-after" "m9_fb_after" +:+
  sh ("echo MICRONUX:M9:SIGNAL-DIAGNOSTICS:AFTER; cat $D/diagnostics; cat " +:+
      "$D/scanout; echo `MICRONUX:M9:SIGNAL:RESTORE pattern=$(cat $D/pattern) " +:+
      "boot_ready=$(cat $D/boot_ready) native_state=$(cat $D/native_state) " +:+
      "brightness=$(cat $B/brightness) bl_power=$(cat $B/bl_power) " +:+
      "actual_brightness=$(cat $B/actual_brightness)`; test `$(cat $D/pattern)` = " +:+
      "framebuffer && test `$(cat $D/boot_ready)` = 1 && test `$(cat " +:+
      "$D/native_state)` = RUNTIME_REVEALED && test `$(cat $B/brightness)` = 63 && " +:+
      "test `$(cat $B/bl_power)` = 0 && test `$(cat $B/actual_brightness)` = 63 && " +:+
      "test `$m9_fb_before` = `$m9_fb_after` && echo MICRONUX:M9:SIGNAL-SHELL " +:+
      "state=responsive").

(** ** [run_touch] *)

Definition touch_command (point_timeout_ms : Z) : string :=
  sh ("D=" +:+ DISPLAY_SYSFS +:+ "; B=/sys/class/backlight/micronux-backlight; m9_touch_ready=0; " +:+
      "m9_touch_wait=0; while [ `$m9_touch_wait` -lt 20 ]; do m9_touch_state=`$(cat " +:+
      "`$D/touch`)`; printf `%s\n` `$m9_touch_state`; if printf '%s\n' " +:+
      "`$m9_touch_state` | /bin/busybox grep -Eq '^ready product=9271 " +:+
      "address=0x(5d|14) mode=poll interval_ms=10 reads=[0-9]+ errors=0 down=[01]$'; " +:+
      "then m9_touch_ready=1; break; fi; m9_touch_wait=$((m9_touch_wait + 1)); sleep " +:+
      "1; done; echo `MICRONUX:M9:TOUCH-READY ready=$m9_touch_ready " +:+
      "wait_seconds=$m9_touch_wait`; m9_touch_rc=125; if [ `$m9_touch_ready` = 1 ]; " +:+
      "then cat `$D/diagnostics`; cat `$D/scanout`; ") +:+
  framebuffer_hash_shell "touch-before" "m9_fb_before" +:+
  sh ("micronux-display-test touch " +:+
      pretty point_timeout_ms +:+
      "; m9_touch_rc=$?; ") +:+
  framebuffer_hash_shell "touch-after" "m9_fb_after" +:+
  sh ("cat `$D/diagnostics`; cat `$D/scanout`; cat `$D/touch`; fi; echo " +:+
      "`MICRONUX:M9:NATIVE-RUNTIME pattern=$(cat `$D/pattern`) boot_ready=$(cat " +:+
      "`$D/boot_ready`) native_state=$(cat `$D/native_state`) brightness=$(cat " +:+
      "`$B/brightness`) bl_power=$(cat `$B/bl_power`) actual_brightness=$(cat " +:+
      "`$B/actual_brightness`)`; test `$m9_touch_ready` = 1 && test `$m9_touch_rc` " +:+
      "-eq 0 && test `$m9_fb_before` = `$m9_fb_after` && test `$(cat `$D/pattern`)` " +:+
      "= framebuffer && test `$(cat `$D/boot_ready`)` = 1 && test `$(cat " +:+
      "`$D/native_state`)` = RUNTIME_REVEALED && test `$(cat `$B/brightness`)` = 63 " +:+
      "&& test `$(cat `$B/bl_power`)` = 0 && test `$(cat `$B/actual_brightness`)` = " +:+
      "63").

(** ** [run_disconnect] *)

Definition boundary_script (boundary_delay : Z) : string :=
  sh ("trap '' HUP; sleep " +:+
      pretty boundary_delay +:+
      "; D=" +:+
      DISPLAY_SYSFS +:+
      "; B=/sys/class/backlight/micronux-backlight; m9_boot=`$(cat " +:+
      "/proc/sys/kernel/random/boot_id)`; echo " +:+
      "`MICRONUX:M9:USB-DISCONNECT:BOUNDARY:BEGIN boot_id=$m9_boot`; ") +:+
  diagnostics_phase_shell "BOUNDARY-PREHASH" (Some "BOUNDARY-PREHASH") +:+
  framebuffer_hash_shell "disconnect-boundary" "m9_fb_hash" +:+
  diagnostics_phase_shell "BOUNDARY-POSTHASH" (Some "BOUNDARY-POSTHASH") +:+
  sh ("cat `$D/scanout`; cat `$D/touch`; echo " +:+
      "`MICRONUX:M9:USB-DISCONNECT:STATUS-BOUNDARY pattern=$(cat $D/pattern) " +:+
      "boot_ready=$(cat $D/boot_ready) native_state=$(cat $D/native_state) " +:+
      "brightness=$(cat $B/brightness) bl_power=$(cat $B/bl_power) " +:+
      "actual_brightness=$(cat $B/actual_brightness)`; echo " +:+
      "`MICRONUX:M9:USB-DISCONNECT:BOUNDARY:COMPLETE`").

Definition disconnect_policy_command : string :=
  sh ("cat /sys/kernel/micronux/usb_reset").

Definition disconnect_before_command : string :=
  sh ("D=" +:+ DISPLAY_SYSFS +:+ "; B=/sys/class/backlight/micronux-backlight; m9_boot=`$(cat " +:+
      "/proc/sys/kernel/random/boot_id)`; echo `MICRONUX:M9:USB-DISCONNECT:BEFORE " +:+
      "boot_id=$m9_boot`; ") +:+
  diagnostics_phase_shell "BEFORE-PREHASH" None +:+
  framebuffer_hash_shell "disconnect-before" "m9_fb_hash" +:+
  diagnostics_phase_shell "BEFORE-POSTHASH" (Some "BEFORE-POSTHASH") +:+
  sh ("cat `$D/scanout`; cat `$D/touch`; echo " +:+
      "`MICRONUX:M9:USB-DISCONNECT:STATUS-BEFORE pattern=$(cat $D/pattern) " +:+
      "boot_ready=$(cat $D/boot_ready) native_state=$(cat $D/native_state) " +:+
      "brightness=$(cat $B/brightness) bl_power=$(cat $B/bl_power) " +:+
      "actual_brightness=$(cat $B/actual_brightness)`; test `$(cat $D/pattern)` = " +:+
      "framebuffer && test `$(cat $D/boot_ready)` = 1 && test `$(cat " +:+
      "$D/native_state)` = RUNTIME_REVEALED && test `$(cat $B/brightness)` = 63 && " +:+
      "test `$(cat $B/bl_power)` = 0 && test `$(cat $B/actual_brightness)` = 63").

Definition boundary_arm_command (boundary_delay : Z) : string :=
  sh ("rm -f " +:+
      DISCONNECT_BOUNDARY_PATH +:+
      "; /bin/busybox setsid /bin/busybox sh -c ") +:+
  shlex_quote (boundary_script boundary_delay) +:+
  sh (" </dev/null >" +:+
      DISCONNECT_BOUNDARY_PATH +:+
      " 2>&1 & echo `MICRONUX:M9:USB-DISCONNECT:BOUNDARY:ARMED delay_seconds=" +:+
      pretty boundary_delay +:+
      " pid=$!`").

Definition boundary_read_command : string :=
  sh ("cat " +:+
      DISCONNECT_BOUNDARY_PATH).

Definition after_id_command : string :=
  sh ("echo -n `MICRONUX:M9:USB-DISCONNECT:AFTER boot_id=`; cat " +:+
      "/proc/sys/kernel/random/boot_id").

Definition after_state_command : string :=
  sh ("D=" +:+ DISPLAY_SYSFS +:+ "; B=/sys/class/backlight/micronux-backlight; ") +:+
  diagnostics_phase_shell "AFTER-PREHASH" (Some "AFTER-PREHASH") +:+
  framebuffer_hash_shell "disconnect-after" "m9_fb_hash" +:+
  diagnostics_phase_shell "AFTER-POSTHASH" None +:+
  sh ("cat `$D/touch`; echo `MICRONUX:M9:USB-DISCONNECT:STATUS-AFTER pattern=$(cat " +:+
      "$D/pattern) boot_ready=$(cat $D/boot_ready) native_state=$(cat " +:+
      "$D/native_state) brightness=$(cat $B/brightness) bl_power=$(cat $B/bl_power) " +:+
      "actual_brightness=$(cat $B/actual_brightness)`").

Definition after_scanout_command : string :=
  sh ("cat " +:+
      DISPLAY_SYSFS +:+
      "/scanout").

(** ** [run_snapshot] *)

Definition snapshot_command : string :=
  sh ("echo -n `MICRONUX:M9:SNAPSHOT boot_id=`; cat /proc/sys/kernel/random/boot_id; " +:+
      "echo -n `MICRONUX:M9:SNAPSHOT uptime=`; cat /proc/uptime; D=" +:+
      DISPLAY_SYSFS +:+
      "; B=/sys/class/backlight/micronux-backlight; echo `MICRONUX:M9:NATIVE-RUNTIME " +:+
      "pattern=$(cat `$D/pattern`) boot_ready=$(cat `$D/boot_ready`) " +:+
      "native_state=$(cat `$D/native_state`) brightness=$(cat `$B/brightness`) " +:+
      "bl_power=$(cat `$B/bl_power`) actual_brightness=$(cat " +:+
      "`$B/actual_brightness`)`; cat `$D/ownership`; ") +:+
  diagnostics_phase_shell "SNAPSHOT-A-PREHASH" None +:+
  framebuffer_hash_shell "snapshot-a" "m9_fb_before" +:+
  diagnostics_phase_shell "SNAPSHOT-A-POSTHASH" None +:+
  sh ("cat `$D/scanout`; sleep 1; ") +:+
  diagnostics_phase_shell "SNAPSHOT-B-PREHASH" None +:+
  framebuffer_hash_shell "snapshot-b" "m9_fb_after" +:+
  diagnostics_phase_shell "SNAPSHOT-B-POSTHASH" None +:+
  sh ("cat `$D/scanout`; cat `$D/touch`; test `$m9_fb_before` = `$m9_fb_after` && " +:+
      "test `$(cat `$D/pattern`)` = framebuffer && test `$(cat `$D/boot_ready`)` = 1 " +:+
      "&& test `$(cat `$D/native_state`)` = RUNTIME_REVEALED && test `$(cat " +:+
      "`$B/brightness`)` = 63 && test `$(cat `$B/bl_power`)` = 0 && test `$(cat " +:+
      "`$B/actual_brightness`)` = 63").

(** ** [run_soak] *)

Definition soak_sample_commands (index : nat) : list string :=
  ["echo MICRONUX:M9:SOAK-SAMPLE index=" +:+ pretty index;
   "cat $D/diagnostics";
   "cat $D/scanout";
   "cat $D/touch";
   removesuffix "; " (framebuffer_hash_shell ("soak-" +:+ pretty index) "m9_fb_hash");
   sh ("echo `MICRONUX:M9:SOAK-STATUS index=" +:+ pretty index +:+ " " +:+
       "pattern=$(cat $D/pattern) boot_ready=$(cat $D/boot_ready) " +:+
       "native_state=$(cat $D/native_state) " +:+
       "brightness=$(cat $B/brightness) bl_power=$(cat $B/bl_power) " +:+
       "actual_brightness=$(cat $B/actual_brightness)`");
   sh "[ `$(cat $D/pattern)` = framebuffer ] || m9_soak_rc=1";
   sh "[ `$(cat $D/boot_ready)` = 1 ] || m9_soak_rc=1";
   sh "[ `$(cat $D/native_state)` = RUNTIME_REVEALED ] || m9_soak_rc=1";
   sh "[ `$(cat $B/brightness)` = 63 ] || m9_soak_rc=1";
   sh "[ `$(cat $B/bl_power)` = 0 ] || m9_soak_rc=1";
   sh "[ `$(cat $B/actual_brightness)` = 63 ] || m9_soak_rc=1";
   "echo MICRONUX:M9:SOAK-SHELL state=responsive index=" +:+ pretty index].

(** The samples from [index] on, with a pause between two of them. *)
Fixpoint soak_samples_from (index n : nat) (sample_seconds : Z) : list string :=
  match n with
  | O => []
  | S n =>
      soak_sample_commands index ++
      (match n with O => [] | _ => ["sleep " +:+ pretty sample_seconds] end) ++
      soak_samples_from (S index) n sample_seconds
  end.

Definition soak_command (sample_count : nat) (sample_seconds : Z) : string :=
  str_join "; "
    (["D=" +:+ DISPLAY_SYSFS; "B=/sys/class/backlight/micronux-backlight"; "m9_soak_rc=0"] ++
     soak_samples_from 0 sample_count sample_seconds ++
     [sh "[ `$m9_soak_rc` -eq 0 ]"]).

(** ** [run_stress] *)

Definition stress_snapshot_shell (stage : string) : string :=
  sh ("echo `MICRONUX:M9.2:STRESS:SNAPSHOT stage=" +:+ stage +:+ "`; " +:+
      "cat `$D/diagnostics`; cat `$D/scanout`; cat `$D/touch`; " +:+
      "echo `MICRONUX:M9.2:STRESS:MEM stage=" +:+ stage +:+ "`; " +:+
      "/bin/busybox grep -E '^(MemFree|MemAvailable):' /proc/meminfo").

(** [" ".join(str(cycle) for cycle in range(1, stress_cycles + 1))] *)
Definition cycle_arguments (stress_cycles : Z) : string :=
  str_join " " (map (λ i, pretty (Z.of_nat i)) (seq 1 (Z.to_nat stress_cycles))).

Definition stress_command (stress_cycles : Z) : string :=
  str_join "; "
    ["D=" +:+ DISPLAY_SYSFS;
     "B=/sys/class/backlight/micronux-backlight";
     "m9_stress_rc=0";
     removesuffix "; " (framebuffer_hash_shell "stress-before" "m9_fb_before");
     stress_snapshot_shell "before";
     "micronux-display-test draw 300 & m9_draw_pid=$!";
     "sleep 1";
     stress_snapshot_shell "graphics";
     sh ("/usr/bin/micronux-storage-test --write-test; " +:+
         "m9_storage_rc=$?; " +:+
         "[ `$m9_storage_rc` -eq 0 ] || m9_stress_rc=1; " +:+
         "echo `MICRONUX:M9.2:STRESS:WORKLOAD " +:+
         "stage=storage rc=$m9_storage_rc`");
     stress_snapshot_shell "storage";
     sh ("/usr/bin/micronux-online; m9_online_rc=$?; " +:+
         "[ `$m9_online_rc` -eq 0 ] || m9_stress_rc=1; " +:+
         "echo `MICRONUX:M9.2:STRESS:WORKLOAD " +:+
         "stage=network-online rc=$m9_online_rc`");
     stress_snapshot_shell "network";
     sh ("/usr/bin/micronux-combined-soak " +:+ cycle_arguments stress_cycles +:+ "; " +:+
         "m9_io_rc=$?; " +:+
         "[ `$m9_io_rc` -eq 0 ] || m9_stress_rc=1; " +:+
         "echo `MICRONUX:M9.2:STRESS:WORKLOAD " +:+
         "stage=sd-network cycles=" +:+ pretty stress_cycles +:+ " rc=$m9_io_rc`");
     stress_snapshot_shell "io";
     sh ("/usr/bin/micronux-selftest; m9_memory_rc=$?; " +:+
         "[ `$m9_memory_rc` -eq 0 ] || m9_stress_rc=1; " +:+
         "echo `MICRONUX:M9.2:STRESS:WORKLOAD " +:+
         "stage=memory-pressure kib=4096 rc=$m9_memory_rc`");
     stress_snapshot_shell "memory";
     "/bin/busybox kill -TERM $m9_draw_pid 2>/dev/null || :";
     "wait $m9_draw_pid; m9_draw_rc=$?";
     sh "[ `$m9_draw_rc` -eq 143 ] || m9_stress_rc=1";
     sh ("echo `MICRONUX:M9.2:STRESS:WORKLOAD " +:+
         "stage=graphics-restore rc=$m9_draw_rc`");
     "sleep 1";
     removesuffix "; " (framebuffer_hash_shell "stress-after" "m9_fb_after");
     stress_snapshot_shell "after";
     sh ("echo `MICRONUX:M9.2:STRESS:STATUS " +:+
         "pattern=$(cat $D/pattern) boot_ready=$(cat $D/boot_ready) " +:+
         "native_state=$(cat $D/native_state) " +:+
         "brightness=$(cat $B/brightness) bl_power=$(cat $B/bl_power) " +:+
         "actual_brightness=$(cat $B/actual_brightness)`");
     sh "[ `$m9_fb_before` = `$m9_fb_after` ] || m9_stress_rc=1";
     sh "[ `$(cat $D/pattern)` = framebuffer ] || m9_stress_rc=1";
     sh "[ `$(cat $D/boot_ready)` = 1 ] || m9_stress_rc=1";
     sh "[ `$(cat $D/native_state)` = RUNTIME_REVEALED ] || m9_stress_rc=1";
     sh "[ `$(cat $B/brightness)` = 63 ] || m9_stress_rc=1";
     sh "[ `$(cat $B/bl_power)` = 0 ] || m9_stress_rc=1";
     sh "[ `$(cat $B/actual_brightness)` = 63 ] || m9_stress_rc=1";
     sh "[ `$m9_stress_rc` -eq 0 ]"].
