(* ===== verification/Verdicts.v ===== *)
(** * What the M9 gate asks of the output of each command

    The [if ...: return fail(stage, detail)] chains of the [run_*] functions of
    scripts/m9-hardware-test.py, as pure functions of the command results.  A
    verdict is [None], or the stage and the detail the script reports. *)

From S2P Require Import Prelude PyStr Regex Contract Telemetry PyFloat Session.

Abbreviation verdict := (option (string * string)).

(** [if P: return fail(stage, detail)] *)
Definition fail_when (P : Prop) `{Decision P} (stage detail : string) : verdict :=
  if decide P then Some (stage, detail) else None.

(** [if problem is not None: return fail(stage, problem)] *)
Definition fail_on (stage : string) (problem : option string) : verdict :=
  match problem with Some detail => Some (stage, detail) | None => None end.

Definition then_check (a b : verdict) : verdict :=
  match a with Some x => Some x | None => b end.
Notation "a ;! b" := (then_check a b) (at level 100, right associativity).

Definition lacks (marker output : string) : Prop := contains marker output = false.
#[global] Instance lacks_dec m o : Decision (lacks m o).
Proof. unfold lacks. apply _. Defined.

Definition unmatched (r : re) (text : string) : Prop := found (search r text) = false.
#[global] Instance unmatched_dec r t : Decision (unmatched r t).
Proof. unfold unmatched. apply _. Defined.

(** [framebuffer_hash_problem] where phases are given: it raises for none. *)
Definition fb_problem (text : string) (phases : list string) : option string :=
  match framebuffer_hash_problem text phases with
  | Ok problem => problem
  | Err error => Some (exn_msg error)
  end.

Definition rc_verdict (stage : string) (r : CommandResult) : verdict :=
  fail_when (return_code r ≠ 0) stage ("rc-" +:+ pretty (return_code r)).

(** [for marker in markers: if marker not in output: return fail(stage, f"missing-{marker}")] *)
Definition markers_verdict (stage : string) (markers : list string) (text : string) : verdict :=
  fail_on stage (first_of (λ marker, problem_if (lacks marker text) ("missing-" +:+ marker)) markers).

Definition touch_lines (text : string) : nat := length (finditer TOUCH_LINE_RE text).

(** ** [run_preflight] *)

Definition check_verdict (check : CommandResult) : verdict :=
  rc_verdict "interface-check" check ;!
  fail_when (lacks "MICRONUX:M9:DISPLAY-TEST:PASS mode=check" (output check))
    "interface-check" "pass-marker-missing" ;!
  fail_when (lacks "ready product=9271" (output check) ∧ lacks "touch=unavailable" (output check)
             ∧ lacks "input=unavailable" (output check))
    "touch-status" "ready-or-unavailable-marker-missing" ;!
  fail_when (¬ lacks "ready product=9271" (output check) ∧ lacks "errors=0" (output check))
    "touch-status" "ready-status-has-errors".

Definition sysfs_verdict (sysfs : CommandResult) : verdict :=
  rc_verdict "display-sysfs" sysfs ;!
  fail_when (unmatched OWNERSHIP_LINE_RE (output sysfs)) "display-sysfs" "native-ownership-missing" ;!
  fail_when (unmatched TOUCH_LINE_RE (output sysfs)) "display-sysfs" "touch-state-invalid" ;!
  fail_on "display-sysfs" (runtime_status_problem (output sysfs) 1) ;!
  fail_on "display-sysfs" (display_health_problem (output sysfs) 1 false false).

Definition vpg_verdict (vpg : CommandResult) : verdict :=
  rc_verdict "native-vpg-unavailable" vpg ;!
  fail_on "native-vpg-unavailable"
    (fb_problem (output vpg) ["vpg-reject-before"; "vpg-reject-after"]) ;!
  fail_when (lacks "MICRONUX:M9:VPG-UNAVAILABLE absent=1" (output vpg))
    "native-vpg-unavailable" "absence-marker-missing" ;!
  fail_on "native-vpg-unavailable" (runtime_status_problem (output vpg) 1) ;!
  fail_on "native-vpg-unavailable" (display_health_problem (output vpg) 2 false true).

Definition presentation_verdict (presentation : CommandResult) : verdict :=
  rc_verdict "presentation" presentation ;!
  fail_on "presentation-framebuffer"
    (fb_problem (output presentation) ["presentation-before"; "presentation-after"]) ;!
  markers_verdict "presentation"
    ["MICRONUX:M9:SHELL state=responsive"; "MICRONUX:M9:DRAW rc=0";
     "MICRONUX:M9:DISPLAY-TEST:PASS mode=draw console=restored"] (output presentation) ;!
  fail_on "presentation" (runtime_status_problem (output presentation) 1) ;!
  fail_on "presentation-health" (display_health_problem (output presentation) 3 true true).

Definition signal_verdict (signal : CommandResult) : verdict :=
  rc_verdict "signal-recovery" signal ;!
  fail_on "signal-framebuffer"
    (fb_problem (output signal) ["signal-before"; "signal-after"]) ;!
  markers_verdict "signal-recovery"
    ["MICRONUX:M9:SIGNAL rc=143"; "MICRONUX:M9:SIGNAL-SHELL state=responsive"] (output signal) ;!
  fail_on "signal-recovery" (runtime_status_problem (output signal) 1) ;!
  fail_on "signal-health" (display_health_problem (output signal) 2 true true).

(** ** [run_touch] *)

Definition READY_LINE_RE : re := Eval vm_compute in compile true (
  "^ready product=9271 address=0x(?:5d|14) mode=poll interval_ms=10 " +:+
  "reads=\d+ errors=0 down=[01]\r?$").

Definition touch_verdict (touch : CommandResult) : verdict :=
  rc_verdict "five-point-touch" touch ;!
  fail_on "touch-framebuffer" (fb_problem (output touch) ["touch-before"; "touch-after"]) ;!
  fail_when (lacks "MICRONUX:M9:DISPLAY-TEST:PASS mode=touch points=5" (output touch))
    "five-point-touch" "pass-marker-missing" ;!
  fail_when (str_count "MICRONUX:M9:TOUCH-TARGET:PASS" (output touch) ≠ 5%nat)
    "five-point-touch" "point-count" ;!
  fail_when (findall1 READY_LINE_RE (output touch) = [] ∨ lacks "MICRONUX:M9:TOUCH-READY ready=1" (output touch))
    "five-point-touch" "ready-timeout" ;!
  fail_on "touch-runtime" (runtime_status_problem (output touch) 1) ;!
  fail_on "touch-health" (display_health_problem (output touch) 2 true true).

(** ** [run_soak] *)

Definition SOAK_SAMPLE_RE : re := Eval vm_compute in
  compile true "^MICRONUX:M9:SOAK-SAMPLE index=(\d+)\r?$".
Definition SOAK_SHELL_RE : re := Eval vm_compute in
  compile true "^MICRONUX:M9:SOAK-SHELL state=responsive index=(\d+)\r?$".
Definition SOAK_STATUS_RE : re := Eval vm_compute in compile true (
  "^MICRONUX:M9:SOAK-STATUS index=(\d+) pattern=framebuffer " +:+
  "boot_ready=1 native_state=RUNTIME_REVEALED brightness=63 " +:+
  "bl_power=0 actual_brightness=63\r?$").

(** [[str(index) for index in range(n)]] *)
Definition indices (n : nat) : list string := map pretty (seq 0 n).

Definition soak_verdict (sample_count : nat) (soak : CommandResult) : verdict :=
  rc_verdict "soak" soak ;!
  fail_when (findall1 SOAK_SAMPLE_RE (output soak) ≠ indices sample_count) "soak" "sample-count" ;!
  fail_when (findall1 SOAK_SHELL_RE (output soak) ≠ indices sample_count) "soak" "shell-count" ;!
  fail_on "soak-framebuffer"
    (fb_problem (output soak) (map (λ index, "soak-" +:+ index) (indices sample_count))) ;!
  fail_when (findall1 SOAK_STATUS_RE (output soak) ≠ indices sample_count)
    "soak" "source-or-backlight-state" ;!
  fail_when (length (diagnostics_samples (output soak)) ≠ sample_count) "soak-diagnostics" "sample-count" ;!
  fail_when (length (scanout_samples (output soak)) ≠ sample_count) "soak-scanout" "sample-count" ;!
  fail_when (touch_lines (output soak) ≠ sample_count) "soak-touch" "ready-or-unavailable-sample-count" ;!
  fail_on "soak-health" (display_health_problem (output soak) sample_count false true).

(** ** [run_stress] *)

Definition EXPECTED_STAGES : list string :=
  ["before"; "graphics"; "storage"; "network"; "io"; "memory"; "after"].
Definition STRESS_SNAPSHOT_RE : re := Eval vm_compute in
  compile true "^MICRONUX:M9\.2:STRESS:SNAPSHOT stage=([a-z-]+)\r?$".
Definition STRESS_MEM_RE : re := Eval vm_compute in compile true (
  "^MICRONUX:M9\.2:STRESS:MEM stage=([a-z-]+)\r?\n" +:+
  "MemFree:\s+(\d+) kB\r?\n" +:+
  "MemAvailable:\s+(\d+) kB\r?$").
Definition STRESS_STATUS_RE : re := Eval vm_compute in compile true (
  "^MICRONUX:M9\.2:STRESS:STATUS pattern=framebuffer " +:+
  "boot_ready=1 native_state=RUNTIME_REVEALED brightness=63 " +:+
  "bl_power=0 actual_brightness=63\r?$").

(** Field [i] of a memory sample, as a number of KiB. *)
Definition kib (i : nat) (sample : list string) : Z := int_of 10 (nth i sample "").

Definition REQUIRED_STRESS_MARKERS (stress_cycles : Z) : list string :=
  ["MICRONUX:M6:STORAGE:PASS mode=idmac-sram-poll access=write-tested cleanup=pass";
   "MICRONUX:M6:NET:ONLINE state=ready name=ethsta0";
   "MICRONUX:M6:COMBINED:SOAK:PASS cycles=" +:+ pretty stress_cycles;
   "MICRONUX:M5:PASS exec=64 signals=64 timers=32 memory_kib=4096";
   "MICRONUX:M9.2:STRESS:WORKLOAD stage=storage rc=0";
   "MICRONUX:M9.2:STRESS:WORKLOAD stage=network-online rc=0";
   "MICRONUX:M9.2:STRESS:WORKLOAD stage=sd-network cycles=" +:+ pretty stress_cycles +:+ " rc=0";
   "MICRONUX:M9.2:STRESS:WORKLOAD stage=memory-pressure kib=4096 rc=0";
   "MICRONUX:M9.2:STRESS:WORKLOAD stage=graphics-restore rc=143"].

(** The memory samples, and the first and last of them. *)
Definition memory_samples (text : string) : list (list string) := findall STRESS_MEM_RE text.
Definition first_mem (text : string) : list string := default [] (head (memory_samples text)).
Definition last_mem (text : string) : list string := default [] (last (memory_samples text)).

Definition stress_verdict (stress_cycles : Z) (r : CommandResult) : verdict :=
  rc_verdict "stress" r ;!
  fail_on "stress-framebuffer" (fb_problem (output r) ["stress-before"; "stress-after"]) ;!
  fail_when (findall1 STRESS_SNAPSHOT_RE (output r) ≠ EXPECTED_STAGES)
    "stress-snapshots" "missing-duplicate-or-out-of-order" ;!
  fail_when (map (λ sample, nth 0 sample "") (memory_samples (output r)) ≠ EXPECTED_STAGES)
    "stress-memory" "missing-duplicate-or-out-of-order" ;!
  fail_when (kib 1 (first_mem (output r)) - kib 1 (last_mem (output r)) > 512)
    "stress-memory" "memfree-loss-over-512-kib" ;!
  fail_when (kib 2 (first_mem (output r)) - kib 2 (last_mem (output r)) > 512)
    "stress-memory" "memavailable-loss-over-512-kib" ;!
  markers_verdict "stress-workload" (REQUIRED_STRESS_MARKERS stress_cycles) (output r) ;!
  fail_when (unmatched STRESS_STATUS_RE (output r)) "stress-restore" "source-or-backlight-state" ;!
  fail_on "stress-health" (display_health_problem (output r) (length EXPECTED_STAGES) true true) ;!
  fail_when (length (diagnostics_samples (output r)) ≠ length EXPECTED_STAGES)
    "stress-diagnostics" "snapshot-count" ;!
  fail_when (length (scanout_samples (output r)) ≠ length EXPECTED_STAGES)
    "stress-scanout" "snapshot-count" ;!
  fail_when (touch_lines (output r) ≠ length EXPECTED_STAGES)
    "stress-touch" "ready-or-unavailable-snapshot-count".

(** ** [run_disconnect] *)

Definition STATUS : string :=
  "pattern=framebuffer boot_ready=1 " +:+
  "native_state=RUNTIME_REVEALED brightness=63 " +:+
  "bl_power=0 actual_brightness=63".
Definition BOOT_ID : string := "([0-9a-fA-F]{8}-(?:[0-9a-fA-F]{4}-){3}[0-9a-fA-F]{12})".

Definition STATUS_BEFORE_RE : re := Eval vm_compute in
  compile false ("MICRONUX:M9:USB-DISCONNECT:STATUS-BEFORE " +:+ STATUS).
Definition STATUS_BOUNDARY_RE : re := Eval vm_compute in
  compile false ("MICRONUX:M9:USB-DISCONNECT:STATUS-BOUNDARY " +:+ STATUS).
Definition STATUS_AFTER_RE : re := Eval vm_compute in
  compile false ("MICRONUX:M9:USB-DISCONNECT:STATUS-AFTER " +:+ STATUS).
Definition BEFORE_ID_RE : re := Eval vm_compute in
  compile false ("MICRONUX:M9:USB-DISCONNECT:BEFORE boot_id=" +:+ BOOT_ID).
Definition BOUNDARY_ID_RE : re := Eval vm_compute in
  compile false ("MICRONUX:M9:USB-DISCONNECT:BOUNDARY:BEGIN boot_id=" +:+ BOOT_ID).
Definition AFTER_ID_RE : re := Eval vm_compute in
  compile false ("MICRONUX:M9:USB-DISCONNECT:AFTER boot_id=" +:+ BOOT_ID).
Definition boundary_armed_re (boundary_delay : Z) : re :=
  compile true ("^MICRONUX:M9:USB-DISCONNECT:BOUNDARY:ARMED " +:+
                "delay_seconds=" +:+ pretty boundary_delay +:+ " pid=\d+\r?$").

Definition policy_verdict (reset_policy : CommandResult) : verdict :=
  fail_when (return_code reset_policy ≠ 0 ∨ lacks "disabled" (output reset_policy))
    "disconnect-policy" "reset-protection-not-active".

Definition before_verdict (before : CommandResult) : verdict :=
  rc_verdict "disconnect-before" before ;!
  fail_on "disconnect-before-framebuffer" (fb_problem (output before) ["disconnect-before"]) ;!
  fail_on "disconnect-before-telemetry"
    (diagnostics_phase_problem (output before) ["BEFORE-PREHASH"; "BEFORE-POSTHASH"]) ;!
  fail_when (unmatched STATUS_BEFORE_RE (output before)) "disconnect-before" "source-or-backlight" ;!
  fail_on "disconnect-before" (display_health_problem (output before) 1 false false) ;!
  fail_when (touch_lines (output before) ≠ 1%nat) "disconnect-before" "touch-state-invalid" ;!
  fail_when (findall1 BEFORE_ID_RE (output before) = []) "disconnect-before" "boot-id-missing".

Definition armed_verdict (boundary_delay : Z) (boundary_arm : CommandResult) : verdict :=
  fail_when (return_code boundary_arm ≠ 0 ∨ unmatched (boundary_armed_re boundary_delay) (output boundary_arm))
    "disconnect-boundary" "arm-failed".

Definition reconnect_verdict (reconnect_log : string) : verdict :=
  fail_on "reconnect-driver-fault" (terminal_failure reconnect_log).

(** [ids[-1]] *)
Definition last_id (ids : list string) : string := default "" (last ids).

(** The checks on the identity of the boot.  The flag tells the reports that
    follow the classification as an unexpected reboot. *)
Definition identity_verdict (before boundary after_id after_state after_scanout : CommandResult)
    : option (bool * (string * string)) :=
  let before_boot_ids := findall1 BEFORE_ID_RE (output before) in
  let after_boot_ids := findall1 AFTER_ID_RE (output after_id) in
  let boundary_boot_ids := findall1 BOUNDARY_ID_RE (output boundary) in
  if decide (return_code after_id ≠ 0)
  then Some (false, ("disconnect-evidence", "after-boot-id-command-failed"))
  else if decide (after_boot_ids = [])
  then Some (false, ("disconnect-evidence", "after-boot-id-missing"))
  else if decide (last_id before_boot_ids ≠ last_id after_boot_ids)
  then Some (true, ("disconnect-after", "unexpected-reboot"))
  else if decide (return_code boundary ≠ 0 ∨ return_code after_state ≠ 0 ∨ return_code after_scanout ≠ 0)
  then Some (false, ("disconnect-evidence", "post-command-failed"))
  else if decide (lacks "MICRONUX:M9:USB-DISCONNECT:BOUNDARY:COMPLETE" (output boundary))
  then Some (false, ("disconnect-boundary", "evidence-incomplete"))
  else if decide (boundary_boot_ids = [])
  then Some (false, ("disconnect-boundary", "boot-id-missing"))
  else if decide (last_id before_boot_ids ≠ last_id boundary_boot_ids)
  then Some (true, ("disconnect-after", "unexpected-reboot"))
  else None.

(** [problem or rest] *)
Definition py_or (problem : option string) (rest : string) : string :=
  match problem with
  | None | Some EmptyString => rest
  | Some text => text
  end.

(** Field [after] of the last sample. *)
Definition last_after (samples : list dict) : Z := dget (last_sample samples) "after".

Definition BOUNDARY_PHASES : list string :=
  ["BEFORE-PREHASH"; "BEFORE-POSTHASH"; "BOUNDARY-PREHASH"; "BOUNDARY-POSTHASH"].
Definition ALL_PHASES : list string := BOUNDARY_PHASES ++ ["AFTER-PREHASH"; "AFTER-POSTHASH"].

(** The health across the closed port: the reason it failed, if it did, and the
    frame rate. *)
Definition boundary_check (before boundary : CommandResult) : result (option string * option float) :=
  let before_scanout := scanout_samples (output before) in
  let boundary_scanout := scanout_samples (output boundary) in
  '(rate_problem, progress_hz) ←
    disconnect_progress_rate (output before) "BEFORE-POSTHASH" (output boundary) "BOUNDARY-PREHASH";
  let before_boundary_output := output before +:+ nl +:+ output boundary in
  let phase_problem := diagnostics_phase_problem before_boundary_output BOUNDARY_PHASES in
  let problem := display_health_problem before_boundary_output 2 false true in
  let framebuffer_problem := fb_problem before_boundary_output ["disconnect-before"; "disconnect-boundary"] in
  if decide (phase_problem ≠ None ∨ problem ≠ None ∨ rate_problem ≠ None ∨ framebuffer_problem ≠ None
             ∨ unmatched STATUS_BOUNDARY_RE (output boundary)
             ∨ length (diagnostics_samples (output before)) ≠ 2%nat
             ∨ length (diagnostics_samples (output boundary)) ≠ 2%nat
             ∨ touch_lines (output boundary) ≠ 1%nat
             ∨ length before_scanout ≠ 1%nat ∨ length boundary_scanout ≠ 1%nat
             ∨ last_after boundary_scanout ≤ last_after before_scanout)
  then Ok (Some (py_or phase_problem (py_or problem (py_or rate_problem (py_or framebuffer_problem
                   (if decide (unmatched STATUS_BOUNDARY_RE (output boundary))
                    then "source-or-backlight" else "scanout-did-not-continue"))))),
           progress_hz)
  else Ok (None, progress_hz).

Definition full_health_output (before boundary after_state after_scanout : CommandResult) : string :=
  str_join nl [output before; output boundary; output after_state; output after_scanout].

(** The health after the port was opened again. *)
Definition after_check (before boundary after_id after_state after_scanout : CommandResult)
    (reconnect_log : string) : result (option string * option float) :=
  let boundary_scanout := scanout_samples (output boundary) in
  let after_output := output after_id +:+ output after_state +:+ output after_scanout in
  let after_scanout_samples := scanout_samples (output after_scanout) in
  '(rate_problem, progress_hz) ←
    disconnect_progress_rate (output boundary) "BOUNDARY-POSTHASH" (output after_state) "AFTER-PREHASH";
  let full := full_health_output before boundary after_state after_scanout in
  let phase_problem := diagnostics_phase_problem full ALL_PHASES in
  let problem := display_health_problem full 3 false true in
  let framebuffer_problem :=
    fb_problem (str_join nl [output before; output boundary; output after_state])
      ["disconnect-before"; "disconnect-boundary"; "disconnect-after"] in
  if decide (phase_problem ≠ None ∨ problem ≠ None ∨ rate_problem ≠ None ∨ framebuffer_problem ≠ None
             ∨ unmatched STATUS_AFTER_RE (output after_state)
             ∨ length (diagnostics_samples (output after_state)) ≠ 2%nat
             ∨ touch_lines (output after_state) ≠ 1%nat
             ∨ length after_scanout_samples ≠ 1%nat
             ∨ last_after after_scanout_samples ≤ last_after boundary_scanout)
  then
    let evidence := reconnect_log +:+ after_output in
    let detail :=
      py_or phase_problem (py_or problem (py_or rate_problem (py_or framebuffer_problem
        (if decide (unmatched STATUS_AFTER_RE (output after_state))
         then "source-or-backlight" else "scanout-did-not-continue")))) in
    Ok (Some (if contains "MICRONUX:M9:DISPLAY-FAULT" evidence
              then "display-fault-after-usb-reopen" else detail), progress_hz)
  else Ok (None, progress_hz).

(** [[samples[0] for _, samples in diagnostics_phase_groups(output)]], first and last *)
Definition first_and_last (text : string) : result (dict * dict) :=
  heads ← map_result (λ g, match g.2 with
                           | d :: _ => Ok d
                           | [] => Err (Exn IndexError "list index out of range")
                           end) (diagnostics_phase_groups text);
  match head heads, last heads with
  | Some first, Some last => Ok (first, last)
  | _, _ => Err (Exn IndexError "list index out of range")
  end.

(** ** [run_snapshot] *)

Definition SNAPSHOT_PHASES : list string :=
  ["SNAPSHOT-A-PREHASH"; "SNAPSHOT-A-POSTHASH"; "SNAPSHOT-B-PREHASH"; "SNAPSHOT-B-POSTHASH"].

Definition snapshot_verdict (snapshot : CommandResult) : verdict :=
  rc_verdict "snapshot" snapshot ;!
  fail_on "snapshot-telemetry" (diagnostics_phase_problem (output snapshot) SNAPSHOT_PHASES) ;!
  fail_on "snapshot-framebuffer" (fb_problem (output snapshot) ["snapshot-a"; "snapshot-b"]) ;!
  fail_when (unmatched OWNERSHIP_LINE_RE (output snapshot)) "snapshot" "native-ownership-missing" ;!
  fail_when (unmatched TOUCH_LINE_RE (output snapshot)) "snapshot" "touch-state-invalid" ;!
  fail_on "snapshot" (runtime_status_problem (output snapshot) 1) ;!
  fail_on "snapshot-health" (display_health_problem (output snapshot) 2 false true).

(** ** What a passing verdict means *)

Lemma then_check_none a b : (a ;! b) = None ↔ a = None ∧ b = None.
Proof. destruct a; split; [done|by intros []|done|by intros []]. Qed.

Lemma fail_when_none (P : Prop) `{Decision P} stage detail : fail_when P stage detail = None ↔ ¬ P.
Proof. unfold fail_when. by case_decide; split. Qed.

Lemma fail_on_none stage problem : fail_on stage problem = None ↔ problem = None.
Proof. by destruct problem. Qed.

Lemma not_lacks m text : ¬ lacks m text ↔ contains m text = true.
Proof. unfold lacks. by destruct (contains m text). Qed.

Definition matched (r : re) (text : string) : Prop := ∃ m, search r text = Some m.

Lemma not_unmatched r text : ¬ unmatched r text ↔ matched r text.
Proof.
  unfold unmatched, matched, found. destruct (search r text); split; eauto; [done|by intros []].
Qed.

(** One signature, not that of empty data, is the only one logged for each phase. *)
Definition fb_stable (text : string) (phases : list string) : Prop :=
  ∃ h, h ≠ EMPTY_SHA256 ∧ ∀ phase, phase ∈ phases → fb_hashes text phase = [h].

Lemma fb_problem_none text phases : phases ≠ [] → fb_problem text phases = None ↔ fb_stable text phases.
Proof.
  intros Hne. unfold fb_stable. rewrite <- (framebuffer_none _ _ Hne). unfold fb_problem.
  destruct (framebuffer_hash_problem text phases); split; congruence.
Qed.

(** No failure marker, and samples that satisfy the display contract. *)
Definition clean_display (text : string) (minimum : nat) (flip prog : bool) : Prop :=
  Forall (λ m, contains m text = false) FAILURE_MARKERS
  ∧ display_ok (diagnostics_samples text) (scanout_samples text) minimum flip prog.

Definition phases_ok (text : string) (expected : list string) : Prop :=
  ∃ ps, diagnostics_phase_groups text = map (λ x, (x.1, [x.2])) ps
    ∧ map fst ps = expected
    ∧ Forall (λ x, dget x.2 "fifo_poll_zero" = 0 ∧ dget x.2 "arm_to_irq_over20ms" = 0) ps
    ∧ nondecreasing ["fifo_irq_zero"] (map snd ps).

Lemma display_clean text minimum flip prog :
  display_health_problem text minimum flip prog = None ↔ clean_display text minimum flip prog.
Proof. apply display_health_none. Qed.

Lemma phases_clean text expected : diagnostics_phase_problem text expected = None ↔ phases_ok text expected.
Proof. apply phase_problem_none. Qed.

Lemma rc_verdict_none stage r : rc_verdict stage r = None ↔ return_code r = 0.
Proof. unfold rc_verdict. rewrite fail_when_none. lia. Qed.

Lemma markers_verdict_none stage markers text :
  markers_verdict stage markers text = None ↔ Forall (λ m, contains m text = true) markers.
Proof.
  unfold markers_verdict. rewrite fail_on_none, first_of_none. apply Forall_iff. intros m.
  by rewrite problem_if_none, not_lacks.
Qed.

Lemma runtime_status_none text minimum :
  runtime_status_problem text minimum = None ↔ (minimum ≤ length (finditer RUNTIME_STATUS_RE text))%nat.
Proof. unfold runtime_status_problem. rewrite problem_if_none. lia. Qed.

Lemma not_ne_iff {A} `{EqDecision A} (x y : A) : ¬ (x ≠ y) ↔ x = y.
Proof. destruct (decide (x = y)); tauto. Qed.

Lemma not_gt (x y : Z) : ¬ (x > y) ↔ x ≤ y.
Proof. lia. Qed.

(** A command that succeeded, kept the framebuffer and left a clean display. *)
Record healthy_run (r : CommandResult) (phases : list string) (minimum : nat) (flip prog : bool) : Prop := {
  run_status : return_code r = 0;
  run_framebuffer : fb_stable (output r) phases;
  run_display : clean_display (output r) minimum flip prog;
}.

Lemma healthy_run_iff r phases minimum flip prog :
  healthy_run r phases minimum flip prog ↔
  return_code r = 0 ∧ fb_stable (output r) phases ∧ clean_display (output r) minimum flip prog.
Proof. split; [by intros []|]. by intros (? & ? & ?). Qed.

(** Rewrites a chain of checks into the conjunction of what they establish. *)
Ltac unfold_verdict :=
  rewrite ?then_check_none, ?rc_verdict_none, ?markers_verdict_none, ?fail_when_none, ?fail_on_none,
    ?display_clean, ?phases_clean, ?runtime_status_none, ?not_lacks, ?not_unmatched, ?not_ne_iff,
    ?not_gt, ?healthy_run_iff;
  repeat rewrite fb_problem_none by (assumption || discriminate).

Ltac unfold_verdict_in H :=
  rewrite ?then_check_none, ?rc_verdict_none, ?markers_verdict_none, ?fail_when_none, ?fail_on_none,
    ?display_clean, ?phases_clean, ?runtime_status_none, ?not_lacks, ?not_unmatched, ?not_ne_iff in H;
  repeat rewrite fb_problem_none in H by discriminate.

Definition soak_phases (n : nat) : list string := map (λ index, "soak-" +:+ index) (indices n).

(** Every sample of the soak is there, once and in order, with a responsive
    shell, the expected source and backlight, and a touch state. *)
Record soak_ok (n : nat) (r : CommandResult) : Prop := {
  soak_run : healthy_run r (soak_phases n) n false true;
  soak_samples : findall1 SOAK_SAMPLE_RE (output r) = indices n;
  soak_shells : findall1 SOAK_SHELL_RE (output r) = indices n;
  soak_statuses : findall1 SOAK_STATUS_RE (output r) = indices n;
  soak_diagnostics : length (diagnostics_samples (output r)) = n;
  soak_scanouts : length (scanout_samples (output r)) = n;
  soak_touches : touch_lines (output r) = n;
}.

Lemma soak_verdict_none n r : (0 < n)%nat → soak_verdict n r = None ↔ soak_ok n r.
Proof.
  intros Hn. assert (soak_phases n ≠ []) as Hne by (destruct n; [lia|done]).
  unfold soak_verdict. fold (soak_phases n). unfold_verdict.
  split.
  - intros (? & ? & ? & ? & ? & ? & ? & ? & ?). by constructor.
  - by intros [[]].
Qed.

(** Seven snapshots in order, none of them missing telemetry, all workloads
    passed, and at most 512 KiB of memory lost. *)
Record stress_ok (cycles : Z) (r : CommandResult) : Prop := {
  stress_run : healthy_run r ["stress-before"; "stress-after"] 7 true true;
  stress_snapshots : findall1 STRESS_SNAPSHOT_RE (output r) = EXPECTED_STAGES;
  stress_memory : map (λ sample, nth 0 sample "") (memory_samples (output r)) = EXPECTED_STAGES;
  stress_free : kib 1 (first_mem (output r)) - kib 1 (last_mem (output r)) ≤ 512;
  stress_available : kib 2 (first_mem (output r)) - kib 2 (last_mem (output r)) ≤ 512;
  stress_workloads : Forall (λ m, contains m (output r) = true) (REQUIRED_STRESS_MARKERS cycles);
  stress_restored : matched STRESS_STATUS_RE (output r);
  stress_diagnostics : length (diagnostics_samples (output r)) = 7%nat;
  stress_scanouts : length (scanout_samples (output r)) = 7%nat;
  stress_touches : touch_lines (output r) = 7%nat;
}.

Lemma stress_verdict_none cycles r : stress_verdict cycles r = None ↔ stress_ok cycles r.
Proof.
  unfold stress_verdict. unfold_verdict. split.
  - intros (? & ? & ? & ? & ? & ? & ? & ? & ? & ? & ? & ?). by constructor.
  - by intros [[]].
Qed.

(** Five touched points and a ready controller. *)
Record touch_ok (r : CommandResult) : Prop := {
  touch_run : healthy_run r ["touch-before"; "touch-after"] 2 true true;
  touch_passed : contains "MICRONUX:M9:DISPLAY-TEST:PASS mode=touch points=5" (output r) = true;
  touch_points : str_count "MICRONUX:M9:TOUCH-TARGET:PASS" (output r) = 5%nat;
  touch_ready_lines : findall1 READY_LINE_RE (output r) ≠ [];
  touch_ready : contains "MICRONUX:M9:TOUCH-READY ready=1" (output r) = true;
  touch_runtime : (1 ≤ length (finditer RUNTIME_STATUS_RE (output r)))%nat;
}.

Lemma touch_verdict_none r : touch_verdict r = None ↔ touch_ok r.
Proof.
  unfold touch_verdict. unfold_verdict. split.
  - intros (? & ? & ? & ? & Hr & ? & ?). apply Decidable.not_or in Hr as [? Hr].
    rewrite not_lacks in Hr. by constructor.
  - intros [[]]. split_and!; try done. unfold lacks. intros [?|?]; congruence.
Qed.

(** The five commands of the preflight. *)
Record preflight_ok (check sysfs vpg presentation signal : CommandResult) : Prop := {
  pre_check : return_code check = 0
    ∧ contains "MICRONUX:M9:DISPLAY-TEST:PASS mode=check" (output check) = true
    ∧ (contains "ready product=9271" (output check) = true ∧ contains "errors=0" (output check) = true
       ∨ contains "ready product=9271" (output check) = false
         ∧ (contains "touch=unavailable" (output check) = true
            ∨ contains "input=unavailable" (output check) = true));
  pre_sysfs : return_code sysfs = 0 ∧ matched OWNERSHIP_LINE_RE (output sysfs)
    ∧ matched TOUCH_LINE_RE (output sysfs) ∧ clean_display (output sysfs) 1 false false;
  pre_vpg : healthy_run vpg ["vpg-reject-before"; "vpg-reject-after"] 2 false true
    ∧ contains "MICRONUX:M9:VPG-UNAVAILABLE absent=1" (output vpg) = true;
  pre_presentation : healthy_run presentation ["presentation-before"; "presentation-after"] 3 true true
    ∧ contains "MICRONUX:M9:DRAW rc=0" (output presentation) = true
    ∧ contains "MICRONUX:M9:DISPLAY-TEST:PASS mode=draw console=restored" (output presentation) = true;
  pre_signal : healthy_run signal ["signal-before"; "signal-after"] 2 true true
    ∧ contains "MICRONUX:M9:SIGNAL rc=143" (output signal) = true
    ∧ contains "MICRONUX:M9:SIGNAL-SHELL state=responsive" (output signal) = true;
  pre_runtime : Forall (λ r, (1 ≤ length (finditer RUNTIME_STATUS_RE (output r)))%nat)
                  [sysfs; vpg; presentation; signal];
}.

Lemma preflight_verdicts_none check sysfs vpg presentation signal :
  check_verdict check = None → sysfs_verdict sysfs = None → vpg_verdict vpg = None →
  presentation_verdict presentation = None → signal_verdict signal = None →
  preflight_ok check sysfs vpg presentation signal.
Proof.
  unfold check_verdict, sysfs_verdict, vpg_verdict, presentation_verdict, signal_verdict.
  intros Hc Hs Hv Hp Hg. unfold_verdict_in Hc. unfold_verdict_in Hs. unfold_verdict_in Hv.
  unfold_verdict_in Hp. unfold_verdict_in Hg. repeat rewrite Forall_cons in Hp. repeat rewrite Forall_cons in Hg.
  destruct Hc as (? & ? & Ht & He), Hs as (? & ? & ? & ? & ?), Hv as (? & ? & ? & ? & ?),
    Hp as (? & ? & (? & ? & ? & _) & ? & ?), Hg as (? & ? & (? & ? & _) & ? & ?).
  constructor; rewrite ?healthy_run_iff; try tauto; [|by repeat constructor].
  split_and!; [assumption..|]. unfold lacks in *.
  destruct (contains "ready product=9271" (output check)), (contains "errors=0" (output check)),
    (contains "touch=unavailable" (output check)), (contains "input=unavailable" (output check)); tauto.
Qed.

Record snapshot_ok (r : CommandResult) : Prop := {
  snap_run : healthy_run r ["snapshot-a"; "snapshot-b"] 2 false true;
  snap_phases : phases_ok (output r) SNAPSHOT_PHASES;
  snap_ownership : matched OWNERSHIP_LINE_RE (output r);
  snap_touch : matched TOUCH_LINE_RE (output r);
  snap_runtime : (1 ≤ length (finditer RUNTIME_STATUS_RE (output r)))%nat;
}.

Lemma snapshot_verdict_none r : snapshot_verdict r = None ↔ snapshot_ok r.
Proof.
  unfold snapshot_verdict. unfold_verdict. split.
  - intros (? & ? & ? & ? & ? & ? & ?). by constructor.
  - by intros [[]].
Qed.

(** ** The frame rate over a disconnect *)

(** One uptime and one sample at either end, time and frames that advance by a
    finite amount, and a rate between 10 and 25 frames per second. *)
Record progress_between (start_output start_phase end_output end_phase : string) (hz : float) : Prop := {
  pb_ends : ∃ u0 u1 d0 d1 m e delta,
    uptimes_of start_output start_phase = [u0] ∧ uptimes_of end_output end_phase = [u1]
    ∧ groups_of start_output start_phase = [[d0]] ∧ groups_of end_output end_phase = [[d1]]
    ∧ dget d0 "frames" < dget d1 "frames"
    ∧ float_of_int (dget d1 "frames" - dget d0 "frames") = Ok delta
    ∧ fsub u1 u0 = S754_finite false m e ∧ hz = fdiv delta (S754_finite false m e);
  pb_range : fle MIN_DISCONNECT_PROGRESS_HZ hz = true ∧ fle hz MAX_DISCONNECT_PROGRESS_HZ = true;
}.

(** A quotient that reaches the lower bound has a finite positive divisor. *)
Lemma rate_divisor n delta elapsed :
  float_of_int n = Ok delta → fle elapsed (S754_zero false) = false →
  fle MIN_DISCONNECT_PROGRESS_HZ (fdiv delta elapsed) = true →
  ∃ m e, elapsed = S754_finite false m e.
Proof.
  unfold fle, fdiv. intros Hn H0 Hmin.
  assert (∀ b, delta ≠ S754_infinity b) as Hfin.
  { intros b ->. unfold float_of_int in Hn. by destruct (float_of_ratio n 1). }
  destruct elapsed as [s|s| |s m e]; [done| |by destruct delta|].
  - destruct delta as [s'|s'| |s' m' e']; [|by destruct (Hfin s')|done|]; cbn in Hmin; by destruct (xorb s' s).
  - destruct s; [done|]. eauto.
Qed.

Lemma disconnect_rate_ok start_output start_phase end_output end_phase hz :
  disconnect_progress_rate start_output start_phase end_output end_phase = Ok (None, hz) ↔
  ∃ x, hz = Some x ∧ progress_between start_output start_phase end_output end_phase x.
Proof.
  unfold disconnect_progress_rate. split.
  - destruct (uptimes_of start_output start_phase) as [|u0 [|? ?]] eqn:E0; [done| |done].
    destruct (uptimes_of end_output end_phase) as [|u1 [|? ?]] eqn:E1; [done| |done].
    destruct (single_sample (groups_of start_output start_phase)) as [d0|] eqn:G0; [|done].
    destruct (single_sample (groups_of end_output end_phase)) as [d1|] eqn:G1; [|done].
    destruct (fle (fsub u1 u0) (S754_zero false)) eqn:El; [done|]. case_decide as Hf; [done|].
    destruct (float_of_int _) as [delta|] eqn:Ed; [|done]. cbn [mbind result_bind].
    destruct (fle MIN_DISCONNECT_PROGRESS_HZ _) eqn:Emin; [|done].
    destruct (fle _ MAX_DISCONNECT_PROGRESS_HZ) eqn:Emax; [|done]. cbn. intros [= <-].
    eexists. split; [done|]. constructor; [|done].
    destruct (rate_divisor _ _ _ Ed El Emin) as (m & e & Hm).
    exists u0, u1, d0, d1, m, e, delta. rewrite <- Hm. split_and!; try done; [| |lia].
    + by destruct (groups_of start_output start_phase) as [|[|? [|? ?]] [|? ?]]; simplify_eq/=.
    + by destruct (groups_of end_output end_phase) as [|[|? [|? ?]] [|? ?]]; simplify_eq/=.
  - intros (x & -> & [(u0 & u1 & d0 & d1 & m & e & delta & -> & -> & -> & -> & Hf & Hd & Hm & ->) [Hmin Hmax]]).
    cbn [single_sample]. rewrite Hm. cbn [fle SFleb SFcompare]. rewrite decide_False by lia.
    change (fle (S754_finite false m e) (S754_zero false)) with false. cbv iota.
    rewrite Hd. cbn [mbind result_bind]. by rewrite Hmin, Hmax.
Qed.

(** The health of the boundary evidence, and of the evidence after the reconnect. *)
Record boundary_ok (before boundary : CommandResult) (hz : float) : Prop := {
  bo_rate : progress_between (output before) "BEFORE-POSTHASH" (output boundary) "BOUNDARY-PREHASH" hz;
  bo_phases : phases_ok (output before +:+ nl +:+ output boundary) BOUNDARY_PHASES;
  bo_display : clean_display (output before +:+ nl +:+ output boundary) 2 false true;
  bo_framebuffer : fb_stable (output before +:+ nl +:+ output boundary) ["disconnect-before"; "disconnect-boundary"];
  bo_status : matched STATUS_BOUNDARY_RE (output boundary);
  bo_counts : length (diagnostics_samples (output before)) = 2%nat
    ∧ length (diagnostics_samples (output boundary)) = 2%nat ∧ touch_lines (output boundary) = 1%nat;
  bo_scanout : ∃ a b, scanout_samples (output before) = [a] ∧ scanout_samples (output boundary) = [b]
    ∧ dget a "after" < dget b "after";
}.

Record reconnected_ok (before boundary after_state after_scanout : CommandResult) (hz : float) : Prop := {
  ro_rate : progress_between (output boundary) "BOUNDARY-POSTHASH" (output after_state) "AFTER-PREHASH" hz;
  ro_phases : phases_ok (full_health_output before boundary after_state after_scanout) ALL_PHASES;
  ro_display : clean_display (full_health_output before boundary after_state after_scanout) 3 false true;
  ro_framebuffer : fb_stable (str_join nl [output before; output boundary; output after_state])
    ["disconnect-before"; "disconnect-boundary"; "disconnect-after"];
  ro_status : matched STATUS_AFTER_RE (output after_state);
  ro_counts : length (diagnostics_samples (output after_state)) = 2%nat ∧ touch_lines (output after_state) = 1%nat;
  ro_scanout : ∃ b, scanout_samples (output after_scanout) = [b]
    ∧ last_after (scanout_samples (output boundary)) < dget b "after";
}.

Lemma single_length {A} (l : list A) : length l = 1%nat → ∃ x, l = [x].
Proof. destruct l as [|x [|? ?]]; [done|eauto|done]. Qed.

(** A list of objections that is empty. *)
Lemma not_or_iff' (P Q A B : Prop) : (¬ P ↔ A) → (¬ Q ↔ B) → ¬ (P ∨ Q) ↔ A ∧ B.
Proof. tauto. Qed.

Lemma not_some {A} (o : option A) : ¬ (o ≠ None) ↔ o = None.
Proof. destruct o; split; intros H; [by destruct H|done|done|by intros []]. Qed.

Lemma objections_none {A} (P : Prop) `{Decision P} (detail : string) (x y : A) :
  (if decide P then Ok (Some detail, x) else Ok (None, x)) = Ok (None, y) ↔ ¬ P ∧ x = y.
Proof. case_decide; split; try done; [by intros []|by intros [= ->]|by intros [_ ->]]. Qed.

Ltac no_objection :=
  repeat lazymatch goal with
  | |- ¬ (_ ∨ _) ↔ _ => apply not_or_iff'
  | |- ¬ (_ ≠ None) ↔ _ => apply not_some
  | |- ¬ unmatched _ _ ↔ _ => apply not_unmatched
  | |- ¬ (_ ≠ _) ↔ _ => apply not_ne_iff
  | |- ¬ (_ ≤ _) ↔ _ => apply Z.nle_gt
  end.

Lemma boundary_check_ok before boundary hz :
  boundary_check before boundary = Ok (None, hz) ↔ ∃ x, hz = Some x ∧ boundary_ok before boundary x.
Proof.
  unfold boundary_check.
  destruct (disconnect_progress_rate _ _ _ _) as [[rate hz']|] eqn:Er.
  2: { split; [done|]. intros (x & -> & [Hr]).
       rewrite (proj2 (disconnect_rate_ok _ _ _ _ (Some x))) in Er by eauto. done. }
  cbn [mbind result_bind]. rewrite objections_none.
  assert (¬ _ ↔ _) as -> by no_objection.
  rewrite phases_clean, display_clean, fb_problem_none by discriminate. split.
  - intros [(? & ? & -> & ? & ? & ? & ? & ? & Ha & Hb & Hlt) ->].
    apply disconnect_rate_ok in Er as (x & -> & Hr). exists x. split; [done|].
    apply single_length in Ha as [a Ha], Hb as [b Hb]. constructor; try done.
    exists a, b. rewrite Ha, Hb in *. done.
  - intros (x & -> & [Hr ? ? ? ? (? & ? & ?) (a & b & Ha & Hb & ?)]).
    assert (disconnect_progress_rate (output before) "BEFORE-POSTHASH" (output boundary) "BOUNDARY-PREHASH"
            = Ok (None, Some x)) as E by (apply disconnect_rate_ok; eauto).
    rewrite E in Er. injection Er as <- <-. rewrite Ha, Hb. done.
Qed.

Lemma after_check_ok before boundary after_id after_state after_scanout log hz :
  after_check before boundary after_id after_state after_scanout log = Ok (None, hz) ↔
  ∃ x, hz = Some x ∧ reconnected_ok before boundary after_state after_scanout x.
Proof.
  unfold after_check.
  destruct (disconnect_progress_rate _ _ _ _) as [[rate hz']|] eqn:Er.
  2: { split; [done|]. intros (x & -> & [Hr]).
       rewrite (proj2 (disconnect_rate_ok _ _ _ _ (Some x))) in Er by eauto. done. }
  cbn [mbind result_bind]. cbv zeta. rewrite objections_none.
  assert (¬ _ ↔ _) as -> by no_objection.
  rewrite phases_clean, display_clean, fb_problem_none by discriminate. split.
  - intros [(? & ? & -> & ? & ? & ? & ? & Hb & Hlt) ->].
    apply disconnect_rate_ok in Er as (x & -> & Hr). exists x. split; [done|].
    apply single_length in Hb as [b Hb]. constructor; try done.
    exists b. rewrite Hb in *. done.
  - intros (x & -> & [Hr ? ? ? ? (? & ?) (b & Hb & ?)]).
    assert (disconnect_progress_rate (output boundary) "BOUNDARY-POSTHASH" (output after_state) "AFTER-PREHASH"
            = Ok (None, Some x)) as E by (apply disconnect_rate_ok; eauto).
    rewrite E in Er. injection Er as <- <-. rewrite Hb. done.
Qed.

(** The state before the port is closed. *)
Record before_ok (before : CommandResult) : Prop := {
  be_run : healthy_run before ["disconnect-before"] 1 false false;
  be_phases : phases_ok (output before) ["BEFORE-PREHASH"; "BEFORE-POSTHASH"];
  be_status : matched STATUS_BEFORE_RE (output before);
  be_touch : touch_lines (output before) = 1%nat;
  be_id : findall1 BEFORE_ID_RE (output before) ≠ [];
}.

Lemma before_verdict_none before : before_verdict before = None ↔ before_ok before.
Proof.
  unfold before_verdict. unfold_verdict. split.
  - intros (? & ? & ? & ? & ? & ? & ?). by constructor.
  - by intros [[]].
Qed.

(** All evidence was read, from one boot. *)
Record same_boot (before boundary after_id after_state after_scanout : CommandResult) : Prop := {
  sb_status : Forall (λ r, return_code r = 0) [boundary; after_id; after_state; after_scanout];
  sb_complete : contains "MICRONUX:M9:USB-DISCONNECT:BOUNDARY:COMPLETE" (output boundary) = true;
  sb_after : findall1 AFTER_ID_RE (output after_id) ≠ []
    ∧ last_id (findall1 AFTER_ID_RE (output after_id)) = last_id (findall1 BEFORE_ID_RE (output before));
  sb_boundary : findall1 BOUNDARY_ID_RE (output boundary) ≠ []
    ∧ last_id (findall1 BOUNDARY_ID_RE (output boundary)) = last_id (findall1 BEFORE_ID_RE (output before));
}.

Lemma identity_verdict_none before boundary after_id after_state after_scanout :
  identity_verdict before boundary after_id after_state after_scanout = None ↔
  same_boot before boundary after_id after_state after_scanout.
Proof.
  unfold identity_verdict. split.
  - case_decide; [done|]. case_decide; [done|]. case_decide as Hid; [done|]. case_decide as Hrc; [done|].
    case_decide as Hc; [done|]. case_decide; [done|]. case_decide as Hbid; [done|]. intros _.
    apply not_lacks in Hc. constructor; try done.
    repeat constructor; lia.
  - intros [Hrc Hc [? Ha] [? Hb]]. rewrite !Forall_cons in Hrc. destruct Hrc as (? & ? & ? & ? & _).
    rewrite Ha, Hb. rewrite !decide_False; try done; try lia; try congruence.
Qed.

(** C24: The judgement of a disconnect is exact.  The checks across the closed port and
    those after the reopening both pass exactly when, over the concatenated logs,
    all diagnostics phases are there in order with one clean sample each, the
    display contract holds with progress, one framebuffer signature is kept, the
    scanout counters grow from each stage to the next, and both frame rates,
    computed in binary64 from one uptime and one sample per end over a finite
    positive time, lie in 10 to 25 Hz. *)
Theorem disconnect_evidence_iff before boundary after_id after_state after_scanout log hz1 hz2 :
  boundary_check before boundary = Ok (None, hz1)
  ∧ after_check before boundary after_id after_state after_scanout log = Ok (None, hz2)
  ↔ ∃ x y, hz1 = Some x ∧ hz2 = Some y ∧ boundary_ok before boundary x
           ∧ reconnected_ok before boundary after_state after_scanout y.
Proof.
  rewrite boundary_check_ok, after_check_ok. split.
  - intros [(x & ? & ?) (y & ? & ?)]. by exists x, y.
  - intros (x & y & ? & ? & ? & ?). split; [by exists x|by exists y].
Qed.

(** The stress verdict is exact: it passes exactly when the command succeeded, the
    framebuffer is unchanged, the seven stages logged their snapshot and their
    memory sample once and in order, no more than 512 KiB of free or available
    memory was lost from first to last, every workload reported success, the
    source and backlight were restored and the display contract holds. *)
Theorem stress_verdict_iff cycles r : stress_verdict cycles r = None ↔ stress_ok cycles r.
Proof. apply stress_verdict_none. Qed.
