(* ===== verification/Gate.v ===== *)
(** * The M9 hardware gate

    [run_preflight], [run_touch], [run_soak], [run_stress], [run_disconnect],
    [run_snapshot] and [main] of scripts/m9-hardware-test.py, over the session. *)

From S2P Require Import Prelude PyBytes PyStr Utf8 PyFloat Regex Contract Telemetry Payload Io Session Commands Verdicts.
Import BootPayload.

(** The three files of [args.artifact_dir]. *)
Record artifacts := { art_image : option bytes; art_dtb : option bytes; art_metadata : option bytes }.

Inductive mode := Preflight | Touch | Soak | Stress | Disconnect | Snapshot.

#[global] Instance mode_eq_dec : EqDecision mode.
Proof. solve_decision. Defined.

(** The parsed command line. *)
Record arguments := {
  arg_port : string;
  arg_mode : mode;
  point_timeout_ms : Z;
  soak_seconds : Z;
  sample_seconds : Z;
  disconnect_seconds : Z;
  snapshot_seconds : Z;
  stress_cycles : Z;
}.

(** The line a passing run prints, per mode. *)
Definition PREFLIGHT_PASS : string :=
  "MICRONUX:M9:PREFLIGHT:PASS " +:+
  "touch=ready-or-unavailable shell=responsive console=restored " +:+
  "abi=3 mode=native-cold-init buffers=3 scanout=one-shot-explicit-rearm " +:+
  "rearm-failures=0 signal=restored underruns=0 host-errors=0 " +:+
  "frame-ack=enabled clock=auto lp=enabled backlight-gate=enabled " +:+
  "vpg=unavailable " +:+
  "brightness=63 brightness-source=cached-last-acked-write " +:+
  "physical-panel-state=unobserved machine=pass visual=required".

Definition TOUCH_PASS : string :=
  "MICRONUX:M9:TOUCH-GATE:PASS " +:+
  "points=5 touch=ready console=restored abi=3 " +:+
  "state=RUNTIME_REVEALED buffers=3 scanout=one-shot-explicit-rearm " +:+
  "frame-ack=enabled faults=0 underruns=0 host-errors=0 " +:+
  "brightness=63 brightness-source=cached-last-acked-write " +:+
  "physical-panel-state=unobserved visual=required".

Definition soak_pass (seconds : Z) (sample_count : nat) : string :=
  "MICRONUX:M9:SOAK:PASS " +:+
  "seconds=" +:+ pretty seconds +:+ " samples=" +:+ pretty sample_count +:+ " " +:+
  "shell=responsive framebuffer=stable touch=ready-or-unavailable " +:+
  "abi=3 state=RUNTIME_REVEALED buffers=3 scanout=one-shot-explicit-rearm " +:+
  "faults=0 underruns=0 host-errors=0 guards=ok " +:+
  "frame-ack=enabled clock=auto lp=enabled backlight-gate=enabled " +:+
  "brightness=63 brightness-source=cached-last-acked-write " +:+
  "physical-panel-state=unobserved visual=required".

Definition stress_pass (cycles : Z) (text : string) : string :=
  "MICRONUX:M9.2:STRESS:PASS " +:+
  "cycles=" +:+ pretty cycles +:+ " sd=write-tested network=traffic " +:+
  "usb=attached framebuffer=paced page-flip=complete " +:+
  "memory_kib=4096 memory_loss_limit_kib=512 " +:+
  "memfree_kib=" +:+ pretty (kib 1 (first_mem text)) +:+ "->" +:+ pretty (kib 1 (last_mem text)) +:+ " " +:+
  "memavailable_kib=" +:+ pretty (kib 2 (first_mem text)) +:+ "->" +:+ pretty (kib 2 (last_mem text)) +:+ " " +:+
  "abi=3 state=RUNTIME_REVEALED touch=ready-or-unavailable " +:+
  "buffers=3 scanout=one-shot-explicit-rearm " +:+
  "faults=0 underruns=0 host-errors=0 guards=ok " +:+
  "frame-ack=enabled clock=auto lp=enabled " +:+
  "brightness=63 brightness-source=cached-last-acked-write " +:+
  "physical-panel-state=unobserved visual=required".

(** [f"{first[key]}->{last[key]}"] *)
Definition span (first last : dict) (key : string) : string :=
  pretty (dget first key) +:+ "->" +:+ pretty (dget last key).

Definition disconnect_classified (disconnect_hz reconnect_hz : option float) (first last : dict) : string :=
  "MICRONUX:M9:USB-DISCONNECT:CLASSIFICATION " +:+
  "phase=disconnect-and-reconnect result=pass " +:+
  "boundary=healthy reconnect=healthy " +:+
  "disconnect_progress_hz=" +:+ fmt_3f (default S754_nan disconnect_hz) +:+ " " +:+
  "reconnect_progress_hz=" +:+ fmt_3f (default S754_nan reconnect_hz) +:+ " " +:+
  "arm-to-irq-over20ms=" +:+ span first last "arm_to_irq_over20ms" +:+ " " +:+
  "fifo-irq-zero=" +:+ span first last "fifo_irq_zero" +:+ " fifo-poll-zero=0".

Definition disconnect_pass (seconds : Z) : string :=
  "MICRONUX:M9:USB-RECONNECT:PASS " +:+
  "disconnected_seconds=" +:+ pretty seconds +:+ " linux=retained " +:+
  "shell=responsive framebuffer=stable abi=3 " +:+
  "state=RUNTIME_REVEALED touch=ready-or-unavailable " +:+
  "buffers=3 scanout=one-shot-explicit-rearm " +:+
  "faults=0 dma-errors=0 underruns=0 host-errors=0 guards=ok " +:+
  "frame-ack=enabled clock=auto lp=enabled backlight-gate=enabled " +:+
  "brightness=63 brightness-source=cached-last-acked-write " +:+
  "physical-panel-state=unobserved " +:+
  "machine=pass visual=required".

Definition snapshot_pass (first last : dict) : string :=
  "MICRONUX:M9:SNAPSHOT:CAPTURED " +:+
  "reset=not-requested source=framebuffer abi=3 " +:+
  "state=RUNTIME_REVEALED buffers=3 scanout=one-shot-explicit-rearm " +:+
  "framebuffer=stable faults=0 dma-errors=0 underruns=0 " +:+
  "host-errors=0 guards=ok frame-ack=enabled clock=auto lp=enabled " +:+
  "brightness=63 brightness-source=cached-last-acked-write " +:+
  "arm-to-irq-over20ms=" +:+ span first last "arm_to_irq_over20ms" +:+ " " +:+
  "fifo-irq-zero=" +:+ span first last "fifo_irq_zero" +:+ " fifo-poll-zero=0 " +:+
  "physical-panel-state=unobserved " +:+
  "evidence=machine-state visual=required".

Definition unexpected_reboot : string :=
  "MICRONUX:M9:USB-DISCONNECT:CLASSIFICATION " +:+
  "phase=disconnect result=fail reason=unexpected-reboot".
Definition classified_failure (phase detail : string) : string :=
  "MICRONUX:M9:USB-DISCONNECT:CLASSIFICATION " +:+
  "phase=" +:+ phase +:+ " result=fail reason=" +:+ detail.

(** [f"{t:.3f}"] of a time difference in seconds *)
Definition fmt_seconds (t : Z) : string :=
  (if decide (t < 0) then "-" else "") +:+ fixed3 (Z.abs t) 1000000000.

Section Gate.
Context {W : Type} (H : host W) (env : environment) (fuel : nat).

Abbreviation command := (run_command H fuel).

(** [return fail(...)] when there is a verdict, else go on. *)
Definition stop_on (v : verdict) (k : io W Z) : io W Z :=
  match v with Some (stage, detail) => fail stage detail | None => k end.

Definition run_preflight (d : device) (boot_log : string) : io W Z :=
  stop_on (fail_on "boot-markers" (boot_contract_problem boot_log)) (
  check ← command d check_command "CHECK" (seconds 30);
  stop_on (check_verdict check) (
  sysfs ← command d display_sysfs_command "DISPLAY_SYSFS" (seconds 20);
  stop_on (sysfs_verdict sysfs) (
  vpg ← command d vpg_unavailable_command "VPG_UNAVAILABLE" (seconds 20);
  stop_on (vpg_verdict vpg) (
  presentation ← command d presentation_command "PRESENTATION" (seconds 45);
  stop_on (presentation_verdict presentation) (
  signal ← command d signal_command "SIGNAL" (seconds 45);
  stop_on (signal_verdict signal) (
  print PREFLIGHT_PASS ;;
  mret 0)))))).

Definition run_touch (d : device) (timeout_ms : Z) : io W Z :=
  touch ← command d (touch_command timeout_ms) "TOUCH" (ms (timeout_ms * 5) + seconds 65);
  stop_on (touch_verdict touch) (
  print TOUCH_PASS ;;
  mret 0).

Definition run_soak (d : device) (soak_s sample_s : Z) : io W Z :=
  let sample_count := Z.to_nat (soak_s / sample_s + 1) in
  soak ← command d (soak_command sample_count sample_s) "SOAK" (seconds (soak_s + 60));
  stop_on (soak_verdict sample_count soak) (
  print (soak_pass soak_s sample_count) ;;
  mret 0).

Definition run_stress (d : device) (cycles : Z) : io W Z :=
  result ← command d (stress_command cycles) "STRESS" (seconds 520);
  stop_on (stress_verdict cycles result) (
  print (stress_pass cycles (output result)) ;;
  mret 0).

(** ** [run_disconnect] and [run_snapshot]: the device may be replaced *)

Definition fail_with (d : device) (stage detail : string) : io W (Z * device) :=
  code ← fail stage detail; mret (code, d).

Definition stop_at (d : device) (v : verdict) (k : io W (Z * device)) : io W (Z * device) :=
  match v with Some (stage, detail) => fail_with d stage detail | None => k end.

(** Two seconds of output, reopening the port until they can be read. *)
Fixpoint passive_loop (n : nat) (port : string) (d : device) (passive_deadline : Z)
    : io W (device * string) :=
  match n with
  | O => out_of_fuel
  | S n =>
      log ← attempt (capture_passive_output H fuel d (seconds 2));
      match log with
      | Some passive_log => mret (d, passive_log)
      | None =>
          d ← reopen_reconnect_serial H fuel port d passive_deadline;
          passive_loop n port d passive_deadline
      end
  end.

Definition passive_capture (port : string) (d : device) : io W (device * string) :=
  now ← monotonic H;
  passive_loop fuel port d (now + seconds 30).

(** The port closed and opened again: the device, what it said, and when. *)
Definition reopen_cycle (port : string) (d : device) (disconnect_s : Z) : io W (device * string) :=
  let boundary_delay := disconnect_s + 1 in
  let reopen_delay := disconnect_s + 3 in
  set_dtr H d false ;;
  set_rts H d false ;;
  close H d ;;
  print ("MICRONUX:M9:USB-DISCONNECT " +:+
         "state=closed duration_seconds=" +:+ pretty disconnect_s +:+ " " +:+
         "boundary_delay_seconds=" +:+ pretty boundary_delay +:+ " " +:+
         "reopen_delay_seconds=" +:+ pretty reopen_delay) ;;
  closed_at ← monotonic H;
  sleep H (seconds reopen_delay) ;;
  opened_at ← monotonic H;
  d ← open_serial H fuel port (seconds 30) false (seconds 1);
  '(d, passive_log) ← passive_capture port d;
  '(d, prompt_log) ← recover_reconnect_prompt H fuel port d (seconds 30);
  let reconnect_log := passive_log +:+ prompt_log in
  print ("MICRONUX:M9:USB-RECONNECT:TRANSPORT " +:+
         "passive_bytes=" +:+ pretty (String.length passive_log) +:+ " " +:+
         "captured_bytes=" +:+ pretty (String.length reconnect_log) +:+ " " +:+
         "host_closed_seconds=" +:+ fmt_seconds (opened_at - closed_at) +:+ " shell=writable") ;;
  mret (d, reconnect_log).

(** The evidence read back, judged in the order of the script. *)
Definition judge_disconnect (d : device) (disconnect_s : Z) (before : CommandResult) (reconnect_log : string)
    : io W (Z * device) :=
  boundary ← command d boundary_read_command "DISCONNECT_BOUNDARY_READ" (seconds 20);
  after_id ← command d after_id_command "DISCONNECT_AFTER_ID" (seconds 20);
  after_state ← command d after_state_command "DISCONNECT_AFTER_STATE" (seconds 20);
  after_scanout ← command d after_scanout_command "DISCONNECT_AFTER_SCANOUT" (seconds 20);
  match identity_verdict before boundary after_id after_state after_scanout with
  | Some (reboot, (stage, detail)) =>
      (if (reboot : bool) then print unexpected_reboot else mret tt) ;;
      fail_with d stage detail
  | None =>
      '(boundary_problem, disconnect_hz) ← lift (boundary_check before boundary);
      match boundary_problem with
      | Some detail =>
          print (classified_failure "disconnect" detail) ;;
          fail_with d "disconnect-failure" detail
      | None =>
          '(after_problem, reconnect_hz) ←
            lift (after_check before boundary after_id after_state after_scanout reconnect_log);
          match after_problem with
          | Some detail =>
              print (classified_failure "reconnect" detail) ;;
              fail_with d "reconnect-driver-fault" detail
          | None =>
              '(first, last) ← lift (first_and_last (full_health_output before boundary after_state after_scanout));
              print (disconnect_classified disconnect_hz reconnect_hz first last) ;;
              print (disconnect_pass disconnect_s) ;;
              mret (0, d)
          end
      end
  end.

Definition run_disconnect (port : string) (d : device) (disconnect_s : Z) : io W (Z * device) :=
  let boundary_delay := disconnect_s + 1 in
  print ("MICRONUX:M9:USB-DISCONNECT:VISUAL-REQUIRED " +:+
         "expect=status-remains-visible-no-cyan seconds=" +:+ pretty disconnect_s) ;;
  reset_policy ← command d disconnect_policy_command "DISCONNECT_POLICY" (seconds 20);
  stop_at d (policy_verdict reset_policy) (
  before ← command d disconnect_before_command "DISCONNECT_BEFORE" (seconds 20);
  stop_at d (before_verdict before) (
  boundary_arm ← command d (boundary_arm_command boundary_delay) "DISCONNECT_BOUNDARY_ARM" (seconds 20);
  stop_at d (armed_verdict boundary_delay boundary_arm) (
  '(d, reconnect_log) ← reopen_cycle port d disconnect_s;
  stop_at d (reconnect_verdict reconnect_log) (
  judge_disconnect d disconnect_s before reconnect_log)))).

(** [str(error).replace(" ", "-")] *)
Definition error_detail (error : exn) : string := str_replace " " "-" (exn_msg error).

Definition run_snapshot (port : string) (d : device) (snapshot_s : Z) : io W (Z * device) :=
  captured ← capture_passive_output H fuel d (seconds snapshot_s);
  print ("MICRONUX:M9:SNAPSHOT " +:+
         "state=passive-capture-complete bytes=" +:+ pretty (String.length captured)) ;;
  stop_at d (fail_on "snapshot-passive" (terminal_failure captured)) (
  '(d, recovered) ← recover_reconnect_prompt H fuel port d (seconds 45);
  print ("MICRONUX:M9:SNAPSHOT " +:+
         "state=prompt-recovered bytes=" +:+ pretty (String.length recovered)) ;;
  stop_at d (fail_on "snapshot-reconnect" (terminal_failure recovered)) (
  touch_problem ← wait_for_touch_terminal H fuel d;
  stop_at d (fail_on "snapshot-touch" touch_problem) (
  snapshot ← catch [SerialException; OSError; TimeoutError]
               (r ← command d snapshot_command "SNAPSHOT" (seconds 30); mret (inl r))
               (λ error, mret (inr error));
  match snapshot with
  | inr error => fail_with d "serial" (error_detail error)
  | inl snapshot =>
      stop_at d (snapshot_verdict snapshot) (
      '(first, last) ← lift (first_and_last (output snapshot));
      print (snapshot_pass first last) ;;
      mret (0, d))
  end))).

(** ** [main] *)

(** The bounds of the command line; a violation is [parser.error]. *)
Definition validate_arguments (args : arguments) : result unit :=
  raise_when (point_timeout_ms args < 5000 ∨ point_timeout_ms args > 120000) SystemExit
    "--point-timeout-ms must be between 5000 and 120000" ;;
  raise_when (soak_seconds args < 60 ∨ soak_seconds args > 900) SystemExit
    "--soak-seconds must be between 60 and 900" ;;
  raise_when (sample_seconds args < 5 ∨ sample_seconds args > 60) SystemExit
    "--sample-seconds must be between 5 and 60" ;;
  raise_when (sample_seconds args > soak_seconds args) SystemExit
    "--sample-seconds cannot exceed --soak-seconds" ;;
  raise_when (disconnect_seconds args < 5 ∨ disconnect_seconds args > 900) SystemExit
    "--disconnect-seconds must be between 5 and 900" ;;
  raise_when (snapshot_seconds args < 1 ∨ snapshot_seconds args > 30) SystemExit
    "--snapshot-seconds must be between 1 and 30" ;;
  raise_when (stress_cycles args < 1 ∨ stress_cycles args > 10) SystemExit
    "--stress-cycles must be between 1 and 10".

(** The exceptions [main] turns into a failure. *)
Definition REPORTED : list exn_class := [SerialException; CalledProcessError; RuntimeError; TimeoutError].

Definition report (error : exn) : io W Z := fail "serial" (error_detail error).

(** The announcement, the reset and the opening of the port. *)
Definition open_phase (args : arguments) : io W device :=
  match arg_mode args with
  | Snapshot => open_serial H fuel (arg_port args) (seconds 30) false (seconds 1)
  | m =>
      match m with
      | Preflight =>
          print ("MICRONUX:M9:PREFLIGHT:VISUAL-REQUIRED " +:+
                 "expect=clean-loader-to-status-and-draw-to-status-transitions")
      | Disconnect =>
          print ("MICRONUX:M9:USB-DISCONNECT:VISUAL-REQUIRED " +:+
                 "expect=clean-loader-to-status-then-status-remains-no-cyan")
      | Stress =>
          print ("MICRONUX:M9.2:STRESS:VISUAL-REQUIRED " +:+
                 "expect=graphics-and-status-remain-complete-no-cyan-no-tearing")
      | _ => mret tt
      end ;;
      rom_reset H env (arg_port args) ;;
      open_serial H fuel (arg_port args) (seconds 30) true (seconds 10)
  end.

(** A function that keeps its device. *)
Definition keeping (d : device) (m : io W Z) : io W (Z * device) := code ← m; mret (code, d).

Definition run_mode (args : arguments) (d : device) (boot_log : string) : io W (Z * device) :=
  match arg_mode args with
  | Preflight => keeping d (run_preflight d boot_log)
  | Touch => keeping d (run_touch d (point_timeout_ms args))
  | Disconnect => run_disconnect (arg_port args) d (disconnect_seconds args)
  | Stress => keeping d (run_stress d (stress_cycles args))
  | Soak => keeping d (run_soak d (soak_seconds args) (sample_seconds args))
  | Snapshot => run_snapshot (arg_port args) d (snapshot_seconds args)
  end.

Definition payload_verified (files : artifacts) : string :=
  "MICRONUX:M9.2:PAYLOAD state=verified " +:+
  "image=" +:+ sha256_file (default [] (art_image files)) +:+ " " +:+
  "dtb=" +:+ sha256_file (default [] (art_dtb files)) +:+ " " +:+
  "metadata-host=" +:+ sha256_file (default [] (art_metadata files)).

(** The session on an open port. *)
Definition session (args : arguments) (files : artifacts) (d : device) : io W (Z * device) :=
  match arg_mode args with
  | Snapshot => run_snapshot (arg_port args) d (snapshot_seconds args)
  | _ =>
      boot_log ← wait_for_shell H fuel d (seconds 120);
      stop_at d (fail_on "boot-payload"
                   (verify_boot_payload boot_log (art_image files) (art_dtb files) (art_metadata files))) (
      print (payload_verified files) ;;
      stop_at d (fail_on "boot-markers" (boot_contract_problem boot_log)) (
      identity_problem ← verify_runtime_identity H fuel d;
      stop_at d (fail_on "runtime-identity" identity_problem) (
      touch_problem ← wait_for_touch_terminal H fuel d;
      stop_at d (fail_on "touch-terminal" touch_problem) (
      run_mode args d boot_log))))
  end.

(** [finally: close_serial_quietly(device)], on the device [main] holds: the one
    the session returned, or the one it was given when the session raised. *)
Definition closing (d : device) (m : io W (Z * device)) : io W Z := λ s,
  match m s with
  | Some (Ok (code, d), s) => (close_serial_quietly H d ;; mret code) s
  | Some (Err e, s) => (close_serial_quietly H d ;; raise (exn_cls e) (exn_msg e)) s
  | None => None
  end.

Definition main (args : arguments) (files : artifacts) : io W Z :=
  lift (validate_arguments args) ;;
  opened ← catch REPORTED (d ← open_phase args; mret (inr d)) (λ error, code ← report error; mret (inl code));
  match opened with
  | inl code => mret code
  | inr d =>
      closing d (catch REPORTED (session args files d) (λ error, code ← report error; mret (code, d)))
  end.

End Gate.

(** ** The gate ends *)

Section Termination.
Context {W : Type} (H : host W) `{!TimedHost H} (env : environment) (fuel : nat) (Hfuel : enough H fuel).

Lemma fail_steady stage detail : steady H (fail stage detail).
Proof. unfold fail, print. repeat steady_step. Qed.

Lemma fail_with_steady d stage detail : steady H (fail_with d stage detail).
Proof. apply (steady_bind H); [apply fail_steady|]. intros. steady_step. Qed.

Lemma stop_on_steady v k : steady H k → steady H (stop_on v k).
Proof. intros. destruct v as [[]|]; [apply fail_steady|done]. Qed.

Lemma stop_at_steady d v k : steady H k → steady H (stop_at d v k).
Proof. intros. destruct v as [[]|]; [apply fail_with_steady|done]. Qed.

(** Each statement of a [run_*] function. *)
Ltac gate_step :=
  lazymatch goal with
  | |- steady _ (run_command _ _ _ _ _ _) => apply run_command_steady; [done|unfold seconds, ms in *; lia]
  | |- steady _ (stop_on _ _) => apply stop_on_steady
  | |- steady _ (stop_at _ _ _) => apply stop_at_steady
  | |- steady _ (fail _ _) => apply fail_steady
  | |- steady _ (report _) => apply fail_steady
  | |- steady _ (fail_with _ _ _) => apply fail_with_steady
  | |- steady _ (verify_runtime_identity _ _ _) => apply identity_steady; done
  | |- steady _ (wait_for_touch_terminal _ _ _) => apply touch_terminal_steady; done
  | |- steady _ (capture_passive_output _ _ _ _) =>
      apply capture_passive_steady; [done|unfold seconds in *; lia]
  | |- steady _ (recover_reconnect_prompt _ _ _ _ _) => apply recover_steady; [done|unfold seconds; lia]
  | |- steady _ (open_serial _ _ _ _ _ _) => apply open_serial_steady; [done|unfold seconds; lia]
  | |- steady _ (wait_for_shell _ _ _ _) => apply wait_for_shell_steady; [done|unfold seconds; lia]
  | |- steady _ (rom_reset _ _ _) => apply rom_reset_steady
  | |- _ => steady_step
  end.

Lemma preflight_steady d boot_log : steady H (run_preflight H fuel d boot_log).
Proof. unfold run_preflight. repeat gate_step. Qed.

Lemma touch_steady d t : t ≤ 120000 → steady H (run_touch H fuel d t).
Proof. intros. unfold run_touch. repeat gate_step. Qed.

Lemma soak_steady d a b : a ≤ 900 → steady H (run_soak H fuel d a b).
Proof. intros. unfold run_soak. repeat gate_step. Qed.

Lemma stress_steady d n : steady H (run_stress H fuel d n).
Proof. unfold run_stress. repeat gate_step. Qed.

Lemma snapshot_steady port d t : t ≤ 30 → steady H (run_snapshot H fuel port d t).
Proof. intros. unfold run_snapshot. repeat gate_step. Qed.

Lemma passive_loop_wp n port d deadline s :
  rounds_left H n deadline s → deadline ≤ time H s + seconds 1000 →
  wp (passive_loop H fuel n port d deadline) (λ _ s', time H s ≤ time H s') s.
Proof.
  pose proof (tick_range (H := H)) as Htick. revert d s.
  induction n as [|n IH]; intros d s Hn Hdl; [destruct Hn; lia|]. cbn [passive_loop].
  apply wp_bind. eapply wp_mono.
  { apply attempt_steady, capture_passive_steady; [done|unfold seconds; lia]. }
  intros [[log|]|e] s1 T1; [cbn; lia| |done]. cbn beta match.
  apply wp_bind. eapply wp_mono; [apply reopen_wp; [done|lia]|].
  intros [d'|e] s2 [T2 R2]; [|lia]. destruct R2 as [Hlt R2].
  eapply wp_mono; [apply IH; [|lia]|cbn; lia].
  eapply (rounds_step H n deadline s s1); [done..|]. unfold ms in *. lia.
Qed.

Lemma passive_capture_steady port d : steady H (passive_capture H fuel port d).
Proof.
  intros s. apply wp_bind, (wp_monotonic H). intros s1 T1 _.
  eapply wp_mono; [apply passive_loop_wp; [apply rounds_enough; [done|]|]; unfold seconds; lia|]. cbn. lia.
Qed.

Ltac disconnect_step :=
  lazymatch goal with
  | |- steady _ (passive_capture _ _ _ _) => apply passive_capture_steady
  | |- _ => gate_step
  end.

Lemma reopen_cycle_steady port d t : 5 ≤ t → steady H (reopen_cycle H fuel port d t).
Proof. intros. unfold reopen_cycle. repeat disconnect_step. Qed.

Lemma disconnect_steady port d t : 5 ≤ t → steady H (run_disconnect H fuel port d t).
Proof.
  intros. unfold run_disconnect, judge_disconnect.
  repeat lazymatch goal with
  | |- steady _ (reopen_cycle _ _ _ _ _) => by apply reopen_cycle_steady
  | |- _ => disconnect_step
  end.
Qed.

Lemma closing_steady d m : steady H m → steady H (closing H d m).
Proof.
  intros Hm s. specialize (Hm s). unfold wp, closing in *.
  destruct (m s) as [[[[code d']|e] s1]|]; [| |done].
  all: match goal with |- match (?a ;; ?b) _ with _ => _ end =>
         assert (steady H (a ;; b)) as Hc by (apply (steady_bind H); [apply close_quietly_steady|intros; steady_step]) end.
  all: specialize (Hc s1); unfold wp in Hc.
  all: repeat case_match; cbn in *; lia.
Qed.

Lemma session_steady args files d :
  validate_arguments args = Ok tt → steady H (session H fuel args files d).
Proof.
  intros Hv. unfold validate_arguments in Hv. inv_ok. unfold session, run_mode, keeping.
  destruct (arg_mode args).
  all: repeat lazymatch goal with
  | |- steady _ (run_preflight _ _ _ _) => apply preflight_steady
  | |- steady _ (run_touch _ _ _ _) => apply touch_steady; lia
  | |- steady _ (run_soak _ _ _ _ _) => apply soak_steady; lia
  | |- steady _ (run_stress _ _ _ _) => apply stress_steady
  | |- steady _ (run_snapshot _ _ _ _ _) => apply snapshot_steady; lia
  | |- steady _ (run_disconnect _ _ _ _ _) => apply disconnect_steady; lia
  | |- _ => disconnect_step
  end.
Qed.

Lemma gate_ends args files s :
  ∃ r s', main H env fuel args files s = Some (r, s').
Proof.
  assert (steady H (main H env fuel args files)) as Hm.
  { unfold main. destruct (validate_arguments args) as [[]|e] eqn:Hv.
    2: { intros s0. apply wp_bind. unfold wp, lift. reflexivity. }
    gate_step; [gate_step|]. gate_step.
    - unfold open_phase. destruct (arg_mode args); repeat gate_step.
    - case_match; [gate_step|]. apply closing_steady. gate_step; [by apply session_steady|repeat gate_step]. }
  specialize (Hm s). unfold wp in Hm. destruct (main _ _ _ _ _ s) as [[r s']|]; [eauto|done].
Qed.

(** C23: The gate always ends: on a host whose clock advances, with fuel for a wait of
    a thousand seconds, every run of [main] comes to an exit code or an exception,
    whatever the board sends, however often the port fails, and in every mode. *)
Theorem main_terminates args files s :
  ∃ r s', main H env fuel args files s = Some (r, s').
Proof. apply gate_ends. Qed.

End Termination.

(** ** A run ends with its verdict *)

(** The lines a mode prints when it passes. *)
Definition pass_line (args : arguments) (line : string) : Prop :=
  match arg_mode args with
  | Preflight => line = PREFLIGHT_PASS
  | Touch => line = TOUCH_PASS
  | Soak => ∃ n, line = soak_pass (soak_seconds args) n
  | Stress => ∃ text, line = stress_pass (stress_cycles args) text
  | Disconnect => line = disconnect_pass (disconnect_seconds args)
  | Snapshot => ∃ first last, line = snapshot_pass first last
  end.

(** The last line of the output goes with the exit code. *)
Definition concluded {W} (pass : string → Prop) (code : Z) (s : st W) : Prop :=
  (code = 0 ∧ ∃ x line, pass line ∧ stdout s = x +:+ line +:+ nl)
  ∨ (code = 1 ∧ ∃ x stage detail,
       stdout s = x +:+ ("MICRONUX:M9:HARDWARE-TEST:FAIL stage=" +:+ stage +:+ " detail=" +:+ detail) +:+ nl).

Section Conclusion.
Context {W : Type} (H : host W) (env : environment) (fuel : nat).

Definition concludes {A} (pass : string → Prop) (code : A → Z) (m : io W A) : Prop :=
  ∀ s, wlp m (λ r s', match r with Ok a => concluded pass (code a) s' | Err _ => True end) s.

Lemma conc_bind {A B} pass (code : B → Z) (m : io W A) (f : A → io W B) :
  (∀ a, concludes pass code (f a)) → concludes pass code (m ≫= f).
Proof.
  intros Hf s. apply wlp_bind. unfold wlp at 1. destruct (m s) as [[[a|e] s']|]; [apply Hf|done..].
Qed.

Lemma conc_pass {A} (pass : string → Prop) (code : A → Z) line a :
  pass line → code a = 0 → concludes pass code (print line ;; mret a).
Proof. intros Hp Ha s. cbn. left. eauto. Qed.

Lemma conc_fail pass stage detail : concludes pass id (fail stage detail).
Proof. intros s. cbn. right. split; [done|]. by exists (stdout s), stage, detail. Qed.

Lemma conc_fail_with pass d stage detail : concludes pass fst (fail_with d stage detail).
Proof. intros s. cbn. right. split; [done|]. by exists (stdout s), stage, detail. Qed.

Lemma conc_stop_on pass v k : concludes pass id k → concludes pass id (stop_on v k).
Proof. destruct v as [[]|]; [intros _; apply conc_fail|done]. Qed.

Lemma conc_stop_at pass d v k : concludes pass fst k → concludes pass fst (stop_at d v k).
Proof. destruct v as [[]|]; [intros _; apply conc_fail_with|done]. Qed.

Lemma conc_keeping pass d m : concludes pass id m → concludes pass fst (keeping d m).
Proof.
  intros Hm s. apply wlp_bind. eapply wlp_mono; [apply Hm|]. by intros [code|e] s'.
Qed.

Ltac conclude :=
  repeat lazymatch goal with
  | |- concludes _ _ (print _ ;; mret _) => apply conc_pass
  | |- concludes _ _ (stop_on _ _) => apply conc_stop_on
  | |- concludes _ _ (stop_at _ _ _) => apply conc_stop_at
  | |- concludes _ _ (fail _ _) => apply conc_fail
  | |- concludes _ _ (fail_with _ _ _) => apply conc_fail_with
  | |- concludes _ _ (keeping _ _) => apply conc_keeping
  | |- concludes _ _ (_ ≫= _) => apply conc_bind; intros ?
  | |- concludes _ _ (match ?x with _ => _ end) => destruct x
  end.

Lemma session_concludes args files d : concludes (pass_line args) fst (session H fuel args files d).
Proof.
  unfold session, run_mode, pass_line.
  destruct (arg_mode args); unfold run_preflight, run_touch, run_soak, run_stress, run_disconnect,
    judge_disconnect, run_snapshot; conclude; eauto.
Qed.

(** Closing the port prints nothing and lets no serial error out. *)
Lemma quietly_spec (m : io W unit) s r s' : (∀ s r s', m s = Some (r, s') → stdout s' = stdout s) →
  quietly m s = Some (r, s') →
  stdout s' = stdout s ∧ match r with Ok _ => True | Err e => caught [SerialException; OSError] e = false end.
Proof.
  intros Hm. unfold quietly, catch. destruct (m s) as [[[u|e] s1]|] eqn:E; [| |done].
  - intros [= <- <-]. split; [by eapply Hm|done].
  - destruct (caught _ e) eqn:Ec; intros [= <- <-]; (split; [by eapply Hm|done]).
Qed.

Lemma effect_stdout {A} (f : W → result A * W) s r s' : effect f s = Some (r, s') → stdout s' = stdout s.
Proof. unfold effect. destruct (f (world s)). by intros [= <- <-]. Qed.

Lemma close_quietly_spec d s r s' : close_serial_quietly H d s = Some (r, s') →
  stdout s' = stdout s ∧ match r with Ok _ => True | Err e => caught [SerialException; OSError] e = false end.
Proof.
  unfold close_serial_quietly, mbind, io_bind.
  destruct (quietly (set_dtr H d false) s) as [[r1 s1]|] eqn:E1; [|done].
  apply quietly_spec in E1 as [F1 G1]; [|apply effect_stdout]. destruct r1 as [u1|e1]; [|intros [= <- <-]; done].
  destruct (quietly (set_rts H d false) s1) as [[r2 s2]|] eqn:E2; [|done].
  apply quietly_spec in E2 as [F2 G2]; [|apply effect_stdout].
  destruct r2 as [u2|e2]; [|intros [= <- <-]; split; [congruence|done]].
  intros [F3 G3]%quietly_spec; [|apply effect_stdout]. split; [congruence|done].
Qed.

(** No serial error and no timeout. *)
Definition not_serial (e : exn) : Prop := caught [SerialException; TimeoutError] e = false.

Lemma uncaught_reported e : caught REPORTED e = false → not_serial e.
Proof. unfold caught, not_serial. destruct e as [[] ?]; done. Qed.

Lemma uncaught_quiet e : caught [SerialException; OSError] e = false → not_serial e.
Proof. unfold caught, not_serial. destruct e as [[] ?]; done. Qed.

Lemma gate_reports args files s :
  wlp (main H env fuel args files)
    (λ r s', match r with Ok code => concluded (pass_line args) code s' | Err e => not_serial e end) s.
Proof.
  unfold main. apply wlp_bind. unfold wlp at 1, lift.
  destruct (validate_arguments args) as [u|e] eqn:Ev.
  2: { assert (only_raises SystemExit (validate_arguments args)) as Hr by (unfold validate_arguments; solve_raises).
       rewrite Ev in Hr. destruct e as [c m]. cbn in Hr. by subst c. }
  apply wlp_bind. unfold wlp at 1, catch at 1.
  destruct ((d ← open_phase H env fuel args; mret (inr d)) s) as [[[[code|d]|e] s1]|] eqn:Eo; [| | |done].
  - apply bind_returned in Eo as (d & s2 & _ & [=]).
  - unfold wlp, closing, catch. pose proof (session_concludes args files d s1) as Hc. unfold wlp in Hc.
    assert (∀ r s2 d', concluded (pass_line args) r s2 → match (close_serial_quietly H d' ;; mret r) s2 with
      | Some (Ok code, s') => concluded (pass_line args) code s' | Some (Err e, _) => not_serial e | None => True end) as Hclose.
    { intros r s2 d' Hr. unfold mbind, io_bind.
      destruct (close_serial_quietly H d' s2) as [[r3 s3]|] eqn:E3; [|done].
      apply close_quietly_spec in E3 as [E3 F3]. destruct r3; [|by apply uncaught_quiet].
      unfold concluded in *. cbn. by rewrite E3. }
    destruct (session H fuel args files d s1) as [[[[code d']|e] s2]|]; [| |done].
    + specialize (Hclose code s2 d' Hc). by destruct ((close_serial_quietly H d' ;; mret code) s2) as [[[]]|].
    + destruct (caught REPORTED e) eqn:Ec.
      * pose proof (conc_fail (pass_line args) "serial" (error_detail e) s2) as Hf.
        specialize (Hclose 1 _ d Hf). exact Hclose.
      * unfold mbind, io_bind. destruct (close_serial_quietly H d s2) as [[[u3|e3] s3]|] eqn:E3; [| |done].
        -- cbn. destruct e as [c m]. by apply uncaught_reported.
        -- apply close_quietly_spec in E3 as [_ F3]. by apply uncaught_quiet.
  - destruct (caught REPORTED e) eqn:Ec; [|by apply uncaught_reported].
    apply (conc_fail (pass_line args) "serial" (error_detail e)).
Qed.

(** C22: Every run of the gate ends, and with its verdict: on a host whose clock advances,
    with fuel for a wait of a thousand seconds, [main] returns 0 and the last line it has
    printed is the mode's PASS line, or it returns 1 and the last line is a FAIL line with its
    stage and detail, or it raises an exception that is neither a serial error nor a timeout:
    those are reported as failures. *)
Theorem main_reports `{!TimedHost H} args files s :
  enough H fuel →
  wp (main H env fuel args files)
    (λ r s', match r with Ok code => concluded (pass_line args) code s' | Err e => not_serial e end) s.
Proof.
  intros Hf. pose proof (gate_reports args files s) as Hr. unfold wp, wlp in *.
  destruct (gate_ends H env fuel Hf args files s) as (r & s' & E). by rewrite E in Hr |- *.
Qed.

End Conclusion.

(** ** What a passing run has seen

    A [timeline] relates the world before and after a part of a run; the evidence of a run
    is the timeline of what it did on the board, in order, and what it was told. *)

Definition timeline (W : Type) : Type := W → W → Prop.

Section Timelines.
Context {W : Type}.

(** The program ran and returned [a]. *)
Definition did {A} (m : io W A) (a : A) : timeline W := λ w w',
  ∃ o e o' e', m (mkSt w o e) = Some (Ok a, mkSt w' o' e').
(** Nothing happens, and [P] holds. *)
Definition given (P : Prop) : timeline W := λ w w', P ∧ w' = w.
Definition next (P Q : timeline W) : timeline W := λ w w'', ∃ w', P w w' ∧ Q w' w''.
Definition some {A} (P : A → timeline W) : timeline W := λ w w', ∃ a, P a w w'.

Lemma did_run {A} (m : io W A) a s s' : m s = Some (Ok a, s') → did m a (world s) (world s').
Proof. intros E. destruct s as [w o e], s' as [w' o' e']. by exists o, e, o', e'. Qed.

Lemma print_world text (s : st W) u s' : print text s = Some (Ok u, s') → world s' = world s.
Proof. by intros [= _ <-]. Qed.

Lemma lift_world {A} (r : result A) (s : st W) a s' : lift r s = Some (Ok a, s') → r = Ok a ∧ world s' = world s.
Proof. intros [? ->]%lift_returned. done. Qed.

Lemma given_next (P : Prop) (Q : timeline W) w w' : P → Q w w' → next (given P) Q w w'.
Proof. intros HP HQ. exists w. by split. Qed.

Lemma next_of (P Q : timeline W) w w' w'' : P w w' → Q w' w'' → next P Q w w''.
Proof. intros. by exists w'. Qed.

End Timelines.

Infix "⨾" := next (at level 70, right associativity).

Section Soundness.
Context {W : Type} (H : host W) (env : environment) (fuel : nat).

Definition ran (d : device) (text label : string) (timeout : Z) (r : CommandResult) : timeline W :=
  did (run_command H fuel d text label timeout) r.

(** A boot log that names the artifacts and shows the bring-up in order, without a failure. *)
Definition boot_ok (files : artifacts) (boot_log : string) : Prop :=
  (∃ i t m fs memory kd ds dd,
     art_image files = Some i ∧ art_dtb files = Some t ∧ art_metadata files = Some m
     ∧ findall KERNEL_RE boot_log = [[fs; memory; kd]] ∧ findall DTB_RE boot_log = [[ds; dd]]
     ∧ payload_ok i t m fs memory kd ds dd)
  ∧ Forall (λ m, contains m boot_log = false) FAILURE_MARKERS
  ∧ contains "Linux version 6.12.27" boot_log = true
  ∧ placed boot_log 0 ORDERED_MARKERS
  ∧ Forall (λ f, contains f boot_log = true) REQUIRED_FRAGMENTS.

(** The log of the boot, read up to the prompt. *)
Definition booted (files : artifacts) (d : device) : timeline W :=
  some (λ boot_log, did (wait_for_shell H fuel d (seconds 120)) boot_log ⨾ given (boot_ok files boot_log)).

(** Two samples of the same boot, with an uptime that advances. *)
Definition identified (d : device) : timeline W :=
  some (λ r, ran d runtime_identity_command "RUNTIME_IDENTITY" (seconds 20) r
    ⨾ given (return_code r = 0 ∧ ∃ id up_a up_b, identity_samples (output r) = inr (id, up_a, up_b))).

Definition touch_settled (d : device) : timeline W :=
  some (λ r, ran d touch_terminal_command "TOUCH_TERMINAL" (seconds 30) r
    ⨾ given (return_code r = 0 ∧ matched TOUCH_LINE_RE (output r))).

(** The commands of a mode, run on [d] and at the end on [d']. *)
Definition mode_passed (args : arguments) (d d' : device) : timeline W :=
  match arg_mode args with
  | Preflight =>
      some (λ check, ran d check_command "CHECK" (seconds 30) check
      ⨾ some (λ sysfs, ran d display_sysfs_command "DISPLAY_SYSFS" (seconds 20) sysfs
      ⨾ some (λ vpg, ran d vpg_unavailable_command "VPG_UNAVAILABLE" (seconds 20) vpg
      ⨾ some (λ presentation, ran d presentation_command "PRESENTATION" (seconds 45) presentation
      ⨾ some (λ signal, ran d signal_command "SIGNAL" (seconds 45) signal
      ⨾ given (preflight_ok check sysfs vpg presentation signal ∧ d' = d))))))
  | Touch =>
      some (λ r, ran d (touch_command (point_timeout_ms args)) "TOUCH" (ms (point_timeout_ms args * 5) + seconds 65) r
      ⨾ given (touch_ok r ∧ d' = d))
  | Soak =>
      let n := Z.to_nat (soak_seconds args / sample_seconds args + 1) in
      some (λ r, ran d (soak_command n (sample_seconds args)) "SOAK" (seconds (soak_seconds args + 60)) r
      ⨾ given (soak_ok n r ∧ d' = d))
  | Stress =>
      some (λ r, ran d (stress_command (stress_cycles args)) "STRESS" (seconds 520) r
      ⨾ given (stress_ok (stress_cycles args) r ∧ d' = d))
  | Disconnect =>
      some (λ policy, ran d disconnect_policy_command "DISCONNECT_POLICY" (seconds 20) policy
      ⨾ given (return_code policy = 0 ∧ contains "disabled" (output policy) = true)
      ⨾ some (λ before, ran d disconnect_before_command "DISCONNECT_BEFORE" (seconds 20) before
      ⨾ given (before_ok before)
      ⨾ some (λ armed, ran d (boundary_arm_command (disconnect_seconds args + 1)) "DISCONNECT_BOUNDARY_ARM" (seconds 20) armed
      ⨾ given (return_code armed = 0 ∧ matched (boundary_armed_re (disconnect_seconds args + 1)) (output armed))
      ⨾ some (λ log, did (reopen_cycle H fuel (arg_port args) d (disconnect_seconds args)) (d', log)
      ⨾ given (terminal_failure log = None)
      ⨾ some (λ boundary, ran d' boundary_read_command "DISCONNECT_BOUNDARY_READ" (seconds 20) boundary
      ⨾ some (λ after_id, ran d' after_id_command "DISCONNECT_AFTER_ID" (seconds 20) after_id
      ⨾ some (λ after_state, ran d' after_state_command "DISCONNECT_AFTER_STATE" (seconds 20) after_state
      ⨾ some (λ after_scanout, ran d' after_scanout_command "DISCONNECT_AFTER_SCANOUT" (seconds 20) after_scanout
      ⨾ given (same_boot before boundary after_id after_state after_scanout
               ∧ ∃ hz1 hz2, boundary_ok before boundary hz1 ∧ reconnected_ok before boundary after_state after_scanout hz2)))))))))
  | Snapshot =>
      some (λ captured, did (capture_passive_output H fuel d (seconds (snapshot_seconds args))) captured
      ⨾ given (terminal_failure captured = None)
      ⨾ some (λ recovered, did (recover_reconnect_prompt H fuel (arg_port args) d (seconds 45)) (d', recovered)
      ⨾ given (terminal_failure recovered = None)
      ⨾ touch_settled d'
      ⨾ some (λ r, ran d' snapshot_command "SNAPSHOT" (seconds 30) r ⨾ given (snapshot_ok r))))
  end.

(** What happens on the port between its opening and its closing. *)
Definition session_passed (args : arguments) (files : artifacts) (d d' : device) : timeline W :=
  match arg_mode args with
  | Snapshot => mode_passed args d d'
  | _ => booted files d ⨾ identified d ⨾ touch_settled d ⨾ mode_passed args d d'
  end.

Definition opened (args : arguments) (d : device) : timeline W :=
  match arg_mode args with
  | Snapshot => did (open_serial H fuel (arg_port args) (seconds 30) false (seconds 1)) d
  | _ => did (rom_reset H env (arg_port args)) tt
         ⨾ did (open_serial H fuel (arg_port args) (seconds 30) true (seconds 10)) d
  end.

(** What [main] has done when it returns 0, from its first to its last effect. *)
Definition evidence (args : arguments) (files : artifacts) : timeline W :=
  some (λ d, opened args d
  ⨾ some (λ d', session_passed args files d d' ⨾ did (close_serial_quietly H d') tt)).

Lemma stop_on_zero v (k : io W Z) s s' : stop_on v k s = Some (Ok 0, s') → v = None ∧ k s = Some (Ok 0, s').
Proof. by destruct v as [[]|]. Qed.

Lemma stop_at_zero d v (k : io W (Z * device)) s d' s' :
  stop_at d v k s = Some (Ok (0, d'), s') → v = None ∧ k s = Some (Ok (0, d'), s').
Proof. by destruct v as [[]|]. Qed.

Lemma keeping_zero d (m : io W Z) s d' s' :
  keeping d m s = Some (Ok (0, d'), s') → m s = Some (Ok 0, s') ∧ d' = d.
Proof. intros (code & s1 & E & [= -> -> ->])%bind_returned. done. Qed.

Lemma fail_with_zero d stage detail (s : st W) d' s' : fail_with d stage detail s ≠ Some (Ok (0, d'), s').
Proof. by intros [=]. Qed.

Lemma print_ret_zero {A} text (a b : A) (s : st W) s' :
  (print text ;; mret a) s = Some (Ok b, s') → b = a ∧ world s' = world s.
Proof. by intros [= <- <-]. Qed.

(** Takes a run that returned 0 apart, one statement at a time: [R] is what a statement
    returned, [V] the verdict that let the run go on, [T] that it left the world alone. *)
Ltac passed_step E :=
  lazymatch type of E with
  | stop_on _ _ _ = _ => let V := fresh "V" in apply stop_on_zero in E as [V E]
  | stop_at _ _ _ _ = _ => let V := fresh "V" in apply stop_at_zero in E as [V E]
  | keeping _ _ _ = _ => apply keeping_zero in E as [E ->]
  | (print _ ;; mret _) _ = _ => let T := fresh "T" in apply print_ret_zero in E as [E T]
  | (_ ≫= _) _ = _ =>
      let a := fresh "a" in let s := fresh "s" in let R := fresh "R" in
      apply bind_returned in E as (a & s & R & E);
      lazymatch type of R with
      | print _ _ = _ => let T := fresh "T" in apply print_world in R as T; clear R
      | lift _ _ = _ => let T := fresh "T" in apply lift_world in R as [R T]
      | _ = _ => apply did_run in R
      end
  | fail_with _ _ _ _ = _ => by apply fail_with_zero in E
  end.

(** Puts the timeline together from the parts. *)
Ltac same_worlds := repeat match goal with T : world _ = world _ |- _ => rewrite T in *; clear T end.
Ltac replay :=
  repeat lazymatch goal with
  | |- some _ _ _ => eexists
  | |- next (given _) _ _ _ => apply given_next
  | |- next (did _ _) _ _ _ => eexists; split; [eassumption|]
  | |- next (ran _ _ _ _ _) _ _ _ => eexists; split; [eassumption|]
  | |- given _ _ _ => split; [|reflexivity]
  end.

Lemma preflight_passed args d log s s' : arg_mode args = Preflight →
  run_preflight H fuel d log s = Some (Ok 0, s') → mode_passed args d d (world s) (world s').
Proof.
  intros Hm E. unfold mode_passed. rewrite Hm. unfold run_preflight in E. repeat passed_step E. same_worlds. replay.
  split; [by apply preflight_verdicts_none|done].
Qed.

Lemma touch_passed_run args d s s' : arg_mode args = Touch →
  run_touch H fuel d (point_timeout_ms args) s = Some (Ok 0, s') → mode_passed args d d (world s) (world s').
Proof.
  intros Hm E. unfold mode_passed. rewrite Hm. unfold run_touch in E. repeat passed_step E. same_worlds. replay.
  split; [by apply touch_verdict_none|done].
Qed.

Lemma soak_passed_run args d s s' : arg_mode args = Soak → validate_arguments args = Ok tt →
  run_soak H fuel d (soak_seconds args) (sample_seconds args) s = Some (Ok 0, s') →
  mode_passed args d d (world s) (world s').
Proof.
  intros Hm Hv E. unfold mode_passed. rewrite Hm. unfold run_soak in E. cbv zeta in E. repeat passed_step E. same_worlds.
  cbv zeta. replay. split; [|done]. apply soak_verdict_none; [|done].
  unfold validate_arguments in Hv. inv_ok.
  assert (0 ≤ soak_seconds args / sample_seconds args) by (apply Z.div_pos; lia). lia.
Qed.

Lemma stress_passed_run args d s s' : arg_mode args = Stress →
  run_stress H fuel d (stress_cycles args) s = Some (Ok 0, s') → mode_passed args d d (world s) (world s').
Proof.
  intros Hm E. unfold mode_passed. rewrite Hm. unfold run_stress in E. repeat passed_step E. same_worlds. replay.
  split; [by apply stress_verdict_none|done].
Qed.

Lemma wait_identity_none d s s' : did (verify_runtime_identity H fuel d) None s s' → identified d s s'.
Proof.
  intros (o & e & o' & e' & E). unfold verify_runtime_identity in E. apply bind_returned in E as (r & s1 & R & E). revert E.
  case_decide; [done|]. destruct (identity_samples (output r)) as [p|[[id up_a] up_b]] eqn:Ei; [done|].
  intros (u & s2 & T%print_world & [= E])%bind_returned. apply did_run in R. exists r, s'. split.
  - replace s' with (world s1); [exact R|]. rewrite <- T. by rewrite E.
  - split; [|done]. split; [lia|]. by exists id, up_a, up_b.
Qed.

Lemma wait_touch_none d s s' : did (wait_for_touch_terminal H fuel d) None s s' → touch_settled d s s'.
Proof.
  intros (o & e & o' & e' & E). unfold wait_for_touch_terminal in E. apply bind_returned in E as (r & s1 & R & E). revert E.
  case_decide; [done|]. destruct (search TOUCH_LINE_RE (output r)) as [m|] eqn:Em; [|done].
  intros [= ->]. apply did_run in R. exists r, s'. split; [exact R|]. split; [|done]. split; [lia|]. by exists m.
Qed.

(** An exception [run_snapshot] catches is no reply. *)
Lemma attempted_run d text label timeout r w w' :
  did (catch [SerialException; OSError; TimeoutError]
    (r ← run_command H fuel d text label timeout; mret (inl r)) (λ error, mret (inr error))) (inl r) w w' →
  ran d text label timeout r w w'.
Proof.
  intros (o & e & o' & e' & E). revert E. unfold catch.
  destruct ((r ← run_command _ _ _ _ _ _; _) (mkSt w o e)) as [[[]]|] eqn:Ec; [| |done].
  - intros [= -> ->]. apply bind_returned in Ec as (r' & s1 & Hr%did_run & [= -> Es]). by subst s1.
  - by destruct (caught _ _).
Qed.

Lemma snapshot_passed_run args d s d' s' : arg_mode args = Snapshot →
  run_snapshot H fuel (arg_port args) d (snapshot_seconds args) s = Some (Ok (0, d'), s') →
  mode_passed args d d' (world s) (world s').
Proof.
  intros Hm E. unfold mode_passed. rewrite Hm. unfold run_snapshot in E.
  repeat passed_step E. destruct a1 as [d1 recovered]. repeat passed_step E.
  destruct a3 as [snapshot|error]; repeat passed_step E. destruct a3 as [first last]. repeat passed_step E.
  rewrite fail_on_none in V, V0, V1. subst a2. injection E as ->. apply wait_touch_none in R1. apply attempted_run in R2.
  same_worlds. replay; [done|done|]. eexists. split; [done|]. replay. by apply snapshot_verdict_none.
Qed.

Lemma policy_verdict_none r :
  policy_verdict r = None ↔ return_code r = 0 ∧ contains "disabled" (output r) = true.
Proof.
  unfold policy_verdict. rewrite fail_when_none, <- not_false_iff_true. unfold lacks.
  split; [intros Hn; split; [|tauto]; destruct (decide (return_code r = 0)); tauto|tauto].
Qed.

Lemma armed_verdict_none delay r :
  armed_verdict delay r = None ↔ return_code r = 0 ∧ matched (boundary_armed_re delay) (output r).
Proof.
  unfold armed_verdict. rewrite fail_when_none, <- not_unmatched.
  split; [intros Hn; split; [|tauto]; destruct (decide (return_code r = 0)); tauto|tauto].
Qed.

Lemma disconnect_passed_run args d s d' s' : arg_mode args = Disconnect →
  run_disconnect H fuel (arg_port args) d (disconnect_seconds args) s = Some (Ok (0, d'), s') →
  mode_passed args d d' (world s) (world s').
Proof.
  intros Hm E. unfold mode_passed. rewrite Hm. unfold run_disconnect in E. repeat passed_step E.
  destruct a3 as [d1 log]. unfold judge_disconnect in E. repeat passed_step E.
  destruct (identity_verdict _ _ _ _ _) as [[reboot [stage detail]]|] eqn:Hid; repeat passed_step E.
  destruct a7 as [[detail|] hz1]; repeat passed_step E. rename R7 into Hb.
  destruct a7 as [[detail|] hz2]; repeat passed_step E. rename R8 into Ha.
  destruct a7 as [first last]; repeat passed_step E. injection E as ->.
  apply boundary_check_ok in Hb as (x & -> & Hb). apply after_check_ok in Ha as (y & -> & Ha).
  unfold reconnect_verdict in V2. rewrite fail_on_none in V2.
  apply policy_verdict_none in V. apply before_verdict_none in V0. apply armed_verdict_none in V1.
  apply identity_verdict_none in Hid. same_worlds. replay; eauto.
Qed.

Lemma mode_passed_run args d log s d' s' : validate_arguments args = Ok tt →
  run_mode H fuel args d log s = Some (Ok (0, d'), s') → mode_passed args d d' (world s) (world s').
Proof.
  intros Hv E. unfold run_mode in E. destruct (arg_mode args) eqn:Em; repeat passed_step E.
  - by eapply preflight_passed.
  - by apply touch_passed_run.
  - by apply soak_passed_run.
  - by apply stress_passed_run.
  - by apply disconnect_passed_run.
  - by apply snapshot_passed_run.
Qed.

Lemma session_evidence args files d s d' s' : validate_arguments args = Ok tt →
  session H fuel args files d s = Some (Ok (0, d'), s') → session_passed args files d d' (world s) (world s').
Proof.
  intros Hv E. unfold session_passed, session in *.
  destruct (arg_mode args) eqn:Hm; [..|by apply snapshot_passed_run].
  all: repeat passed_step E; apply mode_passed_run in E; [|done].
  all: rewrite fail_on_none in V, V0, V1, V2; subst.
  all: apply boot_contract_none in V0; apply verify_boot_payload_none in V.
  all: apply wait_identity_none in R0; apply wait_touch_none in R1; same_worlds.
  all: eapply next_of; [|eapply next_of; [done|by eapply next_of]].
  all: eexists; replay; by split.
Qed.

Lemma opened_run args d s s' :
  open_phase H env fuel args s = Some (Ok d, s') → opened args d (world s) (world s').
Proof.
  unfold open_phase, opened. intros E. destruct (arg_mode args); [..|by apply did_run].
  all: apply bind_returned in E as (u & s1 & [= _ Es] & E); apply bind_returned in E as ([] & s2 & R%did_run & E%did_run).
  all: rewrite <- Es in R; by eexists.
Qed.

Lemma gate_evidence args files s s' :
  main H env fuel args files s = Some (Ok 0, s') → evidence args files (world s) (world s').
Proof.
  intros E. unfold main in E. apply bind_returned in E as ([] & s1 & [Hv ->]%lift_returned & E).
  apply bind_returned in E as ([code|d] & s2 & Ro & E).
  { exfalso. injection E as -> ->. revert Ro. unfold catch.
    destruct ((d ← open_phase H env fuel args; mret (inr d)) s) as [[[[c|d]|e] s3]|] eqn:Eo.
    - by apply bind_returned in Eo as (? & ? & _ & [=]).
    - by intros [=].
    - destruct (caught _ e); by intros [=].
    - done. }
  assert (opened args d (world s) (world s2)) as Ho.
  { revert Ro. unfold catch. destruct ((d ← open_phase H env fuel args; mret (inr d)) s) as [[[x|e] s3]|] eqn:Eo; [| |done].
    - intros [= -> ->]. apply bind_returned in Eo as (d0 & s4 & R%opened_run & [= -> Es]). by subst.
    - destruct (caught _ e); by intros [=]. }
  unfold closing, catch in E.
  destruct (session H fuel args files d s2) as [[[[code d']|e] s3]|] eqn:Es; [| |done].
  - apply bind_returned in E as ([] & s4 & C%did_run & [= -> <-]). apply session_evidence in Es; [|done].
    exists d, (world s2). split; [done|]. exists d', (world s3). by split.
  - destruct (caught REPORTED e); apply bind_returned in E as (u & s4 & _ & [=]).
Qed.

(** C21: A pass is backed by evidence, in the order in which it was gathered.  When [main]
    returns 0 the port was opened (after a reset of the board, except for a snapshot), the
    commands of the mode were run on the board one after the other and their replies satisfy
    the mode's specification, and the port was closed.  In every mode but the snapshot these
    commands come after the log of this boot, read from the reset to the prompt, has named the
    artifacts on disk and shown the whole bring-up in order without a failure, after the boot
    identity was sampled twice with an advancing uptime, and after the touch controller reached
    a terminal state; the snapshot checks no boot and no identity: it passes on two transcripts
    without a terminal failure, a settled touch controller and a reply to its command that
    satisfies the snapshot's specification. *)
Theorem main_pass_sound args files s :
  wlp (main H env fuel args files) (λ r s', r = Ok 0 → evidence args files (world s) (world s')) s.
Proof.
  unfold wlp. destruct (main H env fuel args files s) as [[r s']|] eqn:E; [|done]. intros ->. by apply gate_evidence.
Qed.

End Soundness.

(** ** Runs on concrete hosts *)

Definition sample_environment : environment := {|
  executable := "python3";
  USB_RESET_ARM := "scripts/usb-reset-arm.py";
  died_with := λ n, "unknown signal " +:+ pretty n;
|}.

Definition sample_arguments (m : mode) : arguments := {|
  arg_port := "COM14";
  arg_mode := m;
  point_timeout_ms := 60000;
  soak_seconds := 240;
  sample_seconds := 15;
  disconnect_seconds := 600;
  snapshot_seconds := 1;
  stress_cycles := 3;
|}.

Definition no_artifacts : artifacts := {| art_image := None; art_dtb := None; art_metadata := None |}.

Definition sample_fuel : nat := Z.to_nat 20001.

(** On the silent host the soak ends. *)
Lemma main_terminates_witness :
  enough silent_host sample_fuel
  ∧ ∃ r s', main silent_host sample_environment sample_fuel (sample_arguments Soak) no_artifacts (mkSt 0 "" "")
            = Some (r, s').
Proof.
  assert (enough silent_host sample_fuel) as Hf by (apply Z.leb_le; by_compute).
  split; [exact Hf|]. apply (main_terminates silent_host sample_environment sample_fuel Hf).
Defined.

(** On the silent host the soak reports its failure. *)
Lemma main_reports_witness :
  enough silent_host sample_fuel
  ∧ wp (main silent_host sample_environment sample_fuel (sample_arguments Soak) no_artifacts)
      (λ r s', match r with Ok code => concluded (pass_line (sample_arguments Soak)) code s' | Err e => not_serial e end)
      (mkSt 0 "" "").
Proof.
  assert (enough silent_host sample_fuel) as Hf by (apply Z.leb_le; by_compute).
  split; [exact Hf|]. apply (main_reports silent_host sample_environment sample_fuel). exact Hf.
Defined.

(** A bench whose first port dies after 1.5 seconds.  The port opened after it
    shows the prompt after a newline, and fails when a command is written. *)
Record bench := { b_time : Z; b_open : list device; b_next : device; b_inbox : list bytes }.

Definition gone {A} (b : bench) : result A * bench := (Err (Exn SerialException "device disconnected"), b).

Definition failing_bench : host bench := {|
  h_monotonic_ns b := (b_time b, b);
  h_sleep t b := {| b_time := b_time b + t; b_open := b_open b; b_next := b_next b; b_inbox := b_inbox b |};
  h_open _ b := (Ok (b_next b), {| b_time := b_time b; b_open := b_next b :: b_open b;
                                   b_next := b_next b + 1; b_inbox := b_inbox b |});
  h_reset_input_buffer _ b := (Ok tt, b);
  h_reset_output_buffer _ b := (Ok tt, b);
  h_in_waiting _ b := (Ok 0, b);
  h_read d _ b :=
    if decide (d = 0 ∧ ms 1500 ≤ b_time b) then gone b
    else (Ok (default [] (head (b_inbox b))),
          {| b_time := b_time b + ms 50; b_open := b_open b; b_next := b_next b; b_inbox := tail (b_inbox b) |});
  h_write _ data b :=
    if decide (blen data ≤ 2)
    then (Ok (blen data), {| b_time := b_time b; b_open := b_open b; b_next := b_next b;
                             b_inbox := [encode (nl +:+ "/ # ")] |})
    else gone b;
  h_flush _ b := (Ok tt, b);
  h_set_dtr _ _ b := (Ok tt, b);
  h_set_rts _ _ b := (Ok tt, b);
  h_cancel_read _ b := (Ok tt, b);
  h_cancel_write _ b := (Ok tt, b);
  h_close d b := (Ok tt, {| b_time := b_time b; b_open := filter (λ x, x ≠ d) (b_open b);
                            b_next := b_next b; b_inbox := b_inbox b |});
  h_run _ b := (Ok 0, b);
  h_make_parent _ b := (Ok tt, b);
  h_write_text _ _ b := (Ok tt, b);
|}.

(** The port opened during the recovery is still open when [main] has returned:
    its [finally] closes the device it held before the recovery replaced it. *)
Example replaced_device_left_open :
  (λ o, (o.1, b_open (world o.2))) <$>
    main failing_bench sample_environment 200 (sample_arguments Snapshot) no_artifacts
      (mkSt {| b_time := 0; b_open := []; b_next := 0; b_inbox := [] |} "" "")
  = Some (Ok 1, [1]).
Proof. by_compute. Qed.
