(* ===== verification/Series.v ===== *)
(** * The Linux patch series

    scripts/check-linux-patch-series.py: the three ordered patch directories, the
    boundary between the isolation series and the other configurations, and the
    digest of the whole stack.  The file system is an input: the files of each
    directory, in the arbitrary order of a directory listing. *)

From S2P Require Import Prelude PyBytes PyStr Utf8 Sha256 Regex.

(** A regular file: its name and its bytes. *)
Abbreviation file := (string * bytes)%type.

Record source_tree := {
  (** [BOARD / directory / "linux"] *)
  patch_files : string → list file;
  (** [CONFIGS] *)
  config_files : list file;
  (** [BOARD / "patches" / "linux"], if it exists *)
  monolith : option (list file);
}.

Definition SERIES : list (string * Z) :=
  [("patches-platform", 8); ("patches-peripherals", 46); ("patches-isolation", 10)].

Definition ISOLATION_CONFIGS : list string :=
  ["micronux_esp32p4_isolation_defconfig"; "micronux_esp32p4_gui_foundation_defconfig"].

Definition SUBJECT_RE : re := Eval vm_compute in compile true "^Subject: \[PATCH (\d+)/(\d+)\] ".

Definition fail_text (message : string) : string := "MICRONUX:PATCH-SERIES state=fail reason=" +:+ message.

(** [if P: fail(message)] *)
Definition fail_if (P : Prop) `{Decision P} (message : string) : result unit :=
  raise_when P SystemExit (fail_text message).

(** [sorted(directory.glob(pattern))]: the files of the pattern by name *)
Definition name_le (a b : file) : Prop := String.leb a.1 b.1 = true.
#[global] Instance name_le_dec : RelDecision name_le.
Proof. intros a b. unfold name_le. apply _. Defined.

Definition glob_patch (files : list file) : list file :=
  merge_sort name_le (filter (λ f, endswith ".patch" f.1 = true) files).

Definition CONFIG_PREFIX : string := "micronux_esp32p4".
Definition CONFIG_SUFFIX : string := "_defconfig".
Definition is_config (name : string) : bool :=
  startswith CONFIG_PREFIX name && endswith CONFIG_SUFFIX (str_drop (String.length CONFIG_PREFIX) name).
Definition glob_configs (files : list file) : list file :=
  merge_sort name_le (filter (λ f, is_config f.1 = true) files).

Definition prefix_of (index : Z) : string := fmt_04d index +:+ "-".

(** The checks on one patch, and its line of the manifest. *)
Definition validate_patch (directory : string) (expected_count expected_index : Z) (patch : file) : result string :=
  let prefix := prefix_of expected_index in
  fail_if (startswith prefix patch.1 = false)
    (directory +:+ "-order-" +:+ patch.1 +:+ "-expected-" +:+ prefix) ;;
  content ← read_text patch.2;
  match search SUBJECT_RE content with
  | None => Err (Exn SystemExit (fail_text (directory +:+ "-subject-" +:+ patch.1)))
  | Some subject =>
      fail_if (int_of 10 (group subject "1") ≠ expected_index) (directory +:+ "-subject-index-" +:+ patch.1) ;;
      fail_if (int_of 10 (group subject "2") ≠ expected_count) (directory +:+ "-subject-total-" +:+ patch.1) ;;
      fail_if (contains "Signed-off-by:" content = false) (directory +:+ "-signoff-" +:+ patch.1) ;;
      fail_if (contains "diff --git a/" content = false) (directory +:+ "-diff-" +:+ patch.1) ;;
      Ok (directory +:+ "/linux/" +:+ patch.1 +:+ " " +:+ sha256_hex patch.2)
  end.

(** [for expected_index, patch in enumerate(patches, 1)] *)
Fixpoint validate_patches (directory : string) (expected_count index : Z) (patches : list file)
    : result (list string) :=
  match patches with
  | [] => Ok []
  | patch :: patches =>
      digest ← validate_patch directory expected_count index patch;
      digests ← validate_patches directory expected_count (index + 1) patches;
      Ok (digest :: digests)
  end.

Definition validate_series (tree : source_tree) (directory : string) (expected_count : Z)
    : result (list string) :=
  let patches := glob_patch (patch_files tree directory) in
  fail_if (Z.of_nat (length patches) ≠ expected_count)
    (directory +:+ "-count-" +:+ pretty (length patches) +:+ "-expected-" +:+ pretty expected_count) ;;
  validate_patches directory expected_count 1 patches.

Definition ISOLATION_TOKEN : string := "board/micronux/patches-isolation".

Definition validate_config (config : file) : result unit :=
  content ← read_text config.2;
  let has_isolation := contains ISOLATION_TOKEN content in
  fail_if ((config.1 ∈ ISOLATION_CONFIGS) ∧ has_isolation = false)
    ("isolation-config-missing-series-" +:+ config.1) ;;
  fail_if ((config.1 ∉ ISOLATION_CONFIGS) ∧ has_isolation = true)
    ("isolation-series-leaked-" +:+ config.1) ;;
  for_each (λ required, fail_if (contains ("board/micronux/" +:+ required) content = false)
                          (config.1 +:+ "-missing-" +:+ required))
    ["patches-platform"; "patches-peripherals"].

Definition validate_config_boundaries (tree : source_tree) : result unit :=
  for_each validate_config (glob_configs (config_files tree)).

Definition count_of (name : string) : Z :=
  match list_find (λ s, removeprefix "patches-" s.1 = name) SERIES with
  | Some (_, s) => s.2
  | None => 0
  end.

(** The line printed by a passing run. *)
Definition pass_text (manifest : list string) : string :=
  "MICRONUX:PATCH-SERIES state=pass " +:+
  "platform=" +:+ pretty (count_of "platform") +:+ " " +:+
  "peripherals=" +:+ pretty (count_of "peripherals") +:+ " " +:+
  "isolation=" +:+ pretty (count_of "isolation") +:+ " " +:+
  "total=" +:+ pretty (foldr Z.add 0 (map snd SERIES)) +:+ " " +:+
  "manifest_sha256=" +:+ sha256_hex (encode (str_join nl manifest +:+ nl)).

Definition main (tree : source_tree) : result string :=
  fail_if (glob_patch (default [] (monolith tree)) ≠ [])
    "legacy-monolithic-directory-not-empty" ;;
  manifests ← map_result (λ s, validate_series tree s.1 s.2) SERIES;
  validate_config_boundaries tree ;;
  Ok (pass_text (concat manifests)).

(** ** What a passing check establishes *)

(** Patch number [index] of [count] of a series: its name starts with its number,
    its first subject line numbers it so, and it is signed off and has a diff. *)
Record patch_ok (count index : Z) (patch : file) : Prop := {
  patch_name : startswith (prefix_of index) patch.1 = true;
  patch_text : ∃ content subject,
    read_text patch.2 = Ok content ∧ search SUBJECT_RE content = Some subject
    ∧ int_of 10 (group subject "1") = index ∧ int_of 10 (group subject "2") = count
    ∧ contains "Signed-off-by:" content = true ∧ contains "diff --git a/" content = true;
}.

(** A configuration names the isolation series exactly when it is an isolation
    configuration, and always the two base series. *)
Record config_ok (config : file) : Prop := {
  config_text : ∃ content, read_text config.2 = Ok content
    ∧ (contains ISOLATION_TOKEN content = true ↔ config.1 ∈ ISOLATION_CONFIGS)
    ∧ contains "board/micronux/patches-platform" content = true
    ∧ contains "board/micronux/patches-peripherals" content = true;
}.

Record series_ok (tree : source_tree) : Prop := {
  ok_monolith : glob_patch (default [] (monolith tree)) = [];
  ok_patches : ∀ directory count, (directory, count) ∈ SERIES →
    Z.of_nat (length (glob_patch (patch_files tree directory))) = count
    ∧ ∀ i patch, glob_patch (patch_files tree directory) !! i = Some patch → patch_ok count (Z.of_nat i + 1) patch;
  ok_configs : ∀ config, config ∈ config_files tree → is_config config.1 = true → config_ok config;
}.

(** The line of a patch in the manifest. *)
Definition digest_line (directory : string) (patch : file) : string :=
  directory +:+ "/linux/" +:+ patch.1 +:+ " " +:+ sha256_hex patch.2.

Lemma fail_if_ok {A} (P : Prop) `{Decision P} msg (k : result A) r :
  (fail_if P msg ;; k) = Ok r ↔ ¬ P ∧ k = Ok r.
Proof. apply raise_when_ok. Qed.

Lemma fail_if_unit (P : Prop) `{Decision P} msg u : fail_if P msg = Ok u ↔ ¬ P.
Proof. apply raise_when_unit. Qed.

Lemma validate_patch_ok directory count index patch line :
  validate_patch directory count index patch = Ok line ↔
  patch_ok count index patch ∧ line = digest_line directory patch.
Proof.
  unfold validate_patch, digest_line. rewrite fail_if_ok, bind_ok_inv, not_false_iff_true. split.
  - intros (Hn & content & Hc & E). destruct (search SUBJECT_RE content) as [subject|] eqn:Es; [|done].
    rewrite !fail_if_ok, !not_false_iff_true in E. destruct E as (H1 & H2 & H3 & H4 & [= <-]).
    split; [|done]. constructor; [done|]. exists content, subject. split_and!; try done; lia.
  - intros [[Hn (content & subject & Hc & Es & H1 & H2 & H3 & H4)] ->]. split; [done|].
    exists content. split; [done|]. rewrite Es, !fail_if_ok, !not_false_iff_true.
    split_and!; try done; lia.
Qed.

Lemma validate_patches_ok directory count index patches lines :
  validate_patches directory count index patches = Ok lines ↔
  (∀ i patch, patches !! i = Some patch → patch_ok count (index + Z.of_nat i) patch)
  ∧ lines = map (digest_line directory) patches.
Proof.
  revert index lines. induction patches as [|p ps IH]; intros index lines; cbn [validate_patches].
  - split; [by intros [= <-]|]. by intros [_ ->].
  - split.
    + intros (a & [Hp ->]%validate_patch_ok & (b & [Hps ->]%IH & [= <-])%bind_ok_inv)%bind_ok_inv.
      split; [|done]. intros [|i] patch; cbn; [intros [= <-]; by rewrite Z.add_0_r|].
      intros Hi%Hps. by replace (index + Z.of_nat (S i)) with (index + 1 + Z.of_nat i) by lia.
    + intros [Hps ->]. apply bind_ok_inv. eexists. split.
      * apply validate_patch_ok. split; [|done]. rewrite <- (Z.add_0_r index). by apply (Hps 0%nat).
      * apply bind_ok_inv. eexists. split; [|done]. apply IH. split; [|done]. intros i patch Hi.
        replace (index + 1 + Z.of_nat i) with (index + Z.of_nat (S i)) by lia. by apply Hps.
Qed.

Lemma validate_config_ok config u : validate_config config = Ok u ↔ config_ok config.
Proof.
  unfold validate_config. split.
  - intros (content & Hc & E)%bind_ok_inv. rewrite !fail_if_ok, for_each_ok in E.
    destruct E as (H1 & H2 & H3). constructor. exists content.
    rewrite !Forall_cons, !fail_if_unit, !not_false_iff_true in H3. destruct H3 as (H3 & H4 & _).
    split_and!; try done. destruct (contains ISOLATION_TOKEN content).
    + split; [|done]. intros _. destruct (decide (config.1 ∈ ISOLATION_CONFIGS)); [done|]. exfalso; auto.
    + split; [done|]. intros ?. exfalso; auto.
  - intros [(content & Hc & Hi & H3 & H4)]. apply bind_ok_inv. exists content. split; [done|].
    rewrite !fail_if_ok, for_each_ok, !Forall_cons, !fail_if_unit, !not_false_iff_true. split_and!; try done.
    + intros [Hin Hf]. apply Hi in Hin. congruence.
    + intros [Hn Ht]. by apply Hn, Hi.
Qed.

Definition series_lines (tree : source_tree) (directory : string) : list string :=
  map (digest_line directory) (glob_patch (patch_files tree directory)).

Lemma validate_series_ok tree directory count lines :
  validate_series tree directory count = Ok lines ↔
  (Z.of_nat (length (glob_patch (patch_files tree directory))) = count
   ∧ ∀ i patch, glob_patch (patch_files tree directory) !! i = Some patch → patch_ok count (Z.of_nat i + 1) patch)
  ∧ lines = series_lines tree directory.
Proof.
  unfold validate_series, series_lines. rewrite fail_if_ok, validate_patches_ok.
  setoid_rewrite (Z.add_comm 1). split.
  - intros (H1 & H2 & H3). split_and!; [lia|done..].
  - intros ((H1 & H2) & H3). split_and!; [lia|done..].
Qed.

Lemma all_series_ok tree l lines :
  map_result (λ s, validate_series tree s.1 s.2) l = Ok lines ↔
  (∀ directory count, (directory, count) ∈ l →
     Z.of_nat (length (glob_patch (patch_files tree directory))) = count
     ∧ ∀ i patch, glob_patch (patch_files tree directory) !! i = Some patch →
                  patch_ok count (Z.of_nat i + 1) patch)
  ∧ lines = map (λ s, series_lines tree s.1) l.
Proof.
  rewrite map_result_ok. revert lines. induction l as [|[directory count] l IH]; intros lines.
  - split; [|by intros [_ ->]]. inversion 1. split; [|done]. by intros d c Hin%not_elem_of_nil.
  - split.
    + inversion 1 as [|? line ? lines' Hl Hls]; subst. apply validate_series_ok in Hl as [Hd ->].
      apply IH in Hls as [Hrest ->]. split; [|done]. intros d c [[= -> ->]|Hin]%elem_of_cons; auto.
    + intros [Hall ->]. constructor; [apply validate_series_ok; split; [apply Hall; left|done]|].
      apply IH. split; [|done]. intros d c Hin. apply Hall. by right.
Qed.

Lemma config_boundaries_ok tree u : validate_config_boundaries tree = Ok u ↔
  ∀ config, config ∈ config_files tree → is_config config.1 = true → config_ok config.
Proof.
  unfold validate_config_boundaries, glob_configs. rewrite for_each_ok, Forall_forall.
  setoid_rewrite validate_config_ok. setoid_rewrite merge_sort_Permutation.
  setoid_rewrite list_elem_of_filter. split; [auto|]. intros Hc config [? ?]. auto.
Qed.

(** C25: The patch-series check is exact.  It passes exactly when the old monolithic
    directory holds no patch, every series has its expected number of patches and
    the i-th by file name is named, and numbered in its subject, i of that number,
    signed off and with a diff, and a configuration names the isolation series
    exactly when it is one of the two isolation configurations, and always the two
    base series; it then prints the digest of the lines of all patches in order. *)
Theorem series_pass_iff tree out :
  main tree = Ok out ↔
  series_ok tree ∧ out = pass_text (concat (map (λ s, series_lines tree s.1) SERIES)).
Proof.
  unfold main. split.
  - intros E. rewrite fail_if_ok in E. destruct E as [Hm E].
    apply bind_ok_inv in E as (lines & Hl & E). apply bind_ok_inv in E as ([] & Hc & [= <-]).
    apply all_series_ok in Hl as [Hl ->]. rewrite config_boundaries_ok in Hc.
    split; [|done]. constructor; [|done..]. by apply dec_stable in Hm.
  - intros [[Hm Hp Hc] ->]. rewrite fail_if_ok. split; [by intros ?|].
    rewrite (proj2 (all_series_ok tree SERIES _) (conj Hp eq_refl)). cbn [mbind result_bind].
    by rewrite (proj2 (config_boundaries_ok tree tt) Hc).
Qed.
