(* ===== verification/UsbArm.v ===== *)
(** * Arming the USB reset

    scripts/usb-reset-arm.py: asks the board's shell to enable the USB-UART reset
    and waits for its answer, over the host of the serial gates. *)

From S2P Require Import Prelude PyBytes PyStr Utf8 RegexLines Io.

Definition USB_RESET_SYSFS : string := "/sys/kernel/micronux/usb_reset".

Section Arm.
Context {W : Type} (H : host W) (fuel : nat).

Definition arm_settings (port : string) : serial_config := {|
  cfg_port := port;
  cfg_baudrate := 115200;
  cfg_timeout := ms 50;
  cfg_write_timeout := Some (seconds 2);
  cfg_dsrdtr := false;
  cfg_rtscts := false;
  cfg_dtr := false;
  cfg_rts := false;
|}.

Definition open_serial (port : string) : io W device := serial_open H (arm_settings port).

Definition arm_token (stamp : Z) : string := "MICRONUX_USB_RESET_ARM_" +:+ pretty stamp.

Definition arm_command (token : string) : bytes :=
  encode ("if [ -w " +:+ USB_RESET_SYSFS +:+ " ]; then " +:+
          "echo enable >" +:+ USB_RESET_SYSFS +:+ "; fi; echo " +:+ token +:+ nl).

(** [token.encode("ascii") in captured] *)
Definition has_token (token : string) (captured : bytes) : bool := contains token (chars captured).

(** [if len(captured) > 16384: del captured[:-8192]] *)
Definition retain (captured : bytes) : bytes :=
  if decide (16384 < blen captured) then drop (Z.to_nat (blen captured - 8192)) captured else captured.

(** One round: nothing at the deadline; else the command if half a second has
    passed since the last, and a read. *)
Definition arm_round (d : device) (token : string) (deadline next_write : Z) : io W (option (Z * bytes)) :=
  checked ← monotonic H;
  if decide (checked < deadline) then
    now ← monotonic H;
    next_write ← (if decide (next_write ≤ now)
                  then write H d (arm_command token) ;; flush H d ;; mret (now + ms 500)
                  else mret next_write);
    chunk ← read H d 4096;
    mret (Some (next_write, chunk))
  else mret None.

Fixpoint arm_loop (n : nat) (d : device) (token : string) (deadline next_write : Z) (captured : bytes)
    : io W bool :=
  match n with
  | O => out_of_fuel
  | S n =>
      round ← arm_round d token deadline next_write;
      match round with
      | None => mret false
      | Some (next_write, []) => arm_loop n d token deadline next_write captured
      | Some (next_write, chunk) =>
          let captured := captured ++ chunk in
          if has_token token captured then mret true
          else arm_loop n d token deadline next_write (retain captured)
      end
  end.

(** The [finally]: both lines dropped together, then the port closed. *)
Definition arm_cleanup (d : device) : io W unit :=
  catch [SerialException] (set_dtr H d false ;; set_rts H d false) (λ _, mret tt) ;;
  close H d.

Definition arm_session (d : device) (token : string) (timeout : Z) : io W bool :=
  now ← monotonic H;
  finally (catch [SerialException; SerialTimeoutException]
             (arm_loop fuel d token (now + timeout) 0 [])
             (λ _, mret false))
          (arm_cleanup d).

(** [main], with the parsed [--port] and [--timeout]. *)
Definition main (port : string) (timeout : Z) : io W Z :=
  lift (raise_when (timeout < seconds 1 ∨ timeout > seconds 60) SystemExit
          "--timeout must be between 1 and 60 seconds") ;;
  opened ← catch [SerialException] (d ← open_serial port; mret (inl d)) (λ error, mret (inr error));
  match opened with
  | inr error =>
      print ("MICRONUX:USB-RESET-ARM state=unavailable " +:+
             "port=" +:+ port +:+ " detail=" +:+ str_replace " " "-" (exn_msg error)) ;;
      mret 0
  | inl d =>
      stamp ← monotonic_ns H;
      armed ← arm_session d (arm_token stamp) timeout;
      (if (armed : bool)
       then print ("MICRONUX:USB-RESET-ARM state=armed port=" +:+ port)
       else print ("MICRONUX:USB-RESET-ARM state=not-running-or-no-shell " +:+ "port=" +:+ port)) ;;
      sleep H (ms 500) ;;
      mret 0
  end.

End Arm.

(** ** The bounded buffer loses no answer *)

Lemma str_app_split a b c d : a +:+ b = c +:+ d → (String.length a ≤ String.length c)%nat →
  ∃ e, c = a +:+ e ∧ b = e +:+ d.
Proof.
  revert c. induction a as [|x a IH]; intros c E Hl.
  - exists c. split; [done|]. exact E.
  - destruct c as [|y c]; [cbn in Hl; lia|]. rewrite !str_app_cons in E. injection E as -> E.
    destruct (IH c E) as (e & -> & ->); [cbn in Hl; lia|]. by exists e.
Qed.

(** Text before the last [len(p)] characters plays no role for later matches. *)
Lemma contains_cut p u v b :
  contains p (u +:+ v) = false → (String.length p ≤ String.length v)%nat →
  contains p ((u +:+ v) +:+ b) = contains p (v +:+ b).
Proof.
  intros Hn Hl. apply eq_bool_prop_intro. rewrite !Is_true_true. split.
  2: { intros Hc. rewrite <- str_app_assoc. by apply contains_app_r. }
  intros (x & y & E)%contains_spec.
  destruct (decide (String.length u ≤ String.length x)%nat) as [Hle|Hgt].
  - rewrite <- str_app_assoc in E. destruct (str_app_split _ _ _ _ E Hle) as (e & -> & ->).
    apply contains_spec. by exists e, y.
  - exfalso. rewrite str_app_assoc in E. symmetry in E.
    destruct (str_app_split _ _ _ _ E) as (e & Hu & _); [rewrite !str_length_app; lia|].
    rewrite Hu, <- str_app_assoc in Hn.
    assert (contains p (x +:+ (p +:+ e)) = true) by (apply contains_spec; eauto). congruence.
Qed.

Lemma chars_app a b : chars (a ++ b) = chars a +:+ chars b.
Proof. induction a as [|x a IH]; [done|]. cbn. by rewrite IH. Qed.

Lemma chars_length b : String.length (chars b) = length b.
Proof. induction b as [|x b IH]; [done|]. cbn. by rewrite IH. Qed.

Lemma retain_has_token token captured more :
  has_token token captured = false → Z.of_nat (String.length token) ≤ 8192 →
  has_token token (retain captured ++ more) = has_token token (captured ++ more).
Proof.
  intros Hn Hl. unfold retain. case_decide as Hlen; [|done]. unfold has_token in *.
  set (k := Z.to_nat (blen captured - 8192)).
  assert (chars captured = chars (take k captured) +:+ chars (drop k captured)) as E
    by (by rewrite <- chars_app, take_drop).
  rewrite !chars_app, E in *. symmetry. apply contains_cut; [done|].
  rewrite chars_length, length_drop. unfold k, blen in *. lia.
Qed.

Lemma retain_bound captured : blen (retain captured) ≤ 16384.
Proof. unfold retain. case_decide; unfold blen in *; [rewrite length_drop|]; lia. Qed.

Section Exact.
Context {W : Type} (H : host W) (d : device) (token : string) (deadline : Z).

(** The rounds of the loop, with the chunks they read. *)
Inductive arm_rounds : Z → st W → list bytes → Z → st W → Prop :=
  | rounds_none next s : arm_rounds next s [] next s
  | rounds_more next s next1 chunk s1 chunks next2 s2 :
      arm_round H d token deadline next s = Some (Ok (Some (next1, chunk)), s1) →
      arm_rounds next1 s1 chunks next2 s2 →
      arm_rounds next s (chunk :: chunks) next2 s2.

(** How the loop ends: right after the chunk that completes the token, in a round
    at the deadline with no token received, or in a round that fails. *)
Definition arm_outcome (next : Z) (s : st W) (captured : bytes) (r : result bool) (s' : st W) : Prop :=
  ∃ chunks next1 s1,
    arm_rounds next s chunks next1 s1
    ∧ match r with
      | Ok true => has_token token (captured ++ concat chunks) = true ∧ s' = s1
          ∧ ∀ k, (k < length chunks)%nat → has_token token (captured ++ concat (take k chunks)) = false
      | Ok false => has_token token (captured ++ concat chunks) = false
          ∧ arm_round H d token deadline next1 s1 = Some (Ok None, s')
      | Err e => has_token token (captured ++ concat chunks) = false
          ∧ arm_round H d token deadline next1 s1 = Some (Err e, s')
      end.

Lemma arm_outcome_cons next s captured next1 chunk s1 r s' :
  arm_round H d token deadline next s = Some (Ok (Some (next1, chunk)), s1) →
  has_token token captured = false →
  arm_outcome next1 s1 (captured ++ chunk) r s' → arm_outcome next s captured r s'.
Proof.
  intros Er Hc (chunks & next2 & s2 & Hr & Hend).
  exists (chunk :: chunks), next2, s2. cbn [concat]. rewrite app_assoc.
  split; [by eapply rounds_more|]. destruct r as [[]|]; [|done..].
  destruct Hend as (? & -> & Hk). split_and!; [done..|]. intros [|k] Hlt; cbn in *; [by rewrite app_nil_r|].
  rewrite app_assoc. apply Hk. lia.
Qed.

(** Two buffers that agree on every later token are interchangeable. *)
Lemma arm_outcome_retain next s captured r s' : Z.of_nat (String.length token) ≤ 8192 →
  has_token token captured = false →
  arm_outcome next s (retain captured) r s' → arm_outcome next s captured r s'.
Proof.
  intros Hl Hc (chunks & next2 & s2 & Hr & Hend). exists chunks, next2, s2.
  split; [done|]. rewrite !retain_has_token in Hend by done. destruct r as [[]|]; [|done..].
  destruct Hend as (? & -> & Hk). split_and!; [done..|].
  intros k Hlt. rewrite <- retain_has_token by done. by apply Hk.
Qed.

Lemma arm_loop_exact n next captured s : Z.of_nat (String.length token) ≤ 8192 →
  has_token token captured = false →
  wlp (arm_loop H n d token deadline next captured) (arm_outcome next s captured) s.
Proof.
  intros Hl. revert next captured s. induction n as [|n IH]; intros next captured s Hc; [done|].
  cbn [arm_loop]. apply wlp_bind. unfold wlp at 1.
  destruct (arm_round H d token deadline next s) as [[[[[next1 chunk]|]|e] s1]|] eqn:Er; [| | |done].
  - destruct chunk as [|b chunk'].
    { eapply wlp_mono; [by apply IH|]. intros r s' Ho.
      eapply arm_outcome_cons; [exact Er|done|]. by rewrite app_nil_r. }
    set (chunk := b :: chunk') in *. cbv beta iota zeta. destruct (has_token token (captured ++ chunk)) eqn:Ht.
    + exists [chunk], next1, s1. cbn [concat]. rewrite app_nil_r. split; [by eapply rounds_more, rounds_none|].
      split_and!; [done..|]. intros [|k] Hk; cbn in *; [by rewrite app_nil_r|lia].
    + eapply wlp_mono; [apply IH|].
      * rewrite <- (app_nil_r (retain _)), retain_has_token, app_nil_r by done. done.
      * intros r s' Ho. eapply arm_outcome_cons; [exact Er|done|]. by apply arm_outcome_retain.
  - exists [], next, s. cbn. rewrite app_nil_r. split_and!; [constructor|done..].
  - exists [], next, s. cbn. rewrite app_nil_r. split_and!; [constructor|done..].
Qed.

End Exact.

(** ** The loop ends *)

Section Ends.
Context {W : Type} (H : host W) `{!TimedHost H}.

Lemma arm_round_wp d token deadline next s :
  wp (arm_round H d token deadline next)
    (λ r s', match r with
             | Ok (Some _) => ∃ s1, time H s ≤ time H s1 ∧ time H s1 < deadline ∧ time H s1 + tick ≤ time H s'
             | _ => True
             end) s.
Proof.
  apply wp_bind, (wp_monotonic H). intros s1 H1 _. case_decide; [|done].
  apply wp_bind, (wp_monotonic H). intros s2 H2 _. apply wp_bind.
  assert (steady H (if decide (next ≤ time H s2)
    then write H d (arm_command token) ;; flush H d ;; mret (time H s2 + ms 500) else mret next)) as Hw
    by (case_decide; repeat steady_step).
  eapply wp_mono; [apply Hw|]. intros [next1|e] s3 H3; [|done].
  apply wp_bind, (wp_read H); [|done]. intros chunk s4 H4. exists s1. lia.
Qed.

Lemma arm_loop_ends n d token deadline next captured s :
  rounds_left H n deadline s → wp (arm_loop H n d token deadline next captured) (λ _ _, True) s.
Proof.
  revert next captured s. induction n as [|n IH]; intros next captured s Hn; [destruct Hn; lia|].
  cbn [arm_loop]. apply wp_bind. eapply wp_mono; [apply arm_round_wp|].
  intros [[[next1 chunk]|]|e] s' Hr; [|done..]. destruct Hr as (s1 & ? & ? & ?).
  assert (rounds_left H n deadline s') by (eapply (rounds_step H n deadline s s1); eauto; lia).
  destruct chunk as [|b chunk]; [by apply IH|]. cbv zeta. by case_match; [|apply IH].
Qed.

End Ends.

(** C26: The wait for the answer ends, and its verdict is exact.  On a host whose clock
    advances the loop comes to a result.  Although the buffer is cut to 8 KiB
    whenever it passes 16 KiB, the result is "armed" exactly when the whole input
    received contains the token, however it is split over chunks, and then at the
    first chunk that completes it; "not armed" comes only from a round at the
    deadline, and an exception only from a failing write, flush or read. *)
Theorem arm_exact {W} (H : host W) `{!TimedHost H} fuel d stamp deadline s :
  enough H fuel → deadline ≤ time H s + seconds 1000 →
  Z.of_nat (String.length (arm_token stamp)) ≤ 8192 →
  wp (arm_loop H fuel d (arm_token stamp) deadline 0 [])
    (arm_outcome H d (arm_token stamp) deadline 0 s []) s.
Proof.
  intros Hf Hd Hl. eapply wp_mono; [apply wp_and|].
  - apply (arm_loop_ends H), rounds_enough; [done|lia].
  - by apply arm_loop_exact.
  - by intros r s' [_ ?].
Qed.

Lemma arm_exact_witness :
  wp (arm_loop silent_host (Z.to_nat 20001) 0 (arm_token 5) (seconds 1) 0 [])
    (arm_outcome silent_host 0 (arm_token 5) (seconds 1) 0 (mkSt 0 "" "") []) (mkSt 0 "" "").
Proof.
  apply (arm_exact silent_host (Z.to_nat 20001) 0 5 (seconds 1) (mkSt 0 "" "")); vm_compute; discriminate.
Defined.
