(* ===== verification/Boots.v ===== *)
(** * Gates that reset the board again and again

    What scripts/m2-test.py to scripts/m5-test.py have in common: a port is read
    until a deadline while the console text drives the gate, every boot of a
    series is judged by its log, and the first failing boot ends the run. *)

From S2P Require Import Prelude PyBytes PyStr PyJson Sha256 Utf8 Regex Io Session.

(** ** Texts *)

(** [[marker for marker in markers if marker not in log]], and those in it *)
Definition absent (markers : list string) (log : string) : list string :=
  filter (λ marker, contains marker log = false) markers.
Definition present (markers : list string) (log : string) : list string :=
  filter (λ marker, contains marker log = true) markers.

(** [any(x in line for x in useful)] *)
Definition mentions (useful : list string) (line : string) : bool :=
  existsb (λ x, contains x line) useful.

(** Device output without the interactive shell's echoed command. *)
Definition output_lines (log : string) : list string :=
  filter (λ line, startswith "/ # " line = false ∧ startswith "micronux# " line = false) (splitlines log).

Definition marker_seen (log : string) : string → bool :=
  let lines := output_lines log in λ marker, existsb (contains marker) lines.

(** The markers that are, and are not, in the device output. *)
Definition seen_markers (markers : list string) (log : string) : list string :=
  let seen := marker_seen log in filter (λ marker, seen marker = true) markers.
Definition unseen_markers (markers : list string) (log : string) : list string :=
  let seen := marker_seen log in filter (λ marker, seen marker = false) markers.

(** [f"{(a, b)}"] *)
Definition repr_pair (p : string * string) : string := "(" +:+ repr_str p.1 +:+ ", " +:+ repr_str p.2 +:+ ")".

(** ["\n".join(lines) if lines else placeholder] *)
Definition lines_or (lines : list string) (placeholder : string) : string :=
  match lines with [] => placeholder | _ => str_join nl lines end.

(** [", ".join(items)] and [",".join(items)] *)
Definition listed (items : list string) : string := str_join ", " items.
Definition commas (items : list string) : string := str_join "," items.

(** [None] or the text, as an f-string shows it *)
Definition show_option (o : option string) : string := default "None" o.

(** The lines on [sys.stderr] for missing and forbidden markers. *)
Definition marker_errors (gate : string) (boot : Z) (missing forbidden : list string) (log : string) : list string :=
  ["--- complete serial log ---"; log] ++
  (if decide (missing = []) then [] else [gate +:+ " boot " +:+ pretty boot +:+ " missing: " +:+ listed missing]) ++
  (if decide (forbidden = []) then [] else [gate +:+ " boot " +:+ pretty boot +:+ " rejected: " +:+ listed forbidden]).

(** The loader's report of the payload. *)
Definition KERNEL_HASH_RE : re := Eval vm_compute in
  compile false "MICRONUX:M3:KERNEL .* sha256=([0-9a-f]{64})".
Definition DTB_HASH_RE : re := Eval vm_compute in
  compile false "MICRONUX:M3:DTB .* sha256=([0-9a-f]{64})".

(** The first boot sets what is expected, a later one must show the same. *)
Definition compare_pair (expected : option (string * string)) (a b : string)
    (changed : string → string → list string) : list string + option (string * string) :=
  match expected with
  | None => inr (Some (a, b))
  | Some (ea, eb) => if decide (a ≠ ea ∨ b ≠ eb) then inl (changed ea eb) else inr expected
  end.

Definition compare_with {K} `{EqDecision K} (expected : option K) (k : K) (changed : list string)
    : list string + option K :=
  match expected with
  | None => inr (Some k)
  | Some e => if decide (k ≠ e) then inl changed else inr expected
  end.

(** The next check, unless one has failed. *)
Definition unless_failed {A B} (m : list string + A) (f : A → list string + B) : list string + B :=
  match m with inl errors => inl errors | inr a => f a end.
Notation "x ←? m ; k" := (unless_failed m (λ x, k)) (at level 20, m at level 100, k at level 200, right associativity).

(** A directory of artifacts: the text of the path of a name in it, and the
    content of the file if there is one. *)
Record artifact_dir := { path_of : string → string; file_of : string → option bytes }.

(** The records of the artifacts of a gate, [name=sizeB:digest]. *)
Definition artifact_entries (gate : string) (directory : artifact_dir) (names : list string) : result (list string) :=
  map_result (λ name,
    match file_of directory name with
    | None => Err (Exn FileNotFoundError ("missing " +:+ gate +:+ " artifact: " +:+ path_of directory name))
    | Some content => Ok (name +:+ "=" +:+ pretty (blen content) +:+ "B:" +:+ sha256_hex content)
    end) names.

(** [hashlib.sha256(path.read_bytes()).hexdigest()] of an existing artifact *)
Definition digest_of (directory : artifact_dir) (name : string) : string :=
  sha256_hex (default [] (file_of directory name)).

(** ** Effects *)

Section Effects.
Context {W : Type} (H : host W) (env : environment).

(** [subprocess.run(cmd, check=True)] *)
Definition check_run (cmd : list string) : io W unit :=
  code ← subprocess_run H cmd;
  if decide (code ≠ 0) then raise CalledProcessError (called_process_error env cmd code) else mret tt.

(** The command of [rom_reset] of the gates. *)
Definition chip_id_command (port : string) : list string :=
  [executable env; "-m"; "esptool"; "--chip"; "esp32p4"; "--port"; port;
   "--before"; "default-reset"; "--after"; "hard-reset"; "chip-id"].

(** [device.read(device.in_waiting or 1)] *)
Definition read_waiting (d : device) : io W bytes :=
  waiting ← in_waiting H d;
  read H d (if decide (waiting = 0) then 1 else waiting).

(** The attributes of a port on which only the read timeout is set. *)
Definition boot_settings (port : string) : serial_config := {|
  cfg_port := port;
  cfg_baudrate := 115200;
  cfg_timeout := ms 100;
  cfg_write_timeout := None;
  cfg_dsrdtr := false;
  cfg_rtscts := false;
  cfg_dtr := false;
  cfg_rts := false;
|}.

(** [device.dtr = False; device.rts = False; device.close()] *)
Definition release (d : device) : io W unit := set_dtr H d false ;; set_rts H d false ;; close H d.

(** The same with a write timeout, and the release that also cancels. *)
Definition probe_settings (port : string) : serial_config := {|
  cfg_port := port;
  cfg_baudrate := 115200;
  cfg_timeout := ms 100;
  cfg_write_timeout := Some (seconds 10);
  cfg_dsrdtr := false;
  cfg_rtscts := false;
  cfg_dtr := false;
  cfg_rts := false;
|}.
Definition cancel_and_release (d : device) : io W unit :=
  set_dtr H d false ;; set_rts H d false ;; cancel_read H d ;; cancel_write H d ;; close H d.

(** [serial.Serial(port=...)] opens the port with both lines raised; they are
    dropped next. *)
Definition open_probe (port : string) : io W device :=
  d ← serial_open H {|
    cfg_port := port; cfg_baudrate := 115200; cfg_timeout := ms 100; cfg_write_timeout := Some (seconds 10);
    cfg_dsrdtr := false; cfg_rtscts := false; cfg_dtr := true; cfg_rts := true |};
  set_dtr H d false ;;
  set_rts H d false ;;
  mret d.

(** [for line in lines: device.write(...); device.flush(); time.sleep(0.05)] *)
Fixpoint send_lines (d : device) (lines : list string) : io W unit :=
  match lines with
  | [] => mret tt
  | line :: lines => write H d (encode line) ;; flush H d ;; sleep H (ms 50) ;; send_lines d lines
  end.

(** [while time.monotonic() < deadline]: a chunk is received and added to what was
    captured, then the gate acts on it; it may end the loop. *)
Fixpoint capture_loop {S} (n : nat) (receive : io W bytes) (deadline : Z)
    (act : S → bytes → bytes → io W (S + bytes)) (state : S) (captured : bytes) : io W bytes :=
  match n with
  | O => out_of_fuel
  | Datatypes.S n =>
      now ← monotonic H;
      if decide (now < deadline) then
        chunk ← receive;
        let captured := captured ++ chunk in
        next ← act state chunk captured;
        match next with
        | inl state => capture_loop n receive deadline act state captured
        | inr captured => mret captured
        end
      else mret captured
  end.

End Effects.

Fixpoint print_all {W} (lines : list string) : io W unit :=
  match lines with
  | [] => mret tt
  | line :: lines => print line ;; print_all lines
  end.

Fixpoint report_errors {W} (errors : list string) : io W unit :=
  match errors with
  | [] => mret tt
  | e :: errors => print_err e ;; report_errors errors
  end.

(** [for boot in range(boot, boot + n)]: the log of a boot is captured, some of it
    is printed, and it is checked against what was seen so far; a failed check
    is reported on [sys.stderr] and returns 1, one that raises passes its
    exception on. *)
Fixpoint boot_loop {W A} (n : nat) (boot : Z) (capture : io W string)
    (announce : Z → string → list string) (check : Z → A → string → result (list string + A)) (seen : A)
    : io W (A + Z) :=
  match n with
  | O => mret (inl seen)
  | S n =>
      log ← capture;
      print_all (announce boot log) ;;
      verdict ← lift (check boot seen log);
      match verdict with
      | inl errors => report_errors errors ;; mret (inr 1)
      | inr seen => boot_loop n (boot + 1) capture announce check seen
      end
  end.

(** The end of [main]: the code of a failed boot, or an [assert] on what was seen,
    the closing lines and 0. *)
Definition conclude_assert {W A} (known : A → bool) (closing : A → list string) (seen : A + Z) : io W Z :=
  match seen with
  | inr code => mret code
  | inl seen =>
      lift (raise_when (known seen = false) AssertionError "") ;;
      print_all (closing seen) ;; mret 0
  end.
Definition conclude {W A} : (A → list string) → A + Z → io W Z := conclude_assert (λ _, true).

(** [try: artifacts = artifact_record(...)], whose failure is printed and returns 1 *)
Definition with_artifacts {W A} (record : result A) (k : A → io W Z) : io W Z :=
  match record with
  | Ok artifacts => k artifacts
  | Err e => if caught [OSError] e then print_err (exn_msg e) ;; mret 1 else lift (Err e)
  end.

(** ** Which markers are missing *)

Lemma absent_nil markers log : absent markers log = [] ↔ ∀ marker, marker ∈ markers → contains marker log = true.
Proof. unfold absent. rewrite filter_nil_iff. by setoid_rewrite not_false_iff_true. Qed.

Lemma present_nil markers log : present markers log = [] ↔ ∀ marker, marker ∈ markers → contains marker log = false.
Proof. unfold present. rewrite filter_nil_iff. by setoid_rewrite not_true_iff_false. Qed.

Lemma seen_markers_nil markers log : seen_markers markers log = [] ↔ ∀ marker, marker ∈ markers → marker_seen log marker = false.
Proof. unfold seen_markers. cbv zeta. rewrite filter_nil_iff. by setoid_rewrite not_true_iff_false. Qed.

Lemma unseen_markers_nil markers log : unseen_markers markers log = [] ↔ ∀ marker, marker ∈ markers → marker_seen log marker = true.
Proof. unfold unseen_markers. cbv zeta. rewrite filter_nil_iff. by setoid_rewrite not_false_iff_true. Qed.

Lemma not_failed (P Q : list string) : ¬ (P ≠ [] ∨ Q ≠ []) ↔ P = [] ∧ Q = [].
Proof. split; [|by intros [-> ->] [?|?]]. intros Hn. split; apply dec_stable; tauto. Qed.

Lemma compare_pair_spec e a b changed seen' :
  compare_pair e a b changed = inr seen' ↔ (e = None ∨ e = Some (a, b)) ∧ seen' = Some (a, b).
Proof.
  unfold compare_pair. destruct e as [[ea eb]|].
  - case_decide as Hd; split; try done.
    + intros [[?|[= -> ->]] _]; [done|]. by destruct Hd.
    + intros [= <-]. assert (a = ea ∧ b = eb) as [-> ->]; [|auto]. split; apply dec_stable; tauto.
    + intros [_ ->]. f_equal. assert (a = ea ∧ b = eb) as [-> ->]; [|auto]. split; apply dec_stable; tauto.
  - split; [intros [= <-]; auto|by intros [_ ->]].
Qed.

Lemma compare_with_spec {K} `{EqDecision K} (e : option K) k changed seen' :
  compare_with e k changed = inr seen' ↔ (e = None ∨ e = Some k) ∧ seen' = Some k.
Proof.
  unfold compare_with. destruct e as [x|].
  - case_decide as Hd; split; try done; [by intros [[?|[= ->]] _]| |]; subst.
    + intros [= <-]. auto.
    + by intros [_ ->].
  - split; [intros [= <-]; auto|by intros [_ ->]].
Qed.

Lemma unless_failed_ok {A B} (m : list string + A) (f : A → list string + B) b :
  unless_failed m f = inr b ↔ ∃ a, m = inr a ∧ f a = inr b.
Proof. destruct m; cbn; split; [done|by intros (? & ? & ?)|eauto|by intros (? & [= ->] & ?)]. Qed.

(** ** The series of boots *)

Lemma print_all_run {W} lines (s : st W) :
  print_all lines s = Some (Ok tt, mkSt (world s) (stdout s +:+ str_join "" (map (λ l, l +:+ nl) lines)) (stderr s)).
Proof.
  revert s. induction lines as [|l lines IH]; intros [w o e]; [by cbn; rewrite str_app_nil|].
  cbn [print_all]. unfold mbind, io_bind, print, stdout_write. rewrite IH. cbn [world stdout stderr map].
  rewrite <- str_app_assoc. destruct lines; cbn; [by rewrite str_app_nil|done].
Qed.

Lemma report_errors_run {W} errors (s : st W) : ∃ e, report_errors errors s = Some (Ok tt, mkSt (world s) (stdout s) e).
Proof.
  revert s. induction errors as [|l errors IH]; intros [w o e]; [by exists e|].
  cbn [report_errors]. unfold mbind, io_bind, print_err.
  apply (IH (mkSt w o (e +:+ (l +:+ nl)))).
Qed.

Section Series.
Context {W A : Type} (capture : io W string) (announce : Z → string → list string)
  (check : Z → A → string → result (list string + A)).
Implicit Types s : st W.

(** The state after some lines have been printed. *)
Definition printed (lines : list string) (s : st W) : st W :=
  mkSt (world s) (stdout s +:+ str_join "" (map (λ l, l +:+ nl) lines)) (stderr s).

(** The boots of a series from number [boot] on, with the logs they captured. *)
Inductive booted : Z → st W → list string → st W → Prop :=
  | no_boot boot s : booted boot s [] s
  | one_boot boot s log s1 logs s' :
      capture s = Some (Ok log, s1) → booted (boot + 1) (printed (announce boot log) s1) logs s' →
      booted boot s (log :: logs) s'.

(** The checks of a series of logs. *)
Fixpoint check_all (boot : Z) (seen : A) (logs : list string) : option A :=
  match logs with
  | [] => Some seen
  | log :: logs =>
      match check boot seen log with Ok (inr seen) => check_all (boot + 1) seen logs | _ => None end
  end.

Lemma boot_loop_passed n boot seen s seen' s' :
  boot_loop n boot capture announce check seen s = Some (Ok (inl seen'), s') ↔
  ∃ logs, length logs = n ∧ booted boot s logs s' ∧ check_all boot seen logs = Some seen'.
Proof.
  revert boot seen s. induction n as [|n IH]; intros boot seen s; cbn [boot_loop].
  - split; [intros [= <- <-]; exists []; split_and!; [done|constructor|done]|].
    intros ([|? ?] & ? & Hp & Ha); [|done]. injection Ha as ->. by inversion Hp.
  - split.
    + intros (log & s1 & Hc & ([] & s2 & Hp & E)%bind_returned)%bind_returned.
      rewrite print_all_run in Hp. injection Hp as <-.
      apply bind_returned in E as (verdict & s2 & Ek & E). injection Ek as Ek <-.
      destruct verdict as [errors|seen1]; [by apply bind_returned in E as (? & ? & ? & ?)|].
      apply IH in E as (logs & Hl & Hb & Ha). exists (log :: logs).
      split_and!; [by cbn; rewrite Hl|by econstructor|by cbn; rewrite Ek].
    + intros ([|log logs] & Hl & Hb & Ha); [done|]. inversion Hb as [|? ? ? s1 ? ? Hc Hr]; subst.
      apply bind_returned. exists log, s1. split; [done|]. apply bind_returned. exists tt, (printed (announce boot log) s1).
      split; [apply print_all_run|]. cbn in Ha. destruct (check boot seen log) as [[|seen1]|] eqn:Ek; [done| |done].
      apply bind_returned. exists (inr seen1), (printed (announce boot log) s1).
      split; [done|]. apply IH. exists logs. cbn in Hl. split_and!; [lia|done..].
Qed.

(** A series that does not pass returns 1. *)
Lemma boot_loop_failed n boot seen s code s' :
  boot_loop n boot capture announce check seen s = Some (Ok (inr code), s') → code = 1.
Proof.
  revert boot seen s. induction n as [|n IH]; intros boot seen s; cbn [boot_loop]; [done|].
  intros (log & s1 & Hc & (u & s2 & Hp & E)%bind_returned)%bind_returned.
  apply bind_returned in E as ([errors|seen1] & s3 & Ek & E); [|by apply IH in E].
  by apply bind_returned in E as (? & ? & _ & [= <- _]).
Qed.

End Series.

Lemma printed_cons {W} l lines (s : st W) : printed (l :: lines) s = printed lines (printed [l] s).
Proof.
  unfold printed. cbn [world stdout stderr map]. f_equal. rewrite <- str_app_assoc. f_equal.
  destruct lines as [|x lines]; [by cbn; rewrite str_app_nil|done].
Qed.

(** The exit code is 0 exactly when the gate passes, and otherwise 1; an exception,
    which has no exit code, means that it does not pass. *)
Definition exits {W} (passes : st W → Prop) (r : result Z) (s' : st W) : Prop :=
  match r with
  | Ok code => (code = 0 ↔ passes s') ∧ (code = 0 ∨ code = 1)
  | Err _ => ∀ s'', ¬ passes s''
  end.

Lemma wlp_exits_iff {W} (m : io W Z) (P Q : st W → Prop) s :
  wlp m (exits P) s → (∀ s', P s' ↔ Q s') → wlp m (exits Q) s.
Proof.
  intros Hm HPQ. eapply wlp_mono; [exact Hm|]. intros [code|e] s'; cbn; [by rewrite HPQ|].
  intros Hn s''. by rewrite <- HPQ.
Qed.

(** Argument checks come first. *)
Lemma wlp_guard {W} (P : Prop) `{Decision P} c msg (m : io W Z) passes s :
  (¬ P → wlp m (exits passes) s) →
  wlp (lift (raise_when P c msg) ;; m) (exits (λ s', ¬ P ∧ passes s')) s.
Proof.
  intros Hm. apply wlp_bind. unfold raise_when. case_decide as HP; [by intros s'' [? _]|].
  change (wlp m (exits (λ s', ¬ P ∧ passes s')) s). eapply wlp_exits_iff; [by apply Hm|]. intros s'. tauto.
Qed.

Lemma wlp_artifacts {W A} (record : result A) (k : A → io W Z) passes s :
  (∀ artifacts, record = Ok artifacts → wlp (k artifacts) (exits (passes artifacts)) s) →
  wlp (with_artifacts record k) (exits (λ s', ∃ artifacts, record = Ok artifacts ∧ passes artifacts s')) s.
Proof.
  intros Hk. unfold with_artifacts. destruct record as [a|e].
  - eapply wlp_exits_iff; [by apply Hk|]. intros s'. split; [by eauto|by intros (? & [= <-] & ?)].
  - destruct (caught [OSError] e).
    + cbn. split; [|by right]. split; [done|]. by intros (? & ? & ?).
    + by intros s'' (? & ? & ?).
Qed.

(** A series in which every boot shows the same identity [k] and a measurement of
    its own, from a check that compares the identity with the one seen before. *)
Section SameIdentity.
Context {A K M : Type} (check : Z → A → string → result (list string + A))
  (seen_of : option K → list M → A) (ok : string → K → M → Prop).
Hypothesis check_spec : ∀ boot e ms log seen',
  check boot (seen_of e ms) log = Ok (inr seen') ↔
  ∃ k m, ok log k m ∧ (e = None ∨ e = Some k) ∧ seen' = seen_of (Some k) (ms ++ [m]).

Lemma check_all_seen boot k ms logs seen' :
  check_all check boot (seen_of (Some k) ms) logs = Some seen' ↔
  ∃ ms', Forall2 (λ log m, ok log k m) logs ms' ∧ seen' = seen_of (Some k) (ms ++ ms').
Proof.
  revert boot ms. induction logs as [|log logs IH]; intros boot ms; cbn [check_all].
  - split; [intros [= <-]; exists []; rewrite app_nil_r; split; [constructor|done]|].
    intros (ms' & Hf & ->). inversion Hf. by rewrite app_nil_r.
  - pose proof (check_spec boot (Some k) ms log) as Hs. split.
    + destruct (check boot (seen_of (Some k) ms) log) as [[errors|seen1]|]; [done| |done].
      destruct (proj1 (Hs seen1) eq_refl) as (k' & m & Hok & [?|[= <-]] & ->); [done|].
      intros (ms' & Hf & ->)%IH. exists (m :: ms'). rewrite <- app_assoc. split; [by constructor|done].
    + intros (ms' & Hf & ->). inversion Hf as [|? m ? ms1 Hok Hf1]; subst.
      rewrite (proj2 (Hs (seen_of (Some k) (ms ++ [m])))) by (exists k, m; auto).
      apply IH. exists ms1. by rewrite <- app_assoc.
Qed.

Lemma check_all_same boot log logs seen' :
  check_all check boot (seen_of None []) (log :: logs) = Some seen' ↔
  ∃ k ms, Forall2 (λ log m, ok log k m) (log :: logs) ms ∧ seen' = seen_of (Some k) ms.
Proof.
  cbn [check_all]. pose proof (check_spec boot None [] log) as Hs. split.
  - destruct (check boot (seen_of None []) log) as [[errors|seen1]|]; [done| |done].
    destruct (proj1 (Hs seen1) eq_refl) as (k & m & Hok & _ & ->).
    intros (ms & Hf & ->)%check_all_seen. exists k, (m :: ms). split; [by constructor|done].
  - intros (k & ms & Hf & ->). inversion Hf as [|? m ? ms1 Hok Hf1]; subst.
    rewrite (proj2 (Hs (seen_of (Some k) ([] ++ [m])))) by (exists k, m; auto).
    apply check_all_seen. by exists ms1.
Qed.

(** The exit code of a gate that runs such a series. *)
Lemma series_exit {W} (capture : io W string) announce known closing n s :
  (∀ log k m ms, ok log k m → known (seen_of (Some k) ms) = true) → n ≠ O →
  wlp (seen ← boot_loop n 1 capture announce check (seen_of None []); conclude_assert known closing seen)
    (exits (λ s', ∃ logs k ms s1,
       length logs = n ∧ booted capture announce 1 s logs s1 ∧ Forall2 (λ log m, ok log k m) logs ms
       ∧ s' = printed (closing (seen_of (Some k) ms)) s1)) s.
Proof.
  intros Hk Hn. match goal with |- wlp ?p (exits ?q) _ => set (m := p); set (passes := q) end.
  assert (∀ s', passes s' → m s = Some (Ok 0, s')) as Hpass.
  { intros s' (logs & k & ms & s1 & Hlen & Hb & Hf & ->). destruct logs as [|log logs]; [by subst|].
    apply bind_returned. exists (inl (seen_of (Some k) ms)), s1. split.
    - apply boot_loop_passed. exists (log :: logs). split_and!; [done..|]. apply check_all_same. by exists k, ms.
    - assert (known (seen_of (Some k) ms) = true) as Hknown by (inversion Hf; by eapply Hk).
      cbn [conclude_assert]. unfold lift, raise_when. rewrite Hknown, decide_False by done. apply bind_returned.
      exists tt, s1. split; [done|]. apply bind_returned. exists tt. eexists. split; [apply print_all_run|done]. }
  unfold wlp. destruct (m s) as [[[code|e] s']|] eqn:E; [| |done]; cbn [exits].
  2: { intros s'' Hp%Hpass. congruence. }
  assert (code = 0 ↔ passes s') as Hiff.
  { split; [|intros Hp%Hpass; congruence]. intros ->. unfold m in E.
    apply bind_returned in E as (seen & s1 & Hl & E). destruct seen as [seen|c]; cbn [conclude_assert] in E.
    - apply bind_returned in E as (u & s2 & Ha & E). injection Ha as _ <-.
      apply bind_returned in E as ([] & s2 & Hp & [= <-]). rewrite print_all_run in Hp. injection Hp as <-.
      apply boot_loop_passed in Hl as ([|log logs] & Hlen & Hb & Ha); [by subst|].
      apply check_all_same in Ha as (k & ms & Hf & ->). by exists (log :: logs), k, ms, s1.
    - injection E as -> _. by apply boot_loop_failed in Hl. }
  split; [done|]. unfold m in E. apply bind_returned in E as (seen & s1 & Hl & E).
  destruct seen as [seen|c]; cbn [conclude_assert] in E.
  - left. apply bind_returned in E as (? & ? & _ & (? & ? & _ & [= <- _])%bind_returned). done.
  - injection E as -> _. right. by apply boot_loop_failed in Hl.
Qed.

End SameIdentity.

(** Series without measurements. *)
Lemma Forall2_unit {X} (P : X → Prop) (l : list X) (ms : list unit) :
  Forall2 (λ x _, P x) l ms → ∀ x, x ∈ l → P x.
Proof. rewrite <- Forall_forall. induction 1; constructor; auto. Qed.

Lemma Forall2_units {X} (P : X → Prop) (l : list X) :
  (∀ x, x ∈ l → P x) → Forall2 (λ x (_ : unit), P x) l (map (λ _, tt) l).
Proof. rewrite <- Forall_forall. induction 1; constructor; auto. Qed.

(** The passing states of a series with and without the list of nothings. *)
Lemma unmeasured_iff {W K} (ok : string → K → Prop) n (Q : list string → st W → Prop) (closing : K → list string) s' :
  (∃ logs k (ms : list unit) s1, length logs = n ∧ Q logs s1 ∧ Forall2 (λ log _, ok log k) logs ms
     ∧ s' = printed (closing k) s1) ↔
  (∃ logs k s1, length logs = n ∧ Q logs s1 ∧ (∀ log, log ∈ logs → ok log k) ∧ s' = printed (closing k) s1).
Proof.
  split.
  - intros (logs & k & ms & s1 & Hl & Hr & Hf & ->). exists logs, k, s1.
    split_and!; [done..|by eapply (Forall2_unit (λ log, ok log k))|done].
  - intros (logs & k & s1 & Hl & Hr & Hf & ->). exists logs, k, (map (λ _, tt) logs), s1.
    split_and!; [done..|by apply Forall2_units|done].
Qed.

(** ** Termination *)

Section Termination.
Context {W : Type} (H : host W) `{!TimedHost H}.

(** Receiving takes time. *)
Definition takes_time (receive : io W bytes) : Prop :=
  ∀ s, wp receive (λ r s', time H s ≤ time H s' ∧ match r with Ok _ => time H s + tick ≤ time H s' | Err _ => True end) s.

Lemma read_waiting_takes_time d : takes_time (read_waiting H d).
Proof.
  intros s. apply wp_bind.
  assert (steady H (in_waiting H d)) as Hw by steady_step.
  eapply wp_mono; [apply Hw|]. intros [n|e] s1 H1; [|done].
  pose proof (tick_range (H := H)). apply (wp_read H); intros; lia.
Qed.

Lemma read_takes_time d n : takes_time (read H d n).
Proof. intros s. pose proof (tick_range (H := H)). apply (wp_read H); intros; lia. Qed.

Lemma capture_loop_wp {S} n receive deadline (act : S → bytes → bytes → io W (S + bytes)) state captured s :
  takes_time receive → (∀ state chunk captured, steady H (act state chunk captured)) →
  rounds_left H n deadline s →
  wp (capture_loop H n receive deadline act state captured) (λ _ s', time H s ≤ time H s') s.
Proof.
  intros Hr Ha. pose proof (tick_range (H := H)) as Htick. revert state captured s.
  induction n as [|n IH]; intros state captured s Hn; [destruct Hn; lia|].
  cbn [capture_loop]. apply wp_bind, (wp_monotonic H). intros s1 H1 _.
  case_decide; [|done]. apply wp_bind. eapply wp_mono; [apply Hr|]. intros [chunk|e] s2 [H2 H2']; [|cbn; lia].
  apply wp_bind. eapply wp_mono; [apply Ha|]. intros [[state'|captured']|e] s3 H3; [| |cbn; lia].
  - eapply wp_mono; [apply IH; eapply (rounds_step H n deadline s s1); eauto; lia|]. cbn. lia.
  - cbn. lia.
Qed.

Lemma steady_report_errors errors : steady H (report_errors errors).
Proof. induction errors as [|e errors IH]; cbn [report_errors]; repeat steady_step. done. Qed.

Lemma steady_print_all lines : steady H (print_all lines).
Proof. induction lines as [|l lines IH]; cbn [print_all]; repeat steady_step. done. Qed.

Lemma steady_boot_loop {A} n boot (capture : io W string) announce (check : Z → A → string → result (list string + A)) seen :
  steady H capture → steady H (boot_loop n boot capture announce check seen).
Proof.
  intros Hc. revert boot seen. induction n as [|n IH]; intros boot seen; cbn [boot_loop]; [steady_step|].
  apply steady_bind; [done|]. intros log. apply steady_bind; [apply steady_print_all|]. intros _.
  apply steady_bind; [steady_step|]. intros [errors|seen']; [|apply IH].
  apply steady_bind; [apply steady_report_errors|intros _; steady_step].
Qed.

Lemma steady_send_lines d lines : steady H (send_lines H d lines).
Proof. induction lines as [|l lines IH]; cbn [send_lines]; repeat steady_step. done. Qed.

Lemma steady_cancel_and_release d : steady H (cancel_and_release H d).
Proof. unfold cancel_and_release. repeat steady_step. Qed.

Lemma steady_open_probe port : steady H (open_probe H port).
Proof. unfold open_probe. repeat steady_step. Qed.

Lemma steady_release d : steady H (release H d).
Proof. unfold release. repeat steady_step. Qed.

Lemma steady_check_run env cmd : steady H (check_run H env cmd).
Proof. unfold check_run. repeat steady_step. Qed.

Lemma steady_finally {A} (m : io W A) cleanup : steady H m → steady H cleanup → steady H (finally m cleanup).
Proof.
  intros Hm Hc s. specialize (Hm s). unfold wp, finally in *. destruct (m s) as [[r s1]|]; [|done].
  specialize (Hc s1). unfold wp in Hc. destruct (cleanup s1) as [[[u|e] s2]|]; [|lia|done]. lia.
Qed.

Lemma steady_conclude {A} known (closing : A → list string) seen : steady H (conclude_assert known closing seen).
Proof.
  destruct seen; cbn [conclude_assert]; [|steady_step]. apply steady_bind; [steady_step|intros _].
  apply steady_bind; [apply steady_print_all|intros _; steady_step].
Qed.

Lemma steady_artifacts {A} (record : result A) (k : A → io W Z) :
  (∀ artifacts, steady H (k artifacts)) → steady H (with_artifacts record k).
Proof. intros Hk. destruct record; cbn; [done|]. repeat steady_step. Qed.

(** Opening a window of [timeout] from now and capturing in it. *)
Lemma steady_capture {S B} fuel receive timeout (act : S → bytes → bytes → io W (S + bytes)) state
    (k : bytes → io W B) :
  lasts H fuel timeout → takes_time receive →
  (∀ state chunk captured, steady H (act state chunk captured)) → (∀ captured, steady H (k captured)) →
  steady H (now ← monotonic H; captured ← capture_loop H fuel receive (now + timeout) act state []; k captured).
Proof.
  intros Hf Hr Ha Hk s. apply wp_bind, (wp_monotonic H). intros s1 H1 _. apply wp_bind.
  eapply wp_mono; [apply (capture_loop_wp fuel); [done..|apply (rounds_lasting H fuel timeout); [done|lia]]|].
  intros [captured|e] s2 H2; [|lia]. eapply wp_mono; [apply Hk|]. cbn. lia.
Qed.

(** A window that was opened a little earlier. *)
Lemma steady_window {S B} fuel receive timeout (act : S → bytes → bytes → io W (S + bytes)) state
    (before cleanup : io W unit) (k : bytes → io W B) :
  lasts H fuel timeout → takes_time receive →
  (∀ state chunk captured, steady H (act state chunk captured)) → (∀ captured, steady H (k captured)) →
  steady H before → steady H cleanup →
  steady H (now ← monotonic H;
            finally (before ;; captured ← capture_loop H fuel receive (now + timeout) act state []; k captured) cleanup).
Proof.
  intros Hf Hr Ha Hk Hb Hc s. apply wp_bind, (wp_monotonic H). intros s1 H1 _.
  set (m := before ;; _). assert (wp m (λ _ s', time H s1 ≤ time H s') s1) as Hm.
  { apply wp_bind. eapply wp_mono; [apply Hb|]. intros [u|e] s2 H2; [|done]. apply wp_bind.
    eapply wp_mono; [apply (capture_loop_wp fuel); [done..|apply (rounds_lasting H fuel timeout); [done|lia]]|].
    intros [captured|e] s3 H3; [|cbn; lia]. eapply wp_mono; [apply Hk|]. cbn. lia. }
  unfold wp, finally in *. destruct (m s1) as [[r s2]|]; [|done]. specialize (Hc s2). unfold wp in Hc.
  destruct (cleanup s2) as [[[u|e] s3]|]; [|lia|done]. lia.
Qed.

End Termination.

(** ** A host that replays a console

    A port delivers the given chunks in order, as far as a read asks for them, and
    then stays silent. *)

Record replay := { r_time : Z; r_chunks : list bytes }.

Definition replay_read (n : Z) (w : replay) : bytes * list bytes :=
  match r_chunks w with
  | [] => ([], [])
  | chunk :: chunks =>
      (take (Z.to_nat n) chunk,
       match drop (Z.to_nat n) chunk with [] => chunks | more => more :: chunks end)
  end.

Definition replay_host : host replay := {|
  h_monotonic_ns w := (r_time w, w);
  h_sleep t w := {| r_time := r_time w + Z.max 0 t; r_chunks := r_chunks w |};
  h_open _ w := (Ok 0, w);
  h_reset_input_buffer _ w := (Ok tt, w);
  h_reset_output_buffer _ w := (Ok tt, w);
  h_in_waiting _ w := (Ok (blen (default [] (head (r_chunks w)))), w);
  h_read _ n w := (Ok (replay_read n w).1, {| r_time := r_time w + ms 50; r_chunks := (replay_read n w).2 |});
  h_write _ b w := (Ok (blen b), w);
  h_flush _ w := (Ok tt, w);
  h_set_dtr _ _ w := (Ok tt, w);
  h_set_rts _ _ w := (Ok tt, w);
  h_cancel_read _ w := (Ok tt, w);
  h_cancel_write _ w := (Ok tt, w);
  h_close _ w := (Ok tt, w);
  h_run _ w := (Ok 0, w);
  h_make_parent _ w := (Ok tt, w);
  h_write_text _ _ w := (Ok tt, w);
|}.

#[global] Instance replay_timed : TimedHost replay_host.
Proof.
  refine {| clock := r_time; tick := ms 50 |}; intros; unfold replay_host, ms; cbn; lia.
Defined.

(** A console that prints these lines. *)
Definition console (lines : list string) : bytes := encode (str_join "" (map (λ l, l +:+ cr +:+ nl) lines)).

Definition replaying (chunks : list bytes) : st replay := mkSt {| r_time := 0; r_chunks := chunks |} "" "".

Lemma replay_lasts t : t ≤ seconds 1000 → lasts replay_host (Z.to_nat 20001) t.
Proof.
  intros Ht. apply enough_lasts; [|done]. vm_compute. discriminate.
Qed.

Definition bench_environment : environment := {|
  executable := "python";
  USB_RESET_ARM := "usb-reset-arm.py";
  died_with := λ n, "unknown signal " +:+ pretty n;
|}.

(** The hash lines the loader prints for a payload. *)
Definition hash_of (digit : string) : string := str_join "" (replicate 64 digit).
Definition payload_lines (kernel dtb : string) : list string :=
  ["I (900) micronux_m3: MICRONUX:M3:KERNEL bytes=1 sha256=" +:+ hash_of kernel;
   "I (901) micronux_m3: MICRONUX:M3:DTB bytes=1 sha256=" +:+ hash_of dtb].
