(* ===== verification/GateM2.v ===== *)
(** * The M2 gate: repeated diagnostic handoff

    scripts/m2-test.py: the board is reset over the control lines, and every boot
    must report the whole handoff with the same CRC and token. *)

From S2P Require Import Prelude PyBytes PyStr Utf8 Regex Io Session Boots.

Definition REQUIRED_MARKERS : list string := [
  "MICRONUX:M2:BOOT";
  "MICRONUX:M2:PSRAM ";
  "MICRONUX:M2:PSRAM_TEST";
  "MICRONUX:M2:KERNEL";
  "MICRONUX:M2:HANDOFF";
  "MICRONUX:M2:JUMP";
  "MICRONUX:M2:ENTRY";
  "MICRONUX:M2:PASS"
].

Definition CRC_RE : re := Eval vm_compute in
  compile false "MICRONUX:M2:HANDOFF .*crc32=([0-9a-fA-F]{8})".
Definition TOKEN_RE : re := Eval vm_compute in
  compile false "MICRONUX:M2:PASS token=([0-9a-fA-F]{8})".

(** ** Capturing a boot *)

Section Capture.
Context {W : Type} (H : host W) (fuel : nat).

(** [if chunk:] the end of the log has been reached: a little later, what is still waiting. *)
Definition on_chunk (d : device) (_ : unit) (chunk captured : bytes) : io W (unit + bytes) :=
  match chunk with
  | [] => mret (inl tt)
  | _ =>
      let text := decode captured in
      if contains "MICRONUX:M2:PASS" text || contains "MICRONUX:M2:FAIL" text then
        sleep H (ms 100) ;;
        waiting ← in_waiting H d;
        more ← read H d waiting;
        mret (inr (captured ++ more))
      else mret (inl tt)
  end.

Definition reset_and_capture (port : string) (timeout : Z) : io W string :=
  d ← serial_open H (boot_settings port);
  finally (
    reset_input_buffer H d ;;
    set_dtr H d false ;;
    set_rts H d true ;;
    sleep H (ms 100) ;;
    set_rts H d false ;;
    now ← monotonic H;
    captured ← capture_loop H fuel (read_waiting H d) (now + timeout) (on_chunk d) tt [];
    mret (decode captured))
  (release H d).

End Capture.

(** ** Judging a boot *)

Definition marker_lines (log : string) : list string :=
  map strip (filter (λ line, contains "MICRONUX:M2:" line = true) (splitlines log)).

Definition announce (boots boot : Z) (log : string) : list string :=
  ["--- M2 boot " +:+ pretty boot +:+ "/" +:+ pretty boots +:+ " ---";
   lines_or (marker_lines log) "(no MicroNUX markers captured)"].

(** The checks on a log; [expected] is the CRC and the token of the boots before. *)
Definition check_boot (boot : Z) (expected : option (string * string)) (log : string)
    : result (list string + option (string * string)) :=
  match absent REQUIRED_MARKERS log with
  | (_ :: _) as missing =>
      Ok (inl ["--- complete serial log ---"; log;
           "M2 boot " +:+ pretty boot +:+ " missing markers: " +:+ listed missing])
  | [] =>
      if contains "MICRONUX:M2:FAIL" log then Ok (inl ["M2 boot " +:+ pretty boot +:+ " reported failure"])
      else
        match search CRC_RE log, search TOKEN_RE log with
        | Some crc_match, Some token_match =>
            let crc := lower (group crc_match "1") in
            let token := lower (group token_match "1") in
            Ok (compare_pair expected crc token (λ expected_crc expected_token,
              ["M2 handoff changed across resets: " +:+
               "expected crc=" +:+ expected_crc +:+ " token=" +:+ expected_token +:+ ", " +:+
               "got crc=" +:+ crc +:+ " token=" +:+ token]))
        | _, _ => Ok (inl ["M2 boot " +:+ pretty boot +:+ " did not expose its CRC/token"])
        end
  end.

Definition pass_text (boots : Z) (expected : option (string * string)) : string :=
  "M2 repeated-handoff test passed: boots=" +:+ pretty boots +:+ " " +:+
  "crc32=" +:+ show_option (fst <$> expected) +:+ " token=" +:+ show_option (snd <$> expected).

(** [main], with the parsed arguments. *)
Definition main {W} (H : host W) (fuel : nat) (port : string) (boots timeout : Z) : io W Z :=
  lift (raise_when (boots < 1) SystemExit "--boots must be at least 1") ;;
  seen ← boot_loop (Z.to_nat boots) 1 (reset_and_capture H fuel port timeout) (announce boots) check_boot None;
  conclude (λ expected, [pass_text boots expected]) seen.

(** ** What a pass means *)

(** A complete handoff with this CRC and token. *)
Record boot_ok (log : string) (key : string * string) : Prop := {
  ok_markers : ∀ marker, marker ∈ REQUIRED_MARKERS → contains marker log = true;
  ok_no_failure : contains "MICRONUX:M2:FAIL" log = false;
  ok_crc : ∃ m, search CRC_RE log = Some m ∧ key.1 = lower (group m "1");
  ok_token : ∃ m, search TOKEN_RE log = Some m ∧ key.2 = lower (group m "1");
}.

Lemma m2_check_boot_spec boot e log seen' :
  check_boot boot e log = Ok (inr seen') ↔
  ∃ k (_ : unit), boot_ok log k ∧ (e = None ∨ e = Some k) ∧ seen' = Some k.
Proof.
  unfold check_boot. split.
  - destruct (absent REQUIRED_MARKERS log) eqn:Ea; [|done]. rewrite absent_nil in Ea.
    destruct (contains "MICRONUX:M2:FAIL" log) eqn:Ef; [done|].
    destruct (search CRC_RE log) as [c|] eqn:Ec; [|done]. destruct (search TOKEN_RE log) as [t|] eqn:Et; [|done].
    intros [= [E ->]%compare_pair_spec]. exists (lower (group c "1"), lower (group t "1")), tt.
    split; [constructor; eauto|done].
  - intros ([kc kt] & _ & [Hm Hf (c & Ec & Hc) (t & Et & Ht)] & He & ->).
    apply absent_nil in Hm. rewrite Hm, Hf, Ec, Et. cbn in Hc, Ht. subst.
    f_equal. by apply compare_pair_spec.
Qed.

Section Gate.
Context {W : Type} (H : host W) (fuel : nat) (port : string) (boots timeout : Z).

(** As many boots as asked for, all with one CRC and token, which are printed. *)
Definition passes (s s' : st W) : Prop :=
  ¬ boots < 1 ∧
  ∃ logs key s1,
    length logs = Z.to_nat boots
    ∧ booted (reset_and_capture H fuel port timeout) (announce boots) 1 s logs s1
    ∧ (∀ log, log ∈ logs → boot_ok log key)
    ∧ s' = printed [pass_text boots (Some key)] s1.

Lemma m2_exits s : wlp (main H fuel port boots timeout) (exits (passes s)) s.
Proof.
  apply wlp_guard. intros Hb. eapply wlp_exits_iff; [|intros s'; apply (unmeasured_iff boot_ok)].
  apply (series_exit check_boot (λ e (_ : list unit), e) (λ log k _, boot_ok log k)); [|done|lia].
  intros. apply m2_check_boot_spec.
Qed.

Lemma m2_capture_steady `{!TimedHost H} : lasts H fuel timeout →
  steady H (reset_and_capture H fuel port timeout).
Proof.
  intros Hf. apply steady_bind; [steady_step|]. intros d.
  apply steady_finally; [|apply steady_release]. do 5 (apply steady_bind; [steady_step|intros _]).
  apply steady_capture; [done..|apply read_waiting_takes_time| |intros; steady_step].
  intros [] [|b chunk] captured; unfold on_chunk; repeat steady_step.
Qed.

End Gate.

(** The M2 gate ends, and exits with 0 exactly when as many boots as asked for
    each logged the complete, unfailed handoff, all with one and the same CRC and
    token, which are then printed; otherwise it exits with 1 or passes on an
    exception of the port. *)
Theorem m2_gate {W} (H : host W) `{!TimedHost H} fuel port boots timeout s :
  lasts H fuel timeout →
  wp (main H fuel port boots timeout) (exits (passes H fuel port boots timeout s)) s.
Proof.
  intros Hf. eapply wp_mono; [apply wp_and; [|apply m2_exits]|by intros r s' [_ ?]].
  assert (steady H (main H fuel port boots timeout)) as Hm; [|apply Hm].
  apply steady_bind; [steady_step|intros _]. apply steady_bind; [by apply steady_boot_loop, m2_capture_steady|].
  intros seen. apply steady_conclude.
Qed.

(** A passing and a failing run. *)
Definition sample_log (token : string) : list string := [
  "MICRONUX:M2:BOOT"; "MICRONUX:M2:PSRAM size=32"; "MICRONUX:M2:PSRAM_TEST ok"; "MICRONUX:M2:KERNEL x";
  "MICRONUX:M2:HANDOFF v=1 crc32=0A1b2C3d"; "MICRONUX:M2:JUMP"; "MICRONUX:M2:ENTRY";
  "MICRONUX:M2:PASS token=" +:+ token].

Definition sample_run (chunks : list bytes) : option (result Z * string) :=
  (λ o, (o.1, stderr o.2)) <$> main replay_host 300 "COM1" 2 (seconds 3) (replaying chunks).

Example m2_examples :
  (sample_run [console (sample_log "CAFE0001"); []; console (sample_log "cafe0001")],
   sample_run [console (sample_log "CAFE0001"); []; console (sample_log "cafe0002")],
   option_map fst (sample_run [console (sample_log "CAFE0001")]))
  = (Some (Ok 0, ""),
     Some (Ok 1, "M2 handoff changed across resets: " +:+
                 "expected crc=0a1b2c3d token=cafe0001, got crc=0a1b2c3d token=cafe0002" +:+ nl),
     Some (Ok 1)).
Proof. by_compute. Qed.

Lemma m2_gate_witness :
  let s := replaying [console (sample_log "CAFE0001")] in
  wp (main replay_host (Z.to_nat 20001) "COM1" 1 (seconds 3))
    (exits (passes replay_host (Z.to_nat 20001) "COM1" 1 (seconds 3) s)) s.
Proof.
  apply (m2_gate replay_host (Z.to_nat 20001) "COM1" 1 (seconds 3)); apply replay_lasts.
  vm_compute. discriminate.
Defined.
