(* ===== verification/GateM3.v ===== *)
(** * The M3 gate: Linux reaches its initramfs

    scripts/m3-test.py: the board is reset through the ROM loader, and every boot
    must reach [/init] without a fatal message and with the same payload. *)

From S2P Require Import Prelude PyBytes PyStr Utf8 Regex Io Session Boots.

Definition REQUIRED_MARKERS : list string := [
  "MICRONUX:M3:BOOT";
  "MICRONUX:M3:CLINT";
  "MICRONUX:M3:MANIFEST";
  "MICRONUX:M3:KERNEL";
  "MICRONUX:M3:DTB";
  "MICRONUX:M3:JUMP";
  "MICRONUX:M3:PMP entries=13,14 linux=[48400000,49f00000) config=8f";
  "Linux version 6.12.27";
  "timer running at 360000000 Hz";
  "Run /init as init process"
].

Definition FORBIDDEN_MARKERS : list string := [
  "MICRONUX:M3:FAIL";
  "Kernel panic";
  "Oops:";
  "BUG:";
  "Unhandled";
  "timer stall"
].


(** ** Capturing a boot *)

Section Capture.
Context {W : Type} (H : host W) (env : environment) (fuel : nat).

Definition rom_reset (port : string) : io W unit := check_run H env (chip_id_command env port).

(** [init_seen_at] is set by the first text with the [/init] line; the loop ends
    two seconds later. *)
Definition on_chunk (init_seen_at : option Z) (chunk captured : bytes) : io W (option Z + bytes) :=
  init_seen_at ←
    (match chunk with
     | [] => mret init_seen_at
     | _ =>
         let text := decode captured in
         if contains "Run /init as init process" text && bool_decide (init_seen_at = None)
         then now ← monotonic H; mret (Some now)
         else mret init_seen_at
     end);
  match init_seen_at with
  | None => mret (inl None)
  | Some seen =>
      now ← monotonic H;
      mret (if decide (seconds 2 ≤ now - seen) then inr captured else inl (Some seen))
  end.

Definition reset_and_capture (port : string) (timeout : Z) (reset : bool) : io W string :=
  (if reset then rom_reset port else mret tt) ;;
  d ← serial_open H (boot_settings port);
  finally (
    reset_input_buffer H d ;;
    now ← monotonic H;
    captured ← capture_loop H fuel (read_waiting H d) (now + timeout) on_chunk None [];
    mret (decode captured))
  (release H d).

End Capture.

(** ** Judging a boot *)

Definition USEFUL : list string :=
  ["MICRONUX:M3:"; "Linux version"; "timer running at"; "initramfs"; "Run /init"].

Definition milestone_lines (log : string) : list string :=
  map strip (filter (λ line, mentions USEFUL line = true) (splitlines log)).

Definition announce (boots boot : Z) (log : string) : list string :=
  ["--- M3 boot " +:+ pretty boot +:+ "/" +:+ pretty boots +:+ " ---";
   lines_or (milestone_lines log) "(no M3/Linux milestones captured)"].

(** The checks on a log; [expected] are the hashes of the boots before. *)
Definition check_boot (boot : Z) (expected : option (string * string)) (log : string)
    : result (list string + option (string * string)) :=
  let missing := absent REQUIRED_MARKERS log in
  let forbidden := present FORBIDDEN_MARKERS log in
  if decide (missing ≠ [] ∨ forbidden ≠ []) then Ok (inl (marker_errors "M3" boot missing forbidden log))
  else
    match search KERNEL_HASH_RE log, search DTB_HASH_RE log with
    | Some kernel_match, Some dtb_match =>
        let kernel_hash := group kernel_match "1" in
        let dtb_hash := group dtb_match "1" in
        Ok (compare_pair expected kernel_hash dtb_hash
          (λ _ _, ["M3 payload changed across reset boot " +:+ pretty boot]))
    | _, _ => Ok (inl ["M3 boot " +:+ pretty boot +:+ " did not report payload hashes"])
    end.

Definition pass_text (boots : Z) (expected : option (string * string)) : string :=
  "M3 hardware gate passed: boots=" +:+ pretty boots +:+ " " +:+
  "kernel_sha256=" +:+ show_option (fst <$> expected) +:+ " dtb_sha256=" +:+ show_option (snd <$> expected).

(** [main], with the parsed arguments. *)
Definition main {W} (H : host W) (env : environment) (fuel : nat) (port : string) (boots timeout : Z)
    (skip_reset : bool) : io W Z :=
  lift (raise_when (boots < 1) SystemExit "--boots must be at least 1") ;;
  lift (raise_when (skip_reset = true ∧ boots ≠ 1) SystemExit
          "--skip-reset is diagnostic-only and requires --boots 1") ;;
  seen ← boot_loop (Z.to_nat boots) 1 (reset_and_capture H env fuel port timeout (negb skip_reset))
           (announce boots) check_boot None;
  conclude (λ expected, [pass_text boots expected]) seen.

(** ** What a pass means *)

(** A boot that reached [/init] with this payload. *)
Record boot_ok (log : string) (key : string * string) : Prop := {
  ok_markers : ∀ marker, marker ∈ REQUIRED_MARKERS → contains marker log = true;
  ok_no_failure : ∀ marker, marker ∈ FORBIDDEN_MARKERS → contains marker log = false;
  ok_kernel : ∃ m, search KERNEL_HASH_RE log = Some m ∧ key.1 = group m "1";
  ok_dtb : ∃ m, search DTB_HASH_RE log = Some m ∧ key.2 = group m "1";
}.

Lemma m3_check_boot_spec boot e log seen' :
  check_boot boot e log = Ok (inr seen') ↔
  ∃ k (_ : unit), boot_ok log k ∧ (e = None ∨ e = Some k) ∧ seen' = Some k.
Proof.
  unfold check_boot. split.
  - case_decide as Hd; [done|]. rewrite not_failed, absent_nil, present_nil in Hd. destruct Hd as [Ha Hp].
    destruct (search KERNEL_HASH_RE log) as [c|] eqn:Ec; [|done].
    destruct (search DTB_HASH_RE log) as [t|] eqn:Et; [|done].
    intros [= [E ->]%compare_pair_spec]. exists (group c "1", group t "1"), tt. split; [constructor; eauto|done].
  - intros ([kc kt] & _ & [Hm Hf (c & Ec & Hc) (t & Et & Ht)] & He & ->).
    rewrite decide_False by (by rewrite not_failed, absent_nil, present_nil).
    rewrite Ec, Et. cbn in Hc, Ht. subst. f_equal. by apply compare_pair_spec.
Qed.

Section Gate.
Context {W : Type} (H : host W) (env : environment) (fuel : nat) (port : string) (boots timeout : Z) (skip_reset : bool).

(** As many boots as asked for, all with one payload, whose hashes are printed. *)
Definition passes (s s' : st W) : Prop :=
  ¬ boots < 1 ∧ ¬ (skip_reset = true ∧ boots ≠ 1) ∧
  ∃ logs key s1,
    length logs = Z.to_nat boots
    ∧ booted (reset_and_capture H env fuel port timeout (negb skip_reset)) (announce boots) 1 s logs s1
    ∧ (∀ log, log ∈ logs → boot_ok log key)
    ∧ s' = printed [pass_text boots (Some key)] s1.

Lemma m3_exits s : wlp (main H env fuel port boots timeout skip_reset) (exits (passes s)) s.
Proof.
  apply wlp_guard. intros Hb. apply wlp_guard. intros _.
  eapply wlp_exits_iff; [|intros s'; apply (unmeasured_iff boot_ok)].
  apply (series_exit check_boot (λ e (_ : list unit), e) (λ log k _, boot_ok log k)); [|done|lia].
  intros. apply m3_check_boot_spec.
Qed.

Lemma m3_capture_steady `{!TimedHost H} reset : lasts H fuel timeout →
  steady H (reset_and_capture H env fuel port timeout reset).
Proof.
  intros Hf. apply steady_bind; [destruct reset; [apply steady_check_run|steady_step]|]. intros _.
  apply steady_bind; [steady_step|]. intros d.
  apply steady_finally; [|apply steady_release]. apply steady_bind; [steady_step|intros _].
  apply steady_capture; [done..|apply read_waiting_takes_time| |intros; steady_step].
  intros init [|b chunk] captured; unfold on_chunk; repeat steady_step.
Qed.

End Gate.

(** The M3 gate ends, and exits with 0 exactly when as many boots as asked for
    each reached [/init] with all the loader's and the kernel's milestones and no
    fatal message, all with the same kernel and device-tree hashes, which are then
    printed; otherwise it exits with 1 or passes on an exception of the port or of
    the reset. *)
Theorem m3_gate {W} (H : host W) `{!TimedHost H} env fuel port boots timeout skip_reset s :
  lasts H fuel timeout →
  wp (main H env fuel port boots timeout skip_reset)
    (exits (passes H env fuel port boots timeout skip_reset s)) s.
Proof.
  intros Hf. eapply wp_mono; [apply wp_and; [|apply m3_exits]|by intros r s' [_ ?]].
  assert (steady H (main H env fuel port boots timeout skip_reset)) as Hm; [|apply Hm].
  do 2 (apply steady_bind; [steady_step|intros _]).
  apply steady_bind; [by apply steady_boot_loop, m3_capture_steady|].
  intros seen. apply steady_conclude.
Qed.

(** Passing and failing runs. *)
Definition sample_log (kernel : string) (more : list string) : list string :=
  ["MICRONUX:M3:BOOT"; "MICRONUX:M3:CLINT"; "MICRONUX:M3:MANIFEST"] ++ payload_lines kernel "b" ++
  ["MICRONUX:M3:JUMP"; "MICRONUX:M3:PMP entries=13,14 linux=[48400000,49f00000) config=8f";
   "Linux version 6.12.27 (gcc)"; "timer running at 360000000 Hz"] ++ more ++
  ["Run /init as init process"].

Definition sample_run (boots : Z) (chunks : list bytes) : option (result Z * string) :=
  (λ o, (o.1, stderr o.2)) <$>
    main replay_host bench_environment 300 "COM1" boots (seconds 3) false (replaying chunks).

Example m3_examples :
  (option_map fst (sample_run 1 [console (sample_log "a" [])]),
   option_map fst (sample_run 1 [console (sample_log "a" ["Oops: illegal instruction"])]),
   option_map fst (sample_run 1 [console ["MICRONUX:M3:BOOT"]]),
   sample_run 0 [])
  = (Some (Ok 0), Some (Ok 1), Some (Ok 1), Some (Err (Exn SystemExit "--boots must be at least 1"), "")).
Proof. by_compute. Qed.

Lemma m3_gate_witness :
  let s := replaying [console (sample_log "a" [])] in
  wp (main replay_host bench_environment (Z.to_nat 20001) "COM1" 1 (seconds 3) false)
    (exits (passes replay_host bench_environment (Z.to_nat 20001) "COM1" 1 (seconds 3) false s)) s.
Proof.
  apply (m3_gate replay_host bench_environment (Z.to_nat 20001) "COM1" 1 (seconds 3) false); apply replay_lasts.
  vm_compute. discriminate.
Defined.
