(* ===== verification/GateM4.v ===== *)
(** * The M4 gate: an interactive console

    scripts/m4-test.py: after the reset the gate waits for the shell, types a
    probe into it and measures the boot from the log. *)

From S2P Require Import Prelude PyBytes PyStr Utf8 PyFloat Regex Io Session Boots.

Definition REQUIRED_MARKERS : list string := [
  "MICRONUX:M3:BOOT";
  "MICRONUX:M3:JUMP";
  "MICRONUX:M4:IRQ source=22 matrix=500d6058 clic=16 handoff=armed";
  "Linux version 6.12.27";
  "console [ttyGS0] enabled";
  "USB Serial/JTAG ttyGS0";
  "MICRONUX:M4:SHELL ready console=ttyGS0";
  "MICRONUX:M4:PROBE:BEGIN";
  "MICRONUX:M4:MEMINFO";
  "MICRONUX:M4:FREE";
  "MICRONUX:M4:UNAME";
  "MICRONUX:M4:PROBE:DONE"
].

Definition FORBIDDEN_MARKERS : list string := [
  "MICRONUX:M3:FAIL";
  "MICRONUX:M4:FAIL";
  "Kernel panic";
  "Oops:";
  "BUG:";
  "Unhandled";
  "unhandled signal";
  "timer stall";
  "can't open /dev/ttyGS0"
].

Definition PROBE_LINES : list string := map (λ l, l +:+ nl) [
  "TAG=BEGIN; echo MICRONUX:M4:PROBE:$TAG";
  "TAG=MEMINFO; echo MICRONUX:M4:$TAG";
  "cat /proc/meminfo";
  "TAG=FREE; echo MICRONUX:M4:$TAG";
  "free";
  "TAG=UNAME; echo MICRONUX:M4:$TAG";
  "uname -a";
  "TAG=DONE; echo MICRONUX:M4:PROBE:$TAG"
].

Definition ARTIFACTS : list string := ["Image"; "rootfs.cpio"; "esp32p4-micronux.dtb"; "metadata.bin"].

Definition INIT_RE : re := Eval vm_compute in
  compile false "\[\s*([0-9]+(?:\.[0-9]+)?)\] Run /init as init process".
Definition JUMP_RE : re := Eval vm_compute in
  compile false "I \(([0-9]+)\) micronux_m3: MICRONUX:M3:JUMP".
Definition MEM_RE : re := Eval vm_compute in
  compile false "(?m)^MemFree:\s+([0-9]+) kB\r?$".

(** ** Capturing a boot *)

Section Capture.
Context {W : Type} (H : host W) (env : environment) (fuel : nat).

Definition rom_reset (port : string) : io W unit := check_run H env (chip_id_command env port).

(** The body of the loop: the probe is typed once the shell is ready, and the loop
    ends 0.4 seconds after the probe is done. *)
Definition on_text (d : device) (state : bool * option Z) (_ captured : bytes)
    : io W ((bool * option Z) + bytes) :=
  let '(probe_sent, done_seen_at) := state in
  let text := decode captured in
  probe_sent ←
    (if negb probe_sent && contains "MICRONUX:M4:SHELL ready" text
     then sleep H (ms 200) ;; send_lines H d PROBE_LINES ;; mret true
     else mret probe_sent);
  if probe_sent && contains "MICRONUX:M4:PROBE:DONE" text then
    now ← monotonic H;
    mret (match done_seen_at with
          | None => inl (probe_sent, Some now)
          | Some seen => if decide (ms 400 ≤ now - seen) then inr captured else inl (probe_sent, done_seen_at)
          end)
  else mret (inl (probe_sent, done_seen_at)).

Definition reset_probe_and_capture (port : string) (timeout : Z) : io W string :=
  rom_reset port ;;
  d ← serial_open H (boot_settings port);
  finally (
    reset_input_buffer H d ;;
    now ← monotonic H;
    captured ← capture_loop H fuel (read_waiting H d) (now + timeout) (on_text d) (false, None) [];
    mret (decode captured))
  (release H d).

End Capture.

(** ** Judging a boot *)

Definition artifact_record (directory : artifact_dir) : result string :=
  entries ← artifact_entries "M4" directory ARTIFACTS;
  Ok (str_join " " entries).

Definition USEFUL : list string :=
  ["MICRONUX:M3:KERNEL"; "MICRONUX:M3:DTB"; "MICRONUX:M4:"; "Linux version"; "console [ttyGS0]";
   "USB Serial/JTAG ttyGS0"; "MemFree:"; "Memory:"; "GNU/Linux"].

Definition milestone_lines (log : string) : list string :=
  map strip (filter (λ line, mentions USEFUL line = true) (splitlines log)).

Definition announce (boots boot : Z) (log : string) : list string :=
  ["--- M4 boot " +:+ pretty boot +:+ "/" +:+ pretty boots +:+ " ---";
   lines_or (milestone_lines log) "(no M4/Linux milestones captured)"].

(** Seconds to [/init], seconds from the reset to the shell, free memory in KiB. *)
Definition parse_measurements (log : string) : result (float * float * Z) :=
  match search INIT_RE log, search JUMP_RE log, search MEM_RE log with
  | Some init_match, Some jump_match, Some mem_match =>
      let init_time := float_of_string (group init_match "1") in
      jump ← float_of_int (int_of 10 (group jump_match "1"));
      let shell_time := fadd (fdiv jump (float_of_string "1000.0")) init_time in
      Ok (init_time, shell_time, int_of 10 (group mem_match "1"))
  | _, _, _ => Err (Exn ValueError "boot did not report loader time, init time, and MemFree")
  end.

(** What the loop of [main] accumulates. *)
Record seen := {
  expected : option (string * string);
  init_times : list float;
  shell_times : list float;
  free_memory : list Z;
}.

Definition check_boot (boot : Z) (so_far : seen) (log : string) : result (list string + seen) :=
  let missing := absent REQUIRED_MARKERS log in
  let forbidden := present FORBIDDEN_MARKERS log in
  if decide (missing ≠ [] ∨ forbidden ≠ []) then Ok (inl (marker_errors "M4" boot missing forbidden log))
  else
    match search KERNEL_HASH_RE log, search DTB_HASH_RE log with
    | Some kernel_match, Some dtb_match =>
        match compare_pair (expected so_far) (group kernel_match "1") (group dtb_match "1")
                (λ _ _, ["M4 payload changed across reset boot " +:+ pretty boot]) with
        | inl errors => Ok (inl errors)
        | inr expected =>
            match parse_measurements log with
            | Ok (init_time, shell_time, mem_free) =>
                Ok (inr {| expected := expected;
                           init_times := init_times so_far ++ [init_time];
                           shell_times := shell_times so_far ++ [shell_time];
                           free_memory := free_memory so_far ++ [mem_free] |})
            | Err e =>
                if caught [ValueError] e then Ok (inl ["M4 boot " +:+ pretty boot +:+ ": " +:+ exn_msg e])
                else Err e
            end
        end
    | _, _ => Ok (inl ["M4 boot " +:+ pretty boot +:+ " did not report payload hashes"])
    end.

Definition pass_lines (boots : Z) (artifacts : string) (so_far : seen) : list string :=
  ["M4 artifacts: " +:+ artifacts;
   "M4 hardware gate passed: boots=" +:+ pretty boots +:+ " " +:+
   "init_time_s=" +:+ commas (map fmt_2f (init_times so_far)) +:+ " " +:+
   "reset_to_shell_s=" +:+ commas (map fmt_2f (shell_times so_far)) +:+ " " +:+
   "mem_free_kb=" +:+ commas (map pretty (free_memory so_far)) +:+ " " +:+
   "kernel_sha256=" +:+ show_option (fst <$> expected so_far) +:+
   " dtb_sha256=" +:+ show_option (snd <$> expected so_far)].

(** [main], with the parsed arguments. *)
Definition main {W} (H : host W) (env : environment) (fuel : nat) (port : string) (boots timeout : Z)
    (directory : artifact_dir) : io W Z :=
  lift (raise_when (boots < 1) SystemExit "--boots must be at least 1") ;;
  with_artifacts (artifact_record directory) (λ artifacts,
    seen ← boot_loop (Z.to_nat boots) 1 (reset_probe_and_capture H env fuel port timeout) (announce boots) check_boot
             {| expected := None; init_times := []; shell_times := []; free_memory := [] |};
    conclude (pass_lines boots artifacts) seen).

(** ** What a pass means *)

(** A boot with an answered probe, this payload and these measurements. *)
Record boot_ok (log : string) (key : string * string) (measured : float * float * Z) : Prop := {
  ok_markers : ∀ marker, marker ∈ REQUIRED_MARKERS → contains marker log = true;
  ok_no_failure : ∀ marker, marker ∈ FORBIDDEN_MARKERS → contains marker log = false;
  ok_kernel : ∃ m, search KERNEL_HASH_RE log = Some m ∧ key.1 = group m "1";
  ok_dtb : ∃ m, search DTB_HASH_RE log = Some m ∧ key.2 = group m "1";
  ok_measured : parse_measurements log = Ok measured;
}.

Definition seen_of (e : option (string * string)) (l : list (float * float * Z)) : seen := {|
  expected := e;
  init_times := map (λ m, m.1.1) l;
  shell_times := map (λ m, m.1.2) l;
  free_memory := map snd l;
|}.

Lemma m4_check_boot_spec boot e l log seen' :
  check_boot boot (seen_of e l) log = Ok (inr seen') ↔
  ∃ k m, boot_ok log k m ∧ (e = None ∨ e = Some k) ∧ seen' = seen_of (Some k) (l ++ [m]).
Proof.
  unfold check_boot, seen_of. cbn [expected init_times shell_times free_memory]. split.
  - case_decide as Hd; [done|]. rewrite not_failed, absent_nil, present_nil in Hd. destruct Hd as [Ha Hp].
    destruct (search KERNEL_HASH_RE log) as [c|] eqn:Ec; [|done].
    destruct (search DTB_HASH_RE log) as [t|] eqn:Et; [|done].
    destruct (compare_pair _ _ _ _) as [|e'] eqn:Ek; [done|]. apply compare_pair_spec in Ek as [He ->].
    destruct (parse_measurements log) as [[[i sh] m]|] eqn:Em; [|by destruct (caught _ _)].
    intros [= <-]. exists (group c "1", group t "1"), (i, sh, m). rewrite !map_app.
    split; [constructor; eauto|done].
  - intros ([kc kt] & [[i sh] m] & [Hm Hf (c & Ec & Hc) (t & Et & Ht) Em] & He & ->).
    rewrite decide_False by (by rewrite not_failed, absent_nil, present_nil).
    rewrite Ec, Et, Em. cbn in Hc, Ht. subst.
    rewrite (proj2 (compare_pair_spec e _ _ _ _) (conj He eq_refl)). by rewrite !map_app.
Qed.

Section Gate.
Context {W : Type} (H : host W) (env : environment) (fuel : nat) (port : string) (boots timeout : Z)
  (directory : artifact_dir).

(** All artifacts are there, and as many boots as asked for answered the probe, all
    with one payload; the measurements of every boot are printed. *)
Definition passes (s s' : st W) : Prop :=
  ¬ boots < 1 ∧
  ∃ artifacts, artifact_record directory = Ok artifacts ∧
  ∃ logs key measured s1,
    length logs = Z.to_nat boots
    ∧ booted (reset_probe_and_capture H env fuel port timeout) (announce boots) 1 s logs s1
    ∧ Forall2 (λ log m, boot_ok log key m) logs measured
    ∧ s' = printed (pass_lines boots artifacts (seen_of (Some key) measured)) s1.

Lemma m4_exits s : wlp (main H env fuel port boots timeout directory) (exits (passes s)) s.
Proof.
  apply wlp_guard. intros Hb. apply wlp_artifacts. intros artifacts _.
  apply (series_exit check_boot seen_of boot_ok); [|done|lia]. intros. apply m4_check_boot_spec.
Qed.

Lemma m4_capture_steady `{!TimedHost H} : lasts H fuel timeout →
  steady H (reset_probe_and_capture H env fuel port timeout).
Proof.
  intros Hf. apply steady_bind; [apply steady_check_run|]. intros _.
  apply steady_bind; [steady_step|]. intros d.
  apply steady_finally; [|apply steady_release]. apply steady_bind; [steady_step|intros _].
  apply steady_capture; [done..|apply read_waiting_takes_time| |intros; steady_step].
  intros [sent seen] chunk captured. apply steady_bind; [|intros []; repeat steady_step].
  case_match; [|steady_step]. apply steady_bind; [steady_step|intros _].
  apply steady_bind; [apply steady_send_lines|intros _; steady_step].
Qed.

End Gate.

(** The M4 gate ends, and exits with 0 exactly when all artifacts exist and as
    many boots as asked for each logged every milestone up to the answered probe
    and no fatal message, with the times and the free memory in readable form and
    the same payload hashes throughout; it then prints the measurements boot by
    boot.  Otherwise it exits with 1 or passes on an exception. *)
Theorem m4_gate {W} (H : host W) `{!TimedHost H} env fuel port boots timeout directory s :
  lasts H fuel timeout →
  wp (main H env fuel port boots timeout directory)
    (exits (passes H env fuel port boots timeout directory s)) s.
Proof.
  intros Hf. eapply wp_mono; [apply wp_and; [|apply m4_exits]|by intros r s' [_ ?]].
  assert (steady H (main H env fuel port boots timeout directory)) as Hm; [|apply Hm].
  apply steady_bind; [steady_step|intros _]. apply steady_artifacts. intros artifacts.
  apply steady_bind; [by apply steady_boot_loop, m4_capture_steady|]. intros seen. apply steady_conclude.
Qed.

(** Passing and failing runs. *)
Definition sample_log (init memory : string) : list string :=
  ["MICRONUX:M3:BOOT"] ++ payload_lines "a" "b" ++
  ["I (1234) micronux_m3: MICRONUX:M3:JUMP"; "MICRONUX:M4:IRQ source=22 matrix=500d6058 clic=16 handoff=armed";
   "Linux version 6.12.27 (gcc)"; "console [ttyGS0] enabled"; "USB Serial/JTAG ttyGS0";
   "[    " +:+ init +:+ "] Run /init as init process"; "MICRONUX:M4:SHELL ready console=ttyGS0";
   "MICRONUX:M4:PROBE:BEGIN"; "MICRONUX:M4:MEMINFO"; "MemFree:        " +:+ memory +:+ " kB";
   "MICRONUX:M4:FREE"; "MICRONUX:M4:UNAME"; "MICRONUX:M4:PROBE:DONE"].

Definition sample_dir : artifact_dir := {| path_of := λ name, "out/" +:+ name; file_of := λ _, Some [] |}.

Definition sample_run (directory : artifact_dir) (boots : Z) (chunks : list bytes) : option (result Z * string) :=
  (λ o, (o.1, stderr o.2)) <$>
    main replay_host bench_environment 300 "COM1" boots (seconds 5) directory (replaying chunks).

Example m4_examples :
  (sample_run sample_dir 1 [console (sample_log "2.5" "4321")],
   sample_run sample_dir 1 [console (sample_log "2.5" "x")],
   sample_run {| path_of := path_of sample_dir; file_of := λ _, None |} 1 [])
  = (Some (Ok 0, ""),
     Some (Ok 1, "M4 boot 1: boot did not report loader time, init time, and MemFree" +:+ nl),
     Some (Ok 1, "missing M4 artifact: out/Image" +:+ nl)).
Proof. by_compute. Qed.

Lemma m4_gate_witness :
  let s := replaying [console (sample_log "2.5" "4321")] in
  wp (main replay_host bench_environment (Z.to_nat 20001) "COM1" 1 (seconds 5) sample_dir)
    (exits (passes replay_host bench_environment (Z.to_nat 20001) "COM1" 1 (seconds 5) sample_dir s)) s.
Proof.
  apply (m4_gate replay_host bench_environment (Z.to_nat 20001) "COM1" 1 (seconds 5) sample_dir); apply replay_lasts.
  vm_compute. discriminate.
Defined.
