(* ===== verification/GateM5.v ===== *)
(** * The M5 gate: the NOMMU hardening self-test

    scripts/m5-test.py: the gate starts the self-test once the shell is ready and
    reads the memory again when it has passed; every boot must report all stress
    counts, the exact console checksums and a bounded loss of memory. *)

From S2P Require Import Prelude PyBytes PyStr Utf8 Regex Io Session Boots.

Definition EXEC_ITERATIONS : Z := 64.
Definition SIGNAL_ITERATIONS : Z := 64.
Definition TIMER_ITERATIONS : Z := 32.
Definition MEMORY_KIB : Z := 4096.
Definition STACK_DEPTH : Z := 8.
Definition CONSOLE_LINES : Z := 64.
Definition DEFAULT_MAX_MEMORY_LOSS_KIB : Z := 512.

Definition REQUIRED_MARKERS : list string := [
  "MICRONUX:M3:BOOT";
  "MICRONUX:M3:JUMP";
  "MICRONUX:M4:IRQ source=22 matrix=500d6058 clic=16 handoff=armed";
  "Linux version 6.12.27";
  "console [ttyGS0] enabled";
  "USB Serial/JTAG ttyGS0";
  "MICRONUX:M4:SHELL ready console=ttyGS0";
  "MICRONUX:M5:BASELINE";
  "MICRONUX:M5:RUN";
  "MICRONUX:M5:SIGNALS pass count=" +:+ pretty SIGNAL_ITERATIONS;
  "MICRONUX:M5:TIMERS pass count=" +:+ pretty TIMER_ITERATIONS;
  "MICRONUX:M5:EXEC pass count=" +:+ pretty EXEC_ITERATIONS;
  "MICRONUX:M5:MEMORY pass kib=" +:+ pretty MEMORY_KIB;
  "MICRONUX:M5:STACK pass depth=" +:+ pretty STACK_DEPTH;
  "MICRONUX:M5:CONSOLE seq=" +:+ pretty (CONSOLE_LINES - 1);
  "MICRONUX:M5:PASS";
  "MICRONUX:M5:AFTER";
  "MICRONUX:M5:PROBE:DONE"
].

Definition FORBIDDEN_MARKERS : list string := [
  "MICRONUX:M3:FAIL";
  "MICRONUX:M4:FAIL";
  "MICRONUX:M5:FAIL";
  "Kernel panic";
  "Oops:";
  "BUG:";
  "Unhandled";
  "unhandled signal";
  "timer stall";
  "stack smashing detected";
  "can't open /dev/ttyGS0"
].

Definition START_LINES : list string := map (λ l, l +:+ nl) [
  "TAG=BASELINE; echo MICRONUX:M5:$TAG";
  "cat /proc/meminfo";
  "TAG=RUN; echo MICRONUX:M5:$TAG";
  "/usr/bin/micronux-selftest"
].

Definition FINISH_LINES : list string := map (λ l, l +:+ nl) [
  "TAG=AFTER; echo MICRONUX:M5:$TAG";
  "cat /proc/meminfo";
  "TAG=DONE; echo MICRONUX:M5:PROBE:$TAG"
].

Definition ARTIFACTS : list string :=
  ["Image"; "rootfs.cpio"; "esp32p4-micronux.dtb"; "metadata.bin"; "micronux-selftest"; "micronux-exec-child"].

Definition PASSED_RE : re := Eval vm_compute in
  compile false "MICRONUX:M5:PASS .* elapsed_ms=[0-9]+\r?\n".
Definition MEM_RE : re := Eval vm_compute in
  compile false "(?m)^MemFree:\s+([0-9]+) kB\r?$".
Definition SUMMARY_RE : re := Eval vm_compute in compile false (
  "MICRONUX:M5:PASS exec=" +:+ pretty EXEC_ITERATIONS +:+ " " +:+
  "signals=" +:+ pretty SIGNAL_ITERATIONS +:+ " timers=" +:+ pretty TIMER_ITERATIONS +:+ " " +:+
  "memory_kib=" +:+ pretty MEMORY_KIB +:+ " stack_depth=" +:+ pretty STACK_DEPTH +:+ " " +:+
  "console=" +:+ pretty CONSOLE_LINES +:+ " elapsed_ms=([0-9]+)").
Definition CONSOLE_RE : re := Eval vm_compute in
  compile false "(?m)^MICRONUX:M5:CONSOLE seq=([0-9]+) checksum=([0-9a-f]{8})\r?$".

(** ** Capturing a boot *)

Section Capture.
Context {W : Type} (H : host W) (env : environment) (fuel : nat).

Definition rom_reset (port : string) : io W unit := check_run H env (chip_id_command env port).

Definition write_lines (d : device) (lines : list string) : io W unit := send_lines H d lines.

Record progress := { started : bool; finished : bool; done_seen_at : option Z }.

(** The body of the loop: the self-test is started once the shell is ready, the
    memory is read again once it has passed, and the loop ends 0.4 seconds after
    the end of the probe. *)
Definition on_text (d : device) (p : progress) (_ captured : bytes) : io W (progress + bytes) :=
  let text := decode captured in
  started ←
    (if negb (started p) && contains "MICRONUX:M4:SHELL ready" text
     then sleep H (ms 200) ;; write_lines d START_LINES ;; mret true
     else mret (started p));
  finished ←
    (if started && negb (finished p) && found (search PASSED_RE text)
     then write_lines d FINISH_LINES ;; mret true
     else mret (finished p));
  let keep seen := inl {| started := started; finished := finished; done_seen_at := seen |} in
  if finished && contains "MICRONUX:M5:PROBE:DONE" text then
    now ← monotonic H;
    mret (match done_seen_at p with
          | None => keep (Some now)
          | Some seen => if decide (ms 400 ≤ now - seen) then inr captured else keep (Some seen)
          end)
  else mret (keep (done_seen_at p)).

Definition reset_probe_and_capture (port : string) (timeout : Z) : io W string :=
  rom_reset port ;;
  d ← serial_open H (boot_settings port);
  finally (
    reset_input_buffer H d ;;
    now ← monotonic H;
    captured ← capture_loop H fuel (read_waiting H d) (now + timeout) (on_text d)
                 {| started := false; finished := false; done_seen_at := None |} [];
    mret (decode captured))
  (release H d).

End Capture.

(** ** Reading a log *)

Definition artifact_record (directory : artifact_dir) : result string :=
  entries ← artifact_entries "M5" directory ARTIFACTS;
  Ok (str_join " " entries).

Definition USEFUL : list string :=
  ["MICRONUX:M3:KERNEL"; "MICRONUX:M3:DTB"; "MICRONUX:M4:SHELL"; "MICRONUX:M5:"; "Linux version";
   "console [ttyGS0]"; "USB Serial/JTAG ttyGS0"; "MemFree:"].

(** A console line between the first and the last is not shown. *)
Definition is_milestone (line : string) : bool :=
  if contains "MICRONUX:M5:CONSOLE" line
     && negb (contains "seq=0 " line || contains ("seq=" +:+ pretty (CONSOLE_LINES - 1) +:+ " ") line)
  then false
  else mentions USEFUL line.

Definition milestone_lines (log : string) : list string :=
  map strip (filter (λ line, is_milestone line = true) (splitlines log)).

Definition announce (boots boot : Z) (log : string) : list string :=
  ["--- M5 boot " +:+ pretty boot +:+ "/" +:+ pretty boots +:+ " ---";
   lines_or (milestone_lines log) "(no M5/Linux milestones captured)"].

Definition payload_hashes (log : string) : result (string * string) :=
  match search KERNEL_HASH_RE log, search DTB_HASH_RE log with
  | Some kernel_match, Some dtb_match => Ok (group kernel_match "1", group dtb_match "1")
  | _, _ => Err (Exn ValueError "boot did not report payload hashes")
  end.

(** Free memory before and after in KiB, and the duration of the self-test. *)
Definition measurements (log : string) : result (Z * Z * Z) :=
  let memory_matches := findall1 MEM_RE log in
  match search SUMMARY_RE log with
  | Some pass_match =>
      if decide (length memory_matches < 2)%nat
      then Err (Exn ValueError "self-test did not report memory and elapsed-time metrics")
      else Ok (int_of 10 (hd "" memory_matches), int_of 10 (List.last memory_matches ""),
               int_of 10 (group pass_match "1"))
  | None => Err (Exn ValueError "self-test did not report memory and elapsed-time metrics")
  end.

(** *** The console checksums *)

Definition SEED : Z := 0x6D696372.
Definition MASK32 : Z := 0xFFFFFFFF.

(** The next checksum, as the loop updates it. *)
Definition next_checksum (checksum : Z) : Z :=
  let checksum := Z.lxor checksum (Z.land (Z.shiftl checksum 13) MASK32) in
  let checksum := Z.lxor checksum (Z.shiftr checksum 17) in
  let checksum := Z.lxor checksum (Z.land (Z.shiftl checksum 5) MASK32) in
  Z.land checksum MASK32.

(** [for expected_sequence, (sequence_text, checksum_text) in enumerate(matches)] *)
Fixpoint verify_lines (expected_sequence checksum : Z) (matches : list (list string)) : result unit :=
  match matches with
  | [] => Ok tt
  | m :: matches =>
      let checksum := next_checksum checksum in
      let sequence_text := nth 0 m "" in
      let checksum_text := nth 1 m "" in
      raise_when (int_of 10 sequence_text ≠ expected_sequence ∨ int_of 16 checksum_text ≠ checksum) ValueError
        ("console sequence/checksum mismatch at line " +:+ pretty expected_sequence +:+
         ": seq=" +:+ sequence_text +:+ " checksum=" +:+ checksum_text) ;;
      verify_lines (expected_sequence + 1) checksum matches
  end.

Definition verify_console (log : string) : result unit :=
  let matches := findall CONSOLE_RE log in
  raise_when (Z.of_nat (length matches) ≠ CONSOLE_LINES) ValueError
    ("console reported " +:+ pretty (length matches) +:+ " complete lines, expected " +:+ pretty CONSOLE_LINES) ;;
  verify_lines 0 SEED matches.

(** ** Judging a boot *)

Record seen := {
  expected_hashes : option (string * string);
  elapsed_times : list Z;
  baseline_memory : list Z;
  final_memory : list Z;
}.

(** The [try] of the loop. *)
Definition evaluate (log : string) : result ((string * string) * (Z * Z * Z)) :=
  hashes ← payload_hashes log;
  metrics ← measurements log;
  verify_console log ;;
  Ok (hashes, metrics).

Definition check_boot (max_memory_loss_kib boot : Z) (so_far : seen) (log : string) : result (list string + seen) :=
  let missing := absent REQUIRED_MARKERS log in
  let forbidden := present FORBIDDEN_MARKERS log in
  if decide (missing ≠ [] ∨ forbidden ≠ []) then Ok (inl (marker_errors "M5" boot missing forbidden log))
  else
    match evaluate log with
    | Err e =>
        if caught [ValueError] e then Ok (inl ["M5 boot " +:+ pretty boot +:+ ": " +:+ exn_msg e]) else Err e
    | Ok ((kernel_hash, dtb_hash), (memory_before, memory_after, elapsed_ms)) =>
        match compare_pair (expected_hashes so_far) kernel_hash dtb_hash
                (λ _ _, ["M5 payload changed across reset boot " +:+ pretty boot]) with
        | inl errors => Ok (inl errors)
        | inr expected =>
            let memory_loss := memory_before - memory_after in
            if decide (memory_loss > max_memory_loss_kib) then
              Ok (inl ["M5 boot " +:+ pretty boot +:+ ": memory loss " +:+ pretty memory_loss +:+ " KiB exceeds " +:+
                       pretty max_memory_loss_kib +:+ " KiB"])
            else
              Ok (inr {| expected_hashes := expected;
                         elapsed_times := elapsed_times so_far ++ [elapsed_ms];
                         baseline_memory := baseline_memory so_far ++ [memory_before];
                         final_memory := final_memory so_far ++ [memory_after] |})
        end
    end.

Definition pass_lines (boots : Z) (artifacts : string) (so_far : seen) : list string :=
  ["M5 artifacts: " +:+ artifacts;
   "M5 hardware gate passed: boots=" +:+ pretty boots +:+ " " +:+
   "exec_per_boot=" +:+ pretty EXEC_ITERATIONS +:+ " " +:+
   "elapsed_ms=" +:+ commas (map pretty (elapsed_times so_far)) +:+ " " +:+
   "mem_before_kib=" +:+ commas (map pretty (baseline_memory so_far)) +:+ " " +:+
   "mem_after_kib=" +:+ commas (map pretty (final_memory so_far)) +:+ " " +:+
   "kernel_sha256=" +:+ show_option (fst <$> expected_hashes so_far) +:+
   " dtb_sha256=" +:+ show_option (snd <$> expected_hashes so_far)].

(** [main], with the parsed arguments. *)
Definition main {W} (H : host W) (env : environment) (fuel : nat) (port : string) (boots timeout : Z)
    (directory : artifact_dir) (max_memory_loss_kib : Z) : io W Z :=
  lift (raise_when (boots < 1) SystemExit "--boots must be at least 1") ;;
  lift (raise_when (max_memory_loss_kib < 0) SystemExit "--max-memory-loss-kib cannot be negative") ;;
  with_artifacts (artifact_record directory) (λ artifacts,
    seen ← boot_loop (Z.to_nat boots) 1 (reset_probe_and_capture H env fuel port timeout) (announce boots)
             (check_boot max_memory_loss_kib)
             {| expected_hashes := None; elapsed_times := []; baseline_memory := []; final_memory := [] |};
    conclude_assert (λ so_far, found (expected_hashes so_far)) (pass_lines boots artifacts) seen).

(** ** The console checksums are exact *)

(** The checksum of line [i]. *)
Definition checksum_at (i : nat) : Z := Nat.iter (S i) next_checksum SEED.

(** All lines, numbered from 0, each with its own checksum. *)
Record console_ok (log : string) : Prop := {
  console_count : Z.of_nat (length (findall CONSOLE_RE log)) = CONSOLE_LINES;
  console_line : ∀ i m, findall CONSOLE_RE log !! i = Some m →
    int_of 10 (nth 0 m "") = Z.of_nat i ∧ int_of 16 (nth 1 m "") = checksum_at i;
}.

Lemma verify_lines_ok i matches u :
  verify_lines (Z.of_nat i) (Nat.iter i next_checksum SEED) matches = Ok u ↔
  ∀ j m, matches !! j = Some m →
    int_of 10 (nth 0 m "") = Z.of_nat (i + j) ∧ int_of 16 (nth 1 m "") = checksum_at (i + j).
Proof.
  destruct u. revert i. induction matches as [|m matches IH]; intros i; cbn [verify_lines]; [done|].
  rewrite raise_when_ok.
  replace (Z.of_nat i + 1) with (Z.of_nat (S i)) by lia.
  change (next_checksum (Nat.iter i next_checksum SEED)) with (Nat.iter (S i) next_checksum SEED).
  rewrite IH. split.
  - intros [Hm Hr] [|j] x Hx; cbn in Hx.
    + injection Hx as <-. rewrite Nat.add_0_r. split; apply dec_stable; tauto.
    + replace (i + S j)%nat with (S i + j)%nat by lia. by apply Hr.
  - intros Hall. split.
    + destruct (Hall 0%nat m eq_refl) as [H1 H2]. rewrite Nat.add_0_r in H1, H2. intros [Hn|Hn]; by apply Hn.
    + intros j x Hx. replace (S i + j)%nat with (i + S j)%nat by lia. by apply Hall.
Qed.

Lemma verify_console_ok log u : verify_console log = Ok u ↔ console_ok log.
Proof.
  unfold verify_console. rewrite raise_when_ok. pose proof (verify_lines_ok 0 (findall CONSOLE_RE log) u) as Hv.
  change (verify_lines 0 SEED) with (verify_lines (Z.of_nat 0) (Nat.iter 0 next_checksum SEED)). rewrite Hv. split.
  - intros [Hc Hl]. constructor; [by apply dec_stable in Hc|exact Hl].
  - intros [Hc Hl]. split; [by intros ?|exact Hl].
Qed.

(** Shifting and masking stay within the word. *)
Lemma next_checksum_range c : 0 ≤ next_checksum c < 2 ^ 32.
Proof. unfold next_checksum. change MASK32 with (Z.ones 32). rewrite Z.land_ones by lia. apply Z.mod_pos_bound. lia. Qed.

(** Bit [i] of [x ^ (x << k)] in a 32-bit word. *)
Lemma shl_bit x k i : 0 < k → 0 ≤ i < 32 →
  Z.testbit (Z.lxor x (Z.land (Z.shiftl x k) MASK32)) i = xorb (Z.testbit x i) (Z.testbit x (i - k)).
Proof.
  intros Hk Hi. rewrite Z.lxor_spec, Z.land_spec, Z.shiftl_spec by lia.
  change MASK32 with (Z.ones 32). rewrite Z.ones_spec_low by lia. by rewrite andb_true_r.
Qed.

Lemma word_bit_high x i : 0 ≤ x < 2 ^ 32 → 32 ≤ i → Z.testbit x i = false.
Proof.
  intros Hx Hi. destruct (decide (x = 0)) as [->|]; [apply Z.bits_0|].
  apply Z.bits_above_log2; [lia|]. apply (Z.lt_le_trans _ 32); [|done]. apply Z.log2_lt_pow2; lia.
Qed.

Lemma word_eq x y : 0 ≤ x < 2 ^ 32 → 0 ≤ y < 2 ^ 32 →
  (∀ i, 0 ≤ i < 32 → Z.testbit x i = Z.testbit y i) → x = y.
Proof.
  intros Hx Hy Hb. apply Z.bits_inj'. intros i Hi. destruct (decide (i < 32)); [by apply Hb|].
  by rewrite !word_bit_high by lia.
Qed.

Lemma shl_range x k : 0 ≤ x < 2 ^ 32 → 0 < k → 0 ≤ Z.lxor x (Z.land (Z.shiftl x k) MASK32) < 2 ^ 32.
Proof.
  intros Hx Hk. change MASK32 with (Z.ones 32). rewrite Z.land_ones by lia.
  assert (0 ≤ Z.shiftl x k mod 2 ^ 32 < 2 ^ 32) by (apply Z.mod_pos_bound; lia).
  apply lxor_bound; lia.
Qed.

Lemma shl_inj x y k : 0 ≤ x < 2 ^ 32 → 0 ≤ y < 2 ^ 32 → 0 < k →
  Z.lxor x (Z.land (Z.shiftl x k) MASK32) = Z.lxor y (Z.land (Z.shiftl y k) MASK32) → x = y.
Proof.
  intros Hx Hy Hk E. apply word_eq; [done..|]. intros i [Hi0 Hi].
  revert Hi. pattern i. apply Zlt_0_ind; [|done]. clear i Hi0. intros i IH Hi0 Hi.
  assert (xorb (Z.testbit x i) (Z.testbit x (i - k)) = xorb (Z.testbit y i) (Z.testbit y (i - k))) as Eb
    by (by rewrite <- !shl_bit, E by lia).
  assert (Z.testbit x (i - k) = Z.testbit y (i - k)) as Ek.
  { destruct (decide (i < k)); [by rewrite !Z.testbit_neg_r by lia|]. apply IH; lia. }
  rewrite Ek in Eb. by destruct (Z.testbit x i), (Z.testbit y i), (Z.testbit y (i - k)).
Qed.

Lemma shr_inj x y k : 0 ≤ x < 2 ^ 32 → 0 ≤ y < 2 ^ 32 → 0 < k →
  Z.lxor x (Z.shiftr x k) = Z.lxor y (Z.shiftr y k) → x = y.
Proof.
  intros Hx Hy Hk E. apply word_eq; [done..|].
  assert (∀ j, 0 ≤ j → ∀ i, i = 31 - j → 0 ≤ i → Z.testbit x i = Z.testbit y i) as Hj.
  2: { intros i Hi. apply (Hj (31 - i)); lia. }
  intros j Hj0. pattern j. apply Zlt_0_ind; [|done]. clear j Hj0. intros j IH Hj0 i -> Hi0.
  apply (f_equal (λ z, Z.testbit z (31 - j))) in E. rewrite !Z.lxor_spec, !Z.shiftr_spec in E by lia.
  assert (Z.testbit x (31 - j + k) = Z.testbit y (31 - j + k)) as Ek.
  { destruct (decide (j < k)); [by rewrite !word_bit_high by lia|]. apply (IH (j - k)); lia. }
  rewrite Ek in E. by destruct (Z.testbit x (31 - j)), (Z.testbit y (31 - j)), (Z.testbit y (31 - j + k)).
Qed.

Lemma shr_range x k : 0 ≤ x < 2 ^ 32 → 0 ≤ k → 0 ≤ Z.lxor x (Z.shiftr x k) < 2 ^ 32.
Proof.
  intros Hx Hk. apply lxor_bound; [lia|done|]. rewrite Z.shiftr_div_pow2 by lia.
  split; [apply Z.div_pos; lia|]. apply Z.div_lt_upper_bound; nia.
Qed.

(** The checksum of a line determines the one before it. *)
Lemma next_checksum_inj x y : 0 ≤ x < 2 ^ 32 → 0 ≤ y < 2 ^ 32 → next_checksum x = next_checksum y → x = y.
Proof.
  intros Hx Hy. unfold next_checksum. cbv zeta.
  set (x1 := Z.lxor x _). set (y1 := Z.lxor y _).
  assert (0 ≤ x1 < 2 ^ 32 ∧ 0 ≤ y1 < 2 ^ 32) as [Hx1 Hy1] by (split; by apply shl_range).
  set (x2 := Z.lxor x1 (Z.shiftr x1 17)). set (y2 := Z.lxor y1 (Z.shiftr y1 17)).
  assert (0 ≤ x2 < 2 ^ 32 ∧ 0 ≤ y2 < 2 ^ 32) as [Hx2 Hy2] by (split; by apply shr_range).
  assert (∀ z, 0 ≤ z < 2 ^ 32 → Z.land (Z.lxor z (Z.land (Z.shiftl z 5) MASK32)) MASK32
                               = Z.lxor z (Z.land (Z.shiftl z 5) MASK32)) as Hmask.
  { intros z Hz. change MASK32 with (Z.ones 32) at 2. rewrite Z.land_ones by lia. apply Z.mod_small. by apply shl_range. }
  rewrite !Hmask by done. intros E%shl_inj; [|done..|lia]. apply shr_inj in E; [|done..|lia]. by apply shl_inj in E.
Qed.

Lemma checksum_at_range i : 0 < checksum_at i < 2 ^ 32.
Proof.
  assert (∀ n, 0 < Nat.iter n next_checksum SEED < 2 ^ 32) as Hn; [|apply Hn].
  intros n. induction n as [|n IH]; [by vm_compute|]. cbn [Nat.iter nat_rect].
  pose proof (next_checksum_range (Nat.iter n next_checksum SEED)) as Hr.
  destruct (decide (next_checksum (Nat.iter n next_checksum SEED) = 0)) as [E|]; [|unfold Nat.iter in *; lia].
  change 0 with (next_checksum 0) in E. apply next_checksum_inj in E; lia.
Qed.

Lemma checksums_distinct i j : (i < 64)%nat → (j < 64)%nat → checksum_at i = checksum_at j → i = j.
Proof.
  intros Hi Hj E. assert (NoDup (map checksum_at (seq 0 64))) as Hn by (apply (bool_decide_unpack _); vm_compute; exact I).
  apply (proj1 (NoDup_alt _) Hn i j (checksum_at i)); rewrite list_lookup_fmap.
  - by rewrite lookup_seq_lt.
  - by rewrite E, lookup_seq_lt.
Qed.

(** C27: The console check is exact.  It accepts a log exactly when the complete
    console lines in it are the 64 numbered lines in order, each with the checksum
    of its number; the checksums are non-zero 32-bit words and all different, so a
    line that is lost, repeated or out of place shows in its checksum alone. *)
Theorem console_verified_iff log :
  (verify_console log = Ok tt ↔ console_ok log)
  ∧ (∀ i, 0 < checksum_at i < 2 ^ 32)
  ∧ (∀ i j, (i < 64)%nat ∧ (j < 64)%nat ∧ checksum_at i = checksum_at j ↔ i = j ∧ (i < 64)%nat).
Proof.
  split_and!; [apply verify_console_ok|apply checksum_at_range|]. intros i j. split.
  - intros (Hi & Hj & E). split; [by apply checksums_distinct|done].
  - intros [-> Hi]. auto.
Qed.

(** ** What a pass means *)

(** A boot whose self-test passed with this payload and these measurements, the
    memory before and after and the duration. *)
Record boot_ok (limit : Z) (log : string) (key : string * string) (m : Z * Z * Z) : Prop := {
  ok_markers : ∀ marker, marker ∈ REQUIRED_MARKERS → contains marker log = true;
  ok_no_failure : ∀ marker, marker ∈ FORBIDDEN_MARKERS → contains marker log = false;
  ok_hashes : payload_hashes log = Ok key;
  ok_measured : measurements log = Ok m;
  ok_console : console_ok log;
  ok_memory : m.1.1 - m.1.2 ≤ limit;
}.

Definition seen_of (e : option (string * string)) (l : list (Z * Z * Z)) : seen := {|
  expected_hashes := e;
  elapsed_times := map snd l;
  baseline_memory := map (λ m, m.1.1) l;
  final_memory := map (λ m, m.1.2) l;
|}.

Lemma evaluate_ok log hashes m :
  evaluate log = Ok (hashes, m) ↔ payload_hashes log = Ok hashes ∧ measurements log = Ok m ∧ console_ok log.
Proof.
  unfold evaluate. rewrite bind_ok_inv. setoid_rewrite bind_ok_inv. setoid_rewrite bind_ok_inv. split.
  - intros (h & Hh & x & Hx & u & Hu & [= -> ->]). by apply verify_console_ok in Hu.
  - intros (Hh & Hm & Hc). exists hashes. split; [done|]. exists m. split; [done|]. exists tt.
    split; [by apply verify_console_ok|done].
Qed.

Lemma m5_check_boot_spec limit boot e l log seen' :
  check_boot limit boot (seen_of e l) log = Ok (inr seen') ↔
  ∃ k m, boot_ok limit log k m ∧ (e = None ∨ e = Some k) ∧ seen' = seen_of (Some k) (l ++ [m]).
Proof.
  unfold check_boot, seen_of. cbn [expected_hashes elapsed_times baseline_memory final_memory]. split.
  - case_decide as Hd; [done|]. rewrite not_failed, absent_nil, present_nil in Hd. destruct Hd as [Ha Hp].
    destruct (evaluate log) as [[[kc kt] [[b a] t]]|] eqn:Ee; [|by destruct (caught _ _)].
    apply evaluate_ok in Ee as (Hh & Hm & Hc).
    destruct (compare_pair _ _ _ _) as [|e'] eqn:Ek; [done|]. apply compare_pair_spec in Ek as [He ->].
    case_decide; [done|]. intros [= <-]. exists (kc, kt), (b, a, t). rewrite !map_app.
    split; [constructor; cbn; auto; lia|done].
  - intros ([kc kt] & [[b a] t] & [Hm Hf Hh Hx Hc Hl] & He & ->).
    rewrite decide_False by (by rewrite not_failed, absent_nil, present_nil).
    rewrite (proj2 (evaluate_ok log _ _) (conj Hh (conj Hx Hc))).
    rewrite (proj2 (compare_pair_spec e _ _ _ _) (conj He eq_refl)). cbn in Hl.
    rewrite decide_False by lia. by rewrite !map_app.
Qed.

Section Gate.
Context {W : Type} (H : host W) (env : environment) (fuel : nat) (port : string) (boots timeout : Z)
  (directory : artifact_dir) (limit : Z).

Definition passes (s s' : st W) : Prop :=
  ¬ boots < 1 ∧ ¬ limit < 0 ∧
  ∃ artifacts, artifact_record directory = Ok artifacts ∧
  ∃ logs key measured s1,
    length logs = Z.to_nat boots
    ∧ booted (reset_probe_and_capture H env fuel port timeout) (announce boots) 1 s logs s1
    ∧ Forall2 (λ log m, boot_ok limit log key m) logs measured
    ∧ s' = printed (pass_lines boots artifacts (seen_of (Some key) measured)) s1.

Lemma m5_exits s : wlp (main H env fuel port boots timeout directory limit) (exits (passes s)) s.
Proof.
  apply wlp_guard. intros Hb. apply wlp_guard. intros _. apply wlp_artifacts. intros artifacts _.
  apply (series_exit (check_boot limit) seen_of (boot_ok limit)); [|done|lia]. intros. apply m5_check_boot_spec.
Qed.

Lemma m5_capture_steady `{!TimedHost H} : lasts H fuel timeout →
  steady H (reset_probe_and_capture H env fuel port timeout).
Proof.
  intros Hf. apply steady_bind; [apply steady_check_run|]. intros _.
  apply steady_bind; [steady_step|]. intros d.
  apply steady_finally; [|apply steady_release]. apply steady_bind; [steady_step|intros _].
  apply steady_capture; [done..|apply read_waiting_takes_time| |intros; steady_step].
  intros p chunk captured. apply steady_bind.
  - destruct (negb (started p) && _); [|steady_step]. apply steady_bind; [steady_step|intros _].
    apply steady_bind; [apply steady_send_lines|intros _; steady_step].
  - intros start. apply steady_bind; [|intros finish; cbv zeta; repeat steady_step].
    destruct (start && negb (finished p) && _); [|steady_step].
    apply steady_bind; [apply steady_send_lines|intros _; steady_step].
Qed.

End Gate.

(** The M5 gate ends, and exits with 0 exactly when all artifacts exist and as
    many boots as asked for each passed the self-test with every stress count, no
    fatal message, the exact console, a loss of free memory within the limit and
    the same payload hashes throughout; it then prints the measurements boot by
    boot.  Otherwise it exits with 1 or passes on an exception. *)
Theorem m5_gate {W} (H : host W) `{!TimedHost H} env fuel port boots timeout directory limit s :
  lasts H fuel timeout →
  wp (main H env fuel port boots timeout directory limit)
    (exits (passes H env fuel port boots timeout directory limit s)) s.
Proof.
  intros Hf. eapply wp_mono; [apply wp_and; [|apply m5_exits]|by intros r s' [_ ?]].
  assert (steady H (main H env fuel port boots timeout directory limit)) as Hm; [|apply Hm].
  do 2 (apply steady_bind; [steady_step|intros _]). apply steady_artifacts. intros artifacts.
  apply steady_bind; [by apply steady_boot_loop, m5_capture_steady|]. intros seen. apply steady_conclude.
Qed.

(** Passing and failing runs. *)
Definition console_lines (lines : list nat) : list string :=
  map (λ i, "MICRONUX:M5:CONSOLE seq=" +:+ pretty i +:+ " checksum=" +:+ fmt_08x (checksum_at i)) lines.

Definition sample_log (lines : list nat) (after : string) : list string :=
  ["MICRONUX:M3:BOOT"] ++ payload_lines "a" "b" ++
  ["I (1234) micronux_m3: MICRONUX:M3:JUMP"; "MICRONUX:M4:IRQ source=22 matrix=500d6058 clic=16 handoff=armed";
   "Linux version 6.12.27 (gcc)"; "console [ttyGS0] enabled"; "USB Serial/JTAG ttyGS0";
   "MICRONUX:M4:SHELL ready console=ttyGS0"; "MICRONUX:M5:BASELINE"; "MemFree:        20000 kB"; "MICRONUX:M5:RUN";
   "MICRONUX:M5:SIGNALS pass count=64"; "MICRONUX:M5:TIMERS pass count=32"; "MICRONUX:M5:EXEC pass count=64";
   "MICRONUX:M5:MEMORY pass kib=4096"; "MICRONUX:M5:STACK pass depth=8"] ++ console_lines lines ++
  ["MICRONUX:M5:PASS exec=64 signals=64 timers=32 memory_kib=4096 stack_depth=8 console=64 elapsed_ms=1500";
   "MICRONUX:M5:AFTER"; "MemFree:        " +:+ after +:+ " kB"; "MICRONUX:M5:PROBE:DONE"].

Definition sample_dir : artifact_dir := {| path_of := λ name, "out/" +:+ name; file_of := λ _, Some [] |}.

Definition sample_run (log : list string) : option (result Z * string) :=
  (λ o, (o.1, stderr o.2)) <$>
    main replay_host bench_environment 100 "COM1" 1 (seconds 3) sample_dir 512 (replaying [console log]).

Example m5_examples :
  (sample_run (sample_log (seq 0 64) "19600"),
   sample_run (sample_log (seq 0 64) "19000"),
   sample_run (sample_log (seq 0 63) "19600"),
   sample_run (sample_log (seq 0 10 ++ [11; 10]%nat ++ seq 12 52) "19600"))
  = (Some (Ok 0, ""),
     Some (Ok 1, "M5 boot 1: memory loss 1000 KiB exceeds 512 KiB" +:+ nl),
     Some (Ok 1, "--- complete serial log ---" +:+ nl +:+ chars (console (sample_log (seq 0 63) "19600")) +:+ nl +:+
                 "M5 boot 1 missing: MICRONUX:M5:CONSOLE seq=63" +:+ nl),
     Some (Ok 1, "M5 boot 1: console sequence/checksum mismatch at line 10: seq=11 checksum=" +:+
                 fmt_08x (checksum_at 11) +:+ nl)).
Proof. by_compute. Qed.

Lemma m5_gate_witness :
  let s := replaying [console (sample_log (seq 0 64) "19600")] in
  wp (main replay_host bench_environment (Z.to_nat 20001) "COM1" 1 (seconds 3) sample_dir 512)
    (exits (passes replay_host bench_environment (Z.to_nat 20001) "COM1" 1 (seconds 3) sample_dir 512 s)) s.
Proof.
  apply (m5_gate replay_host bench_environment (Z.to_nat 20001) "COM1" 1 (seconds 3) sample_dir 512); apply replay_lasts.
  vm_compute. discriminate.
Defined.
