(* ===== verification/GateM6.v ===== *)
(** * The M6 storage gate

    scripts/m6-test.py: the storage test and then the M5 self-test on every boot,
    with an optional empty slot, in which case the markers of a medium may be
    missing. *)

From S2P Require Import Prelude PyBytes PyStr Utf8 Regex Io Session Boots.
From S2P Require GateM5.

Definition EXEC_ITERATIONS : Z := 64.
Definition SIGNAL_ITERATIONS : Z := 64.
Definition TIMER_ITERATIONS : Z := 32.
Definition MEMORY_KIB : Z := 4096.
Definition STACK_DEPTH : Z := 8.
Definition CONSOLE_LINES : Z := 64.
Definition DEFAULT_MAX_MEMORY_LOSS_KIB : Z := 512.

Definition COMMON_REQUIRED_MARKERS : list string := [
  "MICRONUX:M3:BOOT";
  "MICRONUX:M3:JUMP";
  "MICRONUX:M6:DSI state=disabled reason=profile-off";
  "MICRONUX:M4:IRQ source=22 matrix=500d6058 clic=16 handoff=armed";
  "MICRONUX:M6:SDMMC power=ldo4 voltage_mv=3300 slot=0 width=4";
  "MICRONUX:M6:DMA reserved=[4ff80000,4ff82000) desc=4ff80000 data=4ff81000 uncached=8ff80000";
  "MICRONUX:M6:IRQ source=23 matrix=500d605c route=parked:31 irq=17:placeholder-polled dma=idmac-sram-bounce handoff=armed";
  "Linux version 6.12.27";
  "Using internal DMA controller.";
  "ESP32-P4 synchronous-polled I/O enabled";
  "ESP32-P4 IDMAC internal-SRAM bounce: 4 KiB requests";
  "DW MMC controller at irq";
  "mmcblk0:";
  "console [ttyGS0] enabled";
  "USB Serial/JTAG ttyGS0";
  "MICRONUX:M6:SHELL ready console=ttyGS0 storage=microsd-idmac-sram-poll";
  "MICRONUX:M6:STORAGE raw-pass";
  "MICRONUX:M5:BASELINE";
  "MICRONUX:M5:RUN";
  "MICRONUX:M5:SIGNALS pass count=" +:+ pretty SIGNAL_ITERATIONS;
  "MICRONUX:M5:TIMERS pass count=" +:+ pretty TIMER_ITERATIONS;
  "MICRONUX:M5:EXEC pass count=" +:+ pretty EXEC_ITERATIONS;
  "MICRONUX:M5:MEMORY pass kib=" +:+ pretty MEMORY_KIB;
  "MICRONUX:M5:STACK pass depth=" +:+ pretty STACK_DEPTH;
  "MICRONUX:M5:CONSOLE seq=" +:+ pretty (CONSOLE_LINES - 1);
  "MICRONUX:M5:PASS";
  "MICRONUX:M5:AFTER";
  "MICRONUX:M6:PROBE:DONE"
].

Definition READ_REQUIRED_MARKERS : list string := [
  "MICRONUX:M6:STORAGE begin mode=idmac-sram-poll access=read-only";
  "MICRONUX:M6:STORAGE:PASS mode=idmac-sram-poll access=read-only"
].

Definition WRITE_REQUIRED_MARKERS : list string := [
  "MICRONUX:M6:STORAGE begin mode=idmac-sram-poll access=write-test";
  "MICRONUX:M6:STORAGE write-pass bytes=41 " +:+
  "sha256=af8bdcde36e9c208ab7d846d87bfe9dadb51fccdf240f1214af2f4db232e2a36 " +:+
  "cleanup=pass";
  "MICRONUX:M6:STORAGE:PASS mode=idmac-sram-poll " +:+
  "access=write-tested cleanup=pass"
].

Definition STORAGE_FAIL : string := "MICRONUX:M6:STORAGE:FAIL".

Definition FORBIDDEN_MARKERS : list string := [
  "MICRONUX:M3:FAIL";
  "MICRONUX:M4:FAIL";
  "MICRONUX:M5:FAIL";
  "MICRONUX:M6:FAIL";
  STORAGE_FAIL;
  "Kernel panic";
  "Oops:";
  "BUG:";
  "Unhandled";
  "unhandled signal";
  "timer stall";
  "stack smashing detected";
  "can't open /dev/ttyGS0"
].

Definition COMMON_MEDIA_REQUIRED_MARKERS : list string := ["mmcblk0:"; "MICRONUX:M6:STORAGE raw-pass"].

Definition M5_LINES : list string := map (λ l, l +:+ nl) [
  "TAG=BASELINE; echo MICRONUX:M5:$TAG";
  "cat /proc/meminfo";
  "TAG=RUN; echo MICRONUX:M5:$TAG";
  "/usr/bin/micronux-selftest"
].

Definition FINISH_LINES : list string := map (λ l, l +:+ nl) [
  "TAG=AFTER; echo MICRONUX:M5:$TAG";
  "cat /proc/meminfo";
  "TAG=DONE; echo MICRONUX:M6:PROBE:$TAG"
].

Definition ARTIFACTS : list string :=
  ["Image"; "rootfs.cpio"; "esp32p4-micronux.dtb"; "metadata.bin"; "micronux-selftest"; "micronux-exec-child";
   "micronux-storage-test"].

Definition PASSED_RE : re := Eval vm_compute in
  compile false "MICRONUX:M5:PASS .* elapsed_ms=[0-9]+\r?\n".
Definition STORAGE_RE : re := Eval vm_compute in compile false (
  "MICRONUX:M6:STORAGE raw-pass sectors=([0-9]+) " +:+
  "bytes=1048576 sha256=([0-9a-f]{64})").
Definition MEM_RE : re := Eval vm_compute in
  compile false "(?m)^MemFree:\s+([0-9]+) kB\r?$".
Definition SUMMARY_RE : re := Eval vm_compute in compile false (
  "MICRONUX:M5:PASS exec=" +:+ pretty EXEC_ITERATIONS +:+ " " +:+
  "signals=" +:+ pretty SIGNAL_ITERATIONS +:+ " timers=" +:+ pretty TIMER_ITERATIONS +:+ " " +:+
  "memory_kib=" +:+ pretty MEMORY_KIB +:+ " stack_depth=" +:+ pretty STACK_DEPTH +:+ " " +:+
  "console=" +:+ pretty CONSOLE_LINES +:+ " elapsed_ms=([0-9]+)").

(** ** Capturing a boot *)

Definition no_card_reported (text : string) : bool := contains "MICRONUX:M6:STORAGE:FAIL stage=no-card" text.

Section Capture.
Context {W : Type} (H : host W) (env : environment) (fuel : nat) (allow_no_card write_test : bool).

Definition rom_reset (port : string) : io W unit := check_run H env (chip_id_command env port).

Definition write_lines (d : device) (lines : list string) : io W unit := send_lines H d lines.

Definition storage_command : string :=
  "/usr/bin/micronux-storage-test" +:+ (if write_test then " --write-test" else "") +:+ nl.

Record progress := { storage_started : bool; m5_started : bool; finished : bool; done_seen_at : option Z }.

(** The body of the loop: the storage test, the self-test, the second look at the
    memory, the end of the probe, and the failures that end the capture early. *)
Definition on_text (d : device) (p : progress) (_ captured : bytes) : io W (progress + bytes) :=
  let text := decode captured in
  let storage_ready := contains "MICRONUX:M6:SHELL ready" text && (allow_no_card || contains "mmcblk0:" text) in
  storage_started ←
    (if negb (storage_started p) && storage_ready
     then sleep H (ms 200) ;; write_lines d [storage_command] ;; mret true
     else mret (storage_started p));
  let storage_passed := contains "MICRONUX:M6:STORAGE:PASS" text in
  let no_card := no_card_reported text in
  m5_started ←
    (if storage_started && negb (m5_started p) && (storage_passed || (allow_no_card && no_card))
     then write_lines d M5_LINES ;; mret true
     else mret (m5_started p));
  finished ←
    (if m5_started && negb (finished p) && found (search PASSED_RE text)
     then write_lines d FINISH_LINES ;; mret true
     else mret (finished p));
  seen ←
    (if finished && contains "MICRONUX:M6:PROBE:DONE" text then
       now ← monotonic H;
       mret (match done_seen_at p with
             | None => Some (Some now)
             | Some seen => if decide (ms 400 ≤ now - seen) then None else Some (Some seen)
             end)
     else mret (Some (done_seen_at p)));
  match seen with
  | None => mret (inr captured)
  | Some seen =>
      let rejected_storage_failure := contains STORAGE_FAIL text && negb (allow_no_card && no_card) in
      if rejected_storage_failure || contains "Kernel panic" text
      then sleep H (ms 200) ;; mret (inr captured)
      else mret (inl {| storage_started := storage_started; m5_started := m5_started; finished := finished;
                        done_seen_at := seen |})
  end.

Definition reset_probe_and_capture (port : string) (timeout : Z) : io W string :=
  rom_reset port ;;
  d ← serial_open H (probe_settings port);
  finally (
    reset_input_buffer H d ;;
    now ← monotonic H;
    captured ← capture_loop H fuel (read H d 4096) (now + timeout) (on_text d)
                 {| storage_started := false; m5_started := false; finished := false; done_seen_at := None |} [];
    mret (decode captured))
  (cancel_and_release H d).

End Capture.

(** ** Reading a log *)

Definition artifact_record (directory : artifact_dir) : result string :=
  entries ← artifact_entries "M6" directory ARTIFACTS;
  Ok (str_join " " entries).

Definition USEFUL : list string :=
  ["MICRONUX:M3:KERNEL"; "MICRONUX:M3:DTB"; "MICRONUX:M6:"; "MICRONUX:M5:"; "Linux version";
   "Using internal DMA controller"; "synchronous-polled I/O"; "IDMAC internal-SRAM bounce"; "DW MMC controller";
   "mmc0:"; "mmcblk0:"; "console [ttyGS0]"; "USB Serial/JTAG ttyGS0"; "MemFree:"].

Definition is_milestone (line : string) : bool :=
  if contains "MICRONUX:M5:CONSOLE" line
     && negb (contains "seq=0 " line || contains ("seq=" +:+ pretty (CONSOLE_LINES - 1) +:+ " ") line)
  then false
  else mentions USEFUL line.

Definition milestone_lines (log : string) : list string :=
  map strip (filter (λ line, is_milestone line = true) (splitlines log)).

Definition announce (boots boot : Z) (log : string) : list string :=
  ["--- M6 boot " +:+ pretty boot +:+ "/" +:+ pretty boots +:+ " ---";
   lines_or (milestone_lines log) "(no M6/Linux milestones captured)"].

(** The same texts as in the M5 gate. *)
Definition payload_hashes : string → result (string * string) := GateM5.payload_hashes.
Definition verify_console : string → result unit := GateM5.verify_console.

Definition storage_measurements (log : string) : result (Z * string) :=
  match search STORAGE_RE log with
  | None => Err (Exn ValueError "storage test did not report raw-read metrics")
  | Some m => Ok (int_of 10 (group m "1"), group m "2")
  end.

Definition m5_measurements (log : string) : result (Z * Z * Z) :=
  let memory_matches := findall1 MEM_RE log in
  match search SUMMARY_RE log with
  | Some pass_match =>
      if decide (length memory_matches < 2)%nat
      then Err (Exn ValueError "M5 regression did not report memory and elapsed metrics")
      else Ok (int_of 10 (hd "" memory_matches), int_of 10 (List.last memory_matches ""),
               int_of 10 (group pass_match "1"))
  | None => Err (Exn ValueError "M5 regression did not report memory and elapsed metrics")
  end.

(** ** Judging a boot *)

(** The options of the gate. *)
Record options := {
  max_memory_loss_kib : Z;
  allow_no_card : bool;
  write_test : bool;
}.

Definition storage_required (a : options) : list string :=
  if write_test a then WRITE_REQUIRED_MARKERS else READ_REQUIRED_MARKERS.
Definition required_markers (a : options) : list string := COMMON_REQUIRED_MARKERS ++ storage_required a.

(** [COMMON_MEDIA_REQUIRED_MARKERS + storage_required[-1:]] *)
Definition media_required_markers (a : options) : list string :=
  COMMON_MEDIA_REQUIRED_MARKERS ++ drop (length (storage_required a) - 1) (storage_required a).

(** [args.allow_no_card and no_card] *)
Definition empty_slot (a : options) (log : string) : bool := allow_no_card a && no_card_reported log.

Definition missing_markers (a : options) (log : string) : list string :=
  let allowed_missing := if empty_slot a log then media_required_markers a else [] in
  filter (λ marker, contains marker log = false ∧ marker ∉ allowed_missing) (required_markers a).

Definition forbidden_markers (a : options) (log : string) : list string :=
  filter (λ marker, contains marker log = true ∧ ¬ (empty_slot a log = true ∧ marker = STORAGE_FAIL))
    FORBIDDEN_MARKERS.

Record seen := {
  expected_payload : option (string * string);
  expected_card : option (Z * string);
  media_state : option string;
  elapsed_times : list Z;
  baseline_memory : list Z;
  final_memory : list Z;
}.

(** The [try] of the loop. *)
Definition evaluate (log : string) : result ((string * string) * option (Z * string) * (Z * Z * Z)) :=
  payload ← payload_hashes log;
  card ← (if no_card_reported log then Ok None else c ← storage_measurements log; Ok (Some c));
  metrics ← m5_measurements log;
  verify_console log ;;
  Ok (payload, card, metrics).

Definition check_boot (a : options) (boot : Z) (so_far : seen) (log : string) : result (list string + seen) :=
  let no_card := no_card_reported log in
  let missing := missing_markers a log in
  let forbidden := forbidden_markers a log in
  if decide (missing ≠ [] ∨ forbidden ≠ []) then Ok (inl (marker_errors "M6" boot missing forbidden log))
  else
    match evaluate log with
    | Err e =>
        if caught [ValueError] e then Ok (inl ["M6 boot " +:+ pretty boot +:+ ": " +:+ exn_msg e]) else Err e
    | Ok (payload, card, (memory_before, memory_after, elapsed_ms)) =>
        Ok (
          payload ←? compare_with (expected_payload so_far) payload
            ["M6 payload changed across reset boot " +:+ pretty boot];
          media ←? compare_with (media_state so_far) (if no_card then "no-card" else "card")
            ["M6 media state changed across reset boot " +:+ pretty boot];
          card ←? match card with
                  | None => inr (expected_card so_far)
                  | Some card => compare_with (expected_card so_far) card
                      ["M6 card read changed across reset boot " +:+ pretty boot]
                  end;
          let memory_loss := memory_before - memory_after in
          if decide (memory_loss > max_memory_loss_kib a) then
            inl ["M6 boot " +:+ pretty boot +:+ ": M5 memory loss " +:+ pretty memory_loss +:+ " KiB exceeds " +:+
                 pretty (max_memory_loss_kib a) +:+ " KiB"]
          else
            inr {| expected_payload := payload; expected_card := card; media_state := media;
                   elapsed_times := elapsed_times so_far ++ [elapsed_ms];
                   baseline_memory := baseline_memory so_far ++ [memory_before];
                   final_memory := final_memory so_far ++ [memory_after] |})
    end.

Definition measured_text (so_far : seen) : string :=
  "m5_exec_per_boot=" +:+ pretty EXEC_ITERATIONS +:+ " " +:+
  "m5_elapsed_ms=" +:+ commas (map pretty (elapsed_times so_far)) +:+ " " +:+
  "mem_before_kib=" +:+ commas (map pretty (baseline_memory so_far)) +:+ " " +:+
  "mem_after_kib=" +:+ commas (map pretty (final_memory so_far)) +:+ " " +:+
  "kernel_sha256=" +:+ show_option (fst <$> expected_payload so_far) +:+
  " dtb_sha256=" +:+ show_option (snd <$> expected_payload so_far).

Definition pass_lines (a : options) (boots : Z) (artifacts : string) (so_far : seen) : list string :=
  ["M6 artifacts: " +:+ artifacts;
   match expected_card so_far with
   | None =>
       "M6 controller-only gate passed: boots=" +:+ pretty boots +:+ " " +:+
       "mode=idmac-sram-poll media=not-tested reason=no-card " +:+ measured_text so_far
   | Some (sectors, sample) =>
       let access := if write_test a then "write-tested" else "read-only" in
       "M6 hardware gate passed: boots=" +:+ pretty boots +:+ " mode=idmac-sram-poll access=" +:+ access +:+ " " +:+
       "card_sectors=" +:+ pretty sectors +:+ " sample_sha256=" +:+ sample +:+ " " +:+ measured_text so_far
   end].

(** [main], with the parsed arguments. *)
Definition main {W} (H : host W) (env : environment) (fuel : nat) (port : string) (boots timeout : Z)
    (directory : artifact_dir) (a : options) : io W Z :=
  lift (raise_when (boots < 1) SystemExit "--boots must be at least 1") ;;
  lift (raise_when (max_memory_loss_kib a < 0) SystemExit "--max-memory-loss-kib cannot be negative") ;;
  lift (raise_when (write_test a = true ∧ boots ≠ 1) SystemExit "--write-test requires --boots 1") ;;
  lift (raise_when (write_test a = true ∧ allow_no_card a = true) SystemExit
          "--write-test cannot be combined with --allow-no-card") ;;
  with_artifacts (artifact_record directory) (λ artifacts,
    seen ← boot_loop (Z.to_nat boots) 1
             (reset_probe_and_capture H env fuel (allow_no_card a) (write_test a) port timeout) (announce boots)
             (check_boot a)
             {| expected_payload := None; expected_card := None; media_state := None;
                elapsed_times := []; baseline_memory := []; final_memory := [] |};
    conclude_assert (λ so_far, found (expected_payload so_far)) (pass_lines a boots artifacts) seen).

(** ** What a pass means *)

(** A boot with this payload and this card, if any, and these measurements. *)
Record boot_ok (a : options) (log : string) (key : (string * string) * option (Z * string)) (m : Z * Z * Z) : Prop := {
  ok_markers : ∀ marker, marker ∈ required_markers a →
    contains marker log = true ∨ (empty_slot a log = true ∧ marker ∈ media_required_markers a);
  ok_no_failure : ∀ marker, marker ∈ FORBIDDEN_MARKERS →
    contains marker log = false ∨ (empty_slot a log = true ∧ marker = STORAGE_FAIL);
  ok_payload : payload_hashes log = Ok key.1;
  ok_card : match key.2 with
            | None => no_card_reported log = true
            | Some card => no_card_reported log = false ∧ storage_measurements log = Ok card
            end;
  ok_measured : m5_measurements log = Ok m;
  ok_console : GateM5.console_ok log;
  ok_memory : m.1.1 - m.1.2 ≤ max_memory_loss_kib a;
}.

Definition media_of (card : option (Z * string)) : string := match card with None => "no-card" | Some _ => "card" end.

Definition seen_of (e : option ((string * string) * option (Z * string))) (l : list (Z * Z * Z)) : seen := {|
  expected_payload := fst <$> e;
  expected_card := e ≫= snd;
  media_state := (λ k, media_of k.2) <$> e;
  elapsed_times := map snd l;
  baseline_memory := map (λ m, m.1.1) l;
  final_memory := map (λ m, m.1.2) l;
|}.

Lemma missing_markers_nil a log : missing_markers a log = [] ↔ ∀ marker, marker ∈ required_markers a →
  contains marker log = true ∨ (empty_slot a log = true ∧ marker ∈ media_required_markers a).
Proof.
  unfold missing_markers. cbv zeta. rewrite filter_nil_iff.
  assert (∀ marker, ¬ (contains marker log = false ∧ marker ∉ (if empty_slot a log then media_required_markers a else []))
     ↔ contains marker log = true ∨ (empty_slot a log = true ∧ marker ∈ media_required_markers a)) as Hm; [|by setoid_rewrite Hm].
  intros marker. destruct (contains marker log); [split; [by left|by intros _ [? _]]|]. destruct (empty_slot a log); split.
  - intros Hn. right. split; [done|]. apply dec_stable. tauto.
  - intros [?|[_ ?]]; [done|tauto].
  - intros Hn. exfalso. apply Hn. split; [done|]. apply not_elem_of_nil.
  - by intros [?|[? _]].
Qed.

Lemma forbidden_markers_nil a log : forbidden_markers a log = [] ↔ ∀ marker, marker ∈ FORBIDDEN_MARKERS →
  contains marker log = false ∨ (empty_slot a log = true ∧ marker = STORAGE_FAIL).
Proof.
  unfold forbidden_markers. rewrite filter_nil_iff.
  assert (∀ marker, ¬ (contains marker log = true ∧ ¬ (empty_slot a log = true ∧ marker = STORAGE_FAIL))
     ↔ contains marker log = false ∨ (empty_slot a log = true ∧ marker = STORAGE_FAIL)) as Hm; [|by setoid_rewrite Hm].
  intros marker. destruct (contains marker log); [|split; [by left|by intros _ [? _]]]. split.
  - intros Hn. right. apply dec_stable. tauto.
  - intros [?|?]; [done|tauto].
Qed.

Lemma m6_evaluate_ok log payload card m :
  evaluate log = Ok (payload, card, m) ↔
  payload_hashes log = Ok payload
  ∧ match card with
    | None => no_card_reported log = true
    | Some card => no_card_reported log = false ∧ storage_measurements log = Ok card
    end
  ∧ m5_measurements log = Ok m ∧ GateM5.console_ok log.
Proof.
  unfold evaluate. rewrite bind_ok_inv. setoid_rewrite bind_ok_inv. setoid_rewrite bind_ok_inv.
  setoid_rewrite bind_ok_inv. split.
  - intros (h & Hh & c & Hc & x & Hx & u & Hu & [= -> -> ->]). split_and!; [done| |done|by apply GateM5.verify_console_ok in Hu].
    destruct (no_card_reported log); [by injection Hc as <-|].
    apply bind_ok_inv in Hc as (c & ? & [= <-]). auto.
  - intros (Hh & Hc & Hm & Hk). exists payload. split; [done|]. exists card. split.
    + destruct card as [c|]; [destruct Hc as [-> Hc]|by rewrite Hc]. by rewrite Hc.
    + exists m. split; [done|]. exists tt. split; [by apply GateM5.verify_console_ok|done].
Qed.

Lemma m6_check_boot_spec a boot e l log seen' :
  check_boot a boot (seen_of e l) log = Ok (inr seen') ↔
  ∃ k m, boot_ok a log k m ∧ (e = None ∨ e = Some k) ∧ seen' = seen_of (Some k) (l ++ [m]).
Proof.
  unfold check_boot, seen_of. cbv zeta.
  cbn [expected_payload expected_card media_state elapsed_times baseline_memory final_memory]. split.
  - case_decide as Hd; [done|]. rewrite not_failed, missing_markers_nil, forbidden_markers_nil in Hd.
    destruct Hd as [Ha Hp]. destruct (evaluate log) as [[[p c] [[b f] t]]|] eqn:Ee; [|by destruct (caught _ _)].
    apply m6_evaluate_ok in Ee as (Hh & Hc & Hm & Hk). intros [= E].
    apply unless_failed_ok in E as (? & [Ep ->]%compare_with_spec & E).
    apply unless_failed_ok in E as (? & [Em ->]%compare_with_spec & E).
    apply unless_failed_ok in E as (c' & Ec & E). case_decide; [done|]. injection E as <-.
    exists (p, c), (b, f, t). rewrite !map_app. split; [constructor; cbn; auto; lia|].
    destruct e as [[ep ec]|], c as [c|]; cbn in *.
    + destruct Hc as [Hn _]. rewrite Hn in Em. apply compare_with_spec in Ec as [Ec ->].
      destruct Ep as [?|[= ->]], Em as [?|[= Em]], Ec as [->|[= ->]]; try done. rewrite Hn. auto.
    + rewrite Hc in Em. destruct Ep as [?|[= ->]], Em as [?|[= Em]]; try done.
      destruct ec; [done|]. injection Ec as <-. rewrite Hc. auto.
    + destruct Hc as [Hn _]. injection Ec as <-. rewrite Hn. auto.
    + injection Ec as <-. rewrite Hc. auto.
  - intros ([p c] & [[b f] t] & [Hm Hf Hh Hc Hx Hk Hl] & He & ->).
    rewrite decide_False by (by rewrite not_failed, missing_markers_nil, forbidden_markers_nil).
    rewrite (proj2 (m6_evaluate_ok log p c (b, f, t)) (conj Hh (conj Hc (conj Hx Hk)))). f_equal. cbn in *.
    apply unless_failed_ok. exists (Some p). split; [apply compare_with_spec; destruct He as [->| ->]; auto|].
    apply unless_failed_ok. exists (Some (media_of c)). split.
    { apply compare_with_spec. assert ((if no_card_reported log then "no-card" else "card") = media_of c) as ->
        by (destruct c as [c|]; [destruct Hc as [-> _]|rewrite Hc]; done).
      destruct He as [->| ->]; auto. }
    apply unless_failed_ok. exists c. split.
    { destruct c as [c|]; [apply compare_with_spec|]; destruct He as [->| ->]; auto. }
    rewrite decide_False by lia. by rewrite !map_app.
Qed.

Section Gate.
Context {W : Type} (H : host W) (env : environment) (fuel : nat) (port : string) (boots timeout : Z)
  (directory : artifact_dir) (a : options).

Definition passes (s s' : st W) : Prop :=
  ¬ boots < 1 ∧ ¬ max_memory_loss_kib a < 0 ∧ ¬ (write_test a = true ∧ boots ≠ 1)
  ∧ ¬ (write_test a = true ∧ allow_no_card a = true) ∧
  ∃ artifacts, artifact_record directory = Ok artifacts ∧
  ∃ logs key measured s1,
    length logs = Z.to_nat boots
    ∧ booted (reset_probe_and_capture H env fuel (allow_no_card a) (write_test a) port timeout) (announce boots) 1 s logs s1
    ∧ Forall2 (λ log m, boot_ok a log key m) logs measured
    ∧ s' = printed (pass_lines a boots artifacts (seen_of (Some key) measured)) s1.

Lemma m6_exits s : wlp (main H env fuel port boots timeout directory a) (exits (passes s)) s.
Proof.
  do 4 (apply wlp_guard; intros ?). apply wlp_artifacts. intros artifacts _.
  apply (series_exit (check_boot a) seen_of (boot_ok a)); [|done|lia]. intros. apply m6_check_boot_spec.
Qed.

Lemma m6_capture_steady `{!TimedHost H} : lasts H fuel timeout →
  steady H (reset_probe_and_capture H env fuel (allow_no_card a) (write_test a) port timeout).
Proof.
  intros Hf. apply steady_bind; [apply steady_check_run|]. intros _.
  apply steady_bind; [steady_step|]. intros d.
  apply steady_finally; [|apply steady_cancel_and_release]. apply steady_bind; [steady_step|intros _].
  apply steady_capture; [done..|apply read_takes_time| |intros; steady_step].
  intros p chunk captured. unfold on_text, write_lines. cbv zeta.
  apply steady_bind; [destruct (_ && _); [|steady_step]|intros x1].
  { apply steady_bind; [steady_step|intros _]. apply steady_bind; [apply steady_send_lines|intros _; steady_step]. }
  do 2 (apply steady_bind;
    [destruct (_ && _); [apply steady_bind; [apply steady_send_lines|intros _; steady_step]|steady_step]|intros ?]).
  repeat steady_step.
Qed.

End Gate.

(** The M6 gate ends, and exits with 0 exactly when all artifacts exist and as
    many boots as asked for each passed the storage test and the self-test: every
    required marker is there and no forbidden one, except that with an empty slot
    allowed and reported the markers of a medium may be missing and the failure of
    the storage test is excused; the payload and the card read, or its absence,
    are the same on every boot; and the loss of memory is within the limit.
    Otherwise it exits with 1 or passes on an exception. *)
Theorem m6_gate {W} (H : host W) `{!TimedHost H} env fuel port boots timeout directory a s :
  lasts H fuel timeout →
  wp (main H env fuel port boots timeout directory a)
    (exits (passes H env fuel port boots timeout directory a s)) s.
Proof.
  intros Hf. eapply wp_mono; [apply wp_and; [|apply m6_exits]|by intros r s' [_ ?]].
  assert (steady H (main H env fuel port boots timeout directory a)) as Hm; [|apply Hm].
  do 4 (apply steady_bind; [steady_step|intros _]). apply steady_artifacts. intros artifacts.
  apply steady_bind; [by apply steady_boot_loop, m6_capture_steady|]. intros seen. apply steady_conclude.
Qed.

(** Passing and failing runs. *)
Definition sample_markers : list string :=
  filter (λ m, (m ∉ COMMON_MEDIA_REQUIRED_MARKERS) ∧ contains "M5:" m = false ∧ contains "PROBE" m = false)
    COMMON_REQUIRED_MARKERS.
Definition sample_log (storage : list string) : list string :=
  ["MICRONUX:M3:BOOT"] ++ payload_lines "a" "b" ++
  sample_markers ++ storage ++
  ["MICRONUX:M5:BASELINE"; "MemFree:        20000 kB"; "MICRONUX:M5:RUN";
   "MICRONUX:M5:SIGNALS pass count=64"; "MICRONUX:M5:TIMERS pass count=32"; "MICRONUX:M5:EXEC pass count=64";
   "MICRONUX:M5:MEMORY pass kib=4096"; "MICRONUX:M5:STACK pass depth=8"] ++ GateM5.console_lines (seq 0 64) ++
  ["MICRONUX:M5:PASS exec=64 signals=64 timers=32 memory_kib=4096 stack_depth=8 console=64 elapsed_ms=1500";
   "MICRONUX:M5:AFTER"; "MemFree:        19600 kB"; "MICRONUX:M6:PROBE:DONE"].

Definition with_card : list string :=
  ["mmcblk0: mmc0:0001 SD 1.0 GiB"; "MICRONUX:M6:STORAGE begin mode=idmac-sram-poll access=read-only";
   "MICRONUX:M6:STORAGE raw-pass sectors=2048 bytes=1048576 sha256=" +:+ hash_of "c";
   "MICRONUX:M6:STORAGE:PASS mode=idmac-sram-poll access=read-only"].
Definition without_card : list string :=
  ["MICRONUX:M6:STORAGE begin mode=idmac-sram-poll access=read-only"; "MICRONUX:M6:STORAGE:FAIL stage=no-card"].

Definition sample_dir : artifact_dir := {| path_of := λ name, "out/" +:+ name; file_of := λ _, Some [] |}.
Definition sample_options (allow : bool) : options := {|
  max_memory_loss_kib := 512; allow_no_card := allow; write_test := false |}.

Definition sample_run (allow : bool) (storage : list string) : option (result Z) :=
  fst <$> main replay_host bench_environment 100 "COM1" 1 (seconds 3) sample_dir (sample_options allow)
            (replaying [console (sample_log storage)]).

Example m6_examples :
  (sample_run false with_card, sample_run true without_card, sample_run false without_card)
  = (Some (Ok 0), Some (Ok 0), Some (Ok 1)).
Proof. by_compute. Qed.

Lemma m6_gate_witness :
  let s := replaying [console (sample_log with_card)] in
  wp (main replay_host bench_environment (Z.to_nat 20001) "COM1" 1 (seconds 3) sample_dir (sample_options false))
    (exits (passes replay_host bench_environment (Z.to_nat 20001) "COM1" 1 (seconds 3) sample_dir (sample_options false) s)) s.
Proof.
  apply (m6_gate replay_host bench_environment (Z.to_nat 20001) "COM1" 1 (seconds 3) sample_dir (sample_options false)); apply replay_lasts.
  vm_compute. discriminate.
Defined.
