(* ===== verification/GateM6Net.v ===== *)
(** * The M6 network gate

    scripts/m6-network-test.py: the ESP32-C6 must be discovered over SDIO and its
    network interface brought up, optionally all the way to an answered name
    lookup, with the same identities on every boot. *)

From S2P Require Import Prelude PyBytes PyStr Utf8 Regex Io Session Boots.

Definition REQUIRED_MARKERS : list string := [
  "MICRONUX:M3:BOOT";
  "MICRONUX:M3:JUMP";
  "MICRONUX:M6:DSI state=disabled reason=profile-off";
  "MICRONUX:M6:NET transport=sdio slot=1 width=4";
  "Linux version 6.12.27";
  "ESP32-P4 synchronous-polled I/O enabled";
  "DW MMC controller at irq";
  "MCU firmware version: 2.11.5";
  "MICRONUX:M6:NET:DRIVER stack=esp-hosted-fg mode=builtin transport=sdio bluetooth=off";
  "MICRONUX:M6:NET:IFACE state=ready name=ethsta0";
  "MICRONUX:M6:NET:SHELL ready";
  "MICRONUX:M6:NET:PROBE:DONE";
  "MICRONUX:M6:NET:UP name=ethsta0";
  "MICRONUX:M6:NET:CONTROL:DONE"
].

Definition CONTROL_REQUIRED_MARKERS : list string := ["MICRONUX:M6:NET:UP:RC=0"].

Definition FORBIDDEN_MARKERS : list string := [
  "MICRONUX:M3:FAIL";
  "MICRONUX:M4:FAIL";
  "MICRONUX:M6:NET:FAIL";
  "Kernel panic";
  "Oops:";
  "BUG:";
  "Unhandled";
  "Drop invalid aggregate pkt"
].

Definition ONLINE_REQUIRED_MARKERS : list string := [
  "MICRONUX:M6:NET:ONLINE state=ready name=ethsta0";
  "MICRONUX:M6:NET:ONLINE:RC=0";
  "default via ";
  "nameserver ";
  "1.1.1.1 is alive!";
  "MICRONUX:M6:NET:PING4:RC=0";
  "example.com is alive!";
  "MICRONUX:M6:NET:DNS:RC=0";
  "MICRONUX:M6:NET:ONLINE:DONE"
].

Definition CONTROL_PREFIX : string :=
  "for D in /sys/bus/sdio/devices/*; do " +:+
  "echo MICRONUX:M6:NET:SDIO path=${D##*/}; " +:+
  "for F in vendor device class modalias; do " +:+
  "printf 'MICRONUX:M6:NET:SDIO %s=' $F; cat $D/$F; " +:+
  "done; done; echo MICRONUX:M6:NET:PROBE:DONE; ".

Definition CONTROL_UP : string := "micronux-netctl up; echo MICRONUX:M6:NET:UP:RC=$?; ".

Definition ONLINE_CONTROL : string :=
  "micronux-online; echo MICRONUX:M6:NET:ONLINE:RC=$?; " +:+
  "ip -4 addr show dev ethsta0; ip route; cat /etc/resolv.conf; " +:+
  "/bin/busybox timeout 6 /bin/busybox ping 1.1.1.1; " +:+
  "echo MICRONUX:M6:NET:PING4:RC=$?; " +:+
  "/bin/busybox timeout 6 /bin/busybox ping example.com; " +:+
  "echo MICRONUX:M6:NET:DNS:RC=$?; " +:+
  "echo MICRONUX:M6:NET:ONLINE:DONE; ".

Definition control_line (online : bool) : string :=
  CONTROL_PREFIX +:+ (if online then ONLINE_CONTROL else CONTROL_UP) +:+
  "ip link show ethsta0; " +:+ "echo MICRONUX:M6:NET:CONTROL:DONE" +:+ nl.

Definition ARTIFACTS : list string := ["Image"; "esp32p4-micronux.dtb"; "metadata.bin"; "rootfs.cpio"].

Definition CARD_RE : re := Eval vm_compute in
  compile false "mmc0: new(?: .+)? SDIO card at address [0-9a-f]{4}".
Definition CONTROL_DONE_RE : re := Eval vm_compute in
  compile false "(?:^|\r?\n)MICRONUX:M6:NET:CONTROL:DONE\r?(?:\n|$)".
Definition CARD_ADDRESS_RE : re := Eval vm_compute in
  compile false "mmc0: new(?: .+)? SDIO card at address ([0-9a-f]{4})".
Definition FUNCTION_RE : re := Eval vm_compute in compile false (
  "MICRONUX:M6:NET:SDIO path=([^\r\n ]+)\r?\n" +:+
  "MICRONUX:M6:NET:SDIO vendor=([^\r\n ]+)\r?\n" +:+
  "MICRONUX:M6:NET:SDIO device=([^\r\n ]+)\r?\n" +:+
  "MICRONUX:M6:NET:SDIO class=([^\r\n ]+)\r?\n" +:+
  "MICRONUX:M6:NET:SDIO modalias=([^\r\n ]+)").
Definition mac_pattern : string := "([0-9a-f]{2}(?::[0-9a-f]{2}){5})".
Definition UP_RE : re := Eval vm_compute in
  compile false ("MICRONUX:M6:NET:UP name=ethsta0 mac=" +:+ mac_pattern).
Definition LINK_RE : re := Eval vm_compute in compile false ("link/ether " +:+ mac_pattern).
Definition FLAGS_RE : re := Eval vm_compute in compile false "ethsta0: <([^>]+)>".

(** ** Capturing a boot *)

Section Capture.
Context {W : Type} (H : host W) (env : environment) (fuel : nat) (online : bool).

Definition rom_reset (port : string) : io W unit := check_run H env (chip_id_command env port).

(** The body of the loop: the control line is typed once the shell is ready and the
    card is there; the capture ends after it is done or at a fatal message. *)
Definition on_text (d : device) (state : bool * option Z) (_ captured : bytes)
    : io W ((bool * option Z) + bytes) :=
  let '(probe_sent, done_seen_at) := state in
  let text := decode captured in
  probe_sent ←
    (if negb probe_sent && contains "MICRONUX:M6:NET:SHELL ready" text && found (search CARD_RE text)
     then sleep H (ms 200) ;; write H d (encode (control_line online)) ;; flush H d ;; mret true
     else mret probe_sent);
  seen ←
    (if probe_sent && found (search CONTROL_DONE_RE text) then
       now ← monotonic H;
       mret (match done_seen_at with
             | None => Some (Some now)
             | Some seen => if decide (ms 400 ≤ now - seen) then None else Some (Some seen)
             end)
     else mret (Some done_seen_at));
  match seen with
  | None => mret (inr captured)
  | Some seen =>
      if mentions FORBIDDEN_MARKERS text then sleep H (ms 200) ;; mret (inr captured)
      else mret (inl (probe_sent, seen))
  end.

Definition capture_boot (port : string) (timeout : Z) : io W string :=
  rom_reset port ;;
  d ← serial_open H (probe_settings port);
  finally (
    reset_input_buffer H d ;;
    now ← monotonic H;
    captured ← capture_loop H fuel (read H d 4096) (now + timeout) (on_text d) (false, None) [];
    mret (decode captured))
  (cancel_and_release H d).

End Capture.

(** ** Reading a log *)

Definition artifact_record (directory : artifact_dir) : result string :=
  entries ← artifact_entries "M6 network" directory ARTIFACTS;
  Ok (str_join " " entries).

Definition payload_hashes (log : string) : result (string * string) :=
  match search KERNEL_HASH_RE log, search DTB_HASH_RE log with
  | Some kernel_match, Some dtb_match => Ok (group kernel_match "1", group dtb_match "1")
  | _, _ => Err (Exn ValueError "boot did not report payload hashes")
  end.

(** The path, vendor, device, class and modalias of every function of the card. *)
Definition sdio_identity (log : string) : result (list (list string)) :=
  match search CARD_ADDRESS_RE log, findall FUNCTION_RE log with
  | Some _, (_ :: _) as functions => Ok functions
  | _, _ => Err (Exn ValueError "C6 SDIO card/function identity was incomplete")
  end.

Definition control_identity (log : string) : result string :=
  let links := findall1 LINK_RE log in
  let flag_sets := findall1 FLAGS_RE log in
  match search UP_RE log with
  | Some up =>
      raise_when (links = [] ∨ flag_sets = []) ValueError "C6 RPC/link identity was incomplete" ;;
      raise_when (group up "1" ≠ List.last links "") ValueError "C6 RPC/link MAC addresses did not agree" ;;
      raise_when (¬ Forall (λ flag, flag ∈ split_on "," (List.last flag_sets "")) ["UP"; "LOWER_UP"]) ValueError
        "ethsta0 did not reach UP,LOWER_UP" ;;
      Ok (group up "1")
  | None => Err (Exn ValueError "C6 RPC/link identity was incomplete")
  end.

Definition USEFUL : list string :=
  ["MICRONUX:M3:KERNEL"; "MICRONUX:M3:DTB"; "MICRONUX:M6:DSI"; "MICRONUX:M6:NET"; "Linux version";
   "synchronous-polled I/O"; "DW MMC controller"; "mmc0:"; "console [ttyGS0]"; "MCU firmware version"].

Definition milestone_lines (log : string) : list string :=
  map strip (filter (λ line, mentions USEFUL line = true) (splitlines log)).

Definition announce (boots boot : Z) (log : string) : list string :=
  ["--- M6 network boot " +:+ pretty boot +:+ "/" +:+ pretty boots +:+ " ---";
   lines_or (milestone_lines log) "(no network/Linux milestones captured)"].

(** ** Judging a boot *)

(** The payload, the functions and the address that must not change. *)
Definition identity : Type := ((string * string) * list (list string) * string)%type.

#[global] Instance identity_eq_dec : EqDecision identity.
Proof. unfold identity. solve_decision. Defined.

Definition required (online : bool) : list string :=
  REQUIRED_MARKERS ++ (if online then ONLINE_REQUIRED_MARKERS else CONTROL_REQUIRED_MARKERS).

(** The [try] of the loop. *)
Definition evaluate (log : string) : result identity :=
  payload ← payload_hashes log;
  functions ← sdio_identity log;
  mac ← control_identity log;
  Ok (payload, functions, mac).

(** [expected] holds the three expected values, which are set together. *)
Definition check_boot (online : bool) (boot : Z) (expected : option identity) (log : string)
    : result (list string + option identity) :=
  let missing := absent (required online) log in
  let forbidden := present FORBIDDEN_MARKERS log in
  if decide (missing ≠ [] ∨ forbidden ≠ []) then Ok (inl (marker_errors "network" boot missing forbidden log))
  else
    match evaluate log with
    | Err e =>
        if caught [ValueError] e then Ok (inl ["network boot " +:+ pretty boot +:+ ": " +:+ exn_msg e]) else Err e
    | Ok shown => Ok (compare_with expected shown ["network identity changed across reset boot " +:+ pretty boot])
    end.

Definition pass_lines (online : bool) (boots : Z) (artifacts : string) (expected : option identity) : list string :=
  match expected with
  | None => []
  | Some (payload, functions, mac) =>
      ["M6 network artifacts: " +:+ artifacts;
       "M6 C6 SDIO/RPC/link gate passed: " +:+
       "boots=" +:+ pretty boots +:+ " functions=" +:+ commas (map (str_join ":") functions) +:+ " " +:+
       "mac=" +:+ mac +:+ " " +:+
       "kernel_sha256=" +:+ payload.1 +:+ " dtb_sha256=" +:+ payload.2] ++
      (if online then ["M6 C6 association/DHCP/IPv4/DNS gate passed: " +:+ "boots=" +:+ pretty boots] else [])
  end.

(** [timeout = args.timeout], or the default of the mode *)
Definition effective_timeout (timeout : option Z) (online : bool) : Z :=
  default (if online then seconds 420 else seconds 120) timeout.

(** [main], with the parsed arguments. *)
Definition main {W} (H : host W) (env : environment) (fuel : nat) (port : string) (boots : Z) (timeout : option Z)
    (directory : artifact_dir) (online : bool) : io W Z :=
  lift (raise_when (boots < 1) SystemExit "--boots must be at least 1") ;;
  let timeout := effective_timeout timeout online in
  lift (raise_when (timeout ≤ 0) SystemExit "--timeout must be greater than zero") ;;
  with_artifacts (artifact_record directory) (λ artifacts,
    seen ← boot_loop (Z.to_nat boots) 1 (capture_boot H env fuel online port timeout) (announce boots)
             (check_boot online) None;
    conclude_assert found (pass_lines online boots artifacts) seen).

(** ** What a pass means *)

(** The interface answered under one address: the control reply and the last link
    line agree on it, and the link is up at both ends. *)
Record link_ok (log : string) (mac : string) : Prop := {
  link_up : ∃ m, search UP_RE log = Some m ∧ mac = group m "1";
  link_mac : ∃ links, findall1 LINK_RE log = links ++ [mac];
  link_flags : ∃ sets flags, findall1 FLAGS_RE log = sets ++ [flags]
    ∧ "UP" ∈ split_on "," flags ∧ "LOWER_UP" ∈ split_on "," flags;
}.

Record boot_ok (online : bool) (log : string) (key : identity) : Prop := {
  ok_markers : ∀ marker, marker ∈ required online → contains marker log = true;
  ok_no_failure : ∀ marker, marker ∈ FORBIDDEN_MARKERS → contains marker log = false;
  ok_payload : payload_hashes log = Ok key.1.1;
  ok_card : found (search CARD_ADDRESS_RE log) = true;
  ok_functions : findall FUNCTION_RE log = key.1.2 ∧ key.1.2 ≠ [];
  ok_link : link_ok log key.2;
}.

Lemma last_is (l : list string) x : (∃ l', l = l' ++ [x]) ↔ l ≠ [] ∧ List.last l "" = x.
Proof.
  split.
  - intros [l' ->]. split; [by destruct l'|apply List.last_last].
  - intros [Hn <-]. exists (removelast l). by apply app_removelast_last.
Qed.

Lemma control_identity_ok log mac : control_identity log = Ok mac ↔ link_ok log mac.
Proof.
  unfold control_identity. split.
  - destruct (search UP_RE log) as [up|] eqn:Eu; [|done]. cbv zeta. rewrite !raise_when_ok.
    intros (Hn & Hl & Hf%dec_stable & [= <-]). rewrite !Forall_cons in Hf. destruct Hf as (Hu & Hw & _).
    constructor; [by eauto|apply last_is|].
    + split; [tauto|]. symmetry. by apply dec_stable.
    + assert (findall1 FLAGS_RE log ≠ []) as Hs by tauto. destruct (proj2 (last_is _ _) (conj Hs eq_refl)) as [sets E].
      exists sets, (List.last (findall1 FLAGS_RE log) ""). split_and!; [exact E|done|done].
  - intros [(up & Eu & ->) [Hl1 Hl2]%last_is (sets & flags & Es & Hu & Hw)]. rewrite Eu. cbv zeta.
    destruct (proj1 (last_is (findall1 FLAGS_RE log) flags)) as [Hs1 Hs2]; [by exists sets|].
    rewrite !raise_when_ok, Hl2, Hs2. split_and!; [by intros [?|?]|by intros ?| |done].
    intros Hn. apply Hn. by rewrite !Forall_cons.
Qed.

Lemma m6net_evaluate_ok log key : evaluate log = Ok key ↔
  payload_hashes log = Ok key.1.1 ∧ found (search CARD_ADDRESS_RE log) = true
  ∧ (findall FUNCTION_RE log = key.1.2 ∧ key.1.2 ≠ []) ∧ link_ok log key.2.
Proof.
  destruct key as [[p fs] mac]. cbn [fst snd]. unfold evaluate. rewrite bind_ok_inv. setoid_rewrite bind_ok_inv.
  setoid_rewrite bind_ok_inv. setoid_rewrite control_identity_ok. unfold sdio_identity. split.
  - intros (? & Hp & ? & Hf & ? & Hm & [= -> -> ->]).
    destruct (search CARD_ADDRESS_RE log); [|done]. destruct (findall FUNCTION_RE log); [done|]. injection Hf as <-.
    split_and!; [done..|discriminate|done].
  - intros (Hp & Hc & [Hf Hn] & Hm). exists p. split; [done|]. exists fs. split; [|by exists mac].
    destruct (search CARD_ADDRESS_RE log); [|done]. rewrite Hf. by destruct fs.
Qed.

Lemma m6net_check_boot_spec online boot e log seen' :
  check_boot online boot e log = Ok (inr seen') ↔
  ∃ k (_ : unit), boot_ok online log k ∧ (e = None ∨ e = Some k) ∧ seen' = Some k.
Proof.
  unfold check_boot. cbv zeta. split.
  - case_decide as Hd; [done|]. rewrite not_failed, absent_nil, present_nil in Hd. destruct Hd as [Ha Hp].
    destruct (evaluate log) as [key|] eqn:Ee; [|by destruct (caught _ _)].
    apply m6net_evaluate_ok in Ee as (? & ? & ? & ?). intros [= [E ->]%compare_with_spec].
    exists key, tt. split; [by constructor|done].
  - intros (key & _ & [Hm Hf Hp Hc Hx Hl] & He & ->).
    rewrite decide_False by (by rewrite not_failed, absent_nil, present_nil).
    rewrite (proj2 (m6net_evaluate_ok log key)) by done. f_equal. by apply compare_with_spec.
Qed.

Section Gate.
Context {W : Type} (H : host W) (env : environment) (fuel : nat) (port : string) (boots : Z) (timeout : option Z)
  (directory : artifact_dir) (online : bool).

Definition passes (s s' : st W) : Prop :=
  ¬ boots < 1 ∧ ¬ effective_timeout timeout online ≤ 0 ∧
  ∃ artifacts, artifact_record directory = Ok artifacts ∧
  ∃ logs key s1,
    length logs = Z.to_nat boots
    ∧ booted (capture_boot H env fuel online port (effective_timeout timeout online)) (announce boots) 1 s logs s1
    ∧ (∀ log, log ∈ logs → boot_ok online log key)
    ∧ s' = printed (pass_lines online boots artifacts (Some key)) s1.

Lemma m6net_exits s : wlp (main H env fuel port boots timeout directory online) (exits (passes s)) s.
Proof.
  apply wlp_guard. intros Hb. apply wlp_guard. intros _. apply wlp_artifacts. intros artifacts _.
  eapply wlp_exits_iff.
  - apply (series_exit (check_boot online) (λ e (_ : list unit), e) (λ log k _, boot_ok online log k)); [|done|lia].
    intros. apply m6net_check_boot_spec.
  - intros s'. apply (unmeasured_iff (boot_ok online)).
Qed.

Lemma m6net_capture_steady `{!TimedHost H} t : lasts H fuel t →
  steady H (capture_boot H env fuel online port t).
Proof.
  intros Hf. apply steady_bind; [apply steady_check_run|]. intros _.
  apply steady_bind; [steady_step|]. intros d.
  apply steady_finally; [|apply steady_cancel_and_release]. apply steady_bind; [steady_step|intros _].
  apply steady_capture; [done..|apply read_takes_time| |intros; steady_step].
  intros [sent seen] chunk captured. unfold on_text. cbv zeta. repeat steady_step.
Qed.

End Gate.

(** The M6 network gate ends, and exits with 0 exactly when all artifacts exist
    and as many boots as asked for each logged every marker of the chosen mode and
    no fatal message, found the card with at least one function, and brought the
    link up under the address the controller reported, with the same payload,
    functions and address on every boot.  Otherwise it exits with 1 or passes on an
    exception. *)
Theorem m6_network_gate {W} (H : host W) `{!TimedHost H} env fuel port boots timeout directory online s :
  lasts H fuel (effective_timeout timeout online) →
  wp (main H env fuel port boots timeout directory online)
    (exits (passes H env fuel port boots timeout directory online s)) s.
Proof.
  intros Hf. eapply wp_mono; [apply wp_and; [|apply m6net_exits]|by intros r s' [_ ?]].
  assert (steady H (main H env fuel port boots timeout directory online)) as Hm; [|apply Hm].
  do 2 (apply steady_bind; [steady_step|intros _]). apply steady_artifacts. intros artifacts.
  apply steady_bind; [by apply steady_boot_loop, m6net_capture_steady|]. intros seen. apply steady_conclude.
Qed.

(** Passing and failing runs. *)
Definition sample_log (flags mac : string) : list string :=
  REQUIRED_MARKERS ++ payload_lines "a" "b" ++
  ["mmc0: new high speed SDIO card at address 0001"; "MICRONUX:M6:NET:SDIO path=mmc0:0001:1";
   "MICRONUX:M6:NET:SDIO vendor=0x0092"; "MICRONUX:M6:NET:SDIO device=0x6666"; "MICRONUX:M6:NET:SDIO class=0x00";
   "MICRONUX:M6:NET:SDIO modalias=sdio:c00v0092d6666"; "MICRONUX:M6:NET:UP name=ethsta0 mac=" +:+ mac;
   "MICRONUX:M6:NET:UP:RC=0"; "5: ethsta0: <" +:+ flags +:+ "> mtu 1500"; "    link/ether 02:00:00:00:00:01 brd";
   "MICRONUX:M6:NET:CONTROL:DONE"].

Definition sample_dir : artifact_dir := {| path_of := λ name, "out/" +:+ name; file_of := λ _, Some [] |}.

Definition sample_run (log : list string) : option (result Z * string) :=
  (λ o, (o.1, stderr o.2)) <$>
    main replay_host bench_environment 100 "COM1" 1 (Some (seconds 3)) sample_dir false (replaying [console log]).

Example m6_network_examples :
  (sample_run (sample_log "BROADCAST,UP,LOWER_UP" "02:00:00:00:00:01"),
   sample_run (sample_log "BROADCAST,UP" "02:00:00:00:00:01"),
   sample_run (sample_log "BROADCAST,UP,LOWER_UP" "02:00:00:00:00:02"))
  = (Some (Ok 0, ""), Some (Ok 1, "network boot 1: ethsta0 did not reach UP,LOWER_UP" +:+ nl),
     Some (Ok 1, "network boot 1: C6 RPC/link MAC addresses did not agree" +:+ nl)).
Proof. by_compute. Qed.

Lemma m6_network_gate_witness :
  let s := replaying [console (sample_log "UP,LOWER_UP" "02:00:00:00:00:01")] in
  wp (main replay_host bench_environment (Z.to_nat 20001) "COM1" 1 None sample_dir false)
    (exits (passes replay_host bench_environment (Z.to_nat 20001) "COM1" 1 None sample_dir false s)) s.
Proof.
  apply (m6_network_gate replay_host bench_environment (Z.to_nat 20001) "COM1" 1 None sample_dir false); apply replay_lasts.
  vm_compute. discriminate.
Defined.
