(* ===== verification/GateM6Combined.v ===== *)
(** * The M6 combined gate

    scripts/m6-combined-test.py: storage and network at the same time, with a
    reconnect, an optional soak, and the device output told apart from the echo of
    the typed command. *)

From S2P Require Import Prelude PyBytes PyStr Utf8 Sha256 Regex Io Session Boots.

Definition REQUIRED_MARKERS : list string := [
  "MICRONUX:M3:BOOT";
  "MICRONUX:M3:JUMP";
  "MICRONUX:M6:SDMMC power=ldo4 voltage_mv=3300 slot=0 width=4";
  "MICRONUX:M6:NET transport=sdio slot=1 width=4";
  "MICRONUX:M6:SDMMC profile=dual slots=0,1 arbitration=linux-serialized";
  "Linux version 6.12.27";
  "ESP32-P4 dual-slot arbitration enabled for microSD and C6 SDIO";
  "mmcblk0:";
  "MCU firmware version: 2.11.5";
  "MICRONUX:M6:COMBINED:STORAGE state=ready name=mmcblk0";
  "MICRONUX:M6:COMBINED:IFACE state=ready name=ethsta0";
  "MICRONUX:M8:SERVICE state=ready abi=1.0";
  "MICRONUX:M6:COMBINED:SHELL ready console=ttyGS0 network=nonblocking";
  "MICRONUX:M6:STORAGE:PASS";
  "MICRONUX:M6:COMBINED:STORAGE:RC=0";
  "MICRONUX:M6:NET:ONLINE state=ready name=ethsta0";
  "MICRONUX:M6:COMBINED:ONLINE:RC=0";
  "MICRONUX:M6:COMBINED:STORAGE-STRESS:RC=0";
  "MICRONUX:M6:COMBINED:NETWORK-STRESS:RC=0";
  "MICRONUX:M6:NET:DOWN state=disconnected name=ethsta0";
  "MICRONUX:M6:COMBINED:DOWN:RC=0";
  "MICRONUX:M6:COMBINED:RECONNECT:RC=0";
  "MICRONUX:M6:COMBINED:RECONNECT-NETWORK:RC=0";
  "MICRONUX:M6:COMBINED:DONE"
].

Definition FORBIDDEN_MARKERS : list string := [
  "MICRONUX:M3:FAIL";
  "MICRONUX:M4:FAIL";
  "MICRONUX:M5:FAIL";
  "MICRONUX:M6:FAIL";
  "MICRONUX:M6:COMBINED:FAIL";
  "MICRONUX:M6:COMBINED:SOAK:STALL";
  "MICRONUX:M6:STORAGE:FAIL";
  "Kernel panic";
  "Oops:";
  "BUG:";
  "Unhandled";
  "Drop invalid aggregate pkt"
].

Definition ARTIFACTS : list string := ["Image"; "esp32p4-micronux.dtb"; "metadata.bin"; "rootfs.cpio"].

Definition CARD_RE : re := Eval vm_compute in
  compile false "mmc1: new(?: .+)? SDIO card at address [0-9a-f]{4}".
Definition SD_RE : re := Eval vm_compute in
  compile false "mmc0: new(?: .+)? (SDHC|SDXC|SD) card".
Definition SDIO_RE : re := Eval vm_compute in
  compile false "mmc1: new(?: .+)? SDIO card at address ([0-9a-f]{4})".
Definition BEFORE_RE : re := Eval vm_compute in
  compile false "MICRONUX:M6:COMBINED:HASH-BEFORE\r?\n([0-9a-f]{64})".
Definition AFTER_RE : re := Eval vm_compute in
  compile false "MICRONUX:M6:COMBINED:HASH-AFTER\r?\n([0-9a-f]{64})".
Definition RECONNECT_RE : re := Eval vm_compute in
  compile false "MICRONUX:M6:COMBINED:HASH-RECONNECT\r?\n([0-9a-f]{64})".

(** ** The typed command *)

Definition storage_stress : string :=
  str_join "" (replicate 8 "dd if=/dev/mmcblk0 of=/dev/null bs=4096 count=64 2>/dev/null || RC=1; ").
Definition network_stress : string := str_join "" (replicate 12 "/bin/busybox ping 1.1.1.1 || RC=1; ").

Definition soak (soak_cycles : Z) : string :=
  if decide (soak_cycles = 0) then "" else
  let cycle_arguments := str_join " " (map (λ i, pretty (Z.of_nat i)) (seq 1 (Z.to_nat soak_cycles))) in
  "/usr/bin/micronux-combined-soak " +:+ cycle_arguments +:+ "; " +:+
  "echo MICRONUX:M6:COMBINED:SOAK:RC=$?; ".

Definition probe_command (write_test : bool) (soak_cycles : Z) : string :=
  "/usr/bin/micronux-storage-test" +:+ (if write_test then " --write-test" else "") +:+ "; " +:+
  "echo MICRONUX:M6:COMBINED:STORAGE:RC=$?; " +:+
  "for D in /sys/bus/sdio/devices/*; do " +:+
  "echo MICRONUX:M6:COMBINED:SDIO path=${D##*/}; " +:+
  "for F in vendor device class modalias; do " +:+
  "printf 'MICRONUX:M6:COMBINED:SDIO %s=' $F; cat $D/$F; " +:+
  "done; done; " +:+
  "/usr/bin/micronux-online; " +:+
  "echo MICRONUX:M6:COMBINED:ONLINE:RC=$?; " +:+
  "ip -4 addr show dev ethsta0; ip route; cat /etc/resolv.conf; " +:+
  "echo MICRONUX:M6:COMBINED:HASH-BEFORE; " +:+
  "dd if=/dev/mmcblk0 bs=4096 count=256 2>/dev/null | sha256sum; " +:+
  "(RC=0; " +:+
  storage_stress +:+
  "echo MICRONUX:M6:COMBINED:STORAGE-STRESS:RC=$RC) & " +:+
  "(RC=0; " +:+
  network_stress +:+
  "echo MICRONUX:M6:COMBINED:NETWORK-STRESS:RC=$RC) & " +:+
  "wait; " +:+
  "echo MICRONUX:M6:COMBINED:HASH-AFTER; " +:+
  "dd if=/dev/mmcblk0 bs=4096 count=256 2>/dev/null | sha256sum; " +:+
  "echo MICRONUX:M6:COMBINED:HASH-AFTER:RC=$?; " +:+
  "echo MICRONUX:M6:COMBINED:DOWN:BEGIN; " +:+
  "/usr/bin/micronux-netctl down; " +:+
  "echo MICRONUX:M6:COMBINED:DOWN:RC=$?; " +:+
  "/bin/busybox sleep 5; " +:+
  "/usr/bin/micronux-online; " +:+
  "echo MICRONUX:M6:COMBINED:RECONNECT:RC=$?; " +:+
  "/bin/busybox ping 1.1.1.1; " +:+
  "echo MICRONUX:M6:COMBINED:RECONNECT-NETWORK:RC=$?; " +:+
  "echo MICRONUX:M6:COMBINED:HASH-RECONNECT; " +:+
  "dd if=/dev/mmcblk0 bs=4096 count=256 2>/dev/null | sha256sum; " +:+
  soak soak_cycles +:+
  "echo MICRONUX:M6:COMBINED:DONE" +:+ nl.

(** ** Capturing a boot *)

Section Capture.
Context {W : Type} (H : host W) (env : environment) (fuel : nat) (write_test : bool) (soak_cycles : Z).

Definition rom_reset (port : string) : io W unit := check_run H env (chip_id_command env port).

Definition on_text (d : device) (state : bool * option Z) (_ captured : bytes)
    : io W ((bool * option Z) + bytes) :=
  let '(probe_sent, done_seen_at) := state in
  let text := decode captured in
  probe_sent ←
    (if negb probe_sent && contains "MICRONUX:M6:COMBINED:SHELL ready" text && contains "mmcblk0:" text
        && found (search CARD_RE text)
     then sleep H (ms 300) ;; write H d (encode (probe_command write_test soak_cycles)) ;; flush H d ;; mret true
     else mret probe_sent);
  seen ←
    (if marker_seen text "MICRONUX:M6:COMBINED:DONE" then
       now ← monotonic H;
       mret (match done_seen_at with
             | None => Some (Some now)
             | Some seen => if decide (ms 500 ≤ now - seen) then None else Some (Some seen)
             end)
     else mret (Some done_seen_at));
  match seen with
  | None => mret (inr captured)
  | Some seen =>
      match head (seen_markers FORBIDDEN_MARKERS text) with
      | Some rejected =>
          print_err ("capture stopped on forbidden marker: " +:+ rejected) ;;
          sleep H (ms 200) ;;
          mret (inr captured)
      | None => mret (inl (probe_sent, seen))
      end
  end.

Definition capture_boot (port : string) (timeout : Z) : io W string :=
  rom_reset port ;;
  d ← open_probe H port;
  finally (
    reset_input_buffer H d ;;
    now ← monotonic H;
    captured ← capture_loop H fuel (read H d 4096) (now + timeout) (on_text d) (false, None) [];
    mret (decode captured))
  (cancel_and_release H d).

End Capture.

(** ** Reading a log *)

(** The records, and the digests of the kernel and of the device tree. *)
Definition artifact_record (directory : artifact_dir) : result (string * (string * string)) :=
  entries ← artifact_entries "M6 combined" directory ARTIFACTS;
  Ok (str_join " " entries, (digest_of directory "Image", digest_of directory "esp32p4-micronux.dtb")).

Definition payload_hashes (log : string) : result (string * string) :=
  match search KERNEL_HASH_RE log, search DTB_HASH_RE log with
  | Some kernel, Some dtb => Ok (group kernel "1", group dtb "1")
  | _, _ => Err (Exn ValueError "boot did not report payload hashes")
  end.

Definition identities (log : string) : result (string * string) :=
  match search SD_RE log, search SDIO_RE log with
  | Some sd, Some sdio => Ok (group sd "1", group sdio "1")
  | _, _ => Err (Exn ValueError "microSD/SDIO logical-host identity was incomplete")
  end.

Definition sample_hashes (log : string) : result (string * string * string) :=
  match search BEFORE_RE log, search AFTER_RE log, search RECONNECT_RE log with
  | Some before, Some after, Some reconnect =>
      raise_when (group before "1" ≠ group after "1" ∨ group before "1" ≠ group reconnect "1") ValueError
        "microSD sample changed during concurrent/reconnect traffic" ;;
      Ok (group before "1", group after "1", group reconnect "1")
  | _, _, _ => Err (Exn ValueError "concurrent storage hashes were missing")
  end.

Definition USEFUL : list string :=
  ["MICRONUX:M3:KERNEL"; "MICRONUX:M3:DTB"; "MICRONUX:M6:SDMMC"; "MICRONUX:M6:DSI"; "MICRONUX:M6:NET";
   "MICRONUX:M6:COMBINED"; "MICRONUX:M6:STORAGE"; "MICRONUX:M8:"; "dual-slot arbitration"; "mmc0:"; "mmc1:";
   "mmcblk0:"; "MCU firmware version"].

Definition milestone_lines (log : string) : list string :=
  map strip (filter (λ line, mentions USEFUL line = true) (output_lines log)).

Definition announce (boots boot : Z) (log : string) : list string :=
  let shown := str_join nl (milestone_lines log) in
  ["--- M6 combined boot " +:+ pretty boot +:+ "/" +:+ pretty boots +:+ " ---";
   if decide (shown = "") then "(no combined milestones captured)" else shown].

(** ** Judging a boot *)

Record options := {
  write_test : bool;
  soak_cycles : Z;
  expect_mipi_adapter : option string;
  expect_mipi_profile : bool;
}.

Definition display_marker (a : options) : string :=
  if expect_mipi_profile a then
    "MICRONUX:M6:DSI state=ready profile=jd9365-800x1280 " +:+
    "resolution=800x1280 lanes=2 lane_mbps=1500 dpi_mhz=80 " +:+
    "format=rgb565 " +:+
    "pattern=framebuffer"
  else
    match expect_mipi_adapter a with
    | Some adapter => "MICRONUX:M6:DSI state=probe adapter=" +:+ adapter +:+ " address=0x45"
    | None => "MICRONUX:M6:DSI state=disabled reason=profile-off"
    end.

Definition soak_markers (a : options) : list string :=
  if decide (soak_cycles a = 0) then [] else
  ["MICRONUX:M6:COMBINED:SOAK:PASS cycles=" +:+ pretty (soak_cycles a); "MICRONUX:M6:COMBINED:SOAK:RC=0"].

Definition required (a : options) : list string := REQUIRED_MARKERS ++ [display_marker a] ++ soak_markers a.

(** The payload, the cards and the sample that must not change. *)
Definition identity : Type := ((string * string) * (string * string) * string)%type.

#[global] Instance identity_eq_dec : EqDecision identity.
Proof. unfold identity. solve_decision. Defined.

(** The [try] of the loop. *)
Definition evaluate (log : string) : result identity :=
  payload ← payload_hashes log;
  cards ← identities log;
  samples ← sample_hashes log;
  Ok (payload, cards, samples.1.1).

(** [expected] holds the three expected values, which are set together. *)
Definition check_boot (a : options) (artifact_payload : string * string) (boot : Z) (expected : option identity)
    (log : string) : result (list string + option identity) :=
  let missing := unseen_markers (required a) log in
  let forbidden := seen_markers FORBIDDEN_MARKERS log in
  if decide (missing ≠ [] ∨ forbidden ≠ []) then Ok (inl (marker_errors "combined" boot missing forbidden log))
  else
    match evaluate log with
    | Err e =>
        if caught [ValueError] e then Ok (inl ["combined boot " +:+ pretty boot +:+ ": " +:+ exn_msg e]) else Err e
    | Ok shown =>
        if decide (shown.1.1 ≠ artifact_payload) then
          Ok (inl ["combined boot " +:+ pretty boot +:+ ": booted payload " +:+ repr_pair shown.1.1 +:+
                   " does not match " +:+ "artifacts " +:+ repr_pair artifact_payload])
        else Ok (compare_with expected shown ["combined identity changed across reset boot " +:+ pretty boot])
    end.

Definition pass_lines (boots : Z) (artifacts : string) (expected : option identity) : list string :=
  match expected with
  | None => []
  | Some (payload, cards, sample) =>
      ["M6 combined artifacts: " +:+ artifacts;
       "M6 simultaneous storage/network gate passed: " +:+
       "boots=" +:+ pretty boots +:+ " sd=" +:+ cards.1 +:+ " " +:+
       "sdio_address=" +:+ cards.2 +:+ " sample_sha256=" +:+ sample +:+ " " +:+
       "kernel_sha256=" +:+ payload.1 +:+ " dtb_sha256=" +:+ payload.2]
  end.

(** [assert expected_payload and expected_identity and expected_sample] *)
Definition all_known (expected : option identity) : bool :=
  match expected with Some (_, _, sample) => bool_decide (sample ≠ "") | None => false end.

(** [main], with the parsed arguments. *)
Definition main {W} (H : host W) (env : environment) (fuel : nat) (port : string) (boots timeout : Z)
    (directory : artifact_dir) (a : options) : io W Z :=
  lift (raise_when (boots < 1) SystemExit "--boots must be at least 1") ;;
  lift (raise_when (write_test a = true ∧ boots ≠ 1) SystemExit "--write-test requires --boots 1") ;;
  lift (raise_when (soak_cycles a < 0 ∨ soak_cycles a > 600) SystemExit "--soak-cycles must be between 0 and 600") ;;
  lift (raise_when (soak_cycles a ≠ 0 ∧ boots ≠ 1) SystemExit "--soak-cycles requires --boots 1") ;;
  with_artifacts (artifact_record directory) (λ artifacts,
    seen ← boot_loop (Z.to_nat boots) 1 (capture_boot H env fuel (write_test a) (soak_cycles a) port timeout)
             (announce boots) (check_boot a artifacts.2) None;
    conclude_assert all_known (pass_lines boots artifacts.1) seen).

(** ** A captured sample is not empty *)

Lemma times_chr k c p cs q : In q (matches (Times k (Chr c)) p cs) →
  (String.length (rest q.1) + k = String.length (rest p))%nat ∧ q.2 = cs.
Proof.
  revert p cs. induction k as [|k IH]; intros p cs; cbn [Times matches]; [intros [<-|[]]; split; [cbn; lia|done]|].
  intros (q1 & H1 & H2)%in_flat_map. destruct (rest p) as [|a s]; [done|]. unfold when in H1.
  destruct (in_cls c a); [|done]. destruct H1 as [<-|[]]. apply IH in H2. cbn in *. split; [lia|tauto].
Qed.

Lemma length_str_take n s : (n ≤ String.length s)%nat → String.length (str_take n s) = n.
Proof.
  revert s. induction n as [|n IH]; intros s; [by destruct s|]. destruct s as [|a s]; cbn; [lia|]. intros ?. f_equal. apply IH. lia.
Qed.

(** The last group of a pattern that ends in it. *)
Definition ends_in_hex (r : re) (k : nat) : Prop :=
  ∃ a b c cls, r = Seq a (Seq b (Seq c (Grp "1" (Times k (Chr cls))))).

Lemma hex_group r k s m : ends_in_hex r k → search r s = Some m → String.length (group m "1") = k.
Proof.
  intros (a & b & c & cls & ->). set (r := Seq a _). unfold search. generalize (@None ascii).
  assert (∀ p m, match_at r p = Some m → String.length (group m "1") = k) as Hat.
  { intros p m'. unfold match_at. destruct (matches r p []) as [|q l] eqn:E; [done|]. intros [= <-].
    assert (In q (matches r p [])) as Hin by (rewrite E; by left). unfold r in Hin. cbn [matches] in Hin.
    apply in_flat_map in Hin as (q1 & _ & Hin). apply in_flat_map in Hin as (q2 & _ & Hin).
    apply in_flat_map in Hin as (q3 & _ & Hin). apply in_map_iff in Hin as (q4 & <- & [Hl Hc]%times_chr).
    unfold group. cbn [m_caps snd assoc]. rewrite decide_True by done. unfold default, from_option, id, between.
    rewrite length_str_take; lia. }
  induction s as [|x s IH]; intros before; cbn [search_from].
  - destruct (match_at r _) eqn:E; [|done]. intros [= <-]. by eapply Hat.
  - destruct (match_at r _) eqn:E; [|apply IH]. intros [= <-]. by eapply Hat.
Qed.

Lemma before_hex m log : search BEFORE_RE log = Some m → group m "1" ≠ "".
Proof.
  intros E. apply (hex_group BEFORE_RE 64) in E.
  - intros En. by rewrite En in E.
  - do 4 eexists. unfold BEFORE_RE. cbn [Times]. reflexivity.
Qed.

(** ** What a pass means *)

(** The cards, and one sample of the storage before, during and after the traffic. *)
Record boot_ok (a : options) (artifact_payload : string * string) (log : string) (key : identity) : Prop := {
  ok_markers : ∀ marker, marker ∈ required a → marker_seen log marker = true;
  ok_no_failure : ∀ marker, marker ∈ FORBIDDEN_MARKERS → marker_seen log marker = false;
  ok_payload : payload_hashes log = Ok artifact_payload ∧ key.1.1 = artifact_payload;
  ok_cards : ∃ sd sdio, search SD_RE log = Some sd ∧ search SDIO_RE log = Some sdio
    ∧ key.1.2 = (group sd "1", group sdio "1");
  ok_sample : ∃ before after reconnect,
    search BEFORE_RE log = Some before ∧ search AFTER_RE log = Some after ∧ search RECONNECT_RE log = Some reconnect
    ∧ group before "1" = key.2 ∧ group after "1" = key.2 ∧ group reconnect "1" = key.2;
}.

Lemma sample_hashes_ok log x : sample_hashes log = Ok x ↔
  ∃ before after reconnect,
    search BEFORE_RE log = Some before ∧ search AFTER_RE log = Some after ∧ search RECONNECT_RE log = Some reconnect
    ∧ group before "1" = x.1.1 ∧ group after "1" = x.1.1 ∧ group reconnect "1" = x.1.1
    ∧ x = (x.1.1, x.1.1, x.1.1).
Proof.
  unfold sample_hashes. split.
  - destruct (search BEFORE_RE log) as [b|]; [|done]. destruct (search AFTER_RE log) as [f|]; [|done].
    destruct (search RECONNECT_RE log) as [r|]; [|done]. rewrite raise_when_ok. intros [Hn [= <-]].
    assert (group b "1" = group f "1" ∧ group b "1" = group r "1") as [E1 E2] by (split; apply dec_stable; tauto).
    exists b, f, r. cbn [fst snd]. split_and!; try done. by rewrite <- E1, <- E2.
  - intros (b & f & r & -> & -> & -> & E1 & E2 & E3 & ->). cbn [fst snd] in *. rewrite raise_when_ok, E1, E2, E3.
    split; [by intros [?|?]|done].
Qed.

Lemma m6c_evaluate_ok log key : evaluate log = Ok key ↔
  payload_hashes log = Ok key.1.1
  ∧ (∃ sd sdio, search SD_RE log = Some sd ∧ search SDIO_RE log = Some sdio ∧ key.1.2 = (group sd "1", group sdio "1"))
  ∧ (∃ before after reconnect,
    search BEFORE_RE log = Some before ∧ search AFTER_RE log = Some after ∧ search RECONNECT_RE log = Some reconnect
    ∧ group before "1" = key.2 ∧ group after "1" = key.2 ∧ group reconnect "1" = key.2).
Proof.
  destruct key as [[p cards] sample]. cbn [fst snd]. unfold evaluate. rewrite bind_ok_inv. setoid_rewrite bind_ok_inv.
  setoid_rewrite bind_ok_inv. setoid_rewrite sample_hashes_ok. unfold identities. split.
  - intros (? & Hp & ? & Hc & x & (b & f & r & Eb & Ef & Er & E1 & E2 & E3 & _) & [= -> -> <-]).
    split_and!; [done| |by exists b, f, r].
    destruct (search SD_RE log) as [sd|]; [|done]. destruct (search SDIO_RE log) as [sdio|]; [|done].
    injection Hc as <-. by exists sd, sdio.
  - intros (Hp & (sd & sdio & -> & -> & ->) & b & f & r & Eb & Ef & Er & E1 & E2 & E3).
    exists p. split; [done|]. eexists. split; [done|]. exists (sample, sample, sample). split; [|done].
    by exists b, f, r.
Qed.

Lemma m6c_check_boot_spec a artifact_payload boot e log seen' :
  check_boot a artifact_payload boot e log = Ok (inr seen') ↔
  ∃ k (_ : unit), boot_ok a artifact_payload log k ∧ (e = None ∨ e = Some k) ∧ seen' = Some k.
Proof.
  unfold check_boot. cbv zeta. split.
  - case_decide as Hd; [done|]. rewrite not_failed, unseen_markers_nil, seen_markers_nil in Hd. destruct Hd as [Ha Hp].
    destruct (evaluate log) as [key|] eqn:Ee; [|by destruct (caught _ _)].
    apply m6c_evaluate_ok in Ee as (Hk & ? & ?). case_decide as Hx; [done|]. intros [= [E ->]%compare_with_spec].
    exists key, tt. split; [constructor; try done|done]. by rewrite <- Hx.
  - intros (key & _ & [Hm Hf [Hp Hk] Hc Hs] & He & ->).
    rewrite decide_False by (by rewrite not_failed, unseen_markers_nil, seen_markers_nil).
    rewrite (proj2 (m6c_evaluate_ok log key)) by (rewrite Hk; done).
    rewrite decide_False by (by intros ?). f_equal. by apply compare_with_spec.
Qed.

Section Gate.
Context {W : Type} (H : host W) (env : environment) (fuel : nat) (port : string) (boots timeout : Z)
  (directory : artifact_dir) (a : options).

Definition passes (s s' : st W) : Prop :=
  ¬ boots < 1 ∧ ¬ (write_test a = true ∧ boots ≠ 1) ∧ ¬ (soak_cycles a < 0 ∨ soak_cycles a > 600)
  ∧ ¬ (soak_cycles a ≠ 0 ∧ boots ≠ 1) ∧
  ∃ artifacts, artifact_record directory = Ok artifacts ∧
  ∃ logs key s1,
    length logs = Z.to_nat boots
    ∧ booted (capture_boot H env fuel (write_test a) (soak_cycles a) port timeout) (announce boots) 1 s logs s1
    ∧ (∀ log, log ∈ logs → boot_ok a artifacts.2 log key)
    ∧ s' = printed (pass_lines boots artifacts.1 (Some key)) s1.

Lemma m6c_exits s : wlp (main H env fuel port boots timeout directory a) (exits (passes s)) s.
Proof.
  do 4 (apply wlp_guard; intros ?). apply wlp_artifacts. intros artifacts _.
  eapply wlp_exits_iff; [|intros s'; apply (unmeasured_iff (boot_ok a artifacts.2))].
  apply (series_exit (check_boot a artifacts.2) (λ e (_ : list unit), e) (λ log k _, boot_ok a artifacts.2 log k)); [| |lia].
  - intros. apply m6c_check_boot_spec.
  - intros log [[p c] x] _ _ [_ _ _ _ (b & _ & _ & Hb & _ & _ & Ex & _)]. cbn [snd] in Ex.
    apply before_hex in Hb. rewrite Ex in Hb. by apply bool_decide_eq_true.
Qed.

Lemma m6c_capture_steady `{!TimedHost H} : lasts H fuel timeout →
  steady H (capture_boot H env fuel (write_test a) (soak_cycles a) port timeout).
Proof.
  intros Hf. apply steady_bind; [apply steady_check_run|]. intros _.
  apply steady_bind; [apply steady_open_probe|]. intros d.
  apply steady_finally; [|apply steady_cancel_and_release]. apply steady_bind; [steady_step|intros _].
  apply steady_capture; [done..|apply read_takes_time| |intros; steady_step].
  intros [sent seen] chunk captured. unfold on_text. cbv zeta. repeat steady_step.
Qed.

End Gate.

(** C28: On a host whose clock advances, and with fuel for the timeout that is
    asked for, the M6 combined gate ends, and it exits with 0 exactly when the arguments are
    in range (at least one boot; one boot only with a write test or a soak; at most 600
    cycles), the artifacts are complete, and as many boots as asked for were captured, each
    of which showed, in the output of the device and not only in the echo of the command,
    every required marker, among them those of the options, and no forbidden one, booted the
    very kernel and device tree of the artifacts, found both cards, and read one and the same
    sample of the storage before, during and after the traffic, with the same identities on
    every boot; then the pass lines are printed.  Otherwise it exits with 1 or passes on an
    exception. *)
Theorem m6_combined_gate {W} (H : host W) `{!TimedHost H} env fuel port boots timeout directory a s :
  lasts H fuel timeout →
  wp (main H env fuel port boots timeout directory a)
    (exits (passes H env fuel port boots timeout directory a s)) s.
Proof.
  intros Hf. eapply wp_mono; [apply wp_and; [|apply m6c_exits]|by intros r s' [_ ?]].
  assert (steady H (main H env fuel port boots timeout directory a)) as Hm; [|apply Hm].
  do 4 (apply steady_bind; [steady_step|intros _]). apply steady_artifacts. intros artifacts.
  apply steady_bind; [by apply steady_boot_loop, m6c_capture_steady|]. intros seen. apply steady_conclude.
Qed.

(** Passing and failing runs.  The last marker also stands in the echo of the
    command, which does not count. *)
Definition sample_log (after : string) (markers : list string) : list string :=
  markers ++
  ["I (900) micronux_m3: MICRONUX:M3:KERNEL bytes=0 sha256=" +:+ sha256_hex [];
   "I (901) micronux_m3: MICRONUX:M3:DTB bytes=0 sha256=" +:+ sha256_hex [];
   "mmc0: new high speed SDHC card at address aaaa"; "mmc1: new SDIO card at address 0001";
   "MICRONUX:M6:DSI state=disabled reason=profile-off";
   "/ # echo MICRONUX:M6:COMBINED:DONE";
   "MICRONUX:M6:COMBINED:HASH-BEFORE"; hash_of "c"; "MICRONUX:M6:COMBINED:HASH-AFTER"; hash_of after;
   "MICRONUX:M6:COMBINED:HASH-RECONNECT"; hash_of "c"].

Definition sample_dir : artifact_dir := {| path_of := λ name, "out/" +:+ name; file_of := λ _, Some [] |}.
Definition sample_options : options := {|
  write_test := false; soak_cycles := 0; expect_mipi_adapter := None; expect_mipi_profile := false |}.

Definition sample_run (log : list string) : option (result Z * string) :=
  (λ o, (o.1, List.last (splitlines (stderr o.2)) "")) <$>
    main replay_host bench_environment 100 "COM1" 1 (ms 700) sample_dir sample_options (replaying [console log]).

Example m6_combined_examples :
  (sample_run (sample_log "c" REQUIRED_MARKERS),
   sample_run (sample_log "d" REQUIRED_MARKERS),
   sample_run (sample_log "c" (removelast REQUIRED_MARKERS)))
  = (Some (Ok 0, ""), Some (Ok 1, "combined boot 1: microSD sample changed during concurrent/reconnect traffic"),
     Some (Ok 1, "combined boot 1 missing: MICRONUX:M6:COMBINED:DONE")).
Proof. by_compute. Qed.

(** The documented long run: half an hour for a boot, 120 cycles. *)
Definition long_run : options := {|
  write_test := false; soak_cycles := 120; expect_mipi_adapter := None; expect_mipi_profile := false |}.

Lemma m6_combined_gate_witness :
  let s := replaying [console (sample_log "c" REQUIRED_MARKERS)] in
  lasts replay_host (Z.to_nat 40001) (seconds 1800)
  ∧ wp (main replay_host bench_environment (Z.to_nat 40001) "COM1" 1 (seconds 1800) sample_dir long_run)
      (exits (passes replay_host bench_environment (Z.to_nat 40001) "COM1" 1 (seconds 1800) sample_dir long_run s)) s.
Proof.
  assert (lasts replay_host (Z.to_nat 40001) (seconds 1800)) as Hl by (apply Z.leb_le; by_compute).
  split; [exact Hl|]. apply (m6_combined_gate replay_host bench_environment (Z.to_nat 40001) "COM1" 1 (seconds 1800) sample_dir long_run).
  exact Hl.
Defined.
