(* ===== verification/GateM8.v ===== *)
(** * The M8 device-service gate

    scripts/m8-device-test.py: one boot, one long command for the device service,
    and a verdict on the device output and on the booted payload. *)

From S2P Require Import Prelude PyBytes PyStr Utf8 Sha256 Regex Io Session Boots.

Definition REQUIRED_MARKERS : list string := [
  "MICRONUX:M8:SERVICE state=ready abi=1.0";
  "MICRONUX:M8:SHELL:API:RC=0";
  "MICRONUX:M8:SHELL:LIST:RC=0";
  "MICRONUX:M8:NATIVE:PASS abi=1.0";
  "MICRONUX:M8:SHELL:NATIVE:RC=0";
  "MICRONUX:M8:IGNITE:PASS abi=1.0 uid=65534";
  "MICRONUX:M8:SHELL:IGNITE:RC=0";
  "MICRONUX:M8:IGNITE:FAULT fault=bad operand";
  "MICRONUX:M8:SHELL:IGNITE-FAULT:RC=1";
  "MICRONUX:M8:SHELL:IGNITE-RECOVERY:RC=0";
  "MICRONUX:M8:PERMISSION:PASS uid=65534 observe=allowed admin=denied";
  "MICRONUX:M8:AUDIT uid=65534 op=4 decision=deny";
  "MICRONUX:M8:SHELL:PERMISSION:RC=0";
  "MICRONUX:M8:RAW-MMIO:PASS devmem=absent devkmem=absent";
  "MICRONUX:M8:CONCURRENT:RC=0";
  "MICRONUX:M8:WAIT:RC=75";
  "MICRONUX:M8:APP-CRASH:RC=0";
  "MICRONUX:M8:SERVICE restart status=137";
  "MICRONUX:M8:SERVICE-RECOVERY:RC=0";
  "MICRONUX:M8:DONE"
].

Definition FORBIDDEN_MARKERS : list string := [
  "MICRONUX:M8:SERVICE:FAIL";
  "MICRONUX:M3:FAIL";
  "Kernel panic";
  "Oops:";
  "BUG:";
  "Unhandled"
].

Definition ARTIFACTS : list string := ["Image"; "esp32p4-micronux.dtb"; "metadata.bin"; "rootfs.cpio"].

Definition test_command : string :=
  "/usr/bin/micronux-device api; " +:+
  "echo MICRONUX:M8:SHELL:API:RC=$?; " +:+
  "/usr/bin/micronux-device list --json; " +:+
  "echo MICRONUX:M8:SHELL:LIST:RC=$?; " +:+
  "/usr/bin/micronux-device-native; " +:+
  "echo MICRONUX:M8:SHELL:NATIVE:RC=$?; " +:+
  "/usr/bin/micronux-ignite; " +:+
  "echo MICRONUX:M8:SHELL:IGNITE:RC=$?; " +:+
  "/usr/bin/micronux-ignite " +:+
  "/usr/share/micronux/ignite/device-fault.igpk; " +:+
  "echo MICRONUX:M8:SHELL:IGNITE-FAULT:RC=$?; " +:+
  "/usr/bin/micronux-device api; " +:+
  "echo MICRONUX:M8:SHELL:IGNITE-RECOVERY:RC=$?; " +:+
  "/usr/bin/micronux-device-selftest; " +:+
  "echo MICRONUX:M8:SHELL:PERMISSION:RC=$?; " +:+
  "if [ ! -e /dev/mem ] && [ ! -e /dev/kmem ]; then " +:+
  "echo MICRONUX:M8:RAW-MMIO:PASS devmem=absent devkmem=absent; " +:+
  "else echo MICRONUX:M8:RAW-MMIO:FAIL; fi; " +:+
  "/bin/busybox ip link set ethsta0 down; " +:+
  "(/usr/bin/micronux-device wait network 2000; " +:+
  "echo MICRONUX:M8:WAIT:RC=$?) & " +:+
  "wait_pid=$!; " +:+
  "/usr/bin/micronux-device api; " +:+
  "echo MICRONUX:M8:CONCURRENT:RC=$?; wait $wait_pid; " +:+
  "/usr/bin/micronux-device wait network 10000 >/dev/null 2>&1 & " +:+
  "app_pid=$!; /bin/busybox sleep 1; " +:+
  "/bin/busybox kill -KILL $app_pid; /bin/busybox sleep 1; " +:+
  "/usr/bin/micronux-device api; " +:+
  "echo MICRONUX:M8:APP-CRASH:RC=$?; " +:+
  "service_pid=$(/bin/busybox cat /run/micronux/deviced.pid); " +:+
  "/bin/busybox kill -KILL $service_pid; /bin/busybox sleep 3; " +:+
  "/usr/bin/micronux-device api; " +:+
  "echo MICRONUX:M8:SERVICE-RECOVERY:RC=$?; " +:+
  "echo MICRONUX:M8:DONE" +:+ nl.

(** ** Capturing the boot *)

Section Capture.
Context {W : Type} (H : host W) (env : environment) (fuel : nat).

Definition rom_reset (port : string) : io W unit := check_run H env (chip_id_command env port).

Definition on_text (d : device) (state : bool * option Z) (_ captured : bytes)
    : io W ((bool * option Z) + bytes) :=
  let '(command_sent, done_seen_at) := state in
  let text := decode captured in
  command_sent ←
    (if negb command_sent && contains "MICRONUX:M6:COMBINED:SHELL ready" text
        && contains "MICRONUX:M8:SERVICE state=ready" text
     then sleep H (ms 200) ;; write H d (encode test_command) ;; flush H d ;; mret true
     else mret command_sent);
  seen ←
    (if marker_seen text "MICRONUX:M8:DONE" then
       now ← monotonic H;
       mret (match done_seen_at with
             | None => Some (Some now)
             | Some seen => if decide (ms 500 ≤ now - seen) then None else Some (Some seen)
             end)
     else mret (Some done_seen_at));
  match seen with
  | None => mret (inr captured)
  | Some seen =>
      if existsb (marker_seen text) FORBIDDEN_MARKERS then sleep H (ms 200) ;; mret (inr captured)
      else mret (inl (command_sent, seen))
  end.

Definition capture (port : string) (timeout : Z) : io W string :=
  rom_reset port ;;
  d ← open_probe H port;
  now ← monotonic H;
  finally (
    reset_input_buffer H d ;;
    captured ← capture_loop H fuel (read H d 4096) (now + timeout) (on_text d) (false, None) [];
    mret (decode captured))
  (cancel_and_release H d).

End Capture.

(** ** The verdict *)

(** [str(FileNotFoundError(path))] is the path. *)
Definition artifact_digest (directory : artifact_dir) : result (string * (string * string)) :=
  records ← map_result (λ name,
    match file_of directory name with
    | None => Err (Exn FileNotFoundError (path_of directory name))
    | Some content => Ok (name +:+ "=" +:+ pretty (blen content) +:+ "B:" +:+ sha256_hex content)
    end) ARTIFACTS;
  Ok (str_join " " records, (digest_of directory "Image", digest_of directory "esp32p4-micronux.dtb")).

Definition payload_hashes (log : string) : result (string * string) :=
  match search KERNEL_HASH_RE log, search DTB_HASH_RE log with
  | Some kernel, Some dtb => Ok (group kernel "1", group dtb "1")
  | _, _ => Err (Exn ValueError "boot did not report payload hashes")
  end.

Record options := {
  log_path : option string;
  expect_m7_early_deny : bool;
  expect_mipi_profile : bool;
}.

Definition EARLY_DENY : string :=
  "MICRONUX:M7:PMP baseline=pass early-deny=pass " +:+ "handoff=13-14-unlocked overlay=13-14".
Definition JD9365_PROFILE : string :=
  "MICRONUX:M6:DSI state=ready profile=jd9365-800x1280 " +:+
  "resolution=800x1280 lanes=2 lane_mbps=1500 dpi_mhz=80 " +:+
  "format=rgb565 " +:+
  "pattern=framebuffer".

Definition missing_of (a : options) (log : string) : list string :=
  unseen_markers REQUIRED_MARKERS log ++
  (if expect_m7_early_deny a && negb (marker_seen log EARLY_DENY) then [EARLY_DENY] else []) ++
  (if expect_mipi_profile a && negb (marker_seen log JD9365_PROFILE)
   then ["MICRONUX:M6:DSI exact Kit C JD9365 profile"] else []).

(** The lines for [sys.stderr] of a failed run. *)
Definition failed (missing forbidden : list string) (log : string) : list string :=
  ["--- complete serial log ---"; log] ++
  (if decide (missing = []) then [] else ["M8 missing: " +:+ listed missing]) ++
  (if decide (forbidden = []) then [] else ["M8 rejected: " +:+ listed forbidden]).

Definition PASS : string :=
  "M8 device-service gate passed: abi=1.0 policy=peer-credentials nonblocking=pass recovery=pass raw-mmio=denied".

Definition judge {W} (a : options) (artifacts : string) (artifact_payload : string * string) (log : string) : io W Z :=
  let missing := missing_of a log in
  let forbidden := seen_markers FORBIDDEN_MARKERS log in
  match payload_hashes log with
  | Err e => if caught [ValueError] e then print_err (exn_msg e) ;; mret 1 else lift (Err e)
  | Ok booted_payload =>
      if decide (booted_payload ≠ artifact_payload) then
        print_err ("booted payload " +:+ repr_pair booted_payload +:+ " does not match artifacts " +:+
                   repr_pair artifact_payload) ;;
        mret 1
      else
        print (str_join nl (filter (λ line, contains "MICRONUX:M8:" line = true) (output_lines log))) ;;
        if decide (missing ≠ [] ∨ forbidden ≠ []) then report_errors (failed missing forbidden log) ;; mret 1
        else print_all ["M8 artifacts: " +:+ artifacts; PASS] ;; mret 0
  end.

(** [main], with the parsed arguments. *)
Definition main {W} (H : host W) (env : environment) (fuel : nat) (port : string) (timeout : Z)
    (directory : artifact_dir) (a : options) : io W Z :=
  outcome ← catch [OSError; CalledProcessError]
    (artifacts ← lift (artifact_digest directory); log ← capture H env fuel port timeout; mret (inl (artifacts, log)))
    (λ error, mret (inr error));
  match outcome with
  | inr error => print_err (exn_msg error) ;; mret 1
  | inl (artifacts, log) =>
      match log_path a with
      | Some path => make_parent H path ;; write_text H path log
      | None => mret tt
      end ;;
      judge a artifacts.1 artifacts.2 log
  end.

(** ** What a pass means *)

Record boot_ok (a : options) (artifact_payload : string * string) (log : string) : Prop := {
  ok_markers : ∀ marker, marker ∈ REQUIRED_MARKERS → marker_seen log marker = true;
  ok_early_deny : expect_m7_early_deny a = true → marker_seen log EARLY_DENY = true;
  ok_profile : expect_mipi_profile a = true → marker_seen log JD9365_PROFILE = true;
  ok_no_failure : ∀ marker, marker ∈ FORBIDDEN_MARKERS → marker_seen log marker = false;
  ok_payload : payload_hashes log = Ok artifact_payload;
}.

Lemma missing_of_nil a log : missing_of a log = [] ↔
  (∀ marker, marker ∈ REQUIRED_MARKERS → marker_seen log marker = true)
  ∧ (expect_m7_early_deny a = true → marker_seen log EARLY_DENY = true)
  ∧ (expect_mipi_profile a = true → marker_seen log JD9365_PROFILE = true).
Proof.
  unfold missing_of. rewrite !app_nil, unseen_markers_nil.
  destruct (expect_m7_early_deny a), (marker_seen log EARLY_DENY), (expect_mipi_profile a), (marker_seen log JD9365_PROFILE);
    cbn; intuition congruence.
Qed.

Section Gate.
Context {W : Type} (H : host W) (env : environment) (fuel : nat) (port : string) (timeout : Z)
  (directory : artifact_dir) (a : options).

(** The log is kept if asked for. *)
Definition save (log : string) : io W unit :=
  match log_path a with Some path => make_parent H path ;; write_text H path log | None => mret tt end.

Definition device_lines (log : string) : string :=
  str_join nl (filter (λ line, contains "MICRONUX:M8:" line = true) (output_lines log)).

(** The artifacts exist, the captured log satisfies the specification with their
    payload and has been saved, and the verdict is printed. *)
Definition passes (s s' : st W) : Prop :=
  ∃ artifacts payload log s1 s2,
    artifact_digest directory = Ok (artifacts, payload)
    ∧ capture H env fuel port timeout s = Some (Ok log, s1)
    ∧ save log s1 = Some (Ok tt, s2)
    ∧ boot_ok a payload log
    ∧ s' = printed [device_lines log; "M8 artifacts: " +:+ artifacts; PASS] s2.

Lemma judge_run artifacts payload log (s : st W) :
  ∃ code s', judge a artifacts payload log s = Some (Ok code, s')
    ∧ (code = 0 ∨ code = 1) ∧ (code = 0 ↔ boot_ok a payload log)
    ∧ (code = 0 → s' = printed [device_lines log; "M8 artifacts: " +:+ artifacts; PASS] s).
Proof.
  unfold judge. cbv zeta.
  destruct (payload_hashes log) as [booted|e] eqn:Ep.
  2: { assert (caught [ValueError] e = true) as ->.
       { unfold payload_hashes in Ep. destruct (search KERNEL_HASH_RE log), (search DTB_HASH_RE log); [done|by injection Ep as <-..]. }
       eexists 1, _. split; [done|]. split_and!; [by right| |done]. split; [done|]. intros [_ _ _ _ ?]. congruence. }
  case_decide as Hp.
  { eexists 1, _. split; [done|]. split_and!; [by right| |done]. split; [done|]. intros [_ _ _ _ ?]. congruence. }
  case_decide as Hm.
  - destruct (report_errors_run (failed (missing_of a log) (seen_markers FORBIDDEN_MARKERS log) log)
                (printed [device_lines log] s)) as [e He].
    exists 1. eexists. split; [|split_and!; [by right| |intros [=]]].
    + apply bind_returned. exists tt, (printed [device_lines log] s). split; [reflexivity|].
      apply bind_returned. exists tt. eexists. split; [exact He|reflexivity].
    + split; [done|]. intros [H1 H2 H3 H4 _]. exfalso. destruct Hm as [Hm|Hm]; apply Hm.
      * by apply missing_of_nil.
      * by apply seen_markers_nil.
  - apply not_failed in Hm. rewrite missing_of_nil, seen_markers_nil in Hm. destruct Hm as [(H1 & H2 & H3) H4].
    exists 0. eexists. split; [|split_and!; [by left| |by intros _]].
    + apply bind_returned. exists tt, (printed [device_lines log] s). split; [reflexivity|].
      apply bind_returned. exists tt. eexists. split; [apply print_all_run|].
      by rewrite (printed_cons (device_lines log) ["M8 artifacts: " +:+ artifacts; PASS]).
    + split; [|done]. intros _. constructor; [done..|]. by rewrite <- Hp.
Qed.

(** The guarded part of [main]. *)
Definition attempt_capture : io W ((string * (string * string)) * string + exn) :=
  catch [OSError; CalledProcessError]
    (artifacts ← lift (artifact_digest directory); log ← capture H env fuel port timeout; mret (inl (artifacts, log)))
    (λ error, mret (inr error)).

Lemma attempt_capture_ok artifacts log s s1 :
  attempt_capture s = Some (Ok (inl (artifacts, log)), s1) ↔
  artifact_digest directory = Ok artifacts ∧ capture H env fuel port timeout s = Some (Ok log, s1).
Proof.
  unfold attempt_capture, catch, lift, mbind, io_bind.
  destruct (artifact_digest directory) as [x|e].
  2: { destruct (caught _ e); split; try done; by intros []. }
  destruct (capture H env fuel port timeout s) as [[[l|e] s2]|].
  - cbn. split; [by intros [= -> -> ->]|by intros [[= ->] [= -> ->]]].
  - destruct (caught _ e); split; try done; by intros [].
  - split; try done; by intros [].
Qed.

Lemma main_passes s s' : main H env fuel port timeout directory a s = Some (Ok 0, s') ↔ passes s s'.
Proof.
  split.
  - intros ([[[artifacts payload] log]|error] & s1 & Ho & E)%bind_returned.
    + apply attempt_capture_ok in Ho as [Ha Hc]. apply bind_returned in E as ([] & s2 & Hs & E).
      destruct (judge_run artifacts payload log s2) as (code & s3 & Ej & _ & Hiff & Hs').
      cbn [fst snd] in E. rewrite Ej in E. injection E as -> ->.
      exists artifacts, payload, log, s1, s2. split_and!; [done..|by apply Hiff|by apply Hs'].
    + by apply bind_returned in E as (? & ? & _ & ?).
  - intros (artifacts & payload & log & s1 & s2 & Ha & Hc & Hs & Hok & ->).
    apply bind_returned. exists (inl ((artifacts, payload), log)), s1. split; [by apply attempt_capture_ok|].
    apply bind_returned. exists tt, s2. split; [done|].
    destruct (judge_run artifacts payload log s2) as (code & s3 & Ej & _ & Hiff & Hs'). cbn [fst snd].
    rewrite Ej. apply Hiff in Hok as ->. by rewrite Hs'.
Qed.

Lemma m8_exits s : wlp (main H env fuel port timeout directory a) (exits (passes s)) s.
Proof.
  unfold wlp. destruct (main H env fuel port timeout directory a s) as [[[code|e] s']|] eqn:E; [| |done]; cbn [exits].
  - split.
    + rewrite <- main_passes, E. split; [by intros ->|congruence].
    + apply bind_returned in E as ([[[artifacts payload] log]|error] & s1 & _ & E).
      * apply bind_returned in E as ([] & s2 & _ & E).
        destruct (judge_run artifacts payload log s2) as (code' & s3 & Ej & Hc & _). cbn [fst snd] in E. congruence.
      * right. by apply bind_returned in E as (? & ? & _ & [= <- _]).
  - intros s'' Hp%main_passes. congruence.
Qed.

Lemma judge_steady `{!TimedHost H} artifacts payload log : steady H (judge a artifacts payload log).
Proof.
  unfold judge. cbv zeta. destruct (payload_hashes log); [|repeat steady_step]. case_decide; [repeat steady_step|].
  apply steady_bind; [steady_step|intros _]. case_decide.
  - apply steady_bind; [apply steady_report_errors|intros _; steady_step].
  - apply steady_bind; [apply steady_print_all|intros _; steady_step].
Qed.

Lemma m8_capture_steady `{!TimedHost H} : lasts H fuel timeout →
  steady H (capture H env fuel port timeout).
Proof.
  intros Hf. apply steady_bind; [apply steady_check_run|]. intros _.
  apply steady_bind; [apply steady_open_probe|]. intros d.
  apply steady_window; [done..|apply read_takes_time| |intros; steady_step|steady_step|apply steady_cancel_and_release].
  intros [sent seen] chunk captured. unfold on_text. cbv zeta. repeat steady_step.
Qed.

End Gate.

(** The M8 gate ends, and exits with 0 exactly when the artifacts exist, the
    boot was captured and saved, the device output shows every required marker,
    those of the expected profiles included, and no forbidden one, and the booted
    kernel and device tree are those of the artifacts.  Otherwise it exits with 1
    or passes on an exception. *)
Theorem m8_gate {W} (H : host W) `{!TimedHost H} env fuel port timeout directory a s :
  lasts H fuel timeout →
  wp (main H env fuel port timeout directory a)
    (exits (passes H env fuel port timeout directory a s)) s.
Proof.
  intros Hf. eapply wp_mono; [apply wp_and; [|apply m8_exits]|by intros r s' [_ ?]].
  assert (steady H (main H env fuel port timeout directory a)) as Hm; [|apply Hm].
  apply steady_bind.
  - apply steady_catch; [|intros; steady_step]. apply steady_bind; [steady_step|intros artifacts].
    apply steady_bind; [by apply m8_capture_steady|intros; steady_step].
  - intros [[artifacts log]|error]; [|repeat steady_step]. apply steady_bind; [destruct (log_path a); repeat steady_step|].
    intros _. apply judge_steady.
Qed.

(** Passing and failing runs. *)
Definition sample_log (kernel : bytes) : list string :=
  ["I (900) micronux_m3: MICRONUX:M3:KERNEL bytes=0 sha256=" +:+ sha256_hex kernel;
   "I (901) micronux_m3: MICRONUX:M3:DTB bytes=0 sha256=" +:+ sha256_hex []] ++ REQUIRED_MARKERS.

Definition sample_dir : artifact_dir := {| path_of := λ name, "out/" +:+ name; file_of := λ _, Some [] |}.
Definition sample_options (deny : bool) : options := {|
  log_path := Some "m8.log"; expect_m7_early_deny := deny; expect_mipi_profile := false |}.

Definition sample_run (deny : bool) (log : list string) : option (result Z * string) :=
  (λ o, (o.1, List.last (splitlines (stderr o.2)) "")) <$>
    main replay_host bench_environment 100 "COM1" (ms 700) sample_dir (sample_options deny) (replaying [console log]).

Example m8_examples :
  (sample_run false (sample_log []), sample_run true (sample_log []),
   option_map fst (sample_run false (sample_log [Byte.x00])), option_map fst (sample_run false (sample_log [] ++ ["Oops: x"])))
  = (Some (Ok 0, ""), Some (Ok 1, "M8 missing: " +:+ EARLY_DENY), Some (Ok 1), Some (Ok 1)).
Proof. by_compute. Qed.

Lemma m8_gate_witness :
  let s := replaying [console (sample_log [])] in
  wp (main replay_host bench_environment (Z.to_nat 20001) "COM1" (seconds 2) sample_dir (sample_options false))
    (exits (passes replay_host bench_environment (Z.to_nat 20001) "COM1" (seconds 2) sample_dir (sample_options false) s)) s.
Proof.
  apply (m8_gate replay_host bench_environment (Z.to_nat 20001) "COM1" (seconds 2) sample_dir (sample_options false)); apply replay_lasts.
  vm_compute. discriminate.
Defined.
