(* ===== verification/GateM7Baseline.v ===== *)
(** * The M7 isolation baseline

    scripts/m7-baseline-test.py: the loader dumps the sixteen PMP entries before and
    after the handoff; on every boot both dumps must be exactly those of the chosen
    profile, and the self-test must not lose memory. *)

From S2P Require Import Prelude PyBytes PyStr Utf8 Sha256 Regex Io Session Boots.
From S2P Require PyJson.

(** ** The PMP profiles *)

(** Address and configuration of the entries by number. *)
Abbreviation pmp_map := (gmap Z (Z * Z)).

Definition EXPECTED_PRE_PMP : pmp_map := list_to_map [
  (0, (0x27FFFFFC, 0x9B));
  (1, (0x3FF0FFFC, 0x9B));
  (2, (0x4FC0FFFC, 0x9D));
  (3, (0x4FF00000, 0x80));
  (4, (0x4FFC0000, 0x8F));
  (5, (0x00000000, 0x00));
  (6, (0x41FFFFFC, 0x9D));
  (7, (0x00000000, 0x00));
  (8, (0x00000000, 0x00));
  (9, (0x00000000, 0x00));
  (10, (0x00000000, 0x00));
  (11, (0x5010BFFC, 0x9F));
  (12, (0x00000000, 0x00));
  (13, (0x00000000, 0x00));
  (14, (0x00000000, 0x00));
  (15, (0x5007FFFC, 0x9B))
].

Definition EXPECTED_POST_PMP : pmp_map :=
  <[14 := (0x49F00000, 0x8F)]> (<[13 := (0x48400000, 0x80)]> EXPECTED_PRE_PMP).

(** [_address, _config = pmp[_entry]; pmp[_entry] = (_address, 0x18)] *)
Definition deny_entry (pmp : pmp_map) (entry : Z) : pmp_map :=
  match pmp !! entry with Some (address, _) => <[entry := (address, 0x18)]> pmp | None => pmp end.

Definition EXPECTED_EARLY_DENY_PRE_PMP : pmp_map :=
  <[4 := (0x4FFC0000, 0x08)]> (<[3 := (0x4FF00000, 0x00)]>
    (foldl deny_entry EXPECTED_PRE_PMP [0; 1; 2; 6; 11; 15])).

Definition EXPECTED_EARLY_DENY_POST_PMP : pmp_map :=
  <[14 := (0x49F00000, 0x0F)]> (<[13 := (0x48400000, 0x00)]> EXPECTED_EARLY_DENY_PRE_PMP).

(** The choices of [--pmp-profile]. *)
Inductive profile := Baseline | EarlyDeny.

Definition profile_name (p : profile) : string :=
  match p with Baseline => "baseline" | EarlyDeny => "early-deny" end.

Definition PMP_PROFILES (p : profile) : pmp_map * pmp_map :=
  match p with
  | Baseline => (EXPECTED_PRE_PMP, EXPECTED_POST_PMP)
  | EarlyDeny => (EXPECTED_EARLY_DENY_PRE_PMP, EXPECTED_EARLY_DENY_POST_PMP)
  end.

Definition REQUIRED_MARKERS : list string := [
  "MICRONUX:M3:BOOT target=esp32p4 revision=103 cores=2";
  "MICRONUX:M7:PMP-DUMP phase=pre entries=16";
  "MICRONUX:M7:PMP-DUMP phase=post entries=16";
  "MICRONUX:M6:COMBINED:SHELL ready";
  "MICRONUX:M8:SERVICE state=ready abi=1.0";
  "MICRONUX:M5:SIGNALS pass count=64";
  "MICRONUX:M5:TIMERS pass count=32";
  "MICRONUX:M5:EXEC pass count=64";
  "MICRONUX:M5:MEMORY pass kib=4096";
  "MICRONUX:M5:STACK pass depth=8";
  "MICRONUX:M5:PASS";
  "MICRONUX:M7:SELFTEST:RC=0";
  "MICRONUX:M7:SERVICE:RC=0";
  "MICRONUX:M7:BASELINE:DONE"
].

Definition FORBIDDEN_MARKERS : list string := [
  "MICRONUX:M3:FAIL";
  "MICRONUX:M5:FAIL";
  "Kernel panic";
  "Oops:";
  "BUG:";
  "Unhandled";
  "watchdog reset"
].

Definition PMP_PATTERN : re := Eval vm_compute in compile false (
  "MICRONUX:M7:PMP phase=(pre|post) entry=([0-9]+) " +:+
  "addr=([0-9a-f]{8}) config=([0-9a-f]{2})").

Definition MEM_RE : re := Eval vm_compute in
  compile false "(?m)^MemFree:\s+([0-9]+) kB\r?$".

Definition target_command : string :=
  "echo MICRONUX:M7:BASELINE:BEGIN; " +:+
  "grep '^MemFree:' /proc/meminfo; " +:+
  "/usr/bin/micronux-selftest; " +:+
  "echo MICRONUX:M7:SELFTEST:RC=$?; " +:+
  "grep '^MemFree:' /proc/meminfo; " +:+
  "/usr/bin/micronux-device api >/dev/null; " +:+
  "echo MICRONUX:M7:SERVICE:RC=$?; " +:+
  "echo MICRONUX:M7:BASELINE:DONE" +:+ nl.

(** ** Capturing a boot *)

Section Capture.
Context {W : Type} (H : host W) (env : environment) (fuel : nat).

Definition rom_reset (port : string) : io W unit := check_run H env (chip_id_command env port).

Definition on_text (d : device) (state : bool * option Z) (_ captured : bytes)
    : io W ((bool * option Z) + bytes) :=
  let '(command_sent, done_seen_at) := state in
  let text := decode captured in
  command_sent ←
    (if negb command_sent && contains "MICRONUX:M6:COMBINED:SHELL ready" text
     then sleep H (seconds 3) ;; write H d (encode target_command) ;; flush H d ;; mret true
     else mret command_sent);
  seen ←
    (if marker_seen text "MICRONUX:M7:BASELINE:DONE" then
       now ← monotonic H;
       mret (match done_seen_at with
             | None => Some (Some now)
             | Some seen => if decide (ms 500 ≤ now - seen) then None else Some (Some seen)
             end)
     else mret (Some done_seen_at));
  match seen with
  | None => mret (inr captured)
  | Some seen =>
      if existsb (marker_seen text) FORBIDDEN_MARKERS then sleep H (ms 200) ;; mret (inr captured)
      else mret (inl (command_sent, seen))
  end.

Definition capture (port : string) (timeout : Z) : io W string :=
  rom_reset port ;;
  d ← open_probe H port;
  now ← monotonic H;
  finally (
    reset_input_buffer H d ;;
    captured ← capture_loop H fuel (read H d 4096) (now + timeout) (on_text d) (false, None) [];
    mret (decode captured))
  (cancel_and_release H d).

End Capture.

(** ** Reading a log *)

(** A dump in the order of its first appearance. *)
Abbreviation dump := (list (Z * (Z * Z))).

Definition dump_map (d : dump) : pmp_map := list_to_map d.

Inductive phase := Pre | Post.
#[global] Instance phase_eq_dec : EqDecision phase.
Proof. solve_decision. Defined.
Definition phase_name (p : phase) : string := match p with Pre => "pre" | Post => "post" end.

(** [phases["pre"]] and [phases["post"]] *)
Abbreviation phases := (phase → dump).

(** One match of the pattern: the phase, the entry and its value. *)
Definition pmp_sample (groups : list string) : phase * Z * (Z * Z) :=
  (if decide (nth 0 groups "" = "pre") then Pre else Post,
   int_of 10 (nth 1 groups ""),
   (int_of 16 (nth 2 groups ""), int_of 16 (nth 3 groups ""))).

(** [phases[phase][entry] = value], unless the entry has another value *)
Definition add_sample (ps : phases) (sample : phase * Z * (Z * Z)) : result phases :=
  let '(p, entry, value) := sample in
  match dump_map (ps p) !! entry with
  | Some old =>
      raise_when (old ≠ value) ValueError ("conflicting " +:+ phase_name p +:+ " PMP entry " +:+ pretty entry) ;;
      Ok ps
  | None => Ok (λ q, if decide (q = p) then ps q ++ [(entry, value)] else ps q)
  end.

Fixpoint add_samples (ps : phases) (samples : list (phase * Z * (Z * Z))) : result phases :=
  match samples with
  | [] => Ok ps
  | sample :: samples => ps ← add_sample ps sample; add_samples ps samples
  end.

Definition pmp_samples (log : string) : list (phase * Z * (Z * Z)) := map pmp_sample (findall PMP_PATTERN log).

Definition parse_pmp (log : string) : result phases := add_samples (λ _, []) (pmp_samples log).

(** [f"{pmp}"] of a dictionary of pairs *)
Definition repr_dump (d : dump) : string :=
  "{" +:+ str_join ", " (map (λ e, pretty e.1 +:+ ": (" +:+ pretty e.2.1 +:+ ", " +:+ pretty e.2.2 +:+ ")") d) +:+ "}".

(** [check_bflt(path)] on the content of the file *)
Definition check_bflt (name path : string) (content : option bytes) : result string :=
  match content with
  | None => Err (Exn FileNotFoundError ("[Errno 2] No such file or directory: " +:+ PyJson.repr_str path))
  | Some content =>
      let header := take 44 content in
      raise_when (length header ≠ 44%nat ∨ take 4 header ≠ [Byte.x62; Byte.x46; Byte.x4c; Byte.x54]) ValueError
        (name +:+ " is not a complete bFLT image") ;;
      words ← Struct.unpack Struct.Big (replicate 10 4%nat) (drop 4 header);
      let word i := nth i words 0 in
      let flags := word 8%nat in
      raise_when (word 0%nat ≠ 4 ∨ Z.land flags 1 = 0) ValueError
        (name +:+ " must be bFLT v4 with FLAT_FLAG_RAM, got revision=" +:+ pretty (word 0%nat) +:+
         " flags=" +:+ fmt_hash_x flags) ;;
      Ok (name +:+ "=v" +:+ pretty (word 0%nat) +:+ ":ram:flags=" +:+ fmt_hash_x flags +:+
          ":entry=" +:+ fmt_hash_x (word 1%nat) +:+ ":" +:+
          "data=" +:+ fmt_hash_x (word 2%nat) +:+ "-" +:+ fmt_hash_x (word 3%nat) +:+
          ":bss_end=" +:+ fmt_hash_x (word 4%nat) +:+ ":" +:+
          "stack=" +:+ pretty (word 5%nat) +:+ ":relocs=" +:+ pretty (word 7%nat) +:+
          ":build=" +:+ pretty (word 9%nat))
  end.

(** The loader image: its name, its path and its content. *)
Record image := { image_name : string; image_path : string; image_file : option bytes }.

Definition record_of (name path : string) (content : option bytes) : result string :=
  match content with
  | None => Err (Exn FileNotFoundError path)
  | Some content => Ok (name +:+ "=" +:+ pretty (blen content) +:+ "B:" +:+ sha256_hex content)
  end.

Definition artifact_record (directory : artifact_dir) (loader_image : image) : result string :=
  loader ← record_of (image_name loader_image) (image_path loader_image) (image_file loader_image);
  others ← map_result (λ name, record_of name (path_of directory name) (file_of directory name))
             ["Image"; "esp32p4-micronux.dtb"; "metadata.bin"; "rootfs.cpio"];
  Ok (str_join " " (loader :: others)).

Definition payload_hashes (log : string) : result (string * string) :=
  match search KERNEL_HASH_RE log, search DTB_HASH_RE log with
  | Some kernel_match, Some dtb_match => Ok (group kernel_match "1", group dtb_match "1")
  | _, _ => Err (Exn ValueError "boot did not report kernel and DTB hashes")
  end.

Definition handoff_marker (p : profile) : string :=
  "MICRONUX:M3:PMP entries=13,14 linux=[48400000,49f00000) " +:+
  "config=" +:+ match p with EarlyDeny => "0f lock=off" | Baseline => "8f lock=on" end.

Definition EARLY_DENY : string :=
  "MICRONUX:M7:PMP baseline=pass early-deny=pass " +:+
  "handoff=13-14-unlocked overlay=13-14 " +:+
  "linux=[48400000,49f00000)".

Definition memory_values (log : string) : list Z := map (int_of 10) (findall1 MEM_RE log).

(** Free memory before and after, both 0 without two measurements. *)
Definition memory_of (log : string) : Z * Z :=
  match memory_values log with
  | (first :: _ :: _) as memory => (first, List.last memory 0)
  | _ => (0, 0)
  end.

(** Everything that is missing, in the order of the checks. *)
Definition missing_of (max_memory_loss_kib : Z) (p : profile) (pmp : phases) (log : string) : list string :=
  unseen_markers REQUIRED_MARKERS log ++
  (if marker_seen log (handoff_marker p) then [] else ["exact " +:+ profile_name p +:+ " Linux handoff marker"]) ++
  (if match p with EarlyDeny => negb (marker_seen log EARLY_DENY) | Baseline => false end
   then ["early U-mode deny audit marker"] else []) ++
  (if decide (dump_map (pmp Pre) ≠ (PMP_PROFILES p).1) then ["exact pre-PMP map: " +:+ repr_dump (pmp Pre)] else []) ++
  (if decide (dump_map (pmp Post) ≠ (PMP_PROFILES p).2) then ["exact post-PMP map: " +:+ repr_dump (pmp Post)] else []) ++
  (if decide (length (memory_values log) < 2)%nat then ["two MemFree measurements"]
   else
     let memory_loss := (memory_of log).1 - (memory_of log).2 in
     if decide (memory_loss > max_memory_loss_kib)
     then ["memory loss <= " +:+ pretty max_memory_loss_kib +:+ " KiB " +:+
           "(observed " +:+ pretty memory_loss +:+ " KiB)"]
     else []).

Definition verify_boot (log : string) (boot max_memory_loss_kib : Z) (p : profile)
    : result (Z * Z * phases * (string * string)) :=
  pmp ← parse_pmp log;
  let missing := missing_of max_memory_loss_kib p pmp log in
  let forbidden := seen_markers FORBIDDEN_MARKERS log in
  raise_when (missing ≠ [] ∨ forbidden ≠ []) ValueError
    ("boot " +:+ pretty boot +:+ ": " +:+
     str_join "; " ((if decide (missing = []) then [] else ["missing: " +:+ listed missing]) ++
                    (if decide (forbidden = []) then [] else ["rejected: " +:+ listed forbidden]))) ;;
  hashes ← payload_hashes log;
  Ok ((memory_of log).1, (memory_of log).2, pmp, hashes).

(** ** The gate *)

Definition entry_le (a b : Z * (Z * Z)) : Prop := a.1 ≤ b.1.
#[global] Instance entry_le_dec : RelDecision entry_le.
Proof. intros a b. unfold entry_le. apply _. Defined.

Definition compact_map (d : dump) : string :=
  commas (map (λ e, pretty e.1 +:+ ":" +:+ fmt_08x e.2.1 +:+ "/" +:+ zfill 2 (fmt_x e.2.2)) (merge_sort entry_le d)).

(** What is printed for a verified boot. *)
Definition verified_lines (boots boot : Z) (memory_before memory_after : Z) (pmp : phases) : list string :=
  ["--- M7 boot " +:+ pretty boot +:+ "/" +:+ pretty boots +:+ " ---";
   "MICRONUX:M7:PMP-VERIFIED phase=pre map=" +:+ compact_map (pmp Pre);
   "MICRONUX:M7:PMP-VERIFIED phase=post map=" +:+ compact_map (pmp Post);
   "MICRONUX:M7:BOOT-VERIFIED boot=" +:+ pretty boot +:+ " " +:+
   "memory_before_kib=" +:+ pretty memory_before +:+ " memory_after_kib=" +:+ pretty memory_after +:+ " " +:+
   "memory_loss_kib=" +:+ pretty (memory_before - memory_after)].

(** The variables of [main] that the loop changes; [last_log] is [log], unbound
    before the first capture. *)
Record seen := {
  expected_hashes : option (string * string);
  memory_measurements : list (Z * Z);
  logs : list string;
  last_log : option string;
}.

Section Loop.
Context {W : Type} (capture_once : io W string) (boots max_memory_loss_kib : Z) (p : profile).

(** The [except] of the loop. *)
Definition baseline_failed (error : exn) (log : option string) : io W (seen + Z) :=
  print_err ("M7 baseline failed: " +:+ exn_msg error) ;;
  match log with
  | Some log => print_err "--- complete serial log ---" ;; print_err log
  | None => mret tt
  end ;;
  mret (inr 1).

Definition HANDLED : list exn_class := [OSError; ValueError; CalledProcessError].

Fixpoint baseline_loop (n : nat) (boot : Z) (so_far : seen) : io W (seen + Z) :=
  match n with
  | O => mret (inl so_far)
  | S n =>
      captured ← catch HANDLED (log ← capture_once; mret (inl log)) (λ error, mret (inr error));
      match captured with
      | inr error => baseline_failed error (last_log so_far)
      | inl log =>
          match verify_boot log boot max_memory_loss_kib p with
          | Err error => if caught HANDLED error then baseline_failed error (Some log) else lift (Err error)
          | Ok (memory_before, memory_after, pmp, hashes) =>
              match compare_with (expected_hashes so_far) hashes
                      ["M7 baseline failed: payload changed on boot " +:+ pretty boot] with
              | inl errors => report_errors errors ;; mret (inr 1)
              | inr expected =>
                  print_all (verified_lines boots boot memory_before memory_after pmp) ;;
                  baseline_loop n (boot + 1)
                    {| expected_hashes := expected;
                       memory_measurements := memory_measurements so_far ++ [(memory_before, memory_after)];
                       logs := logs so_far ++ [log];
                       last_log := Some log |}
              end
          end
      end
  end.

End Loop.

(** [f"\n===== M7 BOOT {boot}/{args.boots} =====\n{log}"] *)
Definition combined_log (boots : Z) (logs : list string) : string :=
  str_join "" (imap (λ i log, nl +:+ "===== M7 BOOT " +:+ pretty (Z.of_nat i + 1) +:+ "/" +:+ pretty boots +:+
                              " =====" +:+ nl +:+ log) logs).

Record options := {
  boots : Z;
  pmp_profile : profile;
  timeout : Z;
  max_memory_loss_kib : Z;
  log_path : option string;
}.

Definition pass_lines (a : options) (artifacts : string) (bflt : string * string) (so_far : seen) : list string :=
  ["M7 artifacts: " +:+ artifacts;
   "M7 bFLT: " +:+ bflt.1 +:+ " " +:+ bflt.2;
   "M7 memory: boots=" +:+ commas (map (λ m, pretty m.1 +:+ "->" +:+ pretty m.2) (memory_measurements so_far)) +:+ " " +:+
   "limit=" +:+ pretty (max_memory_loss_kib a) +:+ "KiB";
   "M7 baseline passed: boots=" +:+ pretty (boots a) +:+ " silicon=rev1.3 pmp=16 " +:+
   "profile=" +:+ profile_name (pmp_profile a) +:+ " " +:+
   "return-space=7-10,12 handoff=13-14 stress=4MiB service=recovered " +:+
   "kernel_sha256=" +:+ show_option (fst <$> expected_hashes so_far) +:+
   " dtb_sha256=" +:+ show_option (snd <$> expected_hashes so_far)].

(** The [try] before the loop. *)
Definition setup (directory : artifact_dir) (loader_image : image) : result (string * (string * string)) :=
  artifacts ← artifact_record directory loader_image;
  selftest ← check_bflt "micronux-selftest" (path_of directory "micronux-selftest") (file_of directory "micronux-selftest");
  child ← check_bflt "micronux-exec-child" (path_of directory "micronux-exec-child") (file_of directory "micronux-exec-child");
  Ok (artifacts, (selftest, child)).

Definition main {W} (H : host W) (env : environment) (fuel : nat) (port : string) (directory : artifact_dir)
    (loader_image : image) (a : options) : io W Z :=
  lift (raise_when (boots a < 1) SystemExit "--boots must be at least 1") ;;
  lift (raise_when (max_memory_loss_kib a < 0) SystemExit "--max-memory-loss-kib cannot be negative") ;;
  match setup directory loader_image with
  | Err error =>
      if caught [OSError; ValueError; CalledProcessError] error
      then print_err ("M7 baseline setup failed: " +:+ exn_msg error) ;; mret 1
      else lift (Err error)
  | Ok (artifacts, bflt) =>
      seen ← baseline_loop (capture H env fuel port (timeout a)) (boots a) (max_memory_loss_kib a) (pmp_profile a)
               (Z.to_nat (boots a)) 1
               {| expected_hashes := None; memory_measurements := []; logs := []; last_log := None |};
      match seen with
      | inr code => mret code
      | inl so_far =>
          match log_path a with
          | Some path => make_parent H path ;; write_text H path (combined_log (boots a) (logs so_far))
          | None => mret tt
          end ;;
          conclude_assert (λ so_far, found (expected_hashes so_far)) (pass_lines a artifacts bflt) (inl so_far)
      end
  end.

(** ** What a dump says *)

(** The samples do not disagree on an entry. *)
Definition consistent (samples : list (phase * Z * (Z * Z))) : Prop :=
  ∀ p entry v w, (p, entry, v) ∈ samples → (p, entry, w) ∈ samples → v = w.

(** The dumps hold these samples and nothing else. *)
Definition holds_samples (ps : phases) (samples : list (phase * Z * (Z * Z))) : Prop :=
  ∀ p entry v, dump_map (ps p) !! entry = Some v ↔ (p, entry, v) ∈ samples.

Lemma holds_samples_consistent ps samples : holds_samples ps samples → consistent samples.
Proof. intros Hps p entry v w Hv%Hps Hw%Hps. congruence. Qed.

Lemma dump_map_snoc (d : dump) entry v :
  dump_map d !! entry = None → dump_map (d ++ [(entry, v)]) = <[entry := v]> (dump_map d).
Proof.
  intros Hd. unfold dump_map in *. rewrite list_to_map_app. cbn.
  rewrite <- insert_union_r by done. by rewrite (right_id_L ∅ (∪)).
Qed.

Lemma add_sample_spec ps samples sample :
  holds_samples ps samples →
  match add_sample ps sample with
  | Ok ps' => holds_samples ps' (samples ++ [sample])
  | Err _ => ¬ consistent (samples ++ [sample])
  end.
Proof.
  intros Hps. destruct sample as [[p entry] value]. unfold add_sample.
  destruct (dump_map (ps p) !! entry) as [old|] eqn:Eold.
  - unfold raise_when. case_decide as Hd.
    + cbn. intros Hc. apply Hd. eapply Hc; [rewrite elem_of_app; left; by apply Hps|].
      rewrite elem_of_app, list_elem_of_singleton. by right.
    + cbn. intros q e v. rewrite elem_of_app, list_elem_of_singleton, (Hps q e v).
      split; [by left|]. intros [?|[= -> -> ->]]; [done|]. apply Hps. by subst.
  - intros q e v. rewrite elem_of_app, list_elem_of_singleton, <- (Hps q e v). case_decide as Hq.
    + subst q. rewrite dump_map_snoc by done. rewrite lookup_insert_Some. split.
      * intros [[-> ->]|[? ?]]; auto.
      * intros [He|[= -> ->]]; [|auto]. right. split; [congruence|done].
    + split; [by left|]. by intros [?|[= -> -> ->]].
Qed.

Lemma add_samples_spec ps before samples :
  holds_samples ps before →
  match add_samples ps samples with
  | Ok ps' => holds_samples ps' (before ++ samples)
  | Err _ => ¬ consistent (before ++ samples)
  end.
Proof.
  revert ps before. induction samples as [|sample samples IH]; intros ps before Hps; cbn [add_samples].
  - by rewrite app_nil_r.
  - apply (add_sample_spec _ _ sample) in Hps. destruct (add_sample ps sample) as [ps1|e]; cbn.
    + apply IH in Hps. by rewrite <- app_assoc in Hps.
    + intros Hc. apply Hps. intros p entry v w Hv Hw. rewrite cons_middle, app_assoc in Hc.
      eapply Hc; rewrite elem_of_app; by left.
Qed.

(** [parse_pmp] succeeds exactly on samples that agree, and keeps them all. *)
Lemma parse_pmp_spec log :
  match parse_pmp log with
  | Ok ps => holds_samples ps (pmp_samples log)
  | Err _ => ¬ consistent (pmp_samples log)
  end.
Proof.
  apply (add_samples_spec (λ _, []) [] (pmp_samples log)). intros p entry v.
  unfold dump_map. cbn. rewrite lookup_empty. set_solver.
Qed.

Definition expected_pmp (p : profile) (ph : phase) : pmp_map :=
  match ph with Pre => (PMP_PROFILES p).1 | Post => (PMP_PROFILES p).2 end.

(** The samples of a log are exactly the entries of the profile. *)
Definition pmp_exact (p : profile) (log : string) : Prop :=
  ∀ ph entry v, (ph, entry, v) ∈ pmp_samples log ↔ expected_pmp p ph !! entry = Some v.

Lemma pmp_exact_iff p log :
  pmp_exact p log ↔ ∃ ps, parse_pmp log = Ok ps ∧ ∀ ph, dump_map (ps ph) = expected_pmp p ph.
Proof.
  pose proof (parse_pmp_spec log) as Hs. split.
  - intros He. destruct (parse_pmp log) as [ps|e].
    + exists ps. split; [done|]. intros ph. apply map_eq. intros entry. apply option_eq. intros v.
      by rewrite (Hs ph entry v), (He ph entry v).
    + exfalso. apply Hs. intros ph entry v w Hv%He Hw%He. congruence.
  - intros (ps & Ep & He) ph entry v. rewrite Ep in Hs. by rewrite <- (Hs ph entry v), He.
Qed.

(** ** What a pass means *)

Record boot_ok (max_loss : Z) (p : profile) (log : string) (hashes : string * string) (memory : Z * Z) : Prop := {
  ok_markers : ∀ marker, marker ∈ REQUIRED_MARKERS → marker_seen log marker = true;
  ok_handoff : marker_seen log (handoff_marker p) = true;
  ok_early_deny : p = EarlyDeny → marker_seen log EARLY_DENY = true;
  ok_pmp : pmp_exact p log;
  ok_measured : (2 ≤ length (memory_values log))%nat;
  ok_loss : memory = memory_of log ∧ memory.1 - memory.2 ≤ max_loss;
  ok_no_failure : ∀ marker, marker ∈ FORBIDDEN_MARKERS → marker_seen log marker = false;
  ok_payload : payload_hashes log = Ok hashes;
}.

Lemma m7b_missing_nil max_loss p ps log : missing_of max_loss p ps log = [] ↔
  (∀ marker, marker ∈ REQUIRED_MARKERS → marker_seen log marker = true)
  ∧ marker_seen log (handoff_marker p) = true ∧ (p = EarlyDeny → marker_seen log EARLY_DENY = true)
  ∧ (∀ ph, dump_map (ps ph) = expected_pmp p ph)
  ∧ (2 ≤ length (memory_values log))%nat ∧ (memory_of log).1 - (memory_of log).2 ≤ max_loss.
Proof.
  unfold missing_of. rewrite !app_nil, unseen_markers_nil.
  assert (∀ (P : Prop) `{Decision P} x, (if decide P then [x : string] else []) = [] ↔ ¬ P) as Hif.
  { intros P ? x. by case_decide. }
  rewrite !Hif. assert ((∀ ph, dump_map (ps ph) = expected_pmp p ph) ↔
    ¬ dump_map (ps Pre) ≠ (PMP_PROFILES p).1 ∧ ¬ dump_map (ps Post) ≠ (PMP_PROFILES p).2) as ->.
  { split; [intros He; split; intros Hn; apply Hn, He|]. intros [H1 H2] ph.
    destruct ph; apply dec_stable; assumption. }
  assert ((if marker_seen log (handoff_marker p) then [] else ["exact " +:+ profile_name p +:+ " Linux handoff marker"]) = []
    ↔ marker_seen log (handoff_marker p) = true) as -> by (by destruct (marker_seen log (handoff_marker p))).
  assert ((if match p with EarlyDeny => negb (marker_seen log EARLY_DENY) | Baseline => false end
    then ["early U-mode deny audit marker"] else []) = [] ↔ (p = EarlyDeny → marker_seen log EARLY_DENY = true)) as ->.
  { destruct p; [done|]. destruct (marker_seen log EARLY_DENY); cbn; intuition congruence. }
  cbv zeta. match goal with |- context [(if decide (length _ < 2)%nat then _ else ?b) = []] =>
    assert ((if decide (length (memory_values log) < 2)%nat then ["two MemFree measurements"] else b) = [] ↔
      (2 ≤ length (memory_values log))%nat ∧ (memory_of log).1 - (memory_of log).2 ≤ max_loss) as ->; [|tauto] end.
  case_decide; [split; [done|lia]|]. rewrite Hif. lia.
Qed.

Lemma verify_boot_ok log boot max_loss p before after ps hashes :
  verify_boot log boot max_loss p = Ok (before, after, ps, hashes) ↔
  parse_pmp log = Ok ps ∧ boot_ok max_loss p log hashes (before, after).
Proof.
  unfold verify_boot. cbv zeta. split.
  - intros (ps' & Ep & E)%bind_ok_inv. apply raise_when_ok in E as [Hn E].
    apply not_failed in Hn as [Hm Hf]. apply bind_ok_inv in E as (hashes' & Eh & [= <- <- -> ->]).
    apply m7b_missing_nil in Hm as (? & ? & ? & He & ? & ?). rewrite seen_markers_nil in Hf.
    split; [done|]. constructor; try done; [apply pmp_exact_iff; eauto|].
    split; [by destruct (memory_of log)|done].
  - intros [Ep [H1 H2 H3 He H5 [Hmem Hl] Hf Eh]]. apply pmp_exact_iff in He as (ps' & Ep' & He).
    assert (ps' = ps) as -> by congruence.
    rewrite Ep. cbn [mbind result_bind]. apply raise_when_ok. split.
    + apply not_failed. rewrite m7b_missing_nil, seen_markers_nil. rewrite <- Hmem. split_and!; auto.
    + rewrite Eh. cbn. by rewrite <- Hmem.
Qed.

Section Verified.
Context {W : Type} (capture_once : io W string) (boots max_loss : Z) (p : profile).

(** What the loop prints for a boot, and how it judges one. *)
Definition announce (boot : Z) (log : string) : list string :=
  match verify_boot log boot max_loss p with
  | Ok (before, after, ps, _) => verified_lines boots boot before after ps
  | Err _ => []
  end.

Definition check (boot : Z) (so_far : seen) (log : string) : result (list string + seen) :=
  verdict ← verify_boot log boot max_loss p;
  let '(before, after, _, hashes) := verdict in
  Ok (expected ←? compare_with (expected_hashes so_far) hashes ["M7 baseline failed: payload changed on boot " +:+ pretty boot];
      inr {| expected_hashes := expected;
             memory_measurements := memory_measurements so_far ++ [(before, after)];
             logs := logs so_far ++ [log];
             last_log := Some log |}).

Lemma baseline_failed_returns error log s : ∃ s', baseline_failed (W := W) error log s = Some (Ok (inr 1), s').
Proof. destruct log; by eexists. Qed.

Lemma baseline_step n boot so_far s :
  baseline_loop capture_once boots max_loss p (S n) boot so_far s =
  match capture_once s with
  | None => None
  | Some (Err error, s) => if caught HANDLED error then baseline_failed error (last_log so_far) s else Some (Err error, s)
  | Some (Ok log, s) =>
      match check boot so_far log with
      | Err error => if caught HANDLED error then baseline_failed error (Some log) s else Some (Err error, s)
      | Ok (inl errors) => (report_errors errors ;; mret (inr 1)) s
      | Ok (inr so_far) => baseline_loop capture_once boots max_loss p n (boot + 1) so_far (printed (announce boot log) s)
      end
  end.
Proof.
  cbn [baseline_loop]. unfold catch, check, announce.
  remember (HANDLED) as classes eqn:Hclasses. unfold mbind at 1, io_bind at 1. unfold mbind at 1, io_bind at 1.
  destruct (capture_once s) as [[[log|e] s1]|]; [|by destruct (caught classes e)|done].
  unfold mret at 1, io_ret at 1. cbv beta iota.
  destruct (verify_boot log boot max_loss p) as [[[[before after] ps] hashes]|e];
    [|by unfold mbind, result_bind; destruct (caught classes e)].
  unfold mbind at 3, result_bind. cbv beta iota. destruct (compare_with _ _ _) as [errors|expected]; [done|].
  unfold mbind, io_bind. by rewrite print_all_run.
Qed.

Lemma baseline_passed n boot so_far s seen' s' :
  baseline_loop capture_once boots max_loss p n boot so_far s = Some (Ok (inl seen'), s') ↔
  ∃ logs, length logs = n ∧ booted capture_once announce boot s logs s' ∧ check_all check boot so_far logs = Some seen'.
Proof.
  revert boot so_far s. induction n as [|n IH]; intros boot so_far s.
  - split; [intros [= <- <-]; exists []; split_and!; [done|constructor|done]|].
    intros ([|? ?] & ? & Hp & Ha); [|done]. injection Ha as ->. by inversion Hp.
  - rewrite baseline_step. split.
    + destruct (capture_once s) as [[[log|e] s1]|] eqn:Ec; [| |done].
      2: { destruct (caught HANDLED e); [|done]. destruct (baseline_failed_returns e (last_log so_far) s1) as [? ->]. done. }
      destruct (check boot so_far log) as [[errors|seen1]|e] eqn:Ek.
      * by intros (? & ? & ? & ?)%bind_returned.
      * intros (logs & Hl & Hb & Ha)%IH. exists (log :: logs).
        split_and!; [cbn [length]; by rewrite Hl|by econstructor|cbn [check_all]; by rewrite Ek].
      * destruct (caught HANDLED e); [|done]. destruct (baseline_failed_returns e (Some log) s1) as [? ->]. done.
    + intros ([|log logs] & Hl & Hb & Ha); [done|]. inversion Hb as [|? ? ? s1 ? ? Hc Hr]; subst.
      rewrite Hc. cbn [check_all] in Ha. destruct (check boot so_far log) as [[|seen1]|] eqn:Ek; [done| |done].
      apply IH. exists logs. injection Hl as Hl. split_and!; assumption.
Qed.

Lemma baseline_code n boot so_far s code s' :
  baseline_loop capture_once boots max_loss p n boot so_far s = Some (Ok (inr code), s') → code = 1.
Proof.
  revert boot so_far s. induction n as [|n IH]; intros boot so_far s; [done|]. rewrite baseline_step.
  destruct (capture_once s) as [[[log|e] s1]|]; [| |done].
  - destruct (check boot so_far log) as [[errors|seen1]|e].
    + by intros (? & ? & _ & [= <- _])%bind_returned.
    + apply IH.
    + destruct (caught HANDLED e); [|done]. destruct (baseline_failed_returns e (Some log) s1) as [? ->]. by intros [= <- _].
  - destruct (caught HANDLED e); [|done]. destruct (baseline_failed_returns e (last_log so_far) s1) as [? ->]. by intros [= <- _].
Qed.

(** What the loop has seen after boots with these measurements and logs. *)
Definition seen_of (hashes : option (string * string)) (boots : list ((Z * Z) * string)) : seen := {|
  expected_hashes := hashes;
  memory_measurements := map fst boots;
  logs := map snd boots;
  last_log := last (map snd boots);
|}.

Lemma m7b_check_spec boot e ms log seen' :
  check boot (seen_of e ms) log = Ok (inr seen') ↔
  ∃ k m, (boot_ok max_loss p log k m.1 ∧ m.2 = log) ∧ (e = None ∨ e = Some k) ∧ seen' = seen_of (Some k) (ms ++ [m]).
Proof.
  assert (∀ k m, seen_of (Some k) (ms ++ [(m, log)]) =
    {| expected_hashes := Some k; memory_measurements := map fst ms ++ [m]; logs := map snd ms ++ [log]; last_log := Some log |}) as Hseen.
  { intros k m. unfold seen_of. rewrite !map_app. cbn. by rewrite last_snoc. }
  unfold check. rewrite bind_ok_inv. split.
  - intros ([[[before after] ps] hashes] & [Ep Hok]%verify_boot_ok & [= Hc]).
    apply unless_failed_ok in Hc as (expected & [Hexp ->]%compare_with_spec & [= <-]).
    exists hashes, ((before, after), log). by rewrite Hseen.
  - intros (k & [[before after] log'] & [Hok [= ->]] & He & ->).
    pose proof (ok_pmp _ _ _ _ _ Hok) as (ps & Ep & _)%pmp_exact_iff.
    exists (before, after, ps, k). split; [by apply verify_boot_ok|]. f_equal.
    apply unless_failed_ok. exists (Some k). rewrite Hseen. split; [by apply compare_with_spec|done].
Qed.

End Verified.

Section Gate.
Context {W : Type} (H : host W) (env : environment) (fuel : nat) (port : string) (directory : artifact_dir)
  (loader_image : image) (a : options).

Abbreviation capture_once := (capture H env fuel port (timeout a)).

Definition save (logs : list string) : io W unit :=
  match log_path a with
  | Some path => make_parent H path ;; write_text H path (combined_log (boots a) logs)
  | None => mret tt
  end.

(** The artifacts exist, all boots were captured and satisfy the specification
    with the same payload, the logs were saved, and the verdict is printed. *)
Definition passes (s s' : st W) : Prop :=
  1 ≤ boots a ∧ 0 ≤ max_memory_loss_kib a ∧
  ∃ artifacts bflt logs hashes memory s1 s2,
    setup directory loader_image = Ok (artifacts, bflt)
    ∧ Z.of_nat (length logs) = boots a
    ∧ booted capture_once (announce (boots a) (max_memory_loss_kib a) (pmp_profile a)) 1 s logs s1
    ∧ Forall2 (λ log m, boot_ok (max_memory_loss_kib a) (pmp_profile a) log hashes m) logs memory
    ∧ save logs s1 = Some (Ok tt, s2)
    ∧ s' = printed (pass_lines a artifacts bflt (seen_of (Some hashes) (zip memory logs))) s2.

Lemma Forall2_zip_logs (ok : string → Z * Z → Prop) logs ms :
  Forall2 (λ log m, ok log m.1 ∧ m.2 = log) logs ms ↔ ∃ memory, Forall2 ok logs memory ∧ ms = zip memory logs.
Proof.
  split.
  - induction 1 as [|log [m log'] logs ms [Hok [= ->]] _ (memory & Hf & ->)]; [by exists []|].
    exists (m :: memory). split; [by constructor|done].
  - intros (memory & Hf & ->). induction Hf; constructor; auto.
Qed.

Lemma passed_logs hashes (memory : list (Z * Z)) (logs : list string) (ok : string → Z * Z → Prop) :
  Forall2 ok logs memory → GateM7Baseline.logs (seen_of (Some hashes) (zip memory logs)) = logs.
Proof. intros Hl%Forall2_length. cbn. apply (snd_zip memory logs). lia. Qed.

(** [main] after its argument checks. *)
Definition run_series (artifacts : string) (bflt : string * string) : io W Z :=
  seen ← baseline_loop capture_once (boots a) (max_memory_loss_kib a) (pmp_profile a) (Z.to_nat (boots a)) 1 (seen_of None []);
  match seen with
  | inr code => mret code
  | inl so_far =>
      save (logs so_far) ;;
      conclude_assert (λ so_far, found (expected_hashes so_far)) (pass_lines a artifacts bflt) (inl so_far)
  end.

Lemma run_series_passes artifacts bflt s s' : 1 ≤ boots a →
  run_series artifacts bflt s = Some (Ok 0, s') ↔
  ∃ logs hashes memory s1 s2,
    Z.of_nat (length logs) = boots a
    ∧ booted capture_once (announce (boots a) (max_memory_loss_kib a) (pmp_profile a)) 1 s logs s1
    ∧ Forall2 (λ log m, boot_ok (max_memory_loss_kib a) (pmp_profile a) log hashes m) logs memory
    ∧ save logs s1 = Some (Ok tt, s2)
    ∧ s' = printed (pass_lines a artifacts bflt (seen_of (Some hashes) (zip memory logs))) s2.
Proof.
  intros Hb. unfold run_series. split.
  - intros (seen & s1 & Hl & E)%bind_returned. destruct seen as [so_far|code].
    2: { apply baseline_code in Hl. by subst code. }
    apply baseline_passed in Hl as ([|log logs] & Hlen & Hbooted & Ha); [cbn in Hlen; lia|].
    apply (check_all_same _ seen_of _ (m7b_check_spec _ _)) in Ha as (hashes & ms & Hf & ->).
    apply (Forall2_zip_logs (λ log m, boot_ok _ _ log hashes m)) in Hf as (memory & Hf & ->).
    apply bind_returned in E as ([] & s2 & Hs & E). rewrite (passed_logs _ _ _ _ Hf) in Hs.
    apply bind_returned in E as (u & s3 & [= _ <-] & (u' & s4 & Hp & [= <-])%bind_returned).
    rewrite print_all_run in Hp. injection Hp as _ Hp.
    exists (log :: logs), hashes, memory, s1, s2. split_and!; [lia|assumption..|by rewrite <- Hp].
  - intros (logs & hashes & memory & s1 & s2 & Hlen & Hbooted & Hf & Hs & ->).
    apply bind_returned. exists (inl (seen_of (Some hashes) (zip memory logs))), s1. split.
    + apply baseline_passed. exists logs. split_and!; [lia|done|]. destruct logs as [|log logs]; [cbn in Hlen; lia|].
      apply (check_all_same _ seen_of _ (m7b_check_spec _ _)). exists hashes, (zip memory (log :: logs)).
      split; [|done]. apply (Forall2_zip_logs (λ log m, boot_ok _ _ log hashes m)). eauto.
    + apply bind_returned. exists tt, s2. split; [by rewrite (passed_logs _ _ _ _ Hf)|].
      apply bind_returned. exists tt, s2. split; [done|]. apply bind_returned. exists tt. eexists.
      split; [apply print_all_run|done].
Qed.

Lemma run_series_exits passes artifacts bflt s :
  (∀ s', run_series artifacts bflt s = Some (Ok 0, s') ↔ passes s') → wlp (run_series artifacts bflt) (exits passes) s.
Proof.
  intros Hp. unfold wlp. destruct (run_series artifacts bflt s) as [[[code|e] s']|] eqn:E; [| |done]; cbn [exits].
  - split; [rewrite <- Hp; split; [by intros ->|by intros [= ->]]|].
    apply bind_returned in E as ([so_far|c] & s1 & Hl & E).
    + left. apply bind_returned in E as (? & ? & _ & (? & ? & _ & (? & ? & _ & [= <- _])%bind_returned)%bind_returned). done.
    + right. apply baseline_code in Hl. by injection E as <-.
  - intros s'' Hs%Hp. congruence.
Qed.

Lemma m7b_exits s : wlp (main H env fuel port directory loader_image a) (exits (passes s)) s.
Proof.
  eapply wlp_exits_iff.
  - apply wlp_guard. intros Hb. apply wlp_guard. intros Hm.
    instantiate (1 := λ s', ∃ artifacts bflt, setup directory loader_image = Ok (artifacts, bflt)
                            ∧ run_series artifacts bflt s = Some (Ok 0, s')).
    destruct (setup directory loader_image) as [[artifacts bflt]|e] eqn:Es.
    + apply (run_series_exits _ artifacts bflt). intros s'. split; [by eauto|by intros (? & ? & [= <- <-] & ?)].
    + destruct (caught _ e); [|by intros ? (? & ? & ? & ?)]. split; [|by right].
      split; [done|by intros (? & ? & ? & ?)].
  - intros s'. unfold passes. split.
    + intros (Hb & Hm & artifacts & bflt & Es & Hr). split_and!; [lia|lia|]. apply run_series_passes in Hr; [|lia].
      destruct Hr as (logs & hashes & memory & s1 & s2 & ?). by exists artifacts, bflt, logs, hashes, memory, s1, s2.
    + intros (Hb & Hm & artifacts & bflt & logs & hashes & memory & s1 & s2 & Es & Hr).
      split_and!; [lia|lia|]. exists artifacts, bflt. split; [done|]. apply run_series_passes; [lia|].
      by exists logs, hashes, memory, s1, s2.
Qed.

Lemma m7b_capture_steady `{!TimedHost H} : lasts H fuel (timeout a) → steady H capture_once.
Proof.
  intros Hf. apply steady_bind; [apply steady_check_run|]. intros _.
  apply steady_bind; [apply steady_open_probe|]. intros d.
  apply steady_window; [done..|apply read_takes_time| |intros; steady_step|steady_step|apply steady_cancel_and_release].
  intros [sent seen] chunk captured. unfold on_text. cbv zeta. repeat steady_step.
Qed.

Lemma baseline_steady `{!TimedHost H} n boot so_far : steady H capture_once →
  steady H (baseline_loop capture_once (boots a) (max_memory_loss_kib a) (pmp_profile a) n boot so_far).
Proof.
  intros Hc. assert (∀ error log, steady H (baseline_failed error log)) as Hfail.
  { intros. unfold baseline_failed. repeat steady_step. }
  revert boot so_far. induction n as [|n IH]; intros boot so_far; cbn [baseline_loop]; [steady_step|].
  apply steady_bind; [apply steady_catch; [apply steady_bind; [done|intros; steady_step]|intros; steady_step]|].
  intros [log|error]; [|apply Hfail].
  destruct (verify_boot _ _ _ _) as [[[[before after] ps] hashes]|error]; [|destruct (caught HANDLED error); [apply Hfail|steady_step]].
  destruct (compare_with _ _ _).
  - apply steady_bind; [apply steady_report_errors|intros _; steady_step].
  - apply steady_bind; [apply steady_print_all|intros _; apply IH].
Qed.

End Gate.

(** C29: On a host whose clock advances, and with fuel for the timeout that is
    asked for, the M7 baseline gate ends, and it exits with 0 exactly when the arguments are
    in range, the artifacts, the loader's image and the bFLT headers are accepted, the
    required number of boots was captured, and every boot shows all required markers, the
    handoff marker of the profile (and that of the early denial, if this is the profile), no
    forbidden marker, PMP dumps that are the profile's entries and nothing else, two memory
    measurements with at most the allowed loss, and the same kernel and device tree; the
    logs are saved, where a file is named, and then the pass lines are printed.  Otherwise it
    exits with 1 or passes on an exception. *)
Theorem m7_baseline_gate {W} (H : host W) `{!TimedHost H} env fuel port directory loader_image a s :
  lasts H fuel (timeout a) →
  wp (main H env fuel port directory loader_image a)
    (exits (passes H env fuel port directory loader_image a s)) s.
Proof.
  intros Hf. eapply wp_mono; [apply wp_and; [|apply m7b_exits]|by intros r s' [_ ?]].
  assert (steady H (main H env fuel port directory loader_image a)) as Hm; [|apply Hm].
  apply steady_bind; [steady_step|intros _]. apply steady_bind; [steady_step|intros _].
  destruct (setup directory loader_image) as [[artifacts bflt]|e]; [|repeat steady_step].
  apply steady_bind; [by apply baseline_steady, m7b_capture_steady|].
  intros [so_far|code]; [|steady_step]. apply steady_bind; [destruct (log_path a); repeat steady_step|].
  intros _. apply steady_conclude.
Qed.

(** When a later capture raises, [log] is still the log of the boot before, which is
    then printed as the log of the failure. *)
Theorem m7_stale_log {W} (capture_once : io W string) boots max_loss p n log hashes memory error (s s1 s2 : st W) :
  capture_once s = Some (Ok log, s1) → boot_ok max_loss p log hashes memory →
  capture_once (printed (announce boots max_loss p 1 log) s1) = Some (Err error, s2) → caught HANDLED error = true →
  baseline_loop capture_once boots max_loss p (S (S n)) 1 (seen_of None []) s =
  Some (Ok (inr 1), mkSt (world s2) (stdout s2)
    (stderr s2 +:+ str_join "" (map (λ l, l +:+ nl) ["M7 baseline failed: " +:+ exn_msg error; "--- complete serial log ---"; log]))).
Proof.
  intros Hc Hok Hc' He. rewrite baseline_step, Hc.
  rewrite (proj2 (m7b_check_spec max_loss p 1 None [] log (seen_of (Some hashes) [(memory, log)])))
    by (exists hashes, (memory, log); auto).
  rewrite baseline_step, Hc', He. unfold baseline_failed, mbind, io_bind, print_err. cbn.
  by rewrite <- !str_app_assoc.
Qed.

(** Passing and failing runs of two boots. *)
Definition sample_dump (p : profile) (ph : phase) : list string :=
  map (λ entry, let '(address, config) := default (0, 0) (expected_pmp p ph !! entry) in
       "MICRONUX:M7:PMP phase=" +:+ phase_name ph +:+ " entry=" +:+ pretty entry +:+
       " addr=" +:+ fmt_08x address +:+ " config=" +:+ zfill 2 (fmt_x config)) (seqZ 0 16).

Definition sample_boot (p : profile) (free_after : string) : list string :=
  payload_lines "a" "b" ++ sample_dump p Pre ++ sample_dump p Post ++ [handoff_marker p] ++
  ["MemFree:        9000 kB"; "MemFree:        " +:+ free_after +:+ " kB"] ++ REQUIRED_MARKERS.

Definition sample_flat : bytes :=
  encode "bFLT" ++ [Byte.x00; Byte.x00; Byte.x00; Byte.x04] ++ replicate 31 Byte.x00 ++ [Byte.x01] ++ replicate 4 Byte.x00.
Definition sample_dir : artifact_dir := {| path_of := λ name, "out/" +:+ name; file_of := λ _, Some sample_flat |}.
Definition sample_image : image := {| image_name := "loader.bin"; image_path := "loader.bin"; image_file := Some [] |}.
Definition sample_options : options := {|
  boots := 2; pmp_profile := Baseline; timeout := seconds 5; max_memory_loss_kib := 512; log_path := None |}.

Definition sample_chunks (boots : list (list string)) : list bytes :=
  concat (map (λ lines, console lines :: replicate 11 []) boots).

Definition sample_run (boots : list (list string)) : option (result Z * string) :=
  (λ o, (o.1, hd "" (splitlines (stderr o.2)))) <$>
    main replay_host bench_environment 200 "COM1" sample_dir sample_image sample_options (replaying (sample_chunks boots)).

Example m7_baseline_examples :
  (sample_run [sample_boot Baseline "8900"; sample_boot Baseline "8800"],
   sample_run [sample_boot Baseline "8900"; sample_boot Baseline "8487"],
   sample_run [sample_boot Baseline "8900"; sample_boot Baseline "8900" ++ ["MICRONUX:M7:PMP phase=pre entry=5 addr=00000004 config=00"]])
  = (Some (Ok 0, ""),
     Some (Ok 1, "M7 baseline failed: boot 2: missing: memory loss <= 512 KiB (observed 513 KiB)"),
     Some (Ok 1, "M7 baseline failed: conflicting pre PMP entry 5")).
Proof. by_compute. Qed.

Lemma m7_baseline_gate_witness :
  let s := replaying (sample_chunks [sample_boot Baseline "8900"; sample_boot Baseline "8800"]) in
  wp (main replay_host bench_environment (Z.to_nat 20001) "COM1" sample_dir sample_image sample_options)
    (exits (passes replay_host bench_environment (Z.to_nat 20001) "COM1" sample_dir sample_image sample_options s)) s.
Proof.
  apply (m7_baseline_gate replay_host bench_environment (Z.to_nat 20001) "COM1" sample_dir sample_image sample_options); apply replay_lasts.
  vm_compute. discriminate.
Defined.
