(* ===== verification/GateM7.v ===== *)
(** * The M7 isolation gate

    scripts/m7-test.py: a boot runs the isolation workload three times, to warm up, to
    set the baseline and to be measured; the user pool and the kernel's free memory
    must return to the baseline, and the job supervisor must have killed what
    exceeds its limits.  The loader and Linux may use two serial ports. *)

From S2P Require Import Prelude PyBytes PyStr Utf8 Sha256 Regex Io Session Boots.

Definition REQUIRED_MARKERS : list string := [
  "MICRONUX:M3:BOOT";
  "MICRONUX:M3:JUMP";
  "MICRONUX:M7:PMP baseline=pass early-deny=pass " +:+
   "handoff=13-14-unlocked overlay=13-14";
  "MICRONUX:M7:DMA-PMS state=pass region0=[4ff80000,4ff82000) " +:+
   "sdmmc=rw:00000001 display=ch0:r:0000000e:w:00000018";
  "fifo=[50105000,50106000) other=deny";
  "MICRONUX:M7:SPLASH state=ready title=MICRONUX " +:+
   "resolution=800x1280 format=rgb565";
  "MICRONUX:M9:PANEL-RESET state=ready pwm=off " +:+
   "sequence=release-assert-release delays_ms=5,10,130 " +:+
   "backlight-enable=off";
  "MICRONUX:M7:SPLASH progress=100 state=visible";
  "MICRONUX:M7:DSI-BLANK state=ready backlight=off gate=disabled " +:+
   "settle_ms=100 restore=linux-after-status-ready";
  "MICRONUX:M9.2:DSI-HANDOFF-SOURCE state=ready " +:+
   "pattern=vertical-bars bridge=dpi-disabled backlight=off";
  "MICRONUX:M9.2:DSI-HANDOFF state=ready abi=2 owner=linux-pending " +:+
   "pattern=vertical-bars buffers=3 dma=irq-rearm channel=0 " +:+
   "timing=20/20/40:4/10/30 " +:+
   "rearm=linux-after-status-ready";
  "MICRONUX:M7:IRQ source=24 matrix=500d6060 clic=18 handoff=armed";
  "MICRONUX:M7:PMP cached=7-10 direct=12-13 mode=per-mm+wx+tor+napot " +:+
   "state=ready first=[";
  "MICRONUX:M7:POOL state=ready range=[49700000,49f00000) pages=2048 " +:+
   "zero=on-arena+allocate ownership=per-mm";
  "Linux version 6.12.27";
  "MICRONUX:M9.2:CLAIM state=ready abi=2 owner=linux loader-source=vpg " +:+
   "fb=fb0 " +:+
   "resolution=800x1280 format=rgb565 timing=20/20/40:4/10/30 " +:+
   "buffers=3 dma=ch0:irq-rearm config=0000000f:0a020001 " +:+
   "event=transfer-done-irq irq=3 health_poll_ms=50 commit_ms=20 " +:+
   "underrun=monitored guards=pool-monitored write_chunk=512 write_gap_us=2 " +:+
   "backlight=linux mmap=denied";
  "MICRONUX:M9.2:SCANOUT state=running handoff=blanked-restart " +:+
   "stable-frames=4 qualification-windows=2 buffers=3 dma=irq-rearm " +:+
   "backlight=restored reveal=userspace-ready frame-ack=disabled " +:+
   "clock=auto lp=enabled backlight-gate=enabled";
  "MICRONUX:M7:FB-CONSOLE state=ready tty=tty1 role=status usb=ttyGS0 " +:+
   "reveal=userspace-ready cursor=steady";
  "MICRONUX:M6:COMBINED:SHELL ready console=ttyGS0 network=nonblocking";
  "MICRONUX:M8:SERVICE state=ready abi=1.0";
  "MICRONUX:M7:JOB-SUPERVISOR state=ready uid=1000 gid=1000 " +:+
   "admission=root-owned seccomp=allowlist";
  "MICRONUX:M7:WARMUP:PASS";
  "MICRONUX:M7:POOL-PROBE:PASS";
  "MICRONUX:M7:POOL-TEST:PROBE:RC=0";
  "MICRONUX:M7:FAULTS pass count=19 privilege=U memory_signal=11";
  "MICRONUX:M7:WX pass text_write=SIGSEGV data_exec=SIGSEGV " +:+
   "stack_exec=SIGSEGV signal=return mmap_exec=EACCES code_copy=EFAULT";
  "MICRONUX:M7:UACCESS:PASS";
  "MICRONUX:M7:ISOLATION-FAULT:PASS";
  "MICRONUX:M7:POOL-TEST:FAULT:RC=0";
  "MICRONUX:M7:DMA:STORAGE:RC=0";
  "MICRONUX:M7:DMA:ONLINE:RC=0";
  "MICRONUX:M7:DMA:NETWORK:RC=0";
  "MICRONUX:M7:DISPLAY:PASS owner=linux fb=fb0 " +:+
   "pattern=framebuffer-only scanout=irq-rearm buffers=3 writes=paced " +:+
   "backlight=restored";
  "MICRONUX:M5:PASS";
  "MICRONUX:M7:POOL-TEST:SELFTEST:RC=0";
  "MICRONUX:M7:POOL-TEST:REPEAT:RC=0";
  "MICRONUX:M7:ARENA:SIBLING:PASS";
  "MICRONUX:M7:ARENA:REUSE:PASS cycles=32";
  "MICRONUX:M7:ARENA:EXEC-FAIL:PASS";
  "MICRONUX:M7:ARENA:PASS ownership=per-mm vfork=pass signals=pass";
  "MICRONUX:M7:POOL-TEST:ARENA:RC=0";
  "MICRONUX:M7:JOB-ADMISSION:PASS internal=denied writable=denied";
  "MICRONUX:M7:JOB-POLICY uid=1000 gid=1000 caps=zero " +:+
   "no_new_privs=1 seccomp=allowlist";
  "MICRONUX:M7:JOB-CONTRACT:PASS uid=1000 gid=1000 caps=zero " +:+
   "seccomp=2 devices=restricted fd=16 nproc=4 arena_kib=6144";
  "MICRONUX:M7:POOL-TEST:JOB-CONTRACT:RC=0";
  "MICRONUX:M7:POOL-TEST:JOB-WALL:RC=124";
  "MICRONUX:M7:POOL-TEST:JOB-OUTPUT:RC=125";
  "MICRONUX:M7:JOB-LIVENESS:PASS";
  "MICRONUX:M7:WORKLOAD:DONE";
  "MICRONUX:M7:POOL-TEST:DONE"
].

Definition WORKLOAD_FIRST_REQUIRED : string := "MICRONUX:M7:POOL-PROBE:PASS".

(** [markers[markers.index(first):-1]] *)
Fixpoint from_first (first : string) (markers : list string) : list string :=
  match markers with
  | [] => []
  | marker :: rest => if decide (marker = first) then markers else from_first first rest
  end.
Definition WORKLOAD_REQUIRED_MARKERS : list string :=
  removelast (from_first WORKLOAD_FIRST_REQUIRED REQUIRED_MARKERS).

Definition FORBIDDEN_MARKERS : list string := [
  "MICRONUX:M3:FAIL";
  "MICRONUX:M6:FAIL";
  "MICRONUX:M7:PMP-AUDIT state=fail";
  "MICRONUX:M7:PMP-OVERLAY state=fail";
  "MICRONUX:M7:DMA-PMS state=fail";
  "MICRONUX:M7:DSI-HANDOFF state=fail";
  "MICRONUX:M7:DSI-LINUX state=fail";
  "MICRONUX:M7:DSI-SCANOUT state=fail";
  "MICRONUX:M9.2:DSI-HANDOFF state=fail";
  "MICRONUX:M9.2:CLAIM state=fail";
  "MICRONUX:M9.2:SCANOUT state=fail";
  "MICRONUX:M7:DISPLAY:FAIL";
  "MICRONUX:M9:DISPLAY-FAULT";
  "MICRONUX:M7:POOL state=fail";
  "MICRONUX:M7:POOL state=exhausted";
  "MICRONUX:M7:POOL-PROBE:FAIL";
  "MICRONUX:M7:ISOLATION-FAULT:FAIL";
  "MICRONUX:M7:ARENA:FAIL";
  "MICRONUX:M7:JOB-SUPERVISOR:FAIL";
  "MICRONUX:M7:WARMUP:FAIL";
  "MICRONUX:M7:JOB-ADMISSION:FAIL";
  "MICRONUX:M7:JOB-CONTRACT:FAIL";
  "MICRONUX:M7:JOB-LIVENESS:FAIL";
  "Kernel panic";
  "Oops:";
  "BUG:";
  "Unhandled"
].

Definition marker_count (log marker : string) : Z :=
  Z.of_nat (length (filter (λ line, contains marker line = true) (output_lines log))).

(** ** What is sent *)

Definition warmup_command : string :=
  "if install -o root -g root -m 0755 " +:+
  "/usr/libexec/micronux-job-test " +:+
  "/opt/micronux/apps/micronux-job-test; then " +:+
  "echo MICRONUX:M7:WARMUP:PREPARED; else " +:+
  "echo MICRONUX:M7:WARMUP:FAIL stage=prepare; fi" +:+
  nl.

Definition measurement_before_command : string :=
  "echo MICRONUX:M7:POOL-TEST:BEGIN; " +:+
  "echo MICRONUX:M7:POOL-TEST:MEM-BEFORE; " +:+
  "grep '^MemFree:' /proc/meminfo; " +:+
  "echo MICRONUX:M7:POOL-TEST:ACCOUNT-BEFORE; " +:+
  "cat /proc/micronux_user_pool; " +:+
  "echo MICRONUX:M7:POOL-TEST:BEFORE:DONE" +:+
  nl.

(** [" ".join(str(index) for index in range(1, 9))] *)
Definition repeats : string := str_join " " (map pretty (seqZ 1 8)).

Definition workload_command : string :=
  "echo MICRONUX:M7:WORKLOAD:BEGIN; " +:+
  "/usr/bin/micronux-isolation-probe; " +:+
  "echo MICRONUX:M7:POOL-TEST:PROBE:RC=$?; " +:+
  "/usr/bin/micronux-isolation-fault; " +:+
  "echo MICRONUX:M7:POOL-TEST:FAULT:RC=$?; " +:+
  "/usr/bin/micronux-storage-test --write-test; " +:+
  "echo MICRONUX:M7:DMA:STORAGE:RC=$?; " +:+
  "/usr/bin/micronux-online; " +:+
  "echo MICRONUX:M7:DMA:ONLINE:RC=$?; " +:+
  "/bin/busybox ping 1.1.1.1; " +:+
  "echo MICRONUX:M7:DMA:NETWORK:RC=$?; " +:+
  "DISPLAY=/sys/bus/platform/devices/500a0000.display; " +:+
  "BACKLIGHT=/sys/class/backlight/micronux-backlight; " +:+
  "DISPLAY_RC=0; " +:+
  "[ -c /dev/fb0 ] || DISPLAY_RC=1; " +:+
  "grep -q '^linux abi=2 fb0 buffers=3 dma-channel=0 frame-irq=3 " +:+
  "rearm=explicit mmap=denied$' " +:+
  "$DISPLAY/ownership || DISPLAY_RC=1; " +:+
  "grep -q '^framebuffer$' $DISPLAY/pattern || DISPLAY_RC=1; " +:+
  "if echo vertical 2>/dev/null >$DISPLAY/pattern; then " +:+
  "DISPLAY_RC=1; fi; " +:+
  "grep -q '^framebuffer$' $DISPLAY/pattern || DISPLAY_RC=1; " +:+
  "dd if=/dev/zero of=/dev/fb0 bs=4096 count=500 " +:+
  "2>/dev/null || DISPLAY_RC=1; " +:+
  "grep -Eq '^running frames=[0-9]+->[0-9]+ error=00000000 " +:+
  "underruns=0 " +:+
  "chen=1 faults=0 host-errors=00000000:00000000 " +:+
  "frame-ack=off clock=auto lp=enabled backlight-gate=on buffers=3 " +:+
  "front=[0-2] queued=(-1|[0-2]) back=[0-2] " +:+
  "rearm=[1-9][0-9]*/0 flips=[0-9]+/[0-9]+ " +:+
  "generation=[1-9][0-9]* guards=ok guard-errors=0$' " +:+
  "$DISPLAY/scanout || DISPLAY_RC=1; " +:+
  "grep -Eq ' bridge-fifo=0000[0-3][0-9a-f]{3} .*" +:+
  "guards=ok guard-errors=0$' " +:+
  "$DISPLAY/diagnostics || DISPLAY_RC=1; " +:+
  "OLD_BRIGHTNESS=$(cat $BACKLIGHT/brightness) || DISPLAY_RC=1; " +:+
  "echo 64 >$BACKLIGHT/brightness || DISPLAY_RC=1; " +:+
  sh "[ `$(cat $BACKLIGHT/brightness)` = 64 ] || DISPLAY_RC=1; " +:+
  "echo $OLD_BRIGHTNESS >$BACKLIGHT/brightness || DISPLAY_RC=1; " +:+
  sh "if [ `$DISPLAY_RC` -eq 0 ]; then " +:+
  "echo MICRONUX:M7:DISPLAY:PASS owner=linux fb=fb0 " +:+
  "pattern=framebuffer-only scanout=irq-rearm buffers=3 writes=paced " +:+
  "backlight=restored; else " +:+
  "echo MICRONUX:M7:DISPLAY:FAIL rc=$DISPLAY_RC; fi; " +:+
  "/usr/bin/micronux-selftest; " +:+
  "echo MICRONUX:M7:POOL-TEST:SELFTEST:RC=$?; " +:+
  "RC=0; for I in " +:+
  repeats +:+
  "; do /usr/bin/micronux-isolation-probe >/dev/null || RC=1; done; " +:+
  "echo MICRONUX:M7:POOL-TEST:REPEAT:RC=$RC; " +:+
  "/usr/bin/micronux-arena-test; " +:+
  "echo MICRONUX:M7:POOL-TEST:ARENA:RC=$?; " +:+
  "ADMISSION=0; /usr/sbin/micronux-run -q -- " +:+
  "/usr/libexec/micronux-job-test contract >/dev/null 2>&1 " +:+
  "&& ADMISSION=1; " +:+
  "install -o root -g root -m 0777 /usr/libexec/micronux-job-test " +:+
  "/opt/micronux/apps/micronux-job-unsafe || ADMISSION=1; " +:+
  "/usr/sbin/micronux-run -q -- " +:+
  "/opt/micronux/apps/micronux-job-unsafe contract >/dev/null 2>&1 " +:+
  "&& ADMISSION=1; " +:+
  "rm -f /opt/micronux/apps/micronux-job-unsafe; " +:+
  sh "if [ `$ADMISSION` -eq 0 ]; then " +:+
  "echo MICRONUX:M7:JOB-ADMISSION:PASS " +:+
  "internal=denied writable=denied; else " +:+
  "echo MICRONUX:M7:JOB-ADMISSION:FAIL rc=$ADMISSION; fi; " +:+
  "/usr/sbin/micronux-run -- " +:+
  "/opt/micronux/apps/micronux-job-test contract; " +:+
  "echo MICRONUX:M7:POOL-TEST:JOB-CONTRACT:RC=$?; " +:+
  "/usr/sbin/micronux-run -q -- " +:+
  "/opt/micronux/apps/micronux-job-test spin; " +:+
  "echo MICRONUX:M7:POOL-TEST:JOB-WALL:RC=$?; " +:+
  "/usr/sbin/micronux-run -q -- " +:+
  "/opt/micronux/apps/micronux-job-test flood; " +:+
  "echo MICRONUX:M7:POOL-TEST:JOB-OUTPUT:RC=$?; " +:+
  "if /usr/bin/micronux-device api >/dev/null; then " +:+
  "echo MICRONUX:M7:JOB-LIVENESS:PASS; else " +:+
  "echo MICRONUX:M7:JOB-LIVENESS:FAIL; fi; " +:+
  "echo MICRONUX:M7:WORKLOAD:DONE" +:+
  nl.

Definition measurement_after_command : string :=
  "echo MICRONUX:M7:POOL-TEST:ACCOUNT-AFTER; " +:+
  "cat /proc/micronux_user_pool; " +:+
  "echo MICRONUX:M7:POOL-TEST:MEM-AFTER; " +:+
  "grep '^MemFree:' /proc/meminfo; " +:+
  "echo MICRONUX:M7:POOL-TEST:DONE" +:+
  nl.

(** ** Capturing a boot *)

(** The variables of the loop: what was sent, since when the end mark is seen, what
    was received, and the texts of the last round, unbound before the first. *)
Record progress := {
  prepare_sent : bool;
  warmup_sent : bool;
  warmup_quiesce_sent : bool;
  stabilization_sent : bool;
  stabilization_quiesce_sent : bool;
  before_sent : bool;
  command_sent : bool;
  measured_quiesce_sent : bool;
  after_sent : bool;
  done_seen_at : option Z;
  loader_captured : bytes;
  linux_captured : bytes;
  texts : option (string * string);
}.

Definition start : progress := {|
  prepare_sent := false; warmup_sent := false; warmup_quiesce_sent := false; stabilization_sent := false;
  stabilization_quiesce_sent := false; before_sent := false; command_sent := false;
  measured_quiesce_sent := false; after_sent := false; done_seen_at := None;
  loader_captured := []; linux_captured := []; texts := None |}.

Definition workload_done (text : string) : Z := marker_count text "MICRONUX:M7:WORKLOAD:DONE".

Section Capture.
Context {W : Type} (H : host W) (env : environment) (fuel : nat).

Definition rom_reset (port : string) : io W unit := check_run H env (chip_id_command env port).

Definition open_attempt (port : string) : io W device :=
  d ← serial_open H {|
    cfg_port := port; cfg_baudrate := 115200; cfg_timeout := ms 50; cfg_write_timeout := Some (seconds 10);
    cfg_dsrdtr := false; cfg_rtscts := false; cfg_dtr := true; cfg_rts := true |};
  set_dtr H d false ;;
  set_rts H d false ;;
  reset_input_buffer H d ;;
  mret d.

Fixpoint open_serial (n : nat) (port : string) (deadline : Z) : io W device :=
  match n with
  | O => out_of_fuel
  | S n =>
      catch [SerialException] (open_attempt port) (λ error,
        now ← monotonic H;
        if decide (deadline ≤ now) then lift (Err error) else sleep H (ms 100) ;; open_serial n port deadline)
  end.

Fixpoint write_all (d : device) (payloads : list string) : io W unit :=
  match payloads with
  | [] => mret tt
  | payload :: payloads => write H d (encode payload) ;; write_all d payloads
  end.

(** [if ready and not sent and condition:] send the payloads once *)
Definition send_once (d : device) (ready sent condition : bool) (payloads : list string) : io W bool :=
  if ready && negb sent && condition
  then sleep H (ms 200) ;; write_all d payloads ;; flush H d ;; mret true
  else mret sent.

(** The body of the loop after the reads; [None] ends the loop. *)
Definition on_text (linux_device : device) (p : progress) (loader linux : bytes) : io W (progress + progress) :=
  let loader_text := decode loader in
  let linux_text := decode linux in
  let text := loader_text +:+ nl +:+ linux_text in
  let shows := marker_seen text in
  let runs := workload_done text in
  let send := send_once linux_device in
  prepare ← send true (prepare_sent p)
    (contains "MICRONUX:M6:COMBINED:SHELL ready" text && contains "MICRONUX:M7:POOL state=ready" text &&
     contains "MICRONUX:M8:SERVICE state=ready" text) [warmup_command];
  warmup ← send prepare (warmup_sent p) (shows "MICRONUX:M7:WARMUP:PREPARED") [workload_command];
  warmup_quiesce ← send warmup (warmup_quiesce_sent p) (runs =? 1)
    ["echo MICRONUX:M7:WARMUP:QUIESCED" +:+ nl];
  stabilization ← send warmup_quiesce (stabilization_sent p) (shows "MICRONUX:M7:WARMUP:QUIESCED")
    ["echo MICRONUX:M7:WARMUP:PASS" +:+ nl; workload_command];
  stabilization_quiesce ← send stabilization (stabilization_quiesce_sent p) (runs =? 2)
    ["echo MICRONUX:M7:STABILIZATION:QUIESCED" +:+ nl];
  before ← send stabilization_quiesce (before_sent p) (shows "MICRONUX:M7:STABILIZATION:QUIESCED")
    [measurement_before_command];
  command ← send before (command_sent p) (shows "MICRONUX:M7:POOL-TEST:BEFORE:DONE") [workload_command];
  measured_quiesce ← send command (measured_quiesce_sent p) (runs =? 3)
    ["echo MICRONUX:M7:WORKLOAD:QUIESCED" +:+ nl];
  after ← send measured_quiesce (after_sent p) (shows "MICRONUX:M7:WORKLOAD:QUIESCED")
    [measurement_after_command];
  seen ←
    (if after && shows "MICRONUX:M7:POOL-TEST:DONE" then
       now ← monotonic H;
       mret (match done_seen_at p with
             | None => Some (Some now)
             | Some seen => if decide (ms 500 ≤ now - seen) then None else Some (Some seen)
             end)
     else mret (Some (done_seen_at p)));
  let next := {|
    prepare_sent := prepare; warmup_sent := warmup; warmup_quiesce_sent := warmup_quiesce;
    stabilization_sent := stabilization; stabilization_quiesce_sent := stabilization_quiesce;
    before_sent := before; command_sent := command; measured_quiesce_sent := measured_quiesce; after_sent := after;
    done_seen_at := default (done_seen_at p) seen; loader_captured := loader; linux_captured := linux;
    texts := Some (loader_text, linux_text) |} in
  match seen with
  | None => mret (inr next)
  | Some _ =>
      if existsb shows FORBIDDEN_MARKERS then sleep H (ms 200) ;; mret (inr next) else mret (inl next)
  end.


Fixpoint console_loop (n : nat) (loader_device : device) (linux_device : option device) (deadline : Z) (p : progress)
    : io W progress :=
  match n with
  | O => out_of_fuel
  | S n =>
      now ← monotonic H;
      if decide (now < deadline) then
        chunk ← read H loader_device 4096;
        let loader := loader_captured p ++ chunk in
        linux ← match linux_device with
                | None => mret loader
                | Some d => chunk ← read H d 4096; mret (linux_captured p ++ chunk)
                end;
        next ← on_text (default loader_device linux_device) p loader linux;
        match next with
        | inl p => console_loop n loader_device linux_device deadline p
        | inr p => mret p
        end
      else mret p
  end.

Definition close_devices (loader_device : device) (linux_device : option device) : io W unit :=
  cancel_and_release H loader_device ;;
  match linux_device with Some d => cancel_and_release H d | None => mret tt end.

(** The Linux device, unless it is the loader's. *)
Definition open_linux (loader_port linux_port : string) (deadline : Z) : io W (option device) :=
  if decide (linux_port = loader_port) then mret None
  else d ← open_serial fuel linux_port deadline; mret (Some d).

Definition captured_text (loader_port linux_port : string) (linux_device : option device) (t : string * string) : string :=
  match linux_device with
  | None => t.1
  | Some _ =>
      "--- loader console " +:+ loader_port +:+ " ---" +:+ nl +:+ t.1 +:+ nl +:+
      "--- Linux console " +:+ linux_port +:+ " ---" +:+ nl +:+ t.2
  end.

Definition capture_boot (loader_port linux_port : string) (timeout : Z) : io W string :=
  rom_reset loader_port ;;
  now ← monotonic H;
  let deadline := now + timeout in
  loader_device ← open_serial fuel loader_port deadline;
  linux_device ← open_linux loader_port linux_port deadline;
  finally (
    p ← console_loop fuel loader_device linux_device deadline start;
    match texts p with
    | None => raise UnboundLocalError "cannot access local variable 'loader_text' where it is not associated with a value"
    | Some t => mret (captured_text loader_port linux_port linux_device t)
    end)
  (close_devices loader_device linux_device).

End Capture.

(** ** Reading a log *)

Definition BEGIN : string := "MICRONUX:M7:WORKLOAD:BEGIN".
Definition begins (line : string) : bool := bool_decide (strip line = BEGIN).

(** [[index for index, line in enumerate(lines) if line.strip() == ...]] *)
Fixpoint starts_from (index : nat) (lines : list string) : list nat :=
  match lines with
  | [] => []
  | line :: lines => if begins line then index :: starts_from (S index) lines else starts_from (S index) lines
  end.

(** [lines[a:b]] *)
Definition slice (a b : nat) (lines : list string) : list string := take (b - a) (drop a lines).

Definition workload_runs (log : string) : result (string * string * string) :=
  let lines := output_lines log in
  match starts_from 0 lines with
  | [a; b; c] =>
      Ok (str_join nl (slice a b lines), str_join nl (slice b c lines), str_join nl (drop c lines))
  | starts => Err (Exn ValueError ("expected three workload runs, found " +:+ pretty (Z.of_nat (length starts))))
  end.

(** The artifacts that must be bFLT images. *)
Definition BINARIES : list string :=
  ["micronux-isolation-probe"; "micronux-isolation-fault"; "micronux-arena-test"; "micronux-run";
   "micronux-job-exec"; "micronux-job-test"].

Definition check_present (directory : artifact_dir) (name : string) : result unit :=
  raise_when (file_of directory name = None) FileNotFoundError (path_of directory name).

Definition check_binary (directory : artifact_dir) (name : string) : result unit :=
  let header := take 44 (default [] (file_of directory name)) in
  raise_when (length header ≠ 44%nat ∨ take 4 header ≠ [Byte.x62; Byte.x46; Byte.x4c; Byte.x54]) ValueError
    (name +:+ " is not bFLT") ;;
  fields ← Struct.unpack Struct.Big (replicate 10 4%nat) (drop 4 header);
  raise_when (nth 0 fields 0 ≠ 4 ∨ Z.land (nth 8 fields 0) 1 = 0) ValueError
    (name +:+ " must be bFLT v4 FLAT_FLAG_RAM") ;;
  raise_when (nth 2 fields 0 mod 128 ≠ 0) ValueError (name +:+ " data_start is not 128-byte aligned").

Definition artifact_hashes (directory : artifact_dir) : result (string * string) :=
  for_each (check_present directory) (["Image"; "esp32p4-micronux.dtb"] ++ BINARIES) ;;
  for_each (check_binary directory) BINARIES ;;
  Ok (digest_of directory "Image", digest_of directory "esp32p4-micronux.dtb").

Definition boot_hashes (log : string) : result (string * string) :=
  match search KERNEL_HASH_RE log, search DTB_HASH_RE log with
  | Some kernel, Some dtb => Ok (group kernel "1", group dtb "1")
  | _, _ => Err (Exn ValueError "boot did not report payload hashes")
  end.

(** [phase] is [BEFORE] or [AFTER], and its lower case. *)
Inductive measurement := Before | After.
Definition phase_name (m : measurement) : string := match m with Before => "BEFORE" | After => "AFTER" end.
Definition phase_lower (m : measurement) : string := match m with Before => "before" | After => "after" end.

Definition account_pattern (phase : string) : string :=
  "MICRONUX:M7:POOL-TEST:ACCOUNT-" +:+ phase +:+ "\r?\n" +:+
  "MICRONUX:M7:POOL range=\[49700000,49f00000\) " +:+
  "pages=2048 reserved=(\d+) mapped=(\d+) free=(\d+) arenas=(\d+)".
Definition ACCOUNT_RE (m : measurement) : re := Eval vm_compute in
  match m with Before => compile false (account_pattern "BEFORE") | After => compile false (account_pattern "AFTER") end.

Record account := { reserved : Z; mapped : Z; free : Z; arenas : Z }.
#[global] Instance account_eq_dec : EqDecision account.
Proof. solve_decision. Defined.

(** [f"{(reserved, mapped, free, arenas)}"] *)
Definition repr_account (a : account) : string :=
  "(" +:+ listed (map pretty [reserved a; mapped a; free a; arenas a]) +:+ ")".

Definition accounting (log : string) (phase : measurement) : result account :=
  match search (ACCOUNT_RE phase) log with
  | None => Err (Exn ValueError ("missing pool accounting for " +:+ phase_lower phase))
  | Some m =>
      let a := {| reserved := int_of 10 (group m "1"); mapped := int_of 10 (group m "2");
                  free := int_of 10 (group m "3"); arenas := int_of 10 (group m "4") |} in
      raise_when (reserved a + free a ≠ 2048 ∨ mapped a > reserved a ∨ arenas a > reserved a) ValueError
        ("invalid pool accounting for " +:+ phase_lower phase) ;;
      Ok a
  end.

Definition memory_pattern (phase : string) : string :=
  "MICRONUX:M7:POOL-TEST:MEM-" +:+ phase +:+ "\r?\nMemFree:\s+(\d+) kB".
Definition MEMORY_RE (m : measurement) : re := Eval vm_compute in
  match m with Before => compile false (memory_pattern "BEFORE") | After => compile false (memory_pattern "AFTER") end.

Definition free_memory (log : string) (phase : measurement) : result Z :=
  match search (MEMORY_RE phase) log with
  | None => Err (Exn ValueError ("missing MemFree for " +:+ phase_lower phase))
  | Some m => Ok (int_of 10 (group m "1"))
  end.

Definition WALL_RE : re := Eval vm_compute in compile false (
  "MICRONUX:M7:JOB result=killed reason=wall signal=9 " +:+ "output=(\d+) duration_ms=(\d+)").
Definition OUTPUT_RE : re := Eval vm_compute in compile false (
  "MICRONUX:M7:JOB result=killed reason=output signal=9 " +:+ "output=(\d+) duration_ms=(\d+)").

Definition job_policy_results (log : string) : result unit :=
  match search WALL_RE log, search OUTPUT_RE log with
  | Some wall, Some output =>
      let wall_bytes := int_of 10 (group wall "1") in let wall_ms := int_of 10 (group wall "2") in
      let output_bytes := int_of 10 (group output "1") in let output_ms := int_of 10 (group output "2") in
      raise_when (wall_bytes > 32768 ∨ wall_ms < 2000 ∨ wall_ms > 4000) ValueError
        ("invalid wall policy result: bytes=" +:+ pretty wall_bytes +:+ " ms=" +:+ pretty wall_ms) ;;
      raise_when (output_bytes ≤ 32768 ∨ 2000 ≤ output_ms) ValueError
        ("invalid output policy result: bytes=" +:+ pretty output_bytes +:+ " ms=" +:+ pretty output_ms)
  | _, _ => Err (Exn ValueError "missing supervisor kill results")
  end.

(** ** The gate *)

(** The variables that the [try] of a boot sets. *)
Record report := {
  warmup_log : string;
  stabilization_log : string;
  measured_log : string;
  payload : string * string;
  before : account;
  after : account;
  memory_before : Z;
  memory_after : Z;
}.

Definition analyse (log : string) : result report :=
  runs ← workload_runs log;
  let '(warmup_log, stabilization_log, measured_log) := runs in
  payload ← boot_hashes log;
  before ← accounting log Before;
  after ← accounting log After;
  memory_before ← free_memory log Before;
  memory_after ← free_memory log After;
  job_policy_results measured_log ;;
  Ok {| warmup_log := warmup_log; stabilization_log := stabilization_log; measured_log := measured_log;
        payload := payload; before := before; after := after;
        memory_before := memory_before; memory_after := memory_after |}.

Record options := {
  port : option string;
  loader_port : option string;
  linux_port : option string;
  boots : Z;
  timeout : Z;
  log_path : option string;
  expect_mipi_profile : bool;
}.

Definition JD9365_PROFILE : string :=
  "MICRONUX:M6:DSI state=ready profile=jd9365-800x1280 " +:+
  "resolution=800x1280 lanes=2 lane_mbps=1500 dpi_mhz=80 " +:+
  "format=rgb565 " +:+
  "pattern=framebuffer".

Definition missing_in (run : string) (log : string) : list string :=
  map (λ marker, run +:+ ":" +:+ marker) (unseen_markers WORKLOAD_REQUIRED_MARKERS log).

Definition missing_of (a : options) (log : string) (r : report) : list string :=
  unseen_markers REQUIRED_MARKERS log ++
  missing_in "warmup" (warmup_log r) ++
  missing_in "stabilization" (stabilization_log r) ++
  missing_in "measured" (measured_log r) ++
  (if expect_mipi_profile a && negb (marker_seen log JD9365_PROFILE)
   then ["MICRONUX:M6:DSI exact Kit C JD9365 profile"] else []).

(** The judgement after the [try]: lines for [sys.stderr], or the accounting that is
    expected from now on. *)
Definition judge (a : options) (expected_payload : string * string) (boot : Z) (expected_accounting : option account)
    (log : string) (r : report) : list string + option account :=
  let missing := missing_of a log r in
  let forbidden := seen_markers FORBIDDEN_MARKERS log in
  if decide (missing ≠ [] ∨ forbidden ≠ [] ∨ payload r ≠ expected_payload ∨ before r ≠ after r) then
    inl [log;
         "M7 arena boot " +:+ pretty boot +:+ ": missing=" +:+ repr_list missing +:+ " forbidden=" +:+ repr_list forbidden +:+ " " +:+
         "payload=" +:+ repr_pair (payload r) +:+ " expected=" +:+ repr_pair expected_payload +:+ " " +:+
         "pool_before=" +:+ repr_account (before r) +:+ " pool_after=" +:+ repr_account (after r)]
  else if decide (memory_after r + 16 < memory_before r) then
    inl ["M7 arena boot " +:+ pretty boot +:+ ": kernel memory loss exceeds 16 KiB: " +:+
         pretty (memory_before r) +:+ "->" +:+ pretty (memory_after r)]
  else compare_with expected_accounting (before r) ["M7 arena accounting changed across boot " +:+ pretty boot].

Definition passed_line (boots boot : Z) (r : report) : string :=
  "M7 arena boot " +:+ pretty boot +:+ "/" +:+ pretty boots +:+ " passed: " +:+
  "reserved=" +:+ pretty (reserved (before r)) +:+ " mapped=" +:+ pretty (mapped (before r)) +:+
  " free=" +:+ pretty (free (before r)) +:+ " " +:+
  "arenas=" +:+ pretty (arenas (before r)) +:+ " mem_kib=" +:+ pretty (memory_before r) +:+ "->" +:+
  pretty (memory_after r).

Definition HANDLED : list exn_class := [OSError; CalledProcessError; ValueError].

Section Run.
Context {W : Type} (H : host W) (capture : io W string) (a : options) (expected_payload : string * string).

Definition save (complete_log : list string) : io W unit :=
  match log_path a with
  | Some path => make_parent H path ;; write_text H path (str_join nl complete_log)
  | None => mret tt
  end.

(** The [try] of a boot: what was found, or the exception with the log so far. *)
Definition try_boot (complete_log : list string) : io W (string * report + exn * string) :=
  captured ← catch HANDLED (log ← capture; mret (inl log)) (λ error, mret (inr error));
  match captured with
  | inr error => mret (inr (error, ""))
  | inl log =>
      catch HANDLED
        (save (complete_log ++ [log]) ;; r ← lift (analyse log); mret (inl (log, r)))
        (λ error, mret (inr (error, log)))
  end.

Definition boot_failed (boot : Z) (error : exn) (log : string) : io W (list string + Z) :=
  (if decide (log = "") then mret tt else print_err log) ;;
  print_err ("M7 arena boot " +:+ pretty boot +:+ ": " +:+ exn_msg error) ;;
  mret (inr 1).

Fixpoint arena_loop (n : nat) (boot : Z) (expected_accounting : option account) (complete_log : list string)
    : io W (list string + Z) :=
  match n with
  | O => mret (inl complete_log)
  | S n =>
      outcome ← try_boot complete_log;
      match outcome with
      | inr (error, log) => boot_failed boot error log
      | inl (log, r) =>
          match judge a expected_payload boot expected_accounting log r with
          | inl errors => report_errors errors ;; mret (inr 1)
          | inr expected_accounting =>
              print (passed_line (boots a) boot r) ;;
              arena_loop n (boot + 1) expected_accounting (complete_log ++ [log])
          end
      end
  end.

End Run.

(** [a or b] of optional strings *)
Definition or_port (x y : option string) : option string :=
  match x with None | Some "" => y | _ => x end.

Definition PORTS_MISSING : string := "provide --loader-port and --linux-port, or use legacy --port".

Definition main {W} (H : host W) (env : environment) (fuel : nat) (directory : artifact_dir) (a : options) : io W Z :=
  lift (raise_when (boots a < 1) SystemExit "--boots must be at least 1") ;;
  match or_port (loader_port a) (port a), or_port (linux_port a) (port a) with
  | Some loader_port, Some linux_port =>
      match artifact_hashes directory with
      | Err error => if caught [OSError; ValueError] error then print_err (exn_msg error) ;; mret 1 else lift (Err error)
      | Ok expected_payload =>
          logs ← arena_loop H (capture_boot H env fuel loader_port linux_port (timeout a)) a expected_payload
                   (Z.to_nat (boots a)) 1 None [];
          match logs with
          | inr code => mret code
          | inl complete_log =>
              save H a complete_log ;;
              print ("M7 per-mm arena gate passed: boots=" +:+ pretty (boots a) +:+ " " +:+
                     "range=[49700000,49f00000) payload=" +:+ expected_payload.1) ;;
              mret 0
          end
      end
  | _, _ => raise SystemExit PORTS_MISSING
  end.

(** ** The three runs of a log *)

Definition quiet (lines : list string) : Prop := Forall (λ line, begins line = false) lines.

(** A run begins with its mark and has no other. *)
Definition is_run (lines : list string) : Prop :=
  ∃ line rest, lines = line :: rest ∧ begins line = true ∧ quiet rest.

(** The output is something, then exactly three runs. *)
Definition three_runs (log warmup stabilization measured : string) : Prop :=
  ∃ boot w s m, output_lines log = boot ++ w ++ s ++ m ∧ quiet boot ∧ is_run w ∧ is_run s ∧ is_run m
    ∧ warmup = str_join nl w ∧ stabilization = str_join nl s ∧ measured = str_join nl m.

Lemma starts_from_nil i lines : starts_from i lines = [] ↔ quiet lines.
Proof.
  unfold quiet. revert i. induction lines as [|line lines IH]; intros i; cbn; [done|].
  rewrite Forall_cons. destruct (begins line); [split; [done|by intros [? _]]|]. rewrite IH. tauto.
Qed.

Lemma starts_from_cons i lines a starts :
  starts_from i lines = a :: starts ↔
  ∃ pre line post, lines = pre ++ line :: post ∧ quiet pre ∧ begins line = true
    ∧ a = (i + length pre)%nat ∧ starts_from (S a) post = starts.
Proof.
  unfold quiet. revert i. induction lines as [|line lines IH]; intros i; cbn.
  - split; [done|]. by intros ([|? ?] & ? & ? & ? & _).
  - destruct (begins line) eqn:E.
    + split.
      * intros [= <- Hs]. exists [], line, lines. split_and!; [done|constructor|done|cbn; lia|done].
      * intros ([|x pre] & l & post & Hl & Hq & Hb & -> & Hs); injection Hl as -> ->.
        -- by rewrite Nat.add_0_r in *; subst.
        -- apply Forall_cons in Hq as [? _]. congruence.
    + rewrite IH. split.
      * intros (pre & l & post & -> & Hq & Hb & -> & Hs). exists (line :: pre), l, post.
        split_and!; [done|by constructor|done|cbn; lia|done].
      * intros ([|x pre] & l & post & Hl & Hq & Hb & -> & Hs); injection Hl as -> ->; [congruence|].
        apply Forall_cons in Hq as [_ ?]. exists pre, l, post. split_and!; [done..|cbn; lia|done].
Qed.

Lemma drop_length_app {A} (n : nat) (k l : list A) : n = length k → drop n (k ++ l) = l.
Proof. intros ->. apply drop_app_length. Qed.
Lemma take_length_app {A} (n : nat) (k l : list A) : n = length k → take n (k ++ l) = k.
Proof. intros ->. apply take_app_length. Qed.

Lemma workload_runs_ok log w s m : workload_runs log = Ok (w, s, m) ↔ three_runs log w s m.
Proof.
  unfold workload_runs, three_runs. cbv zeta. generalize (output_lines log) as lines. intros lines. split.
  - destruct (starts_from 0 lines) as [|a [|b [|c [|]]]] eqn:E; try done. intros [= <- <- <-].
    apply starts_from_cons in E as (boot & l1 & p1 & -> & Hq & Hb1 & -> & E).
    apply starts_from_cons in E as (w1 & l2 & p2 & -> & Hq1 & Hb2 & Hb & E).
    apply starts_from_cons in E as (w2 & l3 & w3 & -> & Hq2 & Hb3 & Hc & Hq3%starts_from_nil).
    exists boot, (l1 :: w1), (l2 :: w2), (l3 :: w3). split; [by rewrite <- !app_comm_cons|].
    split_and!; [done|by exists l1, w1|by exists l2, w2|by exists l3, w3|..]; unfold slice; f_equal.
    + rewrite drop_length_app by lia. rewrite app_comm_cons. apply take_length_app. cbn. lia.
    + rewrite (app_comm_cons w1), (app_assoc boot). rewrite drop_length_app by (rewrite length_app; cbn; lia).
      rewrite app_comm_cons. apply take_length_app. cbn. lia.
    + rewrite (app_comm_cons w2), (app_comm_cons w1), !app_assoc. apply drop_length_app. rewrite !length_app. cbn. lia.
  - intros (boot & ? & ? & ? & -> & Hq & (l1 & w1 & -> & Hb1 & Hq1) & (l2 & w2 & -> & Hb2 & Hq2) & (l3 & w3 & -> & Hb3 & Hq3) & -> & -> & ->).
    assert (starts_from 0 (boot ++ (l1 :: w1) ++ (l2 :: w2) ++ l3 :: w3) =
      [length boot; (S (length boot) + length w1)%nat; (S (S (length boot) + length w1) + length w2)%nat]) as ->.
    { apply starts_from_cons. exists boot, l1, (w1 ++ (l2 :: w2) ++ l3 :: w3). split_and!; [done..|].
      apply starts_from_cons. exists w1, l2, (w2 ++ l3 :: w3). split_and!; [done..|].
      apply starts_from_cons. exists w2, l3, w3. split_and!; [done..|]. by apply starts_from_nil. }
    f_equal. unfold slice. f_equal; [f_equal|]; f_equal.
    + rewrite drop_length_app by lia. apply take_length_app. cbn. lia.
    + rewrite (app_assoc boot). rewrite drop_length_app by (rewrite length_app; cbn; lia).
      apply take_length_app. cbn. lia.
    + rewrite !app_assoc. apply drop_length_app. rewrite !length_app. cbn. lia.
Qed.

(** ** What a pass means *)

(** The supervisor killed one job for its time and one for its output, in time. *)
Definition jobs_limited (log : string) : Prop :=
  ∃ wall output, search WALL_RE log = Some wall ∧ search OUTPUT_RE log = Some output
    ∧ int_of 10 (group wall "1") ≤ 32768 ∧ 2000 ≤ int_of 10 (group wall "2") ≤ 4000
    ∧ 32768 < int_of 10 (group output "1") ∧ int_of 10 (group output "2") < 2000.

(** The pool has 2048 pages, and no more is mapped or in arenas than reserved. *)
Definition account_ok (a : account) : Prop := reserved a + free a = 2048 ∧ mapped a ≤ reserved a ∧ arenas a ≤ reserved a.

Definition workload_ok (run : string) : Prop :=
  ∀ marker, marker ∈ WORKLOAD_REQUIRED_MARKERS → marker_seen run marker = true.

Record boot_ok (a : options) (expected_payload : string * string) (log : string) (pool : account) : Prop := {
  ok_markers : ∀ marker, marker ∈ REQUIRED_MARKERS → marker_seen log marker = true;
  ok_profile : expect_mipi_profile a = true → marker_seen log JD9365_PROFILE = true;
  ok_no_failure : ∀ marker, marker ∈ FORBIDDEN_MARKERS → marker_seen log marker = false;
  ok_runs : ∃ warmup stabilization measured,
    three_runs log warmup stabilization measured
    ∧ workload_ok warmup ∧ workload_ok stabilization ∧ workload_ok measured ∧ jobs_limited measured;
  ok_payload : boot_hashes log = Ok expected_payload;
  ok_pool : accounting log Before = Ok pool ∧ accounting log After = Ok pool ∧ account_ok pool;
  ok_memory : ∃ memory_before memory_after,
    free_memory log Before = Ok memory_before ∧ free_memory log After = Ok memory_after
    ∧ memory_before ≤ memory_after + 16;
}.

Lemma job_policy_ok log u : job_policy_results log = Ok u ↔ jobs_limited log.
Proof.
  unfold job_policy_results, jobs_limited. destruct u. split.
  - destruct (search WALL_RE log) as [wall|], (search OUTPUT_RE log) as [output|]; try done. cbv zeta.
    rewrite raise_when_ok, raise_when_unit. intros [H1 H2]. exists wall, output. split_and!; try done; lia.
  - intros (wall & output & -> & -> & H1 & H2 & H3 & H4). cbv zeta. rewrite raise_when_ok, raise_when_unit. lia.
Qed.

Lemma accounting_valid log phase pool : accounting log phase = Ok pool → account_ok pool.
Proof.
  unfold accounting, account_ok. destruct (search (ACCOUNT_RE phase) log); [|done]. cbv zeta.
  rewrite raise_when_ok. intros [Hn [= <-]]. lia.
Qed.

Lemma missing_in_nil run log : missing_in run log = [] ↔ workload_ok log.
Proof.
  unfold missing_in, workload_ok. rewrite <- unseen_markers_nil.
  destruct (unseen_markers WORKLOAD_REQUIRED_MARKERS log); by split.
Qed.

Lemma m7_missing_nil a log r : missing_of a log r = [] ↔
  (∀ marker, marker ∈ REQUIRED_MARKERS → marker_seen log marker = true)
  ∧ workload_ok (warmup_log r) ∧ workload_ok (stabilization_log r) ∧ workload_ok (measured_log r)
  ∧ (expect_mipi_profile a = true → marker_seen log JD9365_PROFILE = true).
Proof.
  unfold missing_of. rewrite !app_nil, unseen_markers_nil, !missing_in_nil.
  destruct (expect_mipi_profile a), (marker_seen log JD9365_PROFILE); cbn; intuition congruence.
Qed.

Lemma analyse_ok log r : analyse log = Ok r ↔
  three_runs log (warmup_log r) (stabilization_log r) (measured_log r) ∧ boot_hashes log = Ok (payload r)
  ∧ accounting log Before = Ok (before r) ∧ accounting log After = Ok (after r)
  ∧ free_memory log Before = Ok (memory_before r) ∧ free_memory log After = Ok (memory_after r)
  ∧ jobs_limited (measured_log r).
Proof.
  unfold analyse. split.
  - intros ([[w s] m] & Hr & E)%bind_ok_inv.
    apply bind_ok_inv in E as (p & Hp & (b & Hb & (a & Ha & (mb & Hmb & (ma & Hma & (u & Hj & [= <-])%bind_ok_inv)%bind_ok_inv)%bind_ok_inv)%bind_ok_inv)%bind_ok_inv).
    apply workload_runs_ok in Hr. apply job_policy_ok in Hj. done.
  - intros (Hr%workload_runs_ok & Hp & Hb & Ha & Hmb & Hma & Hj). rewrite Hr. cbn [mbind result_bind].
    rewrite Hp, Hb, Ha, Hmb, Hma. cbn [mbind result_bind].
    rewrite (proj2 (job_policy_ok (measured_log r) tt)) by done. by destruct r.
Qed.

(** A handler that marks the failure does not hide a success. *)
Lemma catch_inl {W A B} classes (m : io W (A + B)) (h : exn → B) x s s' :
  catch classes m (λ e, mret (inr (h e))) s = Some (Ok (inl x), s') ↔ m s = Some (Ok (inl x), s').
Proof. unfold catch. destruct (m s) as [[[y|e] s1]|]; [done| |done]. by destruct (caught classes e). Qed.

Section Gate.
Context {W : Type} (H : host W) (env : environment) (fuel : nat) (directory : artifact_dir) (a : options).

Section Series.
Context (capture : io W string) (expected_payload : string * string).

Definition check (boot : Z) (expected : option account) (log : string) : result (list string + option account) :=
  r ← analyse log; Ok (judge a expected_payload boot expected log r).

Lemma judge_ok boot expected log r expected' :
  judge a expected_payload boot expected log r = inr expected' ↔
  missing_of a log r = [] ∧ seen_markers FORBIDDEN_MARKERS log = [] ∧ payload r = expected_payload
  ∧ before r = after r ∧ memory_before r ≤ memory_after r + 16
  ∧ (expected = None ∨ expected = Some (before r)) ∧ expected' = Some (before r).
Proof.
  unfold judge. cbv zeta. case_decide as Hd.
  - split; [done|]. intros (? & ? & ? & ? & _). tauto.
  - assert (missing_of a log r = [] ∧ seen_markers FORBIDDEN_MARKERS log = [] ∧ payload r = expected_payload ∧ before r = after r)
      as (-> & -> & -> & ->) by (split_and!; apply dec_stable; tauto).
    case_decide; [split; [done|lia]|]. rewrite compare_with_spec. intuition lia.
Qed.

Lemma m7_check_spec boot expected (ms : list unit) log expected' :
  check boot expected log = Ok (inr expected') ↔
  ∃ pool (m : unit), boot_ok a expected_payload log pool ∧ (expected = None ∨ expected = Some pool) ∧ expected' = Some pool.
Proof.
  unfold check. rewrite bind_ok_inv. split.
  - intros (r & (Hr & Hp & Hb & Ha & Hmb & Hma & Hj)%analyse_ok & [= (Hm & Hf & Hpay & Heq & Hmem & He & ->)%judge_ok]).
    apply m7_missing_nil in Hm as (? & ? & ? & ? & ?). rewrite seen_markers_nil in Hf.
    exists (before r), tt. split_and!; [|done..]. constructor; try done.
    + by exists (warmup_log r), (stabilization_log r), (measured_log r).
    + by rewrite Hp, Hpay.
    + split_and!; [done|by rewrite Heq|by eapply accounting_valid].
    + eauto.
  - intros (pool & _ & [Hm Hprof Hf (w & s & m & Hr & H1 & H2 & H3 & Hj) Hp (Hb & Ha & _) (mb & ma & Hmb & Hma & Hmem)] & He & ->).
    exists {| warmup_log := w; stabilization_log := s; measured_log := m; payload := expected_payload;
              before := pool; after := pool; memory_before := mb; memory_after := ma |}.
    split; [by apply analyse_ok|]. f_equal. apply judge_ok. rewrite m7_missing_nil, seen_markers_nil.
    cbn [warmup_log stabilization_log measured_log payload before after memory_before memory_after].
    split_and!; assumption || reflexivity.
Qed.

(** The boots of a run from number [boot] on, after the logs [earlier]. *)
Inductive ran : Z → list string → st W → list string → st W → Prop :=
  | ran_none boot earlier s : ran boot earlier s [] s
  | ran_one boot earlier s log s1 s2 r logs s' :
      capture s = Some (Ok log, s1) → save H a (earlier ++ [log]) s1 = Some (Ok tt, s2) → analyse log = Ok r →
      ran (boot + 1) (earlier ++ [log]) (printed [passed_line (boots a) boot r] s2) logs s' →
      ran boot earlier s (log :: logs) s'.

Lemma try_boot_ok earlier s log r s2 :
  try_boot H capture a earlier s = Some (Ok (inl (log, r)), s2) ↔
  ∃ s1, capture s = Some (Ok log, s1) ∧ save H a (earlier ++ [log]) s1 = Some (Ok tt, s2) ∧ analyse log = Ok r.
Proof.
  unfold try_boot. split.
  - intros ([log'|error] & s1 & Hc & E)%bind_returned; [|done].
    apply catch_inl, bind_returned in Hc as (log1 & s1' & Hc & [= <- <-]).
    apply catch_inl, bind_returned in E as ([] & s3 & Hs & (r' & s4 & [= Ha <-] & [= <- <- <-])%bind_returned). eauto.
  - intros (s1 & Hc & Hs & Ha). apply bind_returned. exists (inl log), s1. split.
    + apply catch_inl, bind_returned. eauto.
    + apply catch_inl, bind_returned. exists tt, s2. split; [done|]. by rewrite Ha.
Qed.

Lemma boot_failed_returns boot error log s : ∃ s', boot_failed (W := W) boot error log s = Some (Ok (inr 1), s').
Proof. unfold boot_failed. case_decide; by eexists. Qed.

Lemma print_printed line (s : st W) : print line s = Some (Ok tt, printed [line] s).
Proof. reflexivity. Qed.

Lemma arena_passed n boot expected earlier s all s' :
  arena_loop H capture a expected_payload n boot expected earlier s = Some (Ok (inl all), s') ↔
  ∃ logs expected', length logs = n ∧ all = earlier ++ logs ∧ ran boot earlier s logs s'
    ∧ check_all check boot expected logs = Some expected'.
Proof.
  revert boot expected earlier s. induction n as [|n IH]; intros boot expected earlier s; cbn [arena_loop].
  - split; [intros [= <- <-]; exists [], expected; rewrite app_nil_r; split_and!; [done..|constructor|done]|].
    intros ([|? ?] & ? & ? & -> & Hr & _); [|done]. rewrite app_nil_r. by inversion Hr; subst.
  - split.
    + intros ([[log r]|[error log]] & s2 & Ht & E)%bind_returned.
      2: { destruct (boot_failed_returns boot error log s2) as [? E']. by rewrite E' in E. }
      apply try_boot_ok in Ht as (s1 & Hc & Hs & Ha).
      destruct (judge a expected_payload boot expected log r) as [errors|expected1] eqn:Ej.
      { by apply bind_returned in E as (? & ? & ? & ?). }
      apply bind_returned in E as ([] & s3 & Hp & (logs & expected' & Hl & -> & Hr & Hk)%IH).
      exists (log :: logs), expected'. rewrite <- app_assoc. split_and!; [cbn [length]; by rewrite Hl|done| |].
      * econstructor; [exact Hc|exact Hs|exact Ha|]. rewrite print_printed in Hp. injection Hp as <-. exact Hr.
      * cbn [check_all]. unfold check at 1. rewrite Ha. cbn [mbind result_bind]. by rewrite Ej.
    + intros ([|log logs] & expected' & Hl & -> & Hr & Hk); [done|].
      inversion Hr as [|? ? ? ? s1 s2 r ? ? Hc Hs Ha Hr']; subst. cbn [check_all] in Hk. unfold check at 1 in Hk.
      rewrite Ha in Hk. cbn [mbind result_bind] in Hk.
      destruct (judge a expected_payload boot expected log r) as [errors|expected1] eqn:Ej; [done|].
      apply bind_returned. exists (inl (log, r)), s2. split; [apply try_boot_ok; eauto|]. cbv beta iota. rewrite Ej.
      apply bind_returned. exists tt, (printed [passed_line (boots a) boot r] s2). split; [apply print_printed|].
      apply IH. exists logs, expected'. injection Hl as Hl. rewrite <- app_assoc. split_and!; assumption || reflexivity.
Qed.

Lemma arena_code n boot expected earlier s code s' :
  arena_loop H capture a expected_payload n boot expected earlier s = Some (Ok (inr code), s') → code = 1.
Proof.
  revert boot expected earlier s. induction n as [|n IH]; intros boot expected earlier s; cbn [arena_loop]; [done|].
  intros ([[log r]|[error log]] & s2 & _ & E)%bind_returned.
  - destruct (judge a expected_payload boot expected log r); [by apply bind_returned in E as (? & ? & _ & [= <- _])|].
    apply bind_returned in E as (? & ? & _ & E). by apply IH in E.
  - destruct (boot_failed_returns boot error log s2) as [s3 E']. rewrite E' in E. by injection E as <-.
Qed.

End Series.

(** [main] with the ports and the payload of the artifacts. *)
Definition run_gate (loader_port linux_port : string) (expected_payload : string * string) : io W Z :=
  logs ← arena_loop H (capture_boot H env fuel loader_port linux_port (timeout a)) a expected_payload
           (Z.to_nat (boots a)) 1 None [];
  match logs with
  | inr code => mret code
  | inl complete_log =>
      save H a complete_log ;;
      print ("M7 per-mm arena gate passed: boots=" +:+ pretty (boots a) +:+ " " +:+
             "range=[49700000,49f00000) payload=" +:+ expected_payload.1) ;;
      mret 0
  end.

Definition pass_line (expected_payload : string * string) : string :=
  "M7 per-mm arena gate passed: boots=" +:+ pretty (boots a) +:+ " " +:+
  "range=[49700000,49f00000) payload=" +:+ expected_payload.1.

(** All boots were captured and saved, satisfy the specification with the payload of
    the artifacts and the same state of the pool, and the verdict is printed. *)
Definition series_passes (loader_port linux_port : string) (expected_payload : string * string) (s s' : st W) : Prop :=
  ∃ logs pool s1 s2,
    Z.of_nat (length logs) = boots a
    ∧ ran (capture_boot H env fuel loader_port linux_port (timeout a)) 1 [] s logs s1
    ∧ (∀ log, log ∈ logs → boot_ok a expected_payload log pool)
    ∧ save H a logs s1 = Some (Ok tt, s2)
    ∧ s' = printed [pass_line expected_payload] s2.

Definition passes (s s' : st W) : Prop :=
  1 ≤ boots a ∧
  ∃ loader linux expected_payload,
    or_port (loader_port a) (port a) = Some loader ∧ or_port (linux_port a) (port a) = Some linux
    ∧ artifact_hashes directory = Ok expected_payload ∧ series_passes loader linux expected_payload s s'.

Lemma check_all_pool expected_payload log logs expected' :
  check_all (check expected_payload) 1 None (log :: logs) = Some expected' ↔
  ∃ pool, (∀ l, l ∈ log :: logs → boot_ok a expected_payload l pool) ∧ expected' = Some pool.
Proof.
  rewrite (check_all_same (check expected_payload) (λ e (_ : list unit), e) (λ log pool _, boot_ok a expected_payload log pool)
             (m7_check_spec expected_payload)).
  split.
  - intros (pool & ms & Hf & ->). exists pool. split; [|done]. by eapply (Forall2_unit (λ l, boot_ok a expected_payload l pool)).
  - intros (pool & Hf & ->). eexists pool, _. split; [by apply Forall2_units|done].
Qed.

Lemma run_gate_passes loader linux expected_payload s s' : 1 ≤ boots a →
  run_gate loader linux expected_payload s = Some (Ok 0, s') ↔ series_passes loader linux expected_payload s s'.
Proof.
  intros Hb. unfold run_gate, series_passes. split.
  - intros ([all|code] & s1 & Hl & E)%bind_returned; [|apply arena_code in Hl; by subst code].
    apply arena_passed in Hl as ([|log logs] & expected' & Hlen & -> & Hr & Hk); [cbn in Hlen; lia|].
    apply check_all_pool in Hk as (pool & Hok & ->).
    apply bind_returned in E as ([] & s2 & Hs & ([] & s3 & Hp & [= <-])%bind_returned).
    rewrite print_printed in Hp. injection Hp as Hp.
    exists (log :: logs), pool, s1, s2. split_and!; [lia|exact Hr|exact Hok|exact Hs|by rewrite <- Hp].
  - intros (logs & pool & s1 & s2 & Hlen & Hr & Hok & Hs & ->).
    apply bind_returned. exists (inl logs), s1. split.
    + apply arena_passed. exists logs, (Some pool). destruct logs as [|log logs]; [cbn in Hlen; lia|].
      split_and!; [lia|done|exact Hr|]. apply check_all_pool. eauto.
    + apply bind_returned. exists tt, s2. split; [exact Hs|]. apply bind_returned. eexists tt, _.
      split; [apply print_printed|done].
Qed.

Lemma run_gate_exits loader linux expected_payload s : 1 ≤ boots a →
  wlp (run_gate loader linux expected_payload) (exits (series_passes loader linux expected_payload s)) s.
Proof.
  intros Hb. unfold wlp.
  destruct (run_gate loader linux expected_payload s) as [[[code|e] s']|] eqn:E; [| |done]; cbn [exits].
  - split; [rewrite <- run_gate_passes, E by done; split; [by intros ->|by intros [= ->]]|].
    apply bind_returned in E as ([all|c] & s1 & Hl & E).
    + left. by apply bind_returned in E as (? & ? & _ & (? & ? & _ & [= <- _])%bind_returned).
    + right. apply arena_code in Hl. by injection E as <-.
  - intros s'' Hs%run_gate_passes; [|done]. congruence.
Qed.

Lemma m7_exits s : wlp (main H env fuel directory a) (exits (passes s)) s.
Proof.
  unfold main, passes. eapply wlp_exits_iff.
  - apply wlp_guard. intros Hb.
    instantiate (1 := λ s', ∃ loader linux expected_payload,
      or_port (loader_port a) (port a) = Some loader ∧ or_port (linux_port a) (port a) = Some linux
      ∧ artifact_hashes directory = Ok expected_payload ∧ series_passes loader linux expected_payload s s').
    destruct (or_port (loader_port a) (port a)) as [loader|]; [|by intros ? (? & ? & ? & ? & _)].
    destruct (or_port (linux_port a) (port a)) as [linux|]; [|by intros ? (? & ? & ? & ? & ? & _)].
    destruct (artifact_hashes directory) as [expected_payload|e].
    + eapply wlp_exits_iff; [apply (run_gate_exits loader linux expected_payload); lia|].
      intros s'. split; [by eauto 10|]. by intros (? & ? & ? & [= <-] & [= <-] & [= <-] & ?).
    + destruct (caught _ e); [|by intros ? (? & ? & ? & ? & ? & ? & _)]. split; [|by right].
      split; [done|by intros (? & ? & ? & ? & ? & ? & _)].
  - intros s'. cbv beta. split; intros [? ?]; (split; [lia|done]).
Qed.

End Gate.

(** ** Termination *)

Section Ends.
Context {W : Type} (H : host W) `{!TimedHost H} (env : environment) (fuel : nat).

Lemma m7_open_steady n port deadline s : rounds_left H n deadline s →
  wp (open_serial H n port deadline) (λ _ s', time H s ≤ time H s') s.
Proof.
  pose proof (tick_range (H := H)) as Htick. revert s.
  induction n as [|n IH]; intros s Hn; [destruct Hn; lia|]. cbn [open_serial].
  assert (steady H (open_attempt H port)) as Ho by (unfold open_attempt; repeat steady_step).
  apply wp_catch. eapply wp_mono; [apply Ho|].
  intros [d|e] s1 H1; [done|]. cbn beta. destruct (caught _ e); [|done].
  apply wp_bind, (wp_monotonic H). intros s2 H2 _.
  case_decide; [cbn; lia|].
  apply wp_bind, (wp_sleep H); [unfold ms; lia|]. intros s3 H3.
  eapply wp_mono; [apply IH; eapply (rounds_step H n deadline s s2); unfold ms in *; eauto; lia|].
  cbn. unfold ms in *. lia.
Qed.

Lemma send_once_steady d ready sent condition payloads : steady H (send_once H d ready sent condition payloads).
Proof.
  unfold send_once. destruct (ready && negb sent && condition); [|steady_step].
  apply steady_bind; [steady_step|intros _]. apply steady_bind; [|intros _; repeat steady_step].
  induction payloads; cbn [write_all]; [steady_step|]. apply steady_bind; [steady_step|done].
Qed.

Lemma m7_on_text_steady d p loader linux : steady H (on_text H d p loader linux).
Proof.
  unfold on_text. cbv zeta. do 9 (apply steady_bind; [apply send_once_steady|intros ?]).
  apply steady_bind; [repeat steady_step|]. intros [seen|]; repeat steady_step.
Qed.

Lemma console_loop_wp n loader linux deadline p s : rounds_left H n deadline s →
  wp (console_loop H n loader linux deadline p) (λ _ s', time H s ≤ time H s') s.
Proof.
  pose proof (tick_range (H := H)) as Htick. revert p s.
  induction n as [|n IH]; intros p s Hn; [destruct Hn; lia|]. cbn [console_loop].
  apply wp_bind, (wp_monotonic H). intros s1 H1 _. case_decide; [|done].
  apply wp_bind, (wp_read H); [|cbn; lia]. intros chunk s2 H2. cbv zeta. apply wp_bind.
  set (linux_read := match linux with None => _ | Some _ => _ end).
  assert (steady H linux_read) as Hl by (unfold linux_read; repeat steady_step).
  eapply wp_mono; [apply Hl|]. intros [bytes|e] s3 H3; [|cbn; lia].
  apply wp_bind. eapply wp_mono; [apply m7_on_text_steady|]. intros [[p'|p']|e] s4 H4; [|cbn; lia..].
  eapply wp_mono; [apply IH; eapply (rounds_step H n deadline s s1); eauto; lia|]. cbn. lia.
Qed.

Lemma m7_capture_steady loader_port linux_port timeout : lasts H fuel timeout →
  steady H (capture_boot H env fuel loader_port linux_port timeout).
Proof.
  intros Hf s. apply wp_bind. eapply wp_mono; [apply steady_check_run|]. intros [u|e] s0 H0; [|done].
  apply wp_bind, (wp_monotonic H). intros s1 H1 _. cbv zeta.
  assert (∀ s', time H s1 ≤ time H s' → rounds_left H fuel (time H s1 + timeout) s') as Hrounds.
  { intros s' ?. apply (rounds_lasting H fuel timeout); [done|lia]. }
  apply wp_bind. eapply wp_mono; [by apply m7_open_steady, Hrounds|]. intros [loader|e] s2 H2; [|cbn; lia].
  apply wp_bind. unfold open_linux.
  eapply (wp_mono _ (λ _ s', time H s2 ≤ time H s')).
  { case_decide as Hd; [cbn; lia|]. apply wp_bind. eapply wp_mono; [apply m7_open_steady, Hrounds; lia|].
    by intros [d|e] s3 H3. }
  intros [linux|e] s3 H3; [|cbn; lia].
  assert (wp (console_loop H fuel loader linux (time H s1 + timeout) start) (λ _ s', time H s3 ≤ time H s') s3) as Hc
    by (apply console_loop_wp, Hrounds; lia).
  assert (steady H (close_devices H loader linux)) as Hcl.
  { unfold close_devices. apply steady_bind; [apply steady_cancel_and_release|intros _].
    destruct linux; [apply steady_cancel_and_release|steady_step]. }
  unfold wp, finally, mbind, io_bind in *. destruct (console_loop H fuel loader linux _ start s3) as [[[p|e] s4]|]; [| |done].
  - destruct (texts p); cbn; specialize (Hcl s4); unfold wp in Hcl;
      destruct (close_devices H loader linux s4) as [[[?|?] s5]|]; lia || done.
  - specialize (Hcl s4); unfold wp in Hcl; destruct (close_devices H loader linux s4) as [[[?|?] s5]|]; lia || done.
Qed.

Lemma arena_steady a (capture : io W string) expected_payload n boot expected complete_log : steady H capture →
  steady H (arena_loop H capture a expected_payload n boot expected complete_log).
Proof.
  intros Hc. revert boot expected complete_log. induction n as [|n IH]; intros boot expected complete_log;
    cbn [arena_loop]; [steady_step|].
  assert (∀ logs, steady H (save H a logs)) as Hs by (intros; unfold save; repeat steady_step).
  apply steady_bind.
  - unfold try_boot. apply steady_bind.
    + apply steady_catch; [apply steady_bind; [done|intros; steady_step]|intros; steady_step].
    + intros [log|error]; [|steady_step]. apply steady_catch; [|intros; steady_step].
      apply steady_bind; [apply Hs|intros _]. repeat steady_step.
  - intros [[log r]|[error log]]; [|unfold boot_failed; repeat steady_step].
    destruct (judge _ _ _ _ _ _).
    + apply steady_bind; [apply steady_report_errors|intros _; steady_step].
    + apply steady_bind; [steady_step|intros _; apply IH].
Qed.

End Ends.

(** C30: On a host whose clock advances, and with fuel for the timeout that is asked
    for, the M7 gate ends, and it exits with 0 exactly when at least one boot and ports are
    asked for, the artifacts are accepted, and every boot was captured, ran the artifacts'
    payload, printed all required markers, the display profile's if it is expected, and no
    forbidden one, had three complete workload runs without a failure, had its runaway jobs
    killed within their limits, returned the user pool to the same state, equal on all
    boots, and lost at most 16 KiB of kernel memory; the logs are saved, where a file is
    named, and then the pass line is printed.  Otherwise it exits with 1 or passes on an
    exception. *)
Theorem m7_gate {W} (H : host W) `{!TimedHost H} env fuel directory a s :
  lasts H fuel (timeout a) →
  wp (main H env fuel directory a) (exits (passes H env fuel directory a s)) s.
Proof.
  intros Hf. eapply wp_mono; [apply wp_and; [|apply m7_exits]|by intros r s' [_ ?]].
  assert (steady H (main H env fuel directory a)) as Hm; [|apply Hm].
  apply steady_bind; [steady_step|intros _].
  destruct (or_port (loader_port a) (port a)) as [loader|]; [|steady_step].
  destruct (or_port (linux_port a) (port a)) as [linux|]; [|steady_step].
  destruct (artifact_hashes directory) as [expected_payload|e]; [|repeat steady_step].
  apply steady_bind; [by apply arena_steady, m7_capture_steady|].
  intros [logs|code]; [|steady_step]. apply steady_bind; [unfold save; repeat steady_step|].
  intros _. repeat steady_step.
Qed.

(** ** One port for both consoles

    With a single port the text that drives the gate is the capture twice, so every
    line counts double, and the first workload run is never counted as one. *)

Lemma marker_count_join a b marker : marker ≠ "" →
  marker_count (decode a +:+ nl +:+ decode b) marker = marker_count (decode a) marker + marker_count (decode b) marker.
Proof.
  intros Hm. unfold marker_count, output_lines. destruct (splitlines_join a b) as (extra & He & ->).
  rewrite !filter_app, !length_app. destruct He as [-> | ->]; [cbn; lia|].
  assert (contains marker "" = false) as Hc by (by destruct marker).
  match goal with |- context [filter ?P (filter ?Q [""])] =>
    assert (filter P (filter Q [""]) = []) as -> end; [|cbn; lia].
  apply filter_nil_iff. intros line Hl. apply list_elem_of_filter in Hl as [_ ->%list_elem_of_singleton]. by rewrite Hc.
Qed.

(** Nothing after the first workload has been sent. *)
Definition stalled (p : progress) : Prop :=
  warmup_quiesce_sent p = false ∧ stabilization_sent p = false ∧ stabilization_quiesce_sent p = false
  ∧ before_sent p = false ∧ command_sent p = false ∧ measured_quiesce_sent p = false ∧ after_sent p = false
  ∧ done_seen_at p = None.

Lemma send_once_idle {W} (H : host W) d ready sent condition payloads :
  ready && negb sent && condition = false → send_once H d ready sent condition payloads = mret sent.
Proof. unfold send_once. by intros ->. Qed.

Lemma wlp_any {W A B} (m : io W A) (f : A → io W B) (Q : result B → st W → Prop) s :
  (∀ e s', Q (Err e) s') → (∀ x s', wlp (f x) Q s') → wlp (m ≫= f) Q s.
Proof. intros He Hf. apply wlp_bind. unfold wlp at 1. destruct (m s) as [[[x|e] s']|]; [apply Hf|apply He|done]. Qed.

Lemma ret_bind {W A B} (x : A) (f : A → io W B) : mret x ≫= f = f x.
Proof. reflexivity. Qed.

Definition stays_stalled (r : result (progress + progress)) : Prop :=
  match r with Ok (inl p) | Ok (inr p) => stalled p | Err _ => True end.

Lemma on_text_stalled {W} (H : host W) d p captured s :
  stalled p → wlp (on_text H d p captured captured) (λ r _, stays_stalled r) s.
Proof.
  intros (H1 & H2 & H3 & H4 & H5 & H6 & H7 & H8). unfold on_text. cbv zeta. rewrite H1, H2, H3, H4, H5, H6, H7, H8.
  apply wlp_any; [done|]. intros prepare s1. apply wlp_any; [done|]. intros warmup s2.
  assert ((workload_done (decode captured +:+ nl +:+ decode captured) =? 1) = false) as Hodd.
  { unfold workload_done. rewrite marker_count_join by done. apply Z.eqb_neq. lia. }
  rewrite Hodd, (send_once_idle H d warmup false false) by (by rewrite andb_false_r).
  rewrite ret_bind. do 6 (rewrite send_once_idle, ret_bind by done). cbn [andb]. rewrite ret_bind.
  cbv beta iota. destruct (existsb _ _); [|done]. by apply wlp_any.
Qed.

Lemma console_loop_stalled {W} (H : host W) n d deadline p s :
  stalled p →
  wlp (console_loop H n d None deadline p) (λ r _, match r with Ok p => stalled p | Err _ => True end) s.
Proof.
  revert p s. induction n as [|n IH]; intros p s Hp; [done|]. cbn [console_loop].
  apply wlp_any; [done|]. intros now s1. case_decide; [|done].
  apply wlp_any; [done|]. intros chunk s2. cbv zeta. rewrite ret_bind. apply wlp_bind.
  eapply wlp_mono; [by apply on_text_stalled|]. intros [[p'|p']|e] s3 Hs; [by apply IH|done|done].
Qed.

(** C31: When the loader and Linux share a port, the gate cannot get past the first
    workload run: on any host, whatever the board prints, a console loop that returns has
    not sent the mark that ends the warm-up nor any command after it, and has not seen the
    end of the test.  A loop that ends in an exception is not constrained. *)
Theorem m7_single_port_stalls {W} (H : host W) n d deadline s :
  wlp (console_loop H n d None deadline start) (λ r _, match r with Ok p => stalled p | Err _ => True end) s.
Proof. by apply console_loop_stalled. Qed.

(** ** Sample runs *)

Definition sample_flat : bytes :=
  encode "bFLT" ++ [Byte.x00; Byte.x00; Byte.x00; Byte.x04] ++ replicate 31 Byte.x00 ++ [Byte.x01] ++ replicate 4 Byte.x00.
Definition sample_dir : artifact_dir := {| path_of := λ name, "out/" +:+ name; file_of := λ _, Some sample_flat |}.

Definition sample_options (linux : string) : options := {|
  port := None; loader_port := Some "COM1"; linux_port := Some linux; boots := 1; timeout := seconds 5;
  log_path := Some "m7.log"; expect_mipi_profile := false |}.

(** What the loader and Linux print up to the shell. *)
Definition sample_boot : list string :=
  ["MICRONUX:M3:KERNEL bytes=44 sha256=" +:+ sha256_hex sample_flat;
   "MICRONUX:M3:DTB bytes=44 sha256=" +:+ sha256_hex sample_flat] ++
  take (length REQUIRED_MARKERS - length WORKLOAD_REQUIRED_MARKERS - 1) REQUIRED_MARKERS.

Definition sample_workload (wall_ms : string) : list string :=
  [BEGIN; "MICRONUX:M7:JOB result=killed reason=wall signal=9 output=0 duration_ms=" +:+ wall_ms;
   "MICRONUX:M7:JOB result=killed reason=output signal=9 output=32769 duration_ms=40"] ++ WORKLOAD_REQUIRED_MARKERS.

Definition sample_memory (m : measurement) (kib : string) : list string :=
  ["MICRONUX:M7:POOL-TEST:MEM-" +:+ phase_name m; "MemFree:    " +:+ kib +:+ " kB"].
Definition sample_account (m : measurement) : list string :=
  ["MICRONUX:M7:POOL-TEST:ACCOUNT-" +:+ phase_name m;
   "MICRONUX:M7:POOL range=[49700000,49f00000) pages=2048 reserved=12 mapped=10 free=2036 arenas=3"].

(** What the Linux port receives, round by round. *)
Definition sample_rounds (wall_ms kib : string) : list (list string) :=
  [["MICRONUX:M7:WARMUP:PREPARED"]; sample_workload "2500"; ["MICRONUX:M7:WARMUP:QUIESCED"]; sample_workload "2500";
   ["MICRONUX:M7:STABILIZATION:QUIESCED"];
   sample_memory Before "9000" ++ sample_account Before ++ ["MICRONUX:M7:POOL-TEST:BEFORE:DONE"];
   sample_workload wall_ms; ["MICRONUX:M7:WORKLOAD:QUIESCED"];
   sample_account After ++ sample_memory After kib ++ ["MICRONUX:M7:POOL-TEST:DONE"]].

(** The two ports are read in turn. *)
Definition two_ports (rounds : list (list string)) : list bytes :=
  [console sample_boot; []] ++ concat (map (λ lines, [[]; console lines]) rounds).

Definition sample_run (linux : string) (chunks : list bytes) : option (result Z * string) :=
  (λ o, (o.1, List.last (splitlines (stderr o.2)) "")) <$>
    main replay_host bench_environment 150 sample_dir (sample_options linux) (replaying chunks).

Example m7_examples :
  (sample_run "COM2" (two_ports (sample_rounds "2500" "8984")),
   job_policy_results (str_join nl (sample_workload "4000")),
   job_policy_results (str_join nl (sample_workload "4001")))
  = (Some (Ok 0, ""), Ok tt, Err (Exn ValueError "invalid wall policy result: bytes=0 ms=4001")).
Proof. by_compute. Qed.

(** A timeout that has passed before the first read leaves the texts unbound. *)
Example m7_unbound_text :
  fst <$> main replay_host bench_environment 150 sample_dir
            {| port := Some "COM1"; loader_port := None; linux_port := None; boots := 1; timeout := 0;
               log_path := None; expect_mipi_profile := false |} (replaying [])
  = Some (Err (Exn UnboundLocalError "cannot access local variable 'loader_text' where it is not associated with a value")).
Proof. by_compute. Qed.

Lemma m7_gate_witness :
  let s := replaying (two_ports (sample_rounds "2500" "8984")) in
  wp (main replay_host bench_environment (Z.to_nat 20001) sample_dir (sample_options "COM2"))
    (exits (passes replay_host bench_environment (Z.to_nat 20001) sample_dir (sample_options "COM2") s)) s.
Proof.
  apply (m7_gate replay_host bench_environment (Z.to_nat 20001) sample_dir (sample_options "COM2")); apply replay_lasts.
  vm_compute. discriminate.
Defined.
