(* ===== verification/GateM1.v ===== *)
(** * scripts/m1-test.py: the M1 image under QEMU

    The gate checks what the build left behind, boots the image in QEMU, whose console it
    has on two pipes, runs commands in the guest's shell and powers the guest off.  A
    [qemu_host] is the record of what it uses of the operating system; the content of the
    files of the build is an argument. *)

From S2P Require Import Prelude PyBytes PyStr PyJson Utf8 Sha256 Regex RegexLines Io Session Boots.

(** ** The host *)

Record qemu_host (W : Type) := {
  (** [subprocess.run(arguments, check=True, capture_output=True, text=True).stdout] *)
  q_run : list string → W → result string * W;
  (** [time.monotonic()], in nanoseconds *)
  q_monotonic : W → Z * W;
  (** [subprocess.Popen(command, ...)] *)
  q_spawn : list string → W → result unit * W;
  (** [selector.select(timeout)]: whether the child's output can be read *)
  q_select : Z → W → result bool * W;
  (** [os.read] of the child's output *)
  q_read : Z → W → result bytes * W;
  (** [write] and [flush] of the child's input *)
  q_write : bytes → W → result Z * W;
  q_flush : W → result unit * W;
  (** [poll], [terminate], [wait(timeout)] and [kill] of the child *)
  q_poll : W → result (option Z) * W;
  q_terminate : W → result unit * W;
  q_wait : option Z → W → result Z * W;
  q_kill : W → result unit * W;
}.
Arguments q_run {W}. Arguments q_monotonic {W}. Arguments q_spawn {W}. Arguments q_select {W}. Arguments q_read {W}.
Arguments q_write {W}. Arguments q_flush {W}. Arguments q_poll {W}. Arguments q_terminate {W}. Arguments q_wait {W}.
Arguments q_kill {W}.

(** The files, by their paths. *)
Record tree := { is_file : string → bool; content : string → result bytes }.

(** [Path(__file__).resolve().parent.parent], [Path.home()] and the variable
    [MICRONUX_M1_WORKDIR], as paths in the form [pathlib] gives them. *)
Record place := { repo_dir : string; home : string; workdir : option string }.

(** ** The build *)

Definition TIMEOUT_BOOT_SECONDS : Z := 45.
Definition TIMEOUT_SHELL_SECONDS : Z := 10.
Definition MAX_BUSYBOX_MEMORY_SPAN : Z := 256 * 1024.

Definition require_text (files : tree) (path : string) (required : list string) : result unit :=
  raw ← content files path;
  text ← read_text raw;
  let missing := absent required text in
  raise_when (missing ≠ []) RuntimeError (path +:+ " is missing required settings: " +:+ repr_list missing).

(** [path / name] *)
Definition under (path name : string) : string :=
  if decide (path = ".") then name else if endswith "/" path then path +:+ name
  else path +:+ "/" +:+ name.

Definition defconfig (p : place) : string :=
  under (repo_dir p) "buildroot-external/configs/micronux_qemu_rv32_nommu_defconfig".
Definition busybox_fragment (p : place) : string :=
  under (repo_dir p) "buildroot-external/board/micronux/busybox-m1.config".

(** The first twelve digits of the digest of the two files' digests. *)
Definition config_id (files : tree) (p : place) : result string :=
  hashes ← map_result (λ path, raw ← content files path; Ok (encode (sha256_hex raw +:+ nl)))
    [defconfig p; busybox_fragment p];
  Ok (str_take 12 (sha256_hex (concat hashes))).

Definition work_dir (p : place) : string :=
  match workdir p with Some path => path | None => under (home p) ".cache/micronux/m1" end.

Definition output_dir (p : place) (config_id : string) : string :=
  under (work_dir p) ("output-2025.02.16-" +:+ config_id).

Section Paths.
Context (output : string).
Definition qemu : string := under output "host/bin/qemu-system-riscv32".
Definition kernel : string := under output "images/Image".
Definition initramfs : string := under output "images/rootfs.cpio".
Definition busybox : string := under output "target/bin/busybox".
Definition flthdr : string := under output "host/bin/riscv32-buildroot-linux-uclibc-flthdr".
Definition buildroot_config : string := under output ".config".
Definition linux_config : string := under output "build/linux-6.12.27/.config".
Definition artifacts : list string := [qemu; kernel; initramfs; busybox; flthdr].

Definition command : list string :=
  [qemu; "-M"; "virt"; "-m"; "32M"; "-smp"; "1"; "-bios"; "none"; "-kernel"; kernel; "-initrd"; initramfs; "-append";
   "rdinit=/bin/sh console=ttyS0"; "-cpu"; "rv32,mmu=off,f=false,d=false,zfa=false"; "-monitor"; "none"; "-nographic"].
End Paths.

Definition REQUIRED_SETTINGS : list string :=
  ["BR2_RISCV_32=y"; "# BR2_RISCV_USE_MMU is not set"; "BR2_RISCV_ISA_RVC=y"; "# BR2_RISCV_ISA_RVF is not set";
   "BR2_RISCV_ABI_ILP32=y"; "BR2_TOOLCHAIN_BUILDROOT_UCLIBC=y"; "BR2_REPRODUCIBLE=y"; "BR2_INIT_NONE=y";
   "BR2_ROOTFS_DEVICE_CREATION_STATIC=y";
   sh "BR2_ROOTFS_STATIC_DEVICE_TABLE=`system/device_table_dev.txt`";
   "BR2_PACKAGE_BUSYBOX_CONFIG_FRAGMENT_FILES="; "# BR2_PACKAGE_IFUPDOWN_SCRIPTS is not set"; "BR2_TARGET_ROOTFS_CPIO=y"].
Definition FORBIDDEN_SETTINGS : list string := ["BR2_RISCV_ISA_RVF=y"; "BR2_RISCV_ISA_RVD=y"].
Definition LINUX_SETTINGS : list string := ["# CONFIG_MMU is not set"; "CONFIG_BINFMT_FLAT=y"].

(** The files that the build should have left, and their settings. *)
Definition check_files (files : tree) (output : string) : result unit :=
  for_each (λ artifact, raise_when (is_file files artifact = false) RuntimeError
    ("missing M1 artifact: " +:+ artifact +:+ "; run m1-build.sh first")) (artifacts output) ;;
  require_text files (buildroot_config output) REQUIRED_SETTINGS ;;
  raw ← content files (buildroot_config output);
  text ← read_text raw;
  for_each (λ forbidden, raise_when (contains forbidden text = true) RuntimeError
    ("forbidden ISA setting enabled: " +:+ forbidden)) FORBIDDEN_SETTINGS ;;
  require_text files (linux_config output) LINUX_SETTINGS.

Definition BSS_RE : re := Eval vm_compute in compile false "BSS End:\s+0x([0-9a-fA-F]+)".
Definition STACK_RE : re := Eval vm_compute in compile false "Stack Size:\s+0x([0-9a-fA-F]+)".

Definition check_format (file_output : string) : result unit :=
  raise_when (contains "BFLT executable" file_output = false) RuntimeError ("BusyBox is not bFLT: " +:+ strip file_output).

Definition check_span (header : string) : result unit :=
  match search BSS_RE header, search STACK_RE header with
  | Some bss_match, Some stack_match =>
      let busybox_memory_span := int_of 16 (group bss_match "1") + int_of 16 (group stack_match "1") in
      raise_when (busybox_memory_span > MAX_BUSYBOX_MEMORY_SPAN) RuntimeError
        ("BusyBox bFLT memory span is " +:+ pretty busybox_memory_span +:+ " bytes; " +:+
         "limit is " +:+ pretty MAX_BUSYBOX_MEMORY_SPAN)
  | _, _ => Err (Exn RuntimeError "could not read the BusyBox bFLT memory span")
  end.

(** ** The guest *)

Definition PROMPT : list string := ["# "].
Definition SHELL_INPUT : string :=
  "echo MICRONUX_M1_SHELL_OK; " +:+
  "echo MICRONUX_ARCH=$(uname -m); " +:+
  "/bin/busybox sh -c 'echo MICRONUX_CHILD_1_PID=$$'; " +:+
  "/bin/busybox sh -c 'echo MICRONUX_CHILD_2_PID=$$'; " +:+
  "/bin/busybox sh -c 'echo MICRONUX_CHILD_3_PID=$$'; " +:+
  "printf 'MICRONUX_M1_%s\n' DONE" +:+ nl.
Definition DONE : list string := ["MICRONUX_M1_DONE"].
Definition POWEROFF : string := "/sbin/poweroff -f" +:+ nl.
Definition HALTED : list string := ["System halted"; "reboot: Power down"].

Definition required_output : list string :=
  ["This architecture does not have kernel memory protection."; "MICRONUX_M1_SHELL_OK"; "MICRONUX_ARCH=riscv32"].
Definition forbidden_output : list string :=
  ["This kernel does not support systems with F but not D"; "Oops - illegal instruction"; "Kernel panic";
   "page allocation failure"; "Unable to allocate RAM"; "Allocation of length"; "bad number"; "can't execute";
   "applet not found"].
Definition CHILD_RE : re := Eval vm_compute in compile false "MICRONUX_CHILD_[123]_PID=([0-9]+)".

(** The transcript is searched as bytes, which are the characters of a text here. *)
Definition child_pids (transcript : bytes) : list string := findall1 CHILD_RE (chars transcript).

Definition check_guest (transcript : bytes) : result unit :=
  let missing_output := absent required_output (chars transcript) in
  raise_when (missing_output ≠ []) RuntimeError ("guest output is missing markers: " +:+ repr_list missing_output) ;;
  raise_when (length (child_pids transcript) ≠ 3%nat ∨ size (list_to_set (C := gset string) (child_pids transcript)) ≠ 3%nat)
    RuntimeError "three distinct child bFLT shells did not execute" ;;
  let present_forbidden := present forbidden_output (chars transcript) in
  raise_when (present_forbidden ≠ []) RuntimeError ("guest output contains fatal markers: " +:+ repr_list present_forbidden).

Section Guest.
Context {W : Type} (H : qemu_host W) (fuel : nat).

Definition appears (markers : list string) (transcript : bytes) : bool :=
  existsb (λ marker, contains marker (chars transcript)) markers.

Definition expected (markers : list string) : string := str_join ", " (map repr_str markers).

(** [while time.monotonic() < deadline: ...] over the transcript so far. *)
Fixpoint read_loop (n : nat) (markers : list string) (deadline : Z) (transcript : bytes) : io W bytes :=
  match n with
  | O => out_of_fuel
  | S n =>
      now ← query (q_monotonic H);
      if decide (now < deadline) then
        ready ← effect (q_select H (ms 200));
        if ready : bool then
          chunk ← effect (q_read H 4096);
          if decide (chunk = []) then raise RuntimeError "QEMU exited before the expected marker"
          else
            let transcript := transcript ++ chunk in
            stdout_write (decode chunk) ;;
            if appears markers transcript then mret transcript else read_loop n markers deadline transcript
        else read_loop n markers deadline transcript
      else raise TimeoutError ("timed out waiting for " +:+ expected markers)
  end.

Definition read_until (markers : list string) (timeout : Z) (transcript : bytes) : io W bytes :=
  now ← query (q_monotonic H);
  read_loop fuel markers (now + timeout) transcript.

Definition send (text : string) : io W unit :=
  effect (q_write H (encode text)) ;; effect (q_flush H).

(** The body of the [try], with the shared transcript. *)
Definition converse : io W unit :=
  transcript ← read_until PROMPT (seconds TIMEOUT_BOOT_SECONDS) [];
  send SHELL_INPUT ;;
  transcript ← read_until DONE (seconds TIMEOUT_SHELL_SECONDS) transcript;
  lift (check_guest transcript) ;;
  send POWEROFF ;;
  read_until HALTED (seconds TIMEOUT_SHELL_SECONDS) transcript ;;
  mret tt.

(** The [finally] *)
Definition stop_qemu : io W unit :=
  code ← effect (q_poll H);
  match code with
  | Some _ => mret tt
  | None =>
      effect (q_terminate H) ;;
      catch [TimeoutExpired] (effect (q_wait H (Some (seconds 3))) ;; mret tt)
        (λ _, effect (q_kill H) ;; effect (q_wait H None) ;; mret tt)
  end.

Definition PASS : string := "MICRONUX_M1_TEST_PASS".

Definition main (files : tree) (p : place) : io W Z :=
  config_id ← lift (config_id files p);
  let output := output_dir p config_id in
  lift (check_files files output) ;;
  file_result ← effect (q_run H ["file"; busybox output]);
  lift (check_format file_result) ;;
  flthdr_result ← effect (q_run H [flthdr output; "-p"; busybox output]);
  lift (check_span flthdr_result) ;;
  effect (q_spawn H (command output)) ;;
  finally converse stop_qemu ;;
  print PASS ;;
  mret 0.

(** [if __name__ == "__main__"] *)
Definition script (files : tree) (p : place) : io W Z :=
  catch [OSError; RuntimeError; TimeoutError] (main files p)
    (λ error, print_err ("MICRONUX_M1_TEST_FAIL: " +:+ exn_msg error) ;; mret 1).

End Guest.

(** ** What is relied on

    The clock does not run backwards, and a [select] that finds nothing and a read of the
    output take some time, at least [pace].  A child whose return code is known is not
    [alive]. *)
Class PacedHost {W : Type} (H : qemu_host W) := {
  q_clock : W → Z;
  pace : Z;
  pace_positive : 0 < pace;
  monotonic_clock : ∀ w, (q_monotonic H w).1 = q_clock (q_monotonic H w).2;
  monotonic_later : ∀ w, q_clock w ≤ q_clock (q_monotonic H w).2;
  select_later : ∀ t w, q_clock w ≤ q_clock (q_select H t w).2;
  select_waits : ∀ t w, (q_select H t w).1 = Ok false → q_clock w + pace ≤ q_clock (q_select H t w).2;
  read_paced : ∀ n w b, (q_read H n w).1 = Ok b → q_clock w + pace ≤ q_clock (q_read H n w).2;
  alive : W → bool;
  poll_finished : ∀ w code, (q_poll H w).1 = Ok (Some code) → alive (q_poll H w).2 = false;
  wait_finished : ∀ t w code, (q_wait H t w).1 = Ok code → alive (q_wait H t w).2 = false;
}.

(** Fuel for the longest wait. *)
Definition rounds {W} (H : qemu_host W) `{!PacedHost H} (fuel : nat) : Prop :=
  seconds TIMEOUT_BOOT_SECONDS ≤ pace * (Z.of_nat fuel - 1).

(** ** What a pass means *)

Definition has_settings (files : tree) (path : string) (required forbidden : list string) : Prop :=
  ∃ raw text, content files path = Ok raw ∧ read_text raw = Ok text
    ∧ (∀ setting, setting ∈ required → contains setting text = true)
    ∧ (∀ setting, setting ∈ forbidden → contains setting text = false).

Record build_ok (files : tree) (output : string) : Prop := {
  ok_artifacts : ∀ artifact, artifact ∈ artifacts output → is_file files artifact = true;
  ok_buildroot : has_settings files (buildroot_config output) REQUIRED_SETTINGS FORBIDDEN_SETTINGS;
  ok_linux : has_settings files (linux_config output) LINUX_SETTINGS [];
}.

(** The header states a memory span within the limit. *)
Definition span_ok (header : string) : Prop :=
  ∃ bss stack, search BSS_RE header = Some bss ∧ search STACK_RE header = Some stack
    ∧ int_of 16 (group bss "1") + int_of 16 (group stack "1") ≤ MAX_BUSYBOX_MEMORY_SPAN.

Record guest_ok (transcript : bytes) : Prop := {
  ok_output : ∀ marker, marker ∈ required_output → contains marker (chars transcript) = true;
  ok_children : ∃ a b c, child_pids transcript = [a; b; c] ∧ NoDup [a; b; c];
  ok_no_failure : ∀ marker, marker ∈ forbidden_output → contains marker (chars transcript) = false;
}.

(** The output was read in chunks up to the first at which a marker is in the transcript,
    and shown as it came. *)
Definition answered {W} (markers : list string) (transcript transcript' : bytes) (s s' : st W) : Prop :=
  ∃ chunks chunk,
    transcript' = transcript ++ concat chunks ++ chunk ∧ ([] ∉ (chunks ++ [chunk]))
    ∧ appears markers transcript' = true
    ∧ (∀ first rest, first ≠ [] → chunks = first ++ rest → appears markers (transcript ++ concat first) = false)
    ∧ stdout s' = stdout s +:+ str_join "" (map decode (chunks ++ [chunk])).

(** ** Theory *)

Lemma require_text_ok files path required :
  require_text files path required = Ok tt ↔ has_settings files path required [].
Proof.
  unfold require_text. split.
  - intros (raw & ? & (text & ? & Hm)%bind_ok_inv)%bind_ok_inv. exists raw, text. cbv zeta in Hm.
    rewrite raise_when_unit in Hm. apply dec_stable in Hm. rewrite absent_nil in Hm.
    split_and!; [done..|]. by intros ? ?%elem_of_nil.
  - intros (raw & text & -> & Ht & Hm & _). cbn [mbind result_bind]. rewrite Ht. cbn [mbind result_bind].
    apply raise_when_unit. apply absent_nil in Hm. intros Hn. by apply Hn.
Qed.

Lemma check_files_ok files output : check_files files output = Ok tt ↔ build_ok files output.
Proof.
  unfold check_files. split.
  - intros ([] & Ha & ([] & Hr & H)%bind_ok_inv)%bind_ok_inv. apply bind_ok_inv in H as (raw & Hraw & H).
    apply bind_ok_inv in H as (text & Htext & H). apply bind_ok_inv in H as ([] & Hf & Hl).
    apply require_text_ok in Hr as (raw' & text' & ? & ? & Hr & _). apply require_text_ok in Hl.
    assert (raw' = raw) as -> by congruence. assert (text' = text) as -> by congruence.
    apply for_each_ok in Ha, Hf. rewrite Forall_forall in Ha, Hf. setoid_rewrite raise_when_unit in Ha.
    setoid_rewrite raise_when_unit in Hf. constructor; [| |done].
    + intros artifact Hin. by apply not_false_iff_true, Ha.
    + exists raw, text. split_and!; [done..|]. intros setting Hin. by apply not_true_iff_false, Hf.
  - intros [Ha (raw & text & Hraw & Htext & Hr & Hf) Hl]. apply bind_ok_inv. exists tt. split.
    { apply for_each_ok, Forall_forall. intros artifact Hin. apply raise_when_unit. by rewrite Ha. }
    apply bind_ok_inv. exists tt. split.
    { apply require_text_ok. exists raw, text. split_and!; [done..|]. by intros ? ?%elem_of_nil. }
    rewrite Hraw. cbn [mbind result_bind]. rewrite Htext. cbn [mbind result_bind].
    apply bind_ok_inv. exists tt. split; [|by apply require_text_ok].
    apply for_each_ok, Forall_forall. intros setting Hin. apply raise_when_unit. by rewrite Hf.
Qed.

Lemma check_format_ok text : check_format text = Ok tt ↔ contains "BFLT executable" text = true.
Proof. unfold check_format. by rewrite raise_when_unit, not_false_iff_true. Qed.

Lemma check_span_ok header : check_span header = Ok tt ↔ span_ok header.
Proof.
  unfold check_span, span_ok. split.
  - destruct (search BSS_RE header) as [bss|]; [|done]. destruct (search STACK_RE header) as [stack|]; [|done].
    cbv zeta. rewrite raise_when_unit. intros. exists bss, stack. split_and!; [done..|lia].
  - intros (bss & stack & -> & -> & ?). apply raise_when_unit. lia.
Qed.

(** The size of a set of strings is their number without repetitions. *)
Lemma size_of_strings (l : list string) : size (list_to_set (C := gset string) l) = length (remove_dups l).
Proof.
  assert (list_to_set (C := gset string) l = list_to_set (remove_dups l)) as ->.
  { apply set_eq. intros x. by rewrite !elem_of_list_to_set, elem_of_remove_dups. }
  apply size_list_to_set, NoDup_remove_dups.
Qed.

Lemma remove_dups_length (l : list string) : (length (remove_dups l) ≤ length l)%nat ∧ (length (remove_dups l) = length l → NoDup l).
Proof.
  induction l as [|x l [Hl IH]]; [by split; [|constructor]|]. cbn [remove_dups]. destruct (decide_rel elem_of x l) as [Hin|Hin].
  - cbn [length]. split; [lia|]. intros. lia.
  - cbn [length]. split; [lia|]. intros [= E]. constructor; [done|by apply IH].
Qed.

Lemma three_distinct (l : list string) :
  ¬ (length l ≠ 3%nat ∨ size (list_to_set (C := gset string) l) ≠ 3%nat) ↔ ∃ a b c, l = [a; b; c] ∧ NoDup [a; b; c].
Proof.
  rewrite size_of_strings. split.
  - intros Hl. assert (length l = 3%nat ∧ length (remove_dups l) = 3%nat) as [E Ed] by lia.
    assert (NoDup l) as Hn by (apply remove_dups_length; congruence).
    destruct l as [|a [|b [|c [|]]]]; try done. by exists a, b, c.
  - intros (a & b & c & -> & Hn). rewrite <- size_of_strings, size_list_to_set by done. cbn. lia.
Qed.

Lemma check_guest_ok transcript : check_guest transcript = Ok tt ↔ guest_ok transcript.
Proof.
  unfold check_guest. cbv zeta. rewrite bind_ok_inv. setoid_rewrite bind_ok_inv. setoid_rewrite raise_when_unit.
  split.
  - intros (_ & Hm & _ & Hc & Hf). apply three_distinct in Hc. apply dec_stable in Hm, Hf.
    rewrite absent_nil in Hm. rewrite present_nil in Hf. by constructor.
  - intros [Hm Hc Hf]. apply absent_nil in Hm. apply present_nil in Hf. rewrite Hm, Hf. apply three_distinct in Hc.
    exists tt. split; [tauto|]. exists tt. split; [done|]. tauto.
Qed.

Lemma print_returned {W} text (s : st W) u s' : print text s = Some (Ok u, s') ↔ s' = printed [text] s.
Proof. destruct u. unfold print, stdout_write, printed. cbn. split; [by intros [= <-]|by intros ->]. Qed.

(** ** Reading *)

Section Reading.
Context {W : Type} (H : qemu_host W).
Implicit Types s : st W.

Lemma str_join_empty_cons x l : str_join "" (x :: l) = x +:+ str_join "" l.
Proof. destruct l; [|done]. cbn. by rewrite str_app_nil. Qed.

Lemma answered_more markers transcript chunk transcript' s s1 s' :
  chunk ≠ [] → appears markers (transcript ++ chunk) = false → stdout s1 = stdout s +:+ decode chunk →
  answered markers (transcript ++ chunk) transcript' s1 s' → answered markers transcript transcript' s s'.
Proof.
  intros Hc Ha Hs (chunks & last & -> & Hn & Hm & Hf & Ho). exists (chunk :: chunks), last.
  split_and!; [cbn; by rewrite <- !app_assoc|by rewrite <- app_comm_cons, not_elem_of_cons|done| |].
  - intros [|c first] rest Hne E; [done|]. injection E as <- E. cbn [concat]. rewrite app_assoc.
    destruct first as [|d first]; [by rewrite app_nil_r|]. by apply (Hf (d :: first) rest).
  - rewrite Ho, Hs. cbn [map app]. rewrite str_join_empty_cons. by rewrite str_app_assoc.
Qed.

(** A read that returns has read up to a marker. *)
Lemma read_loop_answered n markers deadline transcript s :
  wlp (read_loop H n markers deadline transcript) (λ r s', ∀ t, r = Ok t → answered markers transcript t s s') s.
Proof.
  revert transcript s. induction n as [|n IH]; intros transcript s; [done|]. cbn [read_loop].
  apply wlp_bind, wlp_query. cbn beta iota. case_decide; [|done].
  apply wlp_bind, wlp_effect. destruct (q_select _ _ _) as [[[|]|e] w1]; cbn [fst snd world stdout stderr]; [| |done].
  2: { eapply wlp_mono; [apply IH|]. done. }
  apply wlp_bind, wlp_effect. destruct (q_read _ _ _) as [[chunk|e] w2]; cbn [fst snd world stdout stderr]; [|done].
  case_decide as Hc; [done|]. cbv zeta. apply wlp_bind. unfold wlp at 1, stdout_write. cbn [world stdout stderr].
  destruct (appears markers (transcript ++ chunk)) eqn:Ea.
  - intros t [= <-]. exists [], chunk. cbn. split_and!; [done| |done|by intros [|] ? ? ?|done].
    intros [|[]%elem_of_nil]%elem_of_cons. congruence.
  - eapply wlp_mono; [apply IH|]. intros r s' Hr t E. eapply answered_more; [exact Hc|exact Ea| |by apply Hr]. done.
Qed.

Lemma read_until_answered fuel markers timeout transcript s t s' :
  read_until H fuel markers timeout transcript s = Some (Ok t, s') → answered markers transcript t s s'.
Proof.
  intros E. assert (wlp (read_until H fuel markers timeout transcript) (λ r s', ∀ t, r = Ok t → answered markers transcript t s s') s) as Hw.
  { unfold read_until. apply wlp_bind, wlp_query. cbn beta iota.
    eapply wlp_mono; [apply read_loop_answered|]. done. }
  unfold wlp in Hw. rewrite E in Hw. by apply Hw.
Qed.

Context `{!PacedHost H}.

Definition q_time s : Z := q_clock (world s).

(** The rounds that a read may need before its deadline are there. *)
Definition q_left (n : nat) (deadline : Z) s : Prop := (1 ≤ n)%nat ∧ deadline - q_time s ≤ pace * (Z.of_nat n - 1).

Lemma q_left_step n deadline s s1 s' :
  q_left (S n) deadline s → q_time s ≤ q_time s1 → q_time s1 < deadline → q_time s1 + pace ≤ q_time s' → q_left n deadline s'.
Proof.
  unfold q_left. intros [_ Hn] ? ? ?. pose proof pace_positive as Hp.
  assert (1 ≤ n)%nat by (destruct n; lia). split; [done|]. nia.
Qed.

Lemma read_loop_ends n markers deadline transcript s : q_left n deadline s →
  wp (read_loop H n markers deadline transcript) (λ _ _, True) s.
Proof.
  revert transcript s. induction n as [|n IH]; intros transcript s Hl; [destruct Hl; lia|]. cbn [read_loop].
  apply wp_bind, wp_query. cbn beta iota. rewrite monotonic_clock.
  pose proof (monotonic_later (world s)) as Hm. destruct (q_monotonic H (world s)) as [t0 w0]. cbn [fst snd] in *.
  case_decide as Hd; [|done].
  apply wp_bind, wp_effect. cbn [world stdout stderr].
  pose proof (select_later (ms 200) w0) as Hs. pose proof (select_waits (ms 200) w0) as Hw.
  destruct (q_select H (ms 200) w0) as [[[|]|e] w1]; cbn [fst snd] in *; [| |done].
  2: { apply IH. apply (q_left_step n deadline s (mkSt w0 "" "")); [exact Hl|exact Hm|exact Hd|by apply Hw]. }
  apply wp_bind, wp_effect. cbn [world stdout stderr]. pose proof (read_paced 4096 w1) as Hr.
  destruct (q_read H 4096 w1) as [[chunk|e] w2]; cbn [fst snd] in *; [|done].
  case_decide; [done|]. apply wp_bind. unfold wp at 1, stdout_write. cbn [world stdout stderr].
  destruct (appears _ _); [done|]. apply IH.
  apply (q_left_step n deadline s (mkSt w0 "" "")); [exact Hl|exact Hm|exact Hd|].
  unfold q_time. cbn. specialize (Hr _ eq_refl). lia.
Qed.

Lemma read_until_ends fuel markers timeout transcript s : rounds H fuel → timeout ≤ seconds TIMEOUT_BOOT_SECONDS →
  wp (read_until H fuel markers timeout transcript) (λ _ _, True) s.
Proof.
  intros Hf Ht. unfold read_until. apply wp_bind, wp_query. cbn beta iota. rewrite monotonic_clock.
  apply read_loop_ends. unfold q_left, q_time, rounds in *. cbn [world]. pose proof (pace_positive (H := H)).
  assert (0 < seconds TIMEOUT_BOOT_SECONDS) by done. split; [destruct fuel; lia|lia].
Qed.

End Reading.

(** ** The gate *)

Section Gate.
Context {W : Type} (H : qemu_host W) (fuel : nat).
Implicit Types s : st W.

(** [read_until] returned the transcript [t'], which ends where a marker appeared. *)
Definition reads (markers : list string) (timeout : Z) (t t' : bytes) s s' : Prop :=
  read_until H fuel markers timeout t s = Some (Ok t', s') ∧ answered markers t t' s s'.

(** The guest came up, ran the commands as it should, and was powered off. *)
Definition conversation s s' : Prop :=
  ∃ booted result halted s1 s2 s3 s4,
    reads PROMPT (seconds TIMEOUT_BOOT_SECONDS) [] booted s s1
    ∧ send H SHELL_INPUT s1 = Some (Ok tt, s2)
    ∧ reads DONE (seconds TIMEOUT_SHELL_SECONDS) booted result s2 s3
    ∧ guest_ok result
    ∧ send H POWEROFF s3 = Some (Ok tt, s4)
    ∧ reads HALTED (seconds TIMEOUT_SHELL_SECONDS) result halted s4 s'.

(** The build is complete and its BusyBox a flat executable of a bounded size, the guest
    behaved in QEMU, and QEMU has been stopped. *)
Definition passes (files : tree) (p : place) s s' : Prop :=
  ∃ id file_output header s1 s2 s3 s4 s5, let output := output_dir p id in
    config_id files p = Ok id ∧ build_ok files output
    ∧ effect (q_run H ["file"; busybox output]) s = Some (Ok file_output, s1)
    ∧ contains "BFLT executable" file_output = true
    ∧ effect (q_run H [flthdr output; "-p"; busybox output]) s1 = Some (Ok header, s2)
    ∧ span_ok header
    ∧ effect (q_spawn H (command output)) s2 = Some (Ok tt, s3)
    ∧ conversation s3 s4
    ∧ stop_qemu H s4 = Some (Ok tt, s5)
    ∧ s' = printed [PASS] s5.

Lemma reads_iff markers timeout t t' s s' :
  read_until H fuel markers timeout t s = Some (Ok t', s') ↔ reads markers timeout t t' s s'.
Proof. unfold reads. split; [|by intros []]. intros E. split; [done|by eapply read_until_answered]. Qed.

Lemma converse_ok s s' : converse H fuel s = Some (Ok tt, s') ↔ conversation s s'.
Proof.
  unfold converse, conversation. split.
  - intros (booted & s1 & Hb%reads_iff & E)%bind_returned. apply bind_returned in E as ([] & s2 & Hs & E).
    apply bind_returned in E as (result & s3 & Hr%reads_iff & E).
    apply bind_returned in E as ([] & ? & [Hg%check_guest_ok ->]%lift_returned & E).
    apply bind_returned in E as ([] & s4 & Hp & E). apply bind_returned in E as (halted & s5 & Hh%reads_iff & [= ->]).
    by exists booted, result, halted, s1, s2, s3, s4.
  - intros (booted & result & halted & s1 & s2 & s3 & s4 & Hb%reads_iff & Hs & Hr%reads_iff & Hg%check_guest_ok & Hp & Hh%reads_iff).
    apply bind_returned. exists booted, s1. split; [done|]. apply bind_returned. exists tt, s2. split; [done|].
    apply bind_returned. exists result, s3. split; [done|]. apply bind_returned. exists tt, s3. split; [by apply lift_returned|].
    apply bind_returned. exists tt, s4. split; [done|]. apply bind_returned. by exists halted, s'.
Qed.

Lemma m1_main_ok files p s code s' : main H fuel files p s = Some (Ok code, s') ↔ code = 0 ∧ passes files p s s'.
Proof.
  unfold main, passes. cbv zeta. split.
  - intros (id & ? & [Hid ->]%lift_returned & E)%bind_returned.
    apply bind_returned in E as ([] & ? & [Hb%check_files_ok ->]%lift_returned & E).
    apply bind_returned in E as (out & s1 & Ho & E). apply bind_returned in E as ([] & ? & [Hf%check_format_ok ->]%lift_returned & E).
    apply bind_returned in E as (header & s2 & Hh & E). apply bind_returned in E as ([] & ? & [Hs%check_span_ok ->]%lift_returned & E).
    apply bind_returned in E as ([] & s3 & Hq & E). apply bind_returned in E as ([] & s5 & (s4 & Hc%converse_ok & Hst)%finally_returned & E).
    apply bind_returned in E as ([] & s6 & ->%print_returned & [= <- <-]). split; [done|]. by exists id, out, header, s1, s2, s3, s4, s5.
  - intros (-> & id & out & header & s1 & s2 & s3 & s4 & s5 & Hid & Hb & Ho & Hf & Hh & Hs & Hq & Hc & Hst & ->).
    apply bind_returned. exists id, s. split; [by apply lift_returned|].
    apply bind_returned. exists tt, s. split; [by apply lift_returned; rewrite check_files_ok|].
    apply bind_returned. exists out, s1. split; [done|].
    apply bind_returned. exists tt, s1. split; [by apply lift_returned; rewrite check_format_ok|].
    apply bind_returned. exists header, s2. split; [done|].
    apply bind_returned. exists tt, s2. split; [by apply lift_returned; rewrite check_span_ok|].
    apply bind_returned. exists tt, s3. split; [done|].
    apply bind_returned. exists tt, s5. split; [apply finally_returned; exists s4; split; [by apply converse_ok|done]|].
    apply bind_returned. exists tt, (printed [PASS] s5). split; [by apply print_returned|done].
Qed.

Lemma m1_script_ok files p s s' : script H fuel files p s = Some (Ok 0, s') ↔ passes files p s s'.
Proof.
  split.
  - intros E. unfold script, catch in E. destruct (main H fuel files p s) as [[[code|e] s1]|] eqn:Em; [| |done].
    + injection E as -> ->. by apply m1_main_ok in Em as [_ ?].
    + destruct (caught _ e); [|done]. by apply bind_returned in E as (? & ? & _ & ?).
  - intros Hp. assert (main H fuel files p s = Some (Ok 0, s')) as E by (by apply m1_main_ok). unfold script, catch. by rewrite E.
Qed.

(** The handler takes over or the exception goes on; a returned code is 0 or 1. *)
Lemma m1_codes files p s :
  wlp (script H fuel files p) (λ r s',
    match r with
    | Ok code => code = 0 ∨ code = 1
    | Err e => caught [OSError; RuntimeError; TimeoutError] e = false
    end) s.
Proof.
  unfold wlp, script, catch. destruct (main H fuel files p s) as [[[code|e] s1]|] eqn:Em; [| |done].
  - left. by apply m1_main_ok in Em as [-> _].
  - destruct (caught _ e) eqn:Ec; [|done]. cbn. by right.
Qed.

Context `{!PacedHost H}.

Lemma stop_qemu_finished s : wlp (stop_qemu H) (λ r s', r = Ok tt → alive (world s') = false) s.
Proof.
  unfold stop_qemu. apply wlp_bind, wlp_effect. pose proof (poll_finished (world s)) as Hp.
  destruct (q_poll H (world s)) as [[[code|]|e] w1]; cbn [fst snd] in *; [by intros _; eapply Hp| |done].
  apply wlp_bind, wlp_effect. cbn [world]. destruct (q_terminate H w1) as [[[]|e] w2]; cbn [fst snd] in *; [|done].
  unfold wlp, catch, mbind, io_bind, effect. cbn [world stdout stderr].
  pose proof (wait_finished (Some (seconds 3)) w2) as Hw.
  destruct (q_wait H (Some (seconds 3)) w2) as [[code|e] w3]; cbn [fst snd] in *; [by intros _; eapply Hw|].
  destruct (caught _ e); [|done]. cbn [world stdout stderr].
  destruct (q_kill H w3) as [[[]|e'] w4]; cbn [world stdout stderr]; [|done].
  pose proof (wait_finished None w4) as Hn. destruct (q_wait H None w4) as [[code|e'] w5]; [|done].
  intros _. by eapply Hn.
Qed.

Lemma passes_stopped files p s s' : passes files p s s' → alive (world s') = false.
Proof.
  intros (id & out & header & s1 & s2 & s3 & s4 & s5 & _ & _ & _ & _ & _ & _ & _ & _ & Hst & ->).
  pose proof (stop_qemu_finished s4) as Hw. unfold wlp in Hw. rewrite Hst in Hw. by apply Hw.
Qed.

End Gate.

(** ** Termination *)

Section Ends.
Context {W : Type}.

(** The program comes to an outcome. *)
Definition ends {A} (m : io W A) : Prop := ∀ s, wp m (λ _ _, True) s.

Lemma ends_lift {A} (r : result A) : ends (lift r).
Proof. done. Qed.

Lemma ends_ret {A} (a : A) : ends (mret a).
Proof. done. Qed.

Lemma ends_effect {A} (f : W → result A * W) : ends (effect f).
Proof. intros s. by apply wp_effect. Qed.

Lemma ends_bind {A B} (m : io W A) (f : A → io W B) : ends m → (∀ a, ends (f a)) → ends (m ≫= f).
Proof. intros Hm Hf s. apply wp_bind. eapply wp_mono; [apply Hm|]. intros [a|e] s' _; [apply Hf|done]. Qed.

Lemma ends_catch {A} classes (m : io W A) h : ends m → (∀ e, ends (h e)) → ends (catch classes m h).
Proof.
  intros Hm Hh s. apply wp_catch. eapply wp_mono; [apply Hm|]. intros [a|e] s' _; [done|].
  destruct (caught classes e); [apply Hh|done].
Qed.

Lemma ends_finally {A} (m : io W A) cleanup : ends m → ends cleanup → ends (finally m cleanup).
Proof.
  intros Hm Hc s. apply wp_finally. eapply wp_mono; [apply Hm|]. intros r s' _.
  eapply wp_mono; [apply Hc|]. by intros [u|e] s''.
Qed.

End Ends.

Create HintDb ends.
#[export] Hint Resolve ends_lift ends_ret ends_effect ends_bind ends_catch ends_finally : ends.

Lemma send_ends {W} (H : qemu_host W) text : ends (send H text).
Proof. unfold send. eauto with ends. Qed.

Lemma stop_qemu_ends {W} (H : qemu_host W) : ends (stop_qemu H).
Proof. unfold stop_qemu. apply ends_bind; [eauto with ends|]. intros [code|]; eauto 6 with ends. Qed.

Lemma converse_ends {W} (H : qemu_host W) `{!PacedHost H} fuel : rounds H fuel → ends (converse H fuel).
Proof.
  intros Hf. unfold converse.
  assert (∀ markers timeout t, timeout ≤ seconds TIMEOUT_BOOT_SECONDS → ends (read_until H fuel markers timeout t)) as Hr.
  { intros markers timeout t Ht s. exact (read_until_ends H fuel markers timeout t s Hf Ht). }
  apply ends_bind; [by apply Hr|]. intros booted. apply ends_bind; [apply send_ends|]. intros _.
  apply ends_bind; [by apply Hr|]. intros result. apply ends_bind; [eauto with ends|]. intros _.
  apply ends_bind; [apply send_ends|]. intros _. apply ends_bind; [by apply Hr|]. eauto with ends.
Qed.

Lemma m1_ends {W} (H : qemu_host W) `{!PacedHost H} fuel files p : rounds H fuel → ends (script H fuel files p).
Proof.
  intros Hf. unfold script. apply ends_catch; [|intros e; apply ends_bind; [by intros s|eauto with ends]].
  unfold main. cbv zeta. repeat (apply ends_bind; [first [apply ends_lift|apply ends_effect]|intros ?]).
  apply ends_bind; [apply ends_finally; [exact (converse_ends H fuel Hf)|apply stop_qemu_ends]|]. intros _.
  apply ends_bind; [by intros s|eauto with ends].
Qed.

(** C34: The M1 gate ends, and exits with 0 exactly when the build is complete with a flat
    BusyBox of a bounded memory span, the guest came up in QEMU, printed the required
    markers and three distinct child shells and no failure, and was powered off; then no
    QEMU is left running.  Otherwise it exits with 1, or with an exception that is neither
    an [OSError] nor a [RuntimeError]. *)
Theorem m1_gate {W} (H : qemu_host W) `{!PacedHost H} fuel files p s : rounds H fuel →
  wp (script H fuel files p) (λ r s',
    exits (passes H fuel files p s) r s'
    ∧ (r = Ok 0 → alive (world s') = false)
    ∧ (∀ e, r = Err e → caught [OSError; RuntimeError] e = false)) s.
Proof.
  intros Hf. pose proof (m1_ends H fuel files p Hf s) as He. pose proof (m1_codes H fuel files p s) as Hc.
  unfold wp, wlp in *. destruct (script H fuel files p s) as [[r s']|] eqn:E; [|done]. split_and!.
  - destruct r as [code|e]; cbn [exits].
    + split; [|done]. rewrite <- m1_script_ok, E. split; [by intros ->|congruence].
    + intros s'' Hp%m1_script_ok. congruence.
  - intros ->. apply (m1_script_ok H) in E. by apply (passes_stopped H fuel files p s).
  - intros e ->. cbn in Hc |- *. by destruct (subclass (exn_cls e) OSError), (subclass (exn_cls e) RuntimeError).
Qed.

(** ** Sample runs *)

(** The output that can still be read, whether QEMU is running, and what was sent to it. *)
Record bench := { b_clock : Z; b_output : list bytes; b_running : bool; b_input : list string }.

Definition bench_host (header : result string) : qemu_host bench := {|
  q_run arguments w :=
    (match arguments with "file" :: _ => Ok "busybox: BFLT executable - version 4 ram gotpic" | _ => header end, w);
  q_monotonic w := (b_clock w, w);
  q_spawn _ w := (Ok tt, {| b_clock := b_clock w; b_output := b_output w; b_running := true; b_input := b_input w |});
  q_select t w :=
    match b_output w with
    | [] => (Ok false, {| b_clock := b_clock w + ms 200; b_output := []; b_running := b_running w; b_input := b_input w |})
    | _ => (Ok true, w)
    end;
  q_read n w :=
    (Ok (default [] (head (b_output w))),
     {| b_clock := b_clock w + ms 10; b_output := tail (b_output w); b_running := b_running w; b_input := b_input w |});
  q_write b w :=
    (Ok (blen b),
     {| b_clock := b_clock w; b_output := b_output w; b_running := b_running w; b_input := b_input w ++ [chars b] |});
  q_flush w := (Ok tt, w);
  q_poll w := (Ok (if b_running w then None else Some 0), w);
  q_terminate w := (Ok tt, w);
  q_wait _ w :=
    (Ok (-15), {| b_clock := b_clock w; b_output := b_output w; b_running := false; b_input := b_input w |});
  q_kill w := (Ok tt, w);
|}.

#[global, refine] Instance bench_paced header : PacedHost (bench_host header) := {|
  q_clock := b_clock; pace := ms 10; alive := b_running |}.
Proof.
  - unfold ms. lia.
  - done.
  - intros w. cbn. lia.
  - intros t w. cbn. destruct (b_output w); cbn; unfold ms; lia.
  - intros t w. cbn. destruct (b_output w); cbn; [|done]. intros _. unfold ms. lia.
  - intros n w b _. cbn. lia.
  - intros w code. cbn. by destruct (b_running w).
  - done.
Defined.

Definition bench_place : place := {| repo_dir := "/r"; home := "/home/u"; workdir := None |}.
Definition bench_files : tree := {|
  is_file _ := true;
  content path := Ok (encode (str_join nl (if endswith "linux-6.12.27/.config" path then LINUX_SETTINGS else REQUIRED_SETTINGS))) |}.
Definition bench_header (bss : string) : result string :=
  Ok ("bFLT executable" +:+ nl +:+ "    BSS End:       0x" +:+ bss +:+ nl +:+ "    Stack Size:    0x4000" +:+ nl).
Definition bench_start (output : list string) : st bench :=
  mkSt {| b_clock := 0; b_output := map encode output; b_running := false; b_input := [] |} "" "".

Definition guest_output (third : string) : list string :=
  ["This architecture does not have kernel memory protection." +:+ nl; "/ # ";
   "MICRONUX_M1_SHELL_OK" +:+ nl +:+ "MICRONUX_ARCH=riscv32" +:+ nl +:+ "MICRONUX_CHILD_1_PID=20" +:+ nl +:+
   "MICRONUX_CHILD_2_PID=21" +:+ nl; "MICRONUX_CHILD_3_PID=" +:+ third +:+ nl +:+ "MICRONUX_M1_DO"; "NE" +:+ nl;
   "reboot: Power down" +:+ nl].

Definition bench_run (header : result string) (output : list string) : option (result Z * (string * bool)) :=
  (λ o, (o.1, (stderr o.2, b_running (world o.2)))) <$>
    script (bench_host header) 300 bench_files bench_place (bench_start output).

Example m1_examples :
  (bench_run (bench_header "3a000") (guest_output "22"), bench_run (bench_header "3a000") (guest_output "21"),
   bench_run (bench_header "3c001") (guest_output "22"), bench_run (bench_header "3a000") (take 5 (guest_output "22")),
   bench_run (bench_header "3a000") (take 4 (guest_output "22") ++ [""]))
  = (Some (Ok 0, ("", false)),
     Some (Ok 1, ("MICRONUX_M1_TEST_FAIL: three distinct child bFLT shells did not execute" +:+ nl, false)),
     Some (Ok 1, ("MICRONUX_M1_TEST_FAIL: BusyBox bFLT memory span is 262145 bytes; limit is 262144" +:+ nl, false)),
     Some (Ok 1, ("MICRONUX_M1_TEST_FAIL: timed out waiting for 'System halted', 'reboot: Power down'" +:+ nl, false)),
     Some (Ok 1, ("MICRONUX_M1_TEST_FAIL: QEMU exited before the expected marker" +:+ nl, false))).
Proof. by_compute. Qed.

(** A failing tool ends the gate in an exception that no handler names. *)
Example m1_tool_fails :
  let error := Exn CalledProcessError "Command '['flthdr']' returned non-zero exit status 1." in
  bench_run (Err error) (guest_output "22") = Some (Err error, ("", false)).
Proof. cbv zeta. by_compute. Qed.

Abbreviation bench_good := (bench_host (bench_header "3a000")).
Lemma m1_gate_witness :
  let s := bench_start (guest_output "22") in
  rounds bench_good (Z.to_nat 4501) ∧
  wp (script bench_good (Z.to_nat 4501) bench_files bench_place) (λ r s',
    exits (passes bench_good (Z.to_nat 4501) bench_files bench_place s) r s'
    ∧ (r = Ok 0 → alive (H := bench_good) (world s') = false)
    ∧ (∀ e, r = Err e → caught [OSError; RuntimeError] e = false)) s.
Proof.
  cbv zeta. assert (rounds bench_good (Z.to_nat 4501)) as Hf by (vm_compute; discriminate).
  split; [exact Hf|]. exact (m1_gate bench_good (Z.to_nat 4501) bench_files bench_place _ Hf).
Defined.
