(* ===== verification/Gdma.v ===== *)
(** * GDMA interrupt-enable read-back and native video policy

    Models [gdma_enable_semantics_valid] and the hardware fixtures of
    [test_gdma_enable_semantics] and [test_native_active_mirror_semantics] in
    scripts/m9-2-display-contract-test.py.  A test is the sequence of its
    assertions; it returns the number it counts or raises. *)

From S2P Require Import Prelude PyStr Contract Cold.

(** [if P: raise AssertionError(msg)] *)
Definition assert_not (P : Prop) `{Decision P} (msg : string) : result unit :=
  raise_when P AssertionError msg.

Definition GDMA_STATUS0_DEFINED_MASK : Z := 0xFA3F7FFB.
Definition GDMA_STATUS1_DEFINED_MASK : Z := 0x0000000F.
Definition GDMA_COMMON_DEFINED_MASK : Z := 0x001FFF8F.
Definition GDMA_ACTIVE_ENABLE_VALUES : list Z :=
  [0x023F7FE2; 0x0000000F; 0x023F7FE2; 0x0000000F; 0x001FFF8F; 0x001FFF8F].
Definition GDMA_TEARDOWN_ENABLE_VALUES : list Z :=
  [0x02000000; 0x0000000F; 0x02000000; 0x0000000F; 0x001FFE80; 0x001FFE80].
Definition GDMA_PATCH36_HARDWARE_VALUES : list Z :=
  [0x07FFFFE6; 0xFFFFFFFF; 0x07FFFFE6; 0xFFFFFFFF; 0xFFFFFFFF; 0xFFFFFFFF].

(** The masks of the six enable registers, in read order. *)
Definition gdma_masks : list Z :=
  [GDMA_STATUS0_DEFINED_MASK; GDMA_STATUS1_DEFINED_MASK; GDMA_STATUS0_DEFINED_MASK;
   GDMA_STATUS1_DEFINED_MASK; GDMA_COMMON_DEFINED_MASK; GDMA_COMMON_DEFINED_MASK].

(** [all(actual & mask == required for ... in zip(values, masks, expected, strict=True))]:
    stops at the first mismatch; a length mismatch is found only when the
    shorter sequence ends. *)
Fixpoint masked_equal (values masks expected : list Z) : result bool :=
  match values, masks, expected with
  | [], [], [] => Ok true
  | actual :: values, mask :: masks, required :: expected =>
      if decide (Z.land actual mask = required) then masked_equal values masks expected
      else Ok false
  | _, _, _ => Err (Exn ValueError "zip() arguments differ in length")
  end.

Definition gdma_enable_semantics_valid (values expected : list Z) : result bool :=
  masked_equal values gdma_masks expected.

Definition NATIVE_PROGRAMMED_VIDEO_POLICY : Z :=
  Z.lor (Z.lor (Z.lor (Z.shiftl 1 14) (foldr Z.add 0 (map (Z.shiftl 1) (seqZ 8 6)))) (Z.shiftl 1 15)) 2.
Definition LEGACY_ACTIVE_MIRROR_VIDEO_POLICY : Z :=
  Z.lor (Z.lor (Z.lor (Z.shiftl 1 8) (foldr Z.add 0 (map (Z.shiftl 1) (seqZ 2 6)))) (Z.shiftl 1 9)) 2.

(** ** [test_gdma_enable_semantics] *)

Definition patch36_delta : list Z :=
  zip_with Z.lxor GDMA_PATCH36_HARDWARE_VALUES GDMA_ACTIVE_ENABLE_VALUES.

Definition teardown_raw : list Z :=
  zip_with (λ expected mask, Z.lor expected (Z.land (Z.lnot mask) 0xFFFFFFFF))
    GDMA_TEARDOWN_ENABLE_VALUES gdma_masks.

(** [mutated = list(l); mutated[index] = f(mutated[index])] *)
Definition mutate (l : list Z) (index : nat) (f : Z → Z) : list Z := alter f index l.

(** [if valid != want: raise AssertionError(msg)] for a read-back. *)
Definition expect_valid (want : bool) (values expected : list Z) (msg : string) : result unit :=
  valid ← gdma_enable_semantics_valid values expected;
  assert_not (valid ≠ want) msg.

(** The checks on the constants and the captured values. *)
Definition gdma_value_checks : result Z :=
  assert_not (gdma_masks ≠ [0xFA3F7FFB; 0x0000000F; 0xFA3F7FFB; 0x0000000F; 0x001FFF8F; 0x001FFF8F])
    "gdma-defined-masks" ;;
  assert_not (GDMA_ACTIVE_ENABLE_VALUES
              ≠ [0x023F7FE2; 0x0000000F; 0x023F7FE2; 0x0000000F; 0x001FFF8F; 0x001FFF8F])
    "gdma-active-enable-values" ;;
  assert_not (GDMA_TEARDOWN_ENABLE_VALUES
              ≠ [0x02000000; 0x0000000F; 0x02000000; 0x0000000F; 0x001FFE80; 0x001FFE80])
    "gdma-teardown-enable-values" ;;
  assert_not (GDMA_PATCH36_HARDWARE_VALUES
              ≠ [0x07FFFFE6; 0xFFFFFFFF; 0x07FFFFE6; 0xFFFFFFFF; 0xFFFFFFFF; 0xFFFFFFFF])
    "gdma-patch36-hardware-values" ;;
  assert_not (patch36_delta
              ≠ [0x05C08004; 0xFFFFFFF0; 0x05C08004; 0xFFFFFFF0; 0xFFE00070; 0xFFE00070])
    "gdma-patch36-hardware-delta" ;;
  assert_not (Exists (λ d, d ≠ 0) (zip_with Z.land patch36_delta gdma_masks))
    "gdma-patch36-defined-bit-delta" ;;
  assert_not (GDMA_PATCH36_HARDWARE_VALUES = GDMA_ACTIVE_ENABLE_VALUES)
    "gdma-patch36-exact-equality-would-pass" ;;
  Ok 7.

(** The read-backs that must and must not be accepted. *)
Definition gdma_readback_checks : result Z :=
  expect_valid true GDMA_PATCH36_HARDWARE_VALUES GDMA_ACTIVE_ENABLE_VALUES
    "gdma-patch36-semantic-readback" ;;
  expect_valid true GDMA_ACTIVE_ENABLE_VALUES GDMA_ACTIVE_ENABLE_VALUES
    "gdma-active-clean-readback" ;;
  assert_not (teardown_raw
              ≠ [0x07C08004; 0xFFFFFFFF; 0x07C08004; 0xFFFFFFFF; 0xFFFFFEF0; 0xFFFFFEF0])
    "gdma-teardown-reserved-one-readback" ;;
  expect_valid true teardown_raw GDMA_TEARDOWN_ENABLE_VALUES "gdma-teardown-semantic-readback" ;;
  for_each (λ ib, expect_valid false
      (mutate GDMA_PATCH36_HARDWARE_VALUES ib.1 (λ v, Z.lxor v (Z.shiftl 1 ib.2)))
      GDMA_ACTIVE_ENABLE_VALUES ("gdma-active-defined-bit-" +:+ pretty ib.1))
    [(0%nat, 1); (1%nat, 0); (2%nat, 1); (3%nat, 0); (4%nat, 0); (5%nat, 0)] ;;
  expect_valid false (mutate GDMA_PATCH36_HARDWARE_VALUES 0 (λ v, Z.lor v 1))
    GDMA_ACTIVE_ENABLE_VALUES "gdma-active-defined-zero" ;;
  for_each (λ ib, expect_valid false (mutate teardown_raw ib.1 (λ v, Z.lor v (Z.shiftl 1 ib.2)))
      GDMA_TEARDOWN_ENABLE_VALUES ("gdma-teardown-writable-bit-" +:+ pretty ib.1))
    [(0%nat, 1); (2%nat, 1); (4%nat, 0); (5%nat, 0)] ;;
  Ok (4 + 6 + 1 + 4).

Definition patch38_arm_snapshot : dict :=
  [("top", 0x00000000); ("status0", 0x00000000); ("status1", 0x00000000); ("common", 0x00000000);
   ("cfg", 0x00000003); ("chen", 0x00000001); ("cfg_lo", 0x0000000F); ("cfg_hi", 0x0A020001);
   ("llp", 0x00000001); ("sar", 0x48031500); ("ctrl_hi", 0xC0108840)].

(** The stable post-enable check of Patch 39 on a snapshot. *)
Definition stable_post_enable (s : dict) : Prop :=
  Z.land (dget s "chen") 0x1 ≠ 0 ∧ dget s "status0" = 0 ∧ dget s "status1" = 0
  ∧ dget s "common" = 0 ∧ dget s "top" = 0.

#[global] Instance stable_post_enable_dec s : Decision (stable_post_enable s).
Proof. unfold stable_post_enable. apply _. Defined.

Definition patch38_checks : result Z :=
  let s := patch38_arm_snapshot in
  assert_not (dget s "llp" ≠ 0x00000001) "patch38-arm-fixture-terminal-llp" ;;
  assert_not (dget s "sar" - 0x500 ≠ 0x48031000) "patch38-arm-fixture-sar-progress" ;;
  assert_not (map (dget s) ["cfg"; "chen"; "cfg_lo"; "cfg_hi"; "ctrl_hi"]
              ≠ [0x3; 0x1; 0x0000000F; 0x0A020001; 0xC0108840]) "patch38-arm-fixture-programming" ;;
  assert_not (dget s "llp" = Z.lor COLD_DESCRIPTOR_ADDRESS 0x1)
    "patch38-arm-fixture-old-llp-check-would-pass" ;;
  assert_not (¬ stable_post_enable s) "patch39-arm-fixture-stable-post-enable" ;;
  Ok 5.

Definition test_gdma_enable_semantics : result Z :=
  a ← gdma_value_checks; b ← gdma_readback_checks; c ← patch38_checks; Ok (a + b + c).

(** ** [test_native_active_mirror_semantics] *)

Definition patch39_qualification_snapshot : dict :=
  [("generation", 4); ("frames", 4); ("faults", 0); ("dma_error", 0x00000000);
   ("rearm_attempts", 5); ("rearm_failures", 0); ("guards_valid", 1);
   ("host_raw0", 0x00000000); ("host_raw1", 0x00000000); ("host_sticky0", 0x00000000);
   ("host_sticky1", 0x00000000); ("host_mode", 0x00000000); ("host_vid", 0x0000FF02);
   ("host_active", 0x00000000); ("host_lpclk", 0x00000003); ("bridge_raw", 0x00000000);
   ("bridge_underruns", 0); ("gdma_top", 0x00000000); ("gdma_status0", 0x00000000);
   ("gdma_status1", 0x00000000); ("gdma_common", 0x00000000); ("gdma_cfg", 0x00000003);
   ("gdma_chen", 0x00000001); ("gdma_cfg_lo", 0x0000000F); ("gdma_cfg_hi", 0x0A020001);
   ("gdma_llp", 0x00000001); ("gdma_sar", 0x480C4A00); ("descriptor_ctrl_hi", 0xC0108840)].

(** The inner function [video_policy_valid]. *)
Definition video_policy_valid (require_active_mirror : bool) (host_vid : Z) : bool :=
  bool_decide (host_vid = NATIVE_PROGRAMMED_VIDEO_POLICY)
  && (negb require_active_mirror
      || bool_decide (dget patch39_qualification_snapshot "host_active"
                      = LEGACY_ACTIVE_MIRROR_VIDEO_POLICY)).

Definition test_native_active_mirror_semantics : result Z :=
  let s := patch39_qualification_snapshot in
  assert_not (NATIVE_PROGRAMMED_VIDEO_POLICY ≠ 0x0000FF02) "native-programmed-video-policy" ;;
  assert_not (LEGACY_ACTIVE_MIRROR_VIDEO_POLICY ≠ 0x000003FE) "legacy-active-mirror-video-policy" ;;
  assert_not (map snd s
              ≠ [4; 4; 0; 0x00000000; 5; 0; 1; 0x00000000; 0x00000000; 0x00000000; 0x00000000;
                 0x00000000; 0x0000FF02; 0x00000000; 0x00000003; 0x00000000; 0; 0x00000000;
                 0x00000000; 0x00000000; 0x00000000; 0x00000003; 0x00000001; 0x0000000F;
                 0x0A020001; 0x00000001; 0x480C4A00; 0xC0108840])
    "patch39-active-zero-hardware-fixture" ;;
  assert_not (¬ (dget s "generation" = 4 ∧ dget s "frames" = 4 ∧ dget s "rearm_attempts" = 5
                 ∧ dget s "rearm_failures" = 0 ∧ dget s "guards_valid" ≠ 0
                 ∧ Forall (λ k, dget s k = 0)
                     ["faults"; "dma_error"; "host_raw0"; "host_raw1"; "host_sticky0";
                      "host_sticky1"; "bridge_raw"; "bridge_underruns"; "gdma_top";
                      "gdma_status0"; "gdma_status1"; "gdma_common"]))
    "patch39-active-zero-health-evidence" ;;
  assert_not (video_policy_valid true (dget s "host_vid") = true)
    "patch39-active-zero-old-policy-would-pass" ;;
  assert_not (video_policy_valid false (dget s "host_vid") = false)
    "patch40-active-zero-programmed-policy" ;;
  assert_not (video_policy_valid false (Z.lxor NATIVE_PROGRAMMED_VIDEO_POLICY 1) = true)
    "patch40-programmed-policy-weakened" ;;
  Ok 7.

(** ** Theory *)

(** Two read-backs that agree on the defined bits of every register. *)
Definition agree_defined (values expected : list Z) : Prop :=
  Forall2 (λ v me, ∀ i, Z.testbit me.2 i = Z.testbit me.1 i && Z.testbit v i)
    values (zip gdma_masks expected).

Lemma land_testbit v m e : Z.land v m = e ↔ ∀ i, Z.testbit e i = Z.testbit m i && Z.testbit v i.
Proof.
  split.
  - intros <- i. rewrite Z.land_spec. apply andb_comm.
  - intros H. apply Z.bits_inj. intros i. rewrite Z.land_spec, H. apply andb_comm.
Qed.

Lemma masked_equal_true values masks expected :
  masked_equal values masks expected = Ok true ↔
  Forall2 (λ v me, Z.land v me.1 = me.2) values (zip masks expected)
  ∧ length values = length masks ∧ length masks = length expected.
Proof.
  revert masks expected. induction values as [|v values IH]; intros [|m masks] [|e expected];
    simpl; try (split; [done | by intros (H & ? & ?); inversion H || lia]).
  - split; [done | by intros (? & ? & ?)].
  - destruct (decide (Z.land v m = e)) as [E|E].
    + rewrite IH, Forall2_cons. simpl. intuition lia.
    + split; [done|]. rewrite Forall2_cons. simpl. by intros [[? _] _].
Qed.

(** enable read-backs are judged by their defined bits.  Six register values
    are accepted for six expected values exactly when each expected value has
    the defined bits of its register as read and nothing else; so reserved bits
    that read as ones never matter, and a wrong defined bit always does. *)
Theorem gdma_semantics_defined_bits values expected :
  length values = 6%nat → length expected = 6%nat →
  gdma_enable_semantics_valid values expected = Ok true ↔ agree_defined values expected.
Proof.
  intros Hv He. unfold gdma_enable_semantics_valid, agree_defined. rewrite masked_equal_true.
  rewrite Hv, He. split.
  - intros (H & _). eapply Forall2_impl; [exact H|]. intros v [m e]. apply land_testbit.
  - intros H. split; [|done]. eapply Forall2_impl; [exact H|]. intros v [m e]. apply land_testbit.
Qed.

Lemma gdma_semantics_witness :
  agree_defined GDMA_PATCH36_HARDWARE_VALUES GDMA_ACTIVE_ENABLE_VALUES.
Proof.
  apply (gdma_semantics_defined_bits GDMA_PATCH36_HARDWARE_VALUES GDMA_ACTIVE_ENABLE_VALUES
    eq_refl eq_refl).
  vm_compute. reflexivity.
Defined.
