(* ===== verification/SourceText.v ===== *)
(** * Checks of the repository's own text

    [bind_to_sources] of scripts/m9-2-display-contract-test.py reads patches, C sources,
    device trees and scripts and checks what they say.  Here are the text operations it
    uses and the way its checks are run; the checks are in
    [BindPatches] and [BindSources]. *)

From S2P Require Import Prelude PyBytes PyStr PyJson Regex Utf8 Telemetry Session.

(** ** Files *)

(** The content of the files below [ROOT], and what [load_source] makes of the panel's
    JSON file. *)
Record sources := { file : string → result bytes; panel_document : result json }.

Definition read_bytes (src : sources) (path : string) : result bytes := file src path.
Definition read_text (src : sources) (path : string) : result string := b ← file src path; Utf8.read_text b.

(** [path.name] *)
Definition name_of (path : string) : string := default "" (last (split_on "/"%char path)).

(** ** Text *)

Definition tab : string := String (char_of 9) "".

(** [text.split()], and [" ".join(text.split())] *)
Fixpoint words_from (word : list string) (l : list string) : list string :=
  match l with
  | [] => match word with [] => [] | _ => [str_join "" (rev word)] end
  | c :: l =>
      if is_white c then
        match word with [] => words_from [] l | _ => str_join "" (rev word) :: words_from [] l end
      else words_from (c :: word) l
  end.
Definition words (text : string) : list string := words_from [] (text_chars text).
Definition compact (text : string) : string := str_join " " (words text).

(** [line[1:] for line in text.splitlines() if line.startswith(marks) and not
    line.startswith(header)] *)
Definition starts_with_any (marks : list string) (line : string) : bool := existsb (λ m, startswith m line) marks.
Definition marked_lines (marks : list string) (header text : string) : list string :=
  map (str_drop 1) (filter (λ line, starts_with_any marks line && negb (startswith header line) = true) (splitlines text)).
Definition added_lines (text : string) : list string := marked_lines ["+"] "+++" text.
Definition removed_lines (text : string) : list string := marked_lines ["-"] "---" text.
Definition added_text (text : string) : string := str_join nl (added_lines text).
Definition removed_text (text : string) : string := str_join nl (removed_lines text).
Definition postimage_text (text : string) : string := str_join nl (marked_lines [" "; "+"] "+++" text).

(** The removed lines but for the signature's [-- ]. *)
Definition removed_lines_unsigned (text : string) : list string :=
  map (str_drop 1)
    (filter (λ line, startswith "-" line && negb (startswith "---" line) && bool_decide (line ≠ "-- ") = true)
       (splitlines text)).
Definition removed_text_unsigned (text : string) : string := str_join nl (removed_lines_unsigned text).

Definition patch_postimage_compact (section : string) : string := compact (postimage_text section).

Definition len (text : string) : Z := Z.of_nat (String.length text).

(** An index into the text; a negative one counts from the end. *)
Definition bound (text : string) (i : Z) : nat := Z.to_nat (if i <? 0 then len text + i else i).

(** [text.find(token, start)], [text.index(token, start)] and [text.rindex(token)] *)
Definition find_from (token text : string) (start : Z) : Z :=
  match str_find token text (bound text start) with Some i => Z.of_nat i | None => -1 end.
Definition find (token text : string) : Z := find_from token text 0.
Definition index_from (token text : string) (start : Z) : result Z :=
  match str_find token text (bound text start) with
  | Some i => Ok (Z.of_nat i)
  | None => Err (Exn ValueError "substring not found")
  end.
Definition index (token text : string) : result Z := index_from token text 0.

Fixpoint last_at (token text : string) (i : nat) (found : option nat) : option nat :=
  let found := if startswith token text then Some i else found in
  match text with EmptyString => found | String _ text => last_at token text (S i) found end.
Definition rindex (token text : string) : result Z :=
  match last_at token text 0 None with
  | Some i => Ok (Z.of_nat i)
  | None => Err (Exn ValueError "substring not found")
  end.

(** [text[i:j]] and [text[i:]] *)
Definition slice (text : string) (i j : Z) : string :=
  str_take (bound text j - bound text i) (str_drop (bound text i) text).
Definition slice_from (text : string) (i : Z) : string := str_drop (bound text i) text.

Definition count (token text : string) : Z := Z.of_nat (str_count token text).
Definition size {A} (l : list A) : Z := Z.of_nat (length l).

(** [text.split(separator)] *)
Fixpoint split_fuel (fuel : nat) (separator text : string) : list string :=
  match fuel with
  | O => [text]
  | S fuel =>
      match str_find separator text 0 with
      | Some i => str_take i text :: split_fuel fuel separator (str_drop (i + String.length separator) text)
      | None => [text]
      end
  end.
Definition split_by (separator text : string) : list string := split_fuel (String.length text) separator text.

(** [text.replace(old, new, 1)] *)
Definition replace_first (old new text : string) : string :=
  match str_find old text 0 with
  | Some i => str_take i text +:+ new +:+ str_drop (i + String.length old) text
  | None => text
  end.

(** [re.findall(rf"\b{re.escape(word)}\b", text)] of an identifier, counted; a character
    beyond ASCII is not taken as part of a word. *)
Definition is_word (c : ascii) : bool :=
  let z := code c in bool_decide (48 ≤ z ≤ 57 ∨ 65 ≤ z ≤ 90 ∨ z = 95 ∨ 97 ≤ z ≤ 122).
Definition ends_word (text : string) : bool := match text with String c _ => negb (is_word c) | EmptyString => true end.
Fixpoint count_word_from (word text : string) (boundary : bool) : Z :=
  match text with
  | EmptyString => 0
  | String c rest =>
      (if boundary && startswith word text && ends_word (str_drop (String.length word) text) then 1 else 0)
      + count_word_from word rest (negb (is_word c))
  end.
Definition count_word (word text : string) : Z := count_word_from word text true.

(** [x in l] and [l.index(x)] of a tuple *)
Definition member (x : string) (l : list string) : bool := bool_decide (x ∈ l).
Fixpoint list_index (x : string) (l : list string) : result Z :=
  match l with
  | [] => Err (Exn ValueError "tuple.index(x): x not in tuple")
  | y :: l => if decide (x = y) then Ok 0 else i ← list_index x l; Ok (i + 1)
  end.
Definition list_count (x : string) (l : list string) : Z := size (filter (λ y, y = x) l).
Definition take_z {A} (n : Z) (l : list A) : list A := take (Z.to_nat n) l.
Definition drop_z {A} (n : Z) (l : list A) : list A := drop (Z.to_nat n) l.

(** [repr] of a tuple of items *)
Definition repr_tuple (items : list string) : string :=
  match items with [item] => "(" +:+ item +:+ ",)" | _ => "(" +:+ str_join ", " items +:+ ")" end.

(** A reason that shows a value. *)
Definition shown (text : result string) : string := match text with Ok text => text | Err _ => "" end.

(** ** Steps

    A step is a condition with the reason of its [AssertionError], or an assignment that
    may raise, and the number of tests it counts for. *)
Record step := { verdict : result bool; reason : string; tests : Z }.

(** [X_check(condition, reason)], which counts, and [if not condition: raise
    AssertionError(reason)], which does not.  The counters of the groups of checks are
    only added up. *)
Definition counted (condition : result bool) (r : string) : step := {| verdict := condition; reason := r; tests := 1 |}.
Definition required (condition : result bool) (r : string) : step := {| verdict := condition; reason := r; tests := 0 |}.

(** An assignment, and one that counts for [n] tests. *)
Definition counted_as {A} (n : Z) (value : result A) : step :=
  {| verdict := (_ ← value; Ok true); reason := ""; tests := n |}.
Definition assigned {A} (value : result A) : step := counted_as 0 value.

(** [token in text], [token not in text] and [text.count(token) == n] *)
Definition has (token : string) (text : result string) : result bool := text ← text; Ok (contains token text).
Definition lacks (token : string) (text : result string) : result bool := text ← text; Ok (negb (contains token text)).
Definition occurs (token : string) (n : Z) (text : result string) : result bool := text ← text; Ok (count token text =? n).

(** [start_index = text.find(start)] and so on: the text from [start] up to [end]. *)
Definition source_block (text start stop missing : string) : result string :=
  let start_index := find start text in
  let end_index := find_from stop text (start_index + len start) in
  raise_when (¬ (0 ≤ start_index ∧ start_index < end_index)) AssertionError missing ;;
  Ok (slice text start_index end_index).

(** [position] and the tokens that are looked for after it, each beyond the last. *)
Fixpoint tokens_in_order (text : string) (position : Z) (tokens : list string) (missing : string → string) : result unit :=
  match tokens with
  | [] => Ok tt
  | token :: tokens =>
      let position := find_from token text (position + 1) in
      raise_when (position < 0) AssertionError (missing token) ;;
      tokens_in_order text position tokens missing
  end.

(** [require_order(text, tokens, label)] counts for one test, the orders of the other
    groups for one a token. *)
Definition require_order (text : result string) (tokens : list string) (label : string) : step :=
  counted_as 1 (text ← text; tokens_in_order text (-1) tokens (λ token, label +:+ "-order-missing:" +:+ token)).
Definition each_in_order (text : result string) (position : result Z) (tokens : list string) (missing : string → string) : step :=
  counted_as (size tokens) (text ← text; position ← position; tokens_in_order text position tokens missing).

Fixpoint run_steps (n : Z) (steps : list step) : result Z :=
  match steps with
  | [] => Ok n
  | s :: steps =>
      passed ← verdict s;
      raise_when (passed = false) AssertionError (reason s) ;;
      run_steps (n + tests s) steps
  end.

(** ** Theory *)

Definition passes (s : step) : Prop := verdict s = Ok true.
Definition total (steps : list step) : Z := foldr (λ s n, tests s + n) 0 steps.

Lemma total_app a b : total (a ++ b) = total a + total b.
Proof. unfold total. induction a as [|s a IH]; cbn [app foldr]; [done|]. rewrite IH. lia. Qed.

Lemma run_steps_ok n steps m : run_steps n steps = Ok m ↔ Forall passes steps ∧ m = n + total steps.
Proof.
  revert n. induction steps as [|s steps IH]; intros n; cbn [run_steps].
  - split; [intros [= <-]; split; [constructor|cbn; lia]|intros [_ ->]; cbn; f_equal; lia].
  - rewrite bind_ok_inv, Forall_cons. unfold passes at 1. cbn [total foldr]. fold (total steps). split.
    + intros ([|] & -> & [Hn E]%raise_when_ok); [|done]. apply IH in E as [? ->]. split; [done|lia].
    + intros [[-> Hs] ->]. exists true. split; [done|]. apply raise_when_ok. split; [done|]. apply IH. split; [done|lia].
Qed.

(** A step ends the run with an exception: its condition is false, or cannot be evaluated. *)
Definition stops (s : step) (e : exn) : Prop :=
  verdict s = Ok false ∧ e = Exn AssertionError (reason s) ∨ verdict s = Err e.

(** The first step that does not pass decides. *)
Lemma run_steps_first n pre s rest e : Forall passes pre → stops s e → run_steps n (pre ++ s :: rest) = Err e.
Proof.
  intros Hpre Hs. revert n. induction Hpre as [|p pre Hp Hpre IH]; intros n; cbn [app run_steps].
  - by destruct Hs as [[-> ->]| ->].
  - rewrite Hp. apply IH.
Qed.

Lemma counted_as_passes {A} n (value : result A) : passes (counted_as n value) ↔ ∃ a, value = Ok a.
Proof. unfold passes, counted_as. cbn. rewrite bind_ok_inv. split; intros (a & ?); [exists a; tauto|by exists a]. Qed.

(** A fragment is there exactly when the text can be cut around it. *)
Lemma has_iff token text : has token text = Ok true ↔ ∃ a b, text = Ok (a +:+ token +:+ b).
Proof.
  unfold has. rewrite bind_ok_inv. split.
  - intros (t & -> & [= Ht]). apply contains_spec in Ht as (a & b & ->). by exists a, b.
  - intros (a & b & ->). eexists. split; [done|]. f_equal. apply contains_spec. eauto.
Qed.

Lemma lacks_iff token text : lacks token text = Ok true ↔ ∃ t, text = Ok t ∧ ¬ ∃ a b, t = a +:+ token +:+ b.
Proof.
  unfold lacks. rewrite bind_ok_inv. split; intros (t & -> & Ht); exists t; (split; [done|]).
  - injection Ht as Ht. rewrite <- contains_spec. by destruct (contains token t).
  - rewrite <- contains_spec in Ht. by destruct (contains token t).
Qed.

(** Tokens in order are those [placed] in the text. *)
Lemma tokens_in_order_iff text position tokens missing : -1 ≤ position →
  tokens_in_order text position tokens missing = Ok tt ↔ placed text (Z.to_nat (position + 1)) tokens.
Proof.
  rewrite <- ordered_problem_none. revert position.
  induction tokens as [|token tokens IH]; intros position Hp; cbn [tokens_in_order ordered_problem]; [done|].
  unfold find_from. replace (bound text (position + 1)) with (Z.to_nat (position + 1))
    by (unfold bound; destruct (Z.ltb_spec (position + 1) 0); lia).
  destruct (str_find token text (Z.to_nat (position + 1))) as [i|].
  - rewrite raise_when_ok, IH by lia. replace (Z.to_nat (Z.of_nat i + 1)) with (S i) by lia. split; [tauto|]. split; [lia|done].
  - rewrite raise_when_ok. split; [intros []; lia|done].
Qed.
