(* ===== verification/ContractTests.v ===== *)
(** * The self-tests of the display contract

    Models the test functions of scripts/m9-2-display-contract-test.py that
    exercise the two validators, the memory map and the ownership model, case
    by case.  A test returns the number of cases it counted, or raises what the
    first failing case raises. *)

From coqutil Require Import Datatypes.RecordSetters.
From S2P Require Import Prelude PyBytes PyStr Contract ContractTheory Cold Handoff Ownership Gdma SourceText.
Import DoubleBraceUpdate.

(** ** Expectations *)

(** The shape of [expect_reject] and [expect_cold_reject]: the validator must
    raise [ContractError] with the expected reason. *)
Definition expect (name : string) (outcome : result unit) (expected_reason unexpected : string)
    : result unit :=
  match outcome with
  | Err (Exn ContractError reason) =>
      assert_not (reason ≠ expected_reason) (name +:+ ": " +:+ reason +:+ " != " +:+ expected_reason)
  | Err e => Err e
  | Ok _ => Err (Exn AssertionError (name +:+ unexpected))
  end.

Definition expect_reject (name : string) (blob : bytes) (descriptors : list Descriptor)
    (expected_reason : string) (channel_cfg : Z * Z) : result unit :=
  expect name (validate_handoff blob descriptors channel_cfg) expected_reason
    ": contract unexpectedly accepted".

Definition expect_cold_reject (name : string) (blob : bytes) (hardware : ColdHardwareState)
    (expected_reason : string) : result unit :=
  expect name (validate_cold_relinquish blob hardware) expected_reason
    ": cold contract unexpectedly accepted".

(** [corrupted = bytearray(blob); corrupted[-1] ^= 0x80] *)
Definition flip_last (blob : bytes) : bytes :=
  alter (λ b, byte_of (Z.lxor (bz b) 0x80)) (length blob - 1)%nat blob.

(** ** [test_cold_contract] *)

Definition cold_layout_cases : list (string * result bytes * string) :=
  [("truncated", (b ← make_cold_relinquish []; Ok (drop_last 1 b)), "structure-size");
   ("wrong-magic", make_cold_relinquish [("magic", 0)], "magic");
   ("legacy-abi2", make_handoff [], "abi-version");
   ("unknown-version", make_cold_relinquish [("abi_version", 4)], "abi-version");
   ("declared-size",
     make_cold_relinquish [("struct_size", ((Z.of_nat (Struct.calcsize COLD_RELINQUISH_FORMAT)) + 4))],
     "declared-size");
   ("wrong-boot-mode", make_cold_relinquish [("boot_mode", 0)], "boot-mode");
   ("legacy-abi2-flags", make_cold_relinquish [("flags", REQUIRED_FLAGS)], "required-flags");
   ("unknown-flag", make_cold_relinquish [("flags", (Z.lor COLD_REQUIRED_FLAGS (Z.shiftl 1 14)))],
     "unknown-flags");
   ("wrong-owner", make_cold_relinquish [("ownership_state", 0)], "ownership-state");
   ("wrong-profile", make_cold_relinquish [("pixel_clock_hz", 69907200)], "panel-profile");
   ("wrong-silicon", make_cold_relinquish [("silicon_revision", 102)], "panel-profile");
   ("wrong-panel-profile-id", make_cold_relinquish [("panel_profile_id", 2)], "panel-profile");
   ("wrong-pixel-format", make_cold_relinquish [("pixel_format", 2)], "panel-profile");
   ("wrong-timing", make_cold_relinquish [("hsync_front_porch", 41)], "panel-profile");
   ("front-out-of-range", make_cold_relinquish [("framebuffer0", 0x47F00000)],
     "loader-front-bounds");
   ("fixed-pool-layout", make_cold_relinquish [("framebuffer1", 0x49200000)],
     "display-pool-layout");
   ("misaligned-framebuffer",
     make_cold_relinquish [("framebuffer0", (0x48041000 + FRAMEBUFFER_ALIGNMENT))],
     "framebuffer-alignment");
   ("wrong-frame-size", make_cold_relinquish [("framebuffer_size", (FRAME_SIZE - 2))],
     "published-frame-size");
   ("descriptor-overflow", make_cold_relinquish [("descriptor_address", 0xFFFFFFC0)],
     "descriptor-overflow");
   ("descriptor-misaligned", make_cold_relinquish [("descriptor_address", 0x4FF3BA60)],
     "descriptor-bounds");
   ("descriptor-beyond-dma-sram", make_cold_relinquish [("descriptor_address", DESCRIPTOR_SRAM.2)],
     "descriptor-bounds");
   ("descriptor-count", make_cold_relinquish [("descriptor_count", 2)], "descriptor-bounds");
   ("descriptor-overlaps-sd-dma", make_cold_relinquish [("descriptor_address", SD_DMA_SRAM.1)],
     "descriptor-sd-dma-overlap");
   ("descriptor-size", make_cold_relinquish [("descriptor_size", (DESCRIPTOR_SIZE * 2))],
     "descriptor-bounds");
   ("wrong-dma-channel", make_cold_relinquish [("dma_channel", 1)], "dma-channel")].

Definition cold_peripheral_cases : list (string * result bytes * string) :=
  [("wrong-fifo", make_cold_relinquish [("dsi_fifo_address", (DSI_FIFO + 4))],
     "peripheral-contract");
   ("wrong-i2c-address", make_cold_relinquish [("i2c_address", 0x46)], "peripheral-contract");
   ("wrong-irq-source", make_cold_relinquish [("gdma_irq_source", 23)], "peripheral-contract");
   ("wrong-clic-irq", make_cold_relinquish [("gdma_clic_irq", 17)], "gdma-linux-hwirq");
   ("wrong-i2c-port", make_cold_relinquish [("i2c_port", 1)], "peripheral-contract");
   ("wrong-i2c-sda", make_cold_relinquish [("i2c_sda_gpio", 6)], "peripheral-contract");
   ("wrong-i2c-scl", make_cold_relinquish [("i2c_scl_gpio", 9)], "peripheral-contract");
   ("wrong-i2c-rate", make_cold_relinquish [("i2c_rate_hz", 400000)], "peripheral-contract");
   ("wrong-reset-assert-command",
     make_cold_relinquish [("display_control_reset_assert_command", 0x10)],
     "peripheral-contract");
   ("wrong-reset-prepare-command",
     make_cold_relinquish [("display_control_reset_prepare_command", 0x12)],
     "peripheral-contract");
   ("wrong-reveal-command", make_cold_relinquish [("display_control_reveal_command", 0x16)],
     "peripheral-contract");
   ("wrong-reset-hold", make_cold_relinquish [("reset_hold_ms", 11)], "peripheral-contract");
   ("wrong-settle-time", make_cold_relinquish [("pwm_zero_settle_ms", 99)], "peripheral-contract");
   ("wrong-panel-payload-crc", make_cold_relinquish [("panel_payload_crc32", 0)],
     "peripheral-contract");
   ("wrong-sequence-id", make_cold_relinquish [("quiesce_sequence_id", 2)], "peripheral-contract");
   ("wrong-default-brightness", make_cold_relinquish [("backlight_brightness", 64)],
     "peripheral-contract")].

(** [for name, blob, reason in blob_cases: expect_cold_reject(...)] *)
Definition run_cold_cases (cases : list (string * result bytes * string)) : result Z :=
  for_each (λ c, blob ← c.1.2; expect_cold_reject c.1.1 blob ColdHardwareState0 c.2) cases ;;
  Ok (Z.of_nat (length cases)).

(** One case per required flag. *)
Definition cold_flag_cases : list (string * result bytes * string) :=
  imap (λ index flag,
    ("missing-required-flag-" +:+ pretty index,
     make_cold_relinquish [("flags", Z.land COLD_REQUIRED_FLAGS (Z.lnot flag))], "required-flags"))
    COLD_FLAG_VALUES.

Definition provisional_flags : Z :=
  Z.land COLD_REQUIRED_FLAGS
    (Z.lnot (Z.lor COLD_FLAG_DMA_PMS_READY COLD_FLAG_GDMA_IRQ_ROUTE_READY)).

(** The corrupted checksum and the two flag sets that are not final. *)
Definition cold_final_cases : list (string * result bytes * string) :=
  [("bad-crc", (b ← make_cold_relinquish []; Ok (flip_last b)), "crc32");
   ("dma-pms-not-final",
     make_cold_relinquish [("flags", Z.lor provisional_flags COLD_FLAG_DMA_PMS_READY)],
     "required-flags");
   ("irq-route-not-final",
     make_cold_relinquish [("flags", Z.lor provisional_flags COLD_FLAG_GDMA_IRQ_ROUTE_READY)],
     "required-flags")].

Definition cold_hardware_cases : list (string * ColdHardwareState * string) :=
  [("missing-linux-irq-data", ColdHardwareState0 {{ gdma_linux_irq_data_available := false }},
     "gdma-linux-irq-data");
   ("wrong-linux-hwirq", ColdHardwareState0 {{ gdma_linux_hwirq := 17 }}, "gdma-linux-hwirq");
   ("silicon-readback", ColdHardwareState0 {{ silicon_revision := 102 }}, "silicon-readback");
   ("gdma-reset-released", ColdHardwareState0 {{ gdma_reset_asserted := false }},
     "display-reset-clock-state");
   ("dsi-module-reset-released", ColdHardwareState0 {{ dsi_module_reset_asserted := false }},
     "display-reset-clock-state");
   ("gdma-cpu-clock-live", ColdHardwareState0 {{ gdma_cpu_clock_enabled := true }},
     "display-reset-clock-state");
   ("gdma-system-clock-live", ColdHardwareState0 {{ gdma_sys_clock_enabled := true }},
     "display-reset-clock-state");
   ("dsi-system-clock-live", ColdHardwareState0 {{ dsi_sys_clock_enabled := true }},
     "display-reset-clock-state");
   ("dphy-config-clock-live", ColdHardwareState0 {{ dphy_config_clock_enabled := true }},
     "display-reset-clock-state");
   ("dphy-pll-clock-live", ColdHardwareState0 {{ dphy_pll_ref_clock_enabled := true }},
     "display-reset-clock-state");
   ("dpi-clock-live", ColdHardwareState0 {{ dpi_clock_enabled := true }},
     "display-reset-clock-state");
   ("ldo-live", ColdHardwareState0 {{ dphy_ldo_enabled := true }}, "dphy-ldo-enabled");
   ("i2c-retained", ColdHardwareState0 {{ i2c_apb_clock_enabled := true }}, "i2c-not-released");
   ("wrong-irq-route-readback", ColdHardwareState0 {{ gdma_irq_route := 17 }}, "gdma-irq-route");
   ("wrong-pms-window",
     ColdHardwareState0 {{ dma_pms_regions := [(0x48041000, 0x48041000 + FRAME_SIZE); DISPLAY_POOL;
       (COLD_DESCRIPTOR_ADDRESS, COLD_DESCRIPTOR_ADDRESS + COLD_DESCRIPTOR_BACKING_SIZE);
       (DSI_FIFO, DSI_FIFO + 2 * COLD_PAGE_SIZE)] }}, "dma-pms-policy");
   ("wrong-pms-read-mask", ColdHardwareState0 {{ dma_pms_read_mask := 0 }}, "dma-pms-policy");
   ("wrong-pms-write-mask", ColdHardwareState0 {{ dma_pms_write_mask := 0 }}, "dma-pms-policy");
   ("inherited-descriptor", ColdHardwareState0 {{ descriptor_backing := (Byte.x01 :: zeros 4095) }},
     "descriptor-storage-not-zero");
   ("truncated-descriptor-storage", ColdHardwareState0 {{ descriptor_backing := zeros 4095 }},
     "descriptor-storage-not-zero")].

Definition test_cold_contract : result Z :=
  let hardware := ColdHardwareState0 in
  blob ← make_cold_relinquish [];
  validate_cold_relinquish blob hardware ;;
  let mapped_hardware :=
    hardware {{ gdma_linux_virq := 3 }} {{ gdma_linux_hwirq := COLD_GDMA_CLIC_IRQ }} in
  assert_not (gdma_linux_virq mapped_hardware = gdma_linux_hwirq mapped_hardware)
    "cold-linux-irq-model-not-distinct" ;;
  validate_cold_relinquish blob mapped_hardware ;;
  layout ← run_cold_cases cold_layout_cases;
  peripheral ← run_cold_cases cold_peripheral_cases;
  flags ← run_cold_cases cold_flag_cases;
  final ← run_cold_cases cold_final_cases;
  for_each (λ c, expect_cold_reject c.1.1 blob c.1.2 c.2) cold_hardware_cases ;;
  Ok (2 + layout + peripheral + flags + final + Z.of_nat (length cold_hardware_cases)).

(** ** [test_contract] *)

Definition handoff_cases : list (string * result bytes * string) :=
  [("truncated", (b ← make_handoff []; Ok (drop_last 1 b)), "structure-size");
   ("wrong-version", make_handoff [("abi_version", 3)], "abi-version");
   ("missing-triple-buffer-flag",
     make_handoff [("flags", (Z.land REQUIRED_FLAGS (Z.lnot (Z.shiftl 1 5))))],
     "required-flags");
   ("missing-host-vpg-flag",
     make_handoff [("flags", (Z.land REQUIRED_FLAGS (Z.lnot (Z.shiftl 1 7))))],
     "required-flags");
   ("wrong-profile", make_handoff [("pixel_clock_hz", 69907200)], "panel-profile");
   ("wrong-timing", make_handoff [("hsync_front_porch", 41)], "panel-profile");
   ("wrong-owner", make_handoff [("ownership_state", 0)], "panel-profile");
   ("height-overflow", make_handoff [("height", 0xFFFFFFFF)], "panel-profile");
   ("address-overflow", make_handoff [("descriptor_address", 0xFFFFFFC0)], "descriptor-overflow");
   ("out-of-range", make_handoff [("framebuffer1", 0x49200000)], "display-pool-layout");
   ("misaligned-framebuffer", make_handoff [("framebuffer0", 0x48040A82)], "framebuffer-alignment");
   ("misaligned", make_handoff [("descriptor_address", 0x4FF3BA60)], "descriptor-bounds");
   ("descriptor-beyond-dma-sram", make_handoff [("descriptor_address", DESCRIPTOR_SRAM.2)],
     "descriptor-bounds")].

Definition descriptors0 : list Descriptor := replicate 3 Descriptor0.

(** The descriptor and channel cases that follow the table. *)
Definition handoff_hardware_cases : list (string * list Descriptor * (Z * Z) * string) :=
  [("high-source", alter (λ d, d {{ sar_hi := 1 }}) 1%nat descriptors0, CHANNEL_CFG,
     "descriptor-source");
   ("high-link", alter (λ d, d {{ llp_hi := 1 }}) 2%nat descriptors0, CHANNEL_CFG,
     "descriptor-link");
   ("bad-block", alter (λ d, d {{ block_size := block_size d - 1 }}) 0%nat descriptors0, CHANNEL_CFG,
     "descriptor-block-size");
   ("bad-channel-config", descriptors0, (CHANNEL_CFG.1, 0), "dma-channel-config");
   ("reload-mode-channel-config", descriptors0, (0x00000005, CHANNEL_CFG.2), "dma-channel-config")].

Definition test_contract : result Z :=
  blob ← make_handoff [];
  validate_handoff blob descriptors0 CHANNEL_CFG ;;
  for_each (λ c, b ← c.1.2; expect_reject c.1.1 b descriptors0 c.2 CHANNEL_CFG) handoff_cases ;;
  expect_reject "bad-crc" (flip_last blob) descriptors0 "crc32" CHANNEL_CFG ;;
  for_each (λ c, expect_reject c.1.1.1 blob c.1.1.2 c.2 c.1.2) handoff_hardware_cases ;;
  Ok (1 + Z.of_nat (length handoff_cases) + 1 + Z.of_nat (length handoff_hardware_cases)).

(** ** [test_memory_budget]

    What reading the device trees of the stages m7 and m9 gives is an input. *)

(** [assert P] *)
Definition py_assert (P : Prop) `{Decision P} : result unit := assert_not (¬ P) "".

Definition layout : list (string * (Z * Z)) :=
  [("loader", LOADER_PSRAM); ("kernel", KERNEL_GENERAL_RAM); ("display", DISPLAY_POOL);
   ("user", USER_POOL); ("comms", COMMS_POOL)].

Definition MIB : Z := 1024 * 1024.

(** The adjacent pairs [zip(layout, layout[1:])]. *)
Definition adjacent (l : list (string * (Z * Z))) : list ((Z * Z) * (Z * Z)) :=
  zip (map snd l) (drop 1 (map snd l)).

Definition layout_checks : result unit :=
  py_assert (LOADER_PSRAM.1 = PSRAM.1) ;;
  py_assert (Forall (λ p, p.1.2 = p.2.1) (adjacent layout)) ;;
  py_assert (COMMS_POOL.2 = PSRAM.2) ;;
  py_assert (map (λ e, (e.2.2 - e.2.1) / MIB) layout = [4; 15; 4; 8; 1]) ;;
  py_assert (foldr Z.add 0 (map (λ e, e.2.2 - e.2.1) layout) = 32 * MIB) ;;
  py_assert (LINUX_RAM.2 - LINUX_RAM.1 = 28 * MIB) ;;
  py_assert ((DISPLAY_POOL.2 - DISPLAY_POOL.1) + (USER_POOL.2 - USER_POOL.1)
             + (COMMS_POOL.2 - COMMS_POOL.1) = 13 * MIB) ;;
  py_assert (KERNEL_GENERAL_RAM.2 - KERNEL_GENERAL_RAM.1 = 15 * MIB) ;;
  py_assert (drop 1 FRAME_ADDRESSES = [DISPLAY_POOL.1; DISPLAY_POOL.1 + DISPLAY_SLOT_SIZE]) ;;
  py_assert (DISPLAY_SLOT_SIZE - FRAME_SIZE = 49152).

(** The boundary of the kernel memory span: the last byte in, one more out. *)
Definition span_checks : result unit :=
  validate_kernel_memory_span (KERNEL_GENERAL_RAM.2 - KERNEL_LOAD_ADDRESS) ;;
  for_each (λ memory_size,
    match validate_kernel_memory_span memory_size with
    | Err (Exn ContractError reason) => py_assert (reason = "kernel-memory-span")
    | Err e => Err e
    | Ok _ => Err (Exn AssertionError "kernel memory crossed the display-pool boundary")
    end) [KERNEL_GENERAL_RAM.2 - KERNEL_LOAD_ADDRESS + 1; 0xFFFFFFFF].

Definition required_dts : list string :=
  ["memory@48400000 {"; "reg = <0x48400000 0x01c00000>;"; "loader@48000000 {";
   "reg = <0x48000000 0x00400000>;"; "display_pool: display-pool@49300000";
   "reg = <0x49300000 0x00400000>;"; "user_pool: user-pool@49700000";
   "reg = <0x49700000 0x00800000>;"; "comms@49f00000 {"; "reg = <0x49f00000 0x00100000>;"].

Definition display_pool_node : string :=
  "display_pool: display-pool@49300000 { reg = <0x49300000 0x00400000>; no-map; };".

Definition dts_checks (stage text : string) : result unit :=
  for_each (λ token, assert_not (contains token text = false)
    ("memory-map-missing:" +:+ stage +:+ ":" +:+ token)) required_dts ;;
  assert_not (contains display_pool_node (compact text) = false)
    ("memory-map-display-pool-not-no-map:" +:+ stage).

Definition test_memory_budget (dts_m7 dts_m9 : result string) : result Z :=
  layout_checks ;;
  span_checks ;;
  m7 ← dts_m7;
  dts_checks "m7" m7 ;;
  m9 ← dts_m9;
  dts_checks "m9" m9 ;;
  Ok 12.

(** ** [test_ownership] *)

(** [(m.front, m.queued, m.render) == (f, q, r)] *)
Definition roles (m : OwnershipModel) : Z * option Z * Z := (front m, queued m, render m).

Definition ownership_normal : result unit :=
  m ← queue_render (OwnershipModel0 true);
  py_assert (roles m = (0, Some 1, 2)) ;;
  m ← complete m true;
  py_assert (roles m = (1, None, 2)) ;;
  py_assert ((requests m, completions m, generation m) = (1, 1, 1)).

Definition ownership_replacement : result unit :=
  m ← queue_render (OwnershipModel0 true);
  m ← queue_render m;
  py_assert (roles m = (0, Some 2, 1)) ;;
  m ← complete m true;
  py_assert (roles m = (2, None, 1)) ;;
  py_assert ((requests m, completions m) = (2, 1)).

Definition ownership_failed : result unit :=
  m ← queue_render (OwnershipModel0 true);
  let before := roles m in
  m ← complete m false;
  py_assert (roles m = before) ;;
  py_assert ((rearm_attempts m, rearm_failures m, completions m) = (1, 1, 0)).

Definition ownership_idle : result unit :=
  m ← complete (OwnershipModel0 true) true;
  py_assert (roles m = (0, None, 1)) ;;
  py_assert ((rearm_attempts m, generation m) = (1, 1)).

Definition ownership_startup : result unit :=
  m ← queue_render (OwnershipModel0 false);
  py_assert (roles m = (0, Some 1, 1)) ;;
  m ← start m;
  py_assert (roles m = (1, None, 0)).

Definition ownership_contained : result unit :=
  m ← queue_render (OwnershipModel0 true);
  let before := roles m in
  m ← queue_render (set_faulted m);
  m ← complete m true;
  py_assert (roles m = before) ;;
  py_assert ((rearm_attempts m, completions m, generation m) = (1, 0, 1)).

Definition test_ownership : result Z :=
  ownership_normal ;; ownership_replacement ;; ownership_failed ;; ownership_idle ;;
  ownership_startup ;; ownership_contained ;; Ok 6.

(** ** Theory *)

(** The contract self-tests pass: every listed malformed contract, hardware state,
    descriptor and enable read-back is rejected with the reason the test expects, and the
    counts are those the script reports. *)
Lemma contract_tests :
  test_cold_contract = Ok 79 ∧ test_contract = Ok 20 ∧ test_gdma_enable_semantics = Ok 27
  ∧ test_native_active_mirror_semantics = Ok 7 ∧ test_ownership = Ok 6.
Proof. split_and!; by_compute. Qed.

(** What [test_memory_budget] requires of a device tree. *)
Definition dts_ok (text : string) : Prop :=
  Forall (λ token, contains token text = true) required_dts
  ∧ contains display_pool_node (compact text) = true.

Lemma dts_checks_ok stage text : dts_checks stage text = Ok tt ↔ dts_ok text.
Proof.
  unfold dts_checks, dts_ok, assert_not. rewrite bind_ok_inv. split.
  - intros (u & Hf & Hc). apply for_each_ok in Hf. rewrite raise_when_unit, not_false_iff_true in Hc.
    split; [|done]. eapply Forall_impl; [exact Hf|]. simpl. intros token.
    by rewrite raise_when_unit, not_false_iff_true.
  - intros [Hf Hc]. exists tt. rewrite raise_when_unit, not_false_iff_true. split; [|done].
    apply for_each_ok. eapply Forall_impl; [exact Hf|]. intros token. simpl.
    by rewrite raise_when_unit, not_false_iff_true.
Qed.

Lemma layout_checks_hold : layout_checks = Ok tt.
Proof. by_compute. Qed.

Lemma span_checks_hold : span_checks = Ok tt.
Proof. by_compute. Qed.

Lemma memory_budget_iff dts_m7 dts_m9 n :
  test_memory_budget dts_m7 dts_m9 = Ok n ↔
  n = 12 ∧ ∃ m7 m9, dts_m7 = Ok m7 ∧ dts_m9 = Ok m9 ∧ dts_ok m7 ∧ dts_ok m9.
Proof.
  unfold test_memory_budget. rewrite layout_checks_hold, span_checks_hold. cbn [mbind result_bind]. split.
  - intros (m7 & -> & H)%bind_ok_inv. apply bind_ok_inv in H as ([] & H7 & H).
    apply bind_ok_inv in H as (m9 & -> & H). apply bind_ok_inv in H as ([] & H9 & [= <-]).
    apply dts_checks_ok in H7, H9. split; [done|]. by exists m7, m9.
  - intros (-> & m7 & m9 & -> & -> & H7 & H9). cbn [mbind result_bind].
    by rewrite (proj2 (dts_checks_ok "m7" m7) H7), (proj2 (dts_checks_ok "m9" m9) H9).
Qed.

(** The memory budget.  The five regions the test lays out cover the PSRAM
    without gap or overlap, each address belonging to exactly one of them, and
    the test passes exactly when both device trees declare the same map with an
    unmapped display pool. *)
Theorem memory_budget_exact :
  (∀ a, PSRAM.1 ≤ a < PSRAM.2 →
     ∃ i r, layout !! i = Some r ∧ r.2.1 ≤ a < r.2.2
       ∧ ∀ j s, layout !! j = Some s → s.2.1 ≤ a < s.2.2 → j = i)
  ∧ (∀ dts_m7 dts_m9 n, test_memory_budget dts_m7 dts_m9 = Ok n ↔
       n = 12 ∧ ∃ m7 m9, dts_m7 = Ok m7 ∧ dts_m9 = Ok m9 ∧ dts_ok m7 ∧ dts_ok m9).
Proof.
  split.
  - intros a Ha. unfold PSRAM in Ha. simpl in Ha.
    assert (∃ i r, layout !! i = Some r ∧ r.2.1 ≤ a < r.2.2) as (i & r & Hi & Hr).
    { destruct (decide (a < 0x48400000)); [exists 0%nat; eexists; split; [done|]; simpl; lia|].
      destruct (decide (a < 0x49300000)); [exists 1%nat; eexists; split; [done|]; simpl; lia|].
      destruct (decide (a < 0x49700000)); [exists 2%nat; eexists; split; [done|]; simpl; lia|].
      destruct (decide (a < 0x49F00000)); [exists 3%nat; eexists; split; [done|]; simpl; lia|].
      exists 4%nat. eexists. split; [done|]. simpl. lia. }
    exists i, r. split; [done|]. split; [done|]. intros j s Hj Hs.
    destruct i as [|[|[|[|[|i]]]]]; simpl in Hi; simplify_eq; simpl in Hr;
      destruct j as [|[|[|[|[|j]]]]]; simpl in Hj; simplify_eq; simpl in Hs; done || lia.
  - apply memory_budget_iff.
Qed.
