(* ===== verification/ParserTests.v ===== *)
(** * The tests of the telemetry parsers

    scripts/m9-hardware-telemetry-test.py and [test_hardware_parser] of
    scripts/m9-2-display-contract-test.py run the parsers of the M9 gate on fixed
    console text.  Here they run the definitions of [Telemetry] and [Session]. *)

From S2P Require Import Prelude PyStr PyJson Regex PyFloat Telemetry Session.

(** ** Checks *)

(** [check(condition, reason)]: a condition that may raise, and the reason. *)
Abbreviation check := (result bool * string)%type.

Definition holds (condition : bool) (reason : string) : check := (Ok condition, reason).

(** [problem == expected] for a parser's verdict *)
Definition reports (problem : option string) (expected : string) (reason : string) : check :=
  holds (bool_decide (problem = Some expected)) reason.
Definition accepts (problem : option string) (reason : string) : check := holds (bool_decide (problem = None)) reason.

(** The checks in order; the number of those that were made. *)
Fixpoint run_checks (tests : Z) (checks : list check) : result Z :=
  match checks with
  | [] => Ok tests
  | (condition, reason) :: checks =>
      condition ← condition;
      raise_when (condition = false) AssertionError reason ;;
      run_checks (tests + 1) checks
  end.

(** Keyword arguments. *)
Abbreviation kwargs := (list (string * Z)).
Definition arg (kw : kwargs) (name : string) (default_value : Z) : Z :=
  match list_find (λ e, e.1 = name) kw with Some (_, e) => e.2 | None => default_value end.

(** ** Console text of the telemetry tests *)

Definition diagnostics_line (frames : Z) (kw : kwargs) : string :=
  let rearms := arg kw "rearms" (frames + 1) in
  let generation := arg kw "generation" frames in
  "abi=3 state=RUNTIME_REVEALED " +:+
  "frames=" +:+ pretty frames +:+ " faults=" +:+ fmt_x (arg kw "faults" 0) +:+ " " +:+
  "error=" +:+ fmt_08x (arg kw "error" 0) +:+ " host-errors=" +:+ fmt_08x (arg kw "host0" 0) +:+ ":" +:+
  fmt_08x (arg kw "host1" 0) +:+ " " +:+
  "underruns=" +:+ pretty (arg kw "underruns" 0) +:+ " buffers=3 front=0 queued=-1 back=1 " +:+
  "rearm=" +:+ pretty rearms +:+ "/" +:+ pretty (arg kw "rearm_failures" 0) +:+ " flips=1/1 " +:+
  "generation=" +:+ pretty generation +:+ " commit=" +:+ pretty (arg kw "commit" 1) +:+ " guards=ok " +:+
  "guard-errors=" +:+ pretty (arg kw "guard_errors" 0) +:+ " policy=ok " +:+
  "arm-to-irq-ns=14550000/14590000 arm-to-irq-over20ms=" +:+ pretty (arg kw "over20" 0) +:+ " " +:+
  "rearm-ns=95000/" +:+ pretty (arg kw "rearm_max" 140000) +:+ " fifo-irq=256/0/" +:+
  pretty (arg kw "fifo_irq_zero" 0) +:+ " " +:+
  "fifo-poll=384/16/" +:+ pretty (arg kw "fifo_poll_zero" 0) +:+ " bridge-filler=" +:+ fmt_08x (arg kw "filler" 0) +:+ " " +:+
  "bridge-misc=" +:+ fmt_08x (arg kw "misc" 0x00003201) +:+ " i2c=active-serialized " +:+
  "physical-panel-state=unobserved" +:+ nl.

Definition scanout_line (before after : Z) (kw : kwargs) : string :=
  "running abi=3 state=RUNTIME_REVEALED " +:+
  "frames=" +:+ pretty before +:+ "->" +:+ pretty after +:+ " error=00000000 underruns=0 chen=1 " +:+
  "faults=0 host-errors=00000000:00000000 frame-ack=on " +:+
  "clock=auto lp=enabled backlight-gate=on buffers=3 " +:+
  "front=0 queued=-1 back=1 rearm=" +:+ pretty (after + 1) +:+ "/0 flips=1/1 " +:+
  "generation=" +:+ pretty after +:+ " commit=1 guards=ok guard-errors=0 " +:+
  "arm-to-irq-ns=14550000/14590000 arm-to-irq-over20ms=" +:+ pretty (arg kw "over20" 0) +:+ " " +:+
  "rearm-ns=95000/" +:+ pretty (arg kw "rearm_max" 140000) +:+ " fifo-irq=256/0/" +:+
  pretty (arg kw "fifo_irq_zero" 0) +:+ " " +:+
  "fifo-poll=384/16/" +:+ pretty (arg kw "fifo_poll_zero" 0) +:+ " bridge-filler=" +:+ fmt_08x (arg kw "filler" 0) +:+ " " +:+
  "bridge-misc=" +:+ fmt_08x (arg kw "misc" 0x00003201) +:+ " i2c=active-serialized" +:+ nl.

Definition phase_block_at (phase : string) (frames : Z) (uptime : option float) (kw : kwargs) : string :=
  "MICRONUX:M9:DIAGNOSTICS phase=" +:+ phase +:+ nl +:+
  match uptime with
  | Some uptime => "MICRONUX:M9:USB-DISCONNECT:" +:+ phase +:+ ":UPTIME " +:+ fmt_2f uptime +:+ " 0.00" +:+ nl
  | None => ""
  end +:+
  diagnostics_line frames kw.
Definition phase_block (phase : string) (frames : Z) (kw : kwargs) : string := phase_block_at phase frames None kw.

(** ** [main] of the telemetry tests *)

Abbreviation phase_problem := diagnostics_phase_problem.
Definition diagnostics_problem (output : string) : option string := diagnostics_contract_problem output 1 false false.
Definition scanout_problem (output : string) : option string := scanout_contract_problem output 1 false false.

Definition pair : list string := ["A-PREHASH"; "A-POSTHASH"].
Definition pair_output : string := phase_block "A-PREHASH" 100 [] +:+ phase_block "A-POSTHASH" 101 [].
Definition pair_with (before after : kwargs) : string :=
  phase_block "A-PREHASH" 100 before +:+ phase_block "A-POSTHASH" 101 after.

Definition snapshot_phases : list string :=
  ["SNAPSHOT-A-PREHASH"; "SNAPSHOT-A-POSTHASH"; "SNAPSHOT-B-PREHASH"; "SNAPSHOT-B-POSTHASH"].
Definition snapshot_output : string :=
  str_join "" (imap (λ index phase, phase_block phase (100 + Z.of_nat index) []) snapshot_phases).
Definition snapshot_idle_increase : string :=
  str_replace (phase_block "SNAPSHOT-B-PREHASH" 102 []) (phase_block "SNAPSHOT-B-PREHASH" 102 [("over20", 1)])
    snapshot_output.

Definition six_phases : list string :=
  ["BEFORE-PREHASH"; "BEFORE-POSTHASH"; "BOUNDARY-PREHASH"; "BOUNDARY-POSTHASH"; "AFTER-PREHASH"; "AFTER-POSTHASH"].
Definition six_output : string :=
  str_join "" (imap (λ index phase,
    phase_block phase (100 + Z.of_nat index) [("fifo_irq_zero", Z.of_nat index `div` 2)]) six_phases).
Definition reconnect_increase : string :=
  str_replace (phase_block "AFTER-PREHASH" 104 [("fifo_irq_zero", 2)])
    (phase_block "AFTER-PREHASH" 104 [("over20", 1); ("fifo_irq_zero", 2)]) six_output.

Definition phase_checks : list check := [
  holds (bool_decide (map fst (diagnostics_phase_groups pair_output) = pair)) "phase-groups-ordered";
  accepts (phase_problem pair_output pair) "phase-pair-valid";
  accepts (phase_problem (pair_with [("fifo_irq_zero", 7)] [("fifo_irq_zero", 8)]) pair) "fifo-irq-zero-increase-is-evidence";
  accepts (phase_problem (str_replace nl (cr +:+ nl) pair_output) pair) "phase-crlf-valid";
  accepts (phase_problem snapshot_output snapshot_phases) "snapshot-four-phase-valid";
  reports (phase_problem snapshot_idle_increase snapshot_phases)
    ("diagnostics-phase-snapshot-a-posthash-to-snapshot-b-prehash-" +:+ "arm-to-irq-over20ms-increased")
    "snapshot-settle-over20-increase-rejected";
  reports (phase_problem pair_output (rev pair)) "diagnostics-phase-order" "phase-order-rejected";
  reports (phase_problem (phase_block "A-PREHASH" 100 []) pair) "diagnostics-phase-order" "phase-missing-rejected";
  reports (phase_problem (pair_output +:+ phase_block "EXTRA" 102 []) pair) "diagnostics-phase-order" "phase-extra-rejected";
  reports (phase_problem (phase_block "A-PREHASH" 100 [] +:+ diagnostics_line 101 [] +:+ phase_block "A-POSTHASH" 102 []) pair)
    "diagnostics-phase-a-prehash-count-2" "phase-duplicate-sample-rejected";
  reports (phase_problem ("MICRONUX:M9:DIAGNOSTICS phase=A-PREHASH" +:+ nl +:+ phase_block "A-POSTHASH" 101 []) pair)
    "diagnostics-phase-a-prehash-count-0" "phase-missing-sample-rejected";
  reports (phase_problem (pair_with [("over20", 1)] [("over20", 1)]) pair)
    "diagnostics-phase-a-prehash-arm-to-irq-over20ms-nonzero" "first-visible-epoch-must-be-zero";
  reports (phase_problem (pair_with [] [("over20", 1)]) pair)
    ("diagnostics-phase-a-prehash-to-a-posthash-" +:+ "arm-to-irq-over20ms-increased") "hash-over20-increase-rejected";
  reports (phase_problem (pair_with [("fifo_irq_zero", 8)] [("fifo_irq_zero", 7)]) pair)
    "diagnostics-phase-a-prehash-to-a-posthash-fifo-irq-zero-regressed" "fifo-irq-regression-rejected";
  reports (phase_problem (pair_with [("fifo_poll_zero", 1)] [("fifo_poll_zero", 1)]) pair)
    "diagnostics-phase-a-prehash-fifo-poll-zero" "fifo-poll-first-nonzero-rejected";
  reports (phase_problem (pair_with [] [("fifo_poll_zero", 1)]) pair)
    "diagnostics-phase-a-posthash-fifo-poll-zero" "fifo-poll-later-nonzero-rejected";
  accepts (phase_problem six_output six_phases) "disconnect-six-phase-valid";
  reports (phase_problem reconnect_increase six_phases)
    ("diagnostics-phase-boundary-posthash-to-after-prehash-" +:+ "arm-to-irq-over20ms-increased")
    "reconnect-over20-increase-rejected"
].

Definition line_checks : list check := [
  accepts (diagnostics_problem (diagnostics_line 100 [])) "diagnostics-valid";
  accepts (diagnostics_problem (diagnostics_line 100 [("fifo_irq_zero", 7)])) "diagnostics-fifo-irq-zero-is-evidence";
  reports (diagnostics_problem (diagnostics_line 100 [("over20", 1)]))
    "diagnostics-arm-to-irq-over20ms" "diagnostics-over20-rejected";
  reports (diagnostics_problem (diagnostics_line 100 [("fifo_poll_zero", 1)]))
    "diagnostics-fifo-poll-zero" "diagnostics-fifo-poll-zero-rejected";
  reports (diagnostics_problem (diagnostics_line 100 [("rearm_max", 1000000)]))
    "diagnostics-rearm-latency" "diagnostics-rearm-limit-rejected";
  reports (diagnostics_problem (diagnostics_line 100 [("filler", 1)])) "diagnostics-bridge-filler" "diagnostics-filler-rejected";
  reports (diagnostics_problem (diagnostics_line 100 [("misc", 0x3200)])) "diagnostics-bridge-misc" "diagnostics-misc-rejected";
  reports (diagnostics_problem (diagnostics_line 100 [("faults", 1)])) "diagnostics-health-nonzero" "diagnostics-fault-rejected";
  reports (diagnostics_problem (diagnostics_line 100 [("host1", 1)])) "diagnostics-health-nonzero" "diagnostics-host-error-rejected";
  reports (diagnostics_problem (diagnostics_line 100 [("guard_errors", 1)]))
    "diagnostics-health-nonzero" "diagnostics-guard-error-rejected";
  reports (diagnostics_problem (diagnostics_line 100 [("fifo_irq_zero", 2)] +:+ diagnostics_line 101 [("fifo_irq_zero", 1)]))
    "diagnostics-fifo_irq_zero-regressed" "diagnostics-fifo-irq-regression-rejected";
  accepts (scanout_problem (scanout_line 96 100 [])) "scanout-valid";
  accepts (scanout_problem (scanout_line 96 100 [("fifo_irq_zero", 7)])) "scanout-fifo-irq-zero-is-evidence";
  reports (scanout_problem (scanout_line 96 100 [("over20", 1)])) "scanout-arm-to-irq-over20ms" "scanout-over20-rejected";
  reports (scanout_problem (scanout_line 96 100 [("fifo_poll_zero", 1)])) "scanout-fifo-poll-zero" "scanout-fifo-poll-zero-rejected";
  reports (scanout_problem (scanout_line 96 100 [("rearm_max", 1000000)])) "scanout-rearm-latency" "scanout-rearm-limit-rejected";
  reports (scanout_problem (scanout_line 96 100 [("filler", 1)])) "scanout-bridge-filler" "scanout-filler-rejected";
  reports (scanout_problem (scanout_line 96 100 [("misc", 0x3200)])) "scanout-bridge-misc" "scanout-misc-rejected"
].

Definition start_phase : string := "BEFORE-POSTHASH".
Definition end_phase : string := "BOUNDARY-PREHASH".

Definition block_at (phase : string) (frames : Z) (uptime : string) : string :=
  phase_block_at phase frames (Some (float_of_string uptime)) [].
Definition start : string := block_at start_phase 100 "10.0".
Definition progress_rate (start_output end_output : string) : result (option string * option float) :=
  disconnect_progress_rate start_output start_phase end_output end_phase.

(** [rate == (None, hz)] *)
Definition rate_is (rate : result (option string * option float)) (hz : string) (reason : string) : check :=
  (r ← rate;
   Ok (bool_decide (r.1 = None) &&
       match r.2 with Some x => fle x (float_of_string hz) && fle (float_of_string hz) x | None => false end), reason).

(** [problem.endswith(suffix)] of the first component *)
Definition problem_ends (rate : result (option string * option float)) (suffix reason : string) : check :=
  (r ← rate;
   match r.1 with
   | Some problem => Ok (endswith suffix problem)
   | None => Err (Exn AttributeError "'NoneType' object has no attribute 'endswith'")
   end, reason).

Definition rate_checks : list check := [
  rate_is (progress_rate start (block_at end_phase 110 "11.0")) "10.0" "progress-lower-bound-valid";
  rate_is (progress_rate start (block_at end_phase 125 "11.0")) "25.0" "progress-upper-bound-valid";
  problem_ends (progress_rate start (block_at end_phase 109 "11.0")) "progress-hz-9.000" "progress-low-rejected";
  problem_ends (progress_rate start (block_at end_phase 126 "11.0")) "progress-hz-26.000" "progress-high-rejected";
  problem_ends (progress_rate start (block_at end_phase 125 "10.0")) "uptime-order" "uptime-order-rejected";
  problem_ends (progress_rate start (block_at end_phase 100 "11.0")) "progress-order" "progress-order-rejected";
  problem_ends (progress_rate (phase_block start_phase 100 []) (block_at end_phase 168 "11.0"))
    "uptime-count-0" "uptime-missing-rejected";
  problem_ends (progress_rate start (block_at end_phase 168 "11.0" +:+ diagnostics_line 169 []))
    "diagnostics-count-2" "progress-duplicate-diagnostics-rejected"
].

(** [s.index(p)] *)
Definition index (p s : string) : result nat :=
  match str_find p s 0 with Some i => Ok i | None => Err (Exn ValueError "substring not found") end.

Definition comes_before (a b s : string) (reason : string) : check :=
  (i ← index a s; j ← index b s; Ok (bool_decide (i < j)%nat), reason).

Definition shell_checks : list check := [
  comes_before "DIAGNOSTICS phase=" (sh "cat `$D/diagnostics`") (diagnostics_phase_shell "SNAPSHOT-A-PREHASH" None)
    "phase-shell-marker-before-diagnostics";
  comes_before ":UPTIME" (sh "cat `$D/diagnostics`") (diagnostics_phase_shell "BOUNDARY-PREHASH" (Some "BOUNDARY-PREHASH"))
    "phase-shell-uptime-adjacent-before-diagnostics";
  holds (contains "sha256sum /dev/fb0" (framebuffer_hash_shell "snapshot-a" "m9_fb_before")) "hash-shell-targets-fb0"
].

(** [position] starts at [-1]; [start] is [position + 1]. *)
Fixpoint ordered_from (source : string) (start : nat) (tokens : list string) : bool :=
  match tokens with
  | [] => true
  | token :: tokens =>
      match str_find token source start with
      | None => false
      | Some position => ordered_from source (S position) tokens
      end
  end.
Definition ordered (source : string) (tokens : list string) : bool := ordered_from source 0 tokens.

Definition SNAPSHOT_TOKENS : list string := [
  sh "diagnostics_phase_shell(`SNAPSHOT-A-PREHASH`)";
  sh "framebuffer_hash_shell(`snapshot-a`, `m9_fb_before`)";
  sh "diagnostics_phase_shell(`SNAPSHOT-A-POSTHASH`)";
  sh "diagnostics_phase_shell(`SNAPSHOT-B-PREHASH`)";
  sh "framebuffer_hash_shell(`snapshot-b`, `m9_fb_after`)";
  sh "diagnostics_phase_shell(`SNAPSHOT-B-POSTHASH`)"
].

Definition DISCONNECT_TOKENS : list string := [
  sh "diagnostics_phase_shell(`BEFORE-PREHASH`)";
  sh "framebuffer_hash_shell(`disconnect-before`, `m9_fb_hash`)";
  sh "diagnostics_phase_shell(`BEFORE-POSTHASH`, `BEFORE-POSTHASH`)";
  sh "diagnostics_phase_shell(`BOUNDARY-PREHASH`, `BOUNDARY-PREHASH`)";
  sh "framebuffer_hash_shell(`disconnect-boundary`, `m9_fb_hash`)";
  sh "`BOUNDARY-POSTHASH`, `BOUNDARY-POSTHASH`";
  sh "diagnostics_phase_shell(`AFTER-PREHASH`, `AFTER-PREHASH`)";
  sh "framebuffer_hash_shell(`disconnect-after`, `m9_fb_hash`)";
  sh "diagnostics_phase_shell(`AFTER-POSTHASH`)"
].

(** [function_sources[name]], the text of a function of the gate *)
Definition source_of (function_sources : string → option string) (name : string) : result string :=
  match function_sources name with Some text => Ok text | None => Err (Exn KeyError (repr_str name)) end.

Definition order_checks (function_sources : string → option string) : list check := [
  (source ← source_of function_sources "run_snapshot"; Ok (ordered source SNAPSHOT_TOKENS), "snapshot-source-phase-order");
  (source ← source_of function_sources "run_disconnect"; Ok (ordered source DISCONNECT_TOKENS), "disconnect-source-phase-order")
].

(** The line that [main] prints before it returns 0. *)
Definition telemetry_main (function_sources : string → option string) : result string :=
  tests ← run_checks 0 (phase_checks ++ line_checks ++ rate_checks ++ shell_checks ++ order_checks function_sources);
  Ok ("MICRONUX:M9:TELEMETRY-PARSER:PASS tests=" +:+ pretty tests).

(** ** [test_hardware_parser] *)

Definition hardware_scanout_line
    (before after front queued back rearms flip_requests flip_completions generation commit : Z) : string :=
  "running abi=3 state=RUNTIME_REVEALED " +:+
  "frames=" +:+ pretty before +:+ "->" +:+ pretty after +:+ " error=00000000 underruns=0 " +:+
  "chen=1 faults=0 host-errors=00000000:00000000 frame-ack=on " +:+
  "clock=auto lp=enabled backlight-gate=on buffers=3 " +:+
  "front=" +:+ pretty front +:+ " queued=" +:+ pretty queued +:+ " back=" +:+ pretty back +:+ " rearm=" +:+ pretty rearms +:+ "/0 " +:+
  "flips=" +:+ pretty flip_requests +:+ "/" +:+ pretty flip_completions +:+ " " +:+
  "generation=" +:+ pretty generation +:+ " commit=" +:+ pretty commit +:+ " guards=ok " +:+
  "guard-errors=0 arm-to-irq-ns=14550000/14590000 " +:+
  "arm-to-irq-over20ms=0 rearm-ns=95000/140000 " +:+
  "fifo-irq=256/8/0 fifo-poll=384/16/0 " +:+
  "bridge-filler=00000000 bridge-misc=00003201 " +:+
  "i2c=active-serialized" +:+ nl.

Definition hardware_diagnostics_line
    (frames front queued back rearms flip_requests flip_completions generation commit : Z) : string :=
  "abi=3 state=RUNTIME_REVEALED " +:+
  "frames=" +:+ pretty frames +:+ " faults=0 " +:+
  "error=00000000 host-errors=00000000:00000000 underruns=0 " +:+
  "buffers=3 front=" +:+ pretty front +:+ " queued=" +:+ pretty queued +:+ " back=" +:+ pretty back +:+ " " +:+
  "rearm=" +:+ pretty rearms +:+ "/0 flips=" +:+ pretty flip_requests +:+ "/" +:+ pretty flip_completions +:+ " " +:+
  "generation=" +:+ pretty generation +:+ " commit=" +:+ pretty commit +:+ " guards=ok " +:+
  "guard-errors=0 policy=ok " +:+
  "arm-to-irq-ns=14550000/14590000 arm-to-irq-over20ms=0 " +:+
  "rearm-ns=95000/140000 fifo-irq=256/8/0 " +:+
  "fifo-poll=384/16/0 bridge-filler=00000000 " +:+
  "bridge-misc=00003201 i2c=active-serialized " +:+
  "physical-panel-state=unobserved" +:+ nl.

Definition scanout_first : string := hardware_scanout_line 10 14 0 (-1) 1 20 1 1 14 1.
Definition scanout_second : string := hardware_scanout_line 14 18 1 (-1) 2 24 2 2 18 2.
Definition diagnostics_first : string := hardware_diagnostics_line 14 0 (-1) 1 20 1 1 14 1.
Definition diagnostics_second : string := hardware_diagnostics_line 18 1 (-1) 2 24 2 2 18 2.
Definition scanout : string := scanout_first +:+ scanout_second.
Definition diagnostics : string := diagnostics_first +:+ diagnostics_second.
Definition health : string := scanout +:+ diagnostics.

Definition valid_checks : list check := [
  holds (bool_decide (length (scanout_samples scanout) = 2%nat)) "hardware-scanout-sample-count";
  accepts (scanout_contract_problem scanout 2 true true) "hardware-scanout-valid";
  holds (bool_decide (length (diagnostics_samples diagnostics) = 2%nat)) "hardware-diagnostics-sample-count";
  accepts (diagnostics_contract_problem diagnostics 2 true true) "hardware-diagnostics-valid";
  accepts (display_health_problem health 2 true true) "hardware-health-valid"
].

(** An edit of the first line and the verdict that is expected of it. *)
Definition scanout_negatives : list (string * string * string) := [
  ("error=00000000", "error=00000001", "scanout-health-nonzero");
  ("underruns=0", "underruns=1", "scanout-health-nonzero");
  ("chen=1", "chen=0", "scanout-health-nonzero");
  ("faults=0", "faults=1", "scanout-health-nonzero");
  ("00000000:00000000", "00000001:00000000", "scanout-health-nonzero");
  ("rearm=20/0", "rearm=20/1", "scanout-rearm-counter");
  ("arm-to-irq-over20ms=0", "arm-to-irq-over20ms=1", "scanout-arm-to-irq-over20ms");
  ("rearm-ns=95000/140000", "rearm-ns=95000/1000000", "scanout-rearm-latency");
  ("bridge-filler=00000000", "bridge-filler=00003fff", "scanout-bridge-filler");
  ("bridge-misc=00003201", "bridge-misc=00003200", "scanout-bridge-misc");
  ("buffers=3", "buffers=2", "scanout-buffer-count");
  ("front=0 queued=-1 back=1", "front=0 queued=-1 back=0", "scanout-front-back-role");
  ("front=0 queued=-1 back=1", "front=0 queued=0 back=1", "scanout-queued-role");
  ("flips=1/1", "flips=1/2", "scanout-flip-counter");
  ("generation=14", "generation=0", "scanout-generation");
  ("commit=1", "commit=0", "scanout-commit")
].

Definition diagnostics_negatives : list (string * string * string) := [
  ("policy=ok", "policy=bad", "diagnostics-contract-count-0-expected-1");
  ("guard-errors=0", "guard-errors=1", "diagnostics-health-nonzero");
  ("rearm=20/0", "rearm=0/0", "diagnostics-runtime-counter");
  ("arm-to-irq-over20ms=0", "arm-to-irq-over20ms=1", "diagnostics-arm-to-irq-over20ms");
  ("rearm-ns=95000/140000", "rearm-ns=95000/1000000", "diagnostics-rearm-latency");
  ("bridge-filler=00000000", "bridge-filler=00003fff", "diagnostics-bridge-filler");
  ("bridge-misc=00003201", "bridge-misc=00003200", "diagnostics-bridge-misc");
  ("flips=1/1", "flips=1/2", "diagnostics-flip-counter")
].

Definition negative_checks (problem : string → option string) (first : string) (negatives : list (string * string * string))
    : list check :=
  map (λ n, let '(old, new, expected) := n in
            reports (problem (str_replace old new first)) expected ("hardware-" +:+ expected)) negatives.

Definition scanout_checks : list check := [
  reports (scanout_contract_problem (scanout_second +:+ hardware_scanout_line 18 22 1 (-1) 2 23 2 2 22 2) 2 false false)
    "scanout-rearms-regressed" "hardware-scanout-rearms-regression";
  reports (scanout_contract_problem (scanout_second +:+ hardware_scanout_line 13 17 1 (-1) 2 24 2 2 18 2) 2 false false)
    "scanout-before-regressed" "hardware-scanout-progress-regression";
  reports (scanout_contract_problem (scanout_first +:+ hardware_scanout_line 14 18 1 (-1) 2 24 1 1 18 1) 2 true false)
    "scanout-flip-not-observed" "hardware-scanout-missing-flip";
  reports (scanout_contract_problem (scanout_first +:+ hardware_scanout_line 10 14 1 (-1) 2 24 2 2 18 2) 2 false true)
    "scanout-progress-not-observed" "hardware-scanout-missing-progress"
] ++ map (λ edit, reports (scanout_problem (str_replace edit.1 edit.2 scanout_first))
                    "scanout-contract-count-0-expected-1" ("hardware-scanout-reject-" +:+ edit.2))
       [("state=RUNTIME_REVEALED", "state=REVEALING"); ("frame-ack=on", "frame-ack=off");
        ("i2c=active-serialized", "i2c=released")].

Definition failure_checks : list check := [
  reports (diagnostics_contract_problem (diagnostics_second +:+ hardware_diagnostics_line 17 1 (-1) 2 24 2 2 18 2) 2 false false)
    "diagnostics-frames-regressed" "hardware-diagnostics-regression";
  reports (display_health_problem (health +:+ "Kernel panic") 1 false false)
    "terminal-failure-Kernel-panic" "hardware-terminal-failure";
  reports (failure_marker "prefix Oops: suffix") "Oops:" "hardware-failure-marker"
].

Definition finds (r : re) (text reason : string) : check := holds (found (search r text)) reason.
Definition lacks (r : re) (text reason : string) : check := holds (negb (found (search r text))) reason.

Definition hardware_ownership : string :=
  "linux abi=3 mode=native-cold-init fb0 buffers=3 dma-channel=0 " +:+
  "frame-irq=18 rearm=explicit mmap=denied " +:+
  "i2c=active-serialized" +:+ nl.

Definition touch_line (address interval reads errors down : string) : string :=
  "ready product=9271 address=" +:+ address +:+ " mode=poll interval_ms=" +:+ interval +:+ " " +:+
  "reads=" +:+ reads +:+ " errors=" +:+ errors +:+ " down=" +:+ down.

Definition hardware_runtime : string :=
  "pattern=framebuffer boot_ready=1 native_state=RUNTIME_REVEALED " +:+
  "brightness=63 bl_power=0 actual_brightness=63".

(** [s.replace(old, new, 1)] *)
Definition replace_once (old new s : string) : string :=
  match str_find old s 0 with
  | Some i => str_take i s +:+ new +:+ str_drop (i + String.length old) s
  | None => s
  end.

Definition line_re_checks : list check :=
  [finds OWNERSHIP_LINE_RE hardware_ownership "hardware-ownership-valid";
   lacks OWNERSHIP_LINE_RE (str_replace "abi=3" "abi=2" hardware_ownership) "hardware-ownership-reject-abi2"] ++
  map (λ touch, finds TOUCH_LINE_RE touch "hardware-touch-valid")
    [touch_line "0x5d" "10" "7" "0" "0" +:+ nl; touch_line "0x14" "10" "8" "0" "1" +:+ nl; "unavailable" +:+ nl] ++
  map (λ touch, lacks TOUCH_LINE_RE touch "hardware-touch-invalid")
    ["registering" +:+ nl; touch_line "0x45" "10" "7" "0" "0" +:+ nl; touch_line "0x5d" "20" "7" "0" "0" +:+ nl;
     touch_line "0x5d" "10" "7" "1" "0" +:+ nl] ++
  [lacks TOUCH_LINE_RE ("> " +:+ touch_line "0x5d" "10" "0" "0" "0" +:+ cr +:+ nl) "hardware-touch-continuation-prefix-rejected";
   finds TOUCH_LINE_RE (touch_line "0x5d" "10" "0" "0" "0" +:+ cr +:+ nl) "hardware-touch-clean-after-printf-escape";
   finds SHELL_PROMPT_RE (cr +:+ nl +:+ "/ # ") "hardware-prompt-busybox";
   finds SHELL_PROMPT_RE (nl +:+ "micronux# ") "hardware-prompt-custom";
   lacks SHELL_PROMPT_RE (nl +:+ "root# ") "hardware-prompt-invalid";
   accepts (runtime_status_problem hardware_runtime 1) "hardware-runtime-status-valid";
   reports (runtime_status_problem (replace_once "brightness=63" "brightness=0" hardware_runtime) 1)
     "runtime-status-count-0-expected-1" "hardware-runtime-status-invalid"].

Definition hardware_checks : list check :=
  valid_checks ++ negative_checks scanout_problem scanout_first scanout_negatives ++ scanout_checks ++
  negative_checks diagnostics_problem diagnostics_first diagnostics_negatives ++ failure_checks ++ line_re_checks.

Definition test_hardware_parser : result Z := run_checks 0 hardware_checks.

(** ** Theory *)

Lemma run_checks_app tests checks more :
  run_checks tests (checks ++ more) = tests ← run_checks tests checks; run_checks tests more.
Proof.
  revert tests. induction checks as [|[condition reason] checks IH]; intros tests; cbn [app run_checks]; [done|].
  destruct condition as [[|]|]; [apply IH|done|done].
Qed.

(** The tests pass exactly when every condition holds. *)
Lemma run_checks_ok tests checks n :
  run_checks tests checks = Ok n ↔ Forall (λ c : check, c.1 = Ok true) checks ∧ n = tests + Z.of_nat (length checks).
Proof.
  revert tests. induction checks as [|[condition reason] checks IH]; intros tests; cbn [run_checks].
  - split; [intros [= <-]; split; [constructor|cbn; lia]|]. intros [_ ->]. f_equal. cbn. lia.
  - rewrite Forall_cons, bind_ok_inv. cbn [fst length]. split.
    + intros ([|] & -> & [Hn E]%raise_when_ok); [|done]. apply IH in E as [Hf ->]. split; [done|lia].
    + intros [[-> Hf] ->]. exists true. split; [done|]. apply raise_when_ok. split; [done|].
      apply IH. split; [done|lia].
Qed.

Lemma ordered_from_iff source start tokens : ordered_from source start tokens = true ↔ placed source start tokens.
Proof.
  rewrite <- ordered_problem_none. revert start.
  induction tokens as [|token tokens IH]; intros start; cbn [ordered_from ordered_problem]; [done|].
  destruct (str_find token source start); [apply IH|done].
Qed.

(** The checks that do not look at the source of the gate. *)
Definition fixed_checks : list check := phase_checks ++ line_checks ++ rate_checks ++ shell_checks.

Lemma hardware_tests : test_hardware_parser = Ok 55.
Proof. by_compute. Qed.

Lemma fixed_checks_pass : run_checks 0 fixed_checks = Ok 47.
Proof. by_compute. Qed.

(** The parsers of the M9 gate, as modelled, pass the repository's own tests of
    them: all 55 checks of [test_hardware_parser]; and the telemetry tests pass, with
    49 checks, exactly when [run_snapshot] and [run_disconnect] are functions of the
    gate in whose text the phases can be found in order. *)
Theorem parser_tests_pass :
  test_hardware_parser = Ok 55 ∧
  ∀ function_sources line,
    telemetry_main function_sources = Ok line ↔
    line = "MICRONUX:M9:TELEMETRY-PARSER:PASS tests=49" ∧
    ∃ snapshot disconnect,
      function_sources "run_snapshot" = Some snapshot ∧ placed snapshot 0 SNAPSHOT_TOKENS
      ∧ function_sources "run_disconnect" = Some disconnect ∧ placed disconnect 0 DISCONNECT_TOKENS.
Proof.
  split; [exact hardware_tests|]. intros sources line. unfold telemetry_main.
  replace (phase_checks ++ line_checks ++ rate_checks ++ shell_checks ++ order_checks sources)
    with (fixed_checks ++ order_checks sources) by (unfold fixed_checks; by rewrite <- !app_assoc).
  rewrite run_checks_app, fixed_checks_pass. cbn [mbind result_bind]. rewrite bind_ok_inv.
  setoid_rewrite run_checks_ok. unfold order_checks, source_of. setoid_rewrite Forall_cons.
  setoid_rewrite Forall_cons. setoid_rewrite Forall_nil. cbn [fst]. split.
  - intros (n & ((Hs & Hd & _) & ->) & [= <-]). split; [done|]. apply bind_ok_inv in Hs as (? & Hs & Hs'), Hd as (? & Hd & Hd').
    destruct (sources "run_snapshot") as [snapshot|]; [|discriminate]. destruct (sources "run_disconnect") as [disconnect|]; [|discriminate].
    injection Hs as <-. injection Hd as <-. injection Hs' as Hs'. injection Hd' as Hd'.
    exists snapshot, disconnect. by rewrite <- !ordered_from_iff.
  - intros (-> & snapshot & disconnect & -> & Hs & -> & Hd). exists 49. split; [|by_compute]. cbn [mbind result_bind].
    unfold ordered. rewrite <- ordered_from_iff in Hs, Hd. by rewrite Hs, Hd.
Qed.
