(* ===== verification/GateBoard.v ===== *)
(** * A board on which the M9 gate passes

    A host that answers the gate as a board does that shows its display: a prompt for a
    newline, and for a command the text of the repository's own tests of the parsers, with
    the end mark of the command's token. *)

From S2P Require Import Prelude PyBytes PyStr Utf8 Telemetry Io Session Commands Verdicts Gate ParserTests.

Record board := { b_time : Z; b_inbox : list bytes }.

Definition touch_reply : string := touch_line "0x5d" "10" "7" "0" "0" +:+ nl.

Definition signature (phase : string) : string :=
  "MICRONUX:M9:FB-SHA256 phase=" +:+ phase +:+ " sha256=" +:+ str_join "" (replicate 64 "a") +:+ nl.

Definition snapshot_reply : string :=
  phase_block "SNAPSHOT-A-PREHASH" 100 [] +:+ signature "snapshot-a" +:+ phase_block "SNAPSHOT-A-POSTHASH" 101 [] +:+
  scanout_line 99 100 [] +:+
  phase_block "SNAPSHOT-B-PREHASH" 102 [] +:+ signature "snapshot-b" +:+ phase_block "SNAPSHOT-B-POSTHASH" 103 [] +:+
  scanout_line 101 102 [] +:+
  hardware_ownership +:+ touch_reply +:+ hardware_runtime +:+ nl.

(** What the board prints for the text it is sent. *)
Definition answer (text : string) : string :=
  match str_find ":BEGIN;" text 0 with
  | Some i =>
      let token := str_drop 5 (str_take i text) in
      (if contains "_SNAPSHOT_" token then snapshot_reply else touch_reply) +:+ token +:+ ":END:0" +:+ nl
  | None => nl +:+ "/ # "
  end.

Definition answering_board : host board := {|
  h_monotonic_ns b := (b_time b, b);
  h_sleep t b := {| b_time := b_time b + Z.max 0 t; b_inbox := b_inbox b |};
  h_open _ b := (Ok 0, b);
  h_reset_input_buffer _ b := (Ok tt, b);
  h_reset_output_buffer _ b := (Ok tt, b);
  h_in_waiting _ b := (Ok 0, b);
  h_read _ _ b := (Ok (default [] (head (b_inbox b))), {| b_time := b_time b + ms 50; b_inbox := tail (b_inbox b) |});
  h_write _ data b := (Ok (blen data), {| b_time := b_time b; b_inbox := b_inbox b ++ [encode (answer (chars data))] |});
  h_flush _ b := (Ok tt, b);
  h_set_dtr _ _ b := (Ok tt, b);
  h_set_rts _ _ b := (Ok tt, b);
  h_cancel_read _ b := (Ok tt, b);
  h_cancel_write _ b := (Ok tt, b);
  h_close _ b := (Ok tt, b);
  h_run _ b := (Ok 0, b);
  h_make_parent _ b := (Ok tt, b);
  h_write_text _ _ b := (Ok tt, b);
|}.

Definition board_start : st board := mkSt {| b_time := 0; b_inbox := [] |} "" "".

#[global, refine] Instance board_timed : TimedHost answering_board := {| clock := b_time; tick := ms 50 |}.
Proof. all: intros; cbn; unfold ms, seconds; lia. Defined.

Lemma board_enough : enough answering_board sample_fuel.
Proof. apply Z.leb_le. by_compute. Qed.

(** The snapshot passes, on every level of the gate: the exit code is 0. *)
Example snapshot_passes :
  (λ o, (o.1, contains "MICRONUX:M9:SNAPSHOT:CAPTURED " (stdout o.2))) <$>
    main answering_board sample_environment sample_fuel (sample_arguments Snapshot) no_artifacts board_start
  = Some (Ok 0, true).
Proof. by_compute. Qed.
