(* ===== verification/BindPatches.v ===== *)
(** * [bind_to_sources]: the patches

    The texts that [bind_to_sources] of scripts/m9-2-display-contract-test.py reads, the
    parts it takes of them and, in the order of the function, its steps over the kernel
    patches.  A variable of the function has a definition of its name; a list of steps
    covers the statements of a group of checks. *)

From S2P Require Import Prelude PyBytes PyStr PyJson Sha256 Regex Utf8 Session Contract Gdma Boots SourceText.

(** [^@@ ] and the scope of a hunk, and the calls that report a failed scanout *)
Definition HUNK_RE : re := Eval vm_compute in compile true "^@@ ".
Definition HUNK_SCOPE_RE : re := Eval vm_compute in compile true "^@@ [^\n]* @@ ([^\n]+)$".
Definition FAILURE_RE : re := Eval vm_compute in
  compile false (sh "micronux_log_scanout_failure\(dsi, `([^`]+)`, `([^`]+)`").
Definition failure_phases (text : string) : list (string * string) :=
  map (λ m, (group m "1", group m "2")) (finditer FAILURE_RE text).

Definition dark_i2c_policy (state i2c_state : string) (released : bool) : bool :=
  member state ["SCANOUT_INITIALIZING"; "SCANOUT_QUALIFIED_QUIESCENT"] && bool_decide (i2c_state = "RELEASED") && released.

Definition patches : list string :=
  ["buildroot-external/board/micronux/patches-peripherals/linux/0023-video-fbdev-adopt-triple-buffer-irq-rearm-scanout.patch";
    "buildroot-external/board/micronux/patches-peripherals/linux/0024-video-fbdev-match-yamui-display-policy.patch";
    "buildroot-external/board/micronux/patches-peripherals/linux/0025-video-fbdev-qualify-initial-reveal-and-log-blocks.patch";
    "buildroot-external/board/micronux/patches-peripherals/linux/0026-video-fbdev-tolerate-first-window-dpi-refill-residue.patch";
    "buildroot-external/board/micronux/patches-peripherals/linux/0027-video-fbdev-require-dark-vpg-display-handoff.patch";
    "buildroot-external/board/micronux/patches-peripherals/linux/0028-video-fbdev-disable-per-frame-dsi-bta.patch";
    "buildroot-external/board/micronux/patches-peripherals/linux/0029-video-fbdev-request-hs-in-auto-clock-mode.patch"].

Definition cold_patch : string :=
  "buildroot-external/board/micronux/patches-peripherals/linux/0030-video-fbdev-add-ABI-v3-native-cold-probe.patch".

Definition ldo_patch : string :=
  "buildroot-external/board/micronux/patches-peripherals/linux/0031-video-fbdev-add-native-I2C-and-LDO-cold-stage.patch".

Definition panel_patch : string :=
  "buildroot-external/board/micronux/patches-peripherals/linux/0032-video-fbdev-program-native-DSI-panel-cold-stage.patch".

Definition scanout_patch : string :=
  "buildroot-external/board/micronux/patches-peripherals/linux/0033-video-fbdev-start-native-DSI-scanout-cold-stage.patch".

Definition reveal_patch : string :=
  "buildroot-external/board/micronux/patches-peripherals/linux/0034-video-fbdev-reveal-native-DSI-scanout-safely.patch".

Definition native_irq_patch : string :=
  "buildroot-external/board/micronux/patches-peripherals/linux/0035-video-fbdev-validate-native-CLIC-hardware-IRQ.patch".

Definition native_diagnostic_patch : string :=
  "buildroot-external/board/micronux/patches-peripherals/linux/0036-video-fbdev-diagnose-native-GDMA-readback.patch".

Definition native_gdma_patch : string :=
  "buildroot-external/board/micronux/patches-peripherals/linux/0037-video-fbdev-validate-GDMA-enable-semantics.patch".

Definition native_scanout_patch : string :=
  "buildroot-external/board/micronux/patches-peripherals/linux/0038-video-fbdev-diagnose-native-scanout-qualification.patch".

Definition native_arm_patch : string :=
  "buildroot-external/board/micronux/patches-peripherals/linux/0039-video-fbdev-validate-native-DMA-arm-transaction.patch".

Definition native_policy_patch : string :=
  "buildroot-external/board/micronux/patches-peripherals/linux/0040-video-fbdev-stop-gating-scanout-on-inactive-DSI-mirror.patch".

Definition native_feed_patch : string :=
  "buildroot-external/board/micronux/patches-peripherals/linux/0041-video-fbdev-keep-native-one-shot-scanout-fed.patch".

Definition visible_epoch_patch : string :=
  "buildroot-external/board/micronux/patches-peripherals/linux/0042-video-fbdev-start-telemetry-at-native-reveal.patch".

Definition fault_evidence_patch : string :=
  "buildroot-external/board/micronux/patches-peripherals/linux/0043-video-fbdev-preserve-native-runtime-fault-evidence.patch".

Definition bandwidth_patch : string :=
  "buildroot-external/board/micronux/patches-peripherals/linux/0044-video-fbdev-derate-native-DSI-for-PSRAM-bandwidth.patch".

Definition sd_isolation_patch : string :=
  "buildroot-external/board/micronux/patches-peripherals/linux/0045-mmc-dw-allow-an-isolated-ESP32-P4-slot.patch".

Definition continuous_prep_patch : string :=
  "buildroot-external/board/micronux/patches-peripherals/linux/0046-video-fbdev-validate-native-continuous-reload-plan.patch".

Definition usb_console_patch : string :=
  "buildroot-external/board/micronux/patches-platform/linux/0008-serial-keep-esp32p4-usb-console-nonblocking.patch".

Definition header : string :=
  "loader/main/micronux_mipi_dsi.h".

Definition loader_source : string :=
  "loader/main/micronux_mipi_dsi.c".

Definition loader_main : string :=
  "loader/main/micronux_loader.c".

Definition loader_defaults : string :=
  "loader/sdkconfig.defaults".

Definition idf_handoff_patch : string :=
  "loader/patches/esp-idf-v6.0.1/0002-lcd-add-dpi-circular-handoff.patch".

Definition dma_pms : string :=
  "loader/main/micronux_dma_pms.c".

Definition hardware_test : string :=
  "scripts/m9-hardware-test.py".

Definition hardware_telemetry_test : string :=
  "scripts/m9-hardware-telemetry-test.py".

Definition display_test : string :=
  "buildroot-external/package/micronux-display-test/micronux-display-test.c".

Definition packer : string :=
  "scripts/m3-pack.py".

Definition stage_builds : list string :=
  ["scripts/m7-build.sh"; "scripts/m9-build.sh"].

Definition rootfs_init : string :=
  "buildroot-external/board/micronux/rootfs-m6-combined/init".

Definition device_trees : list string :=
  ["buildroot-external/board/micronux/dts-m7/espressif/esp32p4-micronux.dts";
    "buildroot-external/board/micronux/dts-m9/espressif/esp32p4-micronux.dts"].

(** ** Patch texts *)

Definition patch_text (src : sources) : result string :=
  texts ← map_result (read_text src) patches; Ok (str_join nl texts).

Definition added (src : sources) : result string :=
  patch_text ← patch_text src; Ok (added_text patch_text).

Definition cold_patch_text (src : sources) : result string :=
  read_text src cold_patch.

Definition cold_added (src : sources) : result string :=
  cold_patch_text ← cold_patch_text src; Ok (added_text cold_patch_text).

Definition cold_added_compact (src : sources) : result string :=
  cold_added ← cold_added src; Ok (compact cold_added).

Definition ldo_patch_text (src : sources) : result string :=
  read_text src ldo_patch.

Definition ldo_added (src : sources) : result string :=
  ldo_patch_text ← ldo_patch_text src; Ok (added_text ldo_patch_text).

Definition ldo_added_compact (src : sources) : result string :=
  ldo_added ← ldo_added src; Ok (compact ldo_added).

Definition panel_patch_text (src : sources) : result string :=
  read_text src panel_patch.

Definition panel_added (src : sources) : result string :=
  panel_patch_text ← panel_patch_text src; Ok (added_text panel_patch_text).

Definition panel_added_compact (src : sources) : result string :=
  panel_added ← panel_added src; Ok (compact panel_added).

Definition scanout_patch_text (src : sources) : result string :=
  read_text src scanout_patch.

Definition scanout_added (src : sources) : result string :=
  scanout_patch_text ← scanout_patch_text src; Ok (added_text scanout_patch_text).

Definition scanout_added_compact (src : sources) : result string :=
  scanout_added ← scanout_added src; Ok (compact scanout_added).

Definition reveal_patch_text (src : sources) : result string :=
  read_text src reveal_patch.

Definition reveal_added (src : sources) : result string :=
  reveal_patch_text ← reveal_patch_text src; Ok (added_text reveal_patch_text).

Definition reveal_added_compact (src : sources) : result string :=
  reveal_added ← reveal_added src; Ok (compact reveal_added).

Definition reveal_postimage_hunks (src : sources) : result string :=
  reveal_patch_text ← reveal_patch_text src; Ok (postimage_text reveal_patch_text).

Definition reveal_postimage_compact (src : sources) : result string :=
  reveal_postimage_hunks ← reveal_postimage_hunks src; Ok (compact reveal_postimage_hunks).

Definition native_irq_patch_text (src : sources) : result string :=
  read_text src native_irq_patch.

Definition native_irq_added (src : sources) : result string :=
  native_irq_patch_text ← native_irq_patch_text src; Ok (added_text native_irq_patch_text).

Definition native_irq_added_compact (src : sources) : result string :=
  native_irq_added ← native_irq_added src; Ok (compact native_irq_added).

Definition native_irq_postimage_hunks (src : sources) : result string :=
  native_irq_patch_text ← native_irq_patch_text src; Ok (postimage_text native_irq_patch_text).

Definition native_irq_postimage_compact (src : sources) : result string :=
  native_irq_postimage_hunks ← native_irq_postimage_hunks src; Ok (compact native_irq_postimage_hunks).

Definition native_diagnostic_patch_text (src : sources) : result string :=
  read_text src native_diagnostic_patch.

Definition native_diagnostic_added (src : sources) : result string :=
  native_diagnostic_patch_text ← native_diagnostic_patch_text src; Ok (added_text native_diagnostic_patch_text).

Definition native_diagnostic_added_compact (src : sources) : result string :=
  native_diagnostic_added ← native_diagnostic_added src; Ok (compact native_diagnostic_added).

Definition native_diagnostic_removed (src : sources) : result string :=
  native_diagnostic_patch_text ← native_diagnostic_patch_text src; Ok (removed_text
    native_diagnostic_patch_text).

Definition native_diagnostic_removed_compact (src : sources) : result string :=
  native_diagnostic_removed ← native_diagnostic_removed src; Ok (compact native_diagnostic_removed).

Definition native_diagnostic_postimage_hunks (src : sources) : result string :=
  native_diagnostic_patch_text ← native_diagnostic_patch_text src; Ok (postimage_text
    native_diagnostic_patch_text).

Definition native_diagnostic_postimage_compact (src : sources) : result string :=
  native_diagnostic_postimage_hunks ← native_diagnostic_postimage_hunks src; Ok (compact
    native_diagnostic_postimage_hunks).

Definition native_gdma_patch_text (src : sources) : result string :=
  read_text src native_gdma_patch.

Definition native_gdma_added (src : sources) : result string :=
  native_gdma_patch_text ← native_gdma_patch_text src; Ok (added_text native_gdma_patch_text).

Definition native_gdma_added_compact (src : sources) : result string :=
  native_gdma_added ← native_gdma_added src; Ok (compact native_gdma_added).

Definition native_gdma_removed (src : sources) : result string :=
  native_gdma_patch_text ← native_gdma_patch_text src; Ok (removed_text native_gdma_patch_text).

Definition native_gdma_removed_compact (src : sources) : result string :=
  native_gdma_removed ← native_gdma_removed src; Ok (compact native_gdma_removed).

Definition native_gdma_postimage_hunks (src : sources) : result string :=
  native_gdma_patch_text ← native_gdma_patch_text src; Ok (postimage_text native_gdma_patch_text).

Definition native_gdma_postimage_compact (src : sources) : result string :=
  native_gdma_postimage_hunks ← native_gdma_postimage_hunks src; Ok (compact native_gdma_postimage_hunks).

Definition native_scanout_patch_text (src : sources) : result string :=
  read_text src native_scanout_patch.

Definition native_scanout_added (src : sources) : result string :=
  native_scanout_patch_text ← native_scanout_patch_text src; Ok (added_text native_scanout_patch_text).

Definition native_scanout_added_compact (src : sources) : result string :=
  native_scanout_added ← native_scanout_added src; Ok (compact native_scanout_added).

Definition native_scanout_removed (src : sources) : result string :=
  native_scanout_patch_text ← native_scanout_patch_text src; Ok (removed_text native_scanout_patch_text).

Definition native_scanout_removed_compact (src : sources) : result string :=
  native_scanout_removed ← native_scanout_removed src; Ok (compact native_scanout_removed).

Definition native_scanout_postimage_hunks (src : sources) : result string :=
  native_scanout_patch_text ← native_scanout_patch_text src; Ok (postimage_text native_scanout_patch_text).

Definition native_scanout_postimage_compact (src : sources) : result string :=
  native_scanout_postimage_hunks ← native_scanout_postimage_hunks src; Ok (compact
    native_scanout_postimage_hunks).

Definition native_arm_patch_text (src : sources) : result string :=
  read_text src native_arm_patch.

Definition native_arm_added (src : sources) : result string :=
  native_arm_patch_text ← native_arm_patch_text src; Ok (added_text native_arm_patch_text).

Definition native_arm_added_compact (src : sources) : result string :=
  native_arm_added ← native_arm_added src; Ok (compact native_arm_added).

Definition native_arm_removed (src : sources) : result string :=
  native_arm_patch_text ← native_arm_patch_text src; Ok (removed_text native_arm_patch_text).

Definition native_arm_removed_compact (src : sources) : result string :=
  native_arm_removed ← native_arm_removed src; Ok (compact native_arm_removed).

Definition native_arm_postimage_hunks (src : sources) : result string :=
  native_arm_patch_text ← native_arm_patch_text src; Ok (postimage_text native_arm_patch_text).

Definition native_arm_postimage_compact (src : sources) : result string :=
  native_arm_postimage_hunks ← native_arm_postimage_hunks src; Ok (compact native_arm_postimage_hunks).

Definition patch_texts_steps (src : sources) : list step :=
  [ assigned (patch_text src);
    assigned (cold_patch_text src);
    assigned (ldo_patch_text src);
    assigned (panel_patch_text src);
    assigned (scanout_patch_text src);
    assigned (reveal_patch_text src);
    assigned (native_irq_patch_text src);
    assigned (native_diagnostic_patch_text src);
    assigned (native_gdma_patch_text src);
    assigned (native_scanout_patch_text src);
    assigned (native_arm_patch_text src) ].

(** ** Source texts *)

Definition native_policy_patch_text (src : sources) : result string :=
  read_text src native_policy_patch.

Definition native_policy_added_lines (src : sources) : result (list string) :=
  native_policy_patch_text ← native_policy_patch_text src; Ok (added_lines native_policy_patch_text).

Definition native_policy_removed_lines (src : sources) : result (list string) :=
  native_policy_patch_text ← native_policy_patch_text src; Ok (removed_lines_unsigned native_policy_patch_text).

Definition native_policy_postimage_hunks (src : sources) : result string :=
  native_policy_patch_text ← native_policy_patch_text src; Ok (postimage_text native_policy_patch_text).

Definition native_policy_postimage_compact (src : sources) : result string :=
  native_policy_postimage_hunks ← native_policy_postimage_hunks src; Ok (compact native_policy_postimage_hunks).

Definition native_feed_patch_text (src : sources) : result string :=
  read_text src native_feed_patch.

Definition native_feed_added (src : sources) : result string :=
  native_feed_patch_text ← native_feed_patch_text src; Ok (added_text native_feed_patch_text).

Definition native_feed_added_compact (src : sources) : result string :=
  native_feed_added ← native_feed_added src; Ok (compact native_feed_added).

Definition native_feed_removed (src : sources) : result string :=
  native_feed_patch_text ← native_feed_patch_text src; Ok (removed_text_unsigned native_feed_patch_text).

Definition native_feed_removed_compact (src : sources) : result string :=
  native_feed_removed ← native_feed_removed src; Ok (compact native_feed_removed).

Definition native_feed_postimage_hunks (src : sources) : result string :=
  native_feed_patch_text ← native_feed_patch_text src; Ok (postimage_text native_feed_patch_text).

Definition native_feed_postimage_compact (src : sources) : result string :=
  native_feed_postimage_hunks ← native_feed_postimage_hunks src; Ok (compact native_feed_postimage_hunks).

Definition visible_epoch_patch_text (src : sources) : result string :=
  read_text src visible_epoch_patch.

Definition fault_evidence_patch_text (src : sources) : result string :=
  read_text src fault_evidence_patch.

Definition fault_evidence_added_compact (src : sources) : result string :=
  fault_evidence_patch_text ← fault_evidence_patch_text src; Ok (compact (added_text
    fault_evidence_patch_text)).

Definition fault_evidence_postimage_compact (src : sources) : result string :=
  fault_evidence_patch_text ← fault_evidence_patch_text src; Ok (compact (postimage_text
    fault_evidence_patch_text)).

Definition bandwidth_patch_text (src : sources) : result string :=
  read_text src bandwidth_patch.

Definition bandwidth_added_compact (src : sources) : result string :=
  bandwidth_patch_text ← bandwidth_patch_text src; Ok (compact (added_text bandwidth_patch_text)).

Definition bandwidth_removed_compact (src : sources) : result string :=
  bandwidth_patch_text ← bandwidth_patch_text src; Ok (compact (removed_text bandwidth_patch_text)).

Definition bandwidth_postimage_compact (src : sources) : result string :=
  bandwidth_patch_text ← bandwidth_patch_text src; Ok (compact (postimage_text bandwidth_patch_text)).

Definition sd_isolation_patch_text (src : sources) : result string :=
  read_text src sd_isolation_patch.

Definition sd_isolation_added_compact (src : sources) : result string :=
  sd_isolation_patch_text ← sd_isolation_patch_text src; Ok (compact (added_text sd_isolation_patch_text)).

Definition continuous_prep_patch_text (src : sources) : result string :=
  read_text src continuous_prep_patch.

Definition continuous_prep_added_compact (src : sources) : result string :=
  continuous_prep_patch_text ← continuous_prep_patch_text src; Ok (compact (added_text
    continuous_prep_patch_text)).

Definition continuous_prep_removed_compact (src : sources) : result string :=
  continuous_prep_patch_text ← continuous_prep_patch_text src; Ok (compact (removed_text_unsigned
    continuous_prep_patch_text)).

Definition continuous_prep_postimage_compact (src : sources) : result string :=
  continuous_prep_patch_text ← continuous_prep_patch_text src; Ok (compact (postimage_text
    continuous_prep_patch_text)).

Definition usb_console_patch_text (src : sources) : result string :=
  read_text src usb_console_patch.

Definition usb_console_added_compact (src : sources) : result string :=
  usb_console_patch_text ← usb_console_patch_text src; Ok (compact (added_text usb_console_patch_text)).

Definition usb_console_removed_compact (src : sources) : result string :=
  usb_console_patch_text ← usb_console_patch_text src; Ok (compact (removed_text_unsigned
    usb_console_patch_text)).

Definition usb_console_postimage_compact (src : sources) : result string :=
  usb_console_patch_text ← usb_console_patch_text src; Ok (compact (postimage_text usb_console_patch_text)).

Definition header_text (src : sources) : result string :=
  read_text src header.

Definition idf_handoff_text (src : sources) : result string :=
  read_text src idf_handoff_patch.

Definition dma_pms_text (src : sources) : result string :=
  read_text src dma_pms.

Definition dma_pms_compact (src : sources) : result string :=
  dma_pms_text ← dma_pms_text src; Ok (compact dma_pms_text).

Definition hardware_test_text (src : sources) : result string :=
  read_text src hardware_test.

Definition hardware_test_compact (src : sources) : result string :=
  hardware_test_text ← hardware_test_text src; Ok (compact hardware_test_text).

Definition hardware_telemetry_test_text (src : sources) : result string :=
  read_text src hardware_telemetry_test.

Definition display_test_text (src : sources) : result string :=
  read_text src display_test.

Definition display_test_compact (src : sources) : result string :=
  display_test_text ← display_test_text src; Ok (compact display_test_text).

Definition loader_text (src : sources) : result string :=
  read_text src loader_source.

Definition loader_compact (src : sources) : result string :=
  loader_text ← loader_text src; Ok (compact loader_text).

Definition loader_main_text (src : sources) : result string :=
  read_text src loader_main.

Definition loader_defaults_text (src : sources) : result string :=
  read_text src loader_defaults.

Definition source_texts_steps (src : sources) : list step :=
  [ assigned (native_policy_patch_text src);
    assigned (native_feed_patch_text src);
    assigned (visible_epoch_patch_text src);
    assigned (fault_evidence_patch_text src);
    assigned (bandwidth_patch_text src);
    assigned (sd_isolation_patch_text src);
    assigned (continuous_prep_patch_text src);
    assigned (usb_console_patch_text src);
    assigned (header_text src);
    assigned (idf_handoff_text src);
    assigned (dma_pms_text src);
    assigned (hardware_test_text src);
    assigned (hardware_telemetry_test_text src);
    assigned (display_test_text src);
    assigned (loader_text src);
    assigned (loader_main_text src);
    assigned (loader_defaults_text src) ].

(** ** Pinned sources *)

Definition expected_source_hashes : list (string * string) :=
  [(reveal_patch, "dc9f9902b5a787d052dfe61ea1ab418d30fadf2007df8ef1b40fae4cd913e068"); (native_irq_patch,
    "9e3a416bc6d724a99e8da81f88fd8b19cd922ff9e145c2e45476534970b28c45"); (native_diagnostic_patch,
    "448c70f2078a548c068aaa98687e79926a14a355e1279a542ae759a7ad60054e"); (native_gdma_patch,
    "ce5ac16d98e10e518dc8dc74c8d88ada4a4bb87ad010459e95d39b79380a68d9"); (native_scanout_patch,
    "ac27049f179f0e445095cf31ee8c37c7417c1a124c4c9f69dac9f9c7c072131f"); (native_arm_patch,
    "ebc2f0a8800bd133eb18e6be19d0b1dc3d1ebbcc347db81c2b91454d1fdab880"); (native_policy_patch,
    "f0443bda132ff473f498d3cdac18f885f01f00e2d07e65a5e9eb899cbfed5c4f"); (native_feed_patch,
    "521c4c2eb8c37d51668850404d737010f66330bef1056ef106cfc4dd32bbdd8c"); (visible_epoch_patch,
    "0d9c78583de6b0dedf794e12c29f4606768b5bc0b10f811cfb8f877c3898654c"); (fault_evidence_patch,
    "57a993584b45628746bd6419ff52468567a32ed9fed1737083e79d325da78f54"); (bandwidth_patch,
    "f2daf47a960a345097b88c0c7f5096f75bf174e926253c82f3f9a98d7a8deb98"); (sd_isolation_patch,
    "88f7c7535573884b5980a896e63982ff31ef7db14ab319ea49fb6b6567ecfde9"); (continuous_prep_patch,
    "f9305b344bd28f425c824affe3aa7e5ed42e6f8e3a1e48601c61ad691a920881"); (usb_console_patch,
    "56cdb578e6d836451363fa68decda4afc16243f7dd1b14d18dc6c89aa9fd02eb"); (display_test,
    "852bc9fb48b928205246a7cf2d85f2e6dbad155d2bfdd9fcfbcf470a5e5a63f5"); (hardware_test,
    "194dfb8328011f152160fa68568589c7d39cbfedfddc3b2d4619d45ccc48219a"); (hardware_telemetry_test,
    "f504f98dfbdd30c95449f8ac15930c4f9a844c2400f51631ec8b68bd80b199f5")].

Definition pinned_sources_steps (src : sources) : list step :=
  flat_map (λ '(source, expected_hash), [ assigned (content ← read_bytes src source; Ok (sha256_hex content));
    counted (actual_hash ← (content ← read_bytes src source; Ok (sha256_hex content)); Ok (bool_decide
    (actual_hash = expected_hash))) (shown (actual_hash ← (content ← read_bytes src source; Ok (sha256_hex
    content)); Ok ("source-sha256:" +:+ name_of source +:+ ":" +:+ actual_hash))) ]) expected_source_hashes ++
  [ counted (has "Subject: [PATCH 8/8] serial: keep ESP32-P4 USB console nonblocking" (usb_console_patch_text
    src)) "usb-console-subject" ] ++
  map (λ token, counted (has token (usb_console_added_compact src)) ("usb-console-add:" +:+ token))
    ["if (!(readl_relaxed(port->membase + ESP32P4_USB_SERIAL_CONF) &"; "ESP32P4_USB_SERIAL_DATA_FREE))";
    "if (!esp32s3_acm_tx_fifo_free(port))"] ++
  map (λ token, counted (has token (usb_console_postimage_compact src)) ("usb-console-postimage:" +:+ token))
    ["esp32s3_acm_put_char(port, c);"; "esp32s3_acm_push(port);"] ++
  map (λ token, counted (has token (usb_console_removed_compact src)) ("usb-console-remove:" +:+ token))
    ["while (!(readl_relaxed(port->membase + ESP32P4_USB_SERIAL_CONF)"; "unsigned long timeout = jiffies + HZ;";
    "while (!esp32s3_acm_tx_fifo_free(port))"].

(** ** Adopted patch *)

Definition required_added : list string :=
  [("MICRONUX_DISPLAY_ABI_VERSION" +:+ tab +:+ "2"); ("MICRONUX_DISPLAY_BUFFER_COUNT" +:+ tab +:+ "3");
    "MICRONUX_DISPLAY_OWNER_LINUX_PENDING 1"; ("MICRONUX_DISPLAY_HSYNC_PULSE" +:+ tab +:+ "20");
    "MICRONUX_DISPLAY_HSYNC_BACK_PORCH 20"; "MICRONUX_DISPLAY_HSYNC_FRONT_PORCH 40";
    ("MICRONUX_DISPLAY_VSYNC_PULSE" +:+ tab +:+ "4"); "MICRONUX_DISPLAY_VSYNC_BACK_PORCH 10";
    "MICRONUX_DISPLAY_VSYNC_FRONT_PORCH 30"; ("MICRONUX_RENDER_COMMIT_MS" +:+ tab +:+ "20");
    ("MICRONUX_FRAMEBUFFER_ALIGNMENT" +:+ tab +:+ "8"); "MICRONUX_DMA_BLOCK_TRANSFER_SIZE 0x0003e7ff";
    ("MICRONUX_DMA_DESCRIPTOR_CTRL_LO" +:+ tab +:+ "0x001e1b41"); ("MICRONUX_DMA_DESCRIPTOR_CTRL_HI" +:+ tab +:+
    "0x400f87c0"); ("MICRONUX_DMA_CHANNEL_CFG_LO" +:+ tab +:+ "0x0000000f"); ("MICRONUX_DMA_CHANNEL_CFG_HI" +:+
    tab +:+ "0x0a020001"); "MICRONUX_DISPLAY_BACKLIGHT_DISABLED 0x13";
    "MICRONUX_DISPLAY_BACKLIGHT_ENABLED 0x17"; ("DSI_HOST_CLOCK_LANE_AUTO" +:+ tab +:+ tab +:+
    "(DSI_HOST_PHY_TXREQUESTCLKHS |"); "lpclk |= DSI_HOST_CLOCK_LANE_AUTO";
    "host &= ~(DSI_HOST_VPG_MASK | DSI_HOST_FRAME_BTA_ACK_EN)"; "host |= DSI_HOST_LP_VIDEO_EN_MASK";
    "bool clock_auto, frame_ack_disabled, lp_enabled;"; "frame_ack_disabled && clock_auto && lp_enabled ?";
    (sh "clock_auto ? `auto` : `invalid`"); (sh "lp_enabled ? `enabled` : `invalid`"); "backlight-gate=%s";
    ("DSI_BRG_FIFO_FLOW_STATUS" +:+ tab +:+ "0x14"); "bridge-fifo=%08x"; "micronux_initialize_pool_guards(dsi)";
    "micronux_pool_guards_valid(dsi, true)"; "micronux_copy_frame(dsi, 1, 0)"; "micronux_copy_frame(dsi, 2, 0)";
    "DMA_LLI_SAR_HI"; "DMA_LLI_DAR_HI"; "DMA_LLI_LLP_HI";
    "a failed rearm leaves both the old front and queued frame";
    "next_index = !faulted && dsi->queued_index >= 0 ?"; "if (!faulted && dsi->queued_index >= 0) {";
    "mod_delayed_work(system_wq, &dsi->render_work";
    "display remove could not confirm darkness; preserving source";
    "Qualify one grace and one strict frame window while still dark."; "MICRONUX:M9.2:REVEAL state=blocked";
    "qualification-windows=2"; "DSI_HOST_INT_STATUS1_FB_STARTUP_GRACE DSI_HOST_INT_STATUS1_DPI_PATH";
    "forgive DPI-path refill residue only"; "MICRONUX_DISPLAY_HOST_VPG_ACTIVE BIT(7)";
    "host &= ~(DSI_HOST_VPG_MASK | DSI_HOST_FRAME_BTA_ACK_EN)"; "loader-source=vertical-bars";
    "loader-source=vpg"].

Definition arm (src : sources) : result Z :=
  added ← added src; index "if (micronux_dma_arm_frame(dsi, next_index))" added.

Definition publish (src : sources) : result Z :=
  added ← added src; index "dsi->front_index = dsi->queued_index;" added.

Definition adopted_patch_steps (src : sources) : list step :=
  map (λ token, required (has token (added src)) ("patch-binding-missing:" +:+ token)) required_added ++
  [ assigned (arm src);
    assigned (publish src);
    required (arm ← arm src; publish ← publish src; Ok (arm <? publish))
    "patch-binding-role-publication-before-rearm" ].

(** ** Cold patch *)

Definition required_cold_patch : list string :=
  ["MICRONUX_DISPLAY_HANDOFF_V3_SIZE 0xc0"; "MICRONUX_DISPLAY_V3_REQUIRED_FLAGS 0x00003fff";
    "MICRONUX_DISPLAY_COLD_RESET_ASSERT_COMMAND 0x11"; "MICRONUX_DISPLAY_COLD_RESET_PREPARE_COMMAND 0x13";
    "MICRONUX_DISPLAY_COLD_REVEAL_COMMAND 0x17"; "MICRONUX_DISPLAY_COLD_PWM_ZERO_SETTLE_MS 100";
    "MICRONUX_DISPLAY_COLD_PANEL_PAYLOAD_CRC32 0xcea07f9b"; "u32 display_control_reset_assert_command;";
    "u32 display_control_reset_prepare_command;"; "u32 display_control_reveal_command;";
    "u32 pwm_zero_settle_ms;"; "u32 panel_payload_crc32;"; "MICRONUX_DISPLAY_STATE_PROBED_QUIESCENT";
    "state=REJECTED_NO_WRITES"; "state=PROBED_QUIESCENT abi=3 size=0x00c0 flags=0x00003fff";
    "payload-crc=cea07f9b"; "commands=acked pwm-zero-write=acked reset-prepare-write=acked";
    "pwm-zero-settle=elapsed reset-assert-write=acked reset-hold=elapsed";
    "dsi-module-reset=asserted dphy-clocks=off ldo-control=off"; "gdma-reset=asserted clocks=off";
    "descriptor-sd-dma-overlap"; (sh "of_property_read_bool(pool, `no-map`)")].

Definition required_cold_patch_layout : list string :=
  ["!IS_ALIGNED(handoff->framebuffer_address[i], MICRONUX_COLD_PAGE_SIZE)";
    "!IS_ALIGNED(handoff->dma_descriptor_address, MICRONUX_COLD_PAGE_SIZE)";
    "descriptor_page_end = (u64)handoff->dma_descriptor_address + MICRONUX_COLD_PAGE_SIZE";
    "for (i = 0; i < MICRONUX_COLD_PAGE_SIZE; i++)";
    "handoff->panel_payload_crc32 != MICRONUX_DISPLAY_COLD_PANEL_PAYLOAD_CRC32"].

Definition required_ldo_patch : list string :=
  ["MICRONUX_DISPLAY_STATE_LDO_READY"; "static int micronux_cold_initialize_ldo_stage";
    "micronux_cold_i2c_initialize(dsi)"; "micronux_cold_reissue_quiescent_commands(dsi)";
    "micronux_cold_ldo_enable(dsi, &cal)"; "micronux_cold_i2c_gate(dsi)"; "DEVICE_ATTR_WO(cold_init)";
    "state=LDO_READY ldo-channel=3 ldo-unit=2 voltage-mv=2500"; "i2c0=released-gated";
    "physical-panel-state=unobserved"; "dsi-module-reset=asserted dphy-clocks=off gdma-reset=asserted";
    "retry=reboot-only optical-state=unobserved"].

Definition required_panel_patch : list string :=
  ["MICRONUX_DISPLAY_STATE_PANEL_PROGRAMMED_QUIESCENT"; "MICRONUX_DISPLAY_STATE_FAILED_UNVERIFIED";
    "MICRONUX_DISPLAY_COLD_PHY_TIMEOUT_US 500000"; "MICRONUX_DISPLAY_COLD_PACKET_TIMEOUT_US 100000";
    "MICRONUX_DISPLAY_COLD_PANEL_PARITY_MS 1100"; "MICRONUX_PANEL_FIRMWARE_TOTAL_BYTES 1052";
    "MICRONUX_PANEL_FIRMWARE_RECORDS 204"; "MICRONUX_PANEL_FIRMWARE_PAYLOAD_BYTES 1020";
    "payload_crc != dsi->cold_handoff.panel_payload_crc32"; "crc = crc32_le(~0U, payload, payload_bytes) ^ ~0U";
    "micronux_panel_firmware_request(dsi, &panel)"; "micronux_cold_dsi_enable(dsi)";
    "micronux_cold_release_panel(dsi)"; "micronux_cold_program_panel(dsi, &panel)";
    "micronux_cold_dcs_write(dsi, 0x01, NULL, 0)"; "readl_poll_timeout(dsi->host + DSI_HOST_PHY_STATUS";
    "readl_poll_timeout(dsi->host + DSI_HOST_CMD_PKT_STATUS";
    "state=PANEL_PROGRAMMED_QUIESCENT firmware=validated records=204";
    "bridge=disabled dpi=off gdma-reset=asserted gdma-clocks=off";
    "physical-panel-state=unobserved next=native-scanout";
    "i2c_released = i2c_gated && micronux_cold_i2c_released(dsi)";
    "contained = !pwm_ret && !prepare_ret && !reset_ret && i2c_released && display_blocks && ldo_off";
    (sh "state = `FAILED_UNVERIFIED`"); (sh "retry = `remove-containment-or-reboot`");
    "cold_i2c_released = cold_i2c_off && micronux_cold_i2c_released(dsi)";
    ("cold_contained = !pwm_ret && !prepare_ret && !reset_ret && cold_i2c_released && cold_dsi_off && " +:+
    "cold_ldo_off"); (sh "cold_remove_state = cold_contained ? `QUIESCENT` : `UNVERIFIED`")].

Definition request_index (src : sources) : result Z :=
  panel_added_compact ← panel_added_compact src; index "ret = micronux_panel_firmware_request(dsi, &panel)"
    panel_added_compact.

Definition dsi_enable_index (src : sources) : result Z :=
  panel_added_compact ← panel_added_compact src; index "ret = micronux_cold_dsi_enable(dsi)"
    panel_added_compact.

Definition panel_release_index (src : sources) : result Z :=
  panel_added_compact ← panel_added_compact src; index "ret = micronux_cold_release_panel(dsi)"
    panel_added_compact.

Definition panel_program_index (src : sources) : result Z :=
  panel_added_compact ← panel_added_compact src; index "ret = micronux_cold_program_panel(dsi, &panel)"
    panel_added_compact.

Definition cold_patch_steps (src : sources) : list step :=
  map (λ token, required (has token (cold_added_compact src)) ("cold-patch-binding-missing:" +:+ token))
    required_cold_patch ++
  map (λ token, required (has token (cold_added_compact src)) ("cold-patch-layout-binding-missing:" +:+ token))
    required_cold_patch_layout ++
  map (λ token, required (has token (ldo_added_compact src)) ("ldo-patch-binding-missing:" +:+ token))
    required_ldo_patch ++
  map (λ token, required (has token (panel_added_compact src)) ("panel-patch-binding-missing:" +:+ token))
    required_panel_patch ++
  [ assigned (request_index src);
    assigned (dsi_enable_index src);
    assigned (panel_release_index src);
    assigned (panel_program_index src);
    required (request_index ← request_index src; dsi_enable_index ← dsi_enable_index src; panel_release_index ←
    panel_release_index src; panel_program_index ← panel_program_index src; Ok ((request_index <?
    dsi_enable_index) && (dsi_enable_index <? panel_release_index) && (panel_release_index <?
    panel_program_index))) "panel-patch-cold-stage-order" ].

(** ** Scanout patch *)

Definition required_scanout_patch : list string :=
  ["MICRONUX_DISPLAY_STATE_SCANOUT_INITIALIZING"; "MICRONUX_DISPLAY_STATE_SCANOUT_QUALIFIED_QUIESCENT";
    "MICRONUX_DISPLAY_STATE_REMOVING"; "MICRONUX_NATIVE_DMA_DESCRIPTOR_CTRL_HI 0x40108840";
    "MICRONUX_NATIVE_DMA_DESCRIPTOR_ARMED 0xc0108840"; "DW_GDMA_INT_STATUS0_RO_MASK BIT(25)";
    "DW_GDMA_INT_ECC_ERROR_MASK GENMASK(3, 0)"; "DW_GDMA_INT_COMMON_RO_MASK 0x001ffe80";
    "bool cold_gdma_hp_mutated;"; "state=CONFIGURED controller=enabled irq-master=masked";
    "The global IRQ master stays masked across this final clean snapshot.";
    "From this point every new source is delivered; never clear it blindly.";
    "initial_generation = READ_ONCE(dsi->source_generation)"; "false, dsi->source_generation";
    "A completed one-shot can expose the exact end before ISR rearm.";
    "sar >= start && sar <= start + dsi->handoff.framebuffer_size";
    "Stop an immutable inactive-channel level source from retriggering."; "writel(1, dsi->gdma + DW_GDMA_CFG)";
    "Drain a renderer that passed the gate before it was closed.";
    "A drained renderer may have queued this work before releasing lock.";
    "HP clock/reset containment is safe even if GDMA was inaccessible.";
    "state=SCANOUT_QUALIFIED_QUIESCENT fb=fb%d registered=yes";
    "source=black scanout=advancing windows=2 frames=8 buffers=3";
    "ctrl-hi=c0108840 host=video frame-bta=enabled lp=all";
    "boot-ready=0 render-gate=open backlight=unregistered touch=unregistered"].

Definition baseline (src : sources) : result Z :=
  scanout_added_compact ← scanout_added_compact src; index "WRITE_ONCE(dsi->fault_bits, 0)"
    scanout_added_compact.

Definition configure_gdma (src : sources) : result Z :=
  scanout_added_compact ← scanout_added_compact src; index "ret = micronux_native_configure_gdma(dsi)"
    scanout_added_compact.

Definition masked_snapshot (src : sources) : result Z :=
  scanout_added_compact ← scanout_added_compact src; index
    "The global IRQ master stays masked across this final clean snapshot." scanout_added_compact.

Definition irq_enable (src : sources) : result Z :=
  scanout_added_compact ← scanout_added_compact src; masked_snapshot ← masked_snapshot src; index_from
    "writel(3, dsi->gdma + DW_GDMA_CFG)" scanout_added_compact masked_snapshot.

Definition arm_frame (src : sources) : result Z :=
  scanout_added_compact ← scanout_added_compact src; irq_enable ← irq_enable src; index_from
    "ret = micronux_native_dma_arm_frame(dsi, dsi->front_index)" scanout_added_compact irq_enable.

Definition register_fb (src : sources) : result Z :=
  scanout_added_compact ← scanout_added_compact src; index "ret = micronux_register_framebuffer(dsi)"
    scanout_added_compact.

Definition final_health (src : sources) : result Z :=
  scanout_added_compact ← scanout_added_compact src; register_fb ← register_fb src; index_from
    "if (!micronux_native_final_status_clean(dsi))" scanout_added_compact register_fb.

Definition publish_ready (src : sources) : result Z :=
  scanout_added_compact ← scanout_added_compact src; final_health ← final_health src; index_from
    "WRITE_ONCE(dsi->scanout_ready, true)" scanout_added_compact final_health.

Definition publish_state (src : sources) : result Z :=
  scanout_added_compact ← scanout_added_compact src; publish_ready ← publish_ready src; index_from
    "MICRONUX_DISPLAY_STATE_SCANOUT_QUALIFIED_QUIESCENT" scanout_added_compact publish_ready.

Definition gate_close (src : sources) : result Z :=
  scanout_added_compact ← scanout_added_compact src; index "WRITE_ONCE(dsi->render_enabled, false)"
    scanout_added_compact.

Definition render_drain (src : sources) : result Z :=
  scanout_added_compact ← scanout_added_compact src; gate_close ← gate_close src; index_from
    "mutex_lock(&dsi->render_lock)" scanout_added_compact gate_close.

Definition render_cancel (src : sources) : result Z :=
  scanout_added_compact ← scanout_added_compact src; render_drain ← render_drain src; index_from
    "cancel_delayed_work_sync(&dsi->render_work)" scanout_added_compact render_drain.

Definition remove_hunk : string :=
  ("+" +:+ tab +:+ tab +:+ "mutex_lock(&dsi->mode_lock);" +:+ nl +:+ " " +:+ tab +:+ tab +:+
    "state = READ_ONCE(dsi->display_state);" +:+ nl +:+ "+" +:+ tab +:+ tab +:+ "WRITE_ONCE(dsi->display_state,"
    +:+ nl +:+ "+" +:+ tab +:+ tab +:+ tab +:+ "   MICRONUX_DISPLAY_STATE_REMOVING);").

Definition scanout_patch_steps (src : sources) : list step :=
  map (λ token, required (has token (scanout_added_compact src)) ("scanout-patch-binding-missing:" +:+ token))
    required_scanout_patch ++
  [ assigned (baseline src);
    assigned (configure_gdma src);
    assigned (masked_snapshot src);
    assigned (irq_enable src);
    assigned (arm_frame src);
    required (baseline ← baseline src; configure_gdma ← configure_gdma src; masked_snapshot ← masked_snapshot
    src; irq_enable ← irq_enable src; arm_frame ← arm_frame src; Ok ((baseline <? configure_gdma) &&
    ((masked_snapshot <? irq_enable) && (irq_enable <? arm_frame)))) "scanout-patch-irq-boundary-order";
    assigned (register_fb src);
    assigned (final_health src);
    assigned (publish_ready src);
    assigned (publish_state src);
    required (register_fb ← register_fb src; final_health ← final_health src; publish_ready ← publish_ready src;
    publish_state ← publish_state src; Ok ((register_fb <? final_health) && (final_health <? publish_ready) &&
    (publish_ready <? publish_state))) "scanout-patch-publication-order";
    assigned (gate_close src);
    assigned (render_drain src);
    assigned (render_cancel src);
    required (gate_close ← gate_close src; render_drain ← render_drain src; render_cancel ← render_cancel src;
    Ok ((gate_close <? render_drain) && (render_drain <? render_cancel))) "scanout-patch-render-lifetime-order";
    required (has remove_hunk (scanout_patch_text src)) "scanout-patch-remove-state-order" ].

(** ** Reveal and IRQ *)

Definition required_reveal_patch : list string :=
  ["MICRONUX_FAULT_BACKLIGHT_CONTROL 5"; "MICRONUX_DISPLAY_STATE_REVEALING";
    "MICRONUX_DISPLAY_STATE_RUNTIME_REVEALED"; "MICRONUX_NATIVE_I2C_RELEASED"; "MICRONUX_NATIVE_I2C_TRANSITION";
    "MICRONUX_NATIVE_I2C_ACTIVE_SERIALIZED"; "wait_queue_head_t frame_wait;";
    "u64 buffer_commit_sequence[MICRONUX_DISPLAY_BUFFER_COUNT];"; "u64 front_commit_sequence;";
    "u64 presented_commit_sequence;"; "u64 dark_baseline_commit_sequence;"; "bool boot_ready_consumed;";
    "bool boot_ready_file_created;"; "bool native_runtime_group_created;"; "bool native_backlight_registered;";
    "bool touch_registration_complete;"; "bool native_preserve_source;"; "bool native_dark_confirmed;";
    "bool native_reveal_may_be_lit;"; "bool native_source_rearm_unverified;";
    "static bool micronux_native_runtime_policy_valid";
    "MICRONUX:M9.2:REVEAL state=REVEALING trigger=boot_ready";
    "MICRONUX:M9.2:REVEAL state=QUALIFIED source=userspace-status";
    "MICRONUX:M9.2:REVEAL stage=control state=ACKED command=0x17 pwm=0";
    "MICRONUX:M9.2:REVEAL state=RUNTIME_REVEALED boot-ready=1";
    ("linux abi=3 mode=native-cold-init fb%d buffers=3 dma-channel=0 frame-irq=%d rearm=explicit " +:+
    "mmap=denied i2c=active-serialized");
    ("%s abi=3 state=%s frames=%u->%u error=%08x underruns=%u chen=%u faults=%lx " +:+
    "host-errors=%08x:%08x frame-ack=on clock=auto lp=enabled backlight-gate=%s buffers=3");
    "abi=3 state=%s frames=%u faults=%lx error=%08x host-errors=%08x:%08x underruns=%u buffers=3";
    "policy=%s i2c=active-serialized physical-panel-state=unobserved";
    (sh "return sysfs_emit(buf, `registering\n`)"); "MICRONUX:M9.2:TOUCH state=ready product=%s address=0x%02x";
    "MICRONUX:M9.2:TOUCH state=unavailable error=%d mode=poll display-state=RUNTIME_REVEALED";
    "MICRONUX:M9.2:REVEAL state=FAILED_UNVERIFIED"; "source=preserved scanout=%s darkness=not-confirmed";
    "source=stopped dsi-gdma=%s i2c0=%s ldo3-xpd=%s darkness=%s"].

Definition required_native_irq_patch : list string :=
  ["#include <linux/irq.h>"; "struct irq_data *irq_data;"; "irq_data = irq_get_irq_data(dsi->irq)";
    (sh "micronux_cold_reject(dsi, `gdma-linux-irq-data`)");
    "irqd_to_hwirq(irq_data) != handoff->gdma_clic_irq";
    "state=mismatch linux-virq=%d hwirq=%lu expected=%u display-writes=0";
    "dsi->irq, (unsigned long)irqd_to_hwirq(irq_data)"; (sh "micronux_cold_reject(dsi, `gdma-linux-hwirq`)")].

Definition raw_irq_comparison : string :=
  "handoff->gdma_clic_irq != dsi->irq".

Definition reveal_and_irq_steps (src : sources) : list step :=
  [ counted (has "Subject: [PATCH 34/46] video: fbdev: reveal native DSI scanout safely" (reveal_patch_text
    src)) "reveal-patch-subject" ] ++
  map (λ token, counted (has token (reveal_added_compact src)) ("reveal-patch-binding-missing:" +:+ token))
    required_reveal_patch ++
  [ counted (Ok (bool_decide (name_of native_irq_patch =
    "0035-video-fbdev-validate-native-CLIC-hardware-IRQ.patch"))) "native-irq-patch-path";
    counted (has "Subject: [PATCH 35/46] video: fbdev: validate native CLIC hardware IRQ" (native_irq_patch_text
    src)) "native-irq-patch-subject" ] ++
  map (λ token, counted (has token (native_irq_added_compact src)) ("native-irq-patch-binding-missing:" +:+
    token)) required_native_irq_patch ++
  [ counted (has (("-" +:+ tab +:+ "    ") +:+ raw_irq_comparison +:+ " ||") (native_irq_patch_text src))
    "native-irq-raw-virq-comparison-not-deleted";
    counted (lacks raw_irq_comparison (native_irq_postimage_compact src))
    "native-irq-raw-virq-comparison-retained";
    counted (native_irq_added_compact ← native_irq_added_compact src; Ok (negb (existsb (λ token, contains token
    native_irq_added_compact) ["writel("; "writeb("; "memcpy_toio("]))) "native-irq-diagnostic-mutates-hardware"
    ].

(** ** Diagnostic hp *)

Definition required_hp_readback : list string :=
  ["clocks0 = readl(dsi->hp_clkrst + HP_CLKRST_SOC_CLK_CTRL0);";
    "clocks1 = readl(dsi->hp_clkrst + HP_CLKRST_SOC_CLK_CTRL1);";
    "reset = readl(dsi->hp_clkrst + HP_CLKRST_HP_RST_EN0);"].

Definition required_hp_predicates : list string :=
  ["if (!(clocks0 & HP_CLKRST_GDMA_CPU_CLK_EN) ||"; "!(clocks1 & HP_CLKRST_GDMA_SYS_CLK_EN) ||";
    "(reset & HP_CLKRST_GDMA_RESET)) {"].

Definition hp_diagnostic_order : list string :=
  required_hp_readback ++ required_hp_predicates ++
    [("reason=hp-clock-reset-readback clk0=%08x clk1=%08x rst=%08x expected-clk0-set=%08x " +:+
    "expected-clk1-set=%08x rst-clear-mask=%08x"); "clocks0, clocks1, reset,";
    "(u32)HP_CLKRST_GDMA_CPU_CLK_EN,"; "(u32)HP_CLKRST_GDMA_SYS_CLK_EN,"; "(u32)HP_CLKRST_GDMA_RESET);"].

Definition hp_log (src : sources) : result Z :=
  native_diagnostic_postimage_compact ← native_diagnostic_postimage_compact src; Ok
    (find "reason=hp-clock-reset-readback" native_diagnostic_postimage_compact).

Definition hp_eio (src : sources) : result Z :=
  native_diagnostic_postimage_compact ← native_diagnostic_postimage_compact src; hp_log ← hp_log src; Ok
    (find_from "return -EIO;" native_diagnostic_postimage_compact hp_log).

Definition request_irq_diagnostic : list string :=
  ["ret = devm_request_irq(dsi->dev, dsi->irq, micronux_dma_irq, 0,"; "if (ret) {";
    "reason=request-irq error=%d linux-virq=%d hwirq=%lu"; "ret, dsi->irq,";
    "(unsigned long)dsi->cold_handoff.gdma_clic_irq);"; "return ret;"].

Definition diagnostic_hp_steps (src : sources) : list step :=
  [ counted (Ok (bool_decide (name_of native_diagnostic_patch =
    "0036-video-fbdev-diagnose-native-GDMA-readback.patch"))) "native-diagnostic-patch-path";
    counted (has "Subject: [PATCH 36/46] video: fbdev: diagnose native GDMA readback"
    (native_diagnostic_patch_text src)) "native-diagnostic-patch-subject";
    counted (has "index f0543ad..8e16257 100644" (native_diagnostic_patch_text src))
    "native-diagnostic-patch-order-after-irq";
    counted (native_diagnostic_patch_text ← native_diagnostic_patch_text src; Ok ((contains
    "drivers/video/fbdev/esp32p4-dsi.c |" native_diagnostic_patch_text) && (count "diff --git "
    native_diagnostic_patch_text =? 1))) "native-diagnostic-patch-scope" ] ++
  map (λ token, counted (occurs token 1 (native_diagnostic_added src)) ("native-diagnostic-hp-read-count:" +:+
    token)) required_hp_readback ++
  map (λ token, counted (has token (native_diagnostic_added_compact src)) ("native-diagnostic-hp-predicate:" +:+
    token)) required_hp_predicates ++
  [ each_in_order (native_diagnostic_added_compact src) (Ok (-1)) hp_diagnostic_order (λ token,
    "native-diagnostic-hp-order:" +:+ token);
    counted (hp_log ← hp_log src; hp_eio ← hp_eio src; Ok ((0 <=? hp_log) && (hp_log <? hp_eio)))
    "native-diagnostic-hp-same-eio";
    each_in_order (native_diagnostic_postimage_compact src) (Ok (-1)) request_irq_diagnostic (λ token,
    "native-diagnostic-request-irq-order:" +:+ token) ].

(** ** Diagnostic GDMA *)

Definition gdma_readbacks : list (string * string) :=
  [("cfg", "dsi->gdma + DW_GDMA_CFG"); ("cfg_lo", "dsi->channel + DW_GDMA_CH_CFG_LO"); ("cfg_hi",
    "dsi->channel + DW_GDMA_CH_CFG_HI"); ("st_ena0", "dsi->channel + DW_GDMA_CH_INT_STATUS_ENA"); ("st_ena1",
    "dsi->channel + DW_GDMA_CH_INT_STATUS_ENA1"); ("sig_ena0", "dsi->channel + DW_GDMA_CH_INT_SIGNAL_ENA");
    ("sig_ena1", "dsi->channel + DW_GDMA_CH_INT_SIGNAL_ENA1"); ("common_st_ena",
    "dsi->gdma + DW_GDMA_INT_STATUS_ENA"); ("common_sig_ena", "dsi->gdma + DW_GDMA_INT_SIGNAL_ENA"); ("chen",
    "dsi->gdma + DW_GDMA_CHEN")].

Definition required_gdma_predicates : list string :=
  ["if (cfg != 1 ||"; "cfg_lo != MICRONUX_DMA_CHANNEL_CFG_LO ||"; "cfg_hi != MICRONUX_DMA_CHANNEL_CFG_HI ||";
    "st_ena0 != (DW_GDMA_INT_NATIVE_SCANOUT_MASK | DW_GDMA_INT_STATUS0_RO_MASK) ||";
    "st_ena1 != DW_GDMA_INT_ECC_ERROR_MASK ||";
    "sig_ena0 != (DW_GDMA_INT_NATIVE_SCANOUT_MASK | DW_GDMA_INT_STATUS0_RO_MASK) ||";
    "sig_ena1 != DW_GDMA_INT_ECC_ERROR_MASK ||"; "common_st_ena != DW_GDMA_INT_COMMON_VALID_MASK ||";
    "common_sig_ena != DW_GDMA_INT_COMMON_VALID_MASK ||"; "(chen & GENMASK(3, 0))) {"].

Definition gdma_log_tokens : list string :=
  [("reason=register-readback cfg=%08x cfglo=%08x cfghi=%08x stena0=%08x stena1=%08x sigena0=%08x " +:+
    "sigena1=%08x common-stena=%08x common-sigena=%08x chen=%08x");
    "expected=00000001:0000000f:0a020001:023f7fe2:0000000f:023f7fe2:0000000f:001fff8f:001fff8f:chen[3:0]=0";
    "cfg, cfg_lo, cfg_hi, st_ena0, st_ena1, sig_ena0,"; "sig_ena1, common_st_ena, common_sig_ena, chen);"].

Definition gdma_first_read (src : sources) : result Z :=
  native_diagnostic_added_compact ← native_diagnostic_added_compact src; Ok
    (find "cfg = readl(dsi->gdma + DW_GDMA_CFG);" native_diagnostic_added_compact).

Definition gdma_log (src : sources) : result Z :=
  native_diagnostic_postimage_compact ← native_diagnostic_postimage_compact src; Ok
    (find "reason=register-readback" native_diagnostic_postimage_compact).

Definition gdma_eio (src : sources) : result Z :=
  native_diagnostic_postimage_compact ← native_diagnostic_postimage_compact src; gdma_log ← gdma_log src; Ok
    (find_from "return -EIO;" native_diagnostic_postimage_compact gdma_log).

Definition diagnostic_gdma_steps (src : sources) : list step :=
  map (λ '(local, register), counted (occurs (local +:+ " = readl(" +:+ register +:+ ");") 1
    (native_diagnostic_added src)) ("native-diagnostic-gdma-read-count:" +:+ local)) gdma_readbacks ++
  map (λ token, counted (has token (native_diagnostic_added_compact src)) ("native-diagnostic-gdma-predicate:"
    +:+ token)) required_gdma_predicates ++
  [ counted (gdma_first_read ← gdma_first_read src; Ok (0 <=? gdma_first_read))
    "native-diagnostic-gdma-order-start";
    each_in_order (native_diagnostic_added_compact src) (gdma_first_read src) (required_gdma_predicates ++
    gdma_log_tokens) (λ token, "native-diagnostic-gdma-order:" +:+ token);
    counted (gdma_log ← gdma_log src; gdma_eio ← gdma_eio src; Ok ((0 <=? gdma_log) && (gdma_log <? gdma_eio)))
    "native-diagnostic-gdma-same-eio";
    counted (native_diagnostic_removed_compact ← native_diagnostic_removed_compact src; Ok (forallb (λ token,
    contains token native_diagnostic_removed_compact) ["readl(dsi->gdma + DW_GDMA_CFG) != 1 ||";
    "readl(dsi->channel + DW_GDMA_CH_CFG_LO) != MICRONUX_DMA_CHANNEL_CFG_LO ||";
    "readl(dsi->channel + DW_GDMA_CH_CFG_HI) != MICRONUX_DMA_CHANNEL_CFG_HI ||";
    "readl(dsi->gdma + DW_GDMA_INT_STATUS_ENA) != DW_GDMA_INT_COMMON_VALID_MASK ||";
    "readl(dsi->gdma + DW_GDMA_INT_SIGNAL_ENA) != DW_GDMA_INT_COMMON_VALID_MASK ||";
    "(readl(dsi->gdma + DW_GDMA_CHEN) & GENMASK(3, 0))"])) "native-diagnostic-original-policy-not-replaced";
    counted (native_diagnostic_added_compact ← native_diagnostic_added_compact src;
    native_diagnostic_removed_compact ← native_diagnostic_removed_compact src; Ok (negb (existsb (λ text,
    existsb (λ token, contains token text) ["writel("; "writeb("; "memcpy_toio("; "#define ";
    "DW_GDMA_INT_NATIVE_SCANOUT_MASK ="; "DW_GDMA_INT_STATUS0_RO_MASK ="; "DW_GDMA_INT_COMMON_VALID_MASK ="])
    [native_diagnostic_added_compact; native_diagnostic_removed_compact])))
    "native-diagnostic-hardware-policy-change" ].

(** ** Gdma masks *)

Definition required_defined_masks : list string :=
  [("#define DW_GDMA_INT_STATUS0_DEFINED_MASK \ (GENMASK(1, 0) | GENMASK(14, 3) | GENMASK(21, 16) | " +:+
    "BIT(25) | \ GENMASK(31, 27))"); "#define DW_GDMA_INT_STATUS1_DEFINED_MASK GENMASK(3, 0)";
    "#define DW_GDMA_INT_COMMON_DEFINED_MASK DW_GDMA_INT_COMMON_VALID_MASK"].

Definition configure_start (src : sources) : result Z :=
  native_gdma_patch_text ← native_gdma_patch_text src; index
    "@@ -5437,14 +5444,20 @@ static int micronux_native_configure_gdma" native_gdma_patch_text.

Definition runtime_start (src : sources) : result Z :=
  native_gdma_patch_text ← native_gdma_patch_text src; configure_start ← configure_start src; index_from
    "@@ -5519,7 +5532,8 @@ static bool micronux_native_i2c_policy_valid" native_gdma_patch_text configure_start.

Definition teardown_start (src : sources) : result Z :=
  native_gdma_patch_text ← native_gdma_patch_text src; runtime_start ← runtime_start src; index_from
    "@@ -5767,7 +5787,8 @@ micronux_native_requalify_front" native_gdma_patch_text runtime_start.

Definition configure_semantics (src : sources) : result string :=
  native_gdma_patch_text ← native_gdma_patch_text src; configure_start ← configure_start src; runtime_start ←
    runtime_start src; Ok (patch_postimage_compact (slice native_gdma_patch_text configure_start
    runtime_start)).

Definition runtime_semantics (src : sources) : result string :=
  native_gdma_patch_text ← native_gdma_patch_text src; runtime_start ← runtime_start src; teardown_start ←
    teardown_start src; Ok (patch_postimage_compact (slice native_gdma_patch_text runtime_start
    teardown_start)).

Definition teardown_semantics (src : sources) : result string :=
  native_gdma_patch_text ← native_gdma_patch_text src; teardown_start ← teardown_start src; Ok
    (patch_postimage_compact (slice_from native_gdma_patch_text teardown_start)).

Definition active_semantic_predicates : list string :=
  [("(st_ena0 & DW_GDMA_INT_STATUS0_DEFINED_MASK) != (DW_GDMA_INT_NATIVE_SCANOUT_MASK | " +:+
    "DW_GDMA_INT_STATUS0_RO_MASK) ||");
    "(st_ena1 & DW_GDMA_INT_STATUS1_DEFINED_MASK) != DW_GDMA_INT_ECC_ERROR_MASK ||";
    ("(sig_ena0 & DW_GDMA_INT_STATUS0_DEFINED_MASK) != (DW_GDMA_INT_NATIVE_SCANOUT_MASK | " +:+
    "DW_GDMA_INT_STATUS0_RO_MASK) ||");
    "(sig_ena1 & DW_GDMA_INT_STATUS1_DEFINED_MASK) != DW_GDMA_INT_ECC_ERROR_MASK ||";
    "(common_st_ena & DW_GDMA_INT_COMMON_DEFINED_MASK) != DW_GDMA_INT_COMMON_VALID_MASK ||";
    "(common_sig_ena & DW_GDMA_INT_COMMON_DEFINED_MASK) != DW_GDMA_INT_COMMON_VALID_MASK ||"].

Definition runtime_semantic_predicates : list string :=
  map (λ token, removesuffix " ||" (str_replace ") != " ") == " token) +:+ " &&") active_semantic_predicates.

Definition gdma_masks_steps (src : sources) : list step :=
  [ counted (Ok (bool_decide (name_of native_gdma_patch =
    "0037-video-fbdev-validate-GDMA-enable-semantics.patch"))) "native-gdma-patch-path";
    counted (has "Subject: [PATCH 37/46] video: fbdev: validate GDMA enable semantics" (native_gdma_patch_text
    src)) "native-gdma-patch-subject";
    counted (has "index 8e16257..520b502 100644" (native_gdma_patch_text src))
    "native-gdma-patch-order-after-diagnostic";
    counted (native_gdma_patch_text ← native_gdma_patch_text src; Ok ((contains
    "drivers/video/fbdev/esp32p4-dsi.c |" native_gdma_patch_text) && (count "diff --git " native_gdma_patch_text
    =? 1))) "native-gdma-patch-scope" ] ++
  map (λ token, counted (has token (native_gdma_added_compact src)) ("native-gdma-defined-mask:" +:+ token))
    required_defined_masks ++
  [ counted (native_gdma_added_compact ← native_gdma_added_compact src; Ok ((contains
    "P4 rev 1.3 uses IDF's hw_ver1 view; compare every documented bit." native_gdma_added_compact) && (contains
    "Undefined positions are reserved read-as-one fields on this silicon." native_gdma_added_compact)))
    "native-gdma-hw-ver1-rationale" ] ++
  map (λ '(token, expected_count), counted (occurs token expected_count (native_gdma_added src))
    ("native-gdma-defined-mask-count:" +:+ token)) [("DW_GDMA_INT_STATUS0_DEFINED_MASK", 7);
    ("DW_GDMA_INT_STATUS1_DEFINED_MASK", 7); ("DW_GDMA_INT_COMMON_DEFINED_MASK", 7)] ++
  [ assigned (configure_start src);
    assigned (runtime_start src);
    assigned (teardown_start src);
    counted (configure_start ← configure_start src; runtime_start ← runtime_start src; teardown_start ←
    teardown_start src; Ok ((configure_start <? runtime_start) && (runtime_start <? teardown_start)))
    "native-gdma-function-order" ].

(** ** Gdma semantics *)

Definition teardown_semantic_predicates : list string :=
  ["(st_ena0 & DW_GDMA_INT_STATUS0_DEFINED_MASK) == DW_GDMA_INT_STATUS0_RO_MASK &&";
    "(st_ena1 & DW_GDMA_INT_STATUS1_DEFINED_MASK) == DW_GDMA_INT_ECC_ERROR_MASK &&";
    "(sig_ena0 & DW_GDMA_INT_STATUS0_DEFINED_MASK) == DW_GDMA_INT_STATUS0_RO_MASK &&";
    "(sig_ena1 & DW_GDMA_INT_STATUS1_DEFINED_MASK) == DW_GDMA_INT_ECC_ERROR_MASK &&";
    "(common_st_ena & DW_GDMA_INT_COMMON_DEFINED_MASK) == DW_GDMA_INT_COMMON_RO_MASK &&";
    "(common_sig_ena & DW_GDMA_INT_COMMON_DEFINED_MASK) == DW_GDMA_INT_COMMON_RO_MASK &&"].

Definition gdma_semantics_steps (src : sources) : list step :=
  map (λ token, counted (occurs token 1 (configure_semantics src)) ("native-gdma-" +:+ "configure" +:+
    "-predicate:" +:+ token)) active_semantic_predicates ++
  map (λ token, counted (occurs token 1 (runtime_semantics src)) ("native-gdma-" +:+ "runtime" +:+ "-predicate:"
    +:+ token)) runtime_semantic_predicates ++
  map (λ token, counted (occurs token 1 (teardown_semantics src)) ("native-gdma-teardown-predicate:" +:+ token))
    teardown_semantic_predicates ++
  map (λ '(local, register), counted (occurs (local +:+ " = readl(" +:+ register +:+ ");") 1 (runtime_semantics
    src)) ("native-gdma-" +:+ "runtime" +:+ "-read-count:" +:+ local)) (drop_z 3 (take_z 9 gdma_readbacks)) ++
  map (λ '(local, register), counted (occurs (local +:+ " = readl(" +:+ register +:+ ");") 1 (teardown_semantics
    src)) ("native-gdma-" +:+ "teardown" +:+ "-read-count:" +:+ local)) (drop_z 3 (take_z 9 gdma_readbacks)) ++
  [ counted (native_gdma_removed_compact ← native_gdma_removed_compact src; Ok (forallb (λ token, contains token
    native_gdma_removed_compact) (drop_z 3 (take_z 9 required_gdma_predicates))))
    "native-gdma-patch36-exact-predicates-not-replaced";
    counted (native_gdma_postimage_compact ← native_gdma_postimage_compact src; Ok (negb (existsb (λ token,
    contains token native_gdma_postimage_compact) ["st_ena0 != (DW_GDMA_INT_NATIVE_SCANOUT_MASK |";
    "common_st_ena != DW_GDMA_INT_COMMON_VALID_MASK"; "readl(dsi->channel + DW_GDMA_CH_INT_STATUS_ENA) ==";
    "readl(dsi->gdma + DW_GDMA_INT_STATUS_ENA) =="]))) "native-gdma-unmasked-equality-retained";
    counted (native_gdma_added_compact ← native_gdma_added_compact src; native_gdma_removed_compact ←
    native_gdma_removed_compact src; Ok (negb (existsb (λ text, existsb (λ token, contains token text)
    ["writel("; "writeb("; "memcpy_toio("]) [native_gdma_added_compact; native_gdma_removed_compact])))
    "native-gdma-write-policy-change";
    counted (native_gdma_added_compact ← native_gdma_added_compact src; native_gdma_removed_compact ←
    native_gdma_removed_compact src; native_gdma_postimage_compact ← native_gdma_postimage_compact src; Ok
    ((negb (existsb (λ text, existsb (λ token, contains token text) ["reason=hp-clock-reset-readback";
    "reason=request-irq"; "reason=register-readback"; "expected=00000001:0000000f:0a020001:023f7fe2"])
    [native_gdma_added_compact; native_gdma_removed_compact])) && (contains "reason=register-readback"
    native_gdma_postimage_compact) && (contains
    "expected=00000001:0000000f:0a020001:023f7fe2:0000000f:023f7fe2:0000000f:001fff8f:001fff8f:chen[3:0]=0"
    native_gdma_postimage_compact))) "native-gdma-diagnostic-change" ].

(** ** Scanout I2C *)

Definition i2c_policy_hunk (src : sources) : result string :=
  native_scanout_patch_text ← native_scanout_patch_text src; i ← index
    "@@ -5508,8 +5576,10 @@ static bool micronux_native_i2c_policy_valid" native_scanout_patch_text; i2 ← index
    "@@ -5636,39 +5706,138 @@ static bool micronux_native_runtime_policy_valid" native_scanout_patch_text; Ok
    (slice native_scanout_patch_text i i2).

Definition i2c_policy_added (src : sources) : result (list string) :=
  i2c_policy_hunk ← i2c_policy_hunk src; Ok (words (added_text i2c_policy_hunk)).

Definition i2c_policy_removed (src : sources) : result (list string) :=
  i2c_policy_hunk ← i2c_policy_hunk src; Ok (words (removed_text i2c_policy_hunk)).

Definition i2c_policy_added_compact (src : sources) : result string :=
  i2c_policy_added ← i2c_policy_added src; Ok (str_join " " i2c_policy_added).

Definition i2c_policy_removed_compact (src : sources) : result string :=
  i2c_policy_removed ← i2c_policy_removed src; Ok (str_join " " i2c_policy_removed).

Definition i2c_policy_postimage (src : sources) : result string :=
  i2c_policy_hunk ← i2c_policy_hunk src; Ok (patch_postimage_compact i2c_policy_hunk).

Definition scanout_i2c_steps (src : sources) : list step :=
  [ counted (Ok (bool_decide (name_of native_scanout_patch =
    "0038-video-fbdev-diagnose-native-scanout-qualification.patch"))) "patch-path";
    counted (has "From 397b8bed56b6165251011f0109ded884d1bd0fe2 Mon Sep 17 00:00:00 2001"
    (native_scanout_patch_text src)) "patch-commit";
    counted (has "Subject: [PATCH 38/46] video: fbdev: diagnose native scanout qualification"
    (native_scanout_patch_text src)) "patch-subject";
    counted (has "index 520b502..9773fdc 100644" (native_scanout_patch_text src))
    "patch-order-after-gdma-semantics";
    counted (native_scanout_patch_text ← native_scanout_patch_text src; Ok ((contains
    "drivers/video/fbdev/esp32p4-dsi.c |" native_scanout_patch_text) && (count "diff --git "
    native_scanout_patch_text =? 1))) "patch-scope";
    assigned (i2c_policy_hunk src);
    counted (i2c_policy_removed_compact ← i2c_policy_removed_compact src; Ok (bool_decide
    (i2c_policy_removed_compact = "if (display_state == MICRONUX_DISPLAY_STATE_SCANOUT_QUALIFIED_QUIESCENT)")))
    "qualified-old-condition";
    counted (i2c_policy_added_compact ← i2c_policy_added_compact src; Ok (bool_decide (i2c_policy_added_compact
    = ("/* Dark qualification intentionally keeps the external bus released. */ if (display_state == " +:+
    "MICRONUX_DISPLAY_STATE_SCANOUT_INITIALIZING || display_state == " +:+
    "MICRONUX_DISPLAY_STATE_SCANOUT_QUALIFIED_QUIESCENT)")))) "initializing-policy-only-delta";
    each_in_order (i2c_policy_postimage src) (Ok (-1)) ["i2c_state = READ_ONCE(dsi->native_i2c_state)";
    "display_state == MICRONUX_DISPLAY_STATE_SCANOUT_INITIALIZING";
    "MICRONUX_DISPLAY_STATE_SCANOUT_QUALIFIED_QUIESCENT"; "i2c_state == MICRONUX_NATIVE_I2C_RELEASED";
    "micronux_cold_i2c_released(dsi)"; "display_state == MICRONUX_DISPLAY_STATE_REVEALING"] (λ token,
    "native-scanout-i2c-policy-order:" +:+ token) ] ++
  flat_map (λ display_state, flat_map (λ i2c_state, map (λ physically_released, counted (Ok (Bool.eqb
    (dark_i2c_policy display_state i2c_state physically_released) ((bool_decide (i2c_state = "RELEASED")) &&
    physically_released))) ("i2c-truth-table:" +:+ display_state +:+ ":" +:+ i2c_state +:+ ":" +:+ (if
    physically_released then "True" else "False"))) [false; true]) ["RELEASED"; "TRANSITION";
    "ACTIVE_SERIALIZED"]) ["SCANOUT_INITIALIZING"; "SCANOUT_QUALIFIED_QUIESCENT"].

(** ** Scanout snapshot *)

Definition snapshot_fields : list string :=
  ["host_raw0"; "host_raw1"; "host_sticky0"; "host_sticky1"; "bridge_raw"; "bridge_underruns"; "gdma_top";
    "gdma_status0"; "gdma_status1"; "gdma_common"; "gdma_cfg"; "gdma_chen"; "gdma_cfg_lo"; "gdma_cfg_hi";
    "gdma_llp"; "gdma_sar"; "descriptor_ctrl_hi"; "generation"; "frames"; "last_dma_error"; "rearm_attempts";
    "rearm_failures"; "host_mode"; "host_vid"; "host_active"; "host_lpclk"; "fault_bits"; "host_status_seen";
    "guards_valid"; "runtime_policy_valid"].

Definition snapshot_struct (src : sources) : result string :=
  native_scanout_added_compact ← native_scanout_added_compact src; source_block native_scanout_added_compact
    "struct micronux_scanout_snapshot" "static void micronux_capture_scanout_snapshot"
    "native-scanout-snapshot-struct-block-missing".

Definition capture_snapshot (src : sources) : result string :=
  native_scanout_added_compact ← native_scanout_added_compact src; source_block native_scanout_added_compact
    ("micronux_capture_scanout_snapshot(struct micronux_dsi *dsi, struct micronux_scanout_snapshot " +:+
    "*snapshot, u8 index, u32 ignored_status1) {")
    ("micronux_log_scanout_failure(struct micronux_dsi *dsi, const char *reason, const char *detail, " +:+
    "int error, int window, int poll_error, u32 initial_generation, const struct " +:+
    "micronux_scanout_snapshot *snapshot) {") "native-scanout-snapshot-capture-block-missing".

Definition primary_diagnostic : string :=
  ("MICRONUX:M9.2:COLD-INIT stage=scanout-qualification reason=%s detail=%s error=%d window=%d " +:+
    "poll-error=%d initial-generation=%u generation=%u frames=%u faults=%lx dma-error=%08x " +:+
    "rearm=%u/%u guards=%u runtime-policy=%u\n").

Definition register_diagnostic : string :=
  ("MICRONUX:M9.2:COLD-INIT stage=scanout-qualification reason=%s snapshot=host raw=%08x:%08x " +:+
    "sticky=%08x:%08x seen=%u mode=%08x vid=%08x active=%08x lpclk=%08x bridge-raw=%08x underruns=%u " +:+
    "gdma=%08x:%08x:%08x:%08x cfg=%08x chen=%08x cfglo=%08x cfghi=%08x llp=%08x sar=%08x " +:+ "ctrlhi=%08x\n").

Definition log_snapshot (src : sources) : result string :=
  native_scanout_added_compact ← native_scanout_added_compact src; source_block native_scanout_added_compact
    ("micronux_log_scanout_failure(struct micronux_dsi *dsi, const char *reason, const char *detail, " +:+
    "int error, int window, int poll_error, u32 initial_generation, const struct " +:+
    "micronux_scanout_snapshot *snapshot) {") "struct micronux_scanout_snapshot snapshot"
    "native-scanout-failure-log-block-missing".

Definition phase_pairs (src : sources) : result (list (string * string)) :=
  native_scanout_added_compact ← native_scanout_added_compact src; Ok (failure_phases
    native_scanout_added_compact).

Definition expected_phase_pairs : list (string * string) :=
  [("initial-precheck", "global-master-masked"); ("initial-precheck", "latched-status"); ("global-enable",
    "master-or-latched-fault"); ("arm-readback", "descriptor-channel-readback"); ("qualification-window",
    "window-health")].

Definition raw_sample (src : sources) : result string :=
  native_scanout_postimage_compact ← native_scanout_postimage_compact src; source_block
    native_scanout_postimage_compact "micronux_sample_host_status_raw(struct micronux_dsi *dsi"
    "static bool micronux_sample_host_status(struct micronux_dsi *dsi"
    "native-scanout-host-raw-sample-block-missing".

Definition scanout_snapshot_steps (src : sources) : list step :=
  [ counted_as 1 (snapshot_struct src) ] ++
  map (λ field, counted (text ← snapshot_struct src; Ok (count_word field text =? 1)) ("snapshot-field:" +:+
    field)) snapshot_fields ++
  [ counted_as 1 (capture_snapshot src);
    counted (occurs "micronux_sample_host_status_raw(" 1 (capture_snapshot src))
    "host-raw-one-sample-per-snapshot";
    each_in_order (capture_snapshot src) (Ok (-1)) ["memset(snapshot, 0, sizeof(*snapshot))";
    ("snapshot->host_status_seen = micronux_sample_host_status_raw(dsi, ignored_status1, " +:+
    "&snapshot->host_raw0, &snapshot->host_raw1)"); "snapshot->host_sticky0 = READ_ONCE(dsi->host_error0)";
    "snapshot->host_sticky1 = READ_ONCE(dsi->host_error1)";
    "snapshot->runtime_policy_valid = micronux_native_runtime_policy_valid(dsi)"] (λ token,
    "native-scanout-snapshot-capture-order:" +:+ token);
    counted (occurs primary_diagnostic 1 (native_scanout_added_compact src)) ("diagnostic-format:" +:+
    "summary");
    counted (occurs register_diagnostic 1 (native_scanout_added_compact src)) ("diagnostic-format:" +:+
    "registers");
    counted_as 1 (log_snapshot src);
    each_in_order (log_snapshot src) (Ok (-1)) [primary_diagnostic;
    "reason, detail, error, window, poll_error, initial_generation";
    "snapshot->generation, snapshot->frames, snapshot->fault_bits";
    "snapshot->last_dma_error, snapshot->rearm_attempts"; "snapshot->rearm_failures, snapshot->guards_valid";
    "snapshot->runtime_policy_valid"; register_diagnostic; "reason, snapshot->host_raw0, snapshot->host_raw1";
    "snapshot->host_sticky0, snapshot->host_sticky1"; "snapshot->gdma_top, snapshot->gdma_status0";
    "snapshot->gdma_status1, snapshot->gdma_common"; "snapshot->gdma_llp, snapshot->gdma_sar";
    "snapshot->descriptor_ctrl_hi"] (λ token, "native-scanout-failure-log-fields-order:" +:+ token);
    counted (phase_pairs ← phase_pairs src; Ok (bool_decide (phase_pairs = expected_phase_pairs))) (shown
    (phase_pairs ← phase_pairs src; Ok ("diagnostic-phase-details:" +:+ repr_tuple (map repr_pair
    phase_pairs))));
    counted (phase_pairs ← phase_pairs src; Ok (bool_decide ((list_to_set (map fst phase_pairs) : gset string) =
    list_to_set ["initial-precheck"; "global-enable"; "arm-readback"; "qualification-window"])))
    "diagnostic-four-phases";
    counted_as 1 (raw_sample src);
    counted (occurs "readl(dsi->host + DSI_HOST_INT_STATUS1)" 1 (raw_sample src))
    "host-raw-status1-register-read-count";
    each_in_order (raw_sample src) (Ok (-1)) ["status1 = readl(dsi->host + DSI_HOST_INT_STATUS1)";
    "if (raw_status0) *raw_status0 = status0"; "if (raw_status1) *raw_status1 = status1";
    "ignored1 = status1 & ignored_status1"; "status1 &= ~ignored_status1"] (λ token,
    "native-scanout-host-raw-before-filter-order:" +:+ token) ].

(** ** Scanout fail dark *)

Definition scanout_start_index (src : sources) : result Z :=
  native_scanout_postimage_compact ← native_scanout_postimage_compact src; Ok
    (find "static int micronux_native_start_scanout" native_scanout_postimage_compact).

Definition scanout_start (src : sources) : result string :=
  native_scanout_postimage_compact ← native_scanout_postimage_compact src; scanout_start_index ←
    scanout_start_index src; Ok (slice_from native_scanout_postimage_compact scanout_start_index).

Definition scanout_fail_dark_steps (src : sources) : list step :=
  [ counted (scanout_start_index ← scanout_start_index src; Ok (0 <=? scanout_start_index))
    "start-scanout-block-missing";
    counted (scanout_start ← scanout_start src; Ok ((negb (contains "micronux_sample_host_status(dsi"
    scanout_start)) && (negb (contains "micronux_sample_host_status_raw(dsi" scanout_start))))
    "decision-bypasses-snapshot-host-sample";
    each_in_order (scanout_start src) (Ok (-1))
    ["micronux_capture_scanout_snapshot(dsi, &snapshot, dsi->front_index, 0)"; "if (snapshot.gdma_cfg != 1)";
    (sh "micronux_log_scanout_failure(dsi, `initial-precheck`, `global-master-masked`, -EIO"); "return -EIO";
    "if (snapshot.host_status_seen || snapshot.host_sticky0";
    (sh "micronux_log_scanout_failure(dsi, `initial-precheck`, `latched-status`, -EIO"); "return -EIO";
    "writel(3, dsi->gdma + DW_GDMA_CFG)"; "if (cfg != 3 || last_dma_error || faults)";
    (sh "micronux_log_scanout_failure(dsi, `global-enable`, `master-or-latched-fault`, -EIO"); "return -EIO";
    "ret = micronux_native_dma_arm_frame(dsi, dsi->front_index, &snapshot)";
    (sh "micronux_log_scanout_failure(dsi, `arm-readback`, `descriptor-channel-readback`, ret"); "return ret";
    "micronux_capture_scanout_snapshot(dsi, &snapshot, dsi->front_index, 0)";
    "if (ret || snapshot.host_status_seen || snapshot.host_sticky0"; "error = ret ? ret : -EIO";
    (sh "micronux_log_scanout_failure(dsi, `qualification-window`, `window-health`, error"); "return error"] (λ
    token, "native-scanout-fail-dark-returns-order:" +:+ token);
    counted (native_scanout_added_compact ← native_scanout_added_compact src; native_scanout_removed_compact ←
    native_scanout_removed_compact src; Ok (forallb (λ text, forallb (λ token, negb (contains token text))
    ["writel("; "writeb("; "memcpy_toio("]) [native_scanout_added_compact; native_scanout_removed_compact]))
    "write-policy-change";
    counted (native_scanout_added_compact ← native_scanout_added_compact src; native_scanout_removed_compact ←
    native_scanout_removed_compact src; Ok (forallb (λ text, forallb (λ token, negb (contains token text))
    ["micronux_cold_runtime_fail_quiescent"; "micronux_native_fail_reveal_locked";
    "WRITE_ONCE(dsi->display_state"; "WRITE_ONCE(dsi->native_dark_confirmed";
    "WRITE_ONCE(dsi->native_preserve_source"]) [native_scanout_added_compact; native_scanout_removed_compact]))
    "fail-dark-policy-change";
    counted (native_scanout_removed_compact ← native_scanout_removed_compact src; native_scanout_added_compact ←
    native_scanout_added_compact src; Ok ((contains "return ret ? ret : -EIO" native_scanout_removed_compact) &&
    (contains "error = ret ? ret : -EIO" native_scanout_added_compact) && (contains "return error"
    native_scanout_added_compact))) "qualification-error-preserved" ].

(** ** Arm sequence *)

Definition arm_hunk_scopes (src : sources) : result (list string) :=
  native_arm_patch_text ← native_arm_patch_text src; Ok (findall1 HUNK_SCOPE_RE native_arm_patch_text).

Definition baseline_arm_start (src : sources) : result Z :=
  scanout_added_compact ← scanout_added_compact src; index "static int micronux_native_dma_arm_frame"
    scanout_added_compact.

Definition baseline_arm_end (src : sources) : result Z :=
  scanout_added_compact ← scanout_added_compact src; baseline_arm_start ← baseline_arm_start src; index_from
    "static irqreturn_t micronux_native_dma_irq" scanout_added_compact baseline_arm_start.

Definition baseline_arm (src : sources) : result string :=
  scanout_added_compact ← scanout_added_compact src; baseline_arm_start ← baseline_arm_start src;
    baseline_arm_end ← baseline_arm_end src; Ok (slice scanout_added_compact baseline_arm_start
    baseline_arm_end).

Definition stable_programming : list string :=
  ["writel(MICRONUX_NATIVE_DMA_DESCRIPTOR_ARMED, descriptor + DMA_LLI_CTRL_HI)";
    "writel(MICRONUX_DMA_CHANNEL_CFG_LO, dsi->channel + DW_GDMA_CH_CFG_LO)";
    "writel(MICRONUX_DMA_CHANNEL_CFG_HI, dsi->channel + DW_GDMA_CH_CFG_HI)";
    "writel(descriptor_address | DW_GDMA_LLP_MEMORY_PORT, dsi->channel + DW_GDMA_CH_LLP)";
    "writel(0, dsi->channel + DW_GDMA_CH_LLP + sizeof(u32))"].

Definition channel_enable : string :=
  "writel(channel | (channel << 8), dsi->gdma + DW_GDMA_CHEN)".

Definition enable_index (src : sources) : result Z :=
  native_arm_postimage_compact ← native_arm_postimage_compact src; index channel_enable
    native_arm_postimage_compact.

Definition pre_enable (src : sources) : result string :=
  native_arm_postimage_compact ← native_arm_postimage_compact src; enable_index ← enable_index src; Ok (slice
    native_arm_postimage_compact 0 enable_index).

Definition post_enable (src : sources) : result string :=
  native_arm_postimage_compact ← native_arm_postimage_compact src; enable_index ← enable_index src; Ok
    (slice_from native_arm_postimage_compact enable_index).

Definition pre_enable_guard : string :=
  ("if ((chen & channel) || ctrl_hi != MICRONUX_NATIVE_DMA_DESCRIPTOR_ARMED || cfg_lo != " +:+
    "MICRONUX_DMA_CHANNEL_CFG_LO || cfg_hi != MICRONUX_DMA_CHANNEL_CFG_HI || llp != " +:+
    "(descriptor_address | DW_GDMA_LLP_MEMORY_PORT) || llp_hi || (status0 & " +:+
    "DW_GDMA_INT_NATIVE_SCANOUT_MASK) || (status1 & DW_GDMA_INT_ECC_ERROR_MASK) || (common & " +:+
    "DW_GDMA_INT_COMMON_VALID_MASK) || (top & ~DW_GDMA_INT_TOP_ALLOWED))").

Definition arm_sequence_steps (src : sources) : list step :=
  [ counted (Ok (bool_decide (name_of native_arm_patch =
    "0039-video-fbdev-validate-native-DMA-arm-transaction.patch"))) "patch-path";
    counted (has "From 99fcff145f84b22c8996e7cab8ce9a77abe472e7 Mon Sep 17 00:00:00 2001" (native_arm_patch_text
    src)) "patch-commit";
    counted (has "Subject: [PATCH 39/46] video: fbdev: validate native DMA arm transaction"
    (native_arm_patch_text src)) "patch-subject";
    counted (has "index 9773fdc..712066d 100644" (native_arm_patch_text src))
    "patch-order-after-scanout-diagnostic";
    counted (native_arm_patch_text ← native_arm_patch_text src; Ok ((contains
    "drivers/video/fbdev/esp32p4-dsi.c |" native_arm_patch_text) && (count "diff --git " native_arm_patch_text
    =? 1))) "patch-scope";
    counted (arm_hunk_scopes ← arm_hunk_scopes src; Ok ((size arm_hunk_scopes =? 3) && (forallb (λ scope,
    startswith "micronux_native_dma_arm_frame(" scope) arm_hunk_scopes))) (shown (arm_hunk_scopes ←
    arm_hunk_scopes src; Ok ("helper-only-hunks:" +:+ repr_list arm_hunk_scopes))) ] ++
  map (λ stage_build, counted (has
    (sh "NATIVE_DISPLAY_DRIVER_SHA256=`b9a188dd12066b2c596b7223f593d734e43aebc12e4639fb6a715e6c845bdabe`")
    (read_text src stage_build)) ("post-source-sha256:" +:+ name_of stage_build)) stage_builds ++
  [ assigned (baseline_arm_start src);
    assigned (baseline_arm_end src);
    each_in_order (baseline_arm src) (Ok (-1)) (stable_programming ++ ["wmb()"]) (λ token,
    "native-arm-baseline-programming-order:" +:+ token) ] ++
  map (λ token, counted (lacks token (native_arm_removed_compact src)) ("stable-programming-removed:" +:+
    token)) stable_programming ++
  [ counted (occurs channel_enable 1 (native_arm_postimage_compact src)) "single-channel-enable";
    assigned (enable_index src);
    each_in_order (pre_enable src) (Ok (-1))
    ["WRITE_ONCE(dsi->rearm_attempts, READ_ONCE(dsi->rearm_attempts) + 1)";
    "chen = readl(dsi->gdma + DW_GDMA_CHEN)"; "if (chen & channel)"; "return -EIO";
    "writel(MICRONUX_NATIVE_DMA_DESCRIPTOR_ARMED, descriptor + DMA_LLI_CTRL_HI)";
    "writel(MICRONUX_DMA_CHANNEL_CFG_LO";
    "writel(descriptor_address | DW_GDMA_LLP_MEMORY_PORT, dsi->channel + DW_GDMA_CH_LLP)";
    "writel(0, dsi->channel + DW_GDMA_CH_LLP + sizeof(u32))";
    "/* Verify software-owned programming before GDMA can consume it. */"; "wmb()";
    "chen = readl(dsi->gdma + DW_GDMA_CHEN)"; "ctrl_hi = readl(descriptor + DMA_LLI_CTRL_HI)";
    "cfg_lo = readl(dsi->channel + DW_GDMA_CH_CFG_LO)"; "cfg_hi = readl(dsi->channel + DW_GDMA_CH_CFG_HI)";
    "llp = readl(dsi->channel + DW_GDMA_CH_LLP)"; "llp_hi = readl(dsi->channel + DW_GDMA_CH_LLP + sizeof(u32))";
    "status0 = readl(dsi->channel + DW_GDMA_CH_INT_STATUS)";
    "status1 = readl(dsi->channel + DW_GDMA_CH_INT_STATUS1)";
    "common = readl(dsi->gdma + DW_GDMA_INT_COMMON_STATUS)"; "top = readl(dsi->gdma + DW_GDMA_INT_STATUS)"] (λ
    token, "native-arm-pre-enable-readback-order:" +:+ token);
    counted (occurs pre_enable_guard 1 (pre_enable src)) "exact-pre-enable-guard";
    counted (occurs "readl(" 11 (pre_enable src)) "exact-pre-enable-read-count";
    each_in_order (native_arm_postimage_compact src) (Ok (-1)) [pre_enable_guard;
    "/* The one-shot engine owns descriptor and LLP state after this write. */"; channel_enable] (λ token,
    "native-arm-ownership-boundary-order:" +:+ token) ].

(** ** Arm failures *)

Definition post_enable_reads : list string :=
  ["chen = readl(dsi->gdma + DW_GDMA_CHEN)"; "status0 = readl(dsi->channel + DW_GDMA_CH_INT_STATUS)";
    "status1 = readl(dsi->channel + DW_GDMA_CH_INT_STATUS1)";
    "common = readl(dsi->gdma + DW_GDMA_INT_COMMON_STATUS)"; "top = readl(dsi->gdma + DW_GDMA_INT_STATUS)"].

Definition post_enable_guard : string :=
  ("if (!(chen & channel) || (status0 & DW_GDMA_INT_ERROR_MASK) || (status1 & " +:+
    "DW_GDMA_INT_ECC_ERROR_MASK) || (common & DW_GDMA_INT_COMMON_VALID_MASK) || (top & " +:+
    "~DW_GDMA_INT_TOP_ALLOWED))").

Definition failure_increment : string :=
  "WRITE_ONCE(dsi->rearm_failures, READ_ONCE(dsi->rearm_failures) + 1)".

Definition initial_failure (src : sources) : result string :=
  pre_enable ← pre_enable src; i ← index "if (chen & channel)" pre_enable; i2 ← index
    "writel(MICRONUX_NATIVE_DMA_DESCRIPTOR_ARMED" pre_enable; Ok (slice pre_enable i i2).

Definition pre_readback_failure (src : sources) : result string :=
  pre_enable ← pre_enable src; i ← index pre_enable_guard pre_enable; Ok (slice_from pre_enable i).

Definition post_readback_failure (src : sources) : result string :=
  post_enable ← post_enable src; i ← index post_enable_guard post_enable; i2 ← index "return 0" post_enable; Ok
    (slice post_enable i i2).

Definition changed_arm_text (src : sources) : result string :=
  native_arm_added_compact ← native_arm_added_compact src; native_arm_removed_compact ←
    native_arm_removed_compact src; Ok (native_arm_added_compact +:+ " " +:+ native_arm_removed_compact).

Definition arm_failures_steps (src : sources) : list step :=
  [ each_in_order (post_enable src) (Ok (-1)) ([channel_enable] ++ post_enable_reads) (λ token,
    "native-arm-post-enable-readback-order:" +:+ token);
    counted (occurs "readl(" (size post_enable_reads) (post_enable src)) "post-enable-stable-read-count";
    counted (occurs post_enable_guard 1 (post_enable src)) "exact-post-enable-guard" ] ++
  map (λ unstable, counted (lacks unstable (post_enable src)) ("post-enable-hardware-owned-read:" +:+ unstable))
    ["descriptor_address"; "descriptor +"; "DMA_LLI_"; "ctrl_hi"; "cfg_lo"; "cfg_hi"; "llp"; "sar"] ++
  [ assigned (initial_failure src);
    assigned (pre_readback_failure src);
    assigned (post_readback_failure src);
    counted (occurs failure_increment 3 (native_arm_postimage_compact src)) "three-failure-paths";
    counted (failure_path ← initial_failure src; Ok ((count failure_increment failure_path =? 1) && (count
    "return -EIO" failure_path =? 1))) ("single-failure-increment:" +:+ "initial-channel-active");
    counted (failure_path ← pre_readback_failure src; Ok ((count failure_increment failure_path =? 1) && (count
    "return -EIO" failure_path =? 1))) ("single-failure-increment:" +:+ "pre-enable-readback");
    counted (failure_path ← post_readback_failure src; Ok ((count failure_increment failure_path =? 1) && (count
    "return -EIO" failure_path =? 1))) ("single-failure-increment:" +:+ "post-enable-readback");
    counted (occurs "WRITE_ONCE(dsi->rearm_attempts, READ_ONCE(dsi->rearm_attempts) + 1)" 1
    (native_arm_postimage_compact src)) "single-arm-attempt-increment";
    counted (native_scanout_added_compact ← native_scanout_added_compact src; Ok ((count
    "micronux_native_dma_arm_frame(dsi, next_index, NULL)" native_scanout_added_compact =? 1) && (count
    "micronux_native_dma_arm_frame(dsi, dsi->front_index, &snapshot)" native_scanout_added_compact =? 1)))
    "shared-initial-and-irq-helper" ] ++
  map (λ forbidden, counted (lacks forbidden (changed_arm_text src)) ("policy-mutation:" +:+ forbidden))
    ["DSI_HOST_VID_PKT_STATUS"; "host_active"; "micronux_native_runtime_policy_valid";
    "micronux_native_start_scanout"; "qualification-window"; "micronux_cold_runtime_fail_quiescent";
    "micronux_native_fail_reveal_locked"; "WRITE_ONCE(dsi->display_state"; "native_dark_confirmed";
    "native_preserve_source"; "scanout_ready"; "render_enabled"] ++
  map (λ sleeping, counted (lacks sleeping (changed_arm_text src)) ("shared-helper-sleeping-operation:" +:+
    sleeping)) ["msleep"; "usleep"; "mutex_"; "readl_poll_timeout"; "schedule_work"; "schedule_delayed_work"].

(** ** Policy deletion *)

Definition expected_policy_deletions : list string :=
  ["#define DSI_HOST_NATIVE_VIDEO_POLICY_ACT \"; (tab +:+
    "(DSI_HOST_FRAME_BTA_ACK_EN_ACT | DSI_HOST_LP_VIDEO_EN_ACT_MASK | \"); (tab +:+
    " DSI_HOST_VID_MODE_BURST)"); (tab +:+ "       readl(dsi->host + DSI_HOST_VID_MODE_CFG_ACT) =="); (tab +:+
    tab +:+ "DSI_HOST_NATIVE_VIDEO_POLICY_ACT &&")].

Definition runtime_policy_start (src : sources) : result Z :=
  scanout_added_compact ← scanout_added_compact src; index
    "static bool micronux_native_runtime_policy_valid(struct micronux_dsi *dsi) {" scanout_added_compact.

Definition runtime_policy_end (src : sources) : result Z :=
  scanout_added_compact ← scanout_added_compact src; runtime_policy_start ← runtime_policy_start src; index_from
    "static int micronux_native_start_scanout" scanout_added_compact runtime_policy_start.

Definition runtime_policy (src : sources) : result string :=
  scanout_added_compact ← scanout_added_compact src; runtime_policy_start ← runtime_policy_start src;
    runtime_policy_end ← runtime_policy_end src; Ok (slice scanout_added_compact runtime_policy_start
    runtime_policy_end).

Definition return_start (src : sources) : result Z :=
  runtime_policy ← runtime_policy src; i ← index "return " runtime_policy; Ok (i + len "return ").

Definition return_end (src : sources) : result Z :=
  runtime_policy ← runtime_policy src; return_start ← return_start src; index_from ";" runtime_policy
    return_start.

Definition pre_patch_return (src : sources) : result string :=
  runtime_policy ← runtime_policy src; return_start ← return_start src; return_end ← return_end src; Ok (slice
    runtime_policy return_start return_end).

Definition pre_patch_predicates (src : sources) : result (list string) :=
  pre_patch_return ← pre_patch_return src; Ok (map strip (split_by "&&" pre_patch_return)).

Definition active_mirror_predicate : string :=
  "readl(dsi->host + DSI_HOST_VID_MODE_CFG_ACT) == DSI_HOST_NATIVE_VIDEO_POLICY_ACT".

Definition active_mirror_clause : string :=
  active_mirror_predicate +:+ " &&".

Definition post_patch_return (src : sources) : result string :=
  pre_patch_return ← pre_patch_return src; Ok (replace_first active_mirror_clause "" pre_patch_return).

Definition post_patch_predicates (src : sources) : result (list string) :=
  post_patch_return ← post_patch_return src; Ok (map strip (split_by "&&" post_patch_return)).

Definition active_index (src : sources) : result Z :=
  pre_patch_predicates ← pre_patch_predicates src; list_index active_mirror_predicate pre_patch_predicates.

Definition policy_deletion_steps (src : sources) : list step :=
  [ counted (Ok (bool_decide (name_of native_policy_patch =
    "0040-video-fbdev-stop-gating-scanout-on-inactive-DSI-mirror.patch"))) "patch-path";
    counted (has "From 0fac40ee31c1af165ea94a82a7b0d905d8da4861 Mon Sep 17 00:00:00 2001"
    (native_policy_patch_text src)) "patch-commit";
    counted (has ("Subject: [PATCH 40/46] video: fbdev: stop gating scanout on inactive DSI" +:+ nl +:+
    " mirror") (native_policy_patch_text src)) "patch-subject";
    counted (has "index 712066d..a8bff0a 100644" (native_policy_patch_text src))
    "patch-order-after-arm-transaction";
    counted (native_policy_patch_text ← native_policy_patch_text src; Ok ((count "diff --git "
    native_policy_patch_text =? 1) && (size (findall1 HUNK_RE native_policy_patch_text) =? 2) && (contains
    "drivers/video/fbdev/esp32p4-dsi.c | 5 -----" native_policy_patch_text) && (contains
    "1 file changed, 5 deletions(-)" native_policy_patch_text))) "patch-scope";
    counted (native_policy_added_lines ← native_policy_added_lines src; Ok (bool_decide
    (native_policy_added_lines = []))) (shown (native_policy_added_lines ← native_policy_added_lines src; Ok
    ("zero-source-additions:" +:+ repr_tuple (map repr_str native_policy_added_lines))));
    counted (native_policy_removed_lines ← native_policy_removed_lines src; Ok (bool_decide
    (native_policy_removed_lines = expected_policy_deletions))) (shown (native_policy_removed_lines ←
    native_policy_removed_lines src; Ok ("exact-five-source-deletions:" +:+ repr_tuple (map repr_str
    native_policy_removed_lines))));
    counted (native_policy_patch_text ← native_policy_patch_text src; Ok (contains
    ("ESP-IDF v6.0.1 programs the primary video-mode register without enabling the optional video " +:+
    "shadow bank.") (compact native_policy_patch_text))) "idf-primary-register-shadow-disabled-evidence";
    counted (native_policy_postimage_compact ← native_policy_postimage_compact src; Ok ((contains
    ("readl(dsi->host + DSI_HOST_VID_MODE_CFG) == DSI_HOST_NATIVE_VIDEO_POLICY && readl(dsi->host + " +:+
    "DSI_HOST_LPCLK_CTRL) == DSI_HOST_CLOCK_LANE_AUTO") native_policy_postimage_compact) && (negb (contains
    "DSI_HOST_NATIVE_VIDEO_POLICY_ACT" native_policy_postimage_compact))))
    "programmed-policy-retained-active-equality-removed";
    assigned (runtime_policy_start src);
    assigned (runtime_policy_end src);
    assigned (return_start src);
    assigned (return_end src);
    counted (pre_patch_predicates ← pre_patch_predicates src; Ok ((size pre_patch_predicates =? 42) &&
    (list_count active_mirror_predicate pre_patch_predicates =? 1))) (shown (pre_patch_predicates ←
    pre_patch_predicates src; Ok ("prepatch-policy-predicates:" +:+ pretty (size pre_patch_predicates))));
    counted (occurs active_mirror_clause 1 (pre_patch_return src)) "single-active-mirror-clause";
    assigned (active_index src);
    counted (post_patch_predicates ← post_patch_predicates src; pre_patch_predicates ← pre_patch_predicates src;
    active_index ← active_index src; Ok ((size post_patch_predicates =? 41) && (bool_decide
    (post_patch_predicates = take_z active_index pre_patch_predicates ++ drop_z (active_index + 1)
    pre_patch_predicates)))) (shown (post_patch_predicates ← post_patch_predicates src; Ok
    ("postpatch-policy-predicates:" +:+ pretty (size post_patch_predicates)))) ].

(** ** Policy diagnostics *)

Definition scanout_patch_compact (src : sources) : result string :=
  scanout_patch_text ← scanout_patch_text src; Ok (compact scanout_patch_text).

Definition changed_policy_text (src : sources) : result string :=
  native_policy_added_lines ← native_policy_added_lines src; native_policy_removed_lines ←
    native_policy_removed_lines src; Ok (str_join " " (native_policy_added_lines ++
    native_policy_removed_lines)).

Definition policy_diagnostics_steps (src : sources) : list step :=
  [ counted (post_patch_predicates ← post_patch_predicates src; Ok ((member
    "readl(dsi->host + DSI_HOST_VID_MODE_CFG) == DSI_HOST_NATIVE_VIDEO_POLICY" post_patch_predicates) &&
    (NATIVE_PROGRAMMED_VIDEO_POLICY =? 65282))) "exact-programmed-ff02-policy" ] ++
  map (λ token, counted (has token (scanout_patch_compact src)) ("active-diagnostic-component-retained:" +:+
    token)) ["#define DSI_HOST_VID_MODE_CFG_ACT 0x138"; "#define DSI_HOST_FRAME_BTA_ACK_EN_ACT BIT(8)";
    "#define DSI_HOST_LP_VIDEO_EN_ACT_MASK (GENMASK(7, 2) | BIT(9))"] ++
  map (λ token, counted (has token (native_scanout_added_compact src)) ("active-snapshot-diagnostic-retained:"
    +:+ token)) ["u32 host_active"; "snapshot->host_active = readl(dsi->host + DSI_HOST_VID_MODE_CFG_ACT)";
    "snapshot->host_vid, snapshot->host_active"] ++
  [ counted (loader_text ← loader_text src; idf_handoff_text ← idf_handoff_text src; Ok ((negb (contains
    "vid_shadow_ctrl" loader_text)) && (negb (contains "vid_shadow_ctrl" idf_handoff_text)) && (contains
    "mipi_dsi_host_ll_dpi_enable_frame_ack(host, false)" loader_text) && (contains
    "hal->host->vid_mode_cfg.vpg_en" idf_handoff_text))) "idf-primary-video-policy-without-shadow-control" ] ++
  map (λ forbidden, counted (lacks forbidden (changed_policy_text src)) ("forbidden-policy-delta:" +:+
    forbidden)) ["writel("; "writeb("; "memcpy_toio("; "micronux_cold_runtime_teardown";
    "micronux_cold_dsi_disable"; "micronux_cold_ldo_disable"; "micronux_native_off_first";
    "micronux_native_boot_ready_store"; "micronux_native_fail_reveal_locked"; "RUNTIME_REVEALED";
    "boot_display_ready"; "backlight"; "micronux_source_policy_valid"; "MICRONUX_DISPLAY_ABI_VERSION_V2";
    "MICRONUX_DISPLAY_HANDOFF_ABI_VERSION"].

(** ** Feed bridge *)

Definition bridge_start (src : sources) : result Z :=
  native_feed_postimage_compact ← native_feed_postimage_compact src; index
    "static int micronux_native_configure_dpi_bridge" native_feed_postimage_compact.

Definition bridge_end_token : string :=
  "underflow-filler=00000000 discard-vcnt=800".

Definition bridge_end (src : sources) : result Z :=
  native_feed_postimage_compact ← native_feed_postimage_compact src; bridge_start ← bridge_start src; i ←
    index_from bridge_end_token native_feed_postimage_compact bridge_start; Ok (i + len bridge_end_token).

Definition bridge_config (src : sources) : result string :=
  native_feed_postimage_compact ← native_feed_postimage_compact src; bridge_start ← bridge_start src; bridge_end
    ← bridge_end src; Ok (slice native_feed_postimage_compact bridge_start bridge_end).

Definition feed_runtime_policy_start (src : sources) : result Z :=
  native_feed_patch_text ← native_feed_patch_text src; index
    "@@ -5683,6 +5870,8 @@ static bool micronux_native_runtime_policy_valid" native_feed_patch_text.

Definition feed_runtime_policy_end (src : sources) : result Z :=
  native_feed_patch_text ← native_feed_patch_text src; feed_runtime_policy_start ← feed_runtime_policy_start
    src; index_from "@@ -5755,6 +5944,11 @@ micronux_capture_scanout_snapshot" native_feed_patch_text
    feed_runtime_policy_start.

Definition feed_runtime_policy (src : sources) : result string :=
  native_feed_patch_text ← native_feed_patch_text src; feed_runtime_policy_start ← feed_runtime_policy_start
    src; feed_runtime_policy_end ← feed_runtime_policy_end src; Ok (patch_postimage_compact (slice
    native_feed_patch_text feed_runtime_policy_start feed_runtime_policy_end)).

Definition snapshot_start (src : sources) : result Z :=
  feed_runtime_policy_end src.

Definition snapshot_end (src : sources) : result Z :=
  native_feed_patch_text ← native_feed_patch_text src; snapshot_start ← snapshot_start src; index_from
    "@@ -5826,6 +6021,7 @@ static int micronux_native_start_scanout" native_feed_patch_text snapshot_start.

Definition feed_snapshot (src : sources) : result string :=
  native_feed_patch_text ← native_feed_patch_text src; snapshot_start ← snapshot_start src; snapshot_end ←
    snapshot_end src; Ok (patch_postimage_compact (slice native_feed_patch_text snapshot_start snapshot_end)).

Definition feed_bridge_steps (src : sources) : list step :=
  [ counted (Ok (bool_decide (name_of native_feed_patch =
    "0041-video-fbdev-keep-native-one-shot-scanout-fed.patch"))) "patch-path";
    counted (has "From 7d580199445835a1485e3e24d6686d44b12442fe Mon Sep 17 00:00:00 2001"
    (native_feed_patch_text src)) "patch-commit";
    counted (has "Subject: [PATCH 41/46] video: fbdev: keep native one-shot scanout fed" (native_feed_patch_text
    src)) "patch-subject";
    counted (has "index a8bff0a..460454f 100644" (native_feed_patch_text src))
    "patch-order-after-native-policy";
    counted (native_feed_patch_text ← native_feed_patch_text src; Ok ((count "diff --git "
    native_feed_patch_text =? 1) && (contains "drivers/video/fbdev/esp32p4-dsi.c | 222 " native_feed_patch_text)
    && (contains "1 file changed, 210 insertions(+), 12 deletions(-)" native_feed_patch_text))) "patch-scope" ]
    ++
  map (λ token, counted (has token (native_feed_added_compact src)) ("constant-or-clock-binding:" +:+ token))
    ["#define DSI_BRG_DPI_RSV_DATA 0x28"; "#define DSI_BRG_DPI_RSV_DATA_MASK GENMASK(29, 0)";
    "#define DSI_BRG_NATIVE_DPI_RSV_DATA 0x00000000"; "#define MICRONUX_NATIVE_ARM_TO_IRQ_SLOW_NS 20000000ULL";
    "#include <linux/sched/clock.h>"] ++
  [ assigned (bridge_start src);
    assigned (bridge_end src);
    each_in_order (bridge_config src) (Ok (-1)) ["writel(0, dsi->bridge + DSI_BRG_CLK_EN)";
    "writel(0, dsi->bridge + DSI_BRG_EN)";
    "writel(DSI_BRG_NATIVE_DPI_RSV_DATA, dsi->bridge + DSI_BRG_DPI_RSV_DATA)";
    "filler = readl(dsi->bridge + DSI_BRG_DPI_RSV_DATA) & DSI_BRG_DPI_RSV_DATA_MASK";
    "if (filler != DSI_BRG_NATIVE_DPI_RSV_DATA) return -EIO"; "writel(DSI_BRG_NATIVE_BURST_LEN";
    ("readl(dsi->bridge + DSI_BRG_DPI_RSV_DATA) & DSI_BRG_DPI_RSV_DATA_MASK) != " +:+
    "DSI_BRG_NATIVE_DPI_RSV_DATA"); "readl(dsi->bridge + DSI_BRG_DPI_MISC_CONFIG) != DSI_BRG_NATIVE_MISC_OFF";
    "underflow-filler=00000000 discard-vcnt=800"] (λ token, "native-feed-black-filler-before-enable-order:" +:+
    token);
    each_in_order (scanout_added_compact src) (Ok (-1)) ["writel(DSI_BRG_NATIVE_BURST_LEN";
    "writel(DSI_BRG_NATIVE_MISC_OFF, dsi->bridge + DSI_BRG_DPI_MISC_CONFIG)";
    "writel(0, dsi->bridge + DSI_BRG_INT_ENA)"; "writel(DSI_BRG_MODULE_EN, dsi->bridge + DSI_BRG_EN)"] (λ token,
    "native-feed-baseline-bridge-enable-order-retained-order:" +:+ token);
    counted (scanout_added_compact ← scanout_added_compact src; native_feed_removed_compact ←
    native_feed_removed_compact src; Ok ((contains "#define DSI_BRG_NATIVE_MISC_OFF 0x00003200"
    scanout_added_compact) && (contains "#define DSI_BRG_NATIVE_MISC_ON 0x00003201" scanout_added_compact) &&
    (negb (existsb (λ token, contains token native_feed_removed_compact) ["DSI_BRG_NATIVE_MISC_OFF";
    "DSI_BRG_NATIVE_MISC_ON"; "DSI_BRG_INT_ENA"])))) "misc-and-interrupt-policy-retained";
    assigned (feed_runtime_policy_start src);
    assigned (feed_runtime_policy_end src) ] ++
  map (λ token, counted (has token (feed_runtime_policy src)) ("runtime-policy:" +:+ token))
    ["!(readl(dsi->bridge + DSI_BRG_DPI_RSV_DATA) & DSI_BRG_DPI_RSV_DATA_MASK)"] ++
  [ counted (scanout_added_compact ← scanout_added_compact src; native_feed_removed_compact ←
    native_feed_removed_compact src; Ok ((contains
    "readl(dsi->bridge + DSI_BRG_DPI_MISC_CONFIG) == DSI_BRG_NATIVE_MISC_ON" scanout_added_compact) && (negb
    (contains "DSI_BRG_NATIVE_MISC_ON" native_feed_removed_compact)))) "runtime-misc-policy-retained";
    assigned (snapshot_end src) ] ++
  map (λ token, counted (has token (feed_snapshot src)) ("qualification-snapshot:" +:+ token))
    ["snapshot->bridge_filler = readl(dsi->bridge + DSI_BRG_DPI_RSV_DATA) & DSI_BRG_DPI_RSV_DATA_MASK";
    "snapshot->bridge_misc = readl(dsi->bridge + DSI_BRG_DPI_MISC_CONFIG)";
    "bridge-filler=%08x bridge-misc=%08x"; "snapshot->bridge_filler, snapshot->bridge_misc"].

(** ** Feed rearm *)

Definition fast_rearm_start (src : sources) : result Z :=
  native_feed_patch_text ← native_feed_patch_text src; index
    "@@ -2145,10 +2198,44 @@ static int micronux_dma_start_frame" native_feed_patch_text.

Definition fast_rearm_end (src : sources) : result Z :=
  native_feed_patch_text ← native_feed_patch_text src; fast_rearm_start ← fast_rearm_start src; index_from
    "@@ -2233,6 +2320,9 @@ micronux_native_dma_arm_frame" native_feed_patch_text fast_rearm_start.

Definition fast_rearm (src : sources) : result string :=
  native_feed_patch_text ← native_feed_patch_text src; fast_rearm_start ← fast_rearm_start src; fast_rearm_end ←
    fast_rearm_end src; Ok (patch_postimage_compact (slice native_feed_patch_text fast_rearm_start
    fast_rearm_end)).

Definition fast_rearm_body (src : sources) : result string :=
  fast_rearm ← fast_rearm src; i ← index "static int micronux_native_dma_rearm_frame_fast" fast_rearm; i2 ←
    index "static int micronux_native_dma_arm_frame" fast_rearm; Ok (slice fast_rearm i i2).

Definition irq_start (src : sources) : result Z :=
  native_feed_patch_text ← native_feed_patch_text src; index
    "@@ -2263,14 +2353,42 @@ micronux_native_contain_inactive_irqs" native_feed_patch_text.

Definition irq_end (src : sources) : result Z :=
  native_feed_patch_text ← native_feed_patch_text src; irq_start ← irq_start src; index_from
    "@@ -2440,12 +2571,25 @@ static enum hrtimer_restart micronux_dma_poll" native_feed_patch_text irq_start.

Definition feed_irq (src : sources) : result string :=
  native_feed_patch_text ← native_feed_patch_text src; irq_start ← irq_start src; irq_end ← irq_end src; Ok
    (patch_postimage_compact (slice native_feed_patch_text irq_start irq_end)).

Definition poll_start (src : sources) : result Z :=
  irq_end src.

Definition poll_end (src : sources) : result Z :=
  native_feed_patch_text ← native_feed_patch_text src; poll_start ← poll_start src; index_from
    "@@ -3117,10 +3261,12 @@ static ssize_t scanout_show" native_feed_patch_text poll_start.

Definition feed_poll (src : sources) : result string :=
  native_feed_patch_text ← native_feed_patch_text src; poll_start ← poll_start src; poll_end ← poll_end src; Ok
    (patch_postimage_compact (slice native_feed_patch_text poll_start poll_end)).

Definition feed_rearm_steps (src : sources) : list step :=
  [ assigned (fast_rearm_start src);
    assigned (fast_rearm_end src);
    assigned (fast_rearm_body src);
    each_in_order (fast_rearm_body src) (Ok (-1)) ["if (index >= MICRONUX_DISPLAY_BUFFER_COUNT) return -EINVAL";
    "descriptor_address = dsi->handoff.dma_descriptor_address + index * MICRONUX_DMA_DESCRIPTOR_SIZE";
    "WRITE_ONCE(dsi->rearm_attempts, READ_ONCE(dsi->rearm_attempts) + 1)";
    "writel(MICRONUX_NATIVE_DMA_DESCRIPTOR_ARMED, descriptor + DMA_LLI_CTRL_HI)";
    "writel(descriptor_address | DW_GDMA_LLP_MEMORY_PORT, dsi->channel + DW_GDMA_CH_LLP)";
    "writel(0, dsi->channel + DW_GDMA_CH_LLP + sizeof(u32))"; "wmb()";
    "writel(channel | (channel << 8), dsi->gdma + DW_GDMA_CHEN)"; "arm_ns = local_clock()";
    "dsi->native_last_arm_ns = arm_ns"] (λ token, "native-feed-fast-rearm-transaction-order:" +:+ token);
    counted (fast_rearm_body ← fast_rearm_body src; Ok ((count "writel(" fast_rearm_body =? 4) && (count "wmb()"
    fast_rearm_body =? 1) && (count "local_clock()" fast_rearm_body =? 1))) "fast-rearm-exact-operations" ] ++
  map (λ forbidden, counted (lacks forbidden (fast_rearm_body src)) ("fast-rearm-forbidden:" +:+ forbidden))
    ["readl("; "readl_poll"; "DW_GDMA_CH_CFG_LO"; "DW_GDMA_CH_CFG_HI"; "rearm_failures"; "failure_snapshot";
    "msleep"; "usleep"; "mutex_"; "schedule_"] ++
  [ counted (native_scanout_added_compact ← native_scanout_added_compact src; native_feed_removed_compact ←
    native_feed_removed_compact src; native_feed_added_compact ← native_feed_added_compact src; Ok ((contains
    "micronux_native_dma_arm_frame(dsi, dsi->front_index, &snapshot)" native_scanout_added_compact) && (negb
    (contains "micronux_native_dma_arm_frame(dsi, dsi->front_index, &snapshot)" native_feed_removed_compact)) &&
    (contains "micronux_native_dma_arm_frame(dsi, next_index, NULL)" native_feed_removed_compact) && (contains
    "micronux_native_dma_rearm_frame_fast(dsi, next_index, irq_entry_ns)" native_feed_added_compact)))
    "checked-initial-fast-recurring-split" ] ++
  map (λ token, counted (native_arm_postimage_compact ← native_arm_postimage_compact src;
    native_feed_removed_compact ← native_feed_removed_compact src; Ok ((contains token
    native_arm_postimage_compact) && (negb (contains token native_feed_removed_compact))))
    ("checked-initial-readback-retained:" +:+ token)) ["chen = readl(dsi->gdma + DW_GDMA_CHEN)";
    "ctrl_hi = readl(descriptor + DMA_LLI_CTRL_HI)"; "cfg_lo = readl(dsi->channel + DW_GDMA_CH_CFG_LO)";
    "cfg_hi = readl(dsi->channel + DW_GDMA_CH_CFG_HI)"; "llp = readl(dsi->channel + DW_GDMA_CH_LLP)";
    "status0 = readl(dsi->channel + DW_GDMA_CH_INT_STATUS)"] ++
  [ assigned (irq_start src);
    assigned (irq_end src);
    each_in_order (feed_irq src) (Ok (-1)) ["irq_entry_ns = local_clock()";
    "fifo_depth = readl(dsi->bridge + DSI_BRG_FIFO_FLOW_STATUS) & DSI_BRG_FIFO_FLOW_DEPTH";
    "top = readl(dsi->gdma + DW_GDMA_INT_STATUS)"; "READ_ONCE(dsi->scanout_frames) + 1)";
    "spin_lock_irqsave(&dsi->state_lock, flags)"; "dsi->native_fifo_irq_last = fifo_depth";
    "micronux_native_dma_rearm_frame_fast(dsi, next_index, irq_entry_ns)"] (λ token,
    "native-feed-irq-passive-telemetry-and-fast-rearm-order:" +:+ token);
    each_in_order (scanout_added_compact src) (Ok (-1)) ["if (!(status0 & DW_GDMA_INT_DMA_TFR_DONE))";
    "WRITE_ONCE(dsi->scanout_frames, READ_ONCE(dsi->scanout_frames) + 1)";
    "spin_lock_irqsave(&dsi->state_lock, flags)"; "micronux_native_dma_arm_frame(dsi, next_index)";
    "spin_unlock_irqrestore(&dsi->state_lock, flags)"] (λ token,
    "native-feed-baseline-transfer-done-commit-order-retained-order:" +:+ token);
    counted (lacks "if (!(status0 & DW_GDMA_INT_DMA_TFR_DONE))" (native_feed_removed_compact src))
    "transfer-done-gate-retained";
    assigned (poll_end src);
    counted (feed_poll ← feed_poll src; Ok ((count "readl(dsi->bridge + DSI_BRG_FIFO_FLOW_STATUS)" feed_poll =?
    1) && (contains "if (native)" feed_poll) && (contains "dsi->native_fifo_poll_last = fifo_depth" feed_poll)
    && (contains "spin_lock_irqsave(&dsi->state_lock, flags)" feed_poll))) "watchdog-single-native-fifo-sample"
    ].

(** ** Feed telemetry *)

Definition reset_start (src : sources) : result Z :=
  feed_irq ← feed_irq src; index "static void micronux_native_reset_telemetry" feed_irq.

Definition reset_end (src : sources) : result Z :=
  feed_irq ← feed_irq src; reset_start ← reset_start src; index_from
    "static irqreturn_t micronux_native_dma_irq" feed_irq reset_start.

Definition reset_telemetry (src : sources) : result string :=
  feed_irq ← feed_irq src; reset_start ← reset_start src; reset_end ← reset_end src; Ok (slice feed_irq
    reset_start reset_end).

Definition changed_feed_text (src : sources) : result string :=
  native_feed_added_compact ← native_feed_added_compact src; native_feed_removed_compact ←
    native_feed_removed_compact src; Ok (native_feed_added_compact +:+ " " +:+ native_feed_removed_compact).

Definition feed_telemetry_steps (src : sources) : list step :=
  [ assigned (reset_start src);
    assigned (reset_end src);
    counted (reset_end ← reset_end src; reset_start ← reset_start src; Ok (reset_start <? reset_end))
    "telemetry-reset-block" ] ++
  map (λ token, counted (has token (reset_telemetry src)) ("telemetry-reset:" +:+ token))
    ["spin_lock_irqsave(&dsi->state_lock, flags)"; "if (reset_last_arm) dsi->native_last_arm_ns = 0";
    "dsi->native_fifo_irq_min = DSI_BRG_FIFO_FLOW_DEPTH"; "dsi->native_fifo_poll_min = DSI_BRG_FIFO_FLOW_DEPTH";
    "spin_unlock_irqrestore(&dsi->state_lock, flags)"] ++
  [ each_in_order (native_feed_postimage_compact src) (Ok (-1)) ["micronux_native_reset_telemetry(dsi, true)";
    "micronux_capture_scanout_snapshot(dsi, &snapshot"; "micronux_native_reset_telemetry(dsi, false)";
    "micronux_watchdog_seed_progress(dsi)"; "WRITE_ONCE(dsi->scanout_ready, true)";
    "WRITE_ONCE(dsi->render_enabled, true)"] (λ token, "native-feed-telemetry-reset-publication-order:" +:+
    token) ] ++
  map (λ token, counted (native_feed_added_compact ← native_feed_added_compact src; Ok (2 <=? count token
    native_feed_added_compact)) ("scanout-diagnostics-token:" +:+ token)) ["arm-to-irq-ns=%llu/%llu";
    "arm-to-irq-over20ms=%u"; "rearm-ns=%llu/%llu"; "fifo-irq=%u/%u/%u"; "fifo-poll=%u/%u/%u";
    "bridge-filler=%08x bridge-misc=%08x"] ++
  [ counted (native_feed_added_compact ← native_feed_added_compact src; Ok ((count
    "micronux_native_capture_telemetry_locked(dsi, &telemetry)" native_feed_added_compact =? 2) && (5 <=? count
    "spin_unlock_irqrestore(&dsi->state_lock, flags)" native_feed_added_compact)))
    "sysfs-telemetry-copied-under-lock" ] ++
  map (λ forbidden, counted (lacks forbidden (changed_feed_text src)) ("abi2-or-policy-mutation:" +:+
    forbidden)) ["MICRONUX_DISPLAY_ABI_VERSION_V2"; "handoff_version == 2"; "micronux_dma_arm_frame(dsi";
    "micronux_dma_irq"; "micronux_dma_start_frame"; "micronux_handoff_valid"; "micronux_fb_blank";
    "micronux_native_boot_ready_store"; "micronux_native_write_pwm"; "micronux_cold_dsi_disable";
    "micronux_cold_ldo_disable"; "micronux_native_i2c"] ++
  [ counted (native_feed_patch_text ← native_feed_patch_text src; native_feed_postimage_compact ←
    native_feed_postimage_compact src; Ok ((contains "long disconnected runs" native_feed_patch_text) &&
    (contains "physical-panel-state=unobserved" native_feed_postimage_compact)))
    "physical-long-run-still-unobserved" ].

(** ** Epoch and evidence *)

Definition visible_epoch_compact (src : sources) : result string :=
  visible_epoch_patch_text ← visible_epoch_patch_text src; Ok (compact visible_epoch_patch_text).

Definition epoch_and_evidence_steps (src : sources) : list step :=
  [ counted (visible_epoch_patch_text ← visible_epoch_patch_text src; Ok ((contains
    "From 32df3ba16167162125fa41cf4f3476e3e801f361 Mon Sep 17 00:00:00 2001" visible_epoch_patch_text) &&
    (contains "Subject: [PATCH 42/46] video: fbdev: start telemetry at native reveal" visible_epoch_patch_text)
    && (contains "index 460454f..2089446 100644" visible_epoch_patch_text) && (contains
    "1 file changed, 5 insertions(+)" visible_epoch_patch_text))) "visible-epoch-identity";
    require_order (visible_epoch_compact src) ["Start the visible-runtime epoch at the final dark boundary.";
    "micronux_native_reset_telemetry(dsi, false)"; "WRITE_ONCE(dsi->native_reveal_may_be_lit, true)";
    "smp_wmb()"] "visible-epoch-final-dark-boundary";
    counted (visible_epoch_patch_text ← visible_epoch_patch_text src; Ok ((count
    "micronux_native_reset_telemetry" visible_epoch_patch_text =? 2) && (count "writel("
    visible_epoch_patch_text =? 0))) "visible-epoch-no-control-change";
    counted (fault_evidence_patch_text ← fault_evidence_patch_text src; Ok ((contains
    "From eb2d875645cc695622712d1383cd0b53483cc6ed Mon Sep 17 00:00:00 2001" fault_evidence_patch_text) &&
    (contains "Subject: [PATCH 43/46] video: fbdev: preserve native runtime fault evidence"
    fault_evidence_patch_text) && (contains "index 2089446..0070e7e 100644" fault_evidence_patch_text)))
    "fault-evidence-identity";
    require_order (fault_evidence_postimage_compact src)
    ["micronux_capture_runtime_fault(dsi, state, faults, &record)"; "micronux_cold_runtime_fail_quiescent";
    "micronux_native_fail_reveal_locked"; "micronux_log_runtime_fault(dsi, &record)"]
    "fault-capture-before-containment-log-after" ] ++
  map (λ token, counted (has token (fault_evidence_added_compact src)) ("fault-evidence-binding:" +:+ token))
    ["struct micronux_runtime_fault_record";
    "__micronux_capture_scanout_snapshot(dsi, snapshot, index, ignored_status1, true)";
    "__micronux_capture_scanout_snapshot(dsi, snapshot, index, 0, false)";
    "trigger-faults=%lx faults=%lx classes=dma:%u,underrun:%u,stale:%u,host:%u,guard:%u,backlight:%u";
    "snapshot=host raw=%08x:%08x sticky=%08x:%08x"; "bridge-filler=%08x bridge-misc=%08x underruns=%u";
    "gdma=%08x:%08x:%08x:%08x cfg=%08x chen=%08x"] ++
  [ counted (bandwidth_patch_text ← bandwidth_patch_text src; Ok ((contains
    "From 8b48cd8ca8616f405449b82089ea5ca371449a1c Mon Sep 17 00:00:00 2001" bandwidth_patch_text) && (contains
    "Subject: [PATCH 44/46] video: fbdev: derate native DSI for PSRAM bandwidth" bandwidth_patch_text) &&
    (contains "index 0070e7e..64b8dfa 100644" bandwidth_patch_text))) "bandwidth-patch-identity" ] ++
  map (λ '(old, new), counted (bandwidth_removed_compact ← bandwidth_removed_compact src;
    bandwidth_added_compact ← bandwidth_added_compact src; Ok ((contains old bandwidth_removed_compact) &&
    (contains new bandwidth_added_compact))) ("bandwidth-replacement:" +:+ old))
    [("#define DSI_HOST_CLKMGR_VALUE 0x0000130a", "#define DSI_HOST_CLKMGR_VALUE 0x00000d07");
    ("#define HP_CLKRST_DSI_DPI_CLK_DIV_VALUE 2", "#define HP_CLKRST_DSI_DPI_CLK_DIV_VALUE 3");
    ("#define HP_CLKRST_DSI_DPI_CLOCK_VALUE 0x000002a3", "#define HP_CLKRST_DSI_DPI_CLOCK_VALUE 0x000003a3");
    ("handoff->pixel_clock_hz != 80000000", "handoff->pixel_clock_hz != 60000000");
    ("handoff->lane_bit_rate_mbps != 1500", "handoff->lane_bit_rate_mbps != 1000");
    ("writel(47, dsi->host + DSI_HOST_VID_HSA_TIME)", "writel(42, dsi->host + DSI_HOST_VID_HSA_TIME)");
    ("writel(47, dsi->host + DSI_HOST_VID_HBP_TIME)", "writel(42, dsi->host + DSI_HOST_VID_HBP_TIME)");
    ("writel(2063, dsi->host + DSI_HOST_VID_HLINE_TIME)", "writel(1833, dsi->host + DSI_HOST_VID_HLINE_TIME)")]
    ++
  map (λ token, counted (has token (bandwidth_postimage_compact src)) ("bandwidth-idf-binding:" +:+ token))
    ["micronux_cold_phy_write(dsi, 0x44, 0x54)"; "micronux_cold_phy_write(dsi, 0x19, 0x30)";
    "micronux_cold_phy_write(dsi, 0x17, 0x00)"; "micronux_cold_phy_write(dsi, 0x18, 0x11)";
    "micronux_cold_phy_write(dsi, 0x18, 0x81)"; "lane-mbps=1000 lanes=2 pll-m=50 pll-n=1 range=2a";
    "source=f240m divider=4 dpi-hz=60000000"] ++
  [ counted (bandwidth_patch_text ← bandwidth_patch_text src; Ok ((negb (contains
    (sh "`MICRONUX_DISPLAY_PIXEL_CLOCK_HZ 80000000`") bandwidth_patch_text)) && (negb (contains
    "micronux_handoff_valid" bandwidth_patch_text)))) "bandwidth-abi2-unchanged" ] ++
  map (λ stage_build, counted (has
    (sh "NATIVE_DISPLAY_DRIVER_SHA256=`b9a188dd12066b2c596b7223f593d734e43aebc12e4639fb6a715e6c845bdabe`")
    (read_text src stage_build)) ("post-bandwidth-source-sha256:" +:+ name_of stage_build)) stage_builds ++
  [ counted (hardware_test_text ← hardware_test_text src; hardware_telemetry_test_text ←
    hardware_telemetry_test_text src; Ok ((contains "MIN_DISCONNECT_PROGRESS_HZ = 10.0" hardware_test_text) &&
    (contains "MAX_DISCONNECT_PROGRESS_HZ = 25.0" hardware_test_text) && (contains "== (None, 10.0)"
    hardware_telemetry_test_text) && (contains "== (None, 25.0)" hardware_telemetry_test_text)))
    "hardware-continuous-progress-window" ].

(** ** Isolation and prep *)

Definition prep_start (src : sources) : result Z :=
  continuous_prep_postimage_compact ← continuous_prep_postimage_compact src; rindex
    "static int micronux_native_prepare_reload_plan" continuous_prep_postimage_compact.

Definition prep_end (src : sources) : result Z :=
  continuous_prep_postimage_compact ← continuous_prep_postimage_compact src; prep_start ← prep_start src;
    index_from "static bool native_window_ready" continuous_prep_postimage_compact prep_start.

Definition prep_block (src : sources) : result string :=
  continuous_prep_postimage_compact ← continuous_prep_postimage_compact src; prep_start ← prep_start src;
    prep_end ← prep_end src; Ok (slice continuous_prep_postimage_compact prep_start prep_end).

Definition isolation_and_prep_steps (src : sources) : list step :=
  [ counted (sd_isolation_patch_text ← sd_isolation_patch_text src; Ok ((contains
    "From 836edacc6d2dc303638886b9a0e60abd1acc0ff6 Mon Sep 17 00:00:00 2001" sd_isolation_patch_text) &&
    (contains "Subject: [PATCH 45/46] mmc: dw_mmc: allow an isolated ESP32-P4 slot" sd_isolation_patch_text) &&
    (contains "index e87a490..f68733f 100644" sd_isolation_patch_text) && (contains
    "1 file changed, 6 insertions(+), 2 deletions(-)" sd_isolation_patch_text))) "sd-isolation-patch-identity" ]
    ++
  map (λ token, counted (has token (sd_isolation_added_compact src)) ("sd-isolation-source-binding:" +:+ token))
    [(sh ("if (!host->num_slots || (host->num_slots != ARRAY_SIZE(host->slots) && " +:+
    "!of_property_read_bool(host->dev->of_node, `espressif,allow-single-slot`)))"));
    "ESP32-P4 dual-slot arbitration enabled with %u active slot(s)"; "host->num_slots"] ++
  [ counted (sd_isolation_patch_text ← sd_isolation_patch_text src; Ok ((negb (contains "writel("
    sd_isolation_patch_text)) && (negb (contains "drivers/video" sd_isolation_patch_text))))
    "sd-isolation-no-display-or-mmio-change";
    counted (content ← read_bytes src continuous_prep_patch; continuous_prep_patch_text ←
    continuous_prep_patch_text src; Ok ((bool_decide (sha256_hex content =
    "f9305b344bd28f425c824affe3aa7e5ed42e6f8e3a1e48601c61ad691a920881")) && (contains
    "From 07ad4eaede716bedf1951d7863f074e1ac2f0cec" continuous_prep_patch_text) && (contains
    "Subject: [PATCH 46/46] video: fbdev: validate native continuous reload plan" continuous_prep_patch_text) &&
    (contains "1 file changed, 69 insertions(+)" continuous_prep_patch_text))) "continuous-prep-identity" ] ++
  map (λ token, counted (has token (continuous_prep_added_compact src)) ("continuous-prep-binding:" +:+ token))
    ["#define MICRONUX_DMA_CHANNEL_RELOAD_CFG_LO 0x00000005";
    "#define MICRONUX_NATIVE_DMA_RELOAD_CTRL_HI 0x00108840"; "struct micronux_native_reload_plan";
    "micronux_native_prepare_reload_plan"; "transfer_bytes = ((u64)MICRONUX_DMA_BLOCK_TRANSFER_SIZE + 1) * 8";
    "transfer_bytes != dsi->handoff.framebuffer_size"; "plan->source = dsi->handoff.framebuffer_address[front]";
    "plan->destination = dsi->handoff.dsi_fifo_address"; "plan->config_lo = MICRONUX_DMA_CHANNEL_RELOAD_CFG_LO";
    "plan->interrupt_mask = DW_GDMA_INT_ERROR_MASK";
    "CONTINUOUS-PREP state=VALIDATED active-scanout=one-shot hardware-writes=0"] ++
  [ assigned (prep_start src);
    assigned (prep_end src);
    counted (continuous_prep_removed_compact ← continuous_prep_removed_compact src; prep_block ← prep_block src;
    Ok ((bool_decide (continuous_prep_removed_compact = "")) && (negb (contains "writel" prep_block)) && (negb
    (contains "readl" prep_block)))) "continuous-prep-no-runtime-or-mmio-change";
    counted (continuous_prep_added_compact ← continuous_prep_added_compact src; Ok ((negb (contains
    "native_continuous_fixed_front" continuous_prep_added_compact)) && (negb (contains
    "start_continuous_fixed_front" continuous_prep_added_compact)) && (negb (contains
    "scanout-mode=continuous-fixed-front" continuous_prep_added_compact)))) "continuous-prep-one-shot-retained"
    ] ++
  map (λ stage_build, counted (has
    (sh "NATIVE_DISPLAY_DRIVER_SHA256=`b9a188dd12066b2c596b7223f593d734e43aebc12e4639fb6a715e6c845bdabe`")
    (read_text src stage_build)) ("continuous-prep-source-sha256:" +:+ name_of stage_build)) stage_builds.
