(* ===== verification/BindSources.v ===== *)
(** * [bind_to_sources]: the reveal, the loader, the scripts and the device trees

    The rest of the steps of [bind_to_sources], the function itself and the [main] of
    scripts/m9-2-display-contract-test.py. *)

From S2P Require Import Prelude PyBytes PyStr PyJson Sha256 Regex Utf8 Session Contract Cold Firmware Artifact ContractTests.
From S2P Require Import Telemetry Gdma Ownership Io ParserTests SourceText BindPatches.

(** ** Reveal orders *)

Definition boot_reveal (src : sources) : result string :=
  reveal_added_compact ← reveal_added_compact src; source_block reveal_added_compact
    "static ssize_t micronux_native_boot_ready_store" "static void micronux_native_register_touch_work"
    "reveal-boot-ready-block-missing".

Definition reveal_orders_steps (src : sources) : list step :=
  [ counted_as 1 (boot_reveal src);
    require_order (boot_reveal src) ["ret = kstrtobool(buf, &ready)"; "if (!ready) return -EINVAL";
    "mutex_lock(&dsi->mode_lock)"; "if (READ_ONCE(dsi->boot_ready_consumed))"; "ret = -EALREADY";
    "MICRONUX_DISPLAY_STATE_SCANOUT_QUALIFIED_QUIESCENT"; "ret = -EAGAIN";
    "WRITE_ONCE(dsi->boot_ready_consumed, true)"; "WRITE_ONCE(dsi->native_dark_confirmed, false)";
    "WRITE_ONCE(dsi->native_preserve_source, true)"; "smp_wmb()"; "MICRONUX_DISPLAY_STATE_REVEALING"]
    "reveal-one-shot-gate";
    require_order (boot_reveal src) ["cancel_delayed_work_sync(&dsi->render_work)";
    "mutex_lock(&dsi->render_lock)"; "micronux_commit_render_locked(dsi)";
    "target_commit = dsi->queued_index >= 0"; "target_commit <= dsi->dark_baseline_commit_sequence";
    "micronux_native_requalify_front(dsi, target_commit)"] "reveal-render-requalification";
    require_order (boot_reveal src) ["WRITE_ONCE(dsi->native_i2c_transition_deadline"; "smp_wmb()";
    "MICRONUX_NATIVE_I2C_TRANSITION"; "micronux_cold_i2c_initialize(dsi)";
    "MICRONUX_NATIVE_I2C_ACTIVE_SERIALIZED"; "micronux_native_runtime_policy_valid(dsi)"]
    "reveal-i2c-transition";
    require_order (boot_reveal src) ["micronux_register_native_backlight(dsi)";
    "mutex_lock(&dsi->backlight->ops_lock)"; "if (dsi->backlight->props.state)";
    "dsi->backlight->props.brightness = handoff->backlight_brightness";
    "dsi->backlight->props.power = FB_BLANK_POWERDOWN"; "micronux_native_final_status_clean(dsi)";
    "WRITE_ONCE(dsi->native_reveal_may_be_lit, true)"; "smp_wmb()";
    "micronux_native_write_control(dsi, reveal_command)"; "WRITE_ONCE(dsi->backlight_gate_enabled, true)";
    "micronux_native_final_status_clean(dsi)"; "micronux_native_write_pwm(dsi, handoff->backlight_brightness)";
    "WRITE_ONCE(dsi->applied_brightness"; "dsi->backlight->props.power = FB_BLANK_UNBLANK";
    "micronux_native_final_status_clean(dsi)"; "sysfs_create_group(&dsi->dev->kobj";
    "dsi->native_runtime_group_created = true"; "micronux_native_final_status_clean(dsi)";
    "WRITE_ONCE(dsi->boot_display_ready, true)"; "WRITE_ONCE(dsi->render_enabled, true)"; "smp_wmb()";
    "MICRONUX_DISPLAY_STATE_RUNTIME_REVEALED"; "MICRONUX:M9.2:REVEAL state=RUNTIME_REVEALED";
    "schedule_work(&dsi->touch_register_work)"] "reveal-publication";
    require_order (boot_reveal src) ["if (READ_ONCE(dsi->native_reveal_may_be_lit))";
    (sh "micronux_native_fail_reveal_locked(dsi, `boot-ready`, ret, false)"); "else";
    "micronux_native_unregister_runtime_objects(dsi)";
    (sh "micronux_cold_runtime_fail_quiescent(dsi, `boot-ready-dark`, ret)")] "reveal-failure-dispatch" ].

(** ** Reveal interrupt *)

Definition irq_reveal_start (src : sources) : result Z :=
  reveal_postimage_compact ← reveal_postimage_compact src; Ok
    (find "preserve = READ_ONCE(dsi->native_preserve_source)" reveal_postimage_compact).

Definition irq_reveal_end_token : string :=
  "wake_up_all(&dsi->frame_wait)".

Definition irq_reveal_end (src : sources) : result Z :=
  reveal_postimage_compact ← reveal_postimage_compact src; irq_reveal_start ← irq_reveal_start src; Ok
    (find_from irq_reveal_end_token reveal_postimage_compact irq_reveal_start).

Definition irq_reveal (src : sources) : result string :=
  reveal_postimage_compact ← reveal_postimage_compact src; irq_reveal_start ← irq_reveal_start src;
    irq_reveal_end ← irq_reveal_end src; Ok (slice reveal_postimage_compact irq_reveal_start (irq_reveal_end +
    len irq_reveal_end_token)).

Definition reveal_interrupt_steps (src : sources) : list step :=
  [ counted (irq_reveal_start ← irq_reveal_start src; irq_reveal_end ← irq_reveal_end src; Ok ((0 <=?
    irq_reveal_start) && (irq_reveal_start <? irq_reveal_end))) "reveal-irq-block-missing";
    require_order (irq_reveal src) ["preserve = READ_ONCE(dsi->native_preserve_source)";
    "!READ_ONCE(dsi->native_dark_confirmed)"; "micronux_native_contain_inactive_irqs(dsi, top)";
    "if ((top & ~DW_GDMA_INT_TOP_ALLOWED) && !preserve)"; "dma_error =";
    "set_bit(MICRONUX_FAULT_DMA, &dsi->fault_bits)"; "if (!(status0 & DW_GDMA_INT_DMA_TFR_DONE))";
    "WRITE_ONCE(dsi->native_source_rearm_unverified, true)"; "schedule_work(&dsi->fault_work)"]
    "reveal-irq-preserve";
    require_order (irq_reveal src) ["next_index = !faulted && !dma_error";
    "micronux_native_dma_arm_frame(dsi, next_index)"; "if (!dma_error)";
    "dsi->presented_index = dsi->front_index"; "dsi->presented_commit_sequence = dsi->front_commit_sequence";
    "if (!faulted && dsi->queued_index >= 0)"; "dsi->front_index = dsi->queued_index";
    "dsi->front_commit_sequence = dsi->buffer_commit_sequence[next_index]"; "dsi->queued_index = -1";
    "dsi->flip_completions++"; "dsi->source_generation++"; "wake_frame = true"] "reveal-irq-transaction";
    require_order (irq_reveal src) ["if (rearm_failed)"; "WRITE_ONCE(dsi->last_dma_error, BIT(30))";
    "WRITE_ONCE(dsi->cold_runtime_unverified, true)"; "if (preserve)";
    "WRITE_ONCE(dsi->native_source_rearm_unverified, true)"; "set_bit(MICRONUX_FAULT_DMA, &dsi->fault_bits)";
    "if (dma_error || rearm_failed)"; "schedule_work(&dsi->fault_work)"; "if (wake_frame)";
    "wake_up_all(&dsi->frame_wait)"] "reveal-irq-failure-containment" ].

(** ** Reveal failures *)

Definition requalification (src : sources) : result string :=
  reveal_added_compact ← reveal_added_compact src; source_block reveal_added_compact
    "static bool native_target_ready" "micronux_native_off_first" "reveal-requalification-block-missing".

Definition off_first (src : sources) : result string :=
  reveal_added_compact ← reveal_added_compact src; source_block reveal_added_compact "micronux_native_off_first"
    "static void micronux_native_unregister_runtime_objects" "reveal-off-first-block-missing".

Definition fail_reveal (src : sources) : result string :=
  reveal_added_compact ← reveal_added_compact src; source_block reveal_added_compact
    "static void micronux_native_fail_reveal_locked" "ret = device_create_file(dsi->dev, &dev_attr_boot_ready)"
    "reveal-failure-block-missing".

Definition vpg_hunk (src : sources) : result string :=
  reveal_patch_text ← reveal_patch_text src; source_block reveal_patch_text
    "@@ -2309,6 +2790,10 @@ static ssize_t vpg_test_ms_store"
    "@@ -2503,6 +2988,12 @@ static ssize_t ownership_show" "reveal-vpg-block-missing".

Definition native_attrs (src : sources) : result string :=
  reveal_added_compact ← reveal_added_compact src; source_block reveal_added_compact
    "static struct attribute *micronux_native_runtime_attrs[] = {"
    "static const struct attribute_group micronux_native_runtime_group"
    "reveal-native-attributes-block-missing".

Definition reveal_failures_steps (src : sources) : list step :=
  [ counted_as 1 (requalification src);
    require_order (requalification src) ["dsi->presented_commit_sequence >= commit_sequence";
    "native_target_ready(dsi, target)"; "presented = dsi->presented_index";
    "presented_commit = dsi->presented_commit_sequence"; "base = dsi->source_generation";
    "presented_commit < target"; "target <= dsi->dark_baseline_commit_sequence";
    "native_window_ready(dsi, base)"; "generation = dsi->source_generation";
    "dsi->presented_index != presented"; "dsi->presented_commit_sequence != presented_commit";
    "dsi->front_index != presented"; "dsi->front_commit_sequence != presented_commit"; "dsi->queued_index >= 0";
    "generation - base < MICRONUX_SCANOUT_STABLE_FRAMES"; "micronux_native_final_status_clean(dsi)";
    "MICRONUX:M9.2:REVEAL state=QUALIFIED"] "reveal-requalification";
    counted_as 1 (off_first src);
    require_order (off_first src) ["MICRONUX_NATIVE_I2C_ACTIVE_SERIALIZED";
    "micronux_i2c_write_reg8(dsi, handoff->i2c_address"; "handoff->backlight_register, 0)";
    "micronux_native_write_control(dsi, command)"; "backlight->props.brightness = 0";
    "backlight->props.power = FB_BLANK_POWERDOWN"; "if (*pwm_ret || *control_ret)";
    "msleep(handoff->pwm_zero_settle_ms)"; "WRITE_ONCE(dsi->native_dark_confirmed, true)"; "smp_wmb()";
    "WRITE_ONCE(dsi->native_preserve_source, false)"] "reveal-off-first";
    counted_as 1 (fail_reveal src);
    require_order (fail_reveal src) ["WRITE_ONCE(dsi->render_enabled, false)";
    "WRITE_ONCE(dsi->boot_display_ready, false)"; "smp_wmb()"; "MICRONUX_DISPLAY_STATE_REVEALING";
    "micronux_native_off_first(dsi, &pwm_ret, &control_ret)"; "if (!dark && !force_teardown)";
    "micronux_native_unregister_runtime_objects(dsi)"; "MICRONUX_DISPLAY_STATE_FAILED_UNVERIFIED";
    "source=preserved"; "return"; "micronux_native_unregister_runtime_objects(dsi)";
    "micronux_cold_runtime_teardown(dsi)"; "micronux_cold_i2c_gate(dsi)"; "micronux_cold_dsi_disable(dsi)";
    "micronux_cold_ldo_disable(dsi)"] "reveal-failure-rollback";
    counted_as 1 (vpg_hunk src);
    require_order (vpg_hunk src) ["MICRONUX_DISPLAY_ABI_VERSION_V3"; "return -EOPNOTSUPP";
    "ret = kstrtou32(buf, 10, &duration_ms)"] "reveal-vpg-rejection";
    counted_as 1 (native_attrs src) ] ++
  map (λ attribute, counted (has attribute (native_attrs src)) ("reveal-native-attribute-missing:" +:+
    attribute)) ["dev_attr_pattern"; "dev_attr_ownership"; "dev_attr_scanout"; "dev_attr_diagnostics";
    "dev_attr_touch"] ++
  [ counted (lacks "dev_attr_vpg_test_ms" (native_attrs src)) "reveal-native-vpg-attribute-present";
    counted (lacks "dev_attr_boot_ready" (native_attrs src)) "reveal-native-boot-ready-in-runtime-group" ].

(** ** Reveal publication *)

Definition publication_hunk (src : sources) : result string :=
  reveal_patch_text ← reveal_patch_text src; source_block reveal_patch_text
    "@@ -5238,6 +6040,10 @@ static int micronux_cold_initialize_scanout_stage"
    "@@ -5258,6 +6064,10 @@ static int micronux_cold_initialize_scanout_stage"
    "reveal-publication-file-block-missing".

Definition stage_d_publication (src : sources) : result string :=
  scanout_added_compact ← scanout_added_compact src; source_block scanout_added_compact
    "static int micronux_cold_initialize_scanout_stage"
    (sh "micronux_cold_runtime_fail_quiescent(dsi, `stage-d-precondition`, ret)")
    "scanout-stage-publication-block-missing".

Definition publication_failure_hunk (src : sources) : result string :=
  reveal_patch_text ← reveal_patch_text src; source_block reveal_patch_text
    "@@ -5258,6 +6064,10 @@ static int micronux_cold_initialize_scanout_stage"
    "@@ -5324,9 +6134,13 @@ static int micronux_dsi_probe" "reveal-publication-failure-block-missing".

Definition remove_hunk_v3 (src : sources) : result string :=
  reveal_patch_text ← reveal_patch_text src; source_block reveal_patch_text
    "@@ -5535,6 +6349,8 @@ static void micronux_dsi_remove" ("-- " +:+ nl +:+ "2.54.0.windows.1")
    "reveal-remove-block-missing".

Definition stage_d_remove (src : sources) : result string :=
  scanout_patch_text ← scanout_patch_text src; block ← source_block scanout_patch_text
    "@@ -4471,20 +5536,29 @@ static void micronux_dsi_remove" ("-- " +:+ nl +:+ "2.54.0.windows.1")
    "scanout-remove-containment-block-missing"; Ok (compact block).

Definition reveal_publication_steps (src : sources) : list step :=
  [ counted_as 1 (publication_hunk src);
    counted_as 1 (stage_d_publication src);
    require_order (stage_d_publication src) ["micronux_register_framebuffer(dsi)";
    "micronux_native_final_status_clean(dsi)"; "micronux_watchdog_seed_progress(dsi)";
    "WRITE_ONCE(dsi->scanout_ready, true)"; "WRITE_ONCE(dsi->render_enabled, true)";
    "MICRONUX_DISPLAY_STATE_SCANOUT_QUALIFIED_QUIESCENT"] "scanout-stage-publication";
    require_order (publication_hunk src) ["ret = -EIO"; "goto fail_publication";
    "device_create_file(dsi->dev, &dev_attr_boot_ready)"; "dsi->boot_ready_file_created = true";
    "micronux_watchdog_seed_progress(dsi)"; "WRITE_ONCE(dsi->scanout_ready, true)";
    "WRITE_ONCE(dsi->render_enabled, true)"] "reveal-boot-file-publication";
    counted_as 1 (publication_failure_hunk src);
    require_order (publication_failure_hunk src) ["fail_publication:"; "if (dsi->boot_ready_file_created)";
    "device_remove_file(dsi->dev, &dev_attr_boot_ready)"; "dsi->boot_ready_file_created = false";
    (sh "micronux_cold_runtime_fail_quiescent(dsi, `publication-check`, ret)")] "reveal-boot-file-rollback";
    counted_as 1 (remove_hunk_v3 src);
    counted (has remove_hunk (scanout_patch_text src)) "scanout-remove-state-order-for-reveal";
    require_order (remove_hunk_v3 src) ["device_remove_file(&pdev->dev, &dev_attr_boot_ready)";
    "cancel_work_sync(&dsi->touch_register_work)"; "mutex_lock(&dsi->mode_lock)";
    "WRITE_ONCE(dsi->display_state"; "MICRONUX_DISPLAY_STATE_REVEALING";
    "MICRONUX_DISPLAY_STATE_RUNTIME_REVEALED"; "READ_ONCE(dsi->native_preserve_source)";
    "micronux_native_off_first(dsi, &pwm_ret, &prepare_ret)"; "micronux_native_unregister_runtime_objects(dsi)";
    "micronux_cold_runtime_teardown(dsi)"; "micronux_cold_i2c_gate(dsi)"] "reveal-remove-lifetime";
    counted_as 1 (stage_d_remove src);
    require_order (stage_d_remove src) ["MICRONUX_DISPLAY_STATE_REMOVING";
    "micronux_cold_runtime_teardown(dsi)"; "cold_dsi_off = micronux_cold_dsi_disable(dsi)";
    "cold_ldo_off = micronux_cold_ldo_disable(dsi)"; "cold_i2c_released && cold_runtime_off &&";
    "cold_dsi_off && cold_ldo_off"] "scanout-remove-containment" ].

(** ** Loader bindings *)

Definition required_header : list string :=
  ["MICRONUX_DISPLAY_HANDOFF_ABI_VERSION UINT16_C(2)"; "MICRONUX_DISPLAY_BUFFER_COUNT UINT32_C(3)";
    "MICRONUX_DISPLAY_OWNER_LINUX_PENDING UINT32_C(1)";
    "MICRONUX_DISPLAY_BACKBUFFER_POOL_START UINT32_C(0x49300000)";
    "MICRONUX_DISPLAY_BACKBUFFER_POOL_END UINT32_C(0x49700000)";
    "MICRONUX_DISPLAY_FLAG_HOST_VPG_ACTIVE (UINT32_C(1) << 7)";
    "MICRONUX_DISPLAY_COLD_HANDOFF_ABI_VERSION UINT16_C(3)";
    "MICRONUX_DISPLAY_COLD_HANDOFF_SIZE UINT16_C(0xc0)";
    "MICRONUX_DISPLAY_COLD_PANEL_PAYLOAD_CRC32 UINT32_C(0xcea07f9b)";
    "MICRONUX_DISPLAY_V3_FLAG_PWM_ZERO_WRITE_ACKED"; "MICRONUX_DISPLAY_V3_FLAG_RESET_PREPARE_WRITE_ACKED";
    "MICRONUX_DISPLAY_V3_FLAG_RESET_ASSERT_WRITE_ACKED";
    "MICRONUX_DISPLAY_V3_REQUIRED_FLAGS UINT32_C(0x00003fff)"; "uint32_t display_control_reset_assert_command;";
    "uint32_t display_control_reset_prepare_command;"; "uint32_t display_control_reveal_command;";
    "uint32_t pwm_zero_settle_ms;"; "uint32_t panel_payload_crc32;"; "panel_payload_crc32) == 0xb4";
    "crc32) == 0xbc"].

Definition required_loader : list string :=
  ["MICRONUX_DSI_FRAMEBUFFER_ALIGNMENT UINT32_C(8)"; "(MICRONUX_DSI_FRAMEBUFFER_ALIGNMENT - 1U)";
    "MICRONUX_DSI_CLOCK_LANE_FORCE_HS 0"; "dpi_config.flags.disable_lp = 0";
    "mipi_dsi_host_ll_dpi_enable_frame_ack(host, false)"; "frame_ack=disabled"; "disable_backlight_gate()";
    "gate=disabled"; "MIPI_DSI_PATTERN_BAR_VERTICAL"; "MICRONUX:M9.2:DSI-HANDOFF-SOURCE state=ready";
    "MICRONUX_DISPLAY_FLAG_HOST_VPG_ACTIVE"; "owner=linux-pending pattern=vertical-bars"].

Definition required_cold_loader : list string :=
  ["MICRONUX_COLD_PIXEL_CLOCK_HZ UINT32_C(60000000)"; "MICRONUX_COLD_LANE_BIT_RATE_MBPS UINT32_C(1000)";
    "MICRONUX_COLD_PMS_PAGE_SIZE UINT32_C(4096)"; "MICRONUX_COLD_FRONT_ALIGNMENT MICRONUX_COLD_PMS_PAGE_SIZE";
    "MICRONUX_COLD_DESCRIPTOR_ALIGNMENT MICRONUX_COLD_PMS_PAGE_SIZE";
    "MICRONUX_COLD_DESCRIPTOR_SIZE UINT32_C(192)";
    "MICRONUX_COLD_DESCRIPTOR_BACKING_SIZE MICRONUX_COLD_PMS_PAGE_SIZE";
    "MICRONUX_COLD_INTERNAL_SRAM_END UINT32_C(0x4ffc0000)"; "MICRONUX_COLD_SD_DMA_START UINT32_C(0x4ff80000)";
    "MICRONUX_COLD_SD_DMA_END UINT32_C(0x4ff82000)";
    "(descriptors < MICRONUX_COLD_SD_DMA_END && MICRONUX_COLD_SD_DMA_START < descriptors_end)";
    "heap_caps_aligned_alloc( MICRONUX_COLD_FRONT_ALIGNMENT";
    ("heap_caps_aligned_alloc( MICRONUX_COLD_DESCRIPTOR_ALIGNMENT, " +:+
    "MICRONUX_COLD_DESCRIPTOR_BACKING_SIZE");
    "memset(s_cold_descriptors, 0, MICRONUX_COLD_DESCRIPTOR_BACKING_SIZE)";
    ".display_control_reset_assert_command = MICRONUX_COLD_DISPLAY_RESET_ASSERT_COMMAND";
    ".display_control_reset_prepare_command = MICRONUX_COLD_DISPLAY_RESET_PREPARE_COMMAND";
    ".display_control_reveal_command = MICRONUX_COLD_DISPLAY_REVEAL_COMMAND";
    ".pwm_zero_settle_ms = MICRONUX_COLD_PWM_ZERO_SETTLE_MS";
    ".panel_payload_crc32 = MICRONUX_DISPLAY_COLD_PANEL_PAYLOAD_CRC32";
    "panel-payload-crc=cea07f9b contract=invalid"; "pwm-zero-write=acked reset-prepare-write=acked";
    "pwm-zero-settle=elapsed reset-assert-write=acked"; "reset-hold=elapsed i2c=released";
    "ESP_CACHE_MSYNC_FLAG_INVALIDATE"; "flush and invalidate staged cold display contract"].

Definition loader_bindings_steps (src : sources) : list step :=
  map (λ token, required (has token (header_text src)) ("header-binding-missing:" +:+ token)) required_header ++
  map (λ token, required (has token (loader_text src)) ("loader-binding-missing:" +:+ token)) required_loader ++
  map (λ token, required (has token (loader_compact src)) ("cold-loader-binding-missing:" +:+ token))
    required_cold_loader ++
  map (λ token, counted (has token (loader_defaults_text src)) ("loader-bandwidth-config:" +:+ token))
    ["CONFIG_SPIRAM_SPEED_200M=y"; "CONFIG_SPIRAM_XIP_FROM_PSRAM=y"; "CONFIG_CACHE_L2_CACHE_256KB=y";
    "CONFIG_CACHE_L2_CACHE_LINE_64B=y"; "CONFIG_COMPILER_OPTIMIZATION_PERF=y"] ++
  [ counted (lacks "CONFIG_CACHE_L2_CACHE_128KB=y" (loader_defaults_text src)) "loader-stale-l2-cache-size" ].

(** ** Loader orders *)

Definition sequence_start (src : sources) : result Z :=
  loader_text ← loader_text src; index "static esp_err_t cold_execute_external_command_sequence" loader_text.

Definition sequence_end (src : sources) : result Z :=
  loader_text ← loader_text src; sequence_start ← sequence_start src; index_from
    "esp_err_t micronux_mipi_dsi_cold_early_dark" loader_text sequence_start.

Definition command_sequence (src : sources) : result string :=
  loader_text ← loader_text src; sequence_start ← sequence_start src; sequence_end ← sequence_end src; Ok (slice
    loader_text sequence_start sequence_end).

Definition ordered_commands : list string :=
  ["MICRONUX_COLD_BACKLIGHT_REGISTER, 0"; "MICRONUX_COLD_DISPLAY_RESET_PREPARE_COMMAND";
    "MICRONUX_COLD_PWM_ZERO_SETTLE_MS"; "MICRONUX_COLD_DISPLAY_RESET_ASSERT_COMMAND";
    "MICRONUX_COLD_RESET_HOLD_MS"; "cold_release_i2c(bus, device)"].

Definition positions (src : sources) : result (list Z) :=
  command_sequence ← command_sequence src; map_result (λ token, index token command_sequence) ordered_commands.

Definition packer_compact (src : sources) : result string :=
  text ← read_text src packer; Ok (compact text).

Definition required_packer : list string :=
  ["KERNEL_LOAD_ADDRESS = 0x48400000"; "max_memory_end: int = COMMS_RESERVE_ADDRESS";
    "KERNEL_LOAD_ADDRESS + memory_size > max_memory_end"; (sh "`--max-memory-end`");
    "read_image(args.image, args.max_memory_end)"].

Definition loader_main_compact (src : sources) : result string :=
  loader_main_text ← loader_main_text src; Ok (compact loader_main_text).

Definition required_loader_memory : list string :=
  [("const uint64_t kernel_end = (uint64_t)s_payload.kernel_load_vaddr + " +:+ "s_payload.kernel_memory_size;");
    "#if CONFIG_MICRONUX_M7_EARLY_UMODE_DENY if (kernel_end > MICRONUX_DISPLAY_POOL_VADDR)";
    "#else if (kernel_end > MICRONUX_COMMS_VADDR)"; (sh "fail(`kernel-memory-span`)")].

Definition early (src : sources) : result Z :=
  loader_main_text ← loader_main_text src; index "micronux_mipi_dsi_cold_early_dark()" loader_main_text.

Definition prepare (src : sources) : result Z :=
  loader_main_text ← loader_main_text src; early ← early src; index_from "micronux_mipi_dsi_cold_prepare()"
    loader_main_text early.

Definition clint (src : sources) : result Z :=
  loader_main_text ← loader_main_text src; prepare ← prepare src; index_from "characterize_clint();"
    loader_main_text prepare.

Definition stage (src : sources) : result Z :=
  loader_main_text ← loader_main_text src; index "micronux_mipi_dsi_cold_stage()" loader_main_text.

Definition suspend (src : sources) : result Z :=
  loader_main_text ← loader_main_text src; stage ← stage src; index_from "vTaskSuspendAll();" loader_main_text
    stage.

Definition commit (src : sources) : result Z :=
  loader_main_text ← loader_main_text src; suspend ← suspend src; index_from "micronux_mipi_dsi_cold_commit();"
    loader_main_text suspend.

Definition jump (src : sources) : result Z :=
  loader_main_text ← loader_main_text src; commit ← commit src; index_from "micronux_handoff_jump("
    loader_main_text commit.

Definition after_commit (src : sources) : result string :=
  loader_main_text ← loader_main_text src; commit ← commit src; jump ← jump src; Ok (slice loader_main_text
    commit jump).

Definition panel_construct (src : sources) : result Z :=
  loader_text ← loader_text src; index "result = esp_lcd_new_panel_jd9365(" loader_text.

Definition frame_ack_disable (src : sources) : result Z :=
  loader_text ← loader_text src; index "mipi_dsi_host_ll_dpi_enable_frame_ack(host, false)" loader_text.

Definition panel_init (src : sources) : result Z :=
  loader_text ← loader_text src; index "esp_lcd_panel_init(s_panel)" loader_text.

Definition frame_ack_verify (src : sources) : result Z :=
  loader_text ← loader_text src; frame_ack_disable ← frame_ack_disable src; index_from
    "!host->vid_mode_cfg.frame_bta_ack_en" loader_text frame_ack_disable.

Definition blank (src : sources) : result Z :=
  loader_text ← loader_text src; index "disable_backlight_gate()" loader_text.

Definition vpg (src : sources) : result Z :=
  loader_text ← loader_text src; blank ← blank src; index_from "MIPI_DSI_PATTERN_BAR_VERTICAL" loader_text
    blank.

Definition handoff (src : sources) : result Z :=
  loader_text ← loader_text src; vpg ← vpg src; index_from "esp_lcd_dpi_panel_prepare_handoff" loader_text vpg.

Definition required_idf_handoff : list string :=
  ["DPI handoff requires host VPG and disabled bridge DPI"; "hal->host->vid_mode_cfg.vpg_en";
    "!hal->bridge->dpi_misc_config.dpi_en"; "Host VPG disconnects bridge DPI"].

Definition required_pms : list string :=
  ["write_region(2, display.backbuffer_pool_start,";
    "expected = MICRONUX_DMA_REGION1_MASK | MICRONUX_DMA_REGION2_MASK | MICRONUX_DMA_REGION3_MASK;";
    "expected = MICRONUX_DMA_REGION3_MASK | MICRONUX_DMA_REGION4_MASK;"].

Definition loader_orders_steps (src : sources) : list step :=
  [ assigned (sequence_start src);
    assigned (sequence_end src);
    assigned (positions src);
    required (positions ← positions src; Ok (bool_decide (positions = merge_sort Z.le positions)))
    "cold-loader-external-command-order";
    assigned (packer_compact src) ] ++
  map (λ token, required (has token (packer_compact src)) ("kernel-packer-binding-missing:" +:+ token))
    required_packer ++
  map (λ token, required (has token (loader_main_compact src)) ("kernel-loader-binding-missing:" +:+ token))
    required_loader_memory ++
  [ assigned (early src);
    assigned (prepare src);
    assigned (clint src);
    required (early ← early src; prepare ← prepare src; clint ← clint src; Ok ((early <? prepare) && (prepare <?
    clint))) "cold-loader-early-prepare-order";
    assigned (stage src);
    assigned (suspend src);
    assigned (commit src);
    assigned (jump src);
    required (stage ← stage src; suspend ← suspend src; commit ← commit src; jump ← jump src; Ok ((stage <?
    suspend) && (suspend <? commit) && (commit <? jump))) "cold-loader-final-commit-order" ] ++
  map (λ forbidden, required (lacks forbidden (after_commit src)) ("cold-loader-post-commit-operation:" +:+
    forbidden)) ["fail("; "ESP_LOG"; "vTaskDelay"; "esp_cache_msync"; "fflush"] ++
  flat_map (λ stage_build, [ assigned (text ← read_text src stage_build; Ok (compact text)) ] ++
  map (λ token, required (has token (text ← read_text src stage_build; Ok (compact text)))
    ("kernel-build-binding-missing:" +:+ name_of stage_build +:+ ":" +:+ token))
    ["DISPLAY_POOL_ADDRESS=$((0x49300000))"; (sh "--max-memory-end `${DISPLAY_POOL_ADDRESS}`")]) stage_builds ++
  [ required (occurs "mipi_dsi_host_ll_dpi_enable_frame_ack(host, false)" 1 (loader_text src))
    "loader-frame-ack-disable-count";
    assigned (panel_construct src);
    assigned (frame_ack_disable src);
    assigned (panel_init src);
    assigned (frame_ack_verify src);
    required (panel_construct ← panel_construct src; frame_ack_disable ← frame_ack_disable src; panel_init ←
    panel_init src; frame_ack_verify ← frame_ack_verify src; Ok ((panel_construct <? frame_ack_disable) &&
    (frame_ack_disable <? panel_init) && (panel_init <? frame_ack_verify))) "loader-frame-ack-disable-order";
    assigned (blank src);
    assigned (vpg src);
    assigned (handoff src);
    required (blank ← blank src; vpg ← vpg src; handoff ← handoff src; Ok ((blank <? vpg) && (vpg <? handoff)))
    "loader-vpg-handoff-order" ] ++
  map (λ token, required (has token (idf_handoff_text src)) ("idf-handoff-binding-missing:" +:+ token))
    required_idf_handoff ++
  map (λ token, required (has token (dma_pms_compact src)) ("dma-pms-binding-missing:" +:+ token)) required_pms.

(** ** Harness bindings *)

Definition required_harness : list string :=
  [(sh "SHELL_PROMPT_RE = re.compile(r`(?:^|\r?\n)(?:/ # |micronux# )$`)");
    (sh "r`^running abi=3 state=RUNTIME_REVEALED `"); (sh "r`^abi=3 state=RUNTIME_REVEALED `");
    (sh "r`frames=(?P<before>\d+)->(?P<after>\d+) `"); "frame-irq=(?P<irq>"; "rearm=explicit"; "frame-ack=on";
    "i2c=active-serialized"; "physical-panel-state=unobserved"; "def scanout_contract_problem(";
    "def diagnostics_contract_problem("; "def display_health_problem("; "def runtime_status_problem(";
    "def wait_for_touch_terminal("; (sh "m9_boot_a=`$(cat /proc/sys/kernel/random/boot_id)`");
    (sh "m9_uptime_a=`$(cat /proc/uptime)`"); (sh "echo `MICRONUX:M9.2:RUNTIME sample=a boot_id=$m9_boot_a`");
    (sh "echo `MICRONUX:M9.2:RUNTIME sample=b uptime=$m9_uptime_b`"); "m9_touch_state=registering";
    (sh "if [ `$m9_touch_state` != registering ]; then break; fi");
    (sh "test `$m9_touch_state` != registering"); (sh "if [ ! -e `$D/vpg_test_ms` ]; then");
    "MICRONUX:M9:VPG-UNAVAILABLE absent="; "MICRONUX:M9:VPG-UNAVAILABLE absent=1";
    (sh "`preflight`, `touch`, `soak`, `stress`, `disconnect`, `snapshot`"); "def run_soak("; "def run_stress(";
    "def run_disconnect("; "def run_snapshot("; "recover_reconnect_prompt("; "capture_passive_output(";
    "framebuffer_hash_problem("; "require_flip=True"; "require_progress=True"].

Definition touch_status_printf : string :=
  (sh "printf `%s\\n` `$m9_touch_state`").

Definition touch_filter_printf : string :=
  (sh "printf '%s\\n' \`$m9_touch_state\`").

Definition harness_bindings_steps (src : sources) : list step :=
  map (λ token, counted (has token (hardware_test_compact src)) ("hardware-test-binding-missing:" +:+ token))
    required_harness ++
  [ counted (occurs touch_status_printf 2 (hardware_test_text src)) "hardware-test-touch-status-printf-escape";
    counted (occurs touch_filter_printf 1 (hardware_test_text src)) "hardware-test-touch-filter-printf-escape";
    counted (lacks (sh "printf `%s\n` `$m9_touch_state`") (hardware_test_text src))
    "hardware-test-touch-status-single-escape";
    counted (lacks (sh "printf '%s\n' \`$m9_touch_state\`") (hardware_test_text src))
    "hardware-test-touch-filter-single-escape" ] ++
  map (λ stale, counted (lacks stale (hardware_test_text src)) ("hardware-test-stale-contract:" +:+ stale))
    ["abi=2"; "frame-ack=off"; "frame-ack=disabled"; (sh "echo -n `MICRONUX:M9.2:RUNTIME sample=a boot_id=`");
    "--vpg-ms"; (sh "`vpg`,"); (sh "echo 1 >`$D/boot_ready`")].

(** ** Harness orders *)

Definition harness_main (src : sources) : result string :=
  hardware_test_compact ← hardware_test_compact src; source_block hardware_test_compact "def main() -> int:"
    (sh "if __name__ == `__main__`:") "hardware-main-block-missing".

Definition snapshot_harness (src : sources) : result string :=
  hardware_test_compact ← hardware_test_compact src; source_block hardware_test_compact "def run_snapshot("
    "def main() -> int:" "hardware-snapshot-block-missing".

Definition soak_harness (src : sources) : result string :=
  hardware_test_compact ← hardware_test_compact src; source_block hardware_test_compact "def run_soak("
    "def stress_snapshot_shell(" "hardware-soak-block-missing".

Definition stress_harness (src : sources) : result string :=
  hardware_test_compact ← hardware_test_compact src; source_block hardware_test_compact "def run_stress("
    "def run_disconnect(" "hardware-stress-block-missing".

Definition disconnect_harness (src : sources) : result string :=
  hardware_test_compact ← hardware_test_compact src; source_block hardware_test_compact "def run_disconnect("
    "def run_snapshot(" "hardware-disconnect-block-missing".

Definition harness_orders_steps (src : sources) : list step :=
  [ counted_as 1 (harness_main src);
    require_order (harness_main src) ["contract_problem = boot_contract_problem(boot_log)";
    "identity_problem = verify_runtime_identity(device)"; "touch_problem = wait_for_touch_terminal(device)";
    (sh "if args.mode == `preflight`"); "return run_preflight(device, boot_log)"]
    "hardware-startup-terminal-touch";
    counted_as 1 (snapshot_harness src);
    require_order (snapshot_harness src) ["capture_passive_output(device, snapshot_seconds)";
    "failure_marker(captured)"; "recover_reconnect_prompt(port, device, 45.0)"; "failure_marker(recovered)";
    "wait_for_touch_terminal(device)"; (sh "`SNAPSHOT`, 30.0"); "framebuffer_hash_problem(";
    "display_health_problem( snapshot.output, minimum=2, require_progress=True";
    "MICRONUX:M9:SNAPSHOT:CAPTURED"] "hardware-snapshot-behavior";
    counted_as 1 (soak_harness src);
    require_order (soak_harness src) ["sample_count = soak_seconds // sample_seconds + 1";
    "MICRONUX:M9:SOAK-SAMPLE index="; "cat $D/diagnostics"; "cat $D/scanout"; "cat $D/touch";
    "framebuffer_hash_problem(";
    "display_health_problem( soak.output, minimum=sample_count, require_progress=True"; "MICRONUX:M9:SOAK:PASS"]
    "hardware-soak-behavior";
    counted_as 1 (stress_harness src);
    require_order (stress_harness src)
    [(sh "cycle_arguments = ` `.join( str(cycle) for cycle in range(1, stress_cycles + 1)");
    "micronux-display-test draw 300"; "micronux-storage-test --write-test"; "/usr/bin/micronux-online";
    "/usr/bin/micronux-combined-soak"; "/usr/bin/micronux-selftest"; "kill -TERM $m9_draw_pid";
    (sh "stress_snapshot_shell(`after`)"); "framebuffer_hash_problem("; "if before_free - after_free > 512";
    "if before_available - after_available > 512";
    ("display_health_problem( result.output, minimum=len(expected_stages), require_flip=True, " +:+
    "require_progress=True"); "MICRONUX:M9.2:STRESS:PASS"] "hardware-stress-behavior";
    counted_as 1 (disconnect_harness src);
    require_order (disconnect_harness src) ["MICRONUX:M9:USB-DISCONNECT:BOUNDARY:BEGIN"; "device.dtr = False";
    "device.rts = False"; "device.close()"; "time.sleep(reopen_delay)";
    "open_serial( port, 30.0, clear_input=False, write_timeout=1.0 )"; "capture_passive_output(device, 2.0)";
    "recover_reconnect_prompt(port, device, 30.0)"; "before_boot_ids[-1] != after_boot_ids[-1]";
    "display_health_problem( before_boundary_output, minimum=2, require_progress=True";
    "framebuffer_hash_problem("; "display_health_problem( full_health_output, minimum=3, require_progress=True";
    "MICRONUX:M9:USB-RECONNECT:PASS"] "hardware-disconnect-behavior" ].

(** ** Display test *)

Definition required_display_test : list string :=
  ["ioctl(fd, FBIOBLANK, blank)"; "set_framebuffer_blank(FB_BLANK_POWERDOWN)";
    "ioctl(console_fd, KDSETMODE, KD_TEXT)"; "set_framebuffer_blank(FB_BLANK_UNBLANK)";
    "ioctl(console_fd, KDSETMODE, KD_GRAPHICS)"; "open_framebuffer(&fix, &var)"; "touch_status_ready(status)";
    (sh "strcmp(status, `unavailable\n`) != 0"); "restore_console_state()"; "(void)atexit(restore_console)";
    "(void)signal(SIGINT, handle_signal)"; "(void)signal(SIGTERM, handle_signal)";
    "MICRONUX:M9:DISPLAY-TEST:PASS mode=check"; "MICRONUX:M9:DISPLAY-TEST:PASS mode=draw console=restored";
    "MICRONUX:M9:DISPLAY-TEST:PASS mode=touch points=5"].

Definition restore_console (src : sources) : result string :=
  display_test_compact ← display_test_compact src; source_block display_test_compact
    "static int restore_console_state(void)" "static void restore_console(void)"
    "display-test-restore-block-missing".

Definition acquire_graphics (src : sources) : result string :=
  display_test_compact ← display_test_compact src; source_block display_test_compact
    "static int acquire_graphics(void)" "static int acquire_lock(void)" "display-test-acquire-block-missing".

Definition display_check (src : sources) : result string :=
  display_test_compact ← display_test_compact src; source_block display_test_compact
    "static int run_check(void)" "static int run_draw(unsigned int seconds)" "display-test-check-block-missing".

Definition display_main (src : sources) : result string :=
  display_test_compact ← display_test_compact src; source_block display_test_compact
    "int main(int argc, char **argv)" "return result; }" "display-test-main-block-missing".

Definition rootfs_init_text (src : sources) : result string :=
  read_text src rootfs_init.

Definition display_test_steps (src : sources) : list step :=
  map (λ token, counted (has token (display_test_compact src)) ("display-test-binding-missing:" +:+ token))
    required_display_test ++
  [ counted (lacks "boot_ready" (display_test_text src)) "display-test-premature-boot-ready-gate";
    counted_as 1 (restore_console src);
    require_order (restore_console src) ["set_framebuffer_blank(FB_BLANK_POWERDOWN)";
    "ioctl(console_fd, KDSETMODE, KD_TEXT)"; "set_framebuffer_blank(FB_BLANK_UNBLANK)"; "graphics_active = 0";
    "close(console_fd)"] "display-test-restore";
    counted (occurs "&& !first_error" 3 (restore_console src)) "display-test-restore-first-error";
    counted_as 1 (acquire_graphics src);
    require_order (acquire_graphics src) [(sh "open(`/dev/tty1`, O_RDWR | O_CLOEXEC)");
    "ioctl(console_fd, KDSETMODE, KD_GRAPHICS)"; "graphics_active = 1";
    "set_framebuffer_blank(FB_BLANK_UNBLANK)"] "display-test-acquire";
    counted_as 1 (display_check src);
    require_order (display_check src) ["open_framebuffer(&fix, &var)";
    "open_touch(touch_path, sizeof(touch_path))"; "read_touch_status(status, sizeof(status))";
    "touch >= 0 && !touch_status_ready(status)"; (sh "touch < 0 && strcmp(status, `unavailable\n`) != 0");
    "MICRONUX:M9:DISPLAY-TEST:PASS mode=check"] "display-test-check";
    counted_as 1 (display_main src);
    require_order (display_main src) ["acquire_lock()"; "atexit(restore_console)";
    "signal(SIGINT, handle_signal)"; "signal(SIGTERM, handle_signal)"; "run_check()"; "run_draw(value)";
    "run_touch(value)"; "restore_console_state()"] "display-test-main";
    assigned (rootfs_init_text src) ].

(** ** Rootfs *)

Definition required_rootfs : list string :=
  ["MICRONUX:M9.2:COLD-BOOT state=trigger action=cold_init"; (sh "echo 1 >`$display_sysfs/cold_init`");
    "SCANOUT_QUALIFIED_QUIESCENT"; "display_reveal_allowed=0"; (sh "if [ `$display_reveal_allowed` -eq 1 ]");
    "reason=native-state-changed"; "RUNTIME_REVEALED"; "reason=framebuffer-device-timeout";
    "reason=status-render mode=headless"; "reason=display-reveal mode=headless"].

Definition cold_trigger (src : sources) : result Z :=
  rootfs_init_text ← rootfs_init_text src; index (sh "if [ `$native_display_state` = PROBED_QUIESCENT ]")
    rootfs_init_text.

Definition cold_write (src : sources) : result Z :=
  rootfs_init_text ← rootfs_init_text src; cold_trigger ← cold_trigger src; index_from
    (sh "echo 1 >`$display_sysfs/cold_init`") rootfs_init_text cold_trigger.

Definition scanout_gate (src : sources) : result Z :=
  rootfs_init_text ← rootfs_init_text src; cold_write ← cold_write src; index_from
    (sh "if [ `$native_display_state` = SCANOUT_QUALIFIED_QUIESCENT ]") rootfs_init_text cold_write.

Definition native_reveal_allow (src : sources) : result Z :=
  rootfs_init_text ← rootfs_init_text src; scanout_gate ← scanout_gate src; index_from
    "display_reveal_allowed=1" rootfs_init_text scanout_gate.

Definition legacy_reveal_allow (src : sources) : result Z :=
  rootfs_init_text ← rootfs_init_text src; native_reveal_allow ← native_reveal_allow src; index_from
    (sh "if [ `$native_display` -eq 0 ] && [ -c /dev/fb0 ] && [ -c /dev/tty1 ]; then") rootfs_init_text
    native_reveal_allow.

Definition framebuffer_gate (src : sources) : result Z :=
  rootfs_init_text ← rootfs_init_text src; legacy_reveal_allow ← legacy_reveal_allow src; index_from
    (sh "if [ `$display_reveal_allowed` -eq 1 ]") rootfs_init_text legacy_reveal_allow.

Definition render (src : sources) : result Z :=
  rootfs_init_text ← rootfs_init_text src; framebuffer_gate ← framebuffer_gate src; index_from "} >/dev/tty1"
    rootfs_init_text framebuffer_gate.

Definition pre_reveal_state (src : sources) : result Z :=
  rootfs_init_text ← rootfs_init_text src; render ← render src; index_from
    (sh "if [ `$native_display_state` != SCANOUT_QUALIFIED_QUIESCENT ]") rootfs_init_text render.

Definition reveal_write (src : sources) : result Z :=
  rootfs_init_text ← rootfs_init_text src; pre_reveal_state ← pre_reveal_state src; index_from
    (sh "echo 1 >`$display_sysfs/boot_ready`") rootfs_init_text pre_reveal_state.

Definition revealed_state (src : sources) : result Z :=
  rootfs_init_text ← rootfs_init_text src; reveal_write ← reveal_write src; index_from
    (sh "if [ `$native_display_state` = RUNTIME_REVEALED ]") rootfs_init_text reveal_write.

Definition shell_ready (src : sources) : result Z :=
  rootfs_init_text ← rootfs_init_text src; revealed_state ← revealed_state src; index_from
    "MICRONUX:M6:COMBINED:SHELL ready" rootfs_init_text revealed_state.

Definition display_block (src : sources) : result string :=
  rootfs_init_text ← rootfs_init_text src; framebuffer_gate ← framebuffer_gate src; shell_ready ← shell_ready
    src; Ok (slice rootfs_init_text framebuffer_gate shell_ready).

Definition rootfs_steps (src : sources) : list step :=
  map (λ token, required (has token (rootfs_init_text src)) ("rootfs-cold-boot-binding-missing:" +:+ token))
    required_rootfs ++
  [ assigned (cold_trigger src);
    assigned (cold_write src);
    assigned (scanout_gate src);
    assigned (native_reveal_allow src);
    assigned (legacy_reveal_allow src);
    assigned (framebuffer_gate src);
    assigned (render src);
    assigned (pre_reveal_state src);
    assigned (reveal_write src);
    assigned (revealed_state src);
    assigned (shell_ready src);
    required (cold_trigger ← cold_trigger src; cold_write ← cold_write src; scanout_gate ← scanout_gate src;
    native_reveal_allow ← native_reveal_allow src; legacy_reveal_allow ← legacy_reveal_allow src;
    framebuffer_gate ← framebuffer_gate src; render ← render src; pre_reveal_state ← pre_reveal_state src;
    reveal_write ← reveal_write src; revealed_state ← revealed_state src; shell_ready ← shell_ready src; Ok
    ((cold_trigger <? cold_write) && (cold_write <? scanout_gate) && (scanout_gate <? native_reveal_allow) &&
    (native_reveal_allow <? legacy_reveal_allow) && (legacy_reveal_allow <? framebuffer_gate) &&
    (framebuffer_gate <? render) && (render <? pre_reveal_state) && (pre_reveal_state <? reveal_write) &&
    (reveal_write <? revealed_state) && (revealed_state <? shell_ready))) "rootfs-cold-boot-order";
    required (lacks "exit 1" (display_block src)) "rootfs-display-failure-kills-pid1" ].

(** ** Device tree *)

Definition required_dts : list string :=
  ["display_pool: display-pool@49300000"; "reg = <0x49300000 0x00400000>;"; "user_pool: user-pool@49700000";
    "memory-region = <&display_pool>;"].

Definition m9_dts_text (src : sources) : result string :=
  read_text src (default "" (device_trees !! 1%nat)).

Definition m9_dts_compact (src : sources) : result string :=
  m9_dts_text ← m9_dts_text src; Ok (compact m9_dts_text).

Definition required_m9_dts : list string :=
  ["display_pool: display-pool@49300000 { reg = <0x49300000 0x00400000>; no-map; };"; "interrupts = <18>;";
    "espressif,handoff-address = <0x49f00000>;"; "espressif,required-handoff-abi = <3>;";
    "espressif,required-silicon-revision = <103>;"; "espressif,uncached-offset = <0x40000000>;";
    (sh "firmware-name = `micronux/jd9365-waveshare-10.1-v2.bin`;"); "memory-region = <&display_pool>;"; (sh
    ("reg-names = `dsi-host`, `dsi-bridge`, `dma-pms`, `gdma`, `i2c`, `intr-matrix`, `gpio`, `iomux`, " +:+
    "`hp-clkrst`, `pmu`, `efuse`;"))].

Definition required_m9_resources : list string :=
  ["<0x500a0000 0x00000800>"; "<0x500a0800 0x00000104>"; "<0x500a6000 0x00001000>"; "<0x50081000 0x00001000>";
    "<0x500c4000 0x00001000>"; "<0x500d6000 0x00001000>"; "<0x500e0000 0x00001000>"; "<0x500e1000 0x00001000>";
    "<0x500e6000 0x00001000>"; "<0x50115000 0x00001000>"; "<0x5012d000 0x00001000>"].

Definition m7_dts_text (src : sources) : result string :=
  read_text src (default "" (device_trees !! 0%nat)).

Definition device_tree_steps (src : sources) : list step :=
  flat_map (λ device_tree, [ assigned (read_text src device_tree) ] ++
  map (λ token, required (has token (read_text src device_tree)) ("dts-binding-missing:" +:+ name_of device_tree
    +:+ ":" +:+ token)) required_dts) device_trees ++
  [ assigned (m9_dts_text src) ] ++
  map (λ token, required (has token (m9_dts_compact src)) ("cold-dts-binding-missing:" +:+ token))
    (required_m9_dts ++ required_m9_resources) ++
  [ assigned (m7_dts_text src);
    counted (has "espressif,dual-slot; espressif,allow-single-slot;" (m9_dts_compact src))
    "sd-isolation-m9-opt-in";
    counted (has (sh "microsd: slot@0 { reg = <0>; status = `disabled`;") (m9_dts_compact src))
    "sd-isolation-m9-slot0-disabled";
    counted (m9_dts_compact ← m9_dts_compact src; Ok ((contains
    "c6_sdio: slot@1 { reg = <1>; max-frequency = <20000000>; bus-width = <4>; non-removable;" m9_dts_compact)
    && (contains "no-sd;" m9_dts_compact))) "sd-isolation-m9-slot1-retained";
    counted (m7_dts_text ← m7_dts_text src; Ok ((negb (contains "espressif,allow-single-slot" m7_dts_text)) &&
    (negb (contains (sh "status = `disabled`;") m7_dts_text)))) "sd-isolation-m7-unchanged" ].

(** ** Firmware *)

Definition firmware_dir : string :=
  "buildroot-external/package/micronux-jd9365-firmware".

Definition firmware_blob (src : sources) : result bytes :=
  document ← panel_document src; Firmware.build_blob document.

Definition firmware_magic (src : sources) : result bytes :=
  blob ← firmware_blob src; Ok (take 8 blob).

Definition firmware_header_fields (src : sources) : result (list Z) :=
  blob ← firmware_blob src; Struct.unpack_from Struct.Little Firmware.HEADER blob 8.

Definition firmware_payload (src : sources) : result bytes :=
  blob ← firmware_blob src; fields ← firmware_header_fields src; Ok (drop (Z.to_nat (nth 1 fields 0)) blob).

Definition expected_firmware_header : list Z :=
  [1; Z.of_nat Firmware.HEADER_size; 204; 4; 1020; COLD_PANEL_PAYLOAD_CRC32; 0x7].

Definition FIRMWARE_SHA256 : string :=
  "5f5d5d5fde2471130c3508160763235320854beb561dda049d066475e2bbf0f3".

Definition firmware_test_text (src : sources) : result string :=
  read_text src "buildroot-external/package/micronux-jd9365-firmware/test_firmware.py".

Definition firmware_mk_text (src : sources) : result string :=
  read_text src "buildroot-external/package/micronux-jd9365-firmware/micronux-jd9365-firmware.mk".

Definition required_firmware_test : list string :=
  ["EXPECTED_PAYLOAD_CRC32 = 0xCEA07F9B";
    (sh "EXPECTED_BLOB_SHA256 = `5f5d5d5fde2471130c3508160763235320854beb561dda049d066475e2bbf0f3`");
    "if PINNED_SOURCE is not None:"; (sh "`optional upstream source snapshot for a full record-by-record `")].

Definition defconfig_text (src : sources) : result string :=
  read_text src "buildroot-external/configs/micronux_esp32p4_gui_foundation_defconfig".

Definition firmware_steps (src : sources) : list step :=
  [ assigned (panel_document src);
    assigned (firmware_blob src);
    required (blob ← firmware_blob src; Ok (bool_decide (Firmware.HEADER_size ≤ length blob)%nat))
    "firmware-binding-truncated-header";
    assigned (firmware_header_fields src);
    required (magic ← firmware_magic src; fields ← firmware_header_fields src; Ok (bool_decide (magic = encode
    "MNJD9365" ∧ take 7 fields = expected_firmware_header))) "firmware-binding-header";
    required (blob ← firmware_blob src; fields ← firmware_header_fields src; payload ← firmware_payload src; Ok
    (bool_decide (blen blob = nth 1 fields 0 + nth 4 fields 0 ∧ Z.land (crc32_u32 payload) 0xFFFFFFFF =
    COLD_PANEL_PAYLOAD_CRC32))) "firmware-binding-payload";
    required (blob ← firmware_blob src; Ok (bool_decide (sha256_hex blob = FIRMWARE_SHA256)))
    "firmware-binding-sha256";
    assigned (firmware_test_text src);
    assigned (firmware_mk_text src) ] ++
  map (λ token, required (has token (firmware_test_text src)) ("firmware-test-binding-missing:" +:+ token))
    required_firmware_test ++
  map (λ forbidden, required (lacks forbidden (firmware_mk_text src)) ("firmware-build-hidden-input:" +:+
    forbidden)) ["managed_components"; "--pinned-source"] ++
  [ assigned (defconfig_text src);
    required (has "BR2_PACKAGE_MICRONUX_JD9365_FIRMWARE=y" (defconfig_text src)) "firmware-package-not-selected"
    ].

(** ** The function *)

Definition bind_steps (src : sources) : list step :=
  patch_texts_steps src ++ source_texts_steps src ++ pinned_sources_steps src ++ adopted_patch_steps src ++
    cold_patch_steps src ++ scanout_patch_steps src ++ reveal_and_irq_steps src ++ diagnostic_hp_steps src ++
    diagnostic_gdma_steps src ++ gdma_masks_steps src ++ gdma_semantics_steps src ++ scanout_i2c_steps src ++
    scanout_snapshot_steps src ++ scanout_fail_dark_steps src ++ arm_sequence_steps src ++ arm_failures_steps
    src ++ policy_deletion_steps src ++ policy_diagnostics_steps src ++ feed_bridge_steps src ++
    feed_rearm_steps src ++ feed_telemetry_steps src ++ epoch_and_evidence_steps src ++ isolation_and_prep_steps
    src ++ reveal_orders_steps src ++ reveal_interrupt_steps src ++ reveal_failures_steps src ++
    reveal_publication_steps src ++ loader_bindings_steps src ++ loader_orders_steps src ++
    harness_bindings_steps src ++ harness_orders_steps src ++ display_test_steps src ++ rootfs_steps src ++
    device_tree_steps src ++ firmware_steps src.

Definition bind_to_sources (src : sources) : result Z :=
  n ← run_steps 0 (bind_steps src);
  Ok (size required_added + size required_header + size required_pms + size required_loader + size
    required_harness + n + size required_dts * size device_trees + size required_cold_patch + size
    required_cold_patch_layout + size required_ldo_patch + size required_panel_patch + 1 + size
    required_cold_loader + size required_packer + size required_loader_memory + 2 * size stage_builds + size
    required_m9_dts + size required_m9_resources + size required_firmware_test + 13).

(** ** [main] *)

Definition memory_budget (src : sources) : result Z :=
  test_memory_budget (read_text src "buildroot-external/board/micronux/dts-m7/espressif/esp32p4-micronux.dts")
    (read_text src "buildroot-external/board/micronux/dts-m9/espressif/esp32p4-micronux.dts").

Definition pass_line (tests : Z) : string :=
  "MICRONUX:M9.2:MODEL state=pass " +:+
  "tests=" +:+ pretty tests +:+ " legacy_abi=2 cold_abi=3 cold_size=00c0 " +:+
  "cold_flags=00003fff " +:+
  "cold_page=1000 panel_payload_crc=cea07f9b kernel_end=49300000 " +:+
  "buffers=3 rearm=fast-one-shot frame-irq=completion " +:+
  "active-mirror=diagnostic-only policy-predicates=42 " +:+
  "underflow-filler=black telemetry-epoch=reveal " +:+
  "fault-evidence=preserved bandwidth-profile=60mhz-1000mbps " +:+
  "m9-microsd=disabled c6-sdio=retained " +:+
  "physical-long-run=pending".

(** The line that [main] prints before it returns 0. *)
Definition main (src : sources) : result string :=
  contract ← test_contract;
  cold ← test_cold_contract;
  gdma ← test_gdma_enable_semantics;
  mirror ← test_native_active_mirror_semantics;
  budget ← memory_budget src;
  ownership ← test_ownership;
  parser ← test_hardware_parser;
  bindings ← bind_to_sources src;
  Ok (pass_line (contract + cold + gdma + mirror + budget + ownership + parser + bindings)).

Definition fail_line (error : exn) : string := "MICRONUX:M9.2:MODEL state=fail reason=" +:+ exn_msg error.

(** [if __name__ == "__main__"]: the handler of the script, and the script *)
Definition reported (error : exn) : result string :=
  if caught [AssertionError; ContractError; OSError; StructError] error
  then Err (Exn SystemExit (fail_line error)) else Err error.
Definition guarded (outcome : result string) : result string :=
  match outcome with Ok line => Ok line | Err error => reported error end.
Definition script (src : sources) : result string := guarded (main src).

(** ** Theory *)

Lemma bind_total src : total (bind_steps src) = 703.
Proof. by_compute. Qed.

Lemma bind_to_sources_ok src n : bind_to_sources src = Ok n ↔ Forall passes (bind_steps src) ∧ n = 972.
Proof.
  unfold bind_to_sources. rewrite bind_ok_inv. split.
  - intros (m & [Hs ->]%run_steps_ok & E). split; [done|]. rewrite bind_total in E.
    apply (f_equal (λ r, match r with Ok n => n | Err _ => 0 end)) in E. cbn beta iota in E. rewrite <- E. by_compute.
  - intros [Hs ->]. exists 703. rewrite run_steps_ok, bind_total. split; [done|]. by_compute.
Qed.

(** The device trees declare the memory map. *)
Definition budget_ok (src : sources) : Prop :=
  Forall (λ path, ∃ text, read_text src path = Ok text ∧ dts_ok text) device_trees.

Lemma memory_budget_ok src n : memory_budget src = Ok n ↔ n = 12 ∧ budget_ok src.
Proof.
  unfold memory_budget, budget_ok, device_trees. rewrite memory_budget_iff, !Forall_cons, Forall_nil. split.
  - intros (-> & m7 & m9 & ? & ? & ? & ?). split; [done|]. split; [by exists m7|]. split; [by exists m9|done].
  - intros (-> & (m7 & ? & ?) & (m9 & ? & ?) & _). split; [done|]. by exists m7, m9.
Qed.

Lemma main_ok src line : main src = Ok line ↔
  line = pass_line 1178 ∧ budget_ok src ∧ Forall passes (bind_steps src).
Proof.
  destruct contract_tests as (Hcold & Hcontract & Hgdma & Hmirror & Hownership).
  unfold main. rewrite Hcold, Hcontract, Hgdma, Hmirror, Hownership, hardware_tests. cbn [mbind result_bind]. split.
  - intros (budget & [-> Hb]%memory_budget_ok & H)%bind_ok_inv.
    apply bind_ok_inv in H as (n & [Hs ->]%bind_to_sources_ok & H). injection H as <-. exact (conj eq_refl (conj Hb Hs)).
  - intros (-> & Hb & Hs). apply bind_ok_inv. exists 12. split; [exact (proj2 (memory_budget_ok src 12) (conj eq_refl Hb))|].
    apply bind_ok_inv. exists 972. split; [exact (proj2 (bind_to_sources_ok src 972) (conj Hs eq_refl))|]. reflexivity.
Qed.

Lemma main_stops src e : budget_ok src → bind_to_sources src = Err e → main src = Err e.
Proof.
  intros Hb He. destruct contract_tests as (Hcold & Hcontract & Hgdma & Hmirror & Hownership).
  unfold main. rewrite Hcold, Hcontract, Hgdma, Hmirror, Hownership, hardware_tests, He.
  by rewrite (proj2 (memory_budget_ok src 12) (conj eq_refl Hb)).
Qed.

Lemma pinned_file src path hash : Forall passes (pinned_sources_steps src) → (path, hash) ∈ expected_source_hashes →
  ∃ b, file src path = Ok b ∧ sha256_hex b = hash.
Proof.
  unfold pinned_sources_steps. intros [Hs _]%Forall_app Hin. rewrite Forall_flat_map in Hs.
  rewrite Forall_forall in Hs. specialize (Hs _ Hin). cbn beta iota in Hs.
  apply Forall_cons in Hs as [_ Hs]. apply Forall_cons in Hs as [Hs _]. unfold passes, counted in Hs. cbn [verdict] in Hs.
  unfold read_bytes in Hs. destruct (file src path) as [b|]; [|discriminate Hs]. exists b. split; [done|].
  cbn [mbind result_bind] in Hs. injection Hs as Hs. by apply bool_decide_eq_true in Hs.
Qed.

(** The contract test prints its pass line, with 1178 tests, exactly when the device
    trees declare the memory map and every step of [bind_to_sources] over the repository's
    text passes.  Otherwise the first step that does not pass decides: the script reports
    its reason, or passes on an exception, such as the [ValueError] of a missing anchor,
    that the last handler does not name. *)
Lemma contract_script_ok src line :
  script src = Ok line ↔ line = pass_line 1178 ∧ budget_ok src ∧ Forall passes (bind_steps src).
Proof. rewrite <- main_ok. unfold script. destruct (main src) as [l|e]; [done|]. unfold guarded, reported. by destruct (caught _ e). Qed.

Lemma contract_script_stops src pre s rest e :
  budget_ok src → bind_steps src = pre ++ s :: rest → Forall passes pre → stops s e → script src = reported e.
Proof.
  intros Hb Hsteps Hpre Hs. unfold script. rewrite (main_stops src e); [done|done|].
  unfold bind_to_sources. by rewrite Hsteps, (run_steps_first _ _ _ _ e).
Qed.

(** ** What a pass certifies *)

(** The statements of the init script that bring the display up, in the order in which they
    must stand: the panel is started only from the quiescent state, the scanout is
    qualified before a reveal is allowed, the status is rendered before the reveal, and the
    shell is announced last. *)
Definition boot_sequence : list string :=
  [sh "if [ `$native_display_state` = PROBED_QUIESCENT ]"; sh "echo 1 >`$display_sysfs/cold_init`";
   sh "if [ `$native_display_state` = SCANOUT_QUALIFIED_QUIESCENT ]"; "display_reveal_allowed=1";
   sh "if [ `$native_display` -eq 0 ] && [ -c /dev/fb0 ] && [ -c /dev/tty1 ]; then";
   sh "if [ `$display_reveal_allowed` -eq 1 ]"; "} >/dev/tty1";
   sh "if [ `$native_display_state` != SCANOUT_QUALIFIED_QUIESCENT ]"; sh "echo 1 >`$display_sysfs/boot_ready`";
   sh "if [ `$native_display_state` = RUNTIME_REVEALED ]"; "MICRONUX:M6:COMBINED:SHELL ready"].

(** They stand at [places], and nothing from the sixth, the gate of the display, up to the
    last exits: a failing display does not end process 1. *)
Record display_boot (text : string) (places : list nat) : Prop := {
  boot_placed : Forall2 (λ token place, occurs_at text token place) boot_sequence places;
  boot_ordered : ∀ i a b, places !! i = Some a → places !! S i = Some b → (a < b)%nat;
  boot_survives : ∀ gate shell, places !! 5%nat = Some gate → places !! 10%nat = Some shell →
    contains "exit 1" (str_take (shell - gate) (str_drop gate text)) = false;
}.

Lemma index_from_place token text start i : index_from token text start = Ok i →
  ∃ p, i = Z.of_nat p ∧ occurs_at text token p.
Proof.
  unfold index_from. intros E. pose proof (str_find_spec token text (bound text start)) as Hs.
  destruct (str_find token text (bound text start)) as [p|]; [|discriminate E]. injection E as <-. exists p. tauto.
Qed.

Lemma bound_place text p : bound text (Z.of_nat p) = p.
Proof. unfold bound. rewrite (proj2 (Z.ltb_ge _ _)) by lia. lia. Qed.

(** The position an anchor of the init script was found at. *)
Ltac anchored E Ht :=
  rewrite Ht in E; cbn [mbind result_bind] in E; try (apply bind_ok_inv in E as (? & _ & E));
  let p := fresh "p" in let Hp := fresh "Hp" in apply index_from_place in E as (p & -> & Hp).

Lemma rootfs_certified src : Forall passes (rootfs_steps src) →
  ∃ text places, read_text src rootfs_init = Ok text ∧ display_boot text places.
Proof.
  unfold rootfs_steps. intros [_ Hs]%Forall_app. do 11 (apply Forall_cons in Hs as [_ Hs]).
  apply Forall_cons in Hs as [Ho Hs]. apply Forall_cons in Hs as [He _]. unfold passes, required in Ho, He. cbn [verdict] in Ho, He.
  apply bind_ok_inv in Ho as (i0 & E0 & Ho). apply bind_ok_inv in Ho as (i1 & E1 & Ho). apply bind_ok_inv in Ho as (i2 & E2 & Ho).
  apply bind_ok_inv in Ho as (i3 & E3 & Ho). apply bind_ok_inv in Ho as (i4 & E4 & Ho). apply bind_ok_inv in Ho as (i5 & E5 & Ho).
  apply bind_ok_inv in Ho as (i6 & E6 & Ho). apply bind_ok_inv in Ho as (i7 & E7 & Ho). apply bind_ok_inv in Ho as (i8 & E8 & Ho).
  apply bind_ok_inv in Ho as (i9 & E9 & Ho). apply bind_ok_inv in Ho as (i10 & E10 & Ho).
  unfold display_block in He. rewrite E5, E10 in He. unfold cold_trigger in E0.
  destruct (rootfs_init_text src) as [text|e] eqn:Ht; [|discriminate E0]. unfold rootfs_init_text in Ht.
  cbn [mbind result_bind lacks] in He. unfold lacks in He. cbn [mbind result_bind] in He. injection He as He.
  unfold cold_write, scanout_gate, native_reveal_allow, legacy_reveal_allow, framebuffer_gate, render, pre_reveal_state, reveal_write,
    revealed_state, shell_ready, rootfs_init_text in *. cbn [mbind result_bind] in E0. apply index_from_place in E0 as (p0 & -> & Hp0).
  anchored E1 Ht. anchored E2 Ht. anchored E3 Ht. anchored E4 Ht. anchored E5 Ht. anchored E6 Ht. anchored E7 Ht. anchored E8 Ht.
  anchored E9 Ht. anchored E10 Ht. injection Ho as Ho. rewrite !andb_true_iff, !Z.ltb_lt in Ho.
  exists text, [p0; p; p1; p2; p3; p4; p5; p6; p7; p8; p9]. split; [done|]. constructor.
  - unfold boot_sequence. repeat (apply Forall2_cons; split; [assumption|]). apply Forall2_nil. done.
  - intros i a b Ha Hb. do 10 (destruct i as [|i]; [injection Ha as <-; injection Hb as <-; lia|]). discriminate Hb.
  - intros gate shell [= <-] [= <-]. unfold slice in He. rewrite !bound_place in He. by apply negb_true_iff in He.
Qed.

(** The firmware that is built from the panel's description is the one whose digest is
    pinned, and the driver's parser reads it: 204 records, 4 of them the prelude. *)
Definition panel_firmware (src : sources) : Prop :=
  ∃ document blob d, panel_document src = Ok document ∧ Firmware.build_blob document = Ok blob
    ∧ Firmware.parse_blob blob = Ok d ∧ Firmware.record_count d = 204 ∧ Firmware.prelude_count d = 4
    ∧ Firmware.payload_bytes d = 1020 ∧ Firmware.payload_crc32 d = 0xCEA07F9B ∧ blen blob = 1052
    ∧ sha256_hex blob = "5f5d5d5fde2471130c3508160763235320854beb561dda049d066475e2bbf0f3".

Lemma image_header rs n blob : Firmware.is_image rs n blob →
  Struct.unpack_from Struct.Little Firmware.HEADER blob 8 = Ok (Firmware.header_fields (Firmware.describe rs n)).
Proof.
  intros (h & Hh & ->). pose proof (Struct.pack_length _ _ _ _ Hh) as Hl. unfold Struct.unpack_from.
  rewrite raise_when_false by (rewrite !length_app; change (length Firmware.MAGIC) with 8%nat; lia).
  cbn [mbind result_bind]. change (drop 8 (Firmware.MAGIC ++ h ++ Firmware.payload rs)) with (h ++ Firmware.payload rs).
  by rewrite (Struct.fields_pack _ _ _ _ _ Hh).
Qed.

Lemma firmware_certified src : Forall passes (firmware_steps src) → panel_firmware src.
Proof.
  unfold firmware_steps. intros [Hs _]%Forall_app. rewrite !Forall_cons in Hs. destruct Hs as (_ & _ & _ & _ & Hh & _ & Hd & _).
  unfold passes, required in Hh, Hd. cbn [verdict] in Hh, Hd.
  unfold firmware_magic, firmware_header_fields, firmware_blob in Hh, Hd.
  destruct (panel_document src) as [document|e] eqn:Ed; [|discriminate Hd]. cbn [mbind result_bind] in Hh, Hd.
  destruct (Firmware.build_blob document) as [blob|e] eqn:Eb; [|discriminate Hd]. cbn [mbind result_bind] in Hh, Hd.
  injection Hd as Hd%bool_decide_eq_true. pose proof Eb as En. apply bind_ok_inv in En as ([rs n] & En & _).
  pose proof (proj1 (Firmware.build_normalized _ _ _ _ En) Eb) as Hi.
  pose proof (Firmware.parse_image rs n blob (Firmware.normalize_valid _ _ _ En) Hi) as Hp.
  rewrite (image_header rs n blob Hi) in Hh. cbn [mbind result_bind] in Hh. injection Hh as Hh%bool_decide_eq_true.
  destruct Hh as [_ Hf]. unfold Firmware.header_fields, expected_firmware_header in Hf. cbn [take] in Hf.
  injection Hf as H1 H2 H3 H4.
  exists document, blob, (Firmware.describe rs n). rewrite (Firmware.image_length rs n blob Hi).
  split_and!; try done. by rewrite H3.
Qed.

(** C33: What a pass of the contract test certifies.  When the script prints a pass line, it
    is the one with 1178 tests; both device trees declare the memory map; every pinned file
    has its SHA-256; the init script brings the display up in the one safe order, announces
    the shell last, and does not exit in between, so that a failing display does not end
    process 1; and the panel firmware that the generator builds is the pinned one and is
    accepted by the parser, with its 204 records. *)
Theorem contract_pass_certifies src :
  match script src with
  | Ok line =>
      line = pass_line 1178 ∧ budget_ok src
      ∧ (∀ path hash, (path, hash) ∈ expected_source_hashes → ∃ b, file src path = Ok b ∧ sha256_hex b = hash)
      ∧ (∃ text places, read_text src rootfs_init = Ok text ∧ display_boot text places)
      ∧ panel_firmware src
  | Err _ => True
  end.
Proof.
  destruct (script src) as [line|e] eqn:E; [|done]. apply contract_script_ok in E as (-> & Hb & Hs). unfold bind_steps in Hs.
  rewrite !Forall_app in Hs. destruct_and!. split_and!; [done|done| | |].
  - intros path hash Hin. by eapply pinned_file.
  - by apply rootfs_certified.
  - by apply firmware_certified.
Qed.

(** The checked-in panel source passes the firmware steps up to the blob's SHA-256. *)
Lemma checked_in_firmware f :
  Forall passes (take 7 (firmware_steps {| file := f; panel_document := Ok jd9365_document |})).
Proof. repeat constructor; unfold passes; by_compute. Qed.

(** A missing anchor is no reason that the script reports. *)
Lemma missing_anchor token text start e : index_from token text start = Err e → reported e = Err e.
Proof. unfold index_from. destruct (str_find _ _ _); [done|]. by intros [= <-]. Qed.
