(* ===== verification/JsonText.v ===== *)
(** * [json.dumps(value, sort_keys=True, separators=(",", ":"))]

    The values the run log records and their text.  A string is represented by its
    UTF-8 encoding; [dumps] writes every character beyond printable ASCII as an
    escape, so a text of [dumps] is one line of printable ASCII ([dumps_printable]). *)

From S2P Require Import Prelude PyBytes PyStr Utf8 PyFloat Regex LineTemplate.

(** [VSeconds x] is [round(x, 3)]. *)
#[warnings="-register-all"]
Inductive value :=
  | VNone
  | VBool (b : bool)
  | VInt (z : Z)
  | VSeconds (x : float)
  | VStr (s : string)
  | VList (l : list value)
  | VDict (d : list (string * value)).

(** ** Characters *)

Fixpoint codes (s : string) : list Z :=
  match s with
  | EmptyString => []
  | String c s => code c :: codes s
  end.

(** [ord(c)] of a character in UTF-8 *)
Definition code_point (c : string) : Z :=
  match codes c with
  | [a] => a
  | [a; b] => (a - 0xC0) * 64 + (b - 0x80)
  | [a; b; c] => ((a - 0xE0) * 64 + (b - 0x80)) * 64 + (c - 0x80)
  | [a; b; c; d] => (((a - 0xF0) * 64 + (b - 0x80)) * 64 + (c - 0x80)) * 64 + (d - 0x80)
  | _ => 0
  end.

Definition BACKSLASH : string := String (char_of 92) "".
Definition QUOTE : string := String (char_of 34) "".

Definition escape_u (n : Z) : string := BACKSLASH +:+ "u" +:+ zfill 4 (fmt_x n).

(** One character of a string: the short escapes, printable ASCII as it is, the rest
    in hexadecimal, beyond the basic plane as a surrogate pair. *)
Definition escape_char (c : string) : string :=
  let n := code_point c in
  if decide (n = 34 ∨ n = 92) then BACKSLASH +:+ String (char_of n) ""
  else if decide (n = 10) then BACKSLASH +:+ "n"
  else if decide (n = 13) then BACKSLASH +:+ "r"
  else if decide (n = 9) then BACKSLASH +:+ "t"
  else if decide (n = 12) then BACKSLASH +:+ "f"
  else if decide (n = 8) then BACKSLASH +:+ "b"
  else if decide (32 ≤ n ≤ 126) then String (char_of n) ""
  else if decide (n < 0x10000) then escape_u n
  else let v := n - 0x10000 in
       escape_u (Z.lor 0xD800 (Z.land (Z.shiftr v 10) 0x3FF)) +:+ escape_u (Z.lor 0xDC00 (Z.land v 0x3FF)).

Definition dump_str (s : string) : string :=
  QUOTE +:+ str_join "" (map escape_char (text_chars s)) +:+ QUOTE.

(** ** Numbers *)

Fixpoint drop_zeros (s : string) : string :=
  match s with
  | String c s' => if decide (c = "0"%char) then drop_zeros s' else s
  | EmptyString => EmptyString
  end.

(** [repr(round(x, 3))]: at most 15 significant digits of a decimal, which are those of
    the number, without the zeros at the end but for one after the point. *)
Definition repr_round3 (x : float) : string :=
  let kept := drop_zeros (str_rev (fmt_3f x) "") in
  str_rev (if startswith "." kept then "0" +:+ kept else kept) "".

(** ** Values *)

Definition key_le (a b : string * string) : Prop := String.leb a.1 b.1 = true.
#[global] Instance key_le_dec : RelDecision key_le.
Proof. intros a b. unfold key_le. apply _. Defined.

Fixpoint dumps (v : value) : string :=
  match v with
  | VNone => "null"
  | VBool b => if b then "true" else "false"
  | VInt z => pretty z
  | VSeconds x => repr_round3 x
  | VStr s => dump_str s
  | VList l => "[" +:+ str_join "," (map dumps l) +:+ "]"
  | VDict d =>
      "{" +:+ str_join "," (map (λ e, dump_str e.1 +:+ ":" +:+ e.2)
                (merge_sort key_le (map (λ e, (e.1, dumps e.2)) d))) +:+ "}"
  end.

Example dumps_example :
  dumps (VDict [("b", VList [VInt (-3); VBool true; VNone]); ("a", VSeconds (float_of_string "12.3456"));
                ("c", VStr (chars_of [0xC3; 0xA9; 10; 34; 92; 127; 0xE2; 0x82; 0xAC; 0xF0; 0x9F; 0x98; 0x80]));
                ("d", VSeconds (float_of_string "7.0"))])
  = str_replace "'" QUOTE "{'a':12.346,'b':[-3,true,null],'c':'\u00e9\n\'\\\u007f\u20ac\ud83d\ude00','d':7.0}".
Proof. by_compute. Qed.

(** ** The text is one printable line *)

Definition printable_cls : cls := mkCls false [(32, 126)].
Definition printable (s : string) : Prop := all_in printable_cls s = true.

Lemma printable_app a b : printable a → printable b → printable (a +:+ b).
Proof. unfold printable. intros Ha Hb. by rewrite all_in_app, Ha, Hb. Qed.

Lemma printable_cons c s : in_cls printable_cls c = true → printable s → printable (String c s).
Proof. unfold printable. cbn [all_in]. by intros -> ->. Qed.

Lemma printable_in k s : (∀ c, in_cls k c = true → in_cls printable_cls c = true) → all_in k s = true → printable s.
Proof.
  intros Hk. unfold printable. induction s as [|c s IH]; cbn [all_in]; [done|].
  rewrite !andb_true_iff. intros [??]. split; auto.
Qed.

Lemma code_char n : 0 ≤ n < 256 → code (char_of n) = n.
Proof.
  intros Hn. unfold code, char_of. rewrite Ascii.N_ascii_embedding; [|lia]. by rewrite Z2N.id by lia.
Qed.

Lemma printable_char n : 32 ≤ n ≤ 126 → in_cls printable_cls (char_of n) = true.
Proof. intros Hn. unfold in_cls. cbn. rewrite code_char by lia. cbn. destruct (Z.leb_spec 32 n), (Z.leb_spec n 126); done || lia. Qed.

Lemma printable_hex_fuel n z acc : printable acc → printable (hex_fuel n z acc).
Proof.
  revert z acc. induction n as [|n IH]; intros z acc Hacc; [done|]. cbn [hex_fuel].
  assert (0 ≤ z mod 16 < 16) by (apply Z.mod_pos_bound; lia).
  assert (printable (String (hex_digit (z mod 16)) acc)).
  { apply printable_cons; [|done]. unfold hex_digit. case_decide; apply printable_char; lia. }
  case_decide; auto.
Qed.

Lemma printable_zfill n s : printable s → printable (zfill n s).
Proof. intros Hs. unfold zfill. induction (n - String.length s)%nat as [|k IH]; [done|]. by apply printable_cons. Qed.

Lemma printable_pretty (z : Z) : printable (pretty z).
Proof.
  assert (∀ k : Z, 0 ≤ k → printable (pretty k)) as Hpos.
  { intros k Hk. destruct (pretty_nonneg k Hk) as [Hd _]. revert Hd. apply printable_in.
    intros c. unfold in_cls. cbn. destruct (Z.leb_spec 48 (code c)), (Z.leb_spec (code c) 57); try done.
    intros _. destruct (Z.leb_spec 32 (code c)), (Z.leb_spec (code c) 126); done || lia. }
  destruct z as [|p|p]; [apply Hpos; lia..|]. change (pretty (Z.neg p)) with ("-" +:+ pretty (Z.pos p)).
  apply printable_app; [done|apply Hpos; lia].
Qed.

Lemma printable_join sep l : printable sep → Forall printable l → printable (str_join sep l).
Proof.
  intros Hsep. induction 1 as [|x l Hx Hl IH]; [done|]. cbn [str_join]. destruct l; [done|].
  by repeat apply printable_app.
Qed.

Lemma printable_rev s acc : printable s → printable acc → printable (str_rev s acc).
Proof.
  revert acc. induction s as [|c s IH]; intros acc Hs Hacc; [done|]. cbn [str_rev].
  unfold printable in Hs. cbn [all_in] in Hs. apply andb_true_iff in Hs as [Hc Hs]. apply IH; [done|by apply printable_cons].
Qed.

Lemma printable_drop_zeros s : printable s → printable (drop_zeros s).
Proof.
  induction s as [|c s IH]; intros Hs; [done|]. cbn [drop_zeros]. case_decide; [|done].
  apply IH. unfold printable in *. cbn [all_in] in Hs. by apply andb_true_iff in Hs as [_ ?].
Qed.

Lemma printable_fmt_f p x : printable (fmt_f p x).
Proof.
  assert (∀ n d, printable (fixed p n d)) as Hfixed.
  { intros n d. unfold fixed, fmt_d. apply printable_app; [apply printable_pretty|].
    apply printable_app; [done|]. apply printable_zfill, printable_pretty. }
  destruct x as [s|s| |s m e]; cbn [fmt_f]; [|by destruct s|done|]; (apply printable_app; [by destruct s|]); [apply Hfixed|].
  case_decide; apply Hfixed.
Qed.

Lemma printable_repr_round3 x : printable (repr_round3 x).
Proof.
  unfold repr_round3. assert (printable (drop_zeros (str_rev (fmt_3f x) ""))) as Hk
    by (apply printable_drop_zeros, printable_rev; [apply printable_fmt_f|done]).
  apply printable_rev; [|done]. destruct (startswith "." _); [by apply printable_app|done].
Qed.

Lemma printable_escape_u n : printable (escape_u n).
Proof. unfold escape_u. apply printable_app; [done|]. apply printable_app; [done|]. by apply printable_zfill, printable_hex_fuel. Qed.

Lemma printable_escape_char c : printable (escape_char c).
Proof.
  unfold escape_char. cbn zeta. repeat case_decide; try done.
  - apply printable_app; [done|]. apply printable_cons; [|done]. apply printable_char. lia.
  - apply printable_cons; [|done]. by apply printable_char.
  - apply printable_escape_u.
  - apply printable_app; apply printable_escape_u.
Qed.

Lemma printable_dump_str s : printable (dump_str s).
Proof.
  unfold dump_str. apply printable_app; [done|]. apply printable_app; [|done].
  apply printable_join; [done|]. apply Forall_map, Forall_forall. intros c _. apply printable_escape_char.
Qed.

(** Induction over the values inside lists and dicts. *)
Lemma value_all_ind (P : value → Prop) :
  P VNone → (∀ b, P (VBool b)) → (∀ z, P (VInt z)) → (∀ x, P (VSeconds x)) → (∀ s, P (VStr s)) →
  (∀ l, Forall P l → P (VList l)) → (∀ d, Forall (λ e, P e.2) d → P (VDict d)) → ∀ v, P v.
Proof.
  intros HN HB HI HX HS HL HD. fix IH 1. intros [|b|z|x|s|l|d].
  - exact HN.
  - exact (HB b).
  - exact (HI z).
  - exact (HX x).
  - exact (HS s).
  - apply HL. induction l as [|v l IHl]; constructor; [apply IH|exact IHl].
  - apply HD. induction d as [|e d IHd]; constructor; [apply IH|exact IHd].
Qed.

Lemma dumps_printable v : printable (dumps v).
Proof.
  induction v as [|b| | | |l Hl|d Hd] using value_all_ind; cbn [dumps].
  - done.
  - by destruct b.
  - apply printable_pretty.
  - apply printable_repr_round3.
  - apply printable_dump_str.
  - apply printable_app; [done|]. apply printable_app; [|done]. apply printable_join; [done|]. by apply Forall_map.
  - apply printable_app; [done|]. apply printable_app; [|done]. apply printable_join; [done|].
    apply Forall_map. rewrite merge_sort_Permutation. apply Forall_map. eapply Forall_impl; [exact Hd|].
    intros [k v] Hv. cbn in *. apply printable_app; [apply printable_dump_str|]. by apply printable_app.
Qed.
