(* ===== verification/RunLog.v ===== *)
(** * scripts/m9-run-logged.py: a run of the M9 gate with its transcript

    The wrapper starts the gate in a child process, copies its output to the terminal
    and to a transcript, and seals the transcript with a digest.  A [run_host] is the
    record of what it uses of the operating system; files are named by their resolved
    paths, as the wrapper opens each of them once.  Paths are those of POSIX. *)

From S2P Require Import Prelude PyBytes PyStr Utf8 PyFloat Sha256 RegexLines Io JsonText.

(** ** The host *)

(** [datetime.now(timezone.utc)] *)
Record datetime := {
  year : Z; month : Z; day : Z; hour : Z; minute : Z; second : Z; microsecond : Z;
}.

Record run_host (W : Type) := {
  r_now : W → datetime * W;
  r_monotonic : W → float * W;
  (** [uuid.uuid4().int] *)
  r_uuid4 : W → Z * W;
  (** [str.isalnum] of a character beyond ASCII *)
  r_wide_alnum : string → bool;
  (** The return code and the decoded output of [subprocess.run(arguments)]. *)
  r_run : list string → W → result (Z * string) * W;
  r_resolve : string → W → string * W;
  r_is_file : string → W → bool * W;
  r_stat_size : string → W → result Z * W;
  (** The content of a file from [path.open("rb")] to its end. *)
  r_read : string → W → result bytes * W;
  r_make_parent : string → W → result unit * W;
  (** [path.open("xb")], then [write], [flush], [os.fsync] and [close] of it *)
  r_create : string → W → result unit * W;
  r_write : string → bytes → W → result unit * W;
  r_flush : string → W → result unit * W;
  r_fsync : string → W → result unit * W;
  r_close : string → W → result unit * W;
  (** [sys.stdout.buffer] *)
  r_stdout_write : bytes → W → result unit * W;
  r_stdout_flush : W → result unit * W;
  (** [subprocess.Popen(arguments, cwd=...)], and [read], [wait], [poll], [terminate] and
      [kill] of the child *)
  r_spawn : list string → string → W → result unit * W;
  r_child_read : Z → W → result bytes * W;
  r_child_wait : option Z → W → result Z * W;
  r_child_poll : W → result (option Z) * W;
  r_child_terminate : W → result unit * W;
  r_child_kill : W → result unit * W;
}.
Arguments r_now {W}. Arguments r_monotonic {W}. Arguments r_uuid4 {W}. Arguments r_wide_alnum {W}.
Arguments r_run {W}. Arguments r_resolve {W}. Arguments r_is_file {W}. Arguments r_stat_size {W}.
Arguments r_read {W}. Arguments r_make_parent {W}. Arguments r_create {W}. Arguments r_write {W}.
Arguments r_flush {W}. Arguments r_fsync {W}. Arguments r_close {W}. Arguments r_stdout_write {W}.
Arguments r_stdout_flush {W}. Arguments r_spawn {W}. Arguments r_child_read {W}. Arguments r_child_wait {W}.
Arguments r_child_poll {W}. Arguments r_child_terminate {W}. Arguments r_child_kill {W}.

(** Where the wrapper lies: [Path(__file__).resolve()], its grandparent and
    [sys.executable]. *)
Record place := { wrapper : string; repo : string; executable : string }.

Record run_arguments := { log_file : option string; remainder : list string }.

(** ** Pure parts *)

Definition fmt_0d (width : nat) (z : Z) : string := zfill width (pretty z).

(** [isoformat(timespec="milliseconds").replace("+00:00", "Z")] *)
Definition isoformat (t : datetime) : string :=
  str_replace "+00:00" "Z" (
    fmt_0d 4 (year t) +:+ "-" +:+ fmt_0d 2 (month t) +:+ "-" +:+ fmt_0d 2 (day t) +:+ "T" +:+
    fmt_0d 2 (hour t) +:+ ":" +:+ fmt_0d 2 (minute t) +:+ ":" +:+ fmt_0d 2 (second t) +:+ "." +:+
    fmt_0d 3 (microsecond t `div` 1000) +:+ "+00:00").

(** [strftime("%Y%m%dT%H%M%SZ")] *)
Definition timestamp (t : datetime) : string :=
  pretty (year t) +:+ fmt_0d 2 (month t) +:+ fmt_0d 2 (day t) +:+ "T" +:+
  fmt_0d 2 (hour t) +:+ fmt_0d 2 (minute t) +:+ fmt_0d 2 (second t) +:+ "Z".

(** [path / name] *)
Definition is_absolute (path : string) : bool := startswith "/" path.
Definition join (path name : string) : string := if is_absolute name then name else path +:+ "/" +:+ name.

(** [path.name] *)
Definition path_name (path : string) : string := default "" (last (split_on "/"%char path)).

(** [argument.split("=", 1)[1]] of an argument that has the sign *)
Definition after_equals (argument : string) : string :=
  match cut_equals argument with Some (_, value) => value | None => "" end.

Fixpoint argument_value (arguments : list string) (option_name : string) : option string :=
  match arguments with
  | [] => None
  | argument :: rest =>
      match rest with
      | value :: _ =>
          if decide (argument = option_name) then Some value
          else if startswith (option_name +:+ "=") argument then Some (after_equals argument)
          else argument_value rest option_name
      | [] => if startswith (option_name +:+ "=") argument then Some (after_equals argument) else None
      end
  end.

(** [value or other] *)
Definition or_text (value : option string) (other : string) : string :=
  match value with Some "" | None => other | Some value => value end.

(** The mode and the port that the transcript names. *)
Definition recorded_mode (harness_args : list string) : string := or_text (argument_value harness_args "--mode") "unknown".
Definition recorded_port (harness_args : list string) : string := or_text (argument_value harness_args "--port") "COM14".

Definition is_alnum_ascii (n : Z) : bool :=
  bool_decide (48 ≤ n ≤ 57 ∨ 65 ≤ n ≤ 90 ∨ 97 ≤ n ≤ 122).

Definition safe_char (wide_alnum : string → bool) (c : string) : string :=
  let n := code_point c in
  if (if decide (n < 128) then is_alnum_ascii n else wide_alnum c) || bool_decide (c = "-" ∨ c = "_") then c else "-".

Definition safe_mode (wide_alnum : string → bool) (mode : string) : string :=
  str_join "" (map (safe_char wide_alnum) (text_chars mode)).

Definition marker (name : string) (payload : value) : bytes :=
  encode ("MICRONUX:M9.2:" +:+ name +:+ " " +:+ dumps payload +:+ nl).

(** [type(error).__name__] *)
Definition class_name (c : exn_class) : string :=
  match c with
  | AssertionError => "AssertionError" | AttributeError => "AttributeError" | BrokenPipeError => "BrokenPipeError"
  | CalledProcessError => "CalledProcessError" | ContractError => "ContractError" | FileExistsError => "FileExistsError"
  | FileNotFoundError => "FileNotFoundError" | FirmwareFormatError => "FirmwareFormatError" | IndexError => "IndexError"
  | KeyboardInterrupt => "KeyboardInterrupt" | KeyError => "KeyError" | OSError => "OSError" | OverflowError => "OverflowError"
  | RuntimeError => "RuntimeError" | SerialException => "SerialException" | SerialTimeoutException => "SerialTimeoutException"
  | StopIteration => "StopIteration" | StructError => "error" | SystemExit => "SystemExit" | TimeoutError => "TimeoutError"
  | TimeoutExpired => "TimeoutExpired" | TypeError => "TypeError" | UnboundLocalError => "UnboundLocalError"
  | UnicodeDecodeError => "UnicodeDecodeError" | UnicodeEncodeError => "UnicodeEncodeError" | ValueError => "ValueError"
  | ZeroDivisionError => "ZeroDivisionError"
  end.

(** [text.encode("ascii")] *)
Definition encode_ascii (text : string) : result bytes :=
  if forallb (λ n, Z.ltb n 128) (codes text) then Ok (encode text)
  else Err (Exn UnicodeEncodeError "'ascii' codec can't encode characters: ordinal not in range(128)").

(** The digest of a file that is read a mebibyte at a time. *)
Definition CHUNK : nat := Z.to_nat (1024 * 1024).
Fixpoint update_loop (fuel : nat) (source digest : bytes) : bytes :=
  match fuel with
  | O => digest
  | S fuel =>
      match take CHUNK source with
      | [] => digest
      | chunk => update_loop fuel (drop CHUNK source) (digest ++ chunk)
      end
  end.
Definition sha256_content (source : bytes) : string := sha256_hex (update_loop (S (length source)) source []).

(** ** Programs *)

Section Wrapper.
Context {W : Type} (H : run_host W).

(** The outcome of [m] as a value. *)
Definition reify {A} (m : io W A) : io W (result A) := λ s,
  match m s with Some (r, s) => Some (Ok r, s) | None => None end.

Definition utc_now : io W string := t ← query (r_now H); mret (isoformat t).

Definition sha256_file (path : string) : io W string :=
  source ← effect (r_read H path); mret (sha256_content source).

Definition git_text (repo : string) (arguments : list string) : io W (option string) :=
  result ← effect (r_run H (["git"; "-C"; repo] ++ arguments));
  mret (if decide (result.1 ≠ 0) then None else Some (strip result.2)).

Definition artifact_record (path : string) : io W value :=
  is_file ← query (r_is_file H path);
  if is_file : bool then
    size ← effect (r_stat_size H path);
    sha256 ← sha256_file path;
    mret (VDict [("path", VStr path); ("size", VInt size); ("sha256", VStr sha256)])
  else mret VNone.

Definition emit (log : string) (payload : bytes) : io W unit :=
  effect (r_write H log payload) ;;
  effect (r_flush H log) ;;
  catch [BrokenPipeError; OSError]
    (effect (r_stdout_write H payload) ;; effect (r_stdout_flush H))
    (λ _, mret tt).

(** *** Before the run *)

Fixpoint artifact_records (paths : list (string * string)) : io W (list (string * value)) :=
  match paths with
  | [] => mret []
  | (name, path) :: paths =>
      record ← artifact_record path;
      records ← artifact_records paths;
      mret ((name, record) :: records)
  end.

Definition artifact_paths (repo artifact_dir : string) : list (string * string) :=
  [("loader", repo +:+ "/build/loader-m9-cold-jd9365-abi3/micronux_m3_loader.bin");
   ("Image", artifact_dir +:+ "/Image"); ("dtb", artifact_dir +:+ "/esp32p4-micronux.dtb");
   ("metadata", artifact_dir +:+ "/metadata.bin"); ("source_contract", artifact_dir +:+ "/SOURCE-CONTRACT")].

Definition artifact_directory (repo : string) (harness_args : list string) : io W string :=
  match argument_value harness_args "--artifact-dir" with
  | None => mret (repo +:+ "/out/m9")
  | Some argument => query (r_resolve H (join repo argument))
  end.

Definition log_path (p : place) (a : run_arguments) (mode run_id : string) : io W string :=
  match log_file a with
  | None =>
      head ← git_text (repo p) ["rev-parse"; "--short=12"; "HEAD"];
      t ← query (r_now H);
      mret (repo p +:+ "/out/m9/hardware-runs/" +:+ timestamp t +:+ "-" +:+ safe_mode (r_wide_alnum H) mode +:+ "-" +:+
            or_text head "no-git" +:+ "-" +:+ str_take 8 run_id +:+ ".log")
  | Some path => query (r_resolve H path)
  end.

Definition option_str (s : option string) : value := match s with Some s => VStr s | None => VNone end.
Definition truth (s : option string) : bool := match s with Some "" | None => false | Some _ => true end.

Definition gather (p : place) (harness : string) (harness_args : list string)
    (mode port artifact_dir start_utc run_id : string) : io W value :=
  git_head ← git_text (repo p) ["rev-parse"; "HEAD"];
  git_branch ← git_text (repo p) ["branch"; "--show-current"];
  git_dirty ← git_text (repo p) ["status"; "--porcelain=v1"];
  harness_sha256 ← sha256_file harness;
  wrapper_sha256 ← sha256_file (wrapper p);
  host_artifacts ← artifact_records (artifact_paths (repo p) artifact_dir);
  mret (VDict [
    ("schema", VInt 1); ("run_id", VStr run_id); ("start_utc", VStr start_utc); ("mode", VStr mode); ("port", VStr port);
    ("artifact_dir", VStr artifact_dir); ("argv", VList (map VStr harness_args)); ("git_head", option_str git_head);
    ("git_branch", option_str git_branch); ("git_dirty", VBool (truth git_dirty));
    ("harness_sha256", VStr harness_sha256); ("wrapper_sha256", VStr wrapper_sha256);
    ("host_artifacts", VDict host_artifacts)]).

(** *** The run *)

(** [while True: chunk = child.stdout.read(65536); ...] *)
Fixpoint copy_loop (fuel : nat) (log : string) : io W unit :=
  match fuel with
  | O => out_of_fuel
  | S fuel =>
      chunk ← effect (r_child_read H 65536);
      match chunk with
      | [] => mret tt
      | _ => emit log chunk ;; copy_loop fuel log
      end
  end.

(** [exit_code], [interrupted] and the exception that leaves the [try], if any. *)
Record outcome := { exit_code : Z; interrupted : bool; raised : option exn }.

Definition settled (r : result unit) (exit_code : Z) (interrupted : bool) : outcome :=
  {| exit_code := exit_code; interrupted := interrupted; raised := match r with Ok _ => None | Err e => Some e end |}.

(** [except KeyboardInterrupt] *)
Definition stop_child (child : bool) : io W unit :=
  if child then
    code ← effect (r_child_poll H);
    match code with
    | Some _ => mret tt
    | None =>
        effect (r_child_terminate H) ;;
        catch [TimeoutExpired] (effect (r_child_wait H (Some (seconds 5))) ;; mret tt)
          (λ _, effect (r_child_kill H) ;; effect (r_child_wait H None) ;; mret tt)
    end
  else mret tt.

Definition error_payload (run_id : string) (error : exn) : value :=
  VDict [("run_id", VStr run_id); ("type", VStr (class_name (exn_cls error))); ("detail", VStr (exn_msg error))].

(** The [except] clauses, with whether there is a child. *)
Definition handle (log run_id : string) (child : bool) (error : exn) : io W outcome :=
  if caught [KeyboardInterrupt] error then
    r ← reify (stop_child child); mret (settled r 130 true)
  else if caught [OSError] error then
    r ← reify (emit log (marker "RUN-ERROR" (error_payload run_id error))); mret (settled r 127 false)
  else mret (settled (Err error) 127 false).

Definition supervise (fuel : nat) (log run_id : string) (command : list string) (cwd : string) : io W outcome :=
  child ← reify (effect (r_spawn H command cwd));
  match child with
  | Err error => handle log run_id false error
  | Ok _ =>
      finished ← reify (copy_loop fuel log ;; effect (r_child_wait H None));
      match finished with
      | Ok code => mret (settled (Ok tt) code false)
      | Err error => handle log run_id true error
      end
  end.

Definition end_payload (run_id end_utc : string) (duration : float) (o : outcome) : value :=
  VDict [("run_id", VStr run_id); ("end_utc", VStr end_utc); ("duration_seconds", VSeconds duration);
         ("exit_code", VInt (exit_code o)); ("interrupted", VBool (interrupted o))].

(** [finally], after which an exception goes on. *)
Definition record_end (log run_id : string) (started : float) (o : outcome) : io W Z :=
  end_utc ← utc_now;
  t ← query (r_monotonic H);
  emit log (marker "RUN-END" (end_payload run_id end_utc (fsub t started) o)) ;;
  effect (r_flush H log) ;;
  effect (r_fsync H log) ;;
  match raised o with Some error => lift (Err error) | None => mret (exit_code o) end.

(** [with log_path.open("xb") as log: ...] *)
Definition transcribe (fuel : nat) (log run_id : string) (metadata : value) (command : list string) (cwd : string) : io W Z :=
  started ← query (r_monotonic H);
  effect (r_create H log) ;;
  finally
    (emit log (marker "RUN-BEGIN" metadata) ;;
     o ← supervise fuel log run_id command cwd;
     record_end log run_id started o)
    (effect (r_close H log)).

(** *** After the run *)

Definition sidecar (log : string) : string := log +:+ ".sha256".
Definition sidecar_text (log_digest log : string) : string := log_digest +:+ "  " +:+ path_name log +:+ nl.

Definition seal (log log_digest : string) : io W unit :=
  effect (r_create H (sidecar log)) ;;
  finally
    (output ← lift (encode_ascii (sidecar_text log_digest log));
     effect (r_write H (sidecar log) output) ;;
     effect (r_flush H (sidecar log)) ;;
     effect (r_fsync H (sidecar log)))
    (effect (r_close H (sidecar log))).

Definition sealed_line (log log_digest : string) (exit_code : Z) : string :=
  "MICRONUX:M9.2:RUN-LOG " +:+
  "state=sealed path=" +:+ log +:+ " sha256=" +:+ log_digest +:+ " exit_code=" +:+ pretty exit_code.

(** [harness_args] after the separator. *)
Definition harness_arguments (a : run_arguments) : list string :=
  match remainder a with "--" :: rest => rest | all => all end.

(** [[sys.executable, "-u", str(harness), *harness_args]] *)
Definition gate_command (p : place) (harness_args : list string) : list string :=
  [executable p; "-u"; repo p +:+ "/scripts/m9-hardware-test.py"] ++ harness_args.

Definition main (fuel : nat) (p : place) (a : run_arguments) : io W Z :=
  let harness_args := harness_arguments a in
  lift (raise_when (harness_args = []) SystemExit "provide m9-hardware-test.py arguments after --") ;;
  let harness := repo p +:+ "/scripts/m9-hardware-test.py" in
  present ← query (r_is_file H harness);
  lift (raise_when (present = false) SystemExit ("missing hardware harness: " +:+ harness)) ;;
  let mode := recorded_mode harness_args in
  let port := recorded_port harness_args in
  artifact_dir ← artifact_directory (repo p) harness_args;
  start_utc ← utc_now;
  uuid ← query (r_uuid4 H);
  let run_id := zfill 32 (fmt_x uuid) in
  log ← log_path p a mode run_id;
  effect (r_make_parent H log) ;;
  metadata ← gather p harness harness_args mode port artifact_dir start_utc run_id;
  code ← transcribe fuel log run_id metadata (gate_command p harness_args) (repo p);
  log_digest ← sha256_file log;
  seal log log_digest ;;
  print (sealed_line log log_digest code) ;;
  mret code.

End Wrapper.

(** ** What is relied on

    [content] are files that nothing but the wrapper writes, as the wrapper left them:
    what it wrote is in the file or in the buffer that [flush] and [close] empty.  A
    write that raises may have taken a part.  [output] is what was read of children, and
    [history] is what became of them: each with the world in which it was started, and each
    return code that was waited for.  Two assumptions are about the child and the system and
    not about the wrapper: a child prints a bounded amount, [limit] reads of it, and [wait]
    comes to an outcome. *)

Inductive event (W : Type) :=
  | Started (command : list string) (w : W)
  | Returned (code : Z).
Arguments Started {W}. Arguments Returned {W}.

Class LoggedHost {W : Type} (H : run_host W) := {
  content : W → gmap string bytes;
  output : W → bytes;
  history : W → list (event W);
  reads_left : W → nat;
  limit : nat;
  left_limit : ∀ w, (reads_left w ≤ limit)%nat;
  same (w w' : W) : Prop :=
    content w' = content w ∧ output w' = output w ∧ history w' = history w ∧ (reads_left w' ≤ reads_left w)%nat;
  now_same : ∀ w, same w (r_now H w).2;
  monotonic_same : ∀ w, same w (r_monotonic H w).2;
  uuid4_same : ∀ w, same w (r_uuid4 H w).2;
  run_same : ∀ l w, same w (r_run H l w).2;
  resolve_same : ∀ p w, same w (r_resolve H p w).2;
  is_file_same : ∀ p w, same w (r_is_file H p w).2;
  stat_same : ∀ p w, same w (r_stat_size H p w).2;
  read_same : ∀ p w, same w (r_read H p w).2;
  read_content : ∀ p w b c, (r_read H p w).1 = Ok b → content w !! p = Some c → b = c;
  make_parent_same : ∀ p w, same w (r_make_parent H p w).2;
  create_law : ∀ p w,
    match r_create H p w with
    | (Ok _, w') => content w !! p = None ∧ content w' = <[p := []]> (content w) ∧ output w' = output w ∧ history w' = history w
    | (Err _, w') => same w w'
    end;
  write_law : ∀ p b w x, content w !! p = Some x →
    let '(r, w') := r_write H p b w in
    ∃ part, part `prefix_of` b ∧ (∀ u, r = Ok u → part = b) ∧ content w' = <[p := x ++ part]> (content w)
      ∧ output w' = output w ∧ history w' = history w ∧ (reads_left w' ≤ reads_left w)%nat;
  flush_same : ∀ p w, same w (r_flush H p w).2;
  fsync_same : ∀ p w, same w (r_fsync H p w).2;
  file_close_same : ∀ p w, same w (r_close H p w).2;
  stdout_write_same : ∀ b w, same w (r_stdout_write H b w).2;
  stdout_flush_same : ∀ w, same w (r_stdout_flush H w).2;
  spawn_law : ∀ l d w,
    let '(r, w') := r_spawn H l d w in
    content w' = content w ∧ output w' = output w
    ∧ history w' = match r with Ok _ => history w ++ [Started l w] | Err _ => history w end;
  child_read_law : ∀ n w,
    match r_child_read H n w with
    | (Ok b, w') =>
        content w' = content w ∧ output w' = output w ++ b ∧ history w' = history w
        ∧ (b ≠ [] → (reads_left w' < reads_left w)%nat)
    | (Err _, w') => same w w'
    end;
  child_wait_law : ∀ t w,
    let '(r, w') := r_child_wait H t w in
    content w' = content w ∧ output w' = output w
    ∧ history w' = match r with Ok code => history w ++ [Returned code] | Err _ => history w end;
  child_poll_same : ∀ w, same w (r_child_poll H w).2;
  child_terminate_same : ∀ w, same w (r_child_terminate H w).2;
  child_kill_same : ∀ w, same w (r_child_kill H w).2;
}.

(** ** Theory *)

Lemma CHUNK_positive : (0 < CHUNK)%nat.
Proof. unfold CHUNK. lia. Qed.

Lemma update_loop_spec fuel source digest : (length source < fuel)%nat → update_loop fuel source digest = digest ++ source.
Proof.
  pose proof CHUNK_positive as Hpos.
  revert source digest. induction fuel as [|fuel IH]; intros source digest Hf; [lia|]. cbn [update_loop].
  destruct (take CHUNK source) as [|x chunk] eqn:E.
  - destruct source as [|y source]; [by rewrite app_nil_r|]. destruct CHUNK; [lia|discriminate].
  - rewrite IH, <- app_assoc, <- E, take_drop; [done|]. rewrite length_drop.
    destruct source; [by rewrite take_nil in E|]. cbn in *. lia.
Qed.

Lemma sha256_content_spec source : sha256_content source = sha256_hex source.
Proof. unfold sha256_content. by rewrite update_loop_spec by lia. Qed.

Section Theory.
Context {W : Type} (H : run_host W) `{!LoggedHost H}.
Implicit Types s : st W.

Lemma wp_reify {A} (m : io W A) Q s : wp (reify m) Q s ↔ wp m (λ r s', Q (Ok r) s') s.
Proof. unfold wp, reify. by destruct (m s) as [[r s']|]. Qed.

Lemma same_trans w1 w2 w3 : same w1 w2 → same w2 w3 → same w1 w3.
Proof. unfold same. intros (-> & -> & -> & ?) (-> & -> & -> & ?). repeat split. lia. Qed.

(** Files, child and terminal are as they were. *)
Definition near s s' : Prop := same (world s) (world s') ∧ stdout s' = stdout s.

Lemma near_refl s : near s s.
Proof. by repeat split. Qed.

Lemma near_trans s1 s2 s3 : near s1 s2 → near s2 s3 → near s1 s3.
Proof. intros [S1 E1] [S2 E2]. split; [by eapply same_trans|congruence]. Qed.

(** The program comes to an outcome and leaves files, child and terminal as they are. *)
Definition calm {A} (m : io W A) : Prop :=
  ∀ s, wp m (λ _ s', near s s') s.

Lemma calm_ret {A} (a : A) : calm (mret a).
Proof. intros s. cbn. by repeat split. Qed.

Lemma calm_lift {A} (r : result A) : calm (lift r).
Proof. intros s. cbn. by repeat split. Qed.

Lemma calm_effect {A} (f : W → result A * W) : (∀ w, same w (f w).2) → calm (effect f).
Proof. intros Hf s. apply wp_effect. split; [apply Hf|done]. Qed.

Lemma calm_query {A} (f : W → A * W) : (∀ w, same w (f w).2) → calm (query f).
Proof. intros Hf s. apply wp_query. split; [apply Hf|done]. Qed.

(** After a calm program the states agree: what follows may be judged from the first one. *)
Lemma wp_calm {A} (m : io W A) (Q : result A → st W → Prop) s0 s : near s0 s → calm m →
  (∀ r s', near s0 s' → Q r s') → wp m Q s.
Proof. intros H0 Hm HQ. eapply wp_mono; [apply Hm|]. intros r s' ?. apply HQ. by eapply near_trans. Qed.

Lemma wp_bind_calm {A B} (m : io W A) (f : A → io W B) (Q : result B → st W → Prop) s0 s : near s0 s → calm m →
  (∀ e s', near s0 s' → Q (Err e) s') → (∀ a s', near s0 s' → wp (f a) Q s') → wp (m ≫= f) Q s.
Proof. intros H0 Hm HE HO. apply wp_bind. apply (wp_calm _ _ s0); [done..|]. intros [a|e] s' ?; auto. Qed.

Lemma calm_bind {A B} (m : io W A) (f : A → io W B) : calm m → (∀ a, calm (f a)) → calm (m ≫= f).
Proof.
  intros Hm Hf s. apply (wp_bind_calm _ _ _ s s); [apply near_refl|done..|].
  intros a s' ?. by apply (wp_calm _ _ s s').
Qed.

Lemma calm_catch {A} classes (m : io W A) h : calm m → (∀ e, calm (h e)) → calm (catch classes m h).
Proof.
  intros Hm Hh s. apply wp_catch. apply (wp_calm _ _ s s); [apply near_refl|done|]. intros [a|e] s' ?; [done|].
  destruct (caught classes e); [|done]. by apply (wp_calm _ _ s s').
Qed.

End Theory.

Create HintDb runlog.
#[export] Hint Resolve calm_ret calm_lift now_same monotonic_same uuid4_same run_same resolve_same is_file_same
  stat_same read_same make_parent_same flush_same fsync_same file_close_same stdout_write_same stdout_flush_same
  child_poll_same child_terminate_same child_kill_same : runlog.
Ltac calm_step :=
  lazymatch goal with
  | |- calm _ (_ ≫= _) => apply calm_bind; [|intros ?]
  | |- calm _ (catch _ _ _) => apply calm_catch; [|intros ?]
  | |- calm _ (effect _) => apply calm_effect; intros ?
  | |- calm _ (query _) => apply calm_query; intros ?
  | |- calm _ (if ?x then _ else _) => destruct x
  | |- calm _ (match ?x with _ => _ end) => destruct x
  end.
Ltac calm := repeat calm_step; eauto with runlog.

(** A calm first step of a program whose outcome is judged from the state [s0]. *)
Ltac step_calm s0 := apply (wp_bind_calm _ _ _ _ s0); [first [apply near_refl | assumption]|by calm| |].

Section Calm.
Context {W : Type} (H : run_host W) `{!LoggedHost H}.

Lemma calm_utc_now : calm H (utc_now H).
Proof. unfold utc_now. calm. Qed.

Lemma calm_sha256_file path : calm H (sha256_file H path).
Proof. unfold sha256_file. calm. Qed.

Lemma calm_git_text repo arguments : calm H (git_text H repo arguments).
Proof. unfold git_text. calm. Qed.

#[local] Hint Resolve calm_utc_now calm_sha256_file calm_git_text : runlog.

Lemma calm_artifact_record path : calm H (artifact_record H path).
Proof. unfold artifact_record. calm. Qed.

#[local] Hint Resolve calm_artifact_record : runlog.

Lemma calm_artifact_records paths : calm H (artifact_records H paths).
Proof. induction paths as [|[name path] paths IH]; cbn [artifact_records]; calm. Qed.

Lemma calm_artifact_directory repo harness_args : calm H (artifact_directory H repo harness_args).
Proof. unfold artifact_directory. calm. Qed.

Lemma calm_log_path p a mode run_id : calm H (log_path H p a mode run_id).
Proof. unfold log_path. calm. Qed.

End Calm.
#[export] Hint Resolve calm_utc_now calm_sha256_file calm_git_text calm_artifact_record calm_artifact_records
  calm_artifact_directory calm_log_path : runlog.

(** ** The transcript *)

Section Transcript.
Context {W : Type} (H : run_host W) `{!LoggedHost H}.
Implicit Types s : st W.

(** The files are [c] with [log] holding [x]; [out] was read of children, of which
    [past] is known. *)
Definition holds (log : string) (x : bytes) (c : gmap string bytes) (out : bytes) (past : list (event W)) (w : W) : Prop :=
  content w = <[log := x]> c ∧ output w = out ∧ history w = past.

Lemma holds_same log x c out past w w' : holds log x c out past w → same w w' → holds log x c out past w'.
Proof. unfold holds, same. intros (<- & <- & <-) (-> & -> & -> & _). done. Qed.

(** What was emitted is in the transcript; of a payload that could not be emitted, a part
    may be. *)
Lemma wp_emit log b x c out past s :
  holds log x c out past (world s) →
  wp (emit H log b) (λ r s', ∃ part, part `prefix_of` b ∧ (∀ u, r = Ok u → part = b)
    ∧ holds log (x ++ part) c out past (world s') ∧ stdout s' = stdout s
    ∧ (reads_left (world s') ≤ reads_left (world s))%nat) s.
Proof.
  intros (Hc & Ho & Hr). unfold emit. apply wp_bind, wp_effect.
  assert (content (world s) !! log = Some x) as Hx by (by rewrite Hc, lookup_insert_eq).
  pose proof (write_law log b (world s) x Hx) as HW. destruct (r_write H log b (world s)) as [r w'].
  destruct HW as (part & Hpart & Hall & Hc' & Ho' & Hr' & Hl). cbn [fst snd].
  assert (holds log (x ++ part) c out past w') as Hw'
    by (repeat split; [by rewrite Hc', Hc, insert_insert_eq|congruence..]).
  assert (calm H (effect (r_flush H log) ;;
    catch [BrokenPipeError; OSError] (effect (r_stdout_write H b) ;; effect (r_stdout_flush H)) (λ _, mret tt))) as Hrest by calm.
  destruct r as [u|e].
  - eapply (wp_calm H); [apply near_refl|done|]. intros r s' [Hs' Es']. exists part. rewrite (Hall u) in * by done.
    split; [done|]. split; [done|]. split; [by eapply holds_same|]. split; [done|].
    destruct Hs' as (_ & _ & _ & ?). cbn in *. lia.
  - exists part. split; [done|]. split; [done|]. split; [exact Hw'|]. split; [done|exact Hl].
Qed.

(** The transcript gets what is read of the child, all of it when the loop ends well. *)
Lemma wp_copy_loop fuel log x c out past s :
  holds log x c out past (world s) → (reads_left (world s) < fuel)%nat →
  wp (copy_loop H fuel log) (λ r s', ∃ more part, part `prefix_of` more ∧ (∀ u, r = Ok u → part = more)
    ∧ holds log (x ++ part) c (out ++ more) past (world s') ∧ stdout s' = stdout s) s.
Proof.
  revert x out s. induction fuel as [|fuel IH]; intros x out s Hs Hf; [lia|]. cbn [copy_loop].
  apply wp_bind, wp_effect. pose proof (child_read_law 65536 (world s)) as HR.
  destruct (r_child_read H 65536 (world s)) as [[b|e] w']; cbn [fst snd].
  2: { exists [], []. rewrite !app_nil_r. split; [done|]. split; [done|]. split; [by eapply holds_same|done]. }
  destruct Hs as (Hc & Ho & Hr). destruct HR as (Hc' & Ho' & Hr' & Hl).
  assert (holds log x c (out ++ b) past w') as Hw' by (repeat split; congruence).
  destruct b as [|y b].
  { exists [], []. rewrite !app_nil_r in *. split; [done|]. split; [done|]. split; [exact Hw'|done]. }
  specialize (Hl ltac:(done)). apply wp_bind. eapply wp_mono; [by apply (wp_emit log (y :: b))|].
  intros r s1 (part & Hpart & Hall & H1 & E1 & L1). cbn [world] in L1. destruct r as [u|e].
  - rewrite (Hall u) in H1 by done. eapply wp_mono; [apply IH; [exact H1|lia]|].
    intros r s2 (more & part2 & Hp2 & Hall2 & H2 & E2). exists ((y :: b) ++ more), ((y :: b) ++ part2).
    rewrite !app_assoc in *. split; [by apply prefix_app|]. split; [intros v Hv; by rewrite (Hall2 v Hv)|].
    split; [done|by cbn [stdout world] in *; congruence].
  - exists (y :: b), part. split; [done|]. split; [done|]. split; [exact H1|by cbn [stdout world] in *; congruence].
Qed.

(** What the transcript says about the child: everything it printed and no more, when it
    was started with [command] in a world that is [born] and has returned the code of the
    outcome; or the part before an interruption; or the part before an error that is
    recorded. *)
Definition account (run_id : string) (command : list string) (born : W → Prop) (past : list (event W))
    (more shown error : bytes) (past' : list (event W)) (o : outcome) : Prop :=
  (shown = more ∧ error = [] ∧ interrupted o = false
   ∧ ∃ w0, born w0 ∧ past' = past ++ [Started command w0; Returned (exit_code o)])
  ∨ (shown `prefix_of` more ∧ error = [] ∧ interrupted o = true ∧ exit_code o = 130)
  ∨ (shown `prefix_of` more ∧ interrupted o = false ∧ exit_code o = 127
     ∧ ∃ e, caught [OSError] e = true ∧ error = marker "RUN-ERROR" (error_payload run_id e)).

Lemma wp_stop_child child log x c out past s :
  holds log x c out past (world s) →
  wp (stop_child H child) (λ _ s', ∃ past, holds log x c out past (world s') ∧ stdout s' = stdout s) s.
Proof.
  intros Hs.
  assert (∀ past' w' t, holds log x c out past' w' → ∃ past'', holds log x c out past'' (r_child_wait H t w').2) as Hwait.
  { intros past' w' t (Hc & Ho & _). pose proof (child_wait_law t w') as Hw. destruct (r_child_wait H t w') as [r w''].
    destruct Hw as (Hc' & Ho' & _). eexists. repeat split; cbn; congruence. }
  unfold stop_child. destruct child; [|by exists past].
  apply wp_bind, wp_effect. pose proof (holds_same _ _ _ _ _ _ _ Hs (child_poll_same (world s))) as H1.
  destruct (r_child_poll H (world s)) as [[[k|]|e] w1]; cbn [fst snd] in *; [by exists past| |by exists past].
  apply wp_bind, wp_effect. cbn [world stdout]. pose proof (holds_same _ _ _ _ _ _ _ H1 (child_terminate_same w1)) as H2.
  destruct (r_child_terminate H w1) as [[u|e] w2]; cbn [fst snd] in *; [|by exists past].
  apply wp_catch, wp_bind, wp_effect. cbn [world stdout].
  destruct (Hwait _ _ (Some (seconds 5)) H2) as [past2 H3].
  destruct (r_child_wait H (Some (seconds 5)) w2) as [[k|e] w3]; cbn [fst snd] in *; [by exists past2|].
  destruct (caught [TimeoutExpired] e); [|by exists past2].
  apply wp_bind, wp_effect. cbn [world stdout]. pose proof (holds_same _ _ _ _ _ _ _ H3 (child_kill_same w3)) as H4.
  destruct (r_child_kill H w3) as [[v|e'] w4]; cbn [fst snd] in *; [|by exists past2].
  apply wp_bind, wp_effect. cbn [world stdout]. destruct (Hwait _ _ None H4) as [past5 H5].
  destruct (r_child_wait H None w4) as [[k|e''] w5]; cbn [fst snd] in *; by exists past5.
Qed.

Lemma wp_handle log run_id command born past0 child e x c out more shown past s :
  shown `prefix_of` more → holds log (x ++ shown) c (out ++ more) past (world s) →
  wp (handle H log run_id child e) (λ r s', ∃ o error past, r = Ok o
    ∧ (raised o = None → account run_id command born past0 more shown error past o)
    ∧ holds log (x ++ shown ++ error) c (out ++ more) past (world s') ∧ stdout s' = stdout s) s.
Proof.
  intros Hp Hs. unfold handle. destruct (caught [KeyboardInterrupt] e).
  { apply wp_bind, wp_reify. eapply wp_mono; [by eapply wp_stop_child|]. intros r s' (past' & H1 & E1).
    eexists _, [], past'. rewrite app_nil_r. split; [done|]. split; [|by split]. intros _. right. left. by destruct r. }
  destruct (caught [OSError] e) eqn:He.
  - apply wp_bind, wp_reify. eapply wp_mono; [by eapply wp_emit|]. intros r s' (part & _ & Hall & H1 & E1 & _).
    eexists _, part, past. rewrite <- app_assoc in H1. split; [done|]. split; [|by split].
    destruct r as [u|e']; [|done]. intros _. right. right. rewrite (Hall u) by done. split; [done|].
    split; [done|]. split; [done|]. by exists e.
  - eexists _, [], past. rewrite app_nil_r. split; [done|]. by split.
Qed.

Lemma wp_supervise fuel log run_id command cwd x c out past0 s :
  holds log x c out past0 (world s) → (limit < fuel)%nat →
  wp (supervise H fuel log run_id command cwd) (λ r s', ∃ o more shown error past, r = Ok o
    ∧ (raised o = None → account run_id command (holds log x c out past0) past0 more shown error past o)
    ∧ holds log (x ++ shown ++ error) c (out ++ more) past (world s') ∧ stdout s' = stdout s) s.
Proof.
  intros Hs Hf. unfold supervise. apply wp_bind, wp_reify, wp_effect.
  pose proof (spawn_law command cwd (world s)) as HS. destruct (r_spawn H command cwd (world s)) as [r w1].
  destruct HS as (Hc1 & Ho1 & Hr1). pose proof Hs as (Hc & Ho & Hr). cbn [fst snd] in *. destruct r as [u|e].
  - assert (holds log x c out (past0 ++ [Started command (world s)]) w1) as H1 by (repeat split; congruence).
    apply wp_bind, wp_reify, wp_bind. eapply wp_mono.
    { apply wp_copy_loop; [exact H1|]. cbn. pose proof (left_limit (LoggedHost := _) w1). lia. }
    intros r s2 (more & part & Hp & Hall & H2 & E2). destruct r as [v|e].
    + rewrite (Hall v) in * by done. apply wp_effect. pose proof (child_wait_law None (world s2)) as HW.
      destruct (r_child_wait H None (world s2)) as [r w3]. destruct HW as (Hc3 & Ho3 & Hr3). destruct H2 as (Hc2 & Ho2 & Hr2).
      cbn [fst snd]. destruct r as [k|e].
      * eexists _, more, more, [], (history w3). rewrite app_nil_r. split; [done|]. split.
        -- intros _. left. split_and!; [done..|]. exists (world s). split; [done|]. by rewrite Hr3, Hr2, <- app_assoc.
        -- split; [|done]. repeat split; cbn; congruence.
      * eapply wp_mono; [apply (wp_handle log run_id command (holds log x c out past0) past0 true e x c out more more (history w3));
          [done|by repeat split; cbn; congruence]|].
        intros r s4 (o & error & past4 & ? & ? & ? & ?). exists o, more, more, error, past4. repeat (split; [done|]). cbn in *. congruence.
    + eapply wp_mono; [by eapply wp_handle|]. intros r s4 (o & error & past4 & ? & ? & ? & ?).
      exists o, more, part, error, past4. repeat (split; [done|]). cbn in *. congruence.
  - assert (holds log x c out past0 w1) as H1 by (repeat split; congruence).
    eapply wp_mono; [apply (wp_handle log run_id command (holds log x c out past0) past0 false e x c out [] [] past0);
      [done|by rewrite !app_nil_r]|].
    intros r s4 (o & error & past4 & ? & ? & ? & ?). exists o, [], [], error, past4. done.
Qed.

Lemma wp_record_end log run_id started o x c out past s :
  holds log x c out past (world s) →
  wp (record_end H log run_id started o) (λ r s', ∃ y, holds log (x ++ y) c out past (world s') ∧ stdout s' = stdout s
    ∧ ∀ k, r = Ok k → raised o = None ∧ k = exit_code o
        ∧ ∃ end_utc duration, y = marker "RUN-END" (end_payload run_id end_utc duration o)) s.
Proof.
  intros Hs. unfold record_end.
  assert (∀ e s', near H s s' → ∃ y, holds log (x ++ y) c out past (world s') ∧ stdout s' = stdout s
    ∧ ∀ k, Err e = Ok k → raised o = None ∧ k = exit_code o
        ∧ ∃ end_utc duration, y = marker "RUN-END" (end_payload run_id end_utc duration o)) as Hearly.
  { intros e s' [S' E']. exists []. rewrite app_nil_r. split; [by eapply holds_same|done]. }
  step_calm s; [exact Hearly|]. intros end_utc s1 N1. step_calm s; [exact Hearly|]. intros t s2 [S2 E2]. clear Hearly.
  apply wp_bind. eapply wp_mono; [by eapply wp_emit, holds_same|].
  intros r s3 (part & _ & Hall & H3 & E3 & _). destruct r as [u|e]; [|eexists; split; [done|]; split; [congruence|done]].
  rewrite (Hall u) in H3 by done. clear part Hall.
  assert (∀ e s', near H s3 s' → ∃ y, holds log (x ++ y) c out past (world s') ∧ stdout s' = stdout s
    ∧ ∀ k, Err e = Ok k → raised o = None ∧ k = exit_code o
        ∧ ∃ end_utc duration, y = marker "RUN-END" (end_payload run_id end_utc duration o)) as Hlate.
  { intros e s' [S' E']. eexists. split; [by eapply holds_same|]. split; [congruence|done]. }
  step_calm s3; [exact Hlate|]. intros v s4 N4. step_calm s3; [exact Hlate|]. intros v' s5 [S5 E5].
  destruct (raised o) as [e|]; [by apply (Hlate e)|]. eexists. split; [by eapply holds_same|].
  split; [cbn [stdout] in *; congruence|]. intros k [= <-]. eauto.
Qed.

(** When a child is started, the transcript is new and holds the description of the run. *)
Definition begun (log : string) (metadata : value) (w : W) : W → Prop :=
  holds log (marker "RUN-BEGIN" metadata) (content w) (output w) (history w).

(** A transcript of a run of [command], which returned [r]: [log] is new, and when there
    is a result it says what it is. *)
Definition transcript (log run_id : string) (metadata : value) (command : list string) (w : W) (r : result Z) (w' : W) : Prop :=
  content w !! log = None ∧ ∃ x out past, holds log x (content w) out past w' ∧
  ∀ k, r = Ok k → ∃ more shown error end_utc duration o,
    raised o = None ∧ exit_code o = k
    ∧ account run_id command (begun log metadata w) (history w) more shown error past o ∧ out = output w ++ more
    ∧ x = marker "RUN-BEGIN" metadata ++ shown ++ error ++ marker "RUN-END" (end_payload run_id end_utc duration o).

Lemma transcript_same log run_id metadata command w r w' w'' :
  transcript log run_id metadata command w r w' → same w' w'' → transcript log run_id metadata command w r w''.
Proof. intros (? & x & out & code & Hh & ?) Hs. split; [done|]. exists x, out, code. split; [by eapply holds_same|done]. Qed.

Lemma transcript_err log run_id metadata command w r w' e :
  transcript log run_id metadata command w r w' → transcript log run_id metadata command w (Err e) w'.
Proof. intros (? & x & out & code & Hh & ?). split; [done|]. by exists x, out, code. Qed.

Lemma wp_transcribe fuel log run_id metadata command cwd s : (limit < fuel)%nat →
  wp (transcribe H fuel log run_id metadata command cwd) (λ r s', stdout s' = stdout s ∧
    (transcript log run_id metadata command (world s) r (world s')
     ∨ content (world s') = content (world s) ∧ ∃ e, r = Err e)) s.
Proof.
  intros Hf. unfold transcribe. step_calm s; [intros e s' [(C' & _) E']; by eauto 6|]. intros started s1 [(C1 & O1 & R1 & _) E1].
  apply wp_bind, wp_effect. pose proof (create_law log (world s1)) as HC.
  destruct (r_create H log (world s1)) as [[u|e] w2]; cbn [fst snd].
  2: { destruct HC as (HC & _). split; [done|]. right. cbn. split; [congruence|by eauto]. }
  destruct HC as (Hn & Hc & Ho & Hr). rewrite C1 in Hn.
  assert (holds log [] (content (world s)) (output (world s)) (history (world s)) w2) as H2 by (repeat split; congruence).
  apply wp_finally.
  apply wp_mono with (Q := λ r s', transcript log run_id metadata command (world s) r (world s') ∧ stdout s' = stdout s).
  2: { intros r s' [Ht Es]. eapply (wp_calm H); [apply near_refl|calm|]. intros v s'' [Hs'' Es'']. pose proof (transcript_same _ _ _ _ _ _ _ _ Ht Hs'').
       destruct v; (split; [congruence|]); left; [done|by eapply transcript_err]. }
  apply wp_bind. eapply wp_mono; [by apply (wp_emit log (marker "RUN-BEGIN" metadata) [])|].
  intros r s3 (part & _ & Hall & H3 & E3 & _). cbn in E3. destruct r as [v|e].
  2: { split; [|congruence]. split; [done|]. eexists _, _, _. by split. }
  rewrite (Hall v) in * by done. apply wp_bind. eapply wp_mono; [by eapply wp_supervise|].
  intros r s4 (o & more & shown & error & code & -> & Ha & H4 & E4).
  eapply wp_mono; [by eapply wp_record_end|]. intros r s5 (y & H5 & E5 & Hy). split; [|congruence]. split; [done|].
  eexists _, _, _. split; [exact H5|]. intros k Hk. destruct (Hy k Hk) as (? & ? & end_utc & duration & ->).
  exists more, shown, error, end_utc, duration, o. split; [done|]. split; [done|]. split; [by apply Ha|]. split; [done|].
  by rewrite <- !app_assoc.
Qed.

End Transcript.

(** ** The whole run *)

Section Run.
Context {W : Type} (H : run_host W) `{!LoggedHost H}.
Implicit Types s : st W.

Lemma wp_sha256_file path s :
  wp (sha256_file H path) (λ r s', same (world s) (world s') ∧ stdout s' = stdout s ∧
    ∀ digest b, r = Ok digest → content (world s) !! path = Some b → digest = sha256_hex b) s.
Proof.
  unfold sha256_file. apply wp_bind, wp_effect. pose proof (read_same path (world s)) as HS.
  pose proof (read_content path (world s)) as HC. destruct (r_read H path (world s)) as [[b|e] w']; cbn [fst snd] in *; [|done].
  split; [done|]. split; [done|]. intros digest c E Hc. rewrite sha256_content_spec in E. injection E as <-.
  by rewrite (HC b c eq_refl Hc).
Qed.

(** What RUN-BEGIN says of the run. *)
Definition describes (metadata : value) (harness : string) (harness_args : list string) (mode port run_id : string)
    (c : gmap string bytes) : Prop :=
  ∃ d, metadata = VDict d ∧ ("run_id", VStr run_id) ∈ d ∧ ("mode", VStr mode) ∈ d ∧ ("port", VStr port) ∈ d
    ∧ ("argv", VList (map VStr harness_args)) ∈ d
    ∧ ∀ b, c !! harness = Some b → ("harness_sha256", VStr (sha256_hex b)) ∈ d.

Lemma wp_gather p harness harness_args mode port artifact_dir start_utc run_id s :
  wp (gather H p harness harness_args mode port artifact_dir start_utc run_id) (λ r s',
    same (world s) (world s') ∧ stdout s' = stdout s ∧
    ∀ m, r = Ok m → describes m harness harness_args mode port run_id (content (world s))) s.
Proof.
  unfold gather.
  assert (∀ e s', near H s s' → same (world s) (world s') ∧ stdout s' = stdout s ∧
    ∀ m, Err e = Ok m → describes m harness harness_args mode port run_id (content (world s))) as Hearly by by intros e s' [??].
  step_calm s; [exact Hearly|]. intros git_head s1 N1. step_calm s; [exact Hearly|]. intros git_branch s2 N2.
  step_calm s; [exact Hearly|]. intros git_dirty s3 N3.
  apply wp_bind. eapply wp_mono; [apply wp_sha256_file|]. intros r s4 (S4 & E4 & Hd).
  assert (near H s s4) as N4 by (eapply near_trans; [exact N3|by split]).
  destruct N3 as [(C3 & _) _]. rewrite C3 in Hd. destruct r as [harness_sha256|e]; [|by apply Hearly].
  step_calm s; [exact Hearly|]. intros wrapper_sha256 s5 N5. step_calm s; [exact Hearly|]. intros host_artifacts s6 [S6 E6].
  split; [done|]. split; [done|]. intros m [= <-]. eexists. split; [done|]. do 3 (split; [by repeat constructor|]).
  split; [by repeat constructor|]. intros b Hb. rewrite (Hd _ b eq_refl Hb). by repeat constructor.
Qed.

Lemma sidecar_ne log : sidecar log ≠ log.
Proof. unfold sidecar. intros E. apply (f_equal String.length) in E. rewrite str_length_app in E. cbn in E. lia. Qed.

(** The digest goes to a new file. *)
Lemma wp_seal log log_digest s :
  wp (seal H log log_digest) (λ r s', stdout s' = stdout s ∧ output (world s') = output (world s)
    ∧ history (world s') = history (world s) ∧ content (world s) ⊆ content (world s') ∧
    ∀ u, r = Ok u → content (world s') = <[sidecar log := encode (sidecar_text log_digest log)]> (content (world s))) s.
Proof.
  unfold seal. apply wp_bind, wp_effect. pose proof (create_law (sidecar log) (world s)) as HC.
  destruct (r_create H (sidecar log) (world s)) as [[u|e] w1]; cbn [fst snd].
  2: { destruct HC as (HC & ? & ? & _). split; [done|]. split; [done|]. split; [done|]. cbn. by rewrite HC. }
  destruct HC as (Hn & Hc & Ho & Hr). apply wp_finally.
  apply wp_mono with (Q := λ r s', stdout s' = stdout s ∧ ∃ x, holds H (sidecar log) x (content (world s)) (output (world s)) (history (world s)) (world s')
    ∧ ∀ u, r = Ok u → x = encode (sidecar_text log_digest log)).
  2: { intros r s' [Es (x & Hx & Hr')]. eapply (wp_calm H); [apply near_refl|calm|]. intros v s'' [Hs'' Es''].
       destruct (holds_same H _ _ _ _ _ _ _ Hx Hs'') as (C'' & O'' & R'').
       assert (content (world s) ⊆ content (world s'')) by (rewrite C''; by apply insert_subseteq).
       destruct v; (split; [congruence|]; split; [done|]; split; [done|]; split; [done|]); [|done].
       intros u' Hu'. by rewrite C'', (Hr' u' Hu'). }
  assert (holds H (sidecar log) [] (content (world s)) (output (world s)) (history (world s)) w1) as H1 by (repeat split; congruence).
  apply wp_bind. unfold encode_ascii. cbn [wp lift]. destruct (forallb _ _); cbn; [|split; [done|]; by exists []].
  apply wp_bind, wp_effect. cbn [world]. assert (content w1 !! sidecar log = Some []) as Hx by (by rewrite Hc, lookup_insert_eq).
  pose proof (write_law _ (encode (sidecar_text log_digest log)) w1 _ Hx) as HW.
  destruct (r_write H (sidecar log) _ w1) as [r w2]. destruct HW as (part & _ & Hall & Hc2 & Ho2 & Hr2 & _). cbn [fst snd app] in *.
  assert (holds H (sidecar log) part (content (world s)) (output (world s)) (history (world s)) w2) as H2
    by (repeat split; [by rewrite Hc2, Hc, insert_insert_eq|congruence..]).
  destruct r as [v|e]; [|split; [done|]; by exists part]. rewrite (Hall v) in H2 by done.
  eapply (wp_calm H); [apply near_refl|calm|]. intros r s3 [S3 E3]. split; [done|]. eexists. split; [by eapply holds_same|done].
Qed.

(** What a run leaves behind when it returns [code]: a new transcript that begins with the
    run's description and ends with its record of [code], with the child's output between
    them; the transcript's digest beside it; and the line that says so. *)
Definition logged_run (p : place) (a : run_arguments) (s s' : st W) (code : Z) : Prop :=
  ∃ log run_id metadata more shown error end_utc duration o,
    let x := marker "RUN-BEGIN" metadata ++ shown ++ error ++ marker "RUN-END" (end_payload run_id end_utc duration o) in
    describes metadata (repo p +:+ "/scripts/m9-hardware-test.py") (harness_arguments a)
      (recorded_mode (harness_arguments a)) (recorded_port (harness_arguments a)) run_id (content (world s))
    ∧ account run_id (gate_command p (harness_arguments a)) (begun H log metadata (world s)) (history (world s))
        more shown error (history (world s')) o ∧ raised o = None ∧ exit_code o = code
    ∧ output (world s') = output (world s) ++ more
    ∧ content (world s) !! log = None ∧ content (world s') !! log = Some x
    ∧ content (world s') !! sidecar log = Some (encode (sidecar_text (sha256_hex x) log))
    ∧ stdout s' = stdout s +:+ (sealed_line log (sha256_hex x) code +:+ nl).

Lemma wp_main fuel p a s : (limit < fuel)%nat →
  wp (main H fuel p a) (λ r s', content (world s) ⊆ content (world s')
    ∧ match r with Ok code => logged_run p a s s' code | Err _ => True end) s.
Proof.
  intros Hf. unfold main.
  assert (∀ e s', near H s s' → content (world s) ⊆ content (world s') ∧
    match Err e with Ok code => logged_run p a s s' code | Err _ => True end) as Hearly.
  { intros e s' [(-> & _) _]. done. }
  step_calm s; [exact Hearly|]. intros _ s1 N1. step_calm s; [exact Hearly|]. intros present s2 N2.
  step_calm s; [exact Hearly|]. intros _ s3 N3. step_calm s; [exact Hearly|]. intros artifact_dir s4 N4.
  step_calm s; [exact Hearly|]. intros start_utc s5 N5. step_calm s; [exact Hearly|]. intros uuid s6 N6.
  step_calm s; [exact Hearly|]. intros log s7 N7. step_calm s; [exact Hearly|]. intros _ s8 N8.
  set (run_id := zfill 32 (fmt_x uuid)). 
  apply wp_bind. eapply wp_mono; [apply wp_gather|]. intros r s9 (S9 & E9 & Hm).
  assert (near H s s9) as N9 by (eapply near_trans; [exact N8|by split]).
  destruct r as [metadata|e]; [|by apply Hearly]. specialize (Hm _ eq_refl). destruct N8 as [(C8 & _) _]. rewrite C8 in Hm.
  clear S9 E9 Hearly. destruct N9 as [(C9 & O9 & R9 & _) E9].
  assert (begun H log metadata (world s9) = begun H log metadata (world s)) as B9 by (unfold begun; by rewrite C9, O9, R9).
  apply wp_bind. eapply wp_mono; [by apply wp_transcribe|]. intros r s10 [E10 HT].
  destruct HT as [HT|[C10 [e ->]]]; [|by rewrite C10, C9].
  destruct HT as (Hn & x & out & code' & Hx & Hk). rewrite C9 in Hn, Hx. rewrite O9, R9, B9 in Hk.
  assert (content (world s) ⊆ content (world s10)) as Hsub by (destruct Hx as [-> _]; by apply insert_subseteq).
  destruct r as [code|e]; [|done].
  destruct (Hk _ eq_refl) as (more & shown & error & end_utc & duration & o & Ho & Hcode & Ha & -> & ->). clear Hk.
  apply wp_bind. eapply wp_mono; [apply wp_sha256_file|]. intros r s11 (S11 & E11 & Hd).
  pose proof (holds_same H _ _ _ _ _ _ _ Hx S11) as (C11 & O11 & R11). destruct S11 as (C11' & _). destruct Hx as (Cx & _).
  destruct r as [log_digest|e]; [|by rewrite C11'].
  rewrite (Hd log_digest _ eq_refl) in * by (by rewrite Cx, lookup_insert_eq). clear Hd.
  apply wp_bind. eapply wp_mono; [apply wp_seal|]. intros r s12 (E12 & O12 & R12 & Hsub12 & Hu). rewrite C11' in Hsub12.
  assert (content (world s) ⊆ content (world s12)) by (by etrans).
  destruct r as [u|e]; [|done]. specialize (Hu _ eq_refl). cbn.
  split; [done|]. eexists log, run_id, metadata, more, shown, error, end_utc, duration, o. cbn zeta.
  split; [exact Hm|]. split; [cbn; by rewrite R12, R11|]. split; [done|]. split; [done|]. split; [cbn; congruence|]. split; [done|].
  cbn [world stdout]. rewrite Hu, C11. split; [by rewrite lookup_insert_ne, lookup_insert_eq by apply sidecar_ne|].
  split; [by rewrite lookup_insert_eq|]. rewrite E12, E11, E10, E9. done.
Qed.


End Run.

(** A marker is one line of printable ASCII. *)
Lemma marker_line name payload : printable name →
  ∃ line, printable line ∧ marker name payload = encode (line +:+ nl).
Proof.
  intros Hname. exists ("MICRONUX:M9.2:" +:+ name +:+ " " +:+ dumps payload). split.
  - by repeat apply printable_app; try apply dumps_printable.
  - unfold marker. by rewrite <- !str_app_assoc.
Qed.

(** ** A host

    A child that prints [script] and returns [code], a terminal that was closed, and a
    directory of files. *)

Unset Elimination Schemes.
Inductive sample := mkSample { files : gmap string bytes; position : nat; printed : bytes; past : list (event sample) }.
Set Elimination Schemes.

Definition happened (e : event sample) (w : sample) : sample :=
  {| files := files w; position := position w; printed := printed w; past := past w ++ [e] |}.

Section Sample.
Context (script : list bytes) (spawned : result unit) (code : Z).

Definition sample_host : run_host sample := {|
  r_now w := ({| year := 2025; month := 3; day := 9; hour := 7; minute := 5; second := 1; microsecond := 42999 |}, w);
  r_monotonic w := (float_of_ratio (Z.of_nat (position w)) 8, w);
  r_uuid4 w := (0xABCDEF, w);
  r_wide_alnum _ := true;
  r_run _ w := (Ok (0, "0123456789ab" +:+ nl), w);
  r_resolve p w := (p, w);
  r_is_file p w := (match files w !! p with Some _ => true | None => false end, w);
  r_stat_size p w := (match files w !! p with Some b => Ok (blen b) | None => Err (Exn FileNotFoundError p) end, w);
  r_read p w := (match files w !! p with Some b => Ok b | None => Err (Exn FileNotFoundError p) end, w);
  r_make_parent _ w := (Ok tt, w);
  r_create p w :=
    match files w !! p with
    | Some _ => (Err (Exn FileExistsError p), w)
    | None => (Ok tt, {| files := <[p := []]> (files w); position := position w; printed := printed w; past := past w |})
    end;
  r_write p b w :=
    (Ok tt, {| files := alter (λ x, x ++ b) p (files w); position := position w; printed := printed w; past := past w |});
  r_flush _ w := (Ok tt, w);
  r_fsync _ w := (Ok tt, w);
  r_close _ w := (Ok tt, w);
  r_stdout_write _ w := (Err (Exn BrokenPipeError "[Errno 32] Broken pipe"), w);
  r_stdout_flush w := (Ok tt, w);
  r_spawn l _ w := (spawned, match spawned with Ok _ => happened (Started l w) w | Err _ => w end);
  r_child_read _ w :=
    match script !! position w with
    | Some b => (Ok b, {| files := files w; position := S (position w); printed := printed w ++ b; past := past w |})
    | None => (Ok [], w)
    end;
  r_child_wait _ w := (Ok code, happened (Returned code) w);
  r_child_poll w := (Ok (match last (past w) with Some (Returned code) => Some code | _ => None end), w);
  r_child_terminate w := (Ok tt, w);
  r_child_kill w := (Ok tt, w);
|}.

#[global] Instance sample_logged : LoggedHost sample_host.
Proof.
  refine {| content := files; output := printed; history := past;
            reads_left w := (length script - position w)%nat; limit := length script |}; try (intros; cbn; by repeat split).
  - intros w. lia.
  - intros p w b c. cbn. destruct (files w !! p); congruence.
  - intros p w. cbn. destruct (files w !! p) eqn:E; by repeat split.
  - intros p b w x Hx. cbn. exists b. split; [done|]. split; [done|]. split; [|by repeat split].
    apply map_eq. intros q. destruct (decide (q = p)) as [->|].
    + by rewrite lookup_alter_eq, Hx, lookup_insert_eq.
    + by rewrite lookup_alter_ne, lookup_insert_ne.
  - intros l d w. cbn. by destruct spawned.
  - intros n w. cbn. destruct (script !! position w) eqn:E; cbn; [|by rewrite app_nil_r].
    apply lookup_lt_Some in E. repeat split. intros _. lia.
Defined.

End Sample.

Definition sample_place : place := {| wrapper := "/r/scripts/m9-run-logged.py"; repo := "/r"; executable := "python3" |}.
Definition sample_arguments (log : option string) : run_arguments :=
  {| log_file := log; remainder := ["--"; "--mode"; "soak 8h"; "--port=COM3"] |}.
Definition sample_world : sample := {|
  files := <["/r/scripts/m9-hardware-test.py" := encode "gate"]> (<["/r/scripts/m9-run-logged.py" := encode "wrapper"]>
             (<["/r/out/m9/Image" := encode "kernel"]> ∅));
  position := 0; printed := []; past := [] |}.
Definition sample_start : st sample := mkSt sample_world "" "".
Definition sample_script : list bytes := [encode ("one" +:+ nl); encode "two"].
Definition sample_log : string := "/r/out/m9/hardware-runs/20250309T070501Z-soak-8h-0123456789ab-00000000.log".

(** The text of a file after a run. *)
Definition file_after (path : string) (r : option (result Z * st sample)) : option (result Z * option string) :=
  match r with Some (r, s) => Some (r, chars <$> files (world s) !! path) | None => None end.

Example sample_transcript :
  match file_after sample_log (main (sample_host sample_script (Ok tt) 3) 3 sample_place (sample_arguments None) sample_start) with
  | Some (Ok 3, Some text) =>
      bool_decide (endswith ("}" +:+ nl +:+ "one" +:+ nl +:+ "twoMICRONUX:M9.2:RUN-END " +:+
        dumps (VDict [("duration_seconds", VSeconds (float_of_string "0.25")); ("end_utc", VStr "2025-03-09T07:05:01.042Z");
                      ("exit_code", VInt 3); ("interrupted", VBool false); ("run_id", VStr "00000000000000000000000000abcdef")])
        +:+ nl) text = true ∧ startswith "MICRONUX:M9.2:RUN-BEGIN {" text = true)
  | _ => false
  end = true.
Proof. by_compute. Qed.

Example sample_artifact_record :
  artifact_record (sample_host [] (Ok tt) 0) "/r/out/m9/Image" sample_start
  = Some (Ok (VDict [("path", VStr "/r/out/m9/Image"); ("size", VInt 6); ("sha256", VStr (sha256_hex (encode "kernel")))]),
          sample_start).
Proof. by_compute. Qed.

(** The child cannot be started: the error is recorded, the code is 127. *)
Example sample_not_started :
  match file_after sample_log
          (main (sample_host [] (Err (Exn FileNotFoundError "python3")) 0) 1 sample_place (sample_arguments None) sample_start) with
  | Some (Ok 127, Some text) =>
      contains (nl +:+ "MICRONUX:M9.2:RUN-ERROR " +:+
        dumps (VDict [("detail", VStr "python3"); ("run_id", VStr "00000000000000000000000000abcdef");
                      ("type", VStr "FileNotFoundError")]) +:+ nl +:+ "MICRONUX:M9.2:RUN-END ") text
  | _ => false
  end = true.
Proof. by_compute. Qed.

(** A transcript whose name is not ASCII is complete when writing the sidecar fails. *)
Example sample_name_not_ascii :
  let log := "/r/" +:+ chars_of [0xC3; 0xA9] +:+ ".log" in
  let r := main (sample_host sample_script (Ok tt) 0) 3 sample_place (sample_arguments (Some log)) sample_start in
  match file_after (sidecar log) r, file_after log r with
  | Some (Err e, Some sealed), Some (_, Some text) =>
      bool_decide (exn_cls e = UnicodeEncodeError ∧ sealed = "") && contains "twoMICRONUX:M9.2:RUN-END " text
  | _, _ => false
  end = true.
Proof. cbv zeta. by_compute. Qed.

(** The first [--mode] is recorded. *)
Example first_argument :
  (argument_value ["--mode"; "soak"; "--mode=touch"] "--mode", argument_value ["--mode=a=b"] "--mode",
   argument_value ["--port"; "x"; "--mode"] "--mode")
  = (Some "soak", Some "a=b", None).
Proof. by_compute. Qed.

(** The hypotheses of [run_logged] on the sample host, whose run returns 3. *)
Abbreviation sample_run := (sample_host sample_script (Ok tt) 3).
