(* ===== verification/Scripts.v ===== *)
(** * The command lines of the scripts

    The parser of every script, the arguments as its [main] reads them from the namespace,
    the settings of the M9 gate, and what the logging wrapper reads of the gate's line. *)

From S2P Require Import Prelude PyBytes PyStr PyFloat Utf8 Argparse Io Payload.
From S2P Require Import Gate GateM5 GateM6 GateM7Baseline GateM8 RunLog.

(** ** Declarations *)

(** [add_argument(name, type=..., default=...)] and the like *)
Definition optional (name : string) (t : atype) (default : aval) : opt :=
  {| o_name := name; o_action := Store t None default false |}.
Definition needed (name : string) (t : atype) : opt := {| o_name := name; o_action := Store t None ANone true |}.
Definition chosen (name : string) (choices : list string) (default : aval) : opt :=
  {| o_name := name; o_action := Store Text (Some choices) default false |}.
Definition flag (name : string) : opt := {| o_name := name; o_action := StoreTrue |}.

Definition plain_parser (l : list opt) : parser := {| Argparse.options := l; exclusive := []; Argparse.remainder := None |}.

(** A default of [type=float] in seconds *)
Definition seconds_default (n : Z) : aval := AFloat (float_of_ratio n 1).

(** scripts/check-bflt-wx.py *)
Definition bflt_parser : parser := plain_parser [needed "--tree" Path].

(** scripts/m2-test.py *)
Definition m2_parser : parser :=
  plain_parser [needed "--port" Text; optional "--boots" Int (AInt 3); optional "--timeout" Float (seconds_default 15)].

(** scripts/m3-pack.py *)
Definition pack_parser : parser :=
  plain_parser [needed "--image" Path; needed "--dtb" Path; needed "--output" Path;
    optional "--max-memory-end" Address (AInt M3Pack.COMMS_RESERVE_ADDRESS)].

(** scripts/m3-test.py *)
Definition m3_parser : parser :=
  plain_parser [needed "--port" Text; optional "--boots" Int (AInt 3); optional "--timeout" Float (seconds_default 20);
    flag "--skip-reset"].

(** scripts/m4-test.py *)
Definition m4_parser : parser :=
  plain_parser [needed "--port" Text; optional "--boots" Int (AInt 3); optional "--timeout" Float (seconds_default 25);
    needed "--artifact-dir" Path].

(** scripts/m5-test.py *)
Definition m5_parser : parser :=
  plain_parser [needed "--port" Text; optional "--boots" Int (AInt 3); optional "--timeout" Float (seconds_default 180);
    needed "--artifact-dir" Path; optional "--max-memory-loss-kib" Int (AInt GateM5.DEFAULT_MAX_MEMORY_LOSS_KIB)].

(** scripts/m6-test.py *)
Definition m6_parser : parser :=
  plain_parser [needed "--port" Text; optional "--boots" Int (AInt 3); optional "--timeout" Float (seconds_default 180);
    needed "--artifact-dir" Path; optional "--max-memory-loss-kib" Int (AInt GateM6.DEFAULT_MAX_MEMORY_LOSS_KIB);
    flag "--allow-no-card"; flag "--write-test"].

(** scripts/m6-combined-test.py *)
Definition m6_combined_parser : parser := {|
  Argparse.options := [
    needed "--port" Text; optional "--boots" Int (AInt 1); optional "--timeout" Float (seconds_default 420);
    needed "--artifact-dir" Path; flag "--write-test"; optional "--soak-cycles" Int (AInt 0);
    chosen "--expect-mipi-adapter" ["present"; "absent"] ANone; chosen "--expect-mipi-profile" ["jd9365"] ANone];
  exclusive := ["--expect-mipi-adapter"; "--expect-mipi-profile"];
  Argparse.remainder := None |}.

(** scripts/m6-network-test.py *)
Definition m6_network_parser : parser :=
  plain_parser [needed "--port" Text; optional "--boots" Int (AInt 3); optional "--timeout" Float ANone;
    needed "--artifact-dir" Path; flag "--online"].

(** scripts/m7-baseline-test.py *)
Definition m7_baseline_parser : parser :=
  plain_parser [needed "--port" Text; needed "--artifact-dir" Path; needed "--loader-image" Path;
    optional "--boots" Int (AInt 3);
    chosen "--pmp-profile" (map profile_name [Baseline; EarlyDeny]) (AText "baseline");
    optional "--timeout" Float (seconds_default 180); optional "--max-memory-loss-kib" Int (AInt 512);
    optional "--log" Path ANone].

(** scripts/m7-test.py *)
Definition m7_parser : parser :=
  plain_parser [optional "--port" Text ANone; optional "--loader-port" Text ANone; optional "--linux-port" Text ANone;
    optional "--boots" Int (AInt 3); optional "--timeout" Float (seconds_default 420); needed "--artifact-dir" Path;
    optional "--log" Path ANone; chosen "--expect-mipi-profile" ["jd9365"] ANone].

(** scripts/m8-device-test.py *)
Definition m8_parser : parser :=
  plain_parser [needed "--port" Text; optional "--timeout" Float (seconds_default 120); needed "--artifact-dir" Path;
    optional "--log" Path ANone; flag "--expect-m7-early-deny"; chosen "--expect-mipi-profile" ["jd9365"] ANone].

(** scripts/m9-hardware-test.py, in the directory below [root] *)
Definition mode_names : list (string * mode) :=
  [("preflight", Preflight); ("touch", Touch); ("soak", Soak); ("stress", Stress); ("disconnect", Disconnect);
   ("snapshot", Snapshot)].
Definition m9_parser (root : string) : parser :=
  plain_parser [optional "--port" Text (AText "COM14"); optional "--artifact-dir" Path (APath (root +:+ "/out/m9"));
    {| o_name := "--mode"; o_action := Store Text (Some (map fst mode_names)) ANone true |};
    optional "--point-timeout-ms" Int (AInt 60000); optional "--soak-seconds" Int (AInt 240);
    optional "--sample-seconds" Int (AInt 15); optional "--disconnect-seconds" Int (AInt 600);
    optional "--snapshot-seconds" Int (AInt 2); optional "--stress-cycles" Int (AInt 3)].

(** scripts/m9-run-logged.py *)
Definition run_logged_parser : parser := {|
  Argparse.options := [optional "--log-file" Path ANone]; exclusive := []; Argparse.remainder := Some "harness_args" |}.

(** scripts/usb-reset-arm.py *)
Definition usb_arm_parser : parser :=
  plain_parser [needed "--port" Text; optional "--timeout" Float (seconds_default 20)].

(** generate_firmware.py of the package, in [directory] *)
Definition firmware_parser (directory : string) : parser :=
  plain_parser [optional "--source" Path (APath (directory +:+ "/jd9365-waveshare-10.1-v2.json"));
    optional "--output" Path (APath (directory +:+ "/jd9365-waveshare-10.1-v2.bin")); flag "--check"].

(** ** The arguments as the scripts read them

    A reader gives the value that [main] uses under a name of the namespace, of the type it
    uses it with: there is none when the name is missing ([AttributeError]) or holds
    something that the code after it is not written for, such as [None] for a port. *)

Definition read_at {A} (f : aval → option A) (ns : namespace) (d : string) : option A :=
  match ns !! d with Some v => f v | None => None end.

Definition as_text (v : aval) : option string := match v with AText s => Some s | _ => None end.
Definition as_int (v : aval) : option Z := match v with AInt z => Some z | _ => None end.
Definition as_float (v : aval) : option float := match v with AFloat f => Some f | _ => None end.
Definition as_path (v : aval) : option string := match v with APath s => Some s | _ => None end.
Definition as_flag (v : aval) : option bool := match v with AFlag b => Some b | _ => None end.
Definition as_rest (v : aval) : option (list string) := match v with ARest l => Some l | _ => None end.

(** A value that the code compares with [None]. *)
Definition maybe {A} (f : aval → option A) (v : aval) : option (option A) :=
  match v with ANone => Some None | v => Some <$> f v end.

(** A value of a table of choices. *)
Fixpoint choice {A} (name : string) (l : list (string * A)) : option A :=
  match l with [] => None | (n, x) :: l => if decide (n = name) then Some x else choice name l end.
Definition as_choice {A} (l : list (string * A)) (v : aval) : option A := name ← as_text v; choice name l.

Definition mode_of (name : string) : option mode := choice name mode_names.

(** scripts/check-bflt-wx.py: the tree *)
Definition bflt_arguments (ns : namespace) : option string := read_at as_path ns "tree".

(** scripts/m2-test.py: port, boots, timeout *)
Definition m2_arguments (ns : namespace) : option (string * Z * float) :=
  port ← read_at as_text ns "port";
  boots ← read_at as_int ns "boots";
  timeout ← read_at as_float ns "timeout";
  Some (port, boots, timeout).

(** scripts/m3-pack.py: image, device tree, output, end of memory *)
Definition pack_arguments (ns : namespace) : option (string * string * string * Z) :=
  image ← read_at as_path ns "image";
  dtb ← read_at as_path ns "dtb";
  output ← read_at as_path ns "output";
  max_memory_end ← read_at as_int ns "max_memory_end";
  Some (image, dtb, output, max_memory_end).

(** scripts/m3-test.py: as m2, and whether the reset is skipped *)
Definition m3_arguments (ns : namespace) : option (string * Z * float * bool) :=
  common ← m2_arguments ns;
  skip_reset ← read_at as_flag ns "skip_reset";
  Some (common, skip_reset).

(** scripts/m4-test.py: as m2, and the artifact directory *)
Definition m4_arguments (ns : namespace) : option (string * Z * float * string) :=
  common ← m2_arguments ns;
  artifact_dir ← read_at as_path ns "artifact_dir";
  Some (common, artifact_dir).

(** scripts/m5-test.py: as m4, and the memory that may be lost *)
Definition m5_arguments (ns : namespace) : option (string * Z * float * string * Z) :=
  common ← m4_arguments ns;
  max_memory_loss_kib ← read_at as_int ns "max_memory_loss_kib";
  Some (common, max_memory_loss_kib).

(** scripts/m6-test.py: as m4, and the options of the card *)
Definition m6_arguments (ns : namespace) : option (string * Z * float * string * GateM6.options) :=
  common ← m4_arguments ns;
  loss ← read_at as_int ns "max_memory_loss_kib";
  no_card ← read_at as_flag ns "allow_no_card";
  write ← read_at as_flag ns "write_test";
  Some (common, {| GateM6.max_memory_loss_kib := loss; GateM6.allow_no_card := no_card; GateM6.write_test := write |}).

(** scripts/m6-combined-test.py: what is expected of the display, of which at most one is
    asked for *)
Inductive expectation := ExpectNothing | ExpectAdapter (present : bool) | ExpectJd9365.

Definition adapter_names : list (string * bool) := [("present", true); ("absent", false)].
Definition profile_names : list (string * unit) := [("jd9365", tt)].

Definition expected_display (ns : namespace) : option expectation :=
  adapter ← read_at (maybe (as_choice adapter_names)) ns "expect_mipi_adapter";
  profile ← read_at (maybe (as_choice profile_names)) ns "expect_mipi_profile";
  match adapter, profile with
  | None, None => Some ExpectNothing
  | Some present, None => Some (ExpectAdapter present)
  | None, Some _ => Some ExpectJd9365
  | Some _, Some _ => None
  end.

Definition m6_combined_arguments (ns : namespace) : option (string * Z * float * string * (bool * Z * expectation)) :=
  common ← m4_arguments ns;
  write_test ← read_at as_flag ns "write_test";
  soak_cycles ← read_at as_int ns "soak_cycles";
  display ← expected_display ns;
  Some (common, (write_test, soak_cycles, display)).

(** scripts/m6-network-test.py, whose timeout may be missing *)
Definition m6_network_arguments (ns : namespace) : option (string * Z * option float * string * bool) :=
  port ← read_at as_text ns "port";
  boots ← read_at as_int ns "boots";
  timeout ← read_at (maybe as_float) ns "timeout";
  artifact_dir ← read_at as_path ns "artifact_dir";
  online ← read_at as_flag ns "online";
  Some (port, boots, timeout, artifact_dir, online).

(** scripts/m7-baseline-test.py: as m5, the loader's image, the profile and the log *)
Definition pmp_profiles : list (string * profile) := [("baseline", Baseline); ("early-deny", EarlyDeny)].

Definition m7_baseline_arguments (ns : namespace)
    : option (string * Z * float * string * Z * (string * profile * option string)) :=
  common ← m5_arguments ns;
  loader_image ← read_at as_path ns "loader_image";
  pmp_profile ← read_at (as_choice pmp_profiles) ns "pmp_profile";
  log ← read_at (maybe as_path) ns "log";
  Some (common, (loader_image, pmp_profile, log)).

(** scripts/m7-test.py: three ports that may be missing, boots, timeout, the directory, the
    log, and whether the profile is expected *)
Definition m7_arguments (ns : namespace)
    : option (option string * option string * option string * (Z * float * string * option string * bool)) :=
  port ← read_at (maybe as_text) ns "port";
  loader_port ← read_at (maybe as_text) ns "loader_port";
  linux_port ← read_at (maybe as_text) ns "linux_port";
  boots ← read_at as_int ns "boots";
  timeout ← read_at as_float ns "timeout";
  artifact_dir ← read_at as_path ns "artifact_dir";
  log ← read_at (maybe as_path) ns "log";
  profile ← read_at (maybe (as_choice profile_names)) ns "expect_mipi_profile";
  Some (port, loader_port, linux_port, (boots, timeout, artifact_dir, log, bool_decide (profile = Some tt))).

(** scripts/m8-device-test.py: port, timeout, the directory, the log, and what is expected *)
Definition m8_arguments (ns : namespace) : option (string * float * string * GateM8.options) :=
  port ← read_at as_text ns "port";
  timeout ← read_at as_float ns "timeout";
  artifact_dir ← read_at as_path ns "artifact_dir";
  log ← read_at (maybe as_path) ns "log";
  early_deny ← read_at as_flag ns "expect_m7_early_deny";
  profile ← read_at (maybe (as_choice profile_names)) ns "expect_mipi_profile";
  Some (port, timeout, artifact_dir,
        {| GateM8.log_path := log; GateM8.expect_m7_early_deny := early_deny;
           GateM8.expect_mipi_profile := bool_decide (profile = Some tt) |}).

(** scripts/m9-hardware-test.py: the arguments and [args.artifact_dir] *)
Definition m9_arguments (ns : namespace) : option (arguments * string) :=
  port ← read_at as_text ns "port";
  directory ← read_at as_path ns "artifact_dir";
  mode ← read_at (as_choice mode_names) ns "mode";
  point ← read_at as_int ns "point_timeout_ms";
  soak ← read_at as_int ns "soak_seconds";
  sample ← read_at as_int ns "sample_seconds";
  disconnect ← read_at as_int ns "disconnect_seconds";
  snapshot ← read_at as_int ns "snapshot_seconds";
  stress ← read_at as_int ns "stress_cycles";
  Some ({| arg_port := port; arg_mode := mode; point_timeout_ms := point; soak_seconds := soak; sample_seconds := sample;
           disconnect_seconds := disconnect; snapshot_seconds := snapshot; stress_cycles := stress |}, directory).

(** scripts/m9-run-logged.py *)
Definition wrapper_arguments (ns : namespace) : option run_arguments :=
  log_file ← read_at (maybe as_path) ns "log_file";
  rest ← read_at as_rest ns "harness_args";
  Some {| log_file := log_file; RunLog.remainder := rest |}.

(** scripts/usb-reset-arm.py: port, timeout *)
Definition usb_arm_arguments (ns : namespace) : option (string * float) :=
  port ← read_at as_text ns "port";
  timeout ← read_at as_float ns "timeout";
  Some (port, timeout).

(** generate_firmware.py: source, output, whether to check *)
Definition firmware_arguments (ns : namespace) : option (string * string * bool) :=
  source ← read_at as_path ns "source";
  output ← read_at as_path ns "output";
  check ← read_at as_flag ns "check";
  Some (source, output, check).

(** ** Every line that is accepted can be run *)

Inductive script :=
  | CheckBflt | TestM2 | PackM3 | TestM3 | TestM4 | TestM5 | TestM6 | TestM6Combined | TestM6Network | TestM7Baseline
  | TestM7 | TestM8 | TestM9 | RunM9Logged | UsbResetArm | GenerateFirmware.

Section Scripts.
Context (root directory : string).

(** The parser of a script, for a repository at [root] and the package in [directory]. *)
Definition parser_of (x : script) : parser :=
  match x with
  | CheckBflt => bflt_parser | TestM2 => m2_parser | PackM3 => pack_parser | TestM3 => m3_parser | TestM4 => m4_parser
  | TestM5 => m5_parser | TestM6 => m6_parser | TestM6Combined => m6_combined_parser | TestM6Network => m6_network_parser
  | TestM7Baseline => m7_baseline_parser | TestM7 => m7_parser | TestM8 => m8_parser | TestM9 => m9_parser root
  | RunM9Logged => run_logged_parser | UsbResetArm => usb_arm_parser | GenerateFirmware => firmware_parser directory
  end.

(** [main] finds all its arguments, of the types it uses them with. *)
Definition readable (x : script) (ns : namespace) : Prop :=
  match x with
  | CheckBflt => is_Some (bflt_arguments ns) | TestM2 => is_Some (m2_arguments ns) | PackM3 => is_Some (pack_arguments ns)
  | TestM3 => is_Some (m3_arguments ns) | TestM4 => is_Some (m4_arguments ns) | TestM5 => is_Some (m5_arguments ns)
  | TestM6 => is_Some (m6_arguments ns) | TestM6Combined => is_Some (m6_combined_arguments ns)
  | TestM6Network => is_Some (m6_network_arguments ns) | TestM7Baseline => is_Some (m7_baseline_arguments ns)
  | TestM7 => is_Some (m7_arguments ns) | TestM8 => is_Some (m8_arguments ns) | TestM9 => is_Some (m9_arguments ns)
  | RunM9Logged => is_Some (wrapper_arguments ns) | UsbResetArm => is_Some (usb_arm_arguments ns)
  | GenerateFirmware => is_Some (firmware_arguments ns)
  end.

Lemma parser_of_wf x : wf_parser (parser_of x) = true.
Proof. destruct x; vm_compute; reflexivity. Qed.

End Scripts.

(** The option that is kept under a name *)
Definition option_at (p : parser) (d : string) : option opt :=
  snd <$> list_find (λ o, dest (o_name o) = d) (Argparse.options p).

Section Reading.
Context (p : parser) (ns : namespace) (Hns : well_typed p ns).

Lemma option_value d o : option_at p d = Some o →
  ∃ v, ns !! d = Some v ∧ (Argparse.given (o_action o) v ∨ v = initial (o_action o) ∧ is_required o = false).
Proof.
  unfold option_at. intros ([i o'] & (Ho & Hd & _)%list_find_Some & ->)%fmap_Some. cbn.
  destruct (has_values _ _ Hns o') as (v & Hl & Hv); [by eapply list_elem_of_lookup_2|]. rewrite Hd in Hl. by exists v.
Qed.

(** A reader that takes what may be given, and the default when it may be left out, finds
    its value. *)
Lemma read_ok {A} (f : aval → option A) d o : option_at p d = Some o →
  (∀ v, Argparse.given (o_action o) v → is_Some (f v)) → (is_required o = true ∨ is_Some (f (initial (o_action o)))) →
  is_Some (read_at f ns d).
Proof.
  intros Ho Hg Hi. destruct (option_value d o Ho) as (v & Hl & Hv). unfold read_at. rewrite Hl.
  destruct Hv as [Hv|[-> Hr]]; [by apply Hg|]. destruct Hi; [congruence|done].
Qed.

End Reading.

(** What can be given is a value of the type, or one of the choices. *)
Ltac given_value :=
  let v := fresh "v" in let Hv := fresh "Hv" in
  intros v Hv; cbn in Hv;
  lazymatch type of Hv with
  | v = _ => subst v; by eexists
  | _ ∧ (∀ cs, None = Some cs → @?P cs) => destruct Hv as [Hv _]; destruct v; try done; by eexists
  | _ ∧ _ =>
      let c := fresh "c" in let Hin := fresh "Hin" in
      destruct Hv as [_ Hv]; destruct (Hv _ eq_refl) as (c & Hin & [= <-]);
      repeat (apply elem_of_cons in Hin as [->|Hin]; [by eexists|]); by apply elem_of_nil in Hin
  end.

Ltac read_next Hns :=
  match goal with
  | |- context [read_at ?f _ ?d] =>
      let x := fresh "x" in let E := fresh "E" in
      edestruct (read_ok _ _ Hns f d) as [x E];
        [vm_compute; reflexivity|given_value|first [left; reflexivity|right; by eexists]|rewrite E; cbn [mbind option_bind]]
  end.

(** The two expectations are a group: one of them is left out. *)
Lemma display_expected ns : well_typed m6_combined_parser ns → is_Some (expected_display ns).
Proof.
  intros E.
  assert (ns !! "expect_mipi_adapter" = Some ANone ∨ ns !! "expect_mipi_profile" = Some ANone) as Hx.
  { apply (excludes _ _ E (chosen "--expect-mipi-adapter" ["present"; "absent"] ANone)
      (chosen "--expect-mipi-profile" ["jd9365"] ANone)); [by repeat constructor..|done]. }
  assert (∀ d A (f : aval → option A), ns !! d = Some ANone → read_at (maybe f) ns d = Some None) as Hn.
  { intros d A f Hd. unfold read_at. by rewrite Hd. }
  unfold expected_display. destruct Hx as [Hx|Hx].
  - rewrite (Hn _ _ _ Hx). cbn [mbind option_bind]. read_next E. destruct x; by eexists.
  - rewrite (Hn _ _ _ Hx). read_next E. destruct x; by eexists.
Qed.

(** C38: What a parser accepts, its script can run on: whatever the command line of one of
    the sixteen scripts, when the parser returns a namespace, [main] finds in it every
    argument that it reads, under the name and of the type with which it uses it: a required
    port, path or mode is there and is not [None], numbers are integers or floats as the
    code expects, a choice is one of those the code has a case for, and of the two
    expectations of the combined test at most one is set. *)
Theorem accepted_lines_readable root directory x argv ns :
  parse_args (parser_of root directory x) argv = Parsed ns → readable x ns.
Proof.
  intros E. apply parse_well_typed in E; [|by apply parser_of_wf]. destruct x; cbn [parser_of readable] in *.
  14: { unfold wrapper_arguments. destruct (has_rest _ _ E _ eq_refl) as [l Hl]. read_next E.
        unfold read_at. rewrite Hl. by eexists. }
  8: { unfold m6_combined_arguments, m4_arguments, m2_arguments. destruct (display_expected ns E) as [display ->].
       repeat read_next E. by eexists. }
  all: unfold bflt_arguments, pack_arguments, m3_arguments, m6_arguments, m7_baseline_arguments, m5_arguments, m4_arguments,
    m2_arguments, m6_network_arguments, m7_arguments, m8_arguments, m9_arguments, usb_arm_arguments, firmware_arguments.
  all: repeat read_next E; by eexists.
Qed.

Lemma m9_arguments_total root argv ns : parse_args (m9_parser root) argv = Parsed ns → is_Some (m9_arguments ns).
Proof.
  intros E. apply parse_well_typed in E; [|vm_compute; reflexivity]. unfold m9_arguments. repeat read_next E. by eexists.
Qed.

(** ** The M9 gate is run as its command line says

    What can be asked of the gate, apart from how the parser is declared. *)

Inductive setting :=
  | SetPort (port : string) | SetArtifacts (directory : string) | SetMode (m : mode) | SetPointTimeout (ms : Z)
  | SetSoak (seconds : Z) | SetSample (seconds : Z) | SetDisconnect (seconds : Z) | SetSnapshot (seconds : Z)
  | SetStress (cycles : Z).

Definition setting_name (x : setting) : string :=
  match x with
  | SetPort _ => "--port" | SetArtifacts _ => "--artifact-dir" | SetMode _ => "--mode"
  | SetPointTimeout _ => "--point-timeout-ms" | SetSoak _ => "--soak-seconds" | SetSample _ => "--sample-seconds"
  | SetDisconnect _ => "--disconnect-seconds" | SetSnapshot _ => "--snapshot-seconds" | SetStress _ => "--stress-cycles"
  end.

Definition mode_name (m : mode) : string :=
  match m with
  | Preflight => "preflight" | Touch => "touch" | Soak => "soak" | Stress => "stress" | Disconnect => "disconnect"
  | Snapshot => "snapshot"
  end.

(** The texts for a setting: a number in any form that [int] reads. *)
Definition says (x : setting) (text : string) : Prop :=
  match x with
  | SetPort s | SetArtifacts s => text = s
  | SetMode m => text = mode_name m
  | SetPointTimeout z | SetSoak z | SetSample z | SetDisconnect z | SetSnapshot z | SetStress z => int_text text = Some z
  end.

(** A line that gives the settings one after the other, each as [--name text] or as
    [--name=text]; a text that starts with a dash needs the second form. *)
Inductive gives : list setting → list string → Prop :=
  | gives_nil : gives [] []
  | gives_apart x xs text argv : says x text → startswith "-" text = false → gives xs argv →
      gives (x :: xs) (setting_name x :: text :: argv)
  | gives_joined x xs text argv : says x text → gives xs argv →
      gives (x :: xs) ((setting_name x +:+ "=" +:+ text) :: argv).

(** The run that is asked for: settings replace what was there before them. *)
Definition set_argument (run : arguments * string) (x : setting) : arguments * string :=
  let '(a, directory) := run in
  let with_ port m point soak sample disconnect snapshot stress := {|
    arg_port := port; arg_mode := m; point_timeout_ms := point; soak_seconds := soak; sample_seconds := sample;
    disconnect_seconds := disconnect; snapshot_seconds := snapshot; stress_cycles := stress |} in
  let 'Build_arguments port m point soak sample disconnect snapshot stress := a in
  match x with
  | SetPort port => (with_ port m point soak sample disconnect snapshot stress, directory)
  | SetArtifacts directory => (a, directory)
  | SetMode m => (with_ port m point soak sample disconnect snapshot stress, directory)
  | SetPointTimeout point => (with_ port m point soak sample disconnect snapshot stress, directory)
  | SetSoak soak => (with_ port m point soak sample disconnect snapshot stress, directory)
  | SetSample sample => (with_ port m point soak sample disconnect snapshot stress, directory)
  | SetDisconnect disconnect => (with_ port m point soak sample disconnect snapshot stress, directory)
  | SetSnapshot snapshot => (with_ port m point soak sample disconnect snapshot stress, directory)
  | SetStress stress => (with_ port m point soak sample disconnect snapshot stress, directory)
  end.

(** Without settings: a minute per touch point, four minutes of soak with a sample every
    fifteen seconds, ten minutes disconnected, two seconds of snapshot, three cycles of
    stress.  There is no mode by default. *)
Definition usual_run (root : string) (m : mode) : arguments * string :=
  ({| arg_port := "COM14"; arg_mode := m; point_timeout_ms := 60000; soak_seconds := 240; sample_seconds := 15;
      disconnect_seconds := 600; snapshot_seconds := 2; stress_cycles := 3 |}, root +:+ "/out/m9").

Definition mode_set (x : setting) : option mode := match x with SetMode m => Some m | _ => None end.

Section Settings.
Context (root : string).

Definition setting_option (x : setting) : opt :=
  match x with
  | SetPort _ => optional "--port" Text (AText "COM14")
  | SetArtifacts _ => optional "--artifact-dir" Path (APath (root +:+ "/out/m9"))
  | SetMode _ => {| o_name := "--mode"; o_action := Store Text (Some (map fst mode_names)) ANone true |}
  | SetPointTimeout _ => optional "--point-timeout-ms" Int (AInt 60000)
  | SetSoak _ => optional "--soak-seconds" Int (AInt 240)
  | SetSample _ => optional "--sample-seconds" Int (AInt 15)
  | SetDisconnect _ => optional "--disconnect-seconds" Int (AInt 600)
  | SetSnapshot _ => optional "--snapshot-seconds" Int (AInt 2)
  | SetStress _ => optional "--stress-cycles" Int (AInt 3)
  end.

Definition setting_value (x : setting) : aval :=
  match x with
  | SetPort s => AText s | SetArtifacts s => APath s | SetMode m => AText (mode_name m)
  | SetPointTimeout z | SetSoak z | SetSample z | SetDisconnect z | SetSnapshot z | SetStress z => AInt z
  end.

Definition gift_of (x : setting) (text : string) : gift :=
  {| g_opt := setting_option x; g_text := Some text; g_value := setting_value x |}.

Lemma gift_meaningful x text : says x text → meaningful (m9_parser root) (gift_of x text).
Proof.
  intros Hs. split; [destruct x; by repeat constructor|].
  destruct x as [s|s|m|z|z|z|z|z|z]; cbn in Hs |- *; [by subst|by subst| |by rewrite Hs..].
  subst. split; [done|]. destruct m; by repeat constructor.
Qed.

(** The gifts of a line, and what they leave in the namespace. *)
Lemma gives_spells xs argv : gives xs argv →
  ∃ gs, spells gs argv ∧ Forall (meaningful (m9_parser root)) gs
    ∧ map gift_name gs = map setting_name xs ∧ map g_value gs = map setting_value xs.
Proof.
  assert (∀ x, o_name (setting_option x) = setting_name x) as Hn by (intros []; done).
  induction 1 as [|x xs text argv Hs Hd _ (gs & H1 & H2 & H3 & H4)|x xs text argv Hs _ (gs & H1 & H2 & H3 & H4)].
  { exists []. by repeat constructor. }
  all: exists (gift_of x text :: gs); rewrite <- (Hn x).
  all: assert (map gift_name (gift_of x text :: gs) = map setting_name (x :: xs)) as Hnames by (cbn [map]; by rewrite H3, <- Hn).
  all: assert (map g_value (gift_of x text :: gs) = map setting_value (x :: xs)) as Hvalues by (cbn [map]; by rewrite H4).
  all: assert (Forall (meaningful (m9_parser root)) (gift_of x text :: gs)) as Hm by (constructor; [by apply gift_meaningful|done]).
  - split; [by apply (spells_apart (gift_of x text))|done].
  - split; [by apply (spells_joined (gift_of x text))|done].
Qed.

(** What the settings leave in a namespace. *)
Definition settle (ns : namespace) (xs : list setting) : namespace :=
  foldl (λ ns x, <[dest (setting_name x) := setting_value x]> ns) ns xs.

Lemma receive_settle gs xs ns : map gift_name gs = map setting_name xs → map g_value gs = map setting_value xs →
  receive ns gs = settle ns xs.
Proof.
  revert xs ns. induction gs as [|g gs IH]; intros [|x xs] ns Hn Hv; try done. cbn in Hn, Hv |- *.
  injection Hn as Hn1 Hn2. injection Hv as Hv1 Hv2. rewrite Hn1, Hv1. by apply IH.
Qed.

(** The namespace has this run, but for the mode. *)
Definition names_run (ns : namespace) (run : arguments * string) : Prop :=
  let '(a, directory) := run in
  ns !! "port" = Some (AText (arg_port a)) ∧ ns !! "artifact_dir" = Some (APath directory)
  ∧ ns !! "point_timeout_ms" = Some (AInt (point_timeout_ms a)) ∧ ns !! "soak_seconds" = Some (AInt (soak_seconds a))
  ∧ ns !! "sample_seconds" = Some (AInt (sample_seconds a)) ∧ ns !! "disconnect_seconds" = Some (AInt (disconnect_seconds a))
  ∧ ns !! "snapshot_seconds" = Some (AInt (snapshot_seconds a)) ∧ ns !! "stress_cycles" = Some (AInt (stress_cycles a)).
Definition names_mode (ns : namespace) (run : arguments * string) : Prop :=
  ns !! "mode" = Some (AText (mode_name (arg_mode run.1))).

Lemma names_m9 ns run : names_run ns run → names_mode ns run → m9_arguments ns = Some run.
Proof.
  destruct run as [[] directory]. unfold names_mode. intros (H1 & H2 & H3 & H4 & H5 & H6 & H7 & H8) Hm. cbn in *.
  unfold m9_arguments, read_at. rewrite H1, H2, Hm, H3, H4, H5, H6, H7, H8. by destruct arg_mode.
Qed.

Lemma setting_names x ns run : names_run ns run →
  names_run (<[dest (setting_name x) := setting_value x]> ns) (set_argument run x)
  ∧ (names_mode ns run ∨ is_Some (mode_set x) → names_mode (<[dest (setting_name x) := setting_value x]> ns) (set_argument run x)).
Proof.
  destruct run as [[] directory]. unfold names_mode. intros (H1 & H2 & H3 & H4 & H5 & H6 & H7 & H8).
  destruct x; cbn [setting_name setting_value set_argument fst snd names_run Gate.arg_port Gate.arg_mode] in *.
  all: match goal with |- context [dest ?n] => let d := eval vm_compute in (dest n) in change (dest n) with d end.
  all: split; [split_and!|]; simplify_map_eq; try done.
  all: by intros [|[? [=]]].
Qed.

Lemma settle_names xs ns run : names_run ns run →
  names_run (settle ns xs) (foldl set_argument run xs)
  ∧ (names_mode ns run ∨ (∃ m, SetMode m ∈ xs) → names_mode (settle ns xs) (foldl set_argument run xs)).
Proof.
  revert ns run. induction xs as [|x xs IH]; intros ns run Hr.
  { split; [done|]. by intros [|[m Hm%elem_of_nil]]. }
  destruct (setting_names x ns run Hr) as [Hr' Hm]. destruct (IH _ _ Hr') as [Hr'' Hm']. split; [done|].
  intros [Hn|[m [<-|Hin]%elem_of_cons]]; apply Hm'; [left; apply Hm; by left|left; apply Hm; right; by eexists|right; by exists m].
Qed.

(** The parser on a line of settings: it looks for the mode at the end. *)
Lemma gives_finish xs argv : gives xs argv →
  parse_args (m9_parser root) argv
  = finish (m9_parser root) {| space := settle (defaults (m9_parser root)) xs; Argparse.seen := reverse (map setting_name xs); extras := [] |}.
Proof.
  intros (gs & Hs & Hm & Hn & Hv)%gives_spells.
  destruct (classify_spells (m9_parser root) eq_refl gs argv Hm Hs) as (ws & Ew & Hw). unfold parse_args. rewrite Ew.
  rewrite (consume_words _ gs ws _ Hm Hw); [|by intros a b _ _ Ha%elem_of_nil].
  cbn [space Argparse.seen extras]. by rewrite app_nil_r, Hn, (receive_settle gs xs).
Qed.

Lemma finish_mode ns names : finish (m9_parser root) {| space := ns; Argparse.seen := names; extras := [] |}
  = if decide ("--mode" ∈ names) then Parsed ns else Refused (MissingRequired ["--mode"]).
Proof.
  unfold finish. cbn [Argparse.options m9_parser plain_parser Argparse.seen].
  repeat (rewrite filter_cons; rewrite decide_False by (intros [[=] _])). rewrite filter_cons.
  repeat (rewrite (filter_cons _ (optional _ _ _)); rewrite decide_False by (intros [[=] _])).
  cbn [o_name]. destruct (decide ("--mode" ∈ names)) as [Hin|Hin].
  - by rewrite decide_False by (intros [_ Hn]; by apply Hn).
  - by rewrite decide_True.
Qed.

Lemma mode_named xs : "--mode" ∈ reverse (map setting_name xs) ↔ ∃ m, SetMode m ∈ xs.
Proof.
  rewrite elem_of_reverse, list_elem_of_fmap. split.
  - intros ([] & [=] & Hin). by eexists.
  - intros [m Hin]. by exists (SetMode m).
Qed.

Lemma usual_names m : names_run (defaults (m9_parser root)) (usual_run root m).
Proof. by vm_compute. Qed.

(** C39: The M9 gate runs as its command line says.  A line that gives settings, in any
    order, repeated or not, each as [--name text] or [--name=text], and a mode among them,
    is accepted, and the gate runs with the last value given to each setting and with its
    documented default for each that is not given; a line of settings without a mode is
    refused because the mode is missing, and for no other reason. *)
Theorem m9_settings_round_trip xs argv : gives xs argv →
  (∀ m, SetMode m ∈ xs →
     ∃ ns, parse_args (m9_parser root) argv = Parsed ns
       ∧ m9_arguments ns = Some (foldl set_argument (usual_run root m) xs))
  ∧ ((∀ m, SetMode m ∉ xs) → parse_args (m9_parser root) argv = Refused (MissingRequired ["--mode"])).
Proof.
  intros Hg. rewrite (gives_finish xs argv Hg), finish_mode. split.
  - intros m Hm. rewrite decide_True by (apply mode_named; by exists m). eexists. split; [done|].
    destruct (settle_names xs _ _ (usual_names m)) as [Hr Hn]. apply names_m9; [done|]. apply Hn. right. by exists m.
  - intros Hm. rewrite decide_False; [done|]. intros [m Hin]%mode_named. by apply (Hm m).
Qed.

End Settings.

(** ** What the wrapper records of a run *)

(** The text first given to an option. *)
Fixpoint first_text (name : string) (xs : list gift) : option string :=
  match xs with
  | [] => None
  | x :: xs => if decide (gift_name x = name) then g_text x else first_text name xs
  end.

Lemma no_equals_prefix name n : cut_equals n = None → cut_equals name = None → startswith (name +:+ "=") n = false.
Proof.
  intros Hn Hname. apply not_true_iff_false. intros (b & ->)%startswith_spec.
  rewrite <- str_app_assoc, cut_joined in Hn; done.
Qed.

Lemma joined_prefix name n text : cut_equals n = None → cut_equals name = None →
  startswith (name +:+ "=") (n +:+ "=" +:+ text) = bool_decide (n = name).
Proof.
  intros Hn Hname. destruct (decide (n = name)) as [->|Hne].
  - rewrite bool_decide_eq_true_2 by done. apply startswith_spec. exists text. by rewrite str_app_assoc.
  - rewrite bool_decide_eq_false_2 by done. apply not_true_iff_false. intros (b & E)%startswith_spec.
    rewrite <- str_app_assoc in E. apply (f_equal cut_equals) in E. rewrite !cut_joined in E by done. congruence.
Qed.

Lemma plain_no_prefix name text : startswith "--" name = true → startswith "-" text = false →
  text ≠ name ∧ startswith (name +:+ "=") text = false.
Proof.
  intros (r & ->)%startswith_spec Ht. split; [intros ->; done|]. apply not_true_iff_false. intros (b & ->)%startswith_spec. done.
Qed.

(** One step of the search, where the words do not end the line. *)
Lemma argument_value_skip argument rest name : argument ≠ name → startswith (name +:+ "=") argument = false →
  argument_value (argument :: rest) name = argument_value rest name.
Proof. intros Hne Hs. destruct rest; cbn [argument_value]; [by rewrite Hs|]. by rewrite decide_False, Hs. Qed.

Lemma argument_value_joined argument rest name : argument ≠ name → startswith (name +:+ "=") argument = true →
  argument_value (argument :: rest) name = Some (after_equals argument).
Proof. intros Hne Hs. destruct rest; cbn [argument_value]; [by rewrite Hs|]. by rewrite decide_False, Hs. Qed.

(** The wrapper finds what is spelled out. *)
Lemma argument_value_spells p name xs argv : wf_parser p = true → wf_name name = true → Forall (meaningful p) xs → spells xs argv →
  (∀ x, x ∈ xs → gift_name x = name → g_text x ≠ None) → argument_value argv name = first_text name xs.
Proof.
  intros Hp Hname Hm Hs Hv. destruct (wf_name_parts _ Hname) as (Hlong & _ & _ & Hcut).
  induction Hs as [|x xs argv Ht Hs IH|x xs text argv Ht Hd Hs IH|x xs text argv Ht Hs IH]; [done|..].
  all: apply Forall_cons in Hm as [[Ho _] Hm]; specialize (IH Hm ltac:(intros y Hy; apply Hv; by right)).
  all: destruct (wf_name_parts _ (wf_names p Hp _ Ho)) as (_ & _ & _ & Hc); cbn [first_text]; unfold gift_name at 1.
  - rewrite decide_False.
    + rewrite argument_value_skip; [done| |by apply no_equals_prefix]. intros E. by apply (Hv x); [left|..].
    + intros E. by apply (Hv x); [left|..].
  - case_decide as E.
    + cbn [argument_value]. by rewrite decide_True.
    + destruct (plain_no_prefix name text Hlong Hd) as [Hne Hpre].
      by rewrite argument_value_skip, argument_value_skip by (done || by apply no_equals_prefix).
  - assert (o_name (g_opt x) +:+ "=" +:+ text ≠ name) as Hne.
    { intros E. rewrite <- E, cut_joined in Hcut; done. }
    case_decide as E.
    + rewrite argument_value_joined; [|done|by rewrite joined_prefix, bool_decide_eq_true_2].
      unfold after_equals. by rewrite cut_joined.
    + rewrite argument_value_skip; [done..|]. by rewrite joined_prefix, bool_decide_eq_false_2.
Qed.

Lemma first_text_unique name xs x : NoDup (map gift_name xs) → x ∈ xs → gift_name x = name → first_text name xs = g_text x.
Proof.
  intros Hn Hin Hx. induction xs as [|y xs IH]; [by apply elem_of_nil in Hin|]. cbn in Hn |- *.
  apply NoDup_cons in Hn as [Hy Hn]. apply elem_of_cons in Hin as [->|Hin]; [by rewrite decide_True|].
  rewrite decide_False; [by apply IH|]. intros E. apply Hy. rewrite E, <- Hx. by apply (list_elem_of_fmap_2 gift_name).
Qed.

Lemma first_text_absent name xs : name ∉ map gift_name xs → first_text name xs = None.
Proof.
  induction xs as [|y xs IH]; [done|]. cbn. rewrite not_elem_of_cons. intros [Hne Hn]. rewrite decide_False by congruence. auto.
Qed.

(** The values of options that are given once, and of options that are not given. *)
Lemma receive_absent p ns xs o : wf_parser p = true → Forall (meaningful p) xs → o ∈ Argparse.options p →
  o_name o ∉ map gift_name xs → receive ns xs !! dest (o_name o) = ns !! dest (o_name o).
Proof.
  intros Hp Hm Ho. revert ns. induction Hm as [|x xs [Hx _] Hm IH]; intros ns Hn; [done|]. cbn in Hn |- *.
  rewrite not_elem_of_cons in Hn. destruct Hn as [Hne Hn]. fold (receive (<[dest (gift_name x) := g_value x]> ns) xs).
  rewrite IH by done. apply lookup_insert_ne. intros E. apply Hne. unfold gift_name. f_equal. symmetry. by apply (dest_inj p Hp).
Qed.

Lemma receive_given p ns xs x : wf_parser p = true → Forall (meaningful p) xs → NoDup (map gift_name xs) → x ∈ xs →
  receive ns xs !! dest (gift_name x) = Some (g_value x).
Proof.
  intros Hp Hm. revert ns. induction Hm as [|y xs Hy Hm IH]; intros ns Hn Hin; [by apply elem_of_nil in Hin|]. cbn in Hn.
  apply NoDup_cons in Hn as [Hny Hn]. cbn. fold (receive (<[dest (gift_name y) := g_value y]> ns) xs).
  apply elem_of_cons in Hin as [->|Hin]; [|by apply IH].
  rewrite (receive_absent p _ xs (g_opt y)); [by apply lookup_insert_eq|done..|by destruct Hy|done].
Qed.

Lemma m9_mode ns args directory : m9_arguments ns = Some (args, directory) →
  ∃ name, ns !! "mode" = Some (AText name) ∧ mode_of name = Some (arg_mode args) ∧ ns !! "port" = Some (AText (arg_port args)).
Proof.
  unfold m9_arguments. intros (port & Hp & E)%bind_Some. apply bind_Some in E as (dir & _ & E).
  apply bind_Some in E as (m & Hm & E). repeat (apply bind_Some in E as (? & _ & E)). injection E as <- <-. cbn.
  unfold read_at in Hp, Hm. destruct (ns !! "port") as [[]|]; try done. injection Hp as ->.
  destruct (ns !! "mode") as [[]|]; try done. by eexists.
Qed.

(** A text option that is given once has the text the wrapper finds. *)
Lemma recorded_text p xs argv name o choices default required :
  wf_parser p = true → Forall (meaningful p) xs → spells xs argv → NoDup (map gift_name xs) →
  o ∈ Argparse.options p → o_name o = name → o_action o = Store Text choices default required → name ∈ map gift_name xs →
  ∃ text, argument_value argv name = Some text ∧ receive (defaults p) xs !! dest name = Some (AText text)
    ∧ match choices with Some cs => text ∈ cs | None => True end.
Proof.
  intros Hp Hm Hs Hn Ho <- Ha Hin. apply list_elem_of_fmap in Hin as (x & Ex & Hx).
  assert (∀ y, y ∈ xs → gift_name y = o_name o → ∃ text, g_text y = Some text ∧ g_value y = AText text
            ∧ match choices with Some cs => text ∈ cs | None => True end) as Hy.
  { intros y Hy Ey. rewrite Forall_forall in Hm. destruct (Hm y Hy) as [Hin Hv].
    assert (g_opt y = o) as E by (apply (dest_inj p Hp); [done..|unfold gift_name in Ey; by rewrite Ey]).
    rewrite E, Ha in Hv. destruct (g_text y) as [text|]; [|done]. destruct Hv as [[= <-] Hc]. by exists text. }
  destruct (Hy x Hx (eq_sym Ex)) as (text & Ht & Hv & Hc). exists text. split_and!; [| |done].
  - rewrite (argument_value_spells p (o_name o) xs argv); [by rewrite (first_text_unique _ _ x), Ht|done|by apply (wf_names p)|done..|].
    intros y Hiny Ey. destruct (Hy y Hiny Ey) as (? & -> & _). done.
  - rewrite Ex, (receive_given p _ xs x) by done. by rewrite Hv.
Qed.

Lemma exclusive_none p names : exclusive p = [] → exclusive_ok p names.
Proof. intros E a b _ _ Ha. rewrite E in Ha. by apply elem_of_nil in Ha. Qed.

(** What follows [--] is handed on to the gate as it is. *)
Lemma wrapper_line argv : ∃ ns a, parse_args run_logged_parser ("--" :: argv) = Parsed ns ∧ wrapper_arguments ns = Some a
  ∧ log_file a = None ∧ harness_arguments a = argv.
Proof.
  assert (∀ l, map word_text (map Plain l) = l) as Hl by (intros l; induction l as [|x l IH]; cbn; congruence).
  eexists _, _. split; [reflexivity|]. split; [reflexivity|]. split; [done|]. cbn. apply Hl.
Qed.

(** C37: The wrapper reads the mode and the port from the gate's arguments by itself, before
    the gate parses them.  When the arguments spell out their options, each at most once,
    both agree: the gate runs in the mode, and on the port, that the transcript names.
    The arguments reach it unchanged when they follow [--]. *)
Theorem recorded_as_run root xs argv : let p := m9_parser root in
  Forall (meaningful p) xs → spells xs argv → complete p xs → NoDup (map gift_name xs) →
  ∃ ns args directory, parse_args p argv = Parsed ns ∧ m9_arguments ns = Some (args, directory)
    ∧ mode_of (recorded_mode argv) = Some (arg_mode args)
    ∧ (arg_port args ≠ "" → recorded_port argv = arg_port args)
    ∧ ∃ ns' a, parse_args run_logged_parser ("--" :: argv) = Parsed ns' ∧ wrapper_arguments ns' = Some a ∧ harness_arguments a = argv.
Proof.
  intros p Hm Hs Hc Hn. assert (wf_parser p = true) as Hp by (vm_compute; reflexivity).
  assert (parse_args p argv = Parsed (receive (defaults p) xs)) as E.
  { apply parse_spells; [done..|by apply exclusive_none]. }
  destruct (m9_arguments_total _ _ _ E) as [[args directory] Ha]. exists (receive (defaults p) xs), args, directory.
  destruct (m9_mode _ _ _ Ha) as (name & Hname & Hmode & Hport). split_and!; [done..| | |].
  - set (o := {| o_name := "--mode"; o_action := Store Text (Some (map fst mode_names)) ANone true |}).
    assert (o ∈ Argparse.options p) as Ho by (by repeat constructor).
    destruct (recorded_text p xs argv "--mode" o (Some (map fst mode_names)) ANone true) as (text & Ht & Hv & Hin);
      [done..|exact (Hc o Ho eq_refl)|].
    change (dest "--mode") with "mode" in Hv. rewrite Hv in Hname. injection Hname as <-.
    unfold recorded_mode. rewrite Ht. destruct text; [by vm_compute in Hmode|done].
  - intros Hne. set (o := optional "--port" Text (AText "COM14")). assert (o ∈ Argparse.options p) as Ho by (by repeat constructor).
    unfold recorded_port. destruct (decide ("--port" ∈ map gift_name xs)) as [Hin|Hin].
    + destruct (recorded_text p xs argv "--port" o None (AText "COM14") false) as (text & Ht & Hv & _); [done..|].
      change (dest "--port") with "port" in Hv. rewrite Hv in Hport. injection Hport as ->. rewrite Ht. by destruct (arg_port args).
    + pose proof (receive_absent p (defaults p) xs o Hp Hm Ho Hin) as Hv. rewrite (defaults_lookup p Hp o Ho) in Hv.
      change (dest (o_name o)) with "port" in Hv. rewrite Hv in Hport. injection Hport as <-.
      rewrite (argument_value_spells p "--port" xs argv), first_text_absent; try done.
      intros y Hy Ey. exfalso. apply Hin. rewrite <- Ey. by apply (list_elem_of_fmap_2 gift_name).
  - destruct (wrapper_line argv) as (ns' & a & ? & ? & _ & ?). by exists ns', a.
Qed.

(** ** Samples *)

Definition combined_line : list string :=
  ["--port"; "COM3"; "--artifact-dir=out"; "--expect-mipi-profile"; "jd9365"; "--timeout"; "1800"; "--soak=120"].

(** A line of the combined test is accepted and read. *)
Lemma accepted_lines_readable_witness :
  ∃ ns, parse_args (parser_of "/r" "/p" TestM6Combined) combined_line = Parsed ns
    ∧ readable TestM6Combined ns
    ∧ m6_combined_arguments ns = Some ("COM3", 1, float_of_ratio 1800 1, "out", (false, 120, ExpectJd9365)).
Proof.
  destruct (parse_args (parser_of "/r" "/p" TestM6Combined) combined_line) as [ns| |e] eqn:E;
    [|vm_compute in E; discriminate E..].
  exists ns. split; [reflexivity|]. split.
  - exact (accepted_lines_readable "/r" "/p" TestM6Combined combined_line ns E).
  - vm_compute in E. injection E as <-. vm_compute. reflexivity.
Defined.

(** Both expectations at once, a missing port, a boot count that is not a number and a
    profile that there is none of are refused. *)
Example refused_lines :
  let refuses x argv := match parse_args (parser_of "/r" "/p" x) argv with Refused e => Some e | _ => None end in
  (refuses TestM6Combined (combined_line ++ ["--expect-mipi-adapter=absent"]), refuses TestM4 ["--artifact-dir"; "out"],
   refuses TestM2 ["--port=COM3"; "--boots"; "two"], refuses TestM8 ["--port=COM3"; "--artifact-dir=o"; "--expect-mipi-profile=x"])
  = (Some (NotAllowedWith "--expect-mipi-adapter" "--expect-mipi-profile"), Some (MissingRequired ["--port"]),
     Some (InvalidValue "--boots" "two"), Some (InvalidChoice "--expect-mipi-profile" "x")).
Proof. cbv zeta. by_compute. Qed.

Definition sample_settings : list setting := [SetMode Soak; SetSnapshot 1; SetSoak 900; SetMode Snapshot].
Definition sample_settings_line : list string :=
  ["--mode"; "soak"; "--snapshot-seconds=1"; "--soak-seconds"; "+9_00"; "--mode=snapshot"].

Lemma m9_settings_round_trip_witness :
  ∃ ns, parse_args (m9_parser "/r") sample_settings_line = Parsed ns
    ∧ m9_arguments ns = Some (
        {| arg_port := "COM14"; arg_mode := Snapshot; point_timeout_ms := 60000; soak_seconds := 900; sample_seconds := 15;
           disconnect_seconds := 600; snapshot_seconds := 1; stress_cycles := 3 |}, "/r/out/m9").
Proof.
  assert (gives sample_settings sample_settings_line) as Hg.
  { apply (gives_apart (SetMode Soak) _ "soak"); [reflexivity|reflexivity|].
    apply (gives_joined (SetSnapshot 1) _ "1"); [reflexivity|].
    apply (gives_apart (SetSoak 900) _ "+9_00"); [reflexivity|reflexivity|].
    apply (gives_joined (SetMode Snapshot) _ "snapshot"); [reflexivity|]. constructor. }
  exact (proj1 (m9_settings_round_trip "/r" sample_settings sample_settings_line Hg) Soak (list_elem_of_here _ _)).
Defined.

Definition sample_line : list string := ["--mode"; "snapshot"; "--snapshot-seconds=1"].
Definition sample_gifts : list gift := [
  {| g_opt := {| o_name := "--mode"; o_action := Store Text (Some (map fst mode_names)) ANone true |};
     g_text := Some "snapshot"; g_value := AText "snapshot" |};
  {| g_opt := optional "--snapshot-seconds" Int (AInt 2); g_text := Some "1"; g_value := AInt 1 |}].

Lemma sample_meaningful root : Forall (meaningful (m9_parser root)) sample_gifts.
Proof.
  repeat constructor; cbn; try reflexivity; by_compute.
Defined.

(** An abbreviated option is not found by the wrapper, and of two it finds the first. *)
Example recorded_otherwise :
  let mode argv := match parse_args (m9_parser "/r") argv with Parsed ns => read_at as_text ns "mode" | _ => None end in
  (mode ["--mod=soak"], recorded_mode ["--mod=soak"],
   mode ["--mode"; "soak"; "--mode=touch"], recorded_mode ["--mode"; "soak"; "--mode=touch"])
  = (Some "soak", "unknown", Some "touch", "soak").
Proof. cbv zeta. by_compute. Qed.

Lemma sample_spells : spells sample_gifts sample_line.
Proof.
  unfold sample_gifts, sample_line. apply spells_apart; [reflexivity|reflexivity|].
  apply (spells_joined {| g_opt := optional "--snapshot-seconds" Int (AInt 2); g_text := Some "1"; g_value := AInt 1 |} [] "1" []).
  - reflexivity.
  - constructor.
Defined.

Lemma sample_complete root : complete (m9_parser root) sample_gifts.
Proof.
  intros o Ho. repeat (apply elem_of_cons in Ho as [->|Ho]; [intros H; first [discriminate H|left]|]). by apply elem_of_nil in Ho.
Defined.

Lemma recorded_as_run_witness :
  ∃ ns args directory, parse_args (m9_parser "/r") sample_line = Parsed ns ∧ m9_arguments ns = Some (args, directory)
    ∧ mode_of (recorded_mode sample_line) = Some (arg_mode args)
    ∧ (arg_port args ≠ "" → recorded_port sample_line = arg_port args)
    ∧ ∃ ns' a, parse_args run_logged_parser ("--" :: sample_line) = Parsed ns' ∧ wrapper_arguments ns' = Some a
      ∧ harness_arguments a = sample_line.
Proof.
  apply (recorded_as_run "/r" sample_gifts sample_line);
    [apply sample_meaningful|exact sample_spells|apply sample_complete|by apply (bool_decide_unpack _)].
Defined.
