(* ===== verification/CommandLines.v ===== *)
(** * The M9 gate and its logging wrapper, as they are started

    The gate from its command line, and the wrapper around the gate. *)

From S2P Require Import Prelude PyBytes PyStr PyFloat Utf8 Sha256 Argparse Io Session Payload.
From S2P Require Import Verdicts Gate GateBoard RunLog Scripts.

(** ** The M9 gate from its command line *)

(** What [argparse] prints: the help, and the usage with an error. *)
Record texts := { help_text : string; error_text : string → string; describe : perror → string }.

(** [parser.error(message)] *)
Definition usage_error {W} (u : texts) (message : string) : io W Z :=
  print_err (error_text u message) ;; mret 2.

Section M9.
Context {W : Type} (H : host W) (env : environment) (fuel : nat).

(** The script's exit status; [files_of] is the content of an artifact directory. *)
Definition m9_command (u : texts) (root : string) (files_of : string → artifacts) (argv : list string) : io W Z :=
  match parse_args (m9_parser root) argv with
  | HelpShown => print (help_text u) ;; mret 0
  | Refused e => usage_error u (describe u e)
  | Parsed ns =>
      match m9_arguments ns with
      | None => raise AttributeError "namespace"
      | Some (args, directory) =>
          match validate_arguments args with
          | Err e => usage_error u (exn_msg e)
          | Ok _ => Gate.main H env fuel args (files_of directory)
          end
      end
  end.

End M9.

(** ** The M9 gate *)

(** The command line asks for this run, within the documented ranges. *)
Definition accepted (root : string) (argv : list string) (args : arguments) (directory : string) : Prop :=
  ∃ ns, parse_args (m9_parser root) argv = Parsed ns ∧ m9_arguments ns = Some (args, directory)
    ∧ validate_arguments args = Ok tt.

(** What a run that was accepted may have as arguments. *)
Definition in_range (args : arguments) : Prop :=
  5000 ≤ point_timeout_ms args ≤ 120000 ∧ 60 ≤ soak_seconds args ≤ 900 ∧ 5 ≤ sample_seconds args ≤ 60
  ∧ sample_seconds args ≤ soak_seconds args ∧ 5 ≤ disconnect_seconds args ≤ 900 ∧ 1 ≤ snapshot_seconds args ≤ 30
  ∧ 1 ≤ stress_cycles args ≤ 10.

Lemma validate_in_range args : validate_arguments args = Ok tt ↔ in_range args.
Proof.
  unfold validate_arguments, in_range. rewrite !raise_when_ok, raise_when_unit. lia.
Qed.

Section Command.
Context {W : Type} (H : host W) (env : environment) (fuel : nat) (u : texts) (root : string) (files_of : string → artifacts)
  (argv : list string).

(** A command line that is not accepted. *)
Definition turned_away (r : result Z) (s s' : st W) : Prop :=
  world s' = world s
  ∧ (parse_args (m9_parser root) argv = HelpShown ∧ r = Ok 0
     ∨ parse_args (m9_parser root) argv ≠ HelpShown ∧ r = Ok 2 ∧ ∀ args directory, ¬ accepted root argv args directory).

Lemma m9_command_cases s :
  (∃ r s', m9_command H env fuel u root files_of argv s = Some (r, s') ∧ turned_away r s s')
  ∨ ∃ args directory, accepted root argv args directory
      ∧ m9_command H env fuel u root files_of argv s = Gate.main H env fuel args (files_of directory) s.
Proof.
  unfold m9_command, turned_away, accepted. destruct (parse_args (m9_parser root) argv) as [ns| |e] eqn:Ep.
  - destruct (m9_arguments_total _ _ _ Ep) as [[args directory] Ha]. rewrite Ha.
    destruct (validate_arguments args) as [[]|e] eqn:Ev.
    + right. exists args, directory. split; [by exists ns|done].
    + left. eexists _, _. split; [reflexivity|]. split; [done|]. right. split; [done|]. split; [done|].
      intros args' directory' (ns' & [= <-] & Ha' & Hv). congruence.
  - left. eexists _, _. split; [reflexivity|]. split; [done|]. by left.
  - left. eexists _, _. split; [reflexivity|]. split; [done|]. right. split; [done|]. split; [done|].
    by intros args' directory' (ns' & [=] & _).
Qed.

End Command.

(** C35: Started from its command line, the M9 gate always ends, on a host whose clock
    advances and with fuel for a wait of a thousand seconds.  A line that asks for help gives
    status 0, and a line that is refused, or whose numbers are out of their ranges, gives
    status 2; neither touches a device.  Any other line gives arguments in range, and if the
    status is then 0, the run has gathered, in order, the evidence for these arguments that
    a pass rests on: the replies of the mode's commands, and in every mode but the snapshot
    before them the verified boot, the identity and the settled touch controller. *)
Theorem m9_command_line {W} (H : host W) `{!TimedHost H} env fuel u root files_of argv s : enough H fuel →
  wp (m9_command H env fuel u root files_of argv) (λ r s',
    turned_away root argv r s s'
    ∨ ∃ args directory, accepted root argv args directory ∧ in_range args
        ∧ (r = Ok 0 → evidence H env fuel args (files_of directory) (world s) (world s'))) s.
Proof.
  intros Hf. unfold wp. destruct (m9_command_cases H env fuel u root files_of argv s) as [(r & s' & -> & Hr)|(args & directory & Ha & ->)].
  { by left. }
  destruct (gate_ends H env fuel Hf args (files_of directory) s) as (r & s' & E). rewrite E. right. exists args, directory.
  split; [done|]. split; [|intros ->; by apply gate_evidence]. destruct Ha as (_ & _ & _ & Hv). by apply validate_in_range.
Qed.

(** ** The wrapper around the gate *)

(** The status of a process whose program came to [r]. *)
Definition status (r : result Z) : Z := match r with Ok code => code | Err _ => 1 end.

Section Sealed.
Context {W : Type} (H : run_host W) `{!LoggedHost H}.
Context {B : Type} (G : host B) (env : environment) (gate_fuel : nat) (u : texts) (root : string) (files_of : string → artifacts).
(** The board and its port, in the wrapper's world *)
Context (board : W → B).

(** What the gate's process comes to when it is started in [w0]. *)
Definition gate_run (argv : list string) (w0 : W) : option (result Z * st B) :=
  m9_command G env gate_fuel u root files_of argv (mkSt (board w0) "" "").

(** The processes that were started as the gate's script, and waited for, were the gate, on
    the board as it was when they were started. *)
Definition gates_ran (p : place) (w : W) : Prop :=
  ∀ past argv w0 code later, history w = past ++ [Started (gate_command p argv) w0; Returned code] ++ later →
  ∃ r s1, gate_run argv w0 = Some (r, s1) ∧ code = status r.

(** From [w] to [w'] one child was started, in [w0], with the gate's command line, and
    returned 0.  The transcript is new; it held the description of the run when the child
    was started; it is on disk with its digest, and has all that the child printed. *)
Definition sealed (p : place) (a : run_arguments) (w w0 w' : W) : Prop :=
  history w' = history w ++ [Started (gate_command p (harness_arguments a)) w0; Returned 0]
  ∧ ∃ log metadata x more back, content w !! log = None ∧ begun H log metadata w w0 ∧ content w' !! log = Some x
    ∧ content w' !! sidecar log = Some (encode (sidecar_text (sha256_hex x) log))
    ∧ x = marker "RUN-BEGIN" metadata ++ more ++ back ∧ output w' = output w ++ more.

Lemma logged_zero p a s s' : logged_run H p a s s' 0 → ∃ w0, sealed p a (world s) w0 (world s').
Proof.
  intros (log & run_id & metadata & more & shown & error & end_utc & duration & o & _ & Ha & _ & Ho & Hout & Hn & Hx & Hd & _).
  destruct Ha as [(-> & -> & _ & w0 & Hb & Hr)|[(_ & _ & _ & Hc)|(_ & _ & Hc & _)]]; [|lia|lia]. rewrite Ho in Hr.
  exists w0. split; [done|]. eexists log, metadata, _, more, _. split_and!; [exact Hn|exact Hb|exact Hx|exact Hd|reflexivity|exact Hout].
Qed.


End Sealed.

(** ** Samples *)

Definition sample_texts : texts := {| help_text := "usage: ..."; error_text := λ m, "error: " +:+ m; describe := λ _, "" |}.

(** Lines that are refused, shortened, or given twice. *)
Example m9_lines :
  let run argv := (λ o, (o.1, world o.2)) <$>
    m9_command silent_host sample_environment 0 sample_texts "/r" (λ _, no_artifacts) argv (mkSt 7 "" "") in
  (run ["--help"], run [], run ["--mode=fast"], run ["--mode"; "soak"; "--soak-seconds"; "1e3"],
   run ["--mode"; "soak"; "--soak-seconds=59"], run ["--mode"; "soak"; "--s=99"], run ["--mode"; "soak"; "extra"])
  = (Some (Ok 0, 7), Some (Ok 2, 7), Some (Ok 2, 7), Some (Ok 2, 7), Some (Ok 2, 7), Some (Ok 2, 7), Some (Ok 2, 7)).
Proof. cbv zeta. by_compute. Qed.

(** [float] reads [nan], for which both comparisons of usb-reset-arm.py with the ends of
    its range are false. *)
Example nan_timeout :
  match parse_args usb_arm_parser ["--port"; "COM1"; "--timeout"; "nan"] with
  | Parsed ns =>
      match ns !! "timeout" with
      | Some (AFloat t) => (flt t (float_of_ratio 1 1), flt (float_of_ratio 60 1) t)
      | _ => (true, true)
      end
  | _ => (true, true)
  end = (false, false).
Proof. by_compute. Qed.

(** On the board that answers, the snapshot is run from its command line and passes. *)
Lemma m9_command_line_witness :
  let run := m9_command answering_board sample_environment sample_fuel sample_texts "/r" (λ _, no_artifacts) sample_line in
  fst <$> run board_start = Some (Ok 0)
  ∧ wp run (λ r s',
      turned_away "/r" sample_line r board_start s'
      ∨ ∃ args directory, accepted "/r" sample_line args directory ∧ in_range args
          ∧ (r = Ok 0 → evidence answering_board sample_environment sample_fuel args no_artifacts
                          (world board_start) (world s'))) board_start.
Proof.
  cbv zeta. split; [vm_compute; reflexivity|].
  exact (m9_command_line answering_board sample_environment sample_fuel sample_texts "/r" (λ _, no_artifacts) sample_line
           board_start board_enough).
Defined.

(** The wrapper around this run: it returns 0, and its child was the gate. *)
Definition sealed_arguments : run_arguments := {| log_file := None; RunLog.remainder := "--" :: sample_line |}.
Abbreviation passing_run := (sample_host sample_script (Ok tt) 0).


(** The children of a run that returns: one, started as the gate and waited for. *)
Definition one_gate (argv : list string) (l : list (event sample)) : bool :=
  match l with [Started command _; Returned 0] => bool_decide (command = gate_command sample_place argv) | _ => false end.

Abbreviation sample_gate := (gate_run answering_board sample_environment sample_fuel sample_texts "/r" (λ _, no_artifacts)
  (λ _ : sample, world board_start)).
Abbreviation sample_gates_ran := (gates_ran passing_run answering_board sample_environment sample_fuel sample_texts "/r"
  (λ _, no_artifacts) (λ _ : sample, world board_start)).

Lemma sample_gates w : one_gate sample_line (past w) = true → sample_gates_ran sample_place w.
Proof.
  assert (∀ w0, ∃ s1, sample_gate sample_line w0 = Some (Ok 0, s1)) as Hrun.
  { intros w0. destruct (sample_gate sample_line w0) as [[r s1]|] eqn:G.
    - assert (fst <$> sample_gate sample_line w0 = Some (Ok 0)) as F by (vm_compute; reflexivity). rewrite G in F.
      injection F as ->. by exists s1.
    - assert (sample_gate sample_line w0 ≠ None) as F by (vm_compute; discriminate). by destruct (F G). }
  intros Hw before argv w0 code later Hh. change (past w = before ++ [Started (gate_command sample_place argv) w0; Returned code] ++ later) in Hh.
  unfold one_gate in Hw. destruct (past w) as [|[command w1|?] [|[|c] [|]]]; try discriminate Hw.
  all: destruct c; try discriminate Hw. apply bool_decide_eq_true in Hw. subst command.
  destruct before as [|x [|y [|z before]]]; cbn in Hh; try discriminate Hh.
  injection Hh as Hl -> Hc Hrest. subst. destruct (Hrun w0) as [s1 Hs]. exists (Ok 0), s1. split; [exact Hs|reflexivity].
Qed.

